(* ===== verification/_CoqProject ===== *)
-Q . S2P
Prelude.v
CLib.v
Heap.v
Disk.v
Ata.v
PathParser.v
FatTypes.v
FatTable.v
FatData.v
FatDir.v
Fat16.v
FatFiles.v
FatFrame.v
Mount.v
Vfs.v
FileIO.v
Gdt.v
Terminal.v
Paging.v
Task.v
UserMem.v
Kernel.v
Keyboard.v
Process.v
Load.v
Syscall.v
Readline.v
FileCalls.v
Idt.v
Boot.v
