(* ===== verification/Prelude.v ===== *)
(** * A verified model of the kernel: heap, paging, tasks, processes, system
    calls, keyboard, screen, disk, FAT16 and files

    The program is a small 32-bit kernel with a FAT16 file manager (sources
    below src/src/).  This library translates its C code into executable
    definitions, one file per component, and proves what the components
    promise to each other and to the programs they run.

    ** The parts and how they interact

    The bottom is hardware: the drive behind its ports, physical memory with
    the page tables the processor walks, the text screen, the interrupt
    controllers.  The heap (memory/heap) hands out blocks; paging builds
    address spaces in them; tasks own an address space and a set of saved
    registers; processes own a task, a program, a stack and a keyboard
    queue.  Disk streams turn sectors into bytes, the FAT16 driver turns
    bytes into files, and file.c puts descriptors and paths on top.  System
    calls connect programs with all of it: the arguments are on the stack of
    the program, data is copied through a page mapped into its address space.

    ** Files of the development and the code they model

    - [Prelude] : outcomes, the state monad with its weakest preconditions
      [wp], arrays, 8/16/32-bit integers, byte buffers; status.h, config.h.
    - [CLib] : string/string.c, memory/memory.c.
    - [Heap] : memory/heap/heap.c and kheap.c.  The class [Allocator] has the
      operations, [AllocatorSpec] the laws that every client is proved
      against; [KHeap] is the instance.
    - [Disk] : disk/disk.c, disk/streamer.c, over the classes [BlockDevice]
      and [BlockDeviceSpec]; [Ram] is a memory-backed instance.
    - [Ata] : the port-level transfer of disk/disk.c, against a protocol
      machine of the drive (BSY, DRQ, a write cache and the medium) that
      allows an access only in the states in which ATA does; the driver is
      an instance of [BlockDeviceSpec].
    - [PathParser] : fs/pparser.c.
    - [FatTypes], [FatTable], [FatData], [FatDir], [Fat16] : fs/fat/fat16.c
      (on-disk structures; the allocation table; cluster data; names and
      directories; the operations of the file system).  [FatFiles],
      [FatFrame], [Mount] hold further theorems on them: enumeration, what a
      write leaves alone, mounting.
    - [Vfs], [FileIO] : fs/file.c over the class [Filesystem], the table of
      operations of a file system, and its composition with FAT16.
    - [Gdt] : gdt/gdt.c.   [Idt] : the table of idt/idt.c.
    - [Terminal] : the screen of kernel.c.
    - [Paging] : memory/paging/paging.c, on physical memory as a store of
      tables; [walk] and [translate] are the processor's address translation.
    - [Task] : task/task.c, the timer interrupt [int20h_handler], and the way
      back to the program: [task_return] of task/task.asm and [int20h] of
      idt/idt.asm, on the registers of the processor.
    - [UserMem] : the functions of task/task.c that copy between the kernel
      and a program; every access goes through [translate].
    - [Kernel] : the state of the whole kernel, a record of the parts; the
      code of a part runs in it through [focus].  task/process.h.
    - [Keyboard] : keyboard/keyboard.c, keyboard/classic.c, [int21h_handler].
    - [Process] : task/process.c.   [Load] : the theorems on [process_load],
      which joins the file layer, the heap, the tasks and the paging.
    - [Syscall] : isr80h/*.c, and registration, dispatch and entry of
      interrupt 0x80 in idt/idt.c.
    - [Readline] : the theorems on [isr80h_command6_readline].
    - [FileCalls] : the system calls open, read and close on a FAT16 volume,
      and a program that makes the three; its own stores go through the
      directory in CR3.
    - [Boot] : kernel_main of kernel.c and task/tss.h, over a machine that adds
      to the kernel what only the start touches.

    ** How the state corresponds to the code

    Each C function is the definition of the same name; a loop is a Fixpoint
    named after it.  Global variables are the fields of the record of their
    component.  A pointer is an address; the objects the kernel allocates
    (tasks, processes, page tables, chunks) are finite maps from addresses,
    from which [kfree] deletes, so a use after free has the outcome [Ub].  An
    array is a list, and an access outside it is [Ub]; [panic] and loops that
    never end are [Hang].  Every theorem [wp m Q s] therefore includes that
    the code has defined behaviour and returns.  Integers carry their
    wrap-around ([u8], [u16], [u32], [i8], [i32]).

    Code that is not C is modelled by what it does to this state: the segment
    registers, the CR3 register, the port writes ([port_log]), and [hlt] with
    the interrupts that follow it (the field [irqs], one batch per [hlt]).

    ** What the theorems show

    - Files: data written through fopen/fwrite/fclose is read back, as far as
      the driver does not take a cluster number for a FAT12 mark, other
      files keep their bytes, deletion frees the clusters, mounting reads the
      disk's header, the descriptor table stays well formed, names and paths
      round-trip; which writes fit the streams' sector buffer.
    - Heap and drive: first fit, disjointness, exhaustion; sectors are read
      back as written, and when the flush gets them to the medium.
    - Address spaces: creation, mapping, copying and freeing, each with the
      translation of every address before and after, and that no other
      address space changes.
    - Tasks: round robin over any run of timer interrupts and of calls that
      keep the list; a preempted program resumes with the registers that were
      saved, but for [ebp] and the flags, which task.asm replaces; creation and removal with their links and blocks.
    - Processes: the memory a program sees, loading a program from the disk
      and what is left of it when the file does not exist, fork, exit.
    - The start: from a FAT16 disk with shell.bin, [kernel_main] reaches the
      first instruction of the shell; without shell.bin it halts.
    - System calls: from the interrupt to the return to the program, for sum,
      print, readline (against a line editor on the keys typed), exit, and
      open, read and close of a file; the dispatch table; the copying of
      strings and buffers.
    - Keyboard queue as a FIFO, segment descriptors, interrupt gates and the
      programming of the interrupt controllers, the screen.
    - Errors: theorems state the failing branches with their results, and
      where the code goes wrong (a link left dangling, a read behind a
      table, a leak) they prove that it does.

    ** Bounds and fuel

    Loops over counters have the count of the code as structural argument.
    The walk over a cluster chain has 65536 steps, one per FAT16 entry; it
    stops on any table because freed entries read 0.  The heap has 25600
    blocks; [kernel_main] needs about 2100 and those of the shell, so the
    theorem takes shells of up to 20000 blocks.  [readline] has one step
    per batch of interrupts and one more, since every turn takes a batch.
    Path components are bounded by the length of the path.

    ** Not modelled

    - The assembly (boot/, *.asm): the boot sector, the entry stubs of the
      interrupts other than the timer's; and the user programs in
      src/programs/.  [gdt_load], [tss_load] and [enable_paging] are the
      loading of a register.
    - The protection bits of page-table entries: a program's access is
      translated, but not checked for the user and write bits.
    - Nothing of the C code is left out; the system calls write, delete,
      readdir, fork and wait have no theorem of their own from the interrupt
      on, the functions that they call have.
    - Interrupts arrive only where the kernel enables them, that is while
      [readline] waits or a program runs; the code runs on one processor. *)
From Stdlib Require Import ZArith Lia.
From stdpp Require Import base list gmap numbers option list_numbers.
Local Open Scope Z_scope.

(** ** Outcomes of C code

    [Ok] is a normal return.  [Ub] is an access outside the object the code
    works on (the C program has no defined behaviour from there on).  [Hang]
    is a loop that never ends: [panic], a polling loop whose device never
    answers, or a fuelled loop that ran out of fuel. *)
Inductive out (A : Type) : Type :=
| Ok (a : A)
| Ub
| Hang.
Arguments Ok {A} _.
Arguments Ub {A}.
Arguments Hang {A}.

#[global] Instance out_ret : MRet out := fun A a => Ok a.
#[global] Instance out_bind : MBind out := fun A B f m =>
  match m with Ok a => f a | Ub => Ub | Hang => Hang end.

(** ** The state monad of the kernel's stateful components *)
Definition M (S A : Type) : Type := S -> out (A * S).

#[global] Instance M_ret {S} : MRet (M S) := fun A a s => Ok (a, s).
#[global] Instance M_bind {S} : MBind (M S) := fun A B f m s =>
  match m s with Ok (a, s') => f a s' | Ub => Ub | Hang => Hang end.

Definition get {S} : M S S := fun s => Ok (s, s).
Definition gets {S A} (f : S -> A) : M S A := fun s => Ok (f s, s).
Definition modify {S} (f : S -> S) : M S unit := fun s => Ok (tt, f s).
Definition ub {S A} : M S A := fun _ => Ub.
Definition hang {S A} : M S A := fun _ => Hang.
Definition lift_out {S A} (o : out A) : M S A := fun s =>
  match o with Ok a => Ok (a, s) | Ub => Ub | Hang => Hang end.

(** Code of a component on the state of the whole: [view] selects the part
    the component works on and [update] puts it back. *)
Definition focus {S T A} (view : S -> T) (update : S -> T -> S) (m : M T A) : M S A := fun s =>
  match m (view s) with Ok (a, t) => Ok (a, update s t) | Ub => Ub | Hang => Hang end.

(** ** Arrays

    A C array is the list of its cells; an access outside it is [Ub]. *)
Definition aget {A} (l : list A) (i : Z) : out A :=
  if i <? 0 then Ub else match l !! Z.to_nat i with Some a => Ok a | None => Ub end.
Definition aset {A} (l : list A) (i : Z) (a : A) : out (list A) :=
  if (0 <=? i) && (i <? Z.of_nat (length l)) then Ok (<[Z.to_nat i := a]> l) else Ub.

Declare Scope kernel_scope.
Delimit Scope kernel_scope with kernel.
Notation "l .[ i ]" := (aget l i) (at level 1, left associativity, format "l .[ i ]") : kernel_scope.
Notation "l .[ i <- v ]" := (aset l i v)
  (at level 1, left associativity, format "l .[ i  <-  v ]") : kernel_scope.

Lemma aget_ok {A} (l : list A) i a :
  0 <= i -> l !! Z.to_nat i = Some a -> aget l i = Ok a.
Proof. intros H1 H2. unfold aget. rewrite H2. destruct (Z.ltb_spec i 0); [lia|done]. Qed.

Lemma aget_inv {A} (l : list A) i a :
  aget l i = Ok a -> 0 <= i < Z.of_nat (length l) /\ l !! Z.to_nat i = Some a.
Proof.
  unfold aget. destruct (Z.ltb_spec i 0); [done|].
  destruct (l !! Z.to_nat i) eqn:E; [|done]. intros [= ->].
  apply lookup_lt_Some in E as ?. split; [lia|done].
Qed.

Lemma aset_ok {A} (l : list A) i a :
  0 <= i < Z.of_nat (length l) -> aset l i a = Ok (<[Z.to_nat i := a]> l).
Proof.
  intros [H1 H2]. unfold aset.
  apply Z.leb_le in H1 as ->. apply Z.ltb_lt in H2 as ->. done.
Qed.

Lemma aset_ub {A} (l : list A) i a :
  i < 0 \/ Z.of_nat (length l) <= i -> aset l i a = Ub.
Proof.
  intros H. unfold aset.
  destruct (Z.leb_spec 0 i), (Z.ltb_spec i (Z.of_nat (length l))); [lia|done..].
Qed.

Lemma aset_app {T} (pre suf : list T) x y :
  aset (pre ++ x :: suf) (Z.of_nat (length pre)) y = Ok (pre ++ y :: suf).
Proof.
  rewrite aset_ok by (rewrite length_app; simpl; lia). f_equal.
  rewrite Nat2Z.id, insert_app_r_alt by lia. by rewrite Nat.sub_diag.
Qed.

(** ** Total-correctness weakest preconditions

    [wp m Q s] says that [m] started in [s] returns normally, with a result
    and a final state in [Q]: it rules out [Ub] and [Hang]. *)
Definition wp {S A} (m : M S A) (Q : A -> S -> Prop) (s : S) : Prop :=
  match m s with Ok (a, s') => Q a s' | _ => False end.

Create HintDb kdb.

Section wp.
Context {S : Type}.

Lemma wp_iff {A} (m : M S A) Q s :
  wp m Q s <-> exists a s', m s = Ok (a, s') /\ Q a s'.
Proof.
  unfold wp. split.
  - destruct (m s) as [[a s']| |]; try done. eauto.
  - intros (a & s' & -> & H). exact H.
Qed.

Lemma wp_ret {A} (a : A) (Q : A -> S -> Prop) s : Q a s -> wp (mret a) Q s.
Proof. done. Qed.

Lemma wp_bind {A B} (m : M S A) (f : A -> M S B) Q s :
  wp m (fun a s' => wp (f a) Q s') s -> wp (mbind f m) Q s.
Proof. unfold wp, mbind, M_bind. by destruct (m s) as [[a s']| |]. Qed.

Lemma wp_bind_inv {A B} (m : M S A) (f : A -> M S B) Q s :
  wp (mbind f m) Q s -> wp m (fun a s' => wp (f a) Q s') s.
Proof. unfold wp, mbind, M_bind. by destruct (m s) as [[a s']| |]. Qed.

Lemma wp_mono {A} (m : M S A) (Q Q' : A -> S -> Prop) s :
  wp m Q s -> (forall a s', Q a s' -> Q' a s') -> wp m Q' s.
Proof. unfold wp. destruct (m s) as [[a s']| |]; naive_solver. Qed.

Lemma wp_step {A B} (m : M S A) (f : A -> M S B) (P : A -> S -> Prop) Q s :
  wp m P s -> (forall a s', P a s' -> wp (f a) Q s') -> wp (mbind f m) Q s.
Proof. intros H1 H2. apply wp_bind. by eapply wp_mono. Qed.

Lemma wp_gets {A} (f : S -> A) (Q : A -> S -> Prop) s : Q (f s) s -> wp (gets f) Q s.
Proof. done. Qed.

Lemma wp_modify (f : S -> S) (Q : unit -> S -> Prop) s : Q tt (f s) -> wp (modify f) Q s.
Proof. done. Qed.

Lemma wp_lift {A} (o : out A) (a : A) (Q : A -> S -> Prop) s :
  o = Ok a -> Q a s -> wp (lift_out o) Q s.
Proof. by intros ->. Qed.

Lemma wp_focus {T A} (view : S -> T) update (m : M T A) (Q : A -> S -> Prop) s :
  wp m (fun a t => Q a (update s t)) (view s) -> wp (focus view update m) Q s.
Proof. unfold wp, focus. by destruct (m (view s)) as [[a t]| |]. Qed.

(** After a prefix that returns, the rest decides. *)
Lemma wp_bind_ub {A B} (m : M S A) (f : A -> M S B) (P : A -> S -> Prop) s :
  wp m P s -> (forall a s', P a s' -> f a s' = Ub) -> mbind f m s = Ub.
Proof. unfold wp, mbind, M_bind. destruct (m s) as [[a s']| |]; naive_solver. Qed.

Lemma wp_bind_hang {A B} (m : M S A) (f : A -> M S B) (P : A -> S -> Prop) s :
  wp m P s -> (forall a s', P a s' -> f a s' = Hang) -> mbind f m s = Hang.
Proof. unfold wp, mbind, M_bind. destruct (m s) as [[a s']| |]; naive_solver. Qed.

Lemma wp_conj {A} (m : M S A) (Q Q' : A -> S -> Prop) s :
  wp m Q s -> wp m Q' s -> wp m (fun a s' => Q a s' /\ Q' a s') s.
Proof. unfold wp. by destruct (m s) as [[a s']| |]. Qed.
End wp.
#[export] Hint Resolve wp_ret wp_gets wp_modify : kdb.

(** ** Machine integers (i686: [int] is 32 bits, [char] is signed) *)
Definition u8 (x : Z) : Z := x mod 2 ^ 8.
Definition u16 (x : Z) : Z := x mod 2 ^ 16.
Definition u32 (x : Z) : Z := x mod 2 ^ 32.
Definition i8 (x : Z) : Z := (x + 2 ^ 7) mod 2 ^ 8 - 2 ^ 7.
Definition i32 (x : Z) : Z := (x + 2 ^ 31) mod 2 ^ 32 - 2 ^ 31.

Lemma u8_id x : 0 <= x < 2 ^ 8 -> u8 x = x.
Proof. apply Z.mod_small. Qed.
Lemma u16_id x : 0 <= x < 2 ^ 16 -> u16 x = x.
Proof. apply Z.mod_small. Qed.
Lemma u32_id x : 0 <= x < 2 ^ 32 -> u32 x = x.
Proof. apply Z.mod_small. Qed.
Lemma i8_id x : - 2 ^ 7 <= x < 2 ^ 7 -> i8 x = x.
Proof. intros. unfold i8. rewrite Z.mod_small; lia. Qed.
Lemma i32_id x : - 2 ^ 31 <= x < 2 ^ 31 -> i32 x = x.
Proof. intros. unfold i32. rewrite Z.mod_small; lia. Qed.
Lemma u8_range x : 0 <= u8 x < 256.
Proof. apply Z.mod_pos_bound. lia. Qed.
Lemma u16_range x : 0 <= u16 x < 65536.
Proof. apply Z.mod_pos_bound. lia. Qed.
Lemma u32_range x : 0 <= u32 x < 2 ^ 32.
Proof. apply Z.mod_pos_bound. lia. Qed.
Lemma i32_range x : - 2 ^ 31 <= i32 x < 2 ^ 31.
Proof. unfold i32. pose proof (Z.mod_pos_bound (x + 2 ^ 31) (2 ^ 32)). lia. Qed.
Lemma i32_u32 x : i32 (u32 x) = i32 x.
Proof. unfold i32, u32. by rewrite Zplus_mod_idemp_l. Qed.
Lemma u32_i32 x : u32 (i32 x) = u32 x.
Proof.
  unfold i32, u32. rewrite Zminus_mod_idemp_l. f_equal. lia.
Qed.

(** Masks and shifts by constants as division and modulo. *)
Lemma shiftr_div a n : 0 <= n -> Z.shiftr a n = a / 2 ^ n.
Proof. apply Z.shiftr_div_pow2. Qed.
Lemma land_ff a : Z.land a 0xFF = a mod 256.
Proof. exact (Z.land_ones a 8 ltac:(lia)). Qed.
Lemma land_f a : Z.land a 0x0F = a mod 16.
Proof. exact (Z.land_ones a 4 ltac:(lia)). Qed.
Lemma land_fff a : Z.land a 0xFFF = a mod 4096.
Proof. exact (Z.land_ones a 12 ltac:(lia)). Qed.
Lemma land_ffff a : Z.land a 0xFFFF = a mod 65536.
Proof. exact (Z.land_ones a 16 ltac:(lia)). Qed.

(** [zdm] is [lia] with division and modulo by constants. *)
Ltac zdm := Z.div_mod_to_equations; lia.

(** [mid] removes the wrap-arounds whose argument is in range. *)
Ltac mid1 := first
  [ rewrite i32_id by lia | rewrite u32_id by lia | rewrite u16_id by lia
  | rewrite u8_id by lia ].
Ltac mid := repeat mid1.

(** ** Status codes (src/status.h) *)
Definition PEACHOS_ALL_OK : Z := 0.
Definition EIO : Z := 1.
Definition EINVARG : Z := 2.
Definition ENOMEM : Z := 3.
Definition EBADPATH : Z := 4.
Definition EFSNOTUS : Z := 5.
Definition ERDONLY : Z := 6.
Definition EUNIMP : Z := 7.
Definition EISTKN : Z := 8.

(** ** Configuration constants (src/config.h) *)
Definition PEACHOS_HEAP_SIZE_BYTES : Z := 104857600.
Definition PEACHOS_HEAP_BLOCK_SIZE : Z := 4096.
Definition PEACHOS_HEAP_ADDRESS : Z := 0x01000000.
Definition PEACHOS_SECTOR_SIZE : Z := 512.
Definition PEACHOS_MAX_FILESYSTEMS : Z := 12.
Definition PEACHOS_MAX_FILE_DESCRIPTORS : Z := 512.
Definition PEACHOS_MAX_PATH : Z := 108.
Definition PEACHOS_MAX_ISR80H_COMMANDS : Z := 1024.
Definition PEACHOS_KEYBOARD_BUFFER_SIZE : Z := 1024.
Definition PEACHOS_MAX_PROCESSES : Z := 12.
Definition PEACHOS_PROGRAM_VIRTUAL_ADDRESS : Z := 0x400000.
Definition PEACHOS_USER_PROGRAM_STACK_SIZE : Z := 1024 * 16.
Definition PEACHOS_PROGRAM_VIRTUAL_STACK_ADDRESS_START : Z := 0x3FF000.
Definition PEACHOS_PROGRAM_VIRTUAL_STACK_ADDRESS_END : Z :=
  PEACHOS_PROGRAM_VIRTUAL_STACK_ADDRESS_START - PEACHOS_USER_PROGRAM_STACK_SIZE.
Definition KERNEL_CODE_SELECTOR : Z := 0x08.
Definition USER_DATA_SEGMENT : Z := 0x23.
Definition USER_CODE_SEGMENT : Z := 0x1b.

(** ** Byte buffers

    A buffer is the list of its bytes, each in [0, 256).  [splice l n l'] is
    the buffer [l] with [l'] stored at offset [n]. *)
Definition byte_ok (b : Z) : Prop := 0 <= b < 256.
Definition bytes_ok (l : list Z) : Prop := Forall byte_ok l.

Definition splice {A} (l : list A) (n : nat) (l' : list A) : list A :=
  take n l ++ l' ++ drop (n + length l') l.

Section splice.
Context {A : Type}.
Implicit Types l : list A.

Lemma length_splice l n l' :
  (n + length l' <= length l)%nat -> length (splice l n l') = length l.
Proof. intros. unfold splice. rewrite !length_app, length_take, length_drop. lia. Qed.

Lemma lookup_splice_in l n l' i :
  (n <= i < n + length l')%nat -> (n <= length l)%nat ->
  splice l n l' !! i = l' !! (i - n)%nat.
Proof.
  intros. unfold splice. rewrite lookup_app_r by (rewrite length_take; lia).
  rewrite length_take, lookup_app_l by lia. f_equal. lia.
Qed.

Lemma lookup_splice_out l n l' i :
  (i < n \/ n + length l' <= i)%nat -> (n <= length l)%nat ->
  splice l n l' !! i = l !! i.
Proof.
  intros [H|H] Hn; unfold splice.
  - rewrite lookup_app_l by (rewrite length_take; lia). by apply lookup_take_lt.
  - rewrite lookup_app_r by (rewrite length_take; lia).
    rewrite length_take, lookup_app_r by lia.
    rewrite lookup_drop. f_equal. lia.
Qed.

Lemma splice_nil l n : splice l n [] = l.
Proof. unfold splice. simpl. rewrite Nat.add_0_r. apply take_drop. Qed.

Lemma splice_app_l l1 l2 n l' :
  (n + length l' <= length l1)%nat -> splice (l1 ++ l2) n l' = splice l1 n l' ++ l2.
Proof.
  intros. unfold splice. rewrite take_app_le by lia. rewrite drop_app_le by lia.
  by rewrite <- !app_assoc.
Qed.

Lemma splice_app_r l1 l2 n l' :
  (length l1 <= n)%nat -> splice (l1 ++ l2) n l' = l1 ++ splice l2 (n - length l1) l'.
Proof.
  intros. unfold splice. rewrite take_app_ge by lia. rewrite drop_app_ge by lia.
  rewrite <- app_assoc. do 4 f_equal. lia.
Qed.

(** A store that runs over the seam of two lists. *)
Lemma splice_app_both l1 l2 n w w' :
  (n + length w = length l1)%nat -> splice (l1 ++ l2) n (w ++ w') = splice l1 n w ++ splice l2 0 w'.
Proof.
  intros. unfold splice. rewrite length_app, take_app_le by lia. rewrite drop_app_ge by lia.
  rewrite (drop_ge l1) by lia. rewrite take_0, app_nil_r, <- !app_assoc. simpl. do 4 f_equal. lia.
Qed.

Lemma take_drop_splice l n l' :
  (n + length l' <= length l)%nat -> take (length l') (drop n (splice l n l')) = l'.
Proof.
  intros. unfold splice. rewrite drop_app_length' by (rewrite length_take; lia).
  by rewrite take_app_length.
Qed.
End splice.

Lemma bytes_ok_app l l' : bytes_ok (l ++ l') <-> bytes_ok l /\ bytes_ok l'.
Proof. apply Forall_app. Qed.
Lemma bytes_ok_take n l : bytes_ok l -> bytes_ok (take n l).
Proof. apply Forall_take. Qed.
Lemma bytes_ok_drop n l : bytes_ok l -> bytes_ok (drop n l).
Proof. apply Forall_drop. Qed.
Lemma bytes_ok_replicate n b : byte_ok b -> bytes_ok (replicate n b).
Proof. apply Forall_replicate. Qed.
Lemma bytes_ok_splice l n l' : bytes_ok l -> bytes_ok l' -> bytes_ok (splice l n l').
Proof.
  intros. unfold splice. rewrite !bytes_ok_app.
  eauto using bytes_ok_take, bytes_ok_drop.
Qed.
#[export] Hint Resolve bytes_ok_take bytes_ok_drop bytes_ok_replicate bytes_ok_splice : kdb.

(** ** Little-endian words, as the i686 stores a [uint16_t] or [uint32_t] *)
Definition le16 (x : Z) : list Z := [x mod 256; (x / 256) mod 256].
Definition le32 (x : Z) : list Z :=
  [x mod 256; (x / 256) mod 256; (x / 65536) mod 256; (x / 16777216) mod 256].
Definition of_le (l : list Z) : Z := foldr (fun b acc => b + 256 * acc) 0 l.

Lemma of_le16 x : 0 <= x < 65536 -> of_le (le16 x) = x.
Proof. intros. unfold of_le, le16. cbn [foldr]. zdm. Qed.
Lemma of_le32 x : 0 <= x < 2 ^ 32 -> of_le (le32 x) = x.
Proof. intros. unfold of_le, le32. cbn [foldr]. zdm. Qed.
Lemma le16_of_le a b : byte_ok a -> byte_ok b -> le16 (of_le [a; b]) = [a; b].
Proof. unfold byte_ok, of_le, le16. cbn [foldr]. intros. repeat f_equal; zdm. Qed.
Lemma le32_of_le a b c d :
  byte_ok a -> byte_ok b -> byte_ok c -> byte_ok d ->
  le32 (of_le [a; b; c; d]) = [a; b; c; d].
Proof. unfold byte_ok, of_le, le32. cbn [foldr]. intros. repeat f_equal; zdm. Qed.
Lemma bytes_ok_le16 x : bytes_ok (le16 x).
Proof. unfold le16, bytes_ok, byte_ok. repeat constructor; zdm. Qed.
Lemma bytes_ok_le32 x : bytes_ok (le32 x).
Proof. unfold le32, bytes_ok, byte_ok. repeat constructor; zdm. Qed.
Lemma of_le_range2 a b : byte_ok a -> byte_ok b -> 0 <= of_le [a; b] < 65536.
Proof. unfold byte_ok, of_le. cbn [foldr]. zdm. Qed.
Lemma of_le_range4 a b c d :
  byte_ok a -> byte_ok b -> byte_ok c -> byte_ok d -> 0 <= of_le [a; b; c; d] < 2 ^ 32.
Proof. unfold byte_ok, of_le. cbn [foldr]. zdm. Qed.
#[export] Hint Resolve bytes_ok_le16 bytes_ok_le32 : kdb.
