(* ===== verification/CLib.v ===== *)
(** * The kernel's own C library: src/string/string.c and src/memory/memory.c

    A pointer into memory is modelled by the list of the bytes from that
    address to the end of the object it points into; a read or a write past
    the end is [Ub].  Bytes are in [0, 256); [i8] gives the value of a plain
    (signed) [char].  The specifications are stated against [cstring], the
    bytes before the first NUL. *)
From Stdlib Require Import ZArith Lia.
From stdpp Require Import base list numbers option.
From S2P Require Import Prelude.
Local Open Scope Z_scope.
Local Open Scope kernel_scope.

Module CString.

Definition tolower (s1 : Z) : Z :=
  if (65 <=? s1) && (s1 <=? 90) then i8 (s1 + 32) else s1.

(** the loop that runs while the byte at ptr is not 0 *)
Fixpoint strlen_from (ptr : list Z) (i : Z) : out Z :=
  match ptr with
  | [] => Ub
  | c :: ptr' => if c =? 0 then Ok i else strlen_from ptr' (i + 1)
  end.
Definition strlen (ptr : list Z) : out Z := strlen_from ptr 0.

(** [for (i = 0; i < max; i++) if (ptr[i] == 0) break;]; [n] is [max - i]. *)
Fixpoint strnlen_from (ptr : list Z) (i : Z) (n : nat) {struct n} : out Z :=
  match n with
  | O => Ok i
  | S n' =>
      match ptr with
      | [] => Ub
      | c :: ptr' => if c =? 0 then Ok i else strnlen_from ptr' (i + 1) n'
      end
  end.
Definition strnlen (ptr : list Z) (max : Z) : out Z := strnlen_from ptr 0 (Z.to_nat max).

Fixpoint strnlen_terminator_from (str : list Z) (i : Z) (n : nat) (terminator : Z) {struct n} : out Z :=
  match n with
  | O => Ok i
  | S n' =>
      match str with
      | [] => Ub
      | c :: str' =>
          if (c =? 0) || (i8 c =? terminator) then Ok i
          else strnlen_terminator_from str' (i + 1) n' terminator
      end
  end.
Definition strnlen_terminator (str : list Z) (max terminator : Z) : out Z :=
  strnlen_terminator_from str 0 (Z.to_nat max) terminator.

(** The body of both comparison loops; [differs] is the test that makes the
    loop return [u1 - u2]. *)
Fixpoint cmp_loop (differs : Z -> Z -> bool) (s1 s2 : list Z) (n : nat) {struct n} : out Z :=
  match n with
  | O => Ok 0
  | S n' =>
      match s1, s2 with
      | u1 :: s1', u2 :: s2' =>
          if differs u1 u2 then Ok (u1 - u2)
          else if u1 =? 0 then Ok 0
          else cmp_loop differs s1' s2' n'
      | _, _ => Ub
      end
  end.

Definition istrncmp (s1 s2 : list Z) (n : Z) : out Z :=
  cmp_loop (fun u1 u2 => negb (u1 =? u2) && negb (tolower (i8 u1) =? tolower (i8 u2)))
    s1 s2 (Z.to_nat n).

Definition strncmp (str1 str2 : list Z) (n : Z) : out Z :=
  cmp_loop (fun u1 u2 => negb (u1 =? u2)) str1 str2 (Z.to_nat n).

(** [strcpy] returns the destination object after the copy. *)
Fixpoint strcpy (dest src : list Z) : out (list Z) :=
  match dest, src with
  | _ :: dest', c :: src' =>
      if c =? 0 then Ok (0 :: dest')
      else d ← strcpy dest' src'; Ok (c :: d)
  | _, _ => Ub
  end.

(** The loop of [strncpy]; [n] is [count - 1 - i]. *)
Fixpoint strncpy_loop (dest src : list Z) (n : nat) {struct n} : out (list Z) :=
  match n with
  | O => match dest with [] => Ub | _ :: dest' => Ok (0 :: dest') end
  | S n' =>
      match src with
      | [] => Ub
      | c :: src' =>
          match dest with
          | [] => Ub
          | _ :: dest' =>
              if c =? 0 then Ok (0 :: dest')
              else d ← strncpy_loop dest' src' n'; Ok (c :: d)
          end
      end
  end.
Definition strncpy (dest src : list Z) (count : Z) : out (list Z) :=
  strncpy_loop dest src (Z.to_nat (count - 1)).

Definition isdigit (c : Z) : bool := (48 <=? c) && (c <=? 57).
Definition tonumericdigit (c : Z) : Z := c - 48.

(** ** Specification: C strings *)

(** The string a pointer denotes: the bytes before the first NUL. *)
Fixpoint cstring (ptr : list Z) : option (list Z) :=
  match ptr with
  | [] => None
  | c :: ptr' => if c =? 0 then Some [] else cons c <$> cstring ptr'
  end.

(** Case-insensitive equality of two bytes, by the ASCII letters. *)
Definition lower (c : Z) : Z := if (65 <=? c) && (c <=? 90) then c + 32 else c.

Lemma cstring_app s rest : Forall (fun c => c <> 0) s -> cstring (s ++ 0 :: rest) = Some s.
Proof.
  induction 1 as [|c s Hc _ IH]; simpl; [done|].
  apply Z.eqb_neq in Hc as ->. by rewrite IH.
Qed.

Lemma cstring_Some p s :
  cstring p = Some s -> exists rest, p = s ++ 0 :: rest /\ Forall (fun c => c <> 0) s.
Proof.
  revert s. induction p as [|c p IH]; intros s; simpl; [done|].
  destruct (Z.eqb_spec c 0) as [->|Hc].
  - intros [= <-]. exists p. by split; [|constructor].
  - destruct (cstring p) as [s'|]; [|done]. intros [= <-].
    destruct (IH s' eq_refl) as (rest & -> & H). exists rest. by split; [|constructor].
Qed.

Lemma strlen_from_spec p i :
  strlen_from p i = match cstring p with Some s => Ok (i + Z.of_nat (length s)) | None => Ub end.
Proof.
  revert i. induction p as [|c p IH]; intros i; simpl; [done|].
  destruct (c =? 0); [simpl; f_equal; lia|].
  rewrite IH. destruct (cstring p); simpl; [f_equal; lia|done].
Qed.

Lemma strlen_spec p :
  strlen p = match cstring p with Some s => Ok (Z.of_nat (length s)) | None => Ub end.
Proof. unfold strlen. by rewrite strlen_from_spec. Qed.

Lemma strnlen_from_spec p s i n :
  cstring p = Some s ->
  strnlen_from p i n = Ok (i + Z.of_nat (Nat.min (length s) n)).
Proof.
  revert p s i. induction n as [|n IH]; intros p s i Hs; cbn [strnlen_from].
  { f_equal. lia. }
  destruct p as [|c p]; simpl in *; [done|].
  destruct (c =? 0); [injection Hs as <-; simpl; f_equal; lia|].
  destruct (cstring p) as [s'|] eqn:E; [|done]. injection Hs as <-.
  rewrite (IH p s' _ E). simpl. f_equal. lia.
Qed.

Lemma strnlen_spec p s max :
  cstring p = Some s -> 0 <= max ->
  strnlen p max = Ok (Z.min (Z.of_nat (length s)) max).
Proof. intros H ?. unfold strnlen. rewrite (strnlen_from_spec p s 0 _ H). f_equal. lia. Qed.

Lemma tolower_lower c1 c2 :
  byte_ok c1 -> byte_ok c2 ->
  tolower (i8 c1) = tolower (i8 c2) <-> lower c1 = lower c2.
Proof.
  unfold byte_ok. intros H1 H2.
  assert (E : forall c, 0 <= c < 256 -> i8 c = if c <? 128 then c else c - 256).
  { intros c Hc. unfold i8. destruct (Z.ltb_spec c 128); zdm. }
  rewrite !E by done. unfold tolower, lower.
  assert (E2 : forall c, 0 <= c < 128 -> i8 c = c) by (intros; apply i8_id; lia).
  repeat match goal with
  | |- context [if ?a <? ?b then _ else _] => destruct (Z.ltb_spec a b)
  | |- context [?a <=? ?b] => destruct (Z.leb_spec a b); simpl
  end; rewrite ?E2 by lia; lia.
Qed.

(** The generic loop decides equality of the strings under [lower]-like maps. *)
Lemma cmp_loop_zero (differs : Z -> Z -> bool) (f : Z -> Z) p1 p2 s1 s2 n :
  (forall a b, byte_ok a -> byte_ok b -> differs a b = negb (f a =? f b)) ->
  (forall a, byte_ok a -> f a = f 0 -> a = 0) ->
  bytes_ok p1 -> bytes_ok p2 ->
  cstring p1 = Some s1 -> cstring p2 = Some s2 ->
  (length s1 < n)%nat -> (length s2 < n)%nat ->
  exists z, cmp_loop differs p1 p2 n = Ok z /\ (z = 0 <-> f <$> s1 = f <$> s2).
Proof.
  intros Hd H0. revert p1 p2 s1 s2.
  induction n as [|n IH]; intros p1 p2 s1 s2 B1 B2 C1 C2 L1 L2; [lia|].
  destruct p1 as [|c1 p1], p2 as [|c2 p2]; try done. simpl in C1, C2.
  apply Forall_cons_1 in B1 as [B1 B1']. apply Forall_cons_1 in B2 as [B2 B2'].
  cbn [cmp_loop].
  rewrite Hd by done.
  assert (Bz : byte_ok 0) by (unfold byte_ok; lia).
  destruct (Z.eqb_spec (f c1) (f c2)) as [Ef|Nf]; simpl.
  - destruct (Z.eqb_spec c1 0) as [->|N1].
    + assert (c2 = 0) as -> by (apply H0; congruence). simplify_eq/=.
      exists 0. done.
    + destruct (Z.eqb_spec c2 0) as [->|N2]; [by exfalso; apply N1, H0|].
      destruct (cstring p1) as [t1|] eqn:E1; [|done].
      destruct (cstring p2) as [t2|] eqn:E2; [|done].
      simplify_eq/=. destruct (IH p1 p2 t1 t2) as (z & -> & Hz); try done; try lia.
      exists z. split; [done|]. rewrite Hz, Ef. split; [congruence|by intros [= ?]].
  - exists (c1 - c2). split; [done|]. split.
    + intros ?. assert (c1 = c2) by lia. congruence.
    + intros Heq. exfalso.
      destruct (Z.eqb_spec c1 0) as [->|N1], (Z.eqb_spec c2 0) as [->|N2]; try done;
        repeat match goal with H : context [cstring ?p] |- _ => destruct (cstring p) end;
        simplify_eq/=.
Qed.

Lemma strncmp_zero p1 p2 s1 s2 n :
  bytes_ok p1 -> bytes_ok p2 -> cstring p1 = Some s1 -> cstring p2 = Some s2 ->
  Z.of_nat (length s1) < n -> Z.of_nat (length s2) < n ->
  exists z, strncmp p1 p2 n = Ok z /\ (z = 0 <-> s1 = s2).
Proof.
  intros B1 B2 C1 C2 L1 L2.
  destruct (cmp_loop_zero (fun u1 u2 => negb (u1 =? u2)) id p1 p2 s1 s2 (Z.to_nat n))
    as (z & E & Hz); try done; try lia.
  exists z. split; [done|]. by rewrite Hz, !list_fmap_id.
Qed.

(** [strncmp] compares at most [n] characters. *)
Lemma strncmp_prefix n : forall p1 p2 s1 s2,
  bytes_ok p1 -> bytes_ok p2 -> cstring p1 = Some s1 -> cstring p2 = Some s2 ->
  exists z, strncmp p1 p2 (Z.of_nat n) = Ok z /\ (z = 0 <-> take n s1 = take n s2).
Proof.
  unfold strncmp. setoid_rewrite Nat2Z.id. induction n as [|n IH]; intros p1 p2 s1 s2 B1 B2 C1 C2; [by exists 0|].
  destruct p1 as [|c1 p1], p2 as [|c2 p2]; try done. simpl in C1, C2.
  apply Forall_cons_1 in B1 as [B1 B1']. apply Forall_cons_1 in B2 as [B2 B2']. cbn [cmp_loop].
  destruct (Z.eqb_spec c1 c2) as [->|Hne]; cbn [negb].
  - destruct (Z.eqb_spec c2 0) as [->|H0]; [exists 0; by simplify_eq/=|].
    destruct (cstring p1) as [t1|] eqn:E1; [|done]. destruct (cstring p2) as [t2|] eqn:E2; [|done]. simplify_eq/=.
    destruct (IH p1 p2 t1 t2) as (z & -> & Hz); try done. exists z. split; [done|]. rewrite Hz. split; [congruence|by intros [= ?]].
  - exists (c1 - c2). split; [done|]. split; [lia|]. intros Heq. exfalso.
    destruct (Z.eqb_spec c1 0), (Z.eqb_spec c2 0); try congruence;
      repeat match goal with H : context [cstring ?p] |- _ => destruct (cstring p) end; simplify_eq/=.
Qed.

(** What lies before the first NUL. *)
Definition upto_nul (l : list Z) : list Z := default [] (cstring (l ++ [0])).
Lemma cstring_upto l r : cstring (l ++ 0 :: r) = Some (upto_nul l).
Proof.
  unfold upto_nul. revert r. induction l as [|c l IH]; intros r; [done|]. cbn [app cstring]. destruct (c =? 0); [done|].
  by rewrite (IH r), (IH []).
Qed.
Lemma upto_nul_bytes l : bytes_ok l -> bytes_ok (upto_nul l).
Proof.
  intros Hl. pose proof (cstring_upto l []) as (r & E & _)%cstring_Some.
  assert (Hb : bytes_ok (l ++ [0])) by (apply Forall_app; split; [done|]; repeat constructor; lia).
  rewrite E in Hb. by apply Forall_app in Hb as [? _].
Qed.

Lemma istrncmp_zero p1 p2 s1 s2 n :
  bytes_ok p1 -> bytes_ok p2 -> cstring p1 = Some s1 -> cstring p2 = Some s2 ->
  Z.of_nat (length s1) < n -> Z.of_nat (length s2) < n ->
  exists z, istrncmp p1 p2 n = Ok z /\ (z = 0 <-> lower <$> s1 = lower <$> s2).
Proof.
  intros B1 B2 C1 C2 L1 L2. unfold istrncmp.
  apply cmp_loop_zero; try done; try lia.
  - intros a b Ha Hb. pose proof (tolower_lower a b Ha Hb) as T.
    destruct (Z.eqb_spec a b) as [->|Hab]; simpl; [by rewrite Z.eqb_refl|].
    destruct (Z.eqb_spec (tolower (i8 a)) (tolower (i8 b))),
      (Z.eqb_spec (lower a) (lower b)); naive_solver.
  - unfold byte_ok, lower. intros a Ha.
    destruct (Z.leb_spec 65 a), (Z.leb_spec a 90); simpl; lia.
Qed.

(** What [strncpy] leaves in the destination: at most [n] bytes of the
    string, a NUL, and the old tail. *)
Lemma strncpy_loop_spec dest src s n :
  cstring src = Some s -> (Nat.min (length s) n < length dest)%nat ->
  strncpy_loop dest src n =
    Ok (take n s ++ 0 :: drop (S (Nat.min (length s) n)) dest).
Proof.
  revert dest src s. induction n as [|n IH]; intros dest src s Hs Hl; simpl.
  { destruct dest; simpl in *; [lia|]. by rewrite Nat.min_0_r. }
  destruct src as [|c src]; simpl in *; [done|].
  destruct dest as [|d dest]; simpl in *; [lia|].
  destruct (c =? 0); [by injection Hs as <-|].
  destruct (cstring src) as [s'|] eqn:E; [|done]. injection Hs as <-. simpl in *.
  by rewrite (IH dest src s') by (done || lia).
Qed.
End CString.

(** ** src/memory/memory.c *)
Module CMem.

(** [memset] stores [(char) c] in the first [size] bytes of the object. *)
Definition memset (ptr : list Z) (c size : Z) : out (list Z) :=
  if Z.of_nat (length ptr) <? size then Ub
  else Ok (splice ptr 0 (replicate (Z.to_nat size) (u8 c))).

(** The loop [while (count-- > 0)]; bytes are compared as signed chars. *)
Fixpoint memcmp_loop (c1 c2 : list Z) (n : nat) {struct n} : out Z :=
  match n with
  | O => Ok 0
  | S n' =>
      match c1, c2 with
      | a :: c1', b :: c2' =>
          if negb (a =? b) then Ok (if i8 a <? i8 b then -1 else 1)
          else memcmp_loop c1' c2' n'
      | _, _ => Ub
      end
  end.
Definition memcmp (s1 s2 : list Z) (count : Z) : out Z := memcmp_loop s1 s2 (Z.to_nat count).

(** [memcpy] runs [while (len--)]: a negative [len] walks off every object. *)
Definition memcpy (dest src : list Z) (len : Z) : out (list Z) :=
  if (len <? 0) || (Z.of_nat (length dest) <? len) || (Z.of_nat (length src) <? len) then Ub
  else Ok (splice dest 0 (take (Z.to_nat len) src)).

Lemma memcpy_ok dest src len :
  0 <= len <= Z.of_nat (length dest) -> len <= Z.of_nat (length src) ->
  memcpy dest src len = Ok (take (Z.to_nat len) src ++ drop (Z.to_nat len) dest).
Proof.
  intros [H1 H2] H3. unfold memcpy.
  destruct (Z.ltb_spec len 0), (Z.ltb_spec (Z.of_nat (length dest)) len),
    (Z.ltb_spec (Z.of_nat (length src)) len); simpl; try lia.
  unfold splice. rewrite take_0, length_take. simpl. repeat f_equal. lia.
Qed.

Lemma memset_ok ptr c size :
  0 <= size <= Z.of_nat (length ptr) ->
  memset ptr c size = Ok (replicate (Z.to_nat size) (u8 c) ++ drop (Z.to_nat size) ptr).
Proof.
  intros [H1 H2]. unfold memset.
  destruct (Z.ltb_spec (Z.of_nat (length ptr)) size); [lia|].
  unfold splice. by rewrite take_0, length_replicate.
Qed.

Lemma memcmp_zero s1 s2 n :
  (n <= length s1)%nat -> (n <= length s2)%nat ->
  exists z, memcmp s1 s2 (Z.of_nat n) = Ok z /\ (z = 0 <-> take n s1 = take n s2).
Proof.
  unfold memcmp. rewrite Nat2Z.id. revert s1 s2.
  induction n as [|n IH]; intros s1 s2 L1 L2; simpl; [by exists 0|].
  destruct s1 as [|a s1], s2 as [|b s2]; simpl in *; try lia.
  destruct (Z.eqb_spec a b) as [->|N]; simpl.
  - destruct (IH s1 s2) as (z & -> & Hz); [lia..|]. exists z. split; [done|].
    rewrite Hz. split; [congruence|by intros [= ?]].
  - destruct (i8 a <? i8 b); eexists; (split; [done|]); split; [lia|congruence|lia|congruence].
Qed.
End CMem.
