(* ===== verification/Heap.v ===== *)
(** * The kernel heap: src/memory/heap/heap.c and src/memory/heap/kheap.c

    The heap is a table with one byte per 4096-byte block.  [Module Heap]
    translates heap.c on that table; [layout] is its abstract contract, the
    map from the first block of every live allocation to its length in
    blocks.  [Module KHeap] translates kheap.c, which adds the bytes of the
    data pool, and discharges [AllocatorSpec], the interface the file-system
    and task code is verified against. *)
From Stdlib Require Import ZArith Lia.
From stdpp Require Import base list gmap numbers option list_numbers.
From S2P Require Import Prelude CLib.
Local Open Scope Z_scope.
Local Open Scope kernel_scope.

Module Heap.

Definition HEAP_BLOCK_TABLE_ENTRY_TAKEN : Z := 0x01.
Definition HEAP_BLOCK_TABLE_ENTRY_FREE : Z := 0x00.
Definition HEAP_BLOCK_HAS_NEXT : Z := 0x80.
Definition HEAP_BLOCK_IS_FIRST : Z := 0x40.

Record heap_table := mk_table { entries : list Z; total : Z }.
Record heap := mk_heap { table : heap_table; saddr : Z }.

Definition with_entries (h : heap) (es : list Z) : heap :=
  mk_heap (mk_table es (total (table h))) (saddr h).

Definition heap_validate_table (ptr end_ : Z) (t : heap_table) : Z :=
  let table_size := u32 (end_ - ptr) in
  let total_blocks := table_size / PEACHOS_HEAP_BLOCK_SIZE in
  if negb (total t =? total_blocks) then - EINVARG else 0.

Definition heap_validate_alignment (ptr : Z) : bool :=
  u32 ptr mod PEACHOS_HEAP_BLOCK_SIZE =? 0.

Definition heap_create (h : heap) (ptr end_ : Z) (t : heap_table) : out (Z * heap) :=
  if negb (heap_validate_alignment ptr) || negb (heap_validate_alignment end_)
  then Ok (- EINVARG, h)
  else
    let h := mk_heap t ptr in
    let res := heap_validate_table ptr end_ t in
    if res <? 0 then Ok (res, h)
    else
      es ← CMem.memset (entries t) HEAP_BLOCK_TABLE_ENTRY_FREE (total t);
      Ok (res, with_entries h es).

Definition heap_align_value_to_upper (val : Z) : Z :=
  if val mod PEACHOS_HEAP_BLOCK_SIZE =? 0 then val
  else u32 (val - val mod PEACHOS_HEAP_BLOCK_SIZE + PEACHOS_HEAP_BLOCK_SIZE).

Definition heap_get_entry_type (entry : Z) : Z := Z.land entry 0x0f.

(** The scan of [heap_get_start_block] from entry [i]; [n] is [total - i] and
    [es] the entries from [i] on.  [bc] counts the current run of free blocks
    and [bs] is its first block, or -1. *)
Fixpoint start_block_loop (es : list Z) (n : nat) (i bc bs total_blocks : Z) {struct n} : out Z :=
  match n with
  | O => Ok bs
  | S n' =>
      match es with
      | [] => Ub
      | e :: es' =>
          if negb (heap_get_entry_type e =? HEAP_BLOCK_TABLE_ENTRY_FREE)
          then start_block_loop es' n' (i + 1) 0 (-1) total_blocks
          else
            let bs := if bs =? -1 then i else bs in
            let bc := bc + 1 in
            if bc =? total_blocks then Ok bs
            else start_block_loop es' n' (i + 1) bc bs total_blocks
      end
  end.

Definition heap_get_start_block (h : heap) (total_blocks : Z) : out Z :=
  bs ← start_block_loop (entries (table h)) (Z.to_nat (total (table h))) 0 0 (-1) total_blocks;
  Ok (if bs =? -1 then - ENOMEM else bs).

Definition heap_block_to_address (h : heap) (block : Z) : Z :=
  u32 (saddr h + block * PEACHOS_HEAP_BLOCK_SIZE).

(** [for (i = start; i <= end_block; i++)]; [n] is [end_block + 1 - i]. *)
Fixpoint mark_taken_loop (es : list Z) (i end_block entry : Z) (n : nat) {struct n} : out (list Z) :=
  match n with
  | O => Ok es
  | S n' =>
      es ← es.[i <- entry];
      let entry := HEAP_BLOCK_TABLE_ENTRY_TAKEN in
      let entry := if negb (i =? end_block - 1) then Z.lor entry HEAP_BLOCK_HAS_NEXT else entry in
      mark_taken_loop es (i + 1) end_block entry n'
  end.

Definition heap_mark_blocks_taken (h : heap) (start_block total_blocks : Z) : out heap :=
  let end_block := (start_block + total_blocks) - 1 in
  let entry := Z.lor HEAP_BLOCK_TABLE_ENTRY_TAKEN HEAP_BLOCK_IS_FIRST in
  let entry := if total_blocks >? 1 then Z.lor entry HEAP_BLOCK_HAS_NEXT else entry in
  es ← mark_taken_loop (entries (table h)) start_block end_block entry
         (Z.to_nat (end_block + 1 - start_block));
  Ok (with_entries h es).

Definition heap_malloc_blocks (h : heap) (total_blocks : Z) : out (Z * heap) :=
  start_block ← heap_get_start_block h total_blocks;
  if start_block <? 0 then Ok (0, h)
  else
    let address := heap_block_to_address h start_block in
    h ← heap_mark_blocks_taken h start_block (i32 total_blocks);
    Ok (address, h).

(** [for (i = starting_block; i < total; i++)]; [n] is [total - i]. *)
Fixpoint mark_free_loop (es : list Z) (i : Z) (n : nat) {struct n} : out (list Z) :=
  match n with
  | O => Ok es
  | S n' =>
      entry ← es.[i];
      es ← es.[i <- HEAP_BLOCK_TABLE_ENTRY_FREE];
      if Z.land entry HEAP_BLOCK_HAS_NEXT =? 0 then Ok es
      else mark_free_loop es (i + 1) n'
  end.

Definition heap_mark_blocks_free (h : heap) (starting_block : Z) : out heap :=
  es ← mark_free_loop (entries (table h)) starting_block
         (Z.to_nat (i32 (total (table h)) - starting_block));
  Ok (with_entries h es).

Definition heap_address_to_block (h : heap) (address : Z) : Z :=
  i32 (address - saddr h) ÷ PEACHOS_HEAP_BLOCK_SIZE.

Definition heap_malloc (h : heap) (size : Z) : out (Z * heap) :=
  let aligned_size := heap_align_value_to_upper size in
  let total_blocks := aligned_size / PEACHOS_HEAP_BLOCK_SIZE in
  heap_malloc_blocks h total_blocks.

Definition heap_free (h : heap) (ptr : Z) : out heap :=
  heap_mark_blocks_free h (heap_address_to_block h ptr).

(** ** The abstract contract of the block table *)

(** The table entries of a live allocation of [n] blocks. *)
Fixpoint run_tail (n : nat) : list Z :=
  match n with
  | O => []
  | S O => [0x01]
  | S n' => 0x81 :: run_tail n'
  end.
Definition run (n : nat) : list Z :=
  match n with
  | O => []
  | S O => [0x41]
  | S n' => 0xC1 :: run_tail n'
  end.

(** [layout i es m]: [es], read from block [i] on, is a sequence of free
    blocks and of allocations, and [m] maps the first block of each
    allocation to its number of blocks. *)
Inductive layout : Z -> list Z -> gmap Z Z -> Prop :=
| layout_nil i : layout i [] ∅
| layout_free i es m : layout (i + 1) es m -> layout i (0 :: es) m
| layout_alloc i n es m :
    (0 < n)%nat -> layout (i + Z.of_nat n) es m ->
    layout i (run n ++ es) (<[i := Z.of_nat n]> m).

(** Block [k] is free; the [n] blocks from [s] on are free. *)
Definition is_free (es : list Z) (k : nat) : Prop :=
  exists e, es !! k = Some e /\ heap_get_entry_type e = 0.
Definition fits (es : list Z) (n s : nat) : Prop :=
  forall k, (s <= k < s + n)%nat -> is_free es k.

Lemma length_run_tail n : length (run_tail n) = n.
Proof. induction n as [|[|n] IH]; simpl in *; congruence. Qed.

Lemma length_run n : length (run n) = n.
Proof. destruct n as [|[|n]]; try done. cbn [run length]. by rewrite length_run_tail. Qed.

Lemma run_tail_S n : (0 < n)%nat -> run_tail (S n) = 0x81 :: run_tail n.
Proof. by destruct n; [lia|]. Qed.
Lemma run_S n : (0 < n)%nat -> run (S n) = 0xC1 :: run_tail n.
Proof. by destruct n; [lia|]. Qed.

Lemma run_tail_taken n k e : run_tail n !! k = Some e -> heap_get_entry_type e <> 0.
Proof.
  revert k. induction n as [|[|n] IH]; intros k; [done| |].
  - destruct k; simpl; [by intros [= <-]|done].
  - rewrite run_tail_S by lia. destruct k; [by intros [= <-]|apply IH].
Qed.

Lemma run_taken n k e : run n !! k = Some e -> heap_get_entry_type e <> 0.
Proof.
  destruct n as [|[|n]]; [done| |].
  - destruct k; simpl; [by intros [= <-]|done].
  - rewrite run_S by lia. destruct k; [by intros [= <-]|apply (run_tail_taken (S n))].
Qed.

Lemma splice_insert_cons (es l : list Z) i x :
  (i < length es)%nat -> splice (<[i := x]> es) (S i) l = splice es i (x :: l).
Proof.
  intros Hi. unfold splice.
  rewrite (take_S_r _ i x) by (by apply list_lookup_insert_eq).
  rewrite take_insert_ge by lia. rewrite drop_insert_lt by lia.
  rewrite <- app_assoc. simpl. do 3 f_equal. f_equal. lia.
Qed.

Lemma next_entry_spec i k :
  (0 < k)%nat ->
  (if negb (Z.of_nat i =? Z.of_nat (S i + k) - 1 - 1)
   then Z.lor HEAP_BLOCK_TABLE_ENTRY_TAKEN HEAP_BLOCK_HAS_NEXT
   else HEAP_BLOCK_TABLE_ENTRY_TAKEN) = if (1 <? k)%nat then 0x81 else 0x01.
Proof.
  intros. destruct (Nat.ltb_spec 1 k), (Z.eqb_spec (Z.of_nat i) (Z.of_nat (S i + k) - 1 - 1));
    try lia; done.
Qed.

Lemma mark_taken_tail_spec es k : forall i,
  (0 < k)%nat -> (i + k <= length es)%nat ->
  mark_taken_loop es (Z.of_nat i) (Z.of_nat (i + k) - 1) (if (1 <? k)%nat then 0x81 else 0x01) k =
  Ok (splice es i (run_tail k)).
Proof.
  revert es. induction k as [|k IH]; intros es i Hk Hl; [lia|]. cbn [mark_taken_loop].
  rewrite aset_ok by lia. rewrite Nat2Z.id. unfold mbind, out_bind.
  destruct k as [|k].
  - simpl. rewrite <- splice_insert_cons by lia. unfold splice. simpl.
    rewrite Nat.add_0_r. by rewrite take_drop.
  - destruct (Nat.ltb_spec 1 (S (S k))) as [_|]; [|lia].
    replace (Z.of_nat i + 1) with (Z.of_nat (S i)) by lia.
    replace (Z.of_nat (i + S (S k)) - 1) with (Z.of_nat (S i + S k) - 1) by lia.
    rewrite next_entry_spec by lia.
    rewrite IH by (try rewrite length_insert; lia).
    by rewrite splice_insert_cons, (run_tail_S (S k)) by lia.
Qed.

(** [heap_mark_blocks_taken] stores a whole run when it fits in the table. *)
Lemma mark_blocks_taken_spec h s n :
  (0 < n)%nat -> (s + n <= length (entries (table h)))%nat ->
  heap_mark_blocks_taken h (Z.of_nat s) (Z.of_nat n) =
  Ok (with_entries h (splice (entries (table h)) s (run n))).
Proof.
  intros Hn Hl. unfold heap_mark_blocks_taken.
  replace (Z.to_nat (Z.of_nat s + Z.of_nat n - 1 + 1 - Z.of_nat s)) with n by lia.
  set (es := entries (table h)) in *.
  destruct n as [|n]; [lia|]. cbn [mark_taken_loop]. rewrite aset_ok by lia.
  rewrite Nat2Z.id. unfold mbind, out_bind. destruct n as [|n].
  - simpl. do 2 f_equal. rewrite <- splice_insert_cons by lia. unfold splice. simpl.
    rewrite Nat.add_0_r. by rewrite take_drop.
  - replace (Z.of_nat s + 1) with (Z.of_nat (S s)) by lia.
    replace (Z.of_nat s + Z.of_nat (S (S n)) - 1) with (Z.of_nat (S s + S n) - 1) by lia.
    rewrite next_entry_spec by lia.
    rewrite mark_taken_tail_spec by (try rewrite length_insert; lia).
    rewrite splice_insert_cons by lia.
    destruct (Z.gtb_spec (Z.of_nat (S (S n))) 1); [|lia]. by rewrite run_S by lia.
Qed.

(** ** The first-fit scan *)
Section first_fit.
Context (all : list Z) (n : nat) (Hn : (0 < n)%nat).

(** Before block [i], the run of free blocks that ends there has length
    [bc], and no place for [n] blocks ends before [i]. *)
Record scan_inv (i bc : nat) : Prop := {
  scan_le : (bc <= i)%nat;
  scan_short : (bc < n)%nat;
  scan_run : forall k, (i - bc <= k < i)%nat -> is_free all k;
  scan_stop : (bc < i -> ~ is_free all (i - bc - 1))%nat;
  scan_none : forall s, (s + n <= i)%nat -> ~ fits all n s }.

(** What the scan returns: the first fit; or, when nothing fits, -1 if the
    last block is taken and else the start of the free run at the end. *)
Definition scan_result (r : Z) : Prop :=
  (exists s : nat, r = Z.of_nat s /\ fits all n s /\ forall s', (s' < s)%nat -> ~ fits all n s') \/
  ((forall s, ~ fits all n s) /\
   ((r = -1 /\ forall k, S k = length all -> ~ is_free all k) \/
    exists s : nat, r = Z.of_nat s /\ (s < length all < s + n)%nat /\ fits all (length all - s) s)).

Lemma scan_end bc :
  scan_inv (length all) bc ->
  scan_result (if (bc =? 0)%nat then -1 else Z.of_nat (length all - bc)).
Proof.
  intros [H1 H2 Hrun Hstop Hno]. right. split.
  - intros s Hs. destruct (decide (s + n <= length all)%nat); [by eapply Hno|].
    destruct (Hs (s + n - 1)%nat) as (e & He & _); [lia|].
    apply lookup_lt_Some in He. lia.
  - destruct (Nat.eqb_spec bc 0) as [->|Hb]; [left|right].
    + split; [done|]. intros k Hk Hf. apply (Hstop ltac:(lia)).
      by replace (length all - 0 - 1)%nat with k by lia.
    + exists (length all - bc)%nat. split; [done|]. split; [lia|].
      intros k Hk. apply Hrun. lia.
Qed.

(** A fit that starts before the current run is impossible. *)
Lemma scan_before i bc s :
  scan_inv i bc -> (s < i - bc)%nat -> ~ fits all n s.
Proof.
  intros [H1 H2 Hrun Hstop Hno] Hs Hfit.
  destruct (decide (s + n <= i)%nat); [by eapply Hno|].
  apply (Hstop ltac:(lia)), Hfit. lia.
Qed.

Lemma scan_found i bc :
  scan_inv i bc -> is_free all i -> S bc = n -> scan_result (Z.of_nat (i - bc)).
Proof.
  intros Hinv Hf Hd. left. pose proof (scan_le _ _ Hinv). exists (i - bc)%nat. split; [done|]. split.
  - intros k Hk. destruct (decide (k = i)) as [->|]; [done|].
    apply (scan_run _ _ Hinv). lia.
  - intros s' Hs'. by eapply scan_before.
Qed.

Lemma scan_free i bc :
  scan_inv i bc -> is_free all i -> S bc <> n -> scan_inv (S i) (S bc).
Proof.
  intros Hinv Hf Hd. pose proof Hinv as [H1 H2 Hrun Hstop Hno]. split; try lia.
  - intros k Hk. destruct (decide (k = i)) as [->|]; [done|apply Hrun; lia].
  - intros Hlt. replace (S i - S bc - 1)%nat with (i - bc - 1)%nat by lia. apply Hstop. lia.
  - intros s Hs. apply (scan_before i bc); [done|]. lia.
Qed.

Lemma scan_taken i bc :
  scan_inv i bc -> ~ is_free all i -> scan_inv (S i) 0.
Proof.
  intros [H1 H2 Hrun Hstop Hno] Hf. split; try lia.
  - intros _. by replace (S i - 0 - 1)%nat with i by lia.
  - intros s Hs Hfit. destruct (decide (s + n <= i)%nat); [by eapply Hno|].
    apply Hf, Hfit. lia.
Qed.

Lemma start_block_loop_spec es : forall pre bc,
  all = pre ++ es -> scan_inv (length pre) bc ->
  exists r,
    start_block_loop es (length es) (Z.of_nat (length pre)) (Z.of_nat bc)
      (if (bc =? 0)%nat then -1 else Z.of_nat (length pre - bc)) (Z.of_nat n) = Ok r /\
    scan_result r.
Proof.
  induction es as [|e es IH]; intros pre bc Hall Hinv; cbn [length start_block_loop].
  { rewrite app_nil_r in Hall. rewrite <- Hall in *. eexists. split; [done|]. by apply scan_end. }
  assert (Hf : is_free all (length pre) <-> heap_get_entry_type e = 0).
  { assert (all !! length pre = Some e) by (rewrite Hall; by apply list_lookup_middle).
    split; [intros (e' & He' & ?); congruence|by exists e]. }
  assert (Hall' : all = (pre ++ [e]) ++ es) by (by rewrite <- app_assoc).
  assert (Hlen : length (pre ++ [e]) = S (length pre)) by (rewrite length_app; simpl; lia).
  specialize (IH (pre ++ [e])). rewrite Hlen in IH.
  replace (Z.of_nat (length pre) + 1) with (Z.of_nat (S (length pre))) by lia.
  destruct (Z.eqb_spec (heap_get_entry_type e) HEAP_BLOCK_TABLE_ENTRY_FREE) as [Hz|Hz];
    cbn [negb]; rewrite <- Hf in Hz.
  2:{ apply (IH 0%nat Hall'). by eapply scan_taken. }
  replace (if (if (bc =? 0)%nat then _ else _) =? -1 then _ else _)
    with (Z.of_nat (length pre - bc)).
  2:{ destruct (Nat.eqb_spec bc 0); [simpl; lia|].
      destruct (Z.eqb_spec (Z.of_nat (length pre - bc)) (-1)); [lia|done]. }
  destruct (Z.eqb_spec (Z.of_nat bc + 1) (Z.of_nat n)) as [Hd|Hd].
  - eexists. split; [done|]. apply scan_found; [done..|lia].
  - replace (Z.of_nat bc + 1) with (Z.of_nat (S bc)) by lia.
    apply (IH (S bc) Hall'). apply scan_free; [done..|lia].
Qed.
End first_fit.

Definition table_ok (h : heap) : Prop :=
  total (table h) = Z.of_nat (length (entries (table h))).

Lemma heap_get_start_block_spec h n :
  table_ok h -> (0 < n)%nat ->
  exists bs, scan_result (entries (table h)) n bs /\
    heap_get_start_block h (Z.of_nat n) = Ok (if bs =? -1 then - ENOMEM else bs).
Proof.
  intros Ht Hn. unfold heap_get_start_block. rewrite Ht, Nat2Z.id.
  destruct (start_block_loop_spec (entries (table h)) n Hn (entries (table h)) [] 0%nat)
    as (r & Hr & Hcase); [done|split; simpl; lia|].
  exists r. split; [done|].
  change (start_block_loop (entries (table h)) (length (entries (table h))) 0 0 (-1)
            (Z.of_nat n) = Ok r) in Hr.
  by rewrite Hr.
Qed.

(** ** The layout of the table *)
Lemma layout_free_inv i es m : layout i (0 :: es) m -> layout (i + 1) es m.
Proof.
  inversion 1 as [|? ? ? Hl|? n es' ? Hn Hl Hi Heq]; subst; [done|].
  assert (Hc : (run n ++ es') !! 0%nat = Some 0) by (by rewrite Heq).
  rewrite lookup_app_l in Hc by (rewrite length_run; lia).
  by apply run_taken in Hc.
Qed.

Lemma layout_free_cell i es m k :
  layout i es m -> is_free es k -> es !! k = Some 0.
Proof.
  intros Hl. revert k. induction Hl as [|i es m _ IH|i n es m Hn _ IH]; intros k (e & He & Ht).
  - done.
  - destruct k as [|k]; [done|]. apply (IH k). by exists e.
  - destruct (decide (k < n)%nat).
    + rewrite lookup_app_l in He by (rewrite length_run; lia). by apply run_taken in He.
    + rewrite lookup_app_r, length_run in * by (rewrite length_run; lia). apply IH. by exists e.
Qed.

Lemma layout_bounds i es m j n :
  layout i es m -> m !! j = Some n -> i <= j /\ 0 < n /\ j + n <= i + Z.of_nat (length es).
Proof.
  induction 1 as [|i es m _ IH|i k es m Hk _ IH]; intros Hj; simpl.
  - done.
  - specialize (IH Hj). lia.
  - rewrite length_app, length_run. apply lookup_insert_Some in Hj as [[<- <-]|[_ Hj]]; [lia|].
    specialize (IH Hj). lia.
Qed.

(** Two different live allocations occupy disjoint blocks. *)
Lemma layout_disjoint i es m a b na nb :
  layout i es m -> m !! a = Some na -> m !! b = Some nb -> a <> b ->
  a + na <= b \/ b + nb <= a.
Proof.
  induction 1 as [|i es m _ IH|i k es m Hk Hl IH]; intros Ha Hb Hab; [done|by apply IH|].
  apply lookup_insert_Some in Ha as [[<- <-]|[_ Ha]];
    apply lookup_insert_Some in Hb as [[<- <-]|[_ Hb]]; [done| | |by apply IH].
  - pose proof (layout_bounds _ _ _ _ _ Hl Hb). lia.
  - pose proof (layout_bounds _ _ _ _ _ Hl Ha). lia.
Qed.

Lemma layout_app i l1 l2 m1 m2 :
  layout i l1 m1 -> layout (i + Z.of_nat (length l1)) l2 m2 -> layout i (l1 ++ l2) (m1 ∪ m2).
Proof.
  induction 1 as [i|i es m _ IH|i k es m Hk Hl IH]; simpl; intros H2.
  - rewrite (left_id_L ∅ (∪)). by rewrite Z.add_0_r in H2.
  - constructor. apply IH. by replace (i + 1 + Z.of_nat (length es)) with (i + Z.of_nat (S (length es))) by lia.
  - rewrite <- app_assoc, <- insert_union_l. constructor; [done|]. apply IH.
    rewrite length_app, length_run in H2.
    by replace (i + Z.of_nat k + Z.of_nat (length es)) with (i + Z.of_nat (k + length es)) by lia.
Qed.

(** The layout splits in front of a free block. *)
Lemma layout_split i pre suf m :
  layout i (pre ++ 0 :: suf) m ->
  exists m1 m2, layout i pre m1 /\ layout (i + Z.of_nat (length pre)) (0 :: suf) m2 /\ m = m1 ∪ m2.
Proof.
  intros Hl. remember (pre ++ 0 :: suf) as es eqn:E. revert pre E.
  induction Hl as [i|i es m Hl IH|i k es m Hk Hl IH]; intros pre E.
  - by destruct pre.
  - destruct pre as [|e pre]; simplify_eq/=.
    + exists ∅, m. rewrite Z.add_0_r, (left_id_L ∅ (∪)). repeat split; by constructor.
    + destruct (IH pre eq_refl) as (m1 & m2 & H1 & H2 & ->). exists m1, m2.
      replace (i + Z.of_nat (S (length pre))) with (i + 1 + Z.of_nat (length pre)) by lia.
      repeat split; [by constructor|done].
  - assert (Hp : (k <= length pre)%nat).
    { destruct (decide (k <= length pre)%nat); [done|]. exfalso.
      assert (H0 : (run k ++ es) !! length pre = Some 0) by (rewrite E; by apply list_lookup_middle).
      rewrite lookup_app_l in H0 by (rewrite length_run; lia). by apply run_taken in H0. }
    assert (Ht : run k = take k pre).
    { apply (f_equal (take k)) in E.
      rewrite take_app_le, take_ge in E by (rewrite length_run; lia). by rewrite take_app_le in E by lia. }
    assert (He : es = drop k pre ++ 0 :: suf).
    { apply (f_equal (drop k)) in E.
      rewrite drop_app_ge, length_run, Nat.sub_diag, drop_0 in E by (rewrite length_run; lia).
      by rewrite drop_app_le in E by lia. }
    destruct (IH (drop k pre) He) as (m1 & m2 & H1 & H2 & ->).
    exists (<[i := Z.of_nat k]> m1), m2. rewrite <- insert_union_l. repeat split; [|].
    + rewrite <- (take_drop k pre), <- Ht. by constructor.
    + rewrite length_drop in H2.
      by replace (i + Z.of_nat k + Z.of_nat (length pre - k)) with (i + Z.of_nat (length pre)) in H2 by lia.
Qed.

Lemma layout_skip_free n : forall i es m,
  layout i (replicate n 0 ++ es) m -> layout (i + Z.of_nat n) es m.
Proof.
  induction n as [|n IH]; intros i es m H; simpl in *; [by rewrite Z.add_0_r|].
  apply layout_free_inv, IH in H. by replace (i + Z.of_nat (S n)) with (i + 1 + Z.of_nat n) by lia.
Qed.

Lemma layout_add_free n : forall i es m,
  layout (i + Z.of_nat n) es m -> layout i (replicate n 0 ++ es) m.
Proof.
  induction n as [|n IH]; intros i es m H; simpl in *; [by rewrite Z.add_0_r in H|].
  constructor. apply IH. by replace (i + 1 + Z.of_nat n) with (i + Z.of_nat (S n)) by lia.
Qed.

Lemma fits_decompose i es m n s :
  layout i es m -> fits es n s -> (0 < n)%nat ->
  (s + n <= length es)%nat /\ es = take s es ++ replicate n 0 ++ drop (s + n) es.
Proof.
  intros Hl Hf Hn.
  assert (Hle : (s + n <= length es)%nat).
  { destruct (Hf (s + n - 1)%nat) as (e & He & _); [lia|]. apply lookup_lt_Some in He. lia. }
  split; [done|]. apply list_eq. intros k.
  destruct (decide (k < s)%nat).
  { rewrite lookup_app_l by (rewrite length_take; lia). by rewrite lookup_take_lt. }
  rewrite lookup_app_r, length_take by (rewrite length_take; lia).
  destruct (decide (k < s + n)%nat).
  - rewrite lookup_app_l by (rewrite length_replicate; lia).
    rewrite lookup_replicate_2 by lia. eapply layout_free_cell; [done|]. apply Hf. lia.
  - rewrite lookup_app_r, length_replicate by (rewrite length_replicate; lia).
    rewrite lookup_drop. f_equal. lia.
Qed.

(** Taking [n] free blocks adds one allocation and changes nothing else. *)
Lemma layout_take i es m n s :
  layout i es m -> fits es n s -> (0 < n)%nat ->
  m !! (i + Z.of_nat s) = None /\
  layout i (splice es s (run n)) (<[i + Z.of_nat s := Z.of_nat n]> m).
Proof.
  intros Hl Hf Hn. destruct (fits_decompose _ _ _ _ _ Hl Hf Hn) as [Hle Hes].
  assert (Hlt : length (take s es) = s) by (rewrite length_take; lia).
  unfold splice. rewrite length_run. destruct n as [|n]; [lia|].
  rewrite Hes in Hl. apply (layout_split i (take s es)) in Hl as (m1 & m2 & H1 & H2 & ->).
  rewrite Hlt in *. apply (layout_skip_free (S n)) in H2.
  assert (N1 : m1 !! (i + Z.of_nat s) = None).
  { destruct (m1 !! _) eqn:E; [|done]. apply (layout_bounds _ _ _ _ _ H1) in E. lia. }
  assert (N2 : m2 !! (i + Z.of_nat s) = None).
  { destruct (m2 !! _) eqn:E; [|done]. apply (layout_bounds _ _ _ _ _ H2) in E. lia. }
  split; [by apply lookup_union_None|].
  rewrite insert_union_r by done. apply layout_app; [done|]. rewrite Hlt. by constructor.
Qed.

(** A live allocation is a run of the table; freeing its blocks removes it. *)
Lemma layout_find i es m s n :
  layout i es m -> m !! s = Some n ->
  exists pre suf, es = pre ++ run (Z.to_nat n) ++ suf /\ s = i + Z.of_nat (length pre) /\
    layout i (pre ++ replicate (Z.to_nat n) 0 ++ suf) (delete s m).
Proof.
  induction 1 as [i|i es m Hl IH|i k es m Hk Hl IH]; intros Hs; [done| |].
  - destruct (IH Hs) as (pre & suf & -> & -> & H). exists (0 :: pre), suf.
    simpl. repeat split; [lia|by constructor].
  - apply lookup_insert_Some in Hs as [[<- <-]|[Hne Hs]].
    + exists [], es. rewrite Nat2Z.id, Z.add_0_r. repeat split. simpl.
      rewrite delete_insert_id; [by apply layout_add_free|].
      destruct (m !! i) eqn:E; [|done]. apply (layout_bounds _ _ _ _ _ Hl) in E. lia.
    + destruct (IH Hs) as (pre & suf & -> & -> & H). exists (run k ++ pre), suf.
      rewrite <- !app_assoc, length_app, length_run. repeat split; [lia|].
      rewrite delete_insert_ne by lia. by constructor.
Qed.

(** ** [heap_mark_blocks_free] on a run *)
Lemma mark_free_cell pre e suf n :
  mark_free_loop (pre ++ e :: suf) (Z.of_nat (length pre)) (S n) =
  if Z.land e HEAP_BLOCK_HAS_NEXT =? 0 then Ok (pre ++ 0 :: suf)
  else mark_free_loop ((pre ++ [0]) ++ suf) (Z.of_nat (length (pre ++ [0]))) n.
Proof.
  cbn [mark_free_loop].
  rewrite (aget_ok _ _ e) by (lia || (rewrite Nat2Z.id; by apply list_lookup_middle)).
  unfold mbind, out_bind. rewrite aset_ok by (rewrite length_app; simpl; lia).
  rewrite Nat2Z.id, insert_app_r_alt, Nat.sub_diag by lia. simpl.
  rewrite <- app_assoc, length_app. simpl.
  by replace (Z.of_nat (length pre + 1)) with (Z.of_nat (length pre) + 1) by lia.
Qed.

Lemma mark_free_tail k : forall pre suf n,
  (0 < k <= n)%nat ->
  mark_free_loop (pre ++ run_tail k ++ suf) (Z.of_nat (length pre)) n =
  Ok (pre ++ replicate k 0 ++ suf).
Proof.
  induction k as [|[|k] IH]; intros pre suf [|n] Hk; try lia.
  - simpl app. by rewrite mark_free_cell.
  - rewrite run_tail_S, <- app_comm_cons, mark_free_cell by lia.
    change (Z.land 0x81 HEAP_BLOCK_HAS_NEXT =? 0) with false. cbn iota.
    rewrite IH by lia. by rewrite <- app_assoc.
Qed.

Lemma mark_free_run k pre suf n :
  (0 < k <= n)%nat ->
  mark_free_loop (pre ++ run k ++ suf) (Z.of_nat (length pre)) n =
  Ok (pre ++ replicate k 0 ++ suf).
Proof.
  destruct k as [|[|k]], n as [|n]; intros Hk; try lia.
  - simpl app. by rewrite mark_free_cell.
  - rewrite run_S, <- app_comm_cons, mark_free_cell by lia.
    change (Z.land 0xC1 HEAP_BLOCK_HAS_NEXT =? 0) with false. cbn iota.
    rewrite mark_free_tail by lia. by rewrite <- app_assoc.
Qed.

(** ** The heap against its contract

    [heap_ok h m]: the table of [h] is laid out as [m] (first block to number
    of blocks) and the data pool is page aligned and lies between
    [PEACHOS_HEAP_ADDRESS] and 2 GiB. *)
Record heap_ok (h : heap) (m : gmap Z Z) : Prop := {
  ok_table : table_ok h;
  ok_layout : layout 0 (entries (table h)) m;
  ok_saddr : 0x01000000 <= saddr h;
  ok_aligned : saddr h mod PEACHOS_HEAP_BLOCK_SIZE = 0;
  ok_end : saddr h + total (table h) * PEACHOS_HEAP_BLOCK_SIZE < 2 ^ 31 }.

Lemma layout_replicate n : forall i, layout i (replicate n 0) ∅.
Proof. induction n as [|n IH]; intros i; cbn [replicate]; constructor. apply IH. Qed.

(** The number of blocks [heap_malloc] takes for [size] bytes. *)
Definition blocks_of (size : Z) : Z := (size + 4095) / 4096.

Lemma blocks_of_pos size : 0 < size -> 0 < blocks_of size.
Proof. unfold blocks_of. zdm. Qed.

Lemma heap_malloc_blocks_of h size :
  0 < size < 2 ^ 31 -> heap_malloc h size = heap_malloc_blocks h (blocks_of size).
Proof.
  intros H. unfold heap_malloc. f_equal.
  unfold heap_align_value_to_upper, blocks_of, u32, PEACHOS_HEAP_BLOCK_SIZE.
  destruct (Z.eqb_spec (size mod 4096) 0); zdm.
Qed.

Lemma with_entries_ok h m es m' :
  heap_ok h m -> length es = length (entries (table h)) -> layout 0 es m' ->
  heap_ok (with_entries h es) m'.
Proof.
  intros [H1 H2 H3 H4 H5] Hl Hm. split; simpl; try done.
  unfold table_ok in *. simpl. by rewrite Hl.
Qed.

Lemma heap_malloc_fit h m size :
  heap_ok h m -> 0 < size < 2 ^ 31 ->
  (exists s, fits (entries (table h)) (Z.to_nat (blocks_of size)) s) ->
  exists s h',
    heap_malloc h size = Ok (saddr h + Z.of_nat s * PEACHOS_HEAP_BLOCK_SIZE, h') /\
    fits (entries (table h)) (Z.to_nat (blocks_of size)) s /\
    (forall s', (s' < s)%nat -> ~ fits (entries (table h)) (Z.to_nat (blocks_of size)) s') /\
    m !! Z.of_nat s = None /\
    saddr h' = saddr h /\
    entries (table h') = splice (entries (table h)) s (run (Z.to_nat (blocks_of size))) /\
    heap_ok h' (<[Z.of_nat s := blocks_of size]> m).
Proof.
  intros Hok Hsz [s0 Hs0]. rewrite heap_malloc_blocks_of by done.
  pose proof (blocks_of_pos size ltac:(lia)) as Hb.
  destruct (heap_get_start_block_spec h (Z.to_nat (blocks_of size)))
    as (bs & Hbs & E); [apply Hok|lia|].
  destruct Hbs as [(s & -> & Hfit & Hmin)|[Hno _]]; [|by destruct (Hno s0)].
  destruct (fits_decompose _ _ _ _ _ (ok_layout _ _ Hok) Hfit) as [Hle _]; [lia|].
  destruct (layout_take _ _ _ _ _ (ok_layout _ _ Hok) Hfit) as [Hnone Hlay]; [lia|].
  rewrite Z2Nat.id in Hlay by lia. rewrite Z.add_0_l in *.
  pose proof Hok as [Ht _ Hs _ He].
  assert (Hbn : blocks_of size < 2 ^ 31) by (unfold blocks_of; zdm).
  unfold heap_malloc_blocks. rewrite Z2Nat.id in E by lia. rewrite E.
  unfold mbind, out_bind.
  destruct (Z.eqb_spec (Z.of_nat s) (-1)); [lia|].
  destruct (Z.ltb_spec (Z.of_nat s) 0); [lia|].
  pose proof (mark_blocks_taken_spec h s (Z.to_nat (blocks_of size))) as Hm.
  rewrite Z2Nat.id in Hm by lia. rewrite i32_id, Hm by lia.
  eexists s, _. unfold heap_block_to_address.
  unfold table_ok in Ht. unfold PEACHOS_HEAP_BLOCK_SIZE in *. rewrite u32_id by lia.
  split; [done|]. split; [done|]. split; [done|]. split; [done|]. split; [done|]. split; [done|].
  apply (with_entries_ok h m); [done| |done]. rewrite length_splice; rewrite ?length_run; lia.
Qed.

(** Marking a run that does not fit stores behind the table. *)
Lemma mark_taken_overrun n : forall es i e entry,
  0 <= i -> i <= Z.of_nat (length es) < i + Z.of_nat n ->
  mark_taken_loop es i e entry n = Ub.
Proof.
  induction n as [|n IH]; intros es i e entry Hi Hlt; cbn [mark_taken_loop].
  - lia.
  - destruct (Z.ltb_spec i (Z.of_nat (length es))).
    + rewrite aset_ok by lia. unfold mbind, out_bind. apply IH; [lia|]. rewrite length_insert. lia.
    + by rewrite aset_ub by lia.
Qed.

Lemma heap_malloc_nofit h m size :
  heap_ok h m -> 0 < size < 2 ^ 31 ->
  (forall s, ~ fits (entries (table h)) (Z.to_nat (blocks_of size)) s) ->
  heap_malloc h size =
    if bool_decide (entries (table h) !! pred (length (entries (table h))) = Some 0) then Ub else Ok (0, h).
Proof.
  intros Hok Hsz Hno. rewrite heap_malloc_blocks_of by done.
  pose proof (blocks_of_pos size ltac:(lia)) as Hb.
  assert (Hbn : blocks_of size < 2 ^ 31) by (unfold blocks_of; zdm).
  destruct (heap_get_start_block_spec h (Z.to_nat (blocks_of size)))
    as (bs & Hbs & E); [apply Hok|lia|].
  rewrite Z2Nat.id in E by lia. unfold heap_malloc_blocks. rewrite E. unfold mbind, out_bind.
  destruct Hbs as [(s & -> & Hfit & _)|[_ [[-> Hlast]|(s & -> & Hr & Hf)]]]; [by destruct (Hno s)| |].
  - simpl. rewrite bool_decide_false; [done|]. intros Hz.
    apply lookup_lt_Some in Hz as ?.
    apply (Hlast (pred (length (entries (table h))))); [lia|]. by exists 0.
  - rewrite bool_decide_true.
    2:{ eapply layout_free_cell; [apply Hok|]. apply Hf. lia. }
    destruct (Z.eqb_spec (Z.of_nat s) (-1)); [lia|].
    destruct (Z.ltb_spec (Z.of_nat s) 0); [lia|]. rewrite i32_id by lia.
    unfold heap_mark_blocks_taken.
    by rewrite mark_taken_overrun by lia.
Qed.

Lemma heap_free_owned h m s n :
  heap_ok h m -> m !! Z.of_nat s = Some n ->
  exists h' pre suf,
    heap_free h (saddr h + Z.of_nat s * PEACHOS_HEAP_BLOCK_SIZE) = Ok h' /\
    entries (table h) = pre ++ run (Z.to_nat n) ++ suf /\ length pre = s /\
    h' = with_entries h (pre ++ replicate (Z.to_nat n) 0 ++ suf) /\
    heap_ok h' (delete (Z.of_nat s) m).
Proof.
  intros Hok Hm. destruct (layout_bounds _ _ _ _ _ (ok_layout _ _ Hok) Hm) as (_ & Hn & Hle).
  destruct (layout_find _ _ _ _ _ (ok_layout _ _ Hok) Hm) as (pre & suf & Hes & Hs & Hlay).
  pose proof (ok_table _ _ Hok) as Ht. unfold table_ok in Ht.
  pose proof (ok_end _ _ Hok) as He. pose proof (ok_saddr _ _ Hok) as Hsa.
  unfold PEACHOS_HEAP_BLOCK_SIZE in *.
  assert (Hlp : length pre = s) by lia.
  unfold heap_free, heap_mark_blocks_free, heap_address_to_block, PEACHOS_HEAP_BLOCK_SIZE.
  replace (saddr h + Z.of_nat s * 4096 - saddr h) with (Z.of_nat s * 4096) by lia.
  rewrite !i32_id by lia. rewrite Z.quot_mul by lia.
  rewrite Hes, <- Hlp, mark_free_run by lia.
  eexists _, pre, suf. split; [done|]. repeat (split; [done|]).
  apply (with_entries_ok h m); [done| |by rewrite Hlp].
  rewrite Hes. rewrite !length_app, length_replicate, length_run. done.
Qed.

(** ** Counting free blocks *)
Definition free_count (es : list Z) : nat := length (filter (fun e => e = 0) es).

Lemma free_count_app l1 l2 : free_count (l1 ++ l2) = (free_count l1 + free_count l2)%nat.
Proof. unfold free_count. by rewrite list.filter_app, length_app. Qed.

Lemma free_count_replicate n : free_count (replicate n 0) = n.
Proof.
  induction n as [|n IH]; [done|]. unfold free_count in *.
  rewrite replicate_S, filter_cons_True by done. cbn [length]. by rewrite IH.
Qed.

Lemma free_count_run n : free_count (run n) = 0%nat.
Proof.
  unfold free_count. destruct (filter _ (run n)) as [|x l] eqn:E; [done|].
  assert (Hx : x ∈ filter (fun e => e = 0) (run n)) by (rewrite E; by left).
  apply list_elem_of_filter in Hx as [-> Hx].
  apply list_elem_of_lookup in Hx as [k Hk]. by apply run_taken in Hk.
Qed.

Lemma free_count_zero es : free_count es = 0%nat <-> forall k, es !! k <> Some 0.
Proof.
  unfold free_count. split.
  - intros H k Hk. apply nil_length_inv in H.
    assert (Hx : 0 ∈ filter (fun e => e = 0) es).
    { apply list_elem_of_filter. split; [done|]. apply list_elem_of_lookup. eauto. }
    rewrite H in Hx. by apply not_elem_of_nil in Hx.
  - intros H. destruct (filter _ es) as [|x l] eqn:E; [done|].
    assert (Hx : x ∈ filter (fun e => e = 0) es) by (rewrite E; by left).
    apply list_elem_of_filter in Hx as [-> Hx].
    apply list_elem_of_lookup in Hx as [k Hk]. by destruct (H k).
Qed.

(** Taking the first fit from a heap with a run of [N] free blocks leaves a
    run of the blocks that were not asked for. *)
Lemma fits_after es n N s s0 :
  fits es N s -> (n <= N)%nat -> (s0 <= s)%nat -> (s0 + n <= length es)%nat ->
  exists s1, fits (splice es s0 (run n)) (N - n) s1.
Proof.
  intros HN Hn Hle Hlen. exists (s `max` (s0 + n))%nat. intros k Hk. destruct (HN k) as (e & He & Ht); [lia|].
  exists e. split; [|done]. rewrite lookup_splice_out by (rewrite ?length_run; lia). done.
Qed.

(** Freeing blocks keeps every free run. *)
Lemma fits_freed pre suf n N s : fits (pre ++ run n ++ suf) N s -> fits (pre ++ replicate n 0 ++ suf) N s.
Proof.
  intros HN k Hk. destruct (HN k Hk) as (e & He & Ht).
  destruct (decide (k < length pre)%nat) as [Hp|Hp].
  { exists e. by rewrite lookup_app_l in He |- * by lia. }
  rewrite lookup_app_r in He by lia. destruct (decide (k - length pre < n)%nat) as [Hr|Hr].
  - rewrite lookup_app_l in He by (rewrite length_run; lia). by apply run_taken in He.
  - exists e. rewrite lookup_app_r in He |- * by (rewrite ?length_run; lia).
    rewrite lookup_app_r by (rewrite length_replicate; lia).
    by rewrite length_run, length_replicate in *.
Qed.

End Heap.

(** ** The allocator interface

    What kheap.h promises to its clients.  [owns h m] relates the allocator
    state to the live allocations (address to number of blocks); [free_blocks]
    counts the free blocks.  Pointers are addresses and NULL is 0. *)
Class Allocator (H : Type) : Type := {
  kmalloc : H -> Z -> out (Z * H);
  kzalloc : H -> Z -> out (Z * H);
  kfree : H -> Z -> out H }.

(** [room h n]: some [n] consecutive blocks are free. *)
Class AllocatorSpec (H : Type) {A : Allocator H} : Type := {
  owns : H -> gmap Z Z -> Prop;
  free_blocks : H -> nat;
  room : H -> nat -> Prop;
  owns_page : forall h m p n, owns h m -> m !! p = Some n ->
    0x01000000 <= p /\ p mod 4096 = 0 /\ 0 < n /\ p + n * 4096 < 2 ^ 31;
  owns_disjoint : forall h m p q n k, owns h m -> m !! p = Some n -> m !! q = Some k -> p <> q ->
    p + n * 4096 <= q \/ q + k * 4096 <= p;
  kzalloc_room : forall h m size N, owns h m -> 0 < size < 2 ^ 31 -> room h N ->
    (Z.to_nat (Heap.blocks_of size) <= N)%nat ->
    exists p h', kzalloc h size = Ok (p, h') /\ p <> 0 /\ m !! p = None /\
      owns h' (<[p := Heap.blocks_of size]> m) /\ room h' (N - Z.to_nat (Heap.blocks_of size)) /\
      free_blocks h = (Z.to_nat (Heap.blocks_of size) + free_blocks h')%nat;
  kfree_room : forall h m p n N, owns h m -> m !! p = Some n -> room h N ->
    exists h', kfree h p = Ok h' /\ owns h' (delete p m) /\ room h' N /\
      free_blocks h' = (free_blocks h + Z.to_nat n)%nat;
  kzalloc_small : forall h m size, owns h m -> 0 < size <= 4096 ->
    exists p h', kzalloc h size = Ok (p, h') /\
      ((p = 0 /\ h' = h /\ free_blocks h = 0%nat) \/
       (0 < p < 2 ^ 31 /\ m !! p = None /\ owns h' (<[p := 1]> m) /\
        free_blocks h = S (free_blocks h')));
  kfree_owned : forall h m p n, owns h m -> m !! p = Some n ->
    exists h', kfree h p = Ok h' /\ owns h' (delete p m) /\
      free_blocks h' = (free_blocks h + Z.to_nat n)%nat }.

(** [m] with one block at each of the addresses. *)
Definition with_blocks (l : list Z) (m : gmap Z Z) : gmap Z Z := foldr (fun a m => <[a := 1]> m) m l.
Definition fresh_blocks (l : list Z) (m : gmap Z Z) : Prop := NoDup l /\ forall a, a ∈ l -> m !! a = None.

Lemma with_blocks_app l l' m : with_blocks (l ++ l') m = with_blocks l (with_blocks l' m).
Proof. apply foldr_app. Qed.

Lemma with_blocks_perm l l' m : l ≡ₚ l' -> with_blocks l m = with_blocks l' m.
Proof.
  induction 1 as [|a l l' _ IH|a b l|l1 l2 l3 _ IH1 _ IH2]; simpl; [done|by rewrite IH| |by rewrite IH1].
  destruct (decide (a = b)) as [->|Hne]; [done|]. by apply insert_insert_ne.
Qed.

Lemma with_blocks_None l m a : with_blocks l m !! a = None <-> (a ∉ l) /\ m !! a = None.
Proof.
  induction l as [|b l IH]; simpl.
  - split; [|by intros []]. intros Hm. split; [apply not_elem_of_nil|done].
  - rewrite lookup_insert_None, IH, not_elem_of_cons. split.
    + intros [[? ?] ?]. done.
    + intros [[? ?] ?]. done.
Qed.

Lemma with_blocks_in l m a : a ∈ l -> with_blocks l m !! a = Some 1.
Proof.
  induction l as [|b l IH]; intros Ha; [by apply not_elem_of_nil in Ha|]. cbn. destruct (decide (b = a)) as [->|]; [apply lookup_insert_eq|].
  rewrite lookup_insert_ne by done. apply IH. apply elem_of_cons in Ha as [->|?]; done.
Qed.
Lemma with_blocks_notin l m a : a ∉ l -> with_blocks l m !! a = m !! a.
Proof.
  induction l as [|b l IH]; intros Ha; [done|]. cbn. apply not_elem_of_cons in Ha as [H1 H2]. rewrite lookup_insert_ne by done. by apply IH.
Qed.

Lemma fresh_blocks_cons a l m : fresh_blocks (a :: l) m <-> with_blocks l m !! a = None /\ fresh_blocks l m.
Proof.
  unfold fresh_blocks. rewrite NoDup_cons, with_blocks_None. split.
  - intros [[? ?] Hm]. split; [split; [done|apply Hm; left]|]. split; [done|]. intros x Hx. apply Hm. by right.
  - intros [[? ?] [? Hm]]. split; [done|]. intros x Hx. apply elem_of_cons in Hx as [->|Hx]; auto.
Qed.

Lemma fresh_blocks_perm l l' m : l ≡ₚ l' -> fresh_blocks l m -> fresh_blocks l' m.
Proof. intros P [N F]. split; [by rewrite <- P|]. intros a Ha. apply F. by rewrite P. Qed.

Lemma fresh_cons a l m : m !! a = None -> fresh_blocks l (<[a := 1]> m) -> fresh_blocks (a :: l) m.
Proof.
  intros Ha [N1 N2]. split.
  - apply NoDup_cons. split; [|done]. intros Hin. specialize (N2 a Hin). by rewrite lookup_insert_eq in N2.
  - intros b Hb. apply elem_of_cons in Hb as [->|Hb]; [done|]. specialize (N2 b Hb). by apply lookup_insert_None in N2 as [].
Qed.

(** The allocator as operations of a state monad. *)
Section monadic.
Context {H : Type} {A : Allocator H}.

Definition alloc (size : Z) : M H Z := fun h => kzalloc h size.
Definition dealloc (p : Z) : M H unit := fun h => h ← kfree h p; Ok (tt, h).

Context {AS : AllocatorSpec H}.
Implicit Types h : H.

(** Going from [h] to [h'] costs at most [n] blocks of every free run. *)
Definition loses (h h' : H) (n : nat) : Prop := forall N, room h (N + n) -> room h' N.

Lemma loses_refl h : loses h h 0.
Proof. intros N. by rewrite Nat.add_0_r. Qed.
Lemma loses_trans h1 h2 h3 a b n : loses h1 h2 a -> loses h2 h3 b -> n = (a + b)%nat -> loses h1 h3 n.
Proof. intros L1 L2 -> N Hr. apply L2, L1. by replace (N + b + a)%nat with (N + (a + b))%nat by lia. Qed.

(** The two laws without [room] lose no more than the blocks they take. *)
Lemma kzalloc_loses h m size p h' : owns h m -> 0 < size <= 4096 -> kzalloc h size = Ok (p, h') -> loses h h' 1.
Proof.
  intros Ho Hs E N Hr. assert (Hb : Z.to_nat (Heap.blocks_of size) = 1%nat) by (unfold Heap.blocks_of; zdm).
  destruct (kzalloc_room h m size (N + 1) Ho) as (q & h2 & E2 & _ & _ & _ & Hr2 & _); [lia|done|lia|].
  rewrite Hb, Nat.add_sub in Hr2. congruence.
Qed.
Lemma kfree_loses h m p n h' : owns h m -> m !! p = Some n -> kfree h p = Ok h' -> loses h h' 0.
Proof.
  intros Ho Hp E N Hr. rewrite Nat.add_0_r in Hr. destruct (kfree_room h m p n N Ho Hp Hr) as (h2 & E2 & _ & Hr2 & _). congruence.
Qed.

Lemma alloc_spec h m size :
  owns h m -> 0 < size <= 4096 -> (1 <= free_blocks h)%nat ->
  wp (alloc size) (fun p h' => 0 < p < 2 ^ 31 /\ m !! p = None /\ owns h' (<[p := 1]> m) /\
    free_blocks h = S (free_blocks h') /\ loses h h' 1) h.
Proof.
  intros Ho Hs Hf. destruct (kzalloc_small h m size Ho Hs) as (p & h' & E & [(_ & _ & ?)|(Hp & Hm & Ho' & Hf')]); [lia|].
  unfold wp, alloc. rewrite E. repeat (split; [done|]). by apply (kzalloc_loses h m size p).
Qed.

Lemma dealloc_spec h m p n :
  owns h m -> m !! p = Some n ->
  wp (dealloc p) (fun _ h' => owns h' (delete p m) /\ free_blocks h' = (free_blocks h + Z.to_nat n)%nat /\ loses h h' 0) h.
Proof.
  intros Ho Hp. destruct (kfree_owned h m p n Ho Hp) as (h' & E & Hh & Hf). unfold wp, dealloc. rewrite E. split; [exact Hh|].
  split; [exact Hf|]. by apply (kfree_loses h m p n).
Qed.

(** With [room], allocation of any size succeeds. *)
Lemma alloc_room h m size N :
  owns h m -> 0 < size < 2 ^ 31 -> room h N -> (Z.to_nat (Heap.blocks_of size) <= N)%nat ->
  wp (alloc size) (fun p h' => p <> 0 /\ m !! p = None /\ owns h' (<[p := Heap.blocks_of size]> m) /\
    room h' (N - Z.to_nat (Heap.blocks_of size)) /\
    free_blocks h = (Z.to_nat (Heap.blocks_of size) + free_blocks h')%nat) h.
Proof.
  intros Ho Hs Hr Hn. destruct (kzalloc_room h m size N Ho Hs Hr Hn) as (p & h' & E & Hp).
  unfold wp, alloc. by rewrite E.
Qed.

Lemma room_free_all h m N n : owns h m -> room h N -> (n <= N)%nat -> (0 < n)%nat -> Z.of_nat n < 2 ^ 19 -> (n <= free_blocks h)%nat.
Proof.
  intros Ho Hr HN Hn Hn2. assert (Hb : Z.to_nat (Heap.blocks_of (Z.of_nat n * 4096)) = n) by (unfold Heap.blocks_of; zdm).
  destruct (kzalloc_room h m (Z.of_nat n * 4096) N Ho) as (p & h' & _ & _ & _ & _ & _ & E); [lia|done|by rewrite Hb|].
  rewrite Hb in E. lia.
Qed.
Lemma room_free h m N : owns h m -> room h N -> (2 <= N)%nat -> (2 <= free_blocks h)%nat.
Proof. intros Ho Hr HN. apply (room_free_all h m N 2); [done..|lia|lia]. Qed.

Lemma dealloc_room h m p n N :
  owns h m -> m !! p = Some n -> room h N ->
  wp (dealloc p) (fun _ h' => owns h' (delete p m) /\ room h' N /\ free_blocks h' = (free_blocks h + Z.to_nat n)%nat) h.
Proof.
  intros Ho Hp Hr. destruct (kfree_room h m p n N Ho Hp Hr) as (h' & E & Hh). unfold wp, dealloc. rewrite E. exact Hh.
Qed.
End monadic.

(** ** src/memory/heap/kheap.c *)
Module KHeap.
Import Heap.

(** The kernel heap and the bytes of memory. *)
Record kheap := mk_kheap { kernel_heap : heap; memory : gmap Z Z }.

(** [kheap_init]; the flag says that "Failed to create heap" is printed. *)
Definition kheap_init (table_bytes : list Z) (mem : gmap Z Z) : out (bool * kheap) :=
  let total_table_entries := PEACHOS_HEAP_SIZE_BYTES / PEACHOS_HEAP_BLOCK_SIZE in
  let kernel_heap_table := mk_table table_bytes total_table_entries in
  let end_ := PEACHOS_HEAP_ADDRESS + PEACHOS_HEAP_SIZE_BYTES in
  '(res, h) ← heap_create (mk_heap kernel_heap_table 0) PEACHOS_HEAP_ADDRESS end_ kernel_heap_table;
  Ok (res <? 0, mk_kheap h mem).

Definition kheap_malloc (k : kheap) (size : Z) : out (Z * kheap) :=
  '(p, h) ← heap_malloc (kernel_heap k) size;
  Ok (p, mk_kheap h (memory k)).

(** [memset(ptr, 0x00, size)] on memory. *)
Definition mem_zero (mem : gmap Z Z) (ptr size : Z) : gmap Z Z :=
  foldr (fun a m => <[a := 0]> m) mem (seqZ ptr size).

Definition kheap_zalloc (k : kheap) (size : Z) : out (Z * kheap) :=
  '(ptr, k) ← kheap_malloc k size;
  if ptr =? 0 then Ok (0, k)
  else Ok (ptr, mk_kheap (kernel_heap k) (mem_zero (memory k) ptr size)).

Definition kheap_free (k : kheap) (ptr : Z) : out kheap :=
  h ← heap_free (kernel_heap k) ptr;
  Ok (mk_kheap h (memory k)).

#[global] Instance kheap_allocator : Allocator kheap := {|
  kmalloc := kheap_malloc; kzalloc := kheap_zalloc; kfree := kheap_free |}.

(** Live allocations by address. *)
Definition by_address (h : heap) (m : gmap Z Z) : gmap Z Z :=
  kmap (fun b => saddr h + b * PEACHOS_HEAP_BLOCK_SIZE) m.

Definition kheap_owns (k : kheap) (am : gmap Z Z) : Prop :=
  exists m, heap_ok (kernel_heap k) m /\ am = by_address (kernel_heap k) m.

#[local] Instance address_inj (h : heap) :
  Inj (=) (=) (fun b : Z => saddr h + b * PEACHOS_HEAP_BLOCK_SIZE).
Proof. intros a b. unfold PEACHOS_HEAP_BLOCK_SIZE. lia. Qed.

Lemma by_address_lookup h m b :
  by_address h m !! (saddr h + b * PEACHOS_HEAP_BLOCK_SIZE) = m !! b.
Proof. apply (lookup_kmap (fun b => saddr h + b * PEACHOS_HEAP_BLOCK_SIZE)). Qed.

Lemma by_address_insert h m b n :
  by_address h (<[b := n]> m) =
  <[saddr h + b * PEACHOS_HEAP_BLOCK_SIZE := n]> (by_address h m).
Proof. apply (kmap_insert (fun b => saddr h + b * PEACHOS_HEAP_BLOCK_SIZE)). Qed.

Lemma by_address_delete h m b :
  by_address h (delete b m) = delete (saddr h + b * PEACHOS_HEAP_BLOCK_SIZE) (by_address h m).
Proof. apply (kmap_delete (fun b => saddr h + b * PEACHOS_HEAP_BLOCK_SIZE)). Qed.

Lemma by_address_saddr h h' m : saddr h' = saddr h -> by_address h' m = by_address h m.
Proof. unfold by_address. by intros ->. Qed.

Lemma by_address_inv h m p n :
  by_address h m !! p = Some n -> exists b, p = saddr h + b * PEACHOS_HEAP_BLOCK_SIZE /\ m !! b = Some n.
Proof.
  intros H. apply (lookup_kmap_Some (fun b => saddr h + b * PEACHOS_HEAP_BLOCK_SIZE)) in H
    as (b & -> & Hb). eauto.
Qed.

(** One-block requests never overrun the table: they fail exactly when no
    block is free. *)
Lemma heap_malloc_small h m size :
  heap_ok h m -> 0 < size <= 4096 ->
  exists p h', heap_malloc h size = Ok (p, h') /\
    ((p = 0 /\ h' = h /\ free_count (entries (table h)) = 0%nat) \/
     (exists s : nat, p = saddr h + Z.of_nat s * PEACHOS_HEAP_BLOCK_SIZE /\ 0 < p < 2 ^ 31 /\
        m !! Z.of_nat s = None /\ saddr h' = saddr h /\ heap_ok h' (<[Z.of_nat s := 1]> m) /\
        free_count (entries (table h)) = S (free_count (entries (table h'))))).
Proof.
  intros Hok Hsz. assert (Hb : blocks_of size = 1) by (unfold blocks_of; zdm).
  destruct (decide (free_count (entries (table h)) = 0%nat)) as [Hz|Hnz].
  - pose proof (proj1 (free_count_zero _) Hz) as Hnone.
    rewrite (heap_malloc_nofit h m size); [|done|lia|].
    + rewrite bool_decide_false by apply Hnone. exists 0, h. auto.
    + intros s Hs. rewrite Hb in Hs. specialize (Hs s ltac:(lia)).
      eapply layout_free_cell in Hs; [|apply Hok]. by destruct (Hnone s).
  - destruct (heap_malloc_fit h m size) as (s & h' & E & Hfit & _ & Hm & Hsa & He & Hok');
      [done|lia| |].
    { rewrite Hb. destruct (list_find (fun e => e = 0) (entries (table h))) as [[k e]|] eqn:F.
      - apply list_find_Some in F as (Hk & -> & _). exists k. intros j Hj.
        replace j with k by lia. by exists 0.
      - exfalso. apply Hnz, free_count_zero. intros k Hk.
        apply list_find_None in F. rewrite Forall_lookup in F. by apply (F k 0). }
    rewrite Hb in *. destruct (fits_decompose _ _ _ _ _ (ok_layout _ _ Hok) Hfit) as [Hle Hd]; [lia|].
    eexists _, h'. split; [done|]. right. exists s. split; [done|].
    pose proof (ok_table _ _ Hok) as Ht. pose proof (ok_saddr _ _ Hok). pose proof (ok_end _ _ Hok).
    unfold table_ok, PEACHOS_HEAP_BLOCK_SIZE in *.
    split; [lia|]. repeat (split; [done|]).
    rewrite He. unfold splice. rewrite Hd at 1. rewrite !free_count_app, free_count_run, free_count_replicate.
    rewrite length_run. lia.
Qed.

(** A run of free blocks serves any request that is not longer. *)
Lemma kheap_zalloc_room k am size N :
  kheap_owns k am -> 0 < size < 2 ^ 31 -> (exists s, fits (entries (table (kernel_heap k))) N s) ->
  (Z.to_nat (blocks_of size) <= N)%nat ->
  exists p k', kheap_zalloc k size = Ok (p, k') /\ p <> 0 /\ am !! p = None /\
    kheap_owns k' (<[p := blocks_of size]> am) /\
    (exists s, fits (entries (table (kernel_heap k'))) (N - Z.to_nat (blocks_of size)) s) /\
    free_count (entries (table (kernel_heap k))) =
      (Z.to_nat (blocks_of size) + free_count (entries (table (kernel_heap k'))))%nat.
Proof.
  intros (m & Hok & ->) Hsz [s HN] Hle.
  assert (Hs : fits (entries (table (kernel_heap k))) (Z.to_nat (blocks_of size)) s) by (intros i Hi; apply HN; lia).
  destruct (heap_malloc_fit (kernel_heap k) m size Hok Hsz (ex_intro _ s Hs)) as (s0 & h' & E & Hf & Hmin & Hm & Hsa & He & Hok').
  pose proof (blocks_of_pos size ltac:(lia)).
  destruct (fits_decompose _ _ _ _ _ (ok_layout _ _ Hok) Hf) as [Hlen Hd]; [lia|].
  pose proof (ok_saddr _ _ Hok).
  assert (Hp0 : saddr (kernel_heap k) + Z.of_nat s0 * PEACHOS_HEAP_BLOCK_SIZE <> 0) by (unfold PEACHOS_HEAP_BLOCK_SIZE; lia).
  unfold kheap_zalloc, kheap_malloc, mbind, out_bind. rewrite E. cbn beta iota.
  apply Z.eqb_neq in Hp0 as Hb. rewrite Hb. eexists _, _. split; [done|]. split; [done|].
  split; [by rewrite by_address_lookup|]. cbn [kernel_heap]. split; [|split].
  - exists (<[Z.of_nat s0 := blocks_of size]> m). split; [done|].
    by rewrite (by_address_saddr (kernel_heap k) h' _ Hsa), by_address_insert.
  - rewrite He. apply (fits_after _ _ _ s); [done..| |done].
    destruct (decide (s0 <= s)%nat); [done|]. destruct (Hmin s); [lia|done].
  - rewrite He. unfold splice. rewrite Hd at 1. rewrite !free_count_app, free_count_run, free_count_replicate, length_run. lia.
Qed.

#[global, refine] Instance kheap_allocator_spec : AllocatorSpec kheap := {|
  owns := kheap_owns; free_blocks := fun k => free_count (entries (table (kernel_heap k)));
  room := fun k n => exists s, fits (entries (table (kernel_heap k))) n s |}.
Proof.
  - intros k am p n (m & Hok & ->) Hp. apply by_address_inv in Hp as (b & -> & Hb).
    destruct (layout_bounds _ _ _ _ _ (ok_layout _ _ Hok) Hb) as (Hb0 & Hn & Hl).
    destruct Hok as [Ht _ Hs Ha He]. unfold table_ok, PEACHOS_HEAP_BLOCK_SIZE in *. zdm.
  - intros k am p q n j (m & Hok & ->) Hp Hq Hne. apply by_address_inv in Hp as (b & -> & Hb).
    apply by_address_inv in Hq as (c & -> & Hc).
    destruct (layout_disjoint _ _ _ b c n j (ok_layout _ _ Hok) Hb Hc) as [?|?];
      [by intros ->| |]; unfold PEACHOS_HEAP_BLOCK_SIZE; lia.
  - exact kheap_zalloc_room.
  - intros k am p n N (m & Hok & ->) Hp [s HN]. apply by_address_inv in Hp as (b & -> & Hb).
    destruct (layout_bounds _ _ _ _ _ (ok_layout _ _ Hok) Hb) as (Hb0 & _ & _).
    rewrite <- (Z2Nat.id b) in Hb |- * by lia.
    destruct (heap_free_owned (kernel_heap k) m (Z.to_nat b) n Hok Hb)
      as (h' & pre & suf & E & He & Hl & -> & Hok').
    change (@kfree kheap kheap_allocator) with kheap_free.
    unfold kheap_free, mbind, out_bind. rewrite E. eexists. split; [done|]. split; [|split].
    + eexists. split; [done|]. rewrite <- by_address_delete. by apply by_address_saddr.
    + exists s. cbn. rewrite He in HN. by apply fits_freed.
    + simpl. rewrite He, !free_count_app, free_count_run, free_count_replicate. lia.
  - intros k am size (m & Hok & ->) Hsz.
    destruct (heap_malloc_small (kernel_heap k) m size Hok Hsz) as (p & h' & E & Hcase).
    change (@kzalloc kheap kheap_allocator) with kheap_zalloc.
    unfold kheap_zalloc, kheap_malloc, mbind, out_bind. rewrite E. simpl.
    destruct Hcase as [(-> & -> & Hz)|(s & Hp & Hr & Hm & Hsa & Hok' & Hc)].
    + exists 0, k. simpl. split; [by destruct k|]. by left.
    + destruct (Z.eqb_spec p 0); [lia|]. eexists p, _. split; [done|]. right. simpl.
      split; [lia|]. subst p. split; [by rewrite by_address_lookup|]. split; [|done].
      exists (<[Z.of_nat s := 1]> m). split; [done|]. simpl.
      by rewrite (by_address_saddr (kernel_heap k) h' _ Hsa), by_address_insert.
  - intros k am p n (m & Hok & ->) Hp. apply by_address_inv in Hp as (b & -> & Hb).
    destruct (layout_bounds _ _ _ _ _ (ok_layout _ _ Hok) Hb) as (Hb0 & _ & _).
    rewrite <- (Z2Nat.id b) in Hb |- * by lia.
    destruct (heap_free_owned (kernel_heap k) m (Z.to_nat b) n Hok Hb)
      as (h' & pre & suf & E & He & Hl & -> & Hok').
    change (@kfree kheap kheap_allocator) with kheap_free.
    unfold kheap_free, mbind, out_bind. rewrite E. eexists. split; [done|]. split.
    + eexists. split; [done|]. rewrite <- by_address_delete. by apply by_address_saddr.
    + simpl. rewrite He, !free_count_app, free_count_run, free_count_replicate. lia.
Defined.

(** The whole heap is one run of free blocks. *)
Lemma kheap_init_spec es mem : length es = Z.to_nat 25600 ->
  exists h, kheap_init es mem = Ok (false, h) /\ owns h ∅ /\ room h (Z.to_nat 25600) /\ memory h = mem.
Proof.
  intros Hl. unfold kheap_init, heap_create. cbn [entries total].
  change (PEACHOS_HEAP_SIZE_BYTES / PEACHOS_HEAP_BLOCK_SIZE) with 25600. cbn [negb orb].
  rewrite CMem.memset_ok by lia. rewrite drop_ge by lia. rewrite app_nil_r.
  eexists. split; [reflexivity|]. change (u8 HEAP_BLOCK_TABLE_ENTRY_FREE) with 0. split; [|split; [|done]].
  - exists ∅. split; [|done]. split; [|apply layout_replicate|done|done|done].
    unfold table_ok. cbn [table total entries with_entries kernel_heap]. rewrite length_replicate. lia.
  - exists 0%nat. intros j Hj. exists 0. split; [|done]. apply lookup_replicate_2. lia.
Qed.
End KHeap.

(** ** Theorems *)
Import Heap KHeap.

(** C37: [heap_malloc] of [size] bytes, when some run of free blocks is long
    enough, returns the address of the first such run (first fit), records
    one new allocation of exactly [size] rounded up to whole blocks, keeps
    every other allocation, and the new blocks overlap no live allocation. *)
Theorem heap_malloc_correct h m size :
  heap_ok h m -> 0 < size < 2 ^ 31 ->
  (exists s, fits (entries (table h)) (Z.to_nat (blocks_of size)) s) ->
  exists s h',
    heap_malloc h size = Ok (saddr h + Z.of_nat s * PEACHOS_HEAP_BLOCK_SIZE, h') /\
    fits (entries (table h)) (Z.to_nat (blocks_of size)) s /\
    (forall s', (s' < s)%nat -> ~ fits (entries (table h)) (Z.to_nat (blocks_of size)) s') /\
    heap_ok h' (<[Z.of_nat s := blocks_of size]> m) /\
    m !! Z.of_nat s = None /\
    (forall b n, m !! b = Some n -> b + n <= Z.of_nat s \/ Z.of_nat s + blocks_of size <= b).
Proof.
  intros Hok Hsz Hfit.
  destruct (heap_malloc_fit h m size Hok Hsz Hfit) as (s & h' & ? & ? & ? & ? & _ & _ & Hok').
  exists s, h'. repeat (split; [done|]). intros b n Hb.
  destruct (decide (b = Z.of_nat s)) as [->|Hne]; [congruence|].
  eapply (layout_disjoint _ _ _ b (Z.of_nat s) n (blocks_of size) (ok_layout _ _ Hok')); [| |done];
    by simplify_map_eq.
Qed.

(** A heap of four blocks whose first block is taken. *)
Definition example_heap : heap := mk_heap (mk_table [0x41; 0; 0; 0] 4) 0x01000000.

Lemma example_heap_ok : heap_ok example_heap {[0 := 1]}.
Proof.
  split; [done| |done|done|done]. simpl.
  apply (layout_alloc 0 1 [0; 0; 0] ∅); [lia|]. repeat constructor.
Qed.

Lemma heap_malloc_correct_witness :
  exists s h', heap_malloc example_heap 5000 = Ok (0x01000000 + Z.of_nat s * 4096, h') /\
    heap_ok h' (<[Z.of_nat s := 2]> {[0 := 1]}).
Proof.
  destruct (heap_malloc_correct example_heap {[0 := 1]} 5000) as (s & h' & H1 & _ & _ & H4 & _).
  - exact example_heap_ok.
  - lia.
  - exists 1%nat. intros k Hk.
    assert (k = 1%nat \/ k = 2%nat) as [-> | ->] by (change (Z.to_nat (blocks_of 5000)) with 2%nat in Hk; lia);
      by exists 0.
  - exists s, h'. split; [exact H1|exact H4].
Defined.

(** [heap_free] of the address of a live allocation returns normally,
    releases exactly the blocks of that allocation and keeps every other one. *)
Theorem heap_free_correct h m s n :
  heap_ok h m -> m !! Z.of_nat s = Some n ->
  exists h', heap_free h (saddr h + Z.of_nat s * PEACHOS_HEAP_BLOCK_SIZE) = Ok h' /\
    heap_ok h' (delete (Z.of_nat s) m) /\
    free_count (entries (table h')) = (free_count (entries (table h)) + Z.to_nat n)%nat.
Proof.
  intros Hok Hm. destruct (heap_free_owned h m s n Hok Hm)
    as (h' & pre & suf & E & He & Hl & -> & Hok').
  eexists. split; [done|]. split; [done|]. simpl.
  rewrite He, !free_count_app, free_count_run, free_count_replicate. lia.
Qed.

Lemma heap_free_correct_witness :
  exists h', heap_free example_heap 0x01000000 = Ok h' /\ heap_ok h' (delete 0 {[0 := 1]}).
Proof.
  destruct (heap_free_correct example_heap {[0 := 1]} 0 1) as (h' & H1 & H2 & _).
  - exact example_heap_ok.
  - reflexivity.
  - exists h'. split; [exact H1|exact H2].
Defined.

(** Allocating and then freeing gives back the very same heap: the round
    trip of [heap_malloc] and [heap_free] leaves no trace in the table. *)
Theorem heap_malloc_free_roundtrip h m size :
  heap_ok h m -> 0 < size < 2 ^ 31 ->
  (exists s, fits (entries (table h)) (Z.to_nat (blocks_of size)) s) ->
  exists p h', heap_malloc h size = Ok (p, h') /\ p <> 0 /\ heap_free h' p = Ok h.
Proof.
  intros Hok Hsz Hfit.
  destruct (heap_malloc_fit h m size Hok Hsz Hfit) as (s & h' & E & Hf & _ & Hm & Hsa & He & Hok').
  pose proof (blocks_of_pos size ltac:(lia)).
  destruct (fits_decompose _ _ _ _ _ (ok_layout _ _ Hok) Hf) as [Hle Hd]; [lia|].
  destruct (heap_free_owned h' _ s (blocks_of size) Hok') as (h2 & pre & suf & E2 & He2 & Hl & -> & _);
    [by simplify_map_eq|].
  exists (saddr h + Z.of_nat s * PEACHOS_HEAP_BLOCK_SIZE), h'. split; [done|].
  pose proof (ok_saddr _ _ Hok). split; [unfold PEACHOS_HEAP_BLOCK_SIZE; lia|].
  rewrite <- Hsa, E2. f_equal.
  rewrite He in He2. unfold splice in He2.
  apply app_inj_1 in He2 as [<- He2]; [|rewrite length_take; lia].
  apply app_inv_head in He2 as <-. rewrite length_run, <- Hd.
  pose proof (ok_table _ _ Hok) as T. pose proof (ok_table _ _ Hok') as T'.
  unfold table_ok in *. rewrite He, length_splice in T' by (rewrite length_run; lia).
  destruct h as [[es t] sa], h' as [[es' t'] sa']. unfold with_entries. simpl in *. congruence.
Qed.

Lemma heap_malloc_free_roundtrip_witness :
  exists p h', heap_malloc example_heap 5000 = Ok (p, h') /\ p <> 0 /\ heap_free h' p = Ok example_heap.
Proof.
  apply (heap_malloc_free_roundtrip example_heap {[0 := 1]} 5000).
  - exact example_heap_ok.
  - lia.
  - exists 1%nat. intros k Hk.
    assert (k = 1%nat \/ k = 2%nat) as [-> | ->] by (change (Z.to_nat (blocks_of 5000)) with 2%nat in Hk; lia);
      by exists 0.
Defined.

(** C40: when no run of free blocks is long enough, [heap_malloc] returns NULL
    and leaves the heap alone only if the last block of the table is taken;
    if the table ends in a (too short) run of free blocks the scan returns
    the start of that run and the allocator stores behind the table. *)
Theorem heap_malloc_exhausted h m size :
  heap_ok h m -> 0 < size < 2 ^ 31 ->
  (forall s, ~ fits (entries (table h)) (Z.to_nat (blocks_of size)) s) ->
  heap_malloc h size =
    if bool_decide (entries (table h) !! pred (length (entries (table h))) = Some 0)
    then Ub else Ok (0, h).
Proof. apply heap_malloc_nofit. Qed.

Lemma heap_malloc_exhausted_witness : heap_malloc example_heap 20000 = Ub.
Proof.
  rewrite (heap_malloc_exhausted example_heap {[0 := 1]} 20000).
  - reflexivity.
  - exact example_heap_ok.
  - lia.
  - intros s Hs. destruct (Hs (s + 4)%nat) as (e & He & _); [change (Z.to_nat (blocks_of 20000)) with 5%nat; lia|].
    apply lookup_lt_Some in He. simpl in He. lia.
Defined.
