(* ===== verification/Disk.v ===== *)
(** * The disk layer: src/disk/disk.c (block level) and src/disk/streamer.c

    [BlockDevice] is what streamer.c uses of disk.c: reading and writing whole
    512-byte sectors.  [BlockDeviceSpec] states what such a device promises;
    the port-level driver of file Ata discharges it.  [byte d p] is the byte
    at absolute position [p]; the streamer's theorems say that it reads and
    writes exactly these bytes. *)
From Stdlib Require Import ZArith Lia.
From stdpp Require Import base list gmap numbers option list_numbers.
From S2P Require Import Prelude CLib Heap.
Local Open Scope Z_scope.
Local Open Scope kernel_scope.

(** ** Sector devices *)
Class BlockDevice (D : Type) : Type := {
  disk_read_sector : D -> Z -> Z -> out (list Z * D);
  disk_write_sector : D -> Z -> Z -> list Z -> out D }.

(** Sectors are addressed by 28-bit LBA. *)
Definition lba_ok (lba : Z) : Prop := 0 <= lba < 2 ^ 28.

Class BlockDeviceSpec (D : Type) {B : BlockDevice D} : Type := {
  dev_ok : D -> Prop;
  sector : D -> Z -> list Z;
  sector_length : forall d i, dev_ok d -> length (sector d i) = 512%nat;
  sector_bytes : forall d i, dev_ok d -> bytes_ok (sector d i);
  read_spec : forall d lba, dev_ok d -> lba_ok lba ->
    exists d', disk_read_sector d lba 1 = Ok (sector d lba, d') /\ dev_ok d' /\
      forall i, sector d' i = sector d i;
  write_spec : forall d lba b, dev_ok d -> lba_ok lba -> length b = 512%nat -> bytes_ok b ->
    exists d', disk_write_sector d lba 1 b = Ok d' /\ dev_ok d' /\
      sector d' lba = b /\ forall i, lba_ok i -> i <> lba -> sector d' i = sector d i }.

(** A pointer to a [struct disk]: the kernel has one, the global [disk]. *)
Inductive disk_ref := DISK | OTHER (addr : Z).
#[global] Instance disk_ref_eq_dec : EqDecision disk_ref.
Proof. solve_decision. Defined.

Definition disk_get (index : Z) : option disk_ref :=
  if negb (index =? 0) then None else Some DISK.

(** ** src/disk/streamer.c *)
Module Streamer.

(** [self] is the address of the object. *)
Record disk_stream := mk_stream { self : Z; pos : Z; disk : disk_ref }.
Definition set_pos (s : disk_stream) (p : Z) : disk_stream := mk_stream (self s) p (disk s).
Definition sizeof_disk_stream : Z := 8.

Section code.
Context {D : Type} {B : BlockDevice D} {H : Type} {A : Allocator H}.

(** [disk_read_block] and [disk_write_block] return [-EIO] for a disk that
    is not the global one. *)
Definition disk_read_block (d : D) (idisk : disk_ref) (lba total : Z) : out (Z * list Z * D) :=
  if negb (bool_decide (idisk = DISK)) then Ok (- EIO, [], d)
  else '(buf, d) ← disk_read_sector d (i32 lba) total; Ok (0, buf, d).

Definition disk_write_block (d : D) (idisk : disk_ref) (lba total : Z) (buf : list Z) : out (Z * D) :=
  if negb (bool_decide (idisk = DISK)) then Ok (- EIO, d)
  else d ← disk_write_sector d (i32 lba) total buf; Ok (0, d).

Definition diskstreamer_new (h : H) (disk_id : Z) : out (option disk_stream * H) :=
  match disk_get disk_id with
  | None => Ok (None, h)
  | Some disk =>
      '(streamer, h) ← kzalloc h sizeof_disk_stream;
      if streamer =? 0 then Ub
      else Ok (Some (mk_stream streamer 0 disk), h)
  end.

Definition diskstreamer_seek (stream : disk_stream) (pos : Z) : Z * disk_stream :=
  (0, set_pos stream pos).

(** The copy loop [out[i] = buf[offset + i]] of [diskstreamer_read]. *)
Definition read_window (buf : list Z) (offset total : Z) : out (list Z) :=
  if total <=? 0 then Ok []
  else if (offset <? 0) || (Z.of_nat (length buf) <? offset + total) then Ub
  else Ok (take (Z.to_nat total) (drop (Z.to_nat offset) buf)).

(** [diskstreamer_read] returns its result, the bytes stored through [out],
    and the stream. *)
Fixpoint read_rec (fuel : nat) (d : D) (stream : disk_stream) (total : Z) :
    out (Z * list Z * disk_stream * D) :=
  match fuel with
  | O => Hang
  | S fuel =>
      let sector := pos stream ÷ PEACHOS_SECTOR_SIZE in
      let offset := Z.rem (pos stream) PEACHOS_SECTOR_SIZE in
      '(res, buf, d) ← disk_read_block d (disk stream) (u32 sector) 1;
      if res <? 0 then Ok (res, [], stream, d)
      else
        let total_to_read := if total >? PEACHOS_SECTOR_SIZE then PEACHOS_SECTOR_SIZE else total in
        bytes ← read_window buf offset total_to_read;
        let stream := set_pos stream (i32 (pos stream + total_to_read)) in
        if total >? PEACHOS_SECTOR_SIZE then
          '(res, rest, stream, d) ← read_rec fuel d stream (total - PEACHOS_SECTOR_SIZE);
          Ok (res, bytes ++ rest, stream, d)
        else Ok (res, bytes, stream, d)
  end.
Definition diskstreamer_read (d : D) (stream : disk_stream) (total : Z) :
    out (Z * list Z * disk_stream * D) :=
  read_rec (S (Z.to_nat total)) d stream total.

Fixpoint write_rec (fuel : nat) (d : D) (stream : disk_stream) (input : list Z) (total : Z) :
    out (Z * disk_stream * D) :=
  match fuel with
  | O => Hang
  | S fuel =>
      let sector := pos stream ÷ PEACHOS_SECTOR_SIZE in
      let offset := Z.rem (pos stream) PEACHOS_SECTOR_SIZE in
      '(res, buf, d) ← disk_read_block d (disk stream) (u32 sector) 1;
      if res <? 0 then Ok (res, stream, d)
      else
        let total_to_write :=
          if total >? PEACHOS_SECTOR_SIZE - offset then PEACHOS_SECTOR_SIZE - offset else total in
        (* memcpy(buf + offset, in, total_to_write) *)
        if offset <? 0 then Ub
        else
          tail ← CMem.memcpy (drop (Z.to_nat offset) buf) input total_to_write;
          let buf := take (Z.to_nat offset) buf ++ tail in
          '(res, d) ← disk_write_block d (disk stream) (u32 sector) 1 buf;
          if res <? 0 then Ok (res, stream, d)
          else
            let stream := set_pos stream (i32 (pos stream + total_to_write)) in
            if total >? total_to_write then
              write_rec fuel d stream (drop (Z.to_nat total_to_write) input) (total - total_to_write)
            else Ok (res, stream, d)
  end.
Definition diskstreamer_write (d : D) (stream : disk_stream) (input : list Z) (total : Z) :
    out (Z * disk_stream * D) :=
  write_rec (S (Z.to_nat total)) d stream input total.

Definition diskstreamer_close (h : H) (stream : disk_stream) : out H := kfree h (self stream).
End code.
End Streamer.

(** ** The bytes of a device *)
Section bytes.
Context {D : Type} {B : BlockDevice D} {BS : BlockDeviceSpec D}.

Definition byte (d : D) (p : Z) : Z := default 0 (sector d (p / 512) !! Z.to_nat (p mod 512)).
Definition bytes (d : D) (p n : Z) : list Z := byte d <$> seqZ p n.

(** Two device states with the same contents. *)
Record same_disk (d d' : D) : Prop := mk_same { same_sector : forall i, sector d' i = sector d i }.
#[global] Instance same_disk_equivalence : Equivalence same_disk.
Proof.
  split; [by constructor|intros x y [Hxy]; by constructor|].
  intros x y z [Hxy] [Hyz]. constructor. intros i. by rewrite Hyz, Hxy.
Qed.
#[global] Instance byte_proper : Proper (same_disk ==> (=) ==> (=)) byte.
Proof. intros d d' [Hd] p ? <-. unfold byte. by rewrite Hd. Qed.
#[global] Instance bytes_proper : Proper (same_disk ==> (=) ==> (=) ==> (=)) bytes.
Proof.
  intros d d' Hd p ? <- n ? <-. unfold bytes. apply list_fmap_ext. intros i x _.
  by rewrite Hd.
Qed.

Lemma bytes_same d d' p n : same_disk d d' -> bytes d' p n = bytes d p n.
Proof. intros Hd. by rewrite Hd. Qed.

Lemma length_bytes d p n : length (bytes d p n) = Z.to_nat n.
Proof. unfold bytes. by rewrite length_fmap, length_seqZ. Qed.

Lemma lookup_bytes d p n k :
  (k < Z.to_nat n)%nat -> bytes d p n !! k = Some (byte d (p + Z.of_nat k)).
Proof. intros Hk. unfold bytes. rewrite list_lookup_fmap, lookup_seqZ_lt by lia. done. Qed.

Lemma bytes_app d p a b : 0 <= a -> 0 <= b -> bytes d p (a + b) = bytes d p a ++ bytes d (p + a) b.
Proof. intros. unfold bytes. by rewrite seqZ_app, fmap_app by lia. Qed.

Lemma byte_range d p : dev_ok d -> byte_ok (byte d p).
Proof.
  intros Hd. unfold byte. destruct (sector d (p / 512) !! _) eqn:E; simpl; [|by unfold byte_ok].
  pose proof (sector_bytes d (p / 512) Hd) as Hb. unfold bytes_ok in Hb. rewrite Forall_lookup in Hb. eauto.
Qed.

Lemma bytes_range d p n : dev_ok d -> bytes_ok (bytes d p n).
Proof.
  intros Hd. unfold bytes, bytes_ok. apply Forall_fmap, Forall_true. intros x. by apply byte_range.
Qed.

Lemma bytes_ext d d' p n :
  (forall q, p <= q < p + n -> byte d' q = byte d q) -> bytes d' p n = bytes d p n.
Proof.
  intros Hq. unfold bytes. apply list_fmap_ext. intros i x Hx.
  apply lookup_seqZ in Hx as [-> Hi]. apply Hq. lia.
Qed.

(** The bytes of one sector. *)
Lemma sector_window d s off n :
  dev_ok d -> 0 <= off -> 0 <= n -> off + n <= 512 ->
  take (Z.to_nat n) (drop (Z.to_nat off) (sector d s)) = bytes d (512 * s + off) n.
Proof.
  intros Hd Ho Hn Hon. apply list_eq_same_length with (Z.to_nat n).
  - by rewrite length_bytes.
  - rewrite length_take, length_drop, sector_length by done. lia.
  - intros k x y Hk Hx Hy. rewrite lookup_take_lt, lookup_drop in Hx by lia.
    rewrite lookup_bytes in Hy by lia. injection Hy as <-. unfold byte.
    replace ((512 * s + off + Z.of_nat k) / 512) with s by zdm.
    replace (Z.to_nat ((512 * s + off + Z.of_nat k) mod 512)) with (Z.to_nat off + k)%nat by zdm.
    by rewrite Hx.
Qed.

(** Storing [l] at offset [off] of a sector, seen as bytes of the device. *)
Lemma sector_store d d' s off l p :
  dev_ok d -> 0 <= off -> off + Z.of_nat (length l) <= 512 ->
  lba_ok s -> lba_ok (p / 512) ->
  sector d' s = splice (sector d s) (Z.to_nat off) l ->
  (forall i, lba_ok i -> i <> s -> sector d' i = sector d i) ->
  byte d' p =
    if bool_decide (512 * s + off <= p < 512 * s + off + Z.of_nat (length l))
    then default 0 (l !! Z.to_nat (p - (512 * s + off))) else byte d p.
Proof.
  intros Hd Ho Hl Hs Hp He Hi. pose proof (sector_length d s Hd) as Hlen.
  case_bool_decide as Hin.
  - unfold byte. replace (p / 512) with s by zdm. rewrite He, lookup_splice_in by zdm.
    f_equal. f_equal. zdm.
  - unfold byte. destruct (decide (p / 512 = s)) as [E|E]; [|by rewrite Hi].
    rewrite E, He, lookup_splice_out by zdm. done.
Qed.
End bytes.

(** ** The streamer reads and writes the bytes of the device *)
Section spec.
Context {D : Type} {B : BlockDevice D} {BS : BlockDeviceSpec D}.
Import Streamer.

Lemma pos_lba p : 0 <= p < 2 ^ 31 -> 0 <= p / 512 < 2 ^ 28.
Proof. intros [H1 H2]. split; [apply Z.div_pos; lia|]. apply Z.div_lt_upper_bound; lia. Qed.

Lemma read_block_ok (d : D) lba :
  dev_ok d -> 0 <= lba < 2 ^ 28 ->
  exists d', disk_read_block d DISK (u32 lba) 1 = Ok (0, sector d lba, d') /\ dev_ok d' /\ same_disk d d'.
Proof.
  intros Hd Hl. destruct (read_spec d lba Hd Hl) as (d' & E & Hd' & Hs).
  exists d'. split; [|split; [done|by constructor]]. unfold disk_read_block. rewrite bool_decide_true by done. simpl.
  rewrite u32_id, i32_id, E by lia. done.
Qed.

Lemma write_block_ok (d : D) lba b :
  dev_ok d -> 0 <= lba < 2 ^ 28 -> length b = 512%nat -> bytes_ok b ->
  exists d', disk_write_block d DISK (u32 lba) 1 b = Ok (0, d') /\ dev_ok d' /\
    sector d' lba = b /\ (forall i, lba_ok i -> i <> lba -> sector d' i = sector d i).
Proof.
  intros Hd Hl Hb Hok. destruct (write_spec d lba b Hd Hl Hb Hok) as (d' & E & ? & ? & ?).
  exists d'. unfold disk_write_block. rewrite bool_decide_true by done. simpl.
  rewrite u32_id, i32_id, E by lia. done.
Qed.

(** A read is in bounds when it starts on a sector boundary or stays inside
    one sector. *)
Definition read_in_bounds (p total : Z) : Prop := p mod 512 = 0 \/ p mod 512 + total <= 512.

Lemma read_window_ok d p n :
  dev_ok d -> 0 <= p -> 0 <= n -> p mod 512 + n <= 512 ->
  read_window (sector d (p / 512)) (p mod 512) n = Ok (bytes d p n).
Proof.
  intros Hd Hp Hn Hn'. unfold read_window. rewrite sector_length by done.
  destruct (Z.leb_spec n 0).
  { assert (n = 0) as -> by lia. done. }
  destruct (Z.ltb_spec (p mod 512) 0), (Z.ltb_spec (Z.of_nat 512) (p mod 512 + n));
    simpl; try zdm.
  rewrite sector_window by (done || zdm). do 2 f_equal. zdm.
Qed.

Lemma read_rec_spec fuel : forall d s total,
  dev_ok d -> disk s = DISK -> 0 <= pos s -> 0 <= total -> pos s + total < 2 ^ 31 ->
  read_in_bounds (pos s) total -> (Z.to_nat total < fuel)%nat ->
  exists d', read_rec fuel d s total =
      Ok (0, bytes d (pos s) total, set_pos s (pos s + total), d') /\ dev_ok d' /\ same_disk d d'.
Proof.
  induction fuel as [|fuel IH]; intros d s total Hd Hs Hp Ht Hmax Hb Hf; [lia|].
  cbn [read_rec]. rewrite Hs. unfold PEACHOS_SECTOR_SIZE.
  rewrite Z.quot_div_nonneg, Z.rem_mod_nonneg by lia.
  destruct (read_block_ok d (pos s / 512) Hd) as (d1 & E & Hd1 & Hsame); [apply pos_lba; lia|].
  pose proof (Z.mod_pos_bound (pos s) 512 ltac:(lia)) as Hmod.
  rewrite E. unfold mbind, out_bind.
  change (0 <? 0) with false. cbn iota.
  unfold read_in_bounds in Hb.
  destruct (Z.gtb_spec total 512) as [Hbig|Hsmall].
  - assert (Hal : pos s mod 512 = 0) by lia.
    rewrite read_window_ok by (done || lia). rewrite i32_id by lia.
    destruct (IH d1 (set_pos s (pos s + 512)) (total - 512)) as (d2 & E2 & Hd2 & Hs2);
      simpl; try done; try lia.
    { left. rewrite <- Zplus_mod_idemp_l, Hal. done. }
    rewrite E2. exists d2. split; [|split; [done|by etransitivity]].
    simpl. rewrite (bytes_same d d1) by done.
    replace (bytes d (pos s) total) with (bytes d (pos s) 512 ++ bytes d (pos s + 512) (total - 512))
      by (rewrite <- bytes_app by lia; f_equal; lia).
    unfold set_pos. simpl. by replace (pos s + 512 + (total - 512)) with (pos s + total) by lia.
  - rewrite read_window_ok by (done || lia). rewrite i32_id by lia. by exists d1.
Qed.

Lemma diskstreamer_read_spec d s total :
  dev_ok d -> disk s = DISK -> 0 <= pos s -> 0 <= total -> pos s + total < 2 ^ 31 ->
  read_in_bounds (pos s) total ->
  exists d', diskstreamer_read d s total =
      Ok (0, bytes d (pos s) total, set_pos s (pos s + total), d') /\ dev_ok d' /\ same_disk d d'.
Proof. intros. apply read_rec_spec; try done. lia. Qed.

(** A read that is not in bounds runs off the 512-byte sector buffer. *)
Lemma diskstreamer_read_crossing d s total :
  dev_ok d -> disk s = DISK -> 0 <= pos s < 2 ^ 31 -> 0 < total ->
  ~ read_in_bounds (pos s) total -> diskstreamer_read d s total = Ub.
Proof.
  intros Hd Hs Hp Ht Hb. unfold read_in_bounds in Hb. unfold diskstreamer_read. cbn [read_rec].
  rewrite Hs. unfold PEACHOS_SECTOR_SIZE. rewrite Z.quot_div_nonneg, Z.rem_mod_nonneg by lia.
  destruct (read_block_ok d (pos s / 512) Hd) as (d1 & E & Hd1 & Hsame); [apply pos_lba; lia|].
  pose proof (Z.mod_pos_bound (pos s) 512 ltac:(lia)) as Hmod.
  rewrite E. unfold mbind, out_bind. change (0 <? 0) with false. cbn iota.
  unfold read_window. rewrite sector_length by done.
  set (n := if total >? 512 then 512 else total).
  assert (0 < n /\ 512 < pos s mod 512 + n).
  { unfold n. destruct (Z.gtb_spec total 512); lia. }
  destruct (Z.leb_spec n 0); [lia|].
  destruct (Z.ltb_spec (pos s mod 512) 0), (Z.ltb_spec (Z.of_nat 512) (pos s mod 512 + n));
    simpl; done || lia.
Qed.

(** [stored d p l d']: [d'] is [d] with the bytes [l] stored at position
    [p], and nothing else changed. *)
Definition stored (d : D) (p : Z) (l : list Z) (d' : D) : Prop :=
  forall q, 0 <= q < 2 ^ 31 ->
    byte d' q =
      if bool_decide (p <= q < p + Z.of_nat (length l))
      then default 0 (l !! Z.to_nat (q - p)) else byte d q.

Lemma stored_app d d1 d2 p l1 l2 :
  0 <= p -> stored d p l1 d1 -> stored d1 (p + Z.of_nat (length l1)) l2 d2 ->
  stored d p (l1 ++ l2) d2.
Proof.
  intros Hp H1 H2 q Hq. rewrite H2, H1 by done. rewrite length_app.
  repeat case_bool_decide; try lia; try done.
  - rewrite lookup_app_r by lia. do 2 f_equal. lia.
  - by rewrite lookup_app_l by lia.
Qed.

Lemma stored_same_l d d0 p l d' : same_disk d d0 -> stored d0 p l d' -> stored d p l d'.
Proof. intros Hs Hd q Hq. rewrite Hd by done. by rewrite Hs. Qed.

Lemma stored_same_r d p l d' d'' : stored d p l d' -> same_disk d' d'' -> stored d p l d''.
Proof. intros Hd Hs q Hq. rewrite <- Hs. by apply Hd. Qed.

Lemma stored_nil d p : stored d p [] d.
Proof. intros q Hq. simpl. case_bool_decide; [lia|done]. Qed.

Lemma stored_bytes d p l d' :
  0 <= p -> p + Z.of_nat (length l) <= 2 ^ 31 -> stored d p l d' -> bytes d' p (Z.of_nat (length l)) = l.
Proof.
  intros Hp Hl Hs. apply list_eq_same_length with (length l); [done|by rewrite length_bytes, Nat2Z.id|].
  intros k x y Hk Hx Hy. rewrite lookup_bytes in Hx by lia. injection Hx as <-.
  rewrite Hs by lia. rewrite bool_decide_true by lia.
  replace (Z.to_nat (p + Z.of_nat k - p)) with k by lia. by rewrite Hy.
Qed.

Lemma stored_other d p l d' q n :
  stored d p l d' -> 0 <= q -> q + n <= 2 ^ 31 -> q + n <= p \/ p + Z.of_nat (length l) <= q ->
  bytes d' q n = bytes d q n.
Proof.
  intros Hs Hq Hn Hd. apply bytes_ext. intros r Hr. rewrite Hs by lia.
  by rewrite bool_decide_false by lia.
Qed.

(** One read-modify-write of a sector. *)
Lemma write_sector_step d p l :
  dev_ok d -> 0 <= p -> p mod 512 + Z.of_nat (length l) <= 512 -> p < 2 ^ 31 -> bytes_ok l ->
  exists d1 d2,
    disk_read_block d DISK (u32 (p / 512)) 1 = Ok (0, sector d (p / 512), d1) /\
    disk_write_block d1 DISK (u32 (p / 512)) 1 (splice (sector d (p / 512)) (Z.to_nat (p mod 512)) l) =
      Ok (0, d2) /\
    dev_ok d2 /\ stored d p l d2.
Proof.
  intros Hd Hp Hl Hmax Hb. pose proof (pos_lba p ltac:(lia)) as Hlba.
  pose proof (Z.mod_pos_bound p 512 ltac:(lia)) as Hmod.
  pose proof (Z.div_mod p 512 ltac:(lia)) as Hdm.
  destruct (read_block_ok d (p / 512) Hd Hlba) as (d1 & E1 & Hd1 & Hs1).
  pose proof (sector_length d (p / 512) Hd) as Hlen.
  destruct (write_block_ok d1 (p / 512) (splice (sector d (p / 512)) (Z.to_nat (p mod 512)) l))
    as (d2 & E2 & Hd2 & He & Ho); [done|done|rewrite length_splice; lia| |].
  { apply bytes_ok_splice; [by apply sector_bytes|done]. }
  exists d1, d2. split; [done|]. split; [done|]. split; [done|].
  apply (stored_same_l d d1); [done|]. intros q Hq.
  rewrite <- (same_sector _ _ Hs1) in He.
  rewrite (sector_store d1 d2 (p / 512) (p mod 512) l q); try done; [|lia|by apply pos_lba].
  by replace (512 * (p / 512) + p mod 512) with p by lia.
Qed.

Lemma write_rec_spec fuel : forall d s input total,
  dev_ok d -> disk s = DISK -> 0 <= pos s -> 0 <= total <= Z.of_nat (length input) ->
  pos s + total < 2 ^ 31 -> bytes_ok input -> (Z.to_nat total < fuel)%nat ->
  exists d', write_rec fuel d s input total = Ok (0, set_pos s (pos s + total), d') /\
    dev_ok d' /\ stored d (pos s) (take (Z.to_nat total) input) d'.
Proof.
  induction fuel as [|fuel IH]; intros d s input total Hd Hs Hp Ht Hmax Hb Hf; [lia|].
  cbn [write_rec]. rewrite Hs. unfold PEACHOS_SECTOR_SIZE.
  rewrite Z.quot_div_nonneg, Z.rem_mod_nonneg by lia.
  pose proof (Z.mod_pos_bound (pos s) 512 ltac:(lia)) as Hmod.
  set (n := if total >? 512 - pos s mod 512 then 512 - pos s mod 512 else total).
  assert (Hn : 0 <= n <= total /\ pos s mod 512 + n <= 512 /\ (n < total -> 0 < n)).
  { unfold n. destruct (Z.gtb_spec total (512 - pos s mod 512)); lia. }
  assert (Hlt : length (take (Z.to_nat n) input) = Z.to_nat n) by (rewrite length_take; lia).
  destruct (write_sector_step d (pos s) (take (Z.to_nat n) input))
    as (d1 & d2 & E1 & E2 & Hd2 & Hst); [done|lia|lia|lia|by apply bytes_ok_take|].
  rewrite E1. unfold mbind, out_bind. change (0 <? 0) with false. cbn iota.
  destruct (Z.ltb_spec (pos s mod 512) 0); [lia|].
  pose proof (sector_length d (pos s / 512) Hd) as Hlen.
  rewrite CMem.memcpy_ok by (rewrite ?length_drop; lia). rewrite drop_drop.
  unfold splice in E2. rewrite Hlt in E2. rewrite E2. cbn iota. rewrite i32_id by lia.
  destruct (Z.gtb_spec total n) as [Hgt|Hle].
  - destruct (IH d2 (set_pos s (pos s + n)) (drop (Z.to_nat n) input) (total - n))
      as (d3 & E3 & Hd3 & Hst3); simpl; try done; try lia; [rewrite length_drop; lia|by apply bytes_ok_drop|].
    exists d3. rewrite E3. split; [|split; [done|]].
    + unfold set_pos. simpl. by replace (pos s + n + (total - n)) with (pos s + total) by lia.
    + replace (take (Z.to_nat total) input) with
        (take (Z.to_nat n) input ++ take (Z.to_nat (total - n)) (drop (Z.to_nat n) input)).
      2:{ rewrite take_take_drop. f_equal. lia. }
      eapply stored_app; [lia|done|]. rewrite Hlt, Z2Nat.id by lia. done.
  - assert (n = total) as Hnt by lia. rewrite Hnt in *. by exists d2.
Qed.

Lemma diskstreamer_write_spec d s input total :
  dev_ok d -> disk s = DISK -> 0 <= pos s -> 0 <= total <= Z.of_nat (length input) ->
  pos s + total < 2 ^ 31 -> bytes_ok input ->
  exists d', diskstreamer_write d s input total = Ok (0, set_pos s (pos s + total), d') /\
    dev_ok d' /\ stored d (pos s) (take (Z.to_nat total) input) d'.
Proof. intros. apply write_rec_spec; try done. lia. Qed.
End spec.

(** ** A memory-backed device

    The sectors in a finite map; a sector that is not in the map is zero.  It
    shows that the laws of [BlockDeviceSpec] can hold, and it is the device of
    the examples. *)
Module Ram.

Abbreviation ram := (gmap Z (list Z)).
Definition ram_sector (d : ram) (i : Z) : list Z := default (replicate 512 0) (d !! i).

#[global] Instance ram_device : BlockDevice ram := {
  disk_read_sector d lba total := Ok (seqZ lba total ≫= ram_sector d, d);
  disk_write_sector d lba total buf :=
    Ok (foldr (fun k d => <[lba + k := take 512 (drop (512 * Z.to_nat k) buf)]> d) d (seqZ 0 total)) }.

Definition ram_ok (d : ram) : Prop := map_Forall (fun _ b => length b = 512%nat /\ bytes_ok b) d.

Lemma ram_sector_ok d i : ram_ok d -> length (ram_sector d i) = 512%nat /\ bytes_ok (ram_sector d i).
Proof.
  intros Hd. unfold ram_sector. destruct (d !! i) as [b|] eqn:E; cbn [default]; [by apply (Hd i)|].
  split; [done|]. apply bytes_ok_replicate. unfold byte_ok. lia.
Qed.

#[global] Program Instance ram_spec : BlockDeviceSpec ram := { dev_ok := ram_ok; sector := ram_sector }.
Next Obligation. intros d i Hd. by apply ram_sector_ok. Qed.
Next Obligation. intros d i Hd. by apply ram_sector_ok. Qed.
Next Obligation.
  intros d lba Hd _. exists d. split; [|done]. cbn [disk_read_sector ram_device].
  rewrite seqZ_cons, seqZ_nil by lia. cbn [mbind list_bind]. by rewrite app_nil_r.
Qed.
Next Obligation.
  intros d lba b Hd _ Hl Hb. exists (<[lba := b]> d). split; [|split; [|split]].
  - simpl. rewrite Z.add_0_r, take_ge; [done|]. by rewrite drop_0, Hl.
  - by apply map_Forall_insert_2.
  - unfold ram_sector. by rewrite lookup_insert_eq.
  - intros i _ Hne. unfold ram_sector. by rewrite lookup_insert_ne.
Qed.

#[global] Instance ram_ok_dec d : Decision (ram_ok d).
Proof. unfold ram_ok, bytes_ok, byte_ok. apply _. Defined.

End Ram.

(** ** Theorems *)
Section theorems.
Context {D : Type} {B : BlockDevice D} {BS : BlockDeviceSpec D}.
Import Streamer.

(** C35: [diskstreamer_read] of [total] bytes at the stream's position is
    defined exactly when the read starts on a sector boundary or stays
    inside one sector.  Then it returns 0 and the bytes of the device at
    that position, advances the stream by [total], and changes no byte of
    the device; every other read runs off the 512-byte sector buffer. *)
Theorem diskstreamer_read_correct d s total :
  dev_ok d -> disk s = DISK -> 0 <= pos s -> 0 < total -> pos s + total < 2 ^ 31 ->
  (read_in_bounds (pos s) total -> exists d', diskstreamer_read d s total =
      Ok (0, bytes d (pos s) total, set_pos s (pos s + total), d') /\ dev_ok d' /\ same_disk d d') /\
  (~ read_in_bounds (pos s) total -> diskstreamer_read d s total = Ub).
Proof.
  intros Hd Hs Hp Ht Hmax. split; intros Hb.
  - apply diskstreamer_read_spec; done || lia.
  - apply diskstreamer_read_crossing; done || lia.
Qed.

(** [diskstreamer_write] stores exactly the first [total] bytes of its
    input at the stream's position, over any number of sectors and at any
    alignment, keeps every other byte of the disk (the read-modify-write of
    the first and last sector), advances the stream, and what it wrote is
    what the device holds there. *)
Theorem diskstreamer_write_correct d s input total :
  dev_ok d -> disk s = DISK -> 0 <= pos s -> 0 <= total <= Z.of_nat (length input) ->
  pos s + total < 2 ^ 31 -> bytes_ok input ->
  exists d', diskstreamer_write d s input total = Ok (0, set_pos s (pos s + total), d') /\
    dev_ok d' /\ bytes d' (pos s) total = take (Z.to_nat total) input /\
    (forall q, 0 <= q < 2 ^ 31 -> q < pos s \/ pos s + total <= q -> byte d' q = byte d q).
Proof.
  intros Hd Hs Hp Ht Hmax Hb.
  destruct (diskstreamer_write_spec d s input total) as (d' & E & Hd' & Hst); try done.
  assert (Hl : Z.of_nat (length (take (Z.to_nat total) input)) = total) by (rewrite length_take; lia).
  exists d'. split; [done|]. split; [done|]. split.
  - rewrite <- Hl at 1. apply (stored_bytes d); [done|lia|done].
  - intros q Hq Hout. rewrite Hst by done. by rewrite bool_decide_false by lia.
Qed.
End theorems.

Lemma diskstreamer_read_correct_witness :
  exists d', Streamer.diskstreamer_read (∅ : Ram.ram) (Streamer.mk_stream 0x1000000 512 DISK) 700 =
    Ok (0, bytes (∅ : Ram.ram) 512 700, Streamer.mk_stream 0x1000000 1212 DISK, d') /\ Ram.ram_ok d'.
Proof.
  destruct (diskstreamer_read_correct (∅ : Ram.ram) (Streamer.mk_stream 0x1000000 512 DISK) 700)
    as [Hin _]; [apply map_Forall_empty|reflexivity|simpl; lia|lia|simpl; lia|].
  destruct Hin as (d' & E & Hd & _); [by left|]. exists d'. split; [exact E|exact Hd].
Defined.

Lemma diskstreamer_write_correct_witness :
  exists d', Streamer.diskstreamer_write (∅ : Ram.ram) (Streamer.mk_stream 0x1000000 510 DISK) [1; 2; 3; 4] 4 =
    Ok (0, Streamer.mk_stream 0x1000000 514 DISK, d') /\ bytes d' 510 4 = [1; 2; 3; 4].
Proof.
  destruct (diskstreamer_write_correct (∅ : Ram.ram) (Streamer.mk_stream 0x1000000 510 DISK) [1; 2; 3; 4] 4)
    as (d' & E & _ & Hb & _); [apply map_Forall_empty|reflexivity|simpl; lia|simpl; lia|simpl; lia| |].
  - repeat constructor; unfold byte_ok; lia.
  - exists d'. split; [exact E|exact Hb].
Defined.
