(* ===== verification/Ata.v ===== *)
(** * The port-level disk driver: [disk_read_sector] and [disk_write_sector]
    of src/disk/disk.c

    The driver talks to an ATA drive through I/O ports.  The ports are a
    parameter ([PortIO]); [AtaSpec] states the ATA PIO protocol: how the state
    [ata_state] of the drive answers to the ports, in which states an access
    is allowed, and that BSY drops after a bounded number of status reads.
    The driver then is a [BlockDevice] that satisfies [BlockDeviceSpec], the
    contract the disk streams are proved against. *)
From Stdlib Require Import ZArith Lia.
From stdpp Require Import base list gmap numbers option list_numbers.
From S2P Require Import Prelude CLib Heap Disk.
Local Open Scope Z_scope.
Local Open Scope kernel_scope.

(** ** Port I/O (src/io/io.h) *)
Class PortIO (P : Type) : Type := {
  insb : P -> Z -> Z * P;
  insw : P -> Z -> Z * P;
  outb : P -> Z -> Z -> P;
  outw : P -> Z -> Z -> P }.

(** ** The driver *)
Section driver.
Context {P : Type} {IO : PortIO P}.

(** [while (!(c & 0x08)) c = insb(0x1F7);] behind a first read; [fuel] bounds
    the number of reads. *)
Fixpoint wait_drq (fuel : nat) (p : P) : out P :=
  match fuel with
  | O => Hang
  | S fuel =>
      let '(c, p) := insb p 0x1F7 in
      if Z.land c 0x08 =? 0 then wait_drq fuel p else Ok p
  end.

(** [while (c & 0x80) c = insb(0x1F7);] *)
Fixpoint wait_bsy (fuel : nat) (p : P) : out P :=
  match fuel with
  | O => Hang
  | S fuel =>
      let '(c, p) := insb p 0x1F7 in
      if Z.land c 0x80 =? 0 then Ok p else wait_bsy fuel p
  end.

(** [for (i = 0; i < 256; i++) *ptr++ = insw(0x1F0);] as the bytes stored. *)
Fixpoint read_words (n : nat) (p : P) : list Z * P :=
  match n with
  | O => ([], p)
  | S n =>
      let '(w, p) := insw p 0x1F0 in
      let '(rest, p) := read_words n p in
      (le16 w ++ rest, p)
  end.

(** [for (i = 0; i < 256; i++) outw(0x1F0, *ptr++);] over the bytes at [ptr]. *)
Fixpoint write_words (n : nat) (p : P) (buf : list Z) : out (P * list Z) :=
  match n with
  | O => Ok (p, buf)
  | S n =>
      match buf with
      | a :: b :: buf => write_words n (outw p 0x1F0 (of_le [a; b])) buf
      | _ => Ub
      end
  end.

(** The six register writes that start a command. *)
Definition start_command (p : P) (lba total cmd : Z) : P :=
  let p := outb p 0x1F6 (u8 (Z.lor (Z.shiftr lba 24) 0xE0)) in
  let p := outb p 0x1F2 (u8 total) in
  let p := outb p 0x1F3 (u8 (Z.land lba 0xff)) in
  let p := outb p 0x1F4 (u8 (Z.shiftr lba 8)) in
  let p := outb p 0x1F5 (u8 (Z.shiftr lba 16)) in
  outb p 0x1F7 cmd.

Fixpoint read_sectors (fuel : nat) (n : nat) (p : P) : out (list Z * P) :=
  match n with
  | O => Ok ([], p)
  | S n =>
      p ← wait_drq fuel p;
      let '(bytes, p) := read_words 256 p in
      '(rest, p) ← read_sectors fuel n p;
      Ok (bytes ++ rest, p)
  end.

Fixpoint write_sectors (fuel : nat) (n : nat) (p : P) (buf : list Z) : out P :=
  match n with
  | O => Ok p
  | S n =>
      p ← wait_drq fuel p;
      '(p, buf) ← write_words 256 p buf;
      write_sectors fuel n p buf
  end.

(** [disk_read_sector(lba, total, buf)]: the bytes stored at [buf]. *)
Definition ata_read_sector (fuel : nat) (p : P) (lba total : Z) : out (list Z * P) :=
  read_sectors fuel (Z.to_nat total) (start_command p lba total 0x20).

(** [disk_write_sector(lba, total, buf)], with the cache flush at its end. *)
Definition ata_write_sector (fuel : nat) (p : P) (lba total : Z) (buf : list Z) : out P :=
  p ← write_sectors fuel (Z.to_nat total) (start_command p lba total 0x30) buf;
  wait_bsy fuel (outb p 0x1F7 0xE7).
End driver.

(** ** The drive's side of the protocol

    The state of the drive as the host sees it: the task file, the BSY bit,
    the command in progress, the write cache and the medium.  The commands
    follow the device states of the PIO data-in and data-out protocols: while
    the drive prepares a sector or digests one, BSY is 1 and DRQ is 0; while
    it waits for the host to move the data, BSY is 0 and DRQ is 1. *)
Inductive ata_mode :=
| Idle
| Reading (words : list Z)
| Writing (lba : Z) (to_go : nat) (words : list Z)
| Flushing.

Record taskfile := mk_tf { head : Z; count : Z; lba_low : Z; lba_mid : Z; lba_high : Z }.
Record ata_state := mk_ata {
  regs : taskfile; bsy : bool; mode : ata_mode; cache : gmap Z (list Z); medium : gmap Z (list Z) }.

(** What a read command returns: the cache, and the medium below it. *)
Definition sects (a : ata_state) : gmap Z (list Z) := cache a ∪ medium a.

(** The 28-bit block address in the task file. *)
Definition task_lba (t : taskfile) : Z :=
  lba_low t + 256 * lba_mid t + 65536 * lba_high t + 16777216 * Z.land (head t) 15.

(** A sector as 256 little-endian words. *)
Fixpoint to_words (l : list Z) : list Z :=
  match l with a :: b :: l => of_le [a; b] :: to_words l | _ => [] end.
Definition of_words (l : list Z) : list Z := l ≫= le16.

(** A command sets BSY. *)
Definition ata_command (a : ata_state) (cmd : Z) : ata_state :=
  let start m := mk_ata (regs a) true m (cache a) (medium a) in
  if cmd =? 0x20 then
    start (Reading (seqZ (task_lba (regs a)) (count (regs a)) ≫= (fun i => to_words (Ram.ram_sector (sects a) i))))
  else if cmd =? 0x30 then start (Writing (task_lba (regs a)) (Z.to_nat (count (regs a))) [])
  else if cmd =? 0xE7 then start Flushing
  else start Idle.

Definition set_register (t : taskfile) (port v : Z) : taskfile :=
  if port =? 0x1F6 then mk_tf v (count t) (lba_low t) (lba_mid t) (lba_high t)
  else if port =? 0x1F2 then mk_tf (head t) v (lba_low t) (lba_mid t) (lba_high t)
  else if port =? 0x1F3 then mk_tf (head t) (count t) v (lba_mid t) (lba_high t)
  else if port =? 0x1F4 then mk_tf (head t) (count t) (lba_low t) v (lba_high t)
  else if port =? 0x1F5 then mk_tf (head t) (count t) (lba_low t) (lba_mid t) v
  else t.

(** A write to the command block is ignored while BSY is 1. *)
Definition ata_outb (a : ata_state) (port v : Z) : ata_state :=
  if bsy a then a
  else if port =? 0x1F7 then ata_command a v
  else mk_ata (set_register (regs a) port v) false (mode a) (cache a) (medium a).

(** The drive gets done with what it does while BSY is 1. *)
Definition settle (a : ata_state) : ata_state :=
  match mode a with
  | Flushing => mk_ata (regs a) false Idle ∅ (sects a)
  | m => mk_ata (regs a) false m (cache a) (medium a)
  end.
Definition later (a a' : ata_state) : Prop := a' = a \/ (bsy a = true /\ a' = settle a).

(** The drive has data to exchange, and DRQ says so. *)
Definition data_phase (m : ata_mode) : bool :=
  match m with Reading (_ :: _) | Writing _ (S _) _ => true | _ => false end.
Definition drq (a : ata_state) : bool := negb (bsy a) && data_phase (mode a).

(** The data port: a word taken from the drive, a word given to it.  After the
    last word of a sector BSY is 1 again, but for the last sector read. *)
Definition ata_data_in (a : ata_state) : Z * ata_state :=
  match mode a with
  | Reading (w :: ws) =>
      (w, mk_ata (regs a) (negb (bool_decide (ws = [])) && (length ws mod 256 =? 0)%nat)
            (if bool_decide (ws = []) then Idle else Reading ws) (cache a) (medium a))
  | _ => (0, a)
  end.

Definition ata_data_out (a : ata_state) (w : Z) : ata_state :=
  match mode a with
  | Writing lba to_go ws =>
      let ws := ws ++ [w] in
      if (length ws <? 256)%nat then mk_ata (regs a) false (Writing lba to_go ws) (cache a) (medium a)
      else
        mk_ata (regs a) true (match to_go with S (S n) => Writing (lba + 1) (S n) [] | _ => Idle end)
          (<[lba := of_words ws]> (cache a)) (medium a)
  | _ => a
  end.

(** [abs p] is the state of the drive behind the ports.  There is a law for
    an access only in the states in which the protocol allows it: the data
    port needs DRQ, a command or a register needs a drive that is not in a
    data transfer.  Time passes with every access: BSY may drop before it
    ([later]).  A read of the status returns BSY and DRQ as they are then;
    [wait p] bounds how many of them find the drive busy.  A drive sets BSY
    within 400 ns of a command or of the last word of a sector, that is
    before the next port access. *)
Class AtaSpec (P : Type) {IO : PortIO P} : Type := {
  abs : P -> ata_state;
  poll_bound : nat;
  wait : P -> nat;
  wait_bound : forall p, (wait p <= poll_bound)%nat;
  law_outb : forall p port v, mode (abs p) = Idle ->
    exists a, later (abs p) a /\ abs (outb p port v) = ata_outb a port v;
  law_data_in : forall p, drq (abs p) = true ->
    fst (insw p 0x1F0) = fst (ata_data_in (abs p)) /\ abs (snd (insw p 0x1F0)) = snd (ata_data_in (abs p));
  law_data_out : forall p w, drq (abs p) = true -> abs (outw p 0x1F0 w) = ata_data_out (abs p) w;
  law_status : forall p, let '(c, p') := insb p 0x1F7 in
    later (abs p) (abs p') /\ (Z.land c 0x80 =? 0) = negb (bsy (abs p')) /\ (Z.land c 0x08 =? 0) = negb (drq (abs p')) /\
    (bsy (abs p') = true -> (wait p' < wait p)%nat) }.

(** A drive that takes a sector into its cache before the host can write the
    next register. *)
Definition prompt (P : Type) {IO : PortIO P} {AS : AtaSpec P} : Prop :=
  forall (p : P) port v, mode (abs p) = Idle -> abs (outb p port v) = ata_outb (settle (abs p)) port v.

(** ** The driver against the protocol *)
Section spec.
Context {P : Type} {IO : PortIO P} {AS : AtaSpec P}.
Implicit Types p : P.

#[global] Instance ata_device : BlockDevice P := {
  disk_read_sector := ata_read_sector (S poll_bound);
  disk_write_sector := ata_write_sector (S poll_bound) }.

Lemma settle_bsy a : bsy (settle a) = false.
Proof. unfold settle. by destruct (mode a). Qed.
Lemma later_refl a : later a a.
Proof. by left. Qed.
Lemma later_trans a b c : later a b -> later b c -> later a c.
Proof.
  intros [->|[Hb ->]] [->|[Hc ->]]; [by left|by right|by right|]. by rewrite settle_bsy in Hc.
Qed.

(** Polling until DRQ is 1. *)
Lemma wait_drq_spec fuel : forall p, data_phase (mode (abs p)) = true -> (wait p < fuel)%nat ->
  exists p', wait_drq fuel p = Ok p' /\ later (abs p) (abs p') /\ drq (abs p') = true.
Proof.
  induction fuel as [|fuel IH]; intros p Hp Hw; [lia|]. cbn [wait_drq].
  pose proof (law_status p) as Hs. destruct (insb p 0x1F7) as [c p']. destruct Hs as (Hl & _ & Hd & Hw').
  rewrite Hd. destruct (drq (abs p')) eqn:E; cbn [negb]; [by exists p'|].
  assert (Hm : data_phase (mode (abs p')) = true).
  { destruct Hl as [->|[_ ->]]; [done|]. unfold settle. by destruct (mode (abs p)). }
  unfold drq in E. rewrite Hm, andb_true_r, negb_false_iff in E.
  destruct (IH p' Hm) as (p2 & E2 & L2 & D2); [specialize (Hw' E); lia|].
  exists p2. split; [done|]. split; [by eapply later_trans|done].
Qed.

(** Polling until BSY is 0. *)
Lemma wait_bsy_spec fuel : forall p, (wait p < fuel)%nat ->
  exists p', wait_bsy fuel p = Ok p' /\ later (abs p) (abs p') /\ bsy (abs p') = false.
Proof.
  induction fuel as [|fuel IH]; intros p Hw; [lia|]. cbn [wait_bsy].
  pose proof (law_status p) as Hs. destruct (insb p 0x1F7) as [c p']. destruct Hs as (Hl & Hb & _ & Hw').
  rewrite Hb. destruct (bsy (abs p')) eqn:E; cbn [negb]; [|by exists p'].
  destruct (IH p') as (p2 & E2 & L2 & B2); [specialize (Hw' eq_refl); lia|].
  exists p2. split; [done|]. split; [by eapply later_trans|done].
Qed.

Lemma poll_enough p : (wait p < S poll_bound)%nat.
Proof. pose proof (wait_bound p). lia. Qed.

(** Taking the words of a sector out of the drive. *)
Lemma read_words_spec ws : forall p, bsy (abs p) = false -> mode (abs p) = Reading ws -> ws <> [] -> (length ws <= 256)%nat ->
  exists p', read_words (length ws) p = (of_words ws, p') /\
    abs p' = mk_ata (regs (abs p)) false Idle (cache (abs p)) (medium (abs p)).
Proof.
  induction ws as [|w ws IH]; intros p Hb Hm Hne Hl; [done|]. cbn [length read_words].
  assert (Hd : drq (abs p) = true) by (unfold drq; by rewrite Hb, Hm).
  destruct (law_data_in p Hd) as [Hw Ha]. destruct (insw p 0x1F0) as [v p1]. cbn [fst snd] in Hw, Ha.
  unfold ata_data_in in Hw, Ha. rewrite Hm in Hw, Ha. cbn [fst snd] in Hw, Ha. subst v.
  destruct ws as [|w' ws].
  - exists p1. split; [done|]. exact Ha.
  - rewrite bool_decide_false in Ha by done. cbn [negb andb] in Ha. cbn [length] in Hl.
    assert (E0 : (length (w' :: ws) mod 256 =? 0)%nat = false).
    { apply Nat.eqb_neq. cbn [length]. rewrite Nat.mod_small by lia. lia. }
    rewrite E0 in Ha. destruct (IH p1) as (p2 & E & Ha2); [by rewrite Ha|by rewrite Ha|done|cbn [length]; lia|].
    exists p2. rewrite E. split; [done|]. by rewrite Ha2, Ha.
Qed.

Lemma to_words_of_bytes l : forall n, length l = (2 * n)%nat -> bytes_ok l ->
  of_words (to_words l) = l /\ length (to_words l) = n.
Proof.
  intros n. revert l. induction n as [|n IH]; intros l Hl Hb.
  - by destruct l.
  - destruct l as [|a [|b l]]; [done|simpl in Hl; lia|].
    apply Forall_cons in Hb as [Ha Hb]. apply Forall_cons in Hb as [Hb0 Hb].
    destruct (IH l) as [E1 E2]; [simpl in Hl; lia|done|]. cbn [to_words length].
    split; [|by rewrite E2]. unfold of_words in *. cbn [mbind list_bind].
    rewrite le16_of_le by done. by rewrite E1.
Qed.

Lemma head_lba h : 0 <= h < 16 -> Z.land (u8 (Z.lor h 0xE0)) 15 = h.
Proof.
  intros Hh. assert (Hin : h ∈ seqZ 0 16) by (apply elem_of_seqZ; lia).
  revert h Hin Hh. apply (Forall_forall (fun h => 0 <= h < 16 -> Z.land (u8 (Z.lor h 0xE0)) 15 = h)).
  repeat constructor.
Qed.

(** A register write to a drive that is not busy, and a run of them. *)
Lemma outb_ready p port v : mode (abs p) = Idle -> bsy (abs p) = false -> abs (outb p port v) = ata_outb (abs p) port v.
Proof. intros Hm Hb. destruct (law_outb p port v Hm) as (a & [->|[Hb' _]] & E); [done|congruence]. Qed.

Lemma outb_register p port v : mode (abs p) = Idle -> bsy (abs p) = false -> port <> 0x1F7 ->
  abs (outb p port v) = mk_ata (set_register (regs (abs p)) port v) false Idle (cache (abs p)) (medium (abs p)).
Proof.
  intros Hm Hb Hp. rewrite outb_ready by done. unfold ata_outb. rewrite Hb. destruct (Z.eqb_spec port 0x1F7); [done|]. by rewrite Hm.
Qed.

(** The drive after the six register writes. *)
Lemma start_command_spec p lba cmd : lba_ok lba -> mode (abs p) = Idle -> bsy (abs p) = false ->
  exists t, task_lba t = lba /\ count t = 1 /\
    abs (start_command p lba 1 cmd) = ata_command (mk_ata t false Idle (cache (abs p)) (medium (abs p))) cmd.
Proof.
  intros Hl Hm Hb. unfold lba_ok in Hl. unfold start_command.
  set (p1 := outb p 0x1F6 _). assert (A1 := outb_register p 0x1F6 (u8 (Z.lor (Z.shiftr lba 24) 0xE0)) Hm Hb ltac:(done)). fold p1 in A1.
  cbn [set_register Z.eqb Pos.eqb regs cache medium head count lba_low lba_mid lba_high] in A1.
  set (p2 := outb p1 0x1F2 _). assert (A2 := outb_register p1 0x1F2 (u8 1) ltac:(by rewrite A1) ltac:(by rewrite A1) ltac:(done)). fold p2 in A2.
  rewrite A1 in A2.
  cbn [set_register Z.eqb Pos.eqb regs cache medium head count lba_low lba_mid lba_high] in A2.
  set (p3 := outb p2 0x1F3 _). assert (A3 := outb_register p2 0x1F3 (u8 (Z.land lba 0xff)) ltac:(by rewrite A2) ltac:(by rewrite A2) ltac:(done)). fold p3 in A3.
  rewrite A2 in A3.
  cbn [set_register Z.eqb Pos.eqb regs cache medium head count lba_low lba_mid lba_high] in A3.
  set (p4 := outb p3 0x1F4 _). assert (A4 := outb_register p3 0x1F4 (u8 (Z.shiftr lba 8)) ltac:(by rewrite A3) ltac:(by rewrite A3) ltac:(done)). fold p4 in A4.
  rewrite A3 in A4.
  cbn [set_register Z.eqb Pos.eqb regs cache medium head count lba_low lba_mid lba_high] in A4.
  set (p5 := outb p4 0x1F5 _). assert (A5 := outb_register p4 0x1F5 (u8 (Z.shiftr lba 16)) ltac:(by rewrite A4) ltac:(by rewrite A4) ltac:(done)). fold p5 in A5.
  rewrite A4 in A5.
  cbn [set_register Z.eqb Pos.eqb regs cache medium head count lba_low lba_mid lba_high] in A5.
  rewrite (outb_ready p5) by (by rewrite A5). unfold ata_outb. rewrite A5. cbn [bsy Z.eqb Pos.eqb].
  eexists. split; [|split; [|reflexivity]]; [|done].
  unfold task_lba. cbn [head count lba_low lba_mid lba_high].
  rewrite !shiftr_div by lia. rewrite (Z.land_ones _ 8) by lia.
  rewrite head_lba by (split; [apply Z.div_pos; lia|apply Z.div_lt_upper_bound; lia]).
  unfold u8. change (2 ^ 8) with 256. change (2 ^ 16) with 65536. change (2 ^ 24) with 16777216.
  rewrite Zmod_mod.
  assert (E1 : lba / 65536 = lba / 256 / 256) by (by rewrite Z.div_div by lia).
  assert (E2 : lba / 16777216 = lba / 256 / 256 / 256) by (by rewrite !Z.div_div by lia).
  rewrite E1, E2. pose proof (Z.div_mod lba 256). pose proof (Z.div_mod (lba / 256) 256).
  pose proof (Z.div_mod (lba / 256 / 256) 256).
  lia.
Qed.

(** The drive is idle and not busy, so that it takes the next command. *)
Record ata_ok p : Prop := {
  ao_idle : mode (abs p) = Idle;
  ao_ready : bsy (abs p) = false;
  ao_sects : Ram.ram_ok (sects (abs p)) }.
Definition ata_sector p (i : Z) : list Z := Ram.ram_sector (sects (abs p)) i.

Lemma ata_read_spec p lba : ata_ok p -> lba_ok lba ->
  exists p', ata_read_sector (S poll_bound) p lba 1 = Ok (ata_sector p lba, p') /\ ata_ok p' /\
    cache (abs p') = cache (abs p) /\ medium (abs p') = medium (abs p).
Proof.
  intros [Hm Hb Hr] Hl. destruct (start_command_spec p lba 0x20 Hl Hm Hb) as (t & E1 & E2 & E4).
  unfold ata_read_sector. set (p0 := start_command p lba 1 0x20) in *.
  destruct (Ram.ram_sector_ok (sects (abs p)) lba Hr) as [Hlen Hby].
  destruct (to_words_of_bytes (ata_sector p lba) 256 Hlen Hby) as [Hw Hwl].
  set (ws := to_words (ata_sector p lba)) in *. assert (Hne : ws <> []) by (intros E0; by rewrite E0 in Hwl).
  assert (A0 : abs p0 = mk_ata t true (Reading ws) (cache (abs p)) (medium (abs p))).
  { rewrite E4. unfold ata_command. cbn [Z.eqb Pos.eqb regs]. rewrite E1, E2. rewrite seqZ_cons, seqZ_nil by lia.
    cbn [mbind list_bind]. rewrite app_nil_r. done. }
  change (Z.to_nat 1) with 1%nat. cbn [read_sectors].
  destruct (wait_drq_spec (S poll_bound) p0) as (p1 & W1 & L1 & D1); [rewrite A0; cbn [mode]; by destruct ws|apply poll_enough|].
  assert (A1 : abs p1 = mk_ata t false (Reading ws) (cache (abs p)) (medium (abs p))).
  { destruct L1 as [E|[_ E]]; rewrite A0 in E; [|exact E]. unfold drq in D1. by rewrite E in D1. }
  rewrite W1. unfold mbind, out_bind.
  destruct (read_words_spec ws p1) as (p2 & W2 & A2); [by rewrite A1|by rewrite A1|done|lia|].
  rewrite Hwl in W2. rewrite W2, Hw, app_nil_r. exists p2. split; [done|]. rewrite A1 in A2.
  split; [|by rewrite A2]. split; rewrite A2; done.
Qed.

(** Giving words to the drive until the sector is full. *)
Lemma write_words_spec n : forall p lba ws buf,
  bsy (abs p) = false -> mode (abs p) = Writing lba 1 ws -> (length ws + n = 256)%nat -> (0 < n)%nat ->
  length buf = (2 * n)%nat ->
  exists p', write_words n p buf = Ok (p', []) /\
    abs p' = mk_ata (regs (abs p)) true Idle (<[lba := of_words (ws ++ to_words buf)]> (cache (abs p))) (medium (abs p)).
Proof.
  induction n as [|n IH]; intros p lba ws buf Hbs Hm Hw Hn Hb; [lia|].
  destruct buf as [|a [|b buf]]; [done|simpl in Hb; lia|]. simpl in Hb. cbn [write_words to_words].
  assert (Hd : drq (abs p) = true) by (unfold drq; by rewrite Hbs, Hm).
  pose proof (law_data_out p (of_le [a; b]) Hd) as Ha. unfold ata_data_out in Ha. rewrite Hm in Ha.
  rewrite length_app in Ha. cbn [length] in Ha. destruct n as [|n].
  - destruct buf; [|done]. rewrite (proj2 (Nat.ltb_ge _ _)) in Ha by lia.
    eexists. split; [reflexivity|]. exact Ha.
  - rewrite (proj2 (Nat.ltb_lt _ _)) in Ha by lia.
    destruct (IH (outw p 0x1F0 (of_le [a; b])) lba (ws ++ [of_le [a; b]]) buf) as (p' & E & A');
      [by rewrite Ha|by rewrite Ha|rewrite length_app; simpl; lia|lia|lia|].
    exists p'. split; [done|]. rewrite A', Ha. by rewrite <- app_assoc.
Qed.

(** The flush: a drive that still digests the sector ignores the command. *)
Lemma cache_flush_spec p : mode (abs p) = Idle -> bsy (abs p) = true ->
  exists p', wait_bsy (S poll_bound) (outb p 0x1F7 0xE7) = Ok p' /\ mode (abs p') = Idle /\ bsy (abs p') = false /\
    sects (abs p') = sects (abs p) /\ (prompt P -> cache (abs p') = ∅ /\ medium (abs p') = sects (abs p)).
Proof.
  intros Hm Hb. destruct (wait_bsy_spec (S poll_bound) (outb p 0x1F7 0xE7)) as (p' & W & L & B); [apply poll_enough|].
  exists p'. split; [done|].
  set (a1 := mk_ata (regs (abs p)) true Flushing (cache (abs p)) (medium (abs p))).
  assert (Hs : settle (abs p) = mk_ata (regs (abs p)) false Idle (cache (abs p)) (medium (abs p))) by (unfold settle; by rewrite Hm).
  assert (Ha : ata_outb (settle (abs p)) 0x1F7 0xE7 = a1) by (by rewrite Hs).
  assert (Hf : later a1 (abs p') -> abs p' = mk_ata (regs (abs p)) false Idle ∅ (sects (abs p))) by (intros [E|[_ ->]]; [by rewrite E in B|done]).
  assert (Hpr : prompt P -> abs p' = mk_ata (regs (abs p)) false Idle ∅ (sects (abs p))).
  { intros Hp. apply Hf. by rewrite <- Ha, <- Hp. }
  assert (Hr : mode (abs p') = Idle /\ sects (abs p') = sects (abs p)).
  { destruct (law_outb p 0x1F7 0xE7 Hm) as (a & [->|[_ ->]] & E); rewrite E in L.
    - unfold ata_outb in L. rewrite Hb in L. destruct L as [E2|[_ E2]]; [congruence|]. by rewrite E2, Hs.
    - rewrite Ha in L. rewrite (Hf L). split; [done|]. unfold sects. cbn. apply map_empty_union. }
  split; [apply Hr|]. split; [done|]. split; [apply Hr|]. intros Hp. by rewrite (Hpr Hp).
Qed.

Lemma ata_write_spec p lba b : ata_ok p -> lba_ok lba -> length b = 512%nat -> bytes_ok b ->
  exists p', ata_write_sector (S poll_bound) p lba 1 b = Ok p' /\ ata_ok p' /\
    sects (abs p') = <[lba := b]> (sects (abs p)) /\ (prompt P -> cache (abs p') = ∅ /\ medium (abs p') = <[lba := b]> (sects (abs p))).
Proof.
  intros [Hm Hbs Hr] Hl Hlen Hb. destruct (start_command_spec p lba 0x30 Hl Hm Hbs) as (t & E1 & E2 & E4).
  unfold ata_write_sector. set (p0 := start_command p lba 1 0x30) in *.
  destruct (to_words_of_bytes b 256 Hlen Hb) as [Hw _].
  assert (A0 : abs p0 = mk_ata t true (Writing lba 1 []) (cache (abs p)) (medium (abs p))).
  { rewrite E4. unfold ata_command. cbn [Z.eqb Pos.eqb regs]. by rewrite E1, E2. }
  change (Z.to_nat 1) with 1%nat. cbn [write_sectors].
  destruct (wait_drq_spec (S poll_bound) p0) as (p1 & W1 & L1 & D1); [by rewrite A0|apply poll_enough|].
  assert (A1 : abs p1 = mk_ata t false (Writing lba 1 []) (cache (abs p)) (medium (abs p))).
  { destruct L1 as [E|[_ E]]; rewrite A0 in E; [|exact E]. unfold drq in D1. by rewrite E in D1. }
  rewrite W1. unfold mbind, out_bind.
  destruct (write_words_spec 256 p1 lba [] b) as (p2 & W2 & A2); [by rewrite A1|by rewrite A1|done|lia|done|].
  rewrite W2. rewrite A1 in A2. cbn [app regs cache medium] in A2. rewrite Hw in A2.
  destruct (cache_flush_spec p2) as (p3 & W3 & M3 & B3 & S3 & F3); [by rewrite A2|by rewrite A2|].
  assert (Hs : sects (abs p2) = <[lba := b]> (sects (abs p))) by (rewrite A2; unfold sects; cbn; by rewrite insert_union_l).
  rewrite Hs in S3, F3. exists p3. split; [done|]. split; [|done].
  split; [done|done|]. rewrite S3. by apply map_Forall_insert_2.
Qed.

(** The driver keeps the contract of a block device. *)
#[global] Program Instance ata_spec : BlockDeviceSpec P := { dev_ok := ata_ok; sector := ata_sector }.
Next Obligation. intros p i [_ _ Hp]. by apply Ram.ram_sector_ok. Qed.
Next Obligation. intros p i [_ _ Hp]. by apply Ram.ram_sector_ok. Qed.
Next Obligation.
  intros p lba Hp Hl. destruct (ata_read_spec p lba Hp Hl) as (p' & E & Hp' & Hc & Hd).
  exists p'. split; [done|]. split; [done|]. intros i. unfold ata_sector, sects. by rewrite Hc, Hd.
Qed.
Next Obligation.
  intros p lba b Hp Hl Hlen Hb. destruct (ata_write_spec p lba b Hp Hl Hlen Hb) as (p' & E & Hp' & Hs & _).
  exists p'. split; [done|]. split; [done|]. unfold ata_sector, Ram.ram_sector. rewrite Hs.
  split; [by rewrite lookup_insert_eq|]. intros i _ Hne. by rewrite lookup_insert_ne.
Qed.
End spec.

(** ** A simulated drive

    It is busy for three status reads after a command and after every sector.
    A drive that lags is still busy when the next register is written. *)
Module SimDrive.

Record sim (lag : bool) := mk_sim { drive : ata_state; polls : nat }.
Arguments mk_sim {lag} _ _.
Arguments drive {lag} _.
Arguments polls {lag} _.

Definition status (a : ata_state) : Z := if bsy a then 0x80 else if drq a then 0x48 else 0x40.

Section ports.
Context {lag : bool}.
Implicit Types p : sim lag.

Definition sim_insb p (port : Z) : Z * sim lag :=
  if port =? 0x1F7 then
    if bsy (drive p) then
      match Nat.min (polls p) 3 with
      | O => (status (settle (drive p)), mk_sim (settle (drive p)) 0)
      | S n => (0x80, mk_sim (drive p) n)
      end
    else (status (drive p), p)
  else (0, p).
Definition sim_insw p (port : Z) : Z * sim lag :=
  if (port =? 0x1F0) && drq (drive p) then (fst (ata_data_in (drive p)), mk_sim (snd (ata_data_in (drive p))) 3) else (0, p).
Definition sim_outb p (port v : Z) : sim lag :=
  mk_sim (ata_outb (if lag then drive p else settle (drive p)) port v) 3.
Definition sim_outw p (port v : Z) : sim lag :=
  if (port =? 0x1F0) && drq (drive p) then mk_sim (ata_data_out (drive p) v) 3 else p.
End ports.

#[global] Instance sim_io lag : PortIO (sim lag) :=
  { insb := sim_insb; insw := sim_insw; outb := sim_outb; outw := sim_outw }.

Lemma status_bits a : (Z.land (status a) 0x80 =? 0) = negb (bsy a) /\ (Z.land (status a) 0x08 =? 0) = negb (drq a).
Proof. unfold status, drq. by destruct (bsy a), (data_phase (mode a)). Qed.

Lemma settle_idle a : mode a = Idle -> bsy a = false -> settle a = a.
Proof. destruct a. cbn. by intros -> ->. Qed.

#[global] Program Instance sim_ata lag : AtaSpec (sim lag) :=
  { abs := drive; poll_bound := 3; wait p := Nat.min (polls p) 3 }.
Next Obligation. intros lag p. simpl. lia. Qed.
Next Obligation.
  intros [] p port v Hm; simpl; [exists (drive p); split; [by left|done]|]. exists (settle (drive p)). split; [|done].
  destruct (bsy (drive p)) eqn:E; [by right|left; by apply settle_idle].
Qed.
Next Obligation. intros lag p Hd. simpl. unfold sim_insw. by rewrite Hd. Qed.
Next Obligation. intros lag p w Hd. simpl. unfold sim_outw. by rewrite Hd. Qed.
Next Obligation.
  intros lag p. simpl. unfold sim_insb. cbn [Z.eqb Pos.eqb]. destruct (bsy (drive p)) eqn:E.
  - destruct (Nat.min (polls p) 3) as [|n] eqn:En; cbn [drive polls].
    + split; [by right|]. destruct (status_bits (settle (drive p))) as [-> ->]. by rewrite settle_bsy.
    + split; [by left|]. unfold drq. rewrite E. split; [done|]. split; [done|]. intros _. lia.
  - split; [by left|]. destruct (status_bits (drive p)) as [-> ->]. by rewrite E.
Qed.

Lemma prompt_sim : prompt (sim false).
Proof. done. Qed.

(** An idle drive with empty sectors. *)
Definition blank (lag : bool) : sim lag := mk_sim (mk_ata (mk_tf 0 0 0 0 0) false Idle ∅ ∅) 0.

Lemma blank_ok lag : ata_ok (blank lag).
Proof. split; [done|done|]. unfold sects. cbn. rewrite map_empty_union. apply map_Forall_empty. Qed.
End SimDrive.

(** ** Theorems *)
Section theorems.
Context {P : Type} {IO : PortIO P} {AS : AtaSpec P}.

(** C36: writing a sector through the ports and reading sectors back: with a
    drive that follows the ATA PIO protocol, in which registers are ignored
    while BSY is 1 and the data port works only while DRQ is 1,
    [disk_write_sector] at any 28-bit LBA returns with the drive idle and not
    busy, a following [disk_read_sector] of that LBA returns the 512 bytes
    written, and one of any other LBA returns what it returned before.  When
    the drive takes the sector into its cache at once ([prompt]) the flush
    command reaches it, and the sector is on the medium. *)
Theorem disk_sector_roundtrip (p : P) lba b lba' :
  ata_ok p -> lba_ok lba -> lba_ok lba' -> length b = 512%nat -> bytes_ok b ->
  exists p1 p2 p3 old,
    ata_write_sector (S poll_bound) p lba 1 b = Ok p1 /\ ata_ok p1 /\
    (prompt P -> cache (abs p1) = ∅ /\ medium (abs p1) !! lba = Some b) /\
    ata_read_sector (S poll_bound) p lba' 1 = Ok (old, p2) /\
    ata_read_sector (S poll_bound) p1 lba' 1 = Ok (if bool_decide (lba' = lba) then b else old, p3) /\
    ata_ok p3 /\ cache (abs p3) = cache (abs p1) /\ medium (abs p3) = medium (abs p1).
Proof.
  intros Hp Hl Hl' Hlen Hb. destruct (ata_write_spec p lba b Hp Hl Hlen Hb) as (p1 & E1 & Hp1 & Hs1 & Hf1).
  destruct (ata_read_spec p lba' Hp Hl') as (p2 & E2 & _ & _).
  destruct (ata_read_spec p1 lba' Hp1 Hl') as (p3 & E3 & Hp3 & Hc3).
  exists p1, p2, p3, (ata_sector p lba'). split; [done|]. split; [done|].
  split; [intros Hpr; destruct (Hf1 Hpr) as [-> ->]; by rewrite lookup_insert_eq|]. split; [done|].
  split; [|done]. rewrite E3. do 2 f_equal. unfold ata_sector, Ram.ram_sector. rewrite Hs1.
  case_bool_decide as Hd; [by rewrite Hd, lookup_insert_eq|]. by rewrite lookup_insert_ne.
Qed.
End theorems.

Lemma disk_sector_roundtrip_witness :
  exists p1 p3,
    ata_write_sector 4 (SimDrive.blank false) 0x1234567 1 (replicate 512 7) = Ok p1 /\
    medium (abs p1) !! 0x1234567 = Some (replicate 512 7) /\
    ata_read_sector 4 p1 0x1234567 1 = Ok (replicate 512 7, p3).
Proof.
  destruct (disk_sector_roundtrip (SimDrive.blank false) 0x1234567 (replicate 512 7) 0x1234567)
    as (p1 & p2 & p3 & old & E1 & _ & F1 & _ & E3 & _).
  - exact (SimDrive.blank_ok false).
  - unfold lba_ok. lia.
  - unfold lba_ok. lia.
  - reflexivity.
  - apply bytes_ok_replicate. unfold byte_ok. lia.
  - exists p1, p3. split; [exact E1|]. split; [exact (proj2 (F1 SimDrive.prompt_sim))|exact E3].
Defined.

(** The driver does not wait for BSY before the flush: a drive that lags
    ignores the command, and the sector stays in its cache. *)
Theorem disk_flush_lost :
  exists p1, ata_write_sector 4 (SimDrive.blank true) 5 1 (replicate 512 7) = Ok p1 /\
    ata_ok p1 /\ medium (abs p1) !! 5 = None /\ cache (abs p1) !! 5 = Some (replicate 512 7).
Proof.
  eexists. split; [vm_compute; reflexivity|]. split; [|split; reflexivity]. split; [done|done|].
  apply (bool_decide_unpack _). vm_compute. exact I.
Qed.
