(* ===== verification/PathParser.v ===== *)
(** * Paths: src/fs/pparser.c

    A path such as [0:/dir/file.txt] is parsed into a drive number and a
    linked list of parts, all of them heap objects.  [parts_of] is the
    abstract meaning of a path; the theorems show that the parser computes
    it without leaving its 108-byte buffers, and that [pathparser_free]
    gives back every block. *)
From Stdlib Require Import ZArith Lia.
From stdpp Require Import base list gmap numbers option list_numbers.
From S2P Require Import Prelude CLib Heap.
Local Open Scope Z_scope.
Local Open Scope kernel_scope.

(** [struct path_part]: [pp_self] is its address, [pp_addr] the address of
    its string and [part] the 108 bytes there.  The list of a root follows
    the [next] pointers. *)
Record path_part := mk_part { pp_self : Z; pp_addr : Z; part : list Z }.
Record path_root := mk_root { pr_self : Z; drive_no : Z; first : list path_part }.
Definition sizeof_path_part : Z := 8.
Definition sizeof_path_root : Z := 8.
Definition SLASH : Z := 47.
Definition COLON : Z := 58.

(** [len >= 3 && isdigit(filename[0]) && memcmp(&filename[1], ":/", 2) == 0]. *)
Definition pathparser_path_valid_format (filename : list Z) : out bool :=
  len ← CString.strnlen filename PEACHOS_MAX_PATH;
  if negb (len >=? 3) then Ok false
  else
    c ← filename.[0];
    if negb (CString.isdigit (i8 c)) then Ok false
    else r ← CMem.memcmp (drop 1 filename) [COLON; SLASH; 0] 2; Ok (r =? 0).

(** The drive number or a negative status, and the advanced path. *)
Definition pathparser_get_drive_by_path (path : list Z) : out (Z * list Z) :=
  valid ← pathparser_path_valid_format path;
  if negb valid then Ok (- EBADPATH, path)
  else c ← path.[0]; Ok (CString.tonumericdigit (i8 c), drop 3 path).

(** [while ( **path != '/' && **path != 0x00)]: the buffer, the number of
    bytes stored and the rest of the path. *)
Fixpoint copy_part (path buf : list Z) (i : Z) : out (list Z * Z * list Z) :=
  match path with
  | [] => Ub
  | c :: path' =>
      if negb (c =? SLASH) && negb (c =? 0x00) then buf ← buf.[i <- c]; copy_part path' buf (i + 1)
      else Ok (buf, i, path)
  end.

Section code.
Context {H : Type} {A : Allocator H}.
Abbreviation HM := (M H).

(** A NULL result of [kzalloc] is dereferenced. *)
Definition pathparser_create_root (drive_number : Z) : HM path_root :=
  path_r ← alloc sizeof_path_root;
  if path_r =? 0 then ub else mret (mk_root path_r drive_number []).

(** The address and contents of the part's string, or NULL; and the rest of
    the path. *)
Definition pathparser_get_path_part (path : list Z) : HM (option (Z * list Z) * list Z) :=
  result_path_part ← alloc PEACHOS_MAX_PATH;
  if result_path_part =? 0 then ub
  else
    '(buf, i, path) ← lift_out (copy_part path (replicate (Z.to_nat PEACHOS_MAX_PATH) 0) 0);
    c ← lift_out (path.[0]);
    let path := if c =? SLASH then drop 1 path else path in
    if i =? 0 then _ ← dealloc result_path_part; mret (None, path)
    else mret (Some (result_path_part, buf), path).

(** The caller links the part to the last one. *)
Definition pathparser_parse_path_part (path : list Z) : HM (option path_part * list Z) :=
  '(path_part_str, path) ← pathparser_get_path_part path;
  match path_part_str with
  | None => mret (None, path)
  | Some (a, buf) =>
      part ← alloc sizeof_path_part;
      if part =? 0 then ub else mret (Some (mk_part part a buf), path)
  end.

(** The parts up to the first empty one.  Every round with a part consumes
    at least one byte of the path. *)
Fixpoint parse_parts (fuel : nat) (path : list Z) : HM (list path_part) :=
  match fuel with
  | O => hang
  | S fuel =>
      '(part, path) ← pathparser_parse_path_part path;
      match part with
      | None => mret []
      | Some part => rest ← parse_parts fuel path; mret (part :: rest)
      end
  end.

Definition pathparser_parse (path : list Z) : HM (option path_root) :=
  len ← lift_out (CString.strlen path);
  if len >? PEACHOS_MAX_PATH then mret None
  else
    '(res, tmp_path) ← lift_out (pathparser_get_drive_by_path path);
    if res <? 0 then mret None
    else
      path_root ← pathparser_create_root res;
      parts ← parse_parts (S (length tmp_path)) tmp_path;
      mret (Some (mk_root (pr_self path_root) (drive_no path_root) parts)).

(** [while(part)] of [pathparser_free]. *)
Fixpoint free_parts (parts : list path_part) : HM unit :=
  match parts with
  | [] => mret tt
  | p :: parts' => _ ← dealloc (pp_addr p); _ ← dealloc (pp_self p); free_parts parts'
  end.

Definition pathparser_free (root : path_root) : HM unit :=
  _ ← free_parts (first root); dealloc (pr_self root).
End code.

(** ** The meaning of a path *)

(** The components between slashes. *)
Fixpoint components (str : list Z) : list (list Z) :=
  match str with
  | [] => [[]]
  | c :: str' =>
      if c =? SLASH then [] :: components str'
      else match components str' with
           | [] => [[c]]
           | w :: ws => (c :: w) :: ws
           end
  end.

(** Those in front of the first empty one. *)
Fixpoint until_empty (ws : list (list Z)) : list (list Z) :=
  match ws with
  | [] => []
  | [] :: _ => []
  | w :: ws' => w :: until_empty ws'
  end.
Definition parts_of (str : list Z) : list (list Z) := until_empty (components str).

(** The drive and the parts of a well-formed path. *)
Definition parse_path (str : list Z) : option (Z * list (list Z)) :=
  match str with
  | d :: c :: s :: rest =>
      if (48 <=? d) && (d <=? 57) && (c =? COLON) && (s =? SLASH) && (length str <=? 108)%nat
      then Some (d - 48, parts_of rest) else None
  | _ => None
  end.

(** A path as text. *)
Definition render_parts (ws : list (list Z)) : list Z :=
  match ws with
  | [] => []
  | w :: ws' => w ++ (ws' ≫= fun w => SLASH :: w)
  end.
Definition render_path (d : Z) (ws : list (list Z)) : list Z := (48 + d) :: COLON :: SLASH :: render_parts ws.

(** ** Heap objects *)
Definition part_addrs (p : path_part) : list Z := [pp_addr p; pp_self p].
Definition parts_addrs (l : list path_part) : list Z := l ≫= part_addrs.
Definition root_addrs (r : path_root) : list Z := parts_addrs (first r) ++ [pr_self r].

Lemma length_parts_addrs l : length (parts_addrs l) = (2 * length l)%nat.
Proof. induction l as [|p l IH]; [done|]. change (parts_addrs (p :: l)) with (part_addrs p ++ parts_addrs l). simpl. lia. Qed.

(** ** Components *)
Lemma components_cons str : exists w ws, components str = w :: ws.
Proof.
  destruct str as [|c str]; simpl; [eauto|]. destruct (c =? SLASH); [eauto|]. destruct (components str); eauto.
Qed.

(** The first component and what is left after its slash. *)
Fixpoint first_component (str : list Z) : list Z * option (list Z) :=
  match str with
  | [] => ([], None)
  | c :: str' =>
      if c =? SLASH then ([], Some str')
      else let '(w, r) := first_component str' in (c :: w, r)
  end.

Lemma components_first str : components str =
  match first_component str with
  | (w, Some r) => w :: components r
  | (w, None) => [w]
  end.
Proof.
  induction str as [|c str IH]; simpl; [done|]. destruct (c =? SLASH); [done|].
  rewrite IH. destruct (first_component str) as [w [r|]]; done.
Qed.

Lemma parts_of_first str : parts_of str =
  match first_component str with
  | ([], _) => []
  | (w, Some r) => w :: parts_of r
  | (w, None) => [w]
  end.
Proof.
  unfold parts_of. rewrite components_first. destruct (first_component str) as [[|c w] [r|]]; done.
Qed.

Lemma first_component_length str :
  match first_component str with
  | (w, Some r) => length str = S (length w + length r)
  | (w, None) => length str = length w
  end.
Proof.
  induction str as [|c str IH]; simpl; [done|]. destruct (c =? SLASH); [done|].
  destruct (first_component str) as [w [r|]]; simpl; lia.
Qed.

Lemma first_component_nonzero str : Forall (fun c => c <> 0) str ->
  Forall (fun c => c <> 0) (fst (first_component str)) /\
  match snd (first_component str) with Some r => Forall (fun c => c <> 0) r | None => True end.
Proof.
  induction 1 as [|c str Hc Hs IH]; simpl; [done|]. destruct (c =? SLASH); [done|].
  destruct (first_component str) as [w r]. simpl in *. destruct IH. split; [by constructor|done].
Qed.

(** What is left of the string in memory after a component. *)
Definition after (r : option (list Z)) (tail : list Z) : list Z :=
  match r with Some r => SLASH :: r ++ 0 :: tail | None => 0 :: tail end.

Lemma copy_part_spec str : forall pre rest tail,
  Forall (fun c => c <> 0) str -> (length str < length rest)%nat ->
  copy_part (str ++ 0 :: tail) (pre ++ rest) (Z.of_nat (length pre)) =
    let '(w, r) := first_component str in
    Ok (pre ++ w ++ drop (length w) rest, Z.of_nat (length pre + length w), after r tail).
Proof.
  induction str as [|c str IH]; intros pre rest tail Hn Hl; cbn [copy_part app first_component].
  - cbn [Z.eqb negb andb]. rewrite andb_false_r. simpl. rewrite Nat.add_0_r. by rewrite drop_0.
  - apply Forall_cons in Hn as [Hc Hn]. destruct (Z.eqb_spec c SLASH) as [->|Hs]; simpl.
    + by rewrite Nat.add_0_r, drop_0.
    + destruct (Z.eqb_spec c 0); [done|]. simpl. destruct rest as [|x rest]; simpl in Hl; [lia|].
      rewrite aset_app. cbn [mbind out_bind].
      replace (Z.of_nat (length pre) + 1) with (Z.of_nat (length (pre ++ [c]))) by (rewrite length_app; simpl; lia).
      rewrite (cons_middle c), app_assoc, IH by (done || simpl; lia).
      destruct (first_component str) as [w r]. rewrite <- !app_assoc, length_app. simpl. do 3 f_equal. lia.
Qed.

(** ** The parser on the heap *)
Section spec.
Context {H : Type} {A : Allocator H} {AS : AllocatorSpec H}.
Implicit Types h : H.

(** The buffer of a part. *)
Definition part_buf (w : list Z) : list Z := w ++ replicate (108 - length w) 0.

Definition rest_of (r : option (list Z)) (tail : list Z) : list Z := default [] r ++ 0 :: tail.

Lemma get_path_part_spec h m str tail w r :
  owns h m -> (1 <= free_blocks h)%nat -> Forall (fun c => c <> 0) str -> (length str < 108)%nat ->
  first_component str = (w, r) ->
  wp (pathparser_get_path_part (str ++ 0 :: tail)) (fun res h' =>
    snd res = rest_of r tail /\
    loses h h' 1 /\
    ((w = [] /\ fst res = None /\ owns h' m /\ free_blocks h' = free_blocks h) \/
     (w <> [] /\ exists a, fst res = Some (a, part_buf w) /\ m !! a = None /\ owns h' (<[a := 1]> m) /\
        free_blocks h = S (free_blocks h')))) h.
Proof.
  intros Ho Hf Hn Hl E. unfold pathparser_get_path_part.
  eapply wp_step; [by apply (alloc_spec h m)|]. intros a h1 (Ha & Fa & O1 & N1 & L1). destruct (Z.eqb_spec a 0); [lia|].
  pose proof (copy_part_spec str [] (replicate 108 0) tail Hn Hl) as C. rewrite E in C. cbn [app length Nat.add] in C.
  apply wp_bind. eapply wp_lift; [exact C|]. cbn beta iota. rewrite drop_replicate. fold (part_buf w).
  assert (Hrest : exists c, (after r tail).[0] = Ok c /\ (if c =? SLASH then drop 1 (after r tail) else after r tail) = rest_of r tail).
  { destruct r as [r|]; eexists; split; reflexivity. }
  destruct Hrest as (c & Ec & Er). apply wp_bind. eapply wp_lift; [exact Ec|]. rewrite Er.
  destruct w as [|x w]; cbn [length Z.of_nat Z.eqb].
  - eapply wp_step; [eapply (dealloc_spec h1 _ a 1); [exact O1|apply lookup_insert_eq]|].
    intros u h2 (O2 & N2 & L2). apply wp_ret. split; [done|]. split; [by eapply loses_trans|].
    left. rewrite delete_insert_id in O2 by done. repeat split; try done. lia.
  - apply wp_ret. split; [done|]. split; [done|]. right. split; [done|]. by exists a.
Qed.

Lemma parse_parts_spec fuel : forall h m str tail,
  owns h m -> Forall (fun c => c <> 0) str -> (length str < 108)%nat -> (length str < fuel)%nat ->
  (2 * length (parts_of str) + 1 <= free_blocks h)%nat ->
  wp (parse_parts fuel (str ++ 0 :: tail)) (fun l h' =>
    part <$> l = part_buf <$> parts_of str /\ fresh_blocks (parts_addrs l) m /\
    owns h' (with_blocks (parts_addrs l) m) /\
    free_blocks h = (2 * length (parts_of str) + free_blocks h')%nat /\
    loses h h' (2 * length (parts_of str) + 1)) h.
Proof.
  induction fuel as [|fuel IH]; intros h m str tail Ho Hn Hl Hfu Hf; [lia|]. cbn [parse_parts].
  pose proof (parts_of_first str) as Ep. pose proof (first_component_length str) as El.
  destruct (first_component_nonzero str Hn) as [Hw Hr]. destruct (first_component str) as [w r] eqn:E. simpl in Hw, Hr.
  unfold pathparser_parse_path_part. apply wp_bind.
  eapply wp_step; [apply (get_path_part_spec h m str tail w r); (done || lia)|].
  intros [o path] h1 (Hpath & Hlo & [(-> & Ho1 & O1 & N1)|(Hne & a & Ho1 & Fa & O1 & N1)]); simpl in Hpath, Ho1; subst o path; cbn beta iota.
  - apply wp_ret, wp_ret. rewrite Ep. split; [done|]. split; [split; [constructor|by intros ? ?%not_elem_of_nil]|].
    split; [done|]. split; [simpl; lia|done].
  - assert (Ep' : parts_of str = w :: parts_of (default [] r)).
    { rewrite Ep. destruct w as [|x w]; [done|]. by destruct r. }
    rewrite Ep' in Hf |- *. cbn [length] in Hf. assert (Hw1 : (1 <= length w)%nat) by (destruct w; [done|simpl; lia]).
    eapply wp_step; [eapply (alloc_spec h1 _ sizeof_path_part O1); [done|lia]|].
    intros p h2 (Hp & Fp & O2 & N2 & Lo2). destruct (Z.eqb_spec p 0); [lia|]. apply wp_ret. cbn beta iota.
    assert (Hlr : (length (default [] r) < length str)%nat) by (destruct r; simpl in *; lia).
    eapply wp_step; [apply (IH h2 _ (default [] r) tail O2); [by destruct r|lia|lia|lia]|].
    intros l h3 (L1 & L2 & L3 & L4 & L5). apply wp_ret. cbn [fmap list_fmap length]. split; [by rewrite L1|].
    assert (P : parts_addrs l ++ [p; a] ≡ₚ parts_addrs (mk_part p a (part_buf w) :: l)).
    { rewrite Permutation_app_comm. unfold parts_addrs. simpl. apply perm_swap. }
    split; [|split; [|split; [simpl; lia|]]].
    3:{ eapply loses_trans; [exact Hlo|eapply loses_trans; [exact Lo2|exact L5|reflexivity]|]. lia. }
    + apply (fresh_blocks_perm _ _ _ P). destruct L2 as [D1 D2]. split.
      * apply NoDup_app. split; [done|]. split.
        { intros x Hx [->| ->%list_elem_of_singleton]%elem_of_cons; specialize (D2 _ Hx);
            apply lookup_insert_None in D2 as [[_ ?]%lookup_insert_None ?]; done. }
        { apply list.NoDup_cons. split; [|apply NoDup_singleton]. intros ->%list_elem_of_singleton.
          by apply lookup_insert_None in Fp as [_ ?]. }
      * intros x [Hx|Hx]%elem_of_app.
        { specialize (D2 _ Hx). apply lookup_insert_None in D2 as [[D2 _]%lookup_insert_None _]. done. }
        { apply elem_of_cons in Hx as [->|Hx]; [by apply lookup_insert_None in Fp as [? _]|].
          by apply list_elem_of_singleton in Hx as ->. }
    + rewrite <- (with_blocks_perm _ _ _ P), with_blocks_app. exact L3.
Qed.

Lemma i8_byte c : byte_ok c -> i8 c = if c <? 128 then c else c - 256.
Proof. unfold byte_ok, i8. intros. destruct (Z.ltb_spec c 128); zdm. Qed.

(** The drive prefix: [parse_path] succeeds exactly when the code finds it. *)
Lemma get_drive_spec str tail :
  bytes_ok str -> Forall (fun c => c <> 0) str -> (length str <= 108)%nat ->
  exists r rest, pathparser_get_drive_by_path (str ++ 0 :: tail) = Ok (r, rest) /\
    match parse_path str with
    | None => r = - EBADPATH
    | Some (d, ws) => r = d /\ 0 <= d < 10 /\ exists str', str = take 3 str ++ str' /\ rest = str' ++ 0 :: tail /\
        ws = parts_of str' /\ (3 + length str' = length str)%nat
    end.
Proof.
  intros Hb Hn Hl. unfold pathparser_get_drive_by_path, pathparser_path_valid_format.
  rewrite (CString.strnlen_spec _ str) by (by apply CString.cstring_app || done). cbn [mbind out_bind].
  destruct str as [|d [|c [|sl str]]];
    [by eexists _, _|by eexists _, _|by eexists _, _|].
  rewrite Z.min_l by (unfold PEACHOS_MAX_PATH; lia).
  destruct (Z.geb_spec (Z.of_nat (length (d :: c :: sl :: str))) 3) as [_|Hlt]; [|cbn [length] in Hlt; lia].
  change ((d :: c :: sl :: str) ++ 0 :: tail) with (d :: c :: sl :: (str ++ 0 :: tail)).
  change ((d :: c :: sl :: (str ++ 0 :: tail)).[0]) with (Ok d). cbn [mbind out_bind negb].
  apply Forall_cons in Hb as [Hd Hb]. apply Forall_cons in Hb as [Hc Hb]. apply Forall_cons in Hb as [Hsl _].
  assert (Hdig : CString.isdigit (i8 d) = (48 <=? d) && (d <=? 57)).
  { rewrite i8_byte by done. unfold CString.isdigit, byte_ok in *. destruct (Z.ltb_spec d 128); [done|].
    destruct (Z.leb_spec 48 (d - 256)), (Z.leb_spec (d - 256) 57), (Z.leb_spec 48 d), (Z.leb_spec d 57); simpl; lia. }
  rewrite Hdig. cbn [parse_path]. rewrite (proj2 (Nat.leb_le (length (d :: c :: sl :: str)) 108) Hl), andb_true_r.
  destruct ((48 <=? d) && (d <=? 57)) eqn:Ed; cbn [negb andb]; [|by eexists _, _].
  assert (Em : exists z, CMem.memcmp (drop 1 (d :: c :: sl :: (str ++ 0 :: tail))) [COLON; SLASH; 0] 2 = Ok z /\
    (z =? 0) = (c =? COLON) && (sl =? SLASH)).
  { destruct (CMem.memcmp_zero (c :: sl :: (str ++ 0 :: tail)) [COLON; SLASH; 0] 2) as (z & Ez & Hz); [simpl; lia..|].
    exists z. split; [exact Ez|]. simpl in Hz.
    destruct (Z.eqb_spec z 0) as [E|E], (Z.eqb_spec c COLON) as [->|], (Z.eqb_spec sl SLASH) as [->|]; simpl;
      try done; exfalso; naive_solver. }
  destruct Em as (z & Em & Ez). rewrite Em. cbn [mbind out_bind]. rewrite Ez.
  destruct ((c =? COLON) && (sl =? SLASH)) eqn:Ecs; cbn [negb]; [|by eexists _, _].
  apply andb_true_iff in Ed as [Ed1 Ed2]. apply Z.leb_le in Ed1, Ed2.
  eexists _, _. split; [reflexivity|]. cbn [drop]. unfold CString.tonumericdigit. rewrite i8_id by lia.
  split; [done|]. split; [lia|]. by exists str.
Qed.

Lemma free_all_spec l : forall h m,
  owns h (with_blocks (parts_addrs l) m) -> fresh_blocks (parts_addrs l) m ->
  wp (free_parts l) (fun _ h' => owns h' m /\ free_blocks h' = (2 * length l + free_blocks h)%nat) h.
Proof.
  induction l as [|p l IH]; intros h m Ho Hf; cbn [free_parts]; [apply wp_ret; done|].
  change (parts_addrs (p :: l)) with (pp_addr p :: pp_self p :: parts_addrs l) in *.
  apply fresh_blocks_cons in Hf as [F1 Hf]. apply fresh_blocks_cons in Hf as [F2 Hf]. cbn [with_blocks foldr] in *.
  eapply wp_step; [eapply (dealloc_spec h _ (pp_addr p) 1); [exact Ho|apply lookup_insert_eq]|].
  intros u h1 (O1 & N1 & _). rewrite delete_insert_id in O1 by done.
  eapply wp_step; [eapply (dealloc_spec h1 _ (pp_self p) 1); [exact O1|apply lookup_insert_eq]|].
  intros v h2 (O2 & N2 & _). rewrite delete_insert_id in O2 by done.
  eapply wp_mono; [by apply (IH h2 m)|]. intros w h3 [O3 N3]. split; [done|]. simpl. lia.
Qed.

(** A parsed path on the heap. *)
Record parsed (m : gmap Z Z) (d : Z) (ws : list (list Z)) (r : path_root) : Prop := {
  pd_drive : drive_no r = d;
  pd_parts : part <$> first r = part_buf <$> ws;
  pd_fresh : fresh_blocks (root_addrs r) m }.

(** The heap has room for the parts of the path. *)
Definition room_for h (str : list Z) : Prop :=
  match parse_path str with
  | Some (_, ws) => (2 * length ws + 2 <= free_blocks h)%nat
  | None => True
  end.

Lemma parse_path_long str : (108 < length str)%nat -> parse_path str = None.
Proof.
  intros Hl. destruct str as [|d [|c [|sl str]]]; try done. cbn [parse_path].
  apply Nat.leb_gt in Hl as ->. by rewrite andb_false_r.
Qed.

Lemma parse_spec h m path str :
  owns h m -> CString.cstring path = Some str -> bytes_ok str -> room_for h str ->
  wp (pathparser_parse path) (fun r h' =>
    match parse_path str with
    | None => r = None /\ h' = h
    | Some (d, ws) => exists root, r = Some root /\ parsed m d ws root /\ owns h' (with_blocks (root_addrs root) m) /\
        free_blocks h = (1 + 2 * length ws + free_blocks h')%nat /\ loses h h' (2 * length ws + 2)
    end) h.
Proof.
  intros Ho Hs Hb Hroom. unfold pathparser_parse, room_for in *. apply wp_bind.
  eapply wp_lift; [by rewrite CString.strlen_spec, Hs|].
  destruct (Z.gtb_spec (Z.of_nat (length str)) PEACHOS_MAX_PATH) as [Hgt|Hle]; unfold PEACHOS_MAX_PATH in *.
  { apply wp_ret. by rewrite parse_path_long by lia. }
  apply CString.cstring_Some in Hs as (tail & -> & Hn).
  destruct (get_drive_spec str tail Hb Hn ltac:(lia)) as (r & rest & E & Hr).
  apply wp_bind. eapply wp_lift; [exact E|]. cbn beta iota.
  destruct (parse_path str) as [[d ws]|]; [|by rewrite Hr; apply wp_ret].
  destruct Hr as (-> & Hd & str' & Estr & -> & -> & Hlen). destruct (Z.ltb_spec d 0); [lia|].
  unfold pathparser_create_root. apply wp_bind.
  eapply wp_step; [apply (alloc_spec h m sizeof_path_root Ho); [done|lia]|].
  intros a h1 (Ha & Fa & O1 & N1 & Lo1). destruct (Z.eqb_spec a 0); [lia|]. apply wp_ret.
  eapply wp_step; [apply (parse_parts_spec _ h1 _ str' tail O1); [|lia| |lia]|].
  { rewrite Estr in Hn. by apply Forall_app in Hn as [_ ?]. }
  { rewrite length_app. lia. }
  intros l h2 (L1 & L2 & L3 & L4 & L5). apply wp_ret. eexists. split; [reflexivity|]. cbn [pr_self drive_no].
  assert (P : a :: parts_addrs l ≡ₚ parts_addrs l ++ [a]) by (by rewrite Permutation_app_comm).
  split; [|split; [|split; [lia|eapply loses_trans; [exact Lo1|exact L5|lia]]]].
  - split; [done|done|]. unfold root_addrs. cbn [first pr_self]. apply (fresh_blocks_perm _ _ _ P). destruct L2 as [D1 D2].
    split; [apply list.NoDup_cons; split; [|done]|].
    + intros Ha'. specialize (D2 a Ha'). by rewrite lookup_insert_eq in D2.
    + intros x [->|Hx]%elem_of_cons; [done|]. by apply D2, lookup_insert_None in Hx as [? _].
  - unfold root_addrs. cbn [first pr_self]. by rewrite with_blocks_app.
Qed.

Lemma path_free_spec h m d ws root :
  parsed m d ws root -> owns h (with_blocks (root_addrs root) m) ->
  wp (pathparser_free root) (fun _ h' => owns h' m /\ free_blocks h' = (1 + 2 * length ws + free_blocks h)%nat) h.
Proof.
  intros [_ P2 P3] Ho. unfold root_addrs in *. rewrite with_blocks_app in Ho.
  change (with_blocks [pr_self root] m) with (<[pr_self root := 1]> m) in Ho.
  destruct P3 as [D1 D2]. apply NoDup_app in D1 as (D1 & D1' & _).
  assert (Hm : m !! pr_self root = None) by (apply D2, elem_of_app; right; by apply list_elem_of_singleton).
  unfold pathparser_free. eapply wp_step; [eapply free_all_spec; [exact Ho|]|].
  { split; [done|]. intros a Ha. apply lookup_insert_None. split; [apply D2, elem_of_app; by left|].
    intros <-. by apply (D1' _ Ha), list_elem_of_singleton. }
  intros u h1 [O1 N1]. eapply wp_mono; [eapply (dealloc_spec h1 _ _ 1); [exact O1|apply lookup_insert_eq]|].
  intros v h2 (O2 & N2 & _). rewrite delete_insert_id in O2 by done. split; [done|].
  assert (length (first root) = length ws) by (rewrite <- (length_fmap part), P2; apply length_fmap). lia.
Qed.
End spec.

(** ** Rendering *)
Definition part_text (w : list Z) : Prop := w <> [] /\ Forall (fun c => byte_ok c /\ c <> 0 /\ c <> SLASH) w.

Lemma first_component_app w str : Forall (fun c => byte_ok c /\ c <> 0 /\ c <> SLASH) w ->
  first_component (w ++ SLASH :: str) = (w, Some str) /\ first_component w = (w, None).
Proof.
  induction 1 as [|c w (? & ? & Hc) _ [IH1 IH2]]; [done|]. cbn [app first_component].
  apply Z.eqb_neq in Hc as ->. by rewrite IH1, IH2.
Qed.

Lemma parts_render ws : Forall part_text ws -> parts_of (render_parts ws) = ws.
Proof.
  induction ws as [|w ws IH]; [done|]. intros [[Hne Hw] Hws]%Forall_cons. rewrite parts_of_first.
  destruct ws as [|w' ws]; cbn [render_parts mbind list_bind].
  - rewrite app_nil_r. destruct (first_component_app w [] Hw) as [_ ->]. by destruct w.
  - cbn [app]. destruct (first_component_app w (w' ++ (ws ≫= fun w => SLASH :: w)) Hw) as [-> _].
    destruct w; [done|]. f_equal. exact (IH Hws).
Qed.

Lemma parse_render d ws :
  0 <= d < 10 -> Forall part_text ws -> (length (render_path d ws) <= 108)%nat ->
  parse_path (render_path d ws) = Some (d, ws).
Proof.
  intros Hd Hws Hl. unfold render_path in *. cbn [parse_path]. apply Nat.leb_le in Hl as ->.
  destruct (Z.leb_spec 48 (48 + d)), (Z.leb_spec (48 + d) 57); try lia. simpl. rewrite parts_render by done.
  do 2 f_equal. lia.
Qed.

(** A rendered path is a string, and no part of it is longer. *)
Lemma render_bytes d ws : 0 <= d < 10 -> Forall part_text ws ->
  Forall (fun c => byte_ok c /\ c <> 0) (render_path d ws).
Proof.
  intros Hd Hws.
  assert (Ht : forall w, part_text w -> Forall (fun c => byte_ok c /\ c <> 0) w).
  { intros w [_ Hw]. eapply Forall_impl; [exact Hw|]. by intros c (? & ? & _). }
  unfold render_path. do 3 (constructor; [unfold byte_ok, COLON, SLASH; lia|]).
  destruct ws as [|w ws]; [constructor|]. apply Forall_cons in Hws as [Hw Hws]. apply Forall_app. split; [auto|].
  induction Hws as [|x ws Hx _ IH]; [constructor|]. cbn [mbind list_bind app].
  constructor; [unfold byte_ok, SLASH; lia|]. apply Forall_app. auto.
Qed.

Lemma render_length d ws i w : ws !! i = Some w -> (length w + 3 <= length (render_path d ws))%nat.
Proof.
  unfold render_path. cbn [length]. destruct ws as [|x ws]; [done|]. cbn [render_parts]. rewrite length_app.
  destruct i as [|i]; simpl; [intros [= ->]; lia|]. intros Hw. apply list_elem_of_lookup_2 in Hw.
  induction ws as [|y ws IH]; [by apply not_elem_of_nil in Hw|]. cbn [mbind list_bind app length]. rewrite length_app.
  apply elem_of_cons in Hw as [->|Hw]; [lia|]. specialize (IH Hw). lia.
Qed.

Lemma cstring_part_buf w : part_text w -> (length w < 108)%nat -> CString.cstring (part_buf w) = Some w.
Proof.
  intros [_ Hw] Hl. unfold part_buf. replace (108 - length w)%nat with (S (107 - length w)) by lia.
  apply CString.cstring_app. eapply Forall_impl; [exact Hw|]. by intros c (_ & ? & _).
Qed.

Lemma parsed_strings m d ws root : parsed m d ws root -> Forall part_text ws -> (length (render_path d ws) <= 108)%nat ->
  Forall2 (fun p w => CString.cstring (part p) = Some w) (first root) ws.
Proof.
  intros [_ Ep _] Hws Hl. apply Forall2_same_length_lookup. split.
  { rewrite <- (length_fmap part), Ep. apply length_fmap. }
  intros i p w Hp Hw. assert (part p = part_buf w) as ->.
  { assert (X : (part <$> first root) !! i = Some (part p)) by (by rewrite list_lookup_fmap, Hp).
    rewrite Ep, list_lookup_fmap, Hw in X. by injection X. }
  rewrite Forall_lookup in Hws. pose proof (render_length d ws i w Hw). apply cstring_part_buf; [by eapply Hws|lia].
Qed.

(** ** Theorems *)
Section theorems.
Context {H : Type} {A : Allocator H} {AS : AllocatorSpec H}.

(** [pathparser_parse] computes the meaning of a path.  A path that is
    too long or has no drive prefix gives NULL and leaves the heap alone;
    any other path gives its drive and its parts up to the first empty one,
    each a NUL-padded string in a 108-byte buffer that is never overrun, and
    one heap block for the root and two for every part are used. *)
Theorem pathparser_parse_correct (h : H) m path str :
  owns h m -> CString.cstring path = Some str -> bytes_ok str -> room_for h str ->
  wp (pathparser_parse path) (fun r h' =>
    match parse_path str with
    | None => r = None /\ h' = h
    | Some (d, ws) => exists root, r = Some root /\ drive_no root = d /\
        part <$> first root = part_buf <$> ws /\ owns h' (with_blocks (root_addrs root) m) /\
        fresh_blocks (root_addrs root) m /\ free_blocks h = (1 + 2 * length ws + free_blocks h')%nat
    end) h.
Proof.
  intros Ho Hs Hb Hr. eapply wp_mono; [by apply (parse_spec h m path str)|]. intros r h'.
  destruct (parse_path str) as [[d ws]|]; [|done].
  intros (root & -> & [P1 P2 P3] & O & N & _). by exists root.
Qed.

(** C32: printing a drive and its parts and parsing the text gives them back,
    and [pathparser_free] then returns every heap block. *)
Theorem pathparser_roundtrip (h : H) m d ws tail :
  owns h m -> 0 <= d < 10 -> Forall part_text ws -> (length (render_path d ws) <= 108)%nat ->
  (2 * length ws + 2 <= free_blocks h)%nat ->
  wp (pathparser_parse (render_path d ws ++ 0 :: tail)) (fun r h' => exists root, r = Some root /\
    drive_no root = d /\ Forall2 (fun p w => CString.cstring (part p) = Some w) (first root) ws /\
    wp (pathparser_free root) (fun _ h'' => owns h'' m /\ free_blocks h'' = free_blocks h) h') h.
Proof.
  intros Ho Hd Hws Hl Hf. pose proof (parse_render d ws Hd Hws Hl) as E. pose proof (render_bytes d ws Hd Hws) as Hrb.
  eapply wp_mono; [apply (parse_spec h m _ (render_path d ws) Ho)|].
  - apply CString.cstring_app. eapply Forall_impl; [exact Hrb|]. by intros c [_ ?].
  - eapply Forall_impl; [exact Hrb|]. by intros c [? _].
  - unfold room_for. by rewrite E.
  - intros r h'. rewrite E. intros (root & -> & P & O & N). exists root. split; [done|]. split; [apply P|]. split.
    + by apply (parsed_strings m d).
    + eapply wp_mono; [by apply (path_free_spec h' m d ws root)|]. intros u h2 [O2 N2]. split; [done|lia].
Qed.
End theorems.

(** ** Witnesses: the path 0:/ab/c on an empty heap of ten blocks *)
Module ExamplePath.
Definition ten_blocks : Heap.heap := Heap.mk_heap (Heap.mk_table (replicate 10 0) 10) 0x01000000.
Definition example : KHeap.kheap := KHeap.mk_kheap ten_blocks ∅.
Lemma example_owns : owns example ∅.
Proof.
  exists ∅. split; [|done]. split; [done| |done|done|done]. simpl. repeat constructor.
Qed.
Lemma example_free : free_blocks example = 10%nat.
Proof. vm_compute. reflexivity. Qed.
End ExamplePath.
Import ExamplePath.

Lemma pathparser_parse_correct_witness :
  wp (pathparser_parse [48; 58; 47; 97; 98; 47; 99; 0]) (fun r _ => exists root, r = Some root /\
    drive_no root = 0 /\ part <$> first root = [part_buf [97; 98]; part_buf [99]]) example.
Proof.
  eapply wp_mono; [apply (pathparser_parse_correct example ∅ _ [48; 58; 47; 97; 98; 47; 99])|].
  - exact example_owns.
  - reflexivity.
  - repeat (constructor; [unfold byte_ok; lia|]). constructor.
  - unfold room_for. rewrite example_free. change (parse_path [48; 58; 47; 97; 98; 47; 99]) with (Some (0, [[97; 98]; [99]])).
    simpl. lia.
  - intros r h' (root & Hr & Hd & Hp & _). exists root. split; [exact Hr|]. split; [exact Hd|exact Hp].
Defined.

Lemma pathparser_roundtrip_witness :
  wp (pathparser_parse (render_path 0 [[97; 98]; [99]] ++ [0])) (fun r h' => exists root, r = Some root /\
    wp (pathparser_free root) (fun _ h'' => free_blocks h'' = 10%nat) h') example.
Proof.
  eapply wp_mono; [apply (pathparser_roundtrip example ∅ 0 [[97; 98]; [99]] [])|].
  - exact example_owns.
  - lia.
  - repeat (constructor; [split; [done|repeat (constructor; [unfold byte_ok, SLASH; lia|]); constructor]|]). constructor.
  - simpl. lia.
  - rewrite example_free. simpl. lia.
  - intros r h' (root & Hr & _ & _ & W). exists root. split; [exact Hr|].
    eapply wp_mono; [exact W|]. intros u h'' [_ Hn]. exact Hn.
Defined.
