(* ===== verification/FatTypes.v ===== *)
(** * Data of the FAT16 driver: the structures of src/fs/fat/fat16.c

    The on-disk structures ([struct fat_h], [struct fat_directory_item]) with
    their packed little-endian encodings, the in-memory structures, and the
    state the driver works on.  An object that is reached from one place only
    is held by value together with the heap address [self] it lives at, so
    that allocating and freeing it is visible in the allocator. *)
From Stdlib Require Import ZArith Lia.
From stdpp Require Import base list gmap numbers option list_numbers.
From S2P Require Import Prelude CLib Heap Disk.
Local Open Scope Z_scope.
Local Open Scope kernel_scope.

Definition PEACHOS_FAT16_SIGNATURE : Z := 0x29.
Definition PEACHOS_FAT16_FAT_ENTRY_SIZE : Z := 0x02.
Definition PEACHOS_FAT16_BAD_SECTOR : Z := 0xFF7.
Definition PEACHOS_FAT16_UNUSED : Z := 0x00.
Definition FAT16_EOC : Z := 0xFFFF.
Definition FAT16_EOC_MIN : Z := 0xFFF8.
Definition FAT_ITEM_TYPE_DIRECTORY : Z := 0.
Definition FAT_ITEM_TYPE_FILE : Z := 1.
Definition FAT_FILE_READ_ONLY : Z := 0x01.
Definition FAT_FILE_VOLUME_LABEL : Z := 0x08.
Definition FAT_FILE_SUBDIRECTORY : Z := 0x10.
Definition FAT_FILE_ARCHIVED : Z := 0x20.

(** The field of [n] bytes at offset [off]. *)
Definition field (b : list Z) (off n : nat) : list Z := take n (drop off b).
Definition fieldz (b : list Z) (off n : nat) : Z := of_le (field b off n).

(** ** [struct fat_h]: the boot sector's header *)
Record fat_header_extended := mk_ext {
  drive_number : Z; win_nt_bit : Z; signature : Z; volume_id : Z;
  volume_id_string : list Z; system_id_string : list Z }.

Record fat_header := mk_header {
  short_jmp_ins : list Z; oem_identifier : list Z;
  bytes_per_sector : Z; sectors_per_cluster : Z; reserved_sectors : Z;
  fat_copies : Z; root_dir_entries : Z; number_of_sectors : Z; media_type : Z;
  sectors_per_fat : Z; sectors_per_track : Z; number_of_heads : Z;
  hidden_setors : Z; sectors_big : Z }.

Record fat_h := mk_fat_h { primary_header : fat_header; extended_header : fat_header_extended }.
Definition sizeof_fat_h : Z := 62.

(** Reading the packed header out of memory. *)
Definition decode_fat_h (b : list Z) : fat_h :=
  mk_fat_h
    (mk_header (field b 0 3) (field b 3 8) (fieldz b 11 2) (fieldz b 13 1) (fieldz b 14 2)
       (fieldz b 16 1) (fieldz b 17 2) (fieldz b 19 2) (fieldz b 21 1) (fieldz b 22 2)
       (fieldz b 24 2) (fieldz b 26 2) (fieldz b 28 4) (fieldz b 32 4))
    (mk_ext (fieldz b 36 1) (fieldz b 37 1) (fieldz b 38 1) (fieldz b 39 4)
       (field b 43 11) (field b 54 8)).

(** ** [struct fat_directory_item] *)
Record fat_directory_item := mk_item {
  filename : list Z; ext : list Z; attribute : Z; reserved : Z;
  creation_time_tenths_of_a_sec : Z; creation_time : Z; creation_date : Z; last_access : Z;
  high_16_bits_first_cluster : Z; last_mod_time : Z; last_mod_date : Z;
  low_16_bits_first_cluster : Z; filesize : Z }.
Definition sizeof_item : Z := 32.
#[global] Instance fat_directory_item_eq_dec : EqDecision fat_directory_item.
Proof. solve_decision. Defined.

Definition decode_item (b : list Z) : fat_directory_item :=
  mk_item (field b 0 8) (field b 8 3) (fieldz b 11 1) (fieldz b 12 1) (fieldz b 13 1)
    (fieldz b 14 2) (fieldz b 16 2) (fieldz b 18 2) (fieldz b 20 2) (fieldz b 22 2)
    (fieldz b 24 2) (fieldz b 26 2) (fieldz b 28 4).

Definition encode_item (i : fat_directory_item) : list Z :=
  filename i ++ ext i ++ [attribute i; reserved i; creation_time_tenths_of_a_sec i] ++
  le16 (creation_time i) ++ le16 (creation_date i) ++ le16 (last_access i) ++
  le16 (high_16_bits_first_cluster i) ++ le16 (last_mod_time i) ++ le16 (last_mod_date i) ++
  le16 (low_16_bits_first_cluster i) ++ le32 (filesize i).

(** An array of items in memory. *)
Definition decode_items (n : nat) (b : list Z) : list fat_directory_item :=
  (fun k => decode_item (field b (32 * k) 32)) <$> seq 0 n.

(** The zeroed item of [memset(new_entry, 0, sizeof( *new_entry))]. *)
Definition zero_item : fat_directory_item :=
  mk_item (replicate 8 0) (replicate 3 0) 0 0 0 0 0 0 0 0 0 0 0.

Definition set_name (i : fat_directory_item) (f e : list Z) : fat_directory_item :=
  mk_item f e (attribute i) (reserved i) (creation_time_tenths_of_a_sec i) (creation_time i)
    (creation_date i) (last_access i) (high_16_bits_first_cluster i) (last_mod_time i)
    (last_mod_date i) (low_16_bits_first_cluster i) (filesize i).
Definition set_attribute (i : fat_directory_item) (a : Z) : fat_directory_item :=
  mk_item (filename i) (ext i) a (reserved i) (creation_time_tenths_of_a_sec i) (creation_time i)
    (creation_date i) (last_access i) (high_16_bits_first_cluster i) (last_mod_time i)
    (last_mod_date i) (low_16_bits_first_cluster i) (filesize i).
Definition set_cluster (i : fat_directory_item) (high low : Z) : fat_directory_item :=
  mk_item (filename i) (ext i) (attribute i) (reserved i) (creation_time_tenths_of_a_sec i)
    (creation_time i) (creation_date i) (last_access i) high (last_mod_time i)
    (last_mod_date i) low (filesize i).
Definition set_filesize (i : fat_directory_item) (n : Z) : fat_directory_item :=
  mk_item (filename i) (ext i) (attribute i) (reserved i) (creation_time_tenths_of_a_sec i)
    (creation_time i) (creation_date i) (last_access i) (high_16_bits_first_cluster i)
    (last_mod_time i) (last_mod_date i) (low_16_bits_first_cluster i) n.

(** The values an item can hold in memory. *)
Record item_ok (i : fat_directory_item) : Prop := {
  ok_filename : length (filename i) = 8%nat /\ bytes_ok (filename i);
  ok_ext : length (ext i) = 3%nat /\ bytes_ok (ext i);
  ok_attribute : byte_ok (attribute i);
  ok_reserved : byte_ok (reserved i);
  ok_tenths : byte_ok (creation_time_tenths_of_a_sec i);
  ok_ctime : 0 <= creation_time i < 65536;
  ok_cdate : 0 <= creation_date i < 65536;
  ok_access : 0 <= last_access i < 65536;
  ok_high : 0 <= high_16_bits_first_cluster i < 65536;
  ok_mtime : 0 <= last_mod_time i < 65536;
  ok_mdate : 0 <= last_mod_date i < 65536;
  ok_low : 0 <= low_16_bits_first_cluster i < 65536;
  ok_filesize : 0 <= filesize i < 2 ^ 32 }.

(** ** In-memory structures *)
Record fat_directory := mk_dir {
  item : list fat_directory_item; total : Z; sector_pos : Z; ending_sector_pos : Z }.

(** [struct fat_item]: the union holds an item or a directory, or NULL. *)
Inductive fat_item_union :=
| UItem (i : option (Z * fat_directory_item))
| UDirectory (d : option (Z * Z * fat_directory)).
Record fat_item := mk_fat_item { fi_self : Z; fi_type : Z; fi_union : fat_item_union }.

Record fat_file_descriptor := mk_desc {
  fd_self : Z; fd_item : fat_item; fd_pos : Z; root_dir_slot : Z }.

Record fat_private := mk_private {
  header : fat_h;
  root_directory : fat_directory;
  cluster_read_stream : option Streamer.disk_stream;
  fat_read_stream : option Streamer.disk_stream;
  directory_stream : option Streamer.disk_stream;
  cluster_write_stream : option Streamer.disk_stream;
  fat_write_stream : option Streamer.disk_stream }.

Inductive stream_id := CLUSTER_READ | FAT_READ | DIRECTORY | CLUSTER_WRITE | FAT_WRITE.
#[global] Instance stream_id_eq_dec : EqDecision stream_id.
Proof. solve_decision. Defined.

Definition get_stream (p : fat_private) (s : stream_id) : option Streamer.disk_stream :=
  match s with
  | CLUSTER_READ => cluster_read_stream p
  | FAT_READ => fat_read_stream p
  | DIRECTORY => directory_stream p
  | CLUSTER_WRITE => cluster_write_stream p
  | FAT_WRITE => fat_write_stream p
  end.

Definition put_stream (p : fat_private) (s : stream_id) (v : Streamer.disk_stream) : fat_private :=
  match s with
  | CLUSTER_READ => mk_private (header p) (root_directory p) (Some v) (fat_read_stream p)
      (directory_stream p) (cluster_write_stream p) (fat_write_stream p)
  | FAT_READ => mk_private (header p) (root_directory p) (cluster_read_stream p) (Some v)
      (directory_stream p) (cluster_write_stream p) (fat_write_stream p)
  | DIRECTORY => mk_private (header p) (root_directory p) (cluster_read_stream p) (fat_read_stream p)
      (Some v) (cluster_write_stream p) (fat_write_stream p)
  | CLUSTER_WRITE => mk_private (header p) (root_directory p) (cluster_read_stream p)
      (fat_read_stream p) (directory_stream p) (Some v) (fat_write_stream p)
  | FAT_WRITE => mk_private (header p) (root_directory p) (cluster_read_stream p)
      (fat_read_stream p) (directory_stream p) (cluster_write_stream p) (Some v)
  end.

Definition set_root (p : fat_private) (d : fat_directory) : fat_private :=
  mk_private (header p) d (cluster_read_stream p) (fat_read_stream p) (directory_stream p)
    (cluster_write_stream p) (fat_write_stream p).
Definition set_root_items (p : fat_private) (l : list fat_directory_item) : fat_private :=
  let d := root_directory p in
  set_root p (mk_dir l (total d) (sector_pos d) (ending_sector_pos d)).
Definition set_root_total (p : fat_private) (n : Z) : fat_private :=
  let d := root_directory p in
  set_root p (mk_dir (item d) n (sector_pos d) (ending_sector_pos d)).

(** [struct disk] (src/disk/disk.h); [filesystem] says whether the pointer to
    the FAT16 operations is set. *)
Record disk := mk_disk {
  disk_type : Z; sector_size : Z; id : Z; filesystem : bool; fs_private : option fat_private }.

(** The state of the driver: the device, the heap and the global disk. *)
Record fs_state (D H : Type) := mk_fs { dev : D; heap : H; the_disk : disk }.
Arguments mk_fs {D H} _ _ _.
Arguments dev {D H} _.
Arguments heap {D H} _.
Arguments the_disk {D H} _.

(** ** Encodings round-trip *)
Lemma field_app_l a b n : length a = n -> field (a ++ b) 0 n = a.
Proof. intros <-. unfold field. rewrite drop_0. apply take_app_length. Qed.

Lemma field_app_r a b off n k :
  length a = k -> (k <= off)%nat -> field (a ++ b) off n = field b (off - k) n.
Proof. intros <- H. unfold field. by rewrite drop_app_ge. Qed.

Lemma length_encode_item i : item_ok i -> length (encode_item i) = 32%nat.
Proof.
  intros H. destruct (ok_filename _ H) as [H1 _], (ok_ext _ H) as [H2 _].
  unfold encode_item. rewrite !length_app, H1, H2. done.
Qed.

Lemma bytes_ok_encode_item i : item_ok i -> bytes_ok (encode_item i).
Proof.
  intros H. unfold encode_item. rewrite !bytes_ok_app.
  pose proof (ok_attribute _ H). pose proof (ok_reserved _ H). pose proof (ok_tenths _ H).
  repeat split; try apply bytes_ok_le16; try apply bytes_ok_le32; try apply H.
  repeat constructor; lia || unfold byte_ok in *; lia.
Qed.

(** A list of known length, cell by cell. *)
Ltac explode l :=
  repeat match goal with
  | H : length l = S _ |- _ =>
      let x := fresh "b" in
      destruct l as [|x l]; [discriminate H|]; simpl in H; injection H as H
  | H : length l = O |- _ => apply nil_length_inv in H; subst l
  end.

Lemma of_le1 a : of_le [a] = a.
Proof. unfold of_le. cbn [foldr]. lia. Qed.

Lemma decode_encode_item i : item_ok i -> decode_item (encode_item i) = i.
Proof.
  intros H. destruct i as [f e ? ? ? ? ? ? ? ? ? ? ?].
  destruct H as [[Hf _] [He _] ? ? ? ? ? ? ? ? ? ? ?]. simpl in *.
  explode f. explode e. unfold decode_item, encode_item, fieldz, field. simpl.
  f_equal; solve [apply of_le1 | by apply of_le16 | by apply of_le32].
Qed.

Lemma encode_decode_item b :
  length b = 32%nat -> bytes_ok b -> encode_item (decode_item b) = b.
Proof.
  intros Hl Hb. explode b. unfold bytes_ok in Hb.
  repeat (apply Forall_cons_1 in Hb as [? Hb]).
  unfold decode_item, encode_item, fieldz, field. cbn -[of_le le16 le32].
  rewrite !le16_of_le, le32_of_le, !of_le1 by done. done.
Qed.

Lemma decode_item_ok b : length b = 32%nat -> bytes_ok b -> item_ok (decode_item b).
Proof.
  intros Hl Hb. explode b. unfold bytes_ok in Hb.
  repeat (apply Forall_cons_1 in Hb as [? Hb]).
  unfold decode_item, fieldz, field. cbn -[of_le].
  split; cbn -[of_le]; rewrite ?of_le1; try done;
    try (by apply of_le_range2); try (by apply of_le_range4);
    (split; [done|repeat (constructor; [done|]); constructor]).
Qed.

Lemma zero_item_ok : item_ok zero_item.
Proof.
  split; simpl; try (unfold byte_ok; lia);
    (split; [done|repeat (constructor; [unfold byte_ok; lia|]); constructor]).
Qed.

Lemma length_decode_items n b : length (decode_items n b) = n.
Proof. unfold decode_items. by rewrite length_fmap, length_seq. Qed.

(** ** Streams in the private data *)
Lemma get_put_stream p s v : get_stream (put_stream p s v) s = Some v.
Proof. by destruct s. Qed.
Lemma get_put_stream_ne p s s' v : s <> s' -> get_stream (put_stream p s v) s' = get_stream p s'.
Proof. by destruct s, s'. Qed.
Lemma header_put_stream p s v : header (put_stream p s v) = header p.
Proof. by destruct s. Qed.
Lemma root_put_stream p s v : root_directory (put_stream p s v) = root_directory p.
Proof. by destruct s. Qed.
