(* ===== verification/FatTable.v ===== *)
(** * The file allocation table: cluster arithmetic, FAT entries, free-cluster
    search, chain extension and chain release of src/fs/fat/fat16.c

    [Section code] translates the functions; [Section spec] relates them to
    [fat_at], the 16-bit entry of a cluster as the bytes of the device hold
    it. *)
From Stdlib Require Import ZArith Lia.
From stdpp Require Import base list gmap numbers option list_numbers.
From S2P Require Import Prelude CLib Heap Disk FatTypes.
Local Open Scope Z_scope.
Local Open Scope kernel_scope.

Section code.
Context {D : Type} {B : BlockDevice D} {H : Type} {A : Allocator H}.
Abbreviation FM := (M (fs_state D H)).

(** ** Access to the state *)
Definition set_dev (s : fs_state D H) (d : D) : fs_state D H := mk_fs d (heap s) (the_disk s).
Definition set_heap (s : fs_state D H) (h : H) : fs_state D H := mk_fs (dev s) h (the_disk s).
Definition set_disk (s : fs_state D H) (k : disk) : fs_state D H := mk_fs (dev s) (heap s) k.
Definition set_private (s : fs_state D H) (p : option fat_private) : fs_state D H :=
  let k := the_disk s in
  set_disk s (mk_disk (disk_type k) (sector_size k) (id k) (filesystem k) p).

(** [disk->fs_private] dereferenced. *)
Definition private : FM fat_private := fun s =>
  match fs_private (the_disk s) with Some p => Ok (p, s) | None => Ub end.
Definition put_private (p : fat_private) : FM unit := modify (fun s => set_private s (Some p)).
Definition disk_sector_size : FM Z := gets (fun s => sector_size (the_disk s)).

Definition stream_of (i : stream_id) : FM Streamer.disk_stream :=
  p ← private; match get_stream p i with Some v => mret v | None => ub end.
Definition put_stream_of (i : stream_id) (v : Streamer.disk_stream) : FM unit :=
  p ← private; put_private (put_stream p i v).

Definition seek (i : stream_id) (pos : Z) : FM Z :=
  v ← stream_of i;
  let '(res, v) := Streamer.diskstreamer_seek v pos in
  _ ← put_stream_of i v; mret res.

Definition sread (i : stream_id) (total : Z) : FM (Z * list Z) :=
  v ← stream_of i;
  d ← gets dev;
  '(res, bytes, v, d) ← lift_out (Streamer.diskstreamer_read d v total);
  _ ← modify (fun s => set_dev s d);
  _ ← put_stream_of i v; mret (res, bytes).

Definition swrite (i : stream_id) (input : list Z) (total : Z) : FM Z :=
  v ← stream_of i;
  d ← gets dev;
  '(res, v, d) ← lift_out (Streamer.diskstreamer_write d v input total);
  _ ← modify (fun s => set_dev s d);
  _ ← put_stream_of i v; mret res.

Definition zalloc (size : Z) : FM Z :=
  h ← gets heap; '(p, h) ← lift_out (kzalloc h size);
  _ ← modify (fun s => set_heap s h); mret p.
Definition release (p : Z) : FM unit :=
  h ← gets heap; h ← lift_out (kfree h p); modify (fun s => set_heap s h).

(** ** Cluster arithmetic *)
Definition fat16_sector_to_absolute (sector : Z) : FM Z :=
  ss ← disk_sector_size; mret (i32 (sector * ss)).

Definition fat16_get_first_cluster (it : fat_directory_item) : Z :=
  Z.lor (u32 (Z.shiftl (high_16_bits_first_cluster it) 16)) (low_16_bits_first_cluster it).

Definition fat16_cluster_to_sector (p : fat_private) (cluster : Z) : Z :=
  i32 (ending_sector_pos (root_directory p)
       + i32 (i32 (cluster - 2) * sectors_per_cluster (primary_header (header p)))).

Definition fat16_get_first_fat_sector (p : fat_private) : Z :=
  reserved_sectors (primary_header (header p)).

(** ** FAT entries *)
Definition fat16_get_fat_entry (cluster : Z) : FM Z :=
  p ← private;
  match fat_read_stream p with
  | None => mret (-1)
  | Some _ =>
      ss ← disk_sector_size;
      let fat_table_position := u32 (fat16_get_first_fat_sector p * ss) in
      res ← seek FAT_READ
              (i32 (u32 (fat_table_position + i32 (cluster * PEACHOS_FAT16_FAT_ENTRY_SIZE))));
      if res <? 0 then mret res
      else
        '(res, bytes) ← sread FAT_READ 2;
        if res <? 0 then mret res else mret (of_le bytes)
  end.

(** Write [value] to both FAT copies at the cluster's entry offset. *)
Definition fat16_set_fat_entry (cluster value : Z) : FM Z :=
  p ← private;
  ss ← disk_sector_size;
  let fat_base := u32 (fat16_get_first_fat_sector p * ss) in
  let entry_off := u32 (fat_base + u32 (i32 (cluster * PEACHOS_FAT16_FAT_ENTRY_SIZE))) in
  let fat2_off := u32 (entry_off + u32 (sectors_per_fat (primary_header (header p)) * ss)) in
  res ← seek FAT_WRITE (i32 entry_off);
  if res <? 0 then mret res
  else
    res ← swrite FAT_WRITE (le16 value) 2;
    if res <? 0 then mret res
    else
      res ← seek FAT_WRITE (i32 fat2_off);
      if res <? 0 then mret res
      else swrite FAT_WRITE (le16 value) 2.

(** [for (i = 2; i <= count_of_clusters + 1; i++)]; [n] counts the rounds left. *)
Fixpoint free_cluster_loop (i : Z) (n : nat) : FM Z :=
  match n with
  | O => mret (- ENOMEM)
  | S n' =>
      entry ← fat16_get_fat_entry i;
      if entry =? PEACHOS_FAT16_UNUSED then mret i else free_cluster_loop (i + 1) n'
  end.

Definition count_of_clusters (p : fat_private) : Z :=
  let hd := primary_header (header p) in
  let total_sectors :=
    if negb (number_of_sectors hd =? 0) then number_of_sectors hd else i32 (sectors_big hd) in
  let first_data_sector := ending_sector_pos (root_directory p) in
  let data_sectors := i32 (total_sectors - first_data_sector) in
  data_sectors ÷ sectors_per_cluster hd.

Definition fat16_find_free_cluster : FM Z :=
  p ← private;
  if sectors_per_cluster (primary_header (header p)) =? 0 then ub
  else free_cluster_loop 2 (Z.to_nat (count_of_clusters p)).

(** Allocate a free cluster, mark it end-of-chain, and link it behind
    [prev_cluster] when there is one. *)
Definition fat16_alloc_cluster (prev_cluster : Z) : FM Z :=
  cluster ← fat16_find_free_cluster;
  if cluster <? 0 then mret cluster
  else
    res ← fat16_set_fat_entry cluster FAT16_EOC;
    if res <? 0 then mret res
    else if prev_cluster >=? 2 then
      res ← fat16_set_fat_entry prev_cluster (u16 cluster);
      if res <? 0 then mret res else mret cluster
    else mret cluster.

(** The loop of [fat16_free_cluster_chain]. *)
Fixpoint free_chain_loop (cluster : Z) (fuel : nat) : FM Z :=
  match fuel with
  | O => hang
  | S fuel =>
      if (cluster >=? 2) && (cluster <? FAT16_EOC_MIN) then
        next ← fat16_get_fat_entry cluster;
        _ ← fat16_set_fat_entry cluster 0x0000;
        if (next <? 2) || (next >=? FAT16_EOC_MIN) then mret PEACHOS_ALL_OK
        else free_chain_loop next fuel
      else mret PEACHOS_ALL_OK
  end.

(** Every round but the last clears a non-zero entry, and a round needs a
    cluster number below 0xFFF8: 65536 rounds are enough. *)
Definition free_chain_fuel : nat := Z.to_nat 65536.
Definition fat16_free_cluster_chain (first_cluster : Z) : FM Z :=
  free_chain_loop (i32 first_cluster) free_chain_fuel.
End code.

(** ** The state the driver runs in *)
Section view.
Context {D : Type} {B : BlockDevice D} {BS : BlockDeviceSpec D} {H : Type} {A : Allocator H}.
Implicit Types s : fs_state D H.

(** The ranges of the C types of the header fields the driver computes with. *)
Record header_ok (hd : fat_header) : Prop := {
  hd_spc : 0 <= sectors_per_cluster hd < 256;
  hd_reserved : 0 <= reserved_sectors hd < 65536;
  hd_copies : 0 <= fat_copies hd < 256;
  hd_entries : 0 <= root_dir_entries hd < 65536;
  hd_sectors : 0 <= number_of_sectors hd < 65536;
  hd_spf : 0 <= sectors_per_fat hd < 65536;
  hd_big : 0 <= sectors_big hd < 2 ^ 32 }.

Record private_ok (p : fat_private) : Prop := {
  pv_header : header_ok (primary_header (header p));
  pv_streams : forall i, exists v, get_stream p i = Some v /\ Streamer.disk v = DISK }.

(** A mounted disk: the device is idle, the sector size is 512, the private
    data exists and its streams are on the disk. *)
Record fs_ok s : Prop := {
  ok_dev : dev_ok (dev s);
  ok_sector_size : sector_size (the_disk s) = 512;
  ok_private : exists p, fs_private (the_disk s) = Some p /\ private_ok p }.

(** What an operation that only touches the device and the stream positions
    keeps: the heap, the header and the root directory in memory. *)
Record fs_view := mk_view {
  v_heap : H; v_type : Z; v_size : Z; v_id : Z; v_fs : bool;
  v_private : option (fat_h * fat_directory) }.
Definition view s : fs_view :=
  let k := the_disk s in
  mk_view (heap s) (disk_type k) (sector_size k) (id k) (filesystem k)
    ((fun p => (header p, root_directory p)) <$> fs_private k).

Definition hdr s : fat_header :=
  match fs_private (the_disk s) with
  | Some p => primary_header (header p)
  | None => mk_header [] [] 0 0 0 0 0 0 0 0 0 0 0 0
  end.
Definition root s : fat_directory :=
  match fs_private (the_disk s) with
  | Some p => root_directory p
  | None => mk_dir [] 0 0 0
  end.

Lemma view_hdr s s' : view s' = view s -> hdr s' = hdr s.
Proof.
  unfold view, hdr. intros [= _ _ _ _ _ E].
  destruct (fs_private (the_disk s)), (fs_private (the_disk s')); simplify_eq/=; congruence.
Qed.
Lemma view_root s s' : view s' = view s -> root s' = root s.
Proof.
  unfold view, root. intros [= _ _ _ _ _ E].
  destruct (fs_private (the_disk s)), (fs_private (the_disk s')); simplify_eq/=; congruence.
Qed.
Lemma view_heap s s' : view s' = view s -> heap s' = heap s.
Proof. unfold view. by intros [= E _ _ _ _ _]. Qed.

Lemma hdr_ok s : fs_ok s -> header_ok (hdr s).
Proof. intros [_ _ (p & E & Hp)]. unfold hdr. rewrite E. apply Hp. Qed.

(** [quiet s s']: nothing changed but stream positions.  [stores s p l s']:
    besides, the bytes [l] were stored at position [p] of the device. *)
Record quiet s s' : Prop := {
  q_ok : fs_ok s'; q_view : view s' = view s; q_disk : same_disk (dev s) (dev s') }.
Record stores s (p : Z) (l : list Z) s' : Prop := {
  st_ok : fs_ok s'; st_view : view s' = view s; st_disk : stored (dev s) p l (dev s') }.

Lemma quiet_refl s : fs_ok s -> quiet s s.
Proof. by split. Qed.
Lemma quiet_trans s1 s2 s3 : quiet s1 s2 -> quiet s2 s3 -> quiet s1 s3.
Proof. intros [_ V1 D1] [O2 V2 D2]. split; [done|congruence|by etransitivity]. Qed.
Lemma stores_quiet_l s1 s2 s3 p l : quiet s1 s2 -> stores s2 p l s3 -> stores s1 p l s3.
Proof.
  intros [_ V1 D1] [O2 V2 D2]. split; [done|congruence|by eapply stored_same_l].
Qed.
Lemma stores_quiet_r s1 s2 s3 p l : stores s1 p l s2 -> quiet s2 s3 -> stores s1 p l s3.
Proof.
  intros [_ V1 D1] [O2 V2 D2]. split; [done|congruence|by eapply stored_same_r].
Qed.

(** ** Reads and writes through the streams *)
Definition stream_at s (i : stream_id) (p : Z) : Prop :=
  exists pv v, fs_private (the_disk s) = Some pv /\ get_stream pv i = Some v /\
    Streamer.disk v = DISK /\ Streamer.pos v = p.

Lemma put_stream_private_ok p i v :
  private_ok p -> Streamer.disk v = DISK -> private_ok (put_stream p i v).
Proof.
  intros [Hh Hs] Hv. split; [by rewrite header_put_stream|]. intros j.
  destruct (decide (i = j)) as [->|Hne]; [rewrite get_put_stream; eauto|].
  rewrite get_put_stream_ne by done. apply Hs.
Qed.

(** Updating one stream (and the device) is quiet up to the device. *)
Lemma update_stream s p i v d :
  fs_private (the_disk s) = Some p -> fs_ok s -> Streamer.disk v = DISK -> dev_ok d ->
  let s' := set_private (set_dev s d) (Some (put_stream p i v)) in
  fs_ok s' /\ view s' = view s /\ dev s' = d /\ stream_at s' i (Streamer.pos v).
Proof.
  intros E [Hd Hss (p' & E' & Hp)] Hv Hd'. rewrite E in E'. injection E' as <-. simpl.
  split; [|split; [|split; [done|]]].
  - split; [done|done|]. exists (put_stream p i v). split; [done|]. by apply put_stream_private_ok.
  - unfold view. simpl. rewrite E. simpl. by rewrite header_put_stream, root_put_stream.
  - exists (put_stream p i v), v. by rewrite get_put_stream.
Qed.

Lemma wp_private s (Q : fat_private -> fs_state D H -> Prop) p :
  fs_private (the_disk s) = Some p -> Q p s -> wp private Q s.
Proof. unfold wp, private. by intros ->. Qed.

Lemma wp_stream_of s i p v (Q : Streamer.disk_stream -> fs_state D H -> Prop) :
  fs_private (the_disk s) = Some p -> get_stream p i = Some v -> Q v s -> wp (stream_of i) Q s.
Proof. intros E Hv HQ. apply wp_bind, (wp_private _ _ p); [done|]. by rewrite Hv. Qed.

Lemma wp_put_stream_of s i p v (Q : unit -> fs_state D H -> Prop) :
  fs_private (the_disk s) = Some p -> Q tt (set_private s (Some (put_stream p i v))) ->
  wp (put_stream_of i v) Q s.
Proof. intros E HQ. by apply wp_bind, (wp_private _ _ p). Qed.

Lemma seek_spec s i pos : fs_ok s ->
  wp (seek i pos) (fun r s' => r = 0 /\ quiet s s' /\ stream_at s' i pos) s.
Proof.
  intros Hs. pose proof Hs as [Hd Hss (p & E & Hp)].
  destruct (pv_streams _ Hp i) as (v & Hv & Hk).
  destruct (update_stream s p i (Streamer.set_pos v pos) (dev s)) as (O & V & Hd' & Ha); try done.
  unfold seek. apply wp_bind, (wp_stream_of _ _ p v); [done..|]. cbn beta iota.
  apply wp_bind, (wp_put_stream_of _ _ p); [done|]. apply wp_ret.
  replace (set_dev s (dev s)) with s in * by (by destruct s).
  split; [done|]. split; [|done]. split; [done|done|]. by rewrite Hd'.
Qed.

Lemma sread_spec s i p n : fs_ok s -> stream_at s i p ->
  0 <= p -> 0 <= n -> p + n < 2 ^ 31 -> read_in_bounds p n ->
  wp (sread i n) (fun r s' => r = (0, bytes (dev s) p n) /\ quiet s s' /\ stream_at s' i (p + n)) s.
Proof.
  intros Hs (pv & v & E & Hv & Hk & <-) Hp Hn Hmax Hb.
  destruct (diskstreamer_read_spec (dev s) v n) as (d' & Er & Hd' & Hsame);
    try done; [apply Hs|].
  destruct (update_stream s pv i (Streamer.set_pos v (Streamer.pos v + n)) d') as (O & V & Hd & Ha); try done.
  unfold sread. apply wp_bind, (wp_stream_of _ _ pv v); [done..|]. apply wp_bind, wp_gets, wp_bind.
  eapply wp_lift; [exact Er|]. cbn beta iota. apply wp_bind, wp_modify, wp_bind.
  apply (wp_put_stream_of _ _ pv); [done|]. apply wp_ret.
  split; [done|]. split; [|done]. split; [done|done|]. by rewrite Hd.
Qed.

Lemma swrite_spec s i p input n : fs_ok s -> stream_at s i p ->
  0 <= p -> 0 <= n <= Z.of_nat (length input) -> p + n < 2 ^ 31 -> bytes_ok input ->
  wp (swrite i input n)
    (fun r s' => r = 0 /\ stores s p (take (Z.to_nat n) input) s' /\ stream_at s' i (p + n)) s.
Proof.
  intros Hs (pv & v & E & Hv & Hk & <-) Hp Hn Hmax Hb.
  destruct (diskstreamer_write_spec (dev s) v input n) as (d' & Er & Hd' & Hst);
    try done; [apply Hs|].
  destruct (update_stream s pv i (Streamer.set_pos v (Streamer.pos v + n)) d') as (O & V & Hd & Ha); try done.
  unfold swrite. apply wp_bind, (wp_stream_of _ _ pv v); [done..|]. apply wp_bind, wp_gets, wp_bind.
  eapply wp_lift; [exact Er|]. cbn beta iota. apply wp_bind, wp_modify, wp_bind.
  apply (wp_put_stream_of _ _ pv); [done|]. apply wp_ret.
  split; [done|]. split; [|done]. split; [done|done|]. by rewrite Hd.
Qed.
End view.

(** ** FAT entries against the bytes of the device *)
Section entries.
Context {D : Type} {B : BlockDevice D} {BS : BlockDeviceSpec D} {H : Type} {A : Allocator H}.
Implicit Types s : fs_state D H.

Definition fat_pos s (c : Z) : Z := 512 * reserved_sectors (hdr s) + 2 * c.
Definition fat2_pos s (c : Z) : Z := fat_pos s c + 512 * sectors_per_fat (hdr s).
Definition fat_at s (c : Z) : Z := of_le (bytes (dev s) (fat_pos s c) 2).

Lemma fat_at_quiet s s' c : quiet s s' -> fat_at s' c = fat_at s c.
Proof.
  intros [_ V Hd]. unfold fat_at, fat_pos. rewrite (view_hdr s s') by done.
  by rewrite (bytes_same (dev s)).
Qed.

Lemma two_bytes d p : bytes d p 2 = [byte d p; byte d (p + 1)].
Proof.
  unfold bytes. rewrite seqZ_cons by lia. rewrite seqZ_cons by lia.
  rewrite seqZ_nil by lia. done.
Qed.

Lemma fat_at_range s c : fs_ok s -> 0 <= fat_at s c < 65536.
Proof.
  intros Hs. unfold fat_at. rewrite two_bytes. apply of_le_range2; apply byte_range, Hs.
Qed.

Lemma fat_at_zero s c :
  fs_ok s -> fat_at s c = 0 <-> byte (dev s) (fat_pos s c) = 0 /\ byte (dev s) (fat_pos s c + 1) = 0.
Proof.
  intros Hs. unfold fat_at. rewrite two_bytes.
  pose proof (byte_range (dev s) (fat_pos s c) (ok_dev _ Hs)).
  pose proof (byte_range (dev s) (fat_pos s c + 1) (ok_dev _ Hs)).
  unfold of_le, byte_ok in *. cbn [foldr]. lia.
Qed.

(** FAT positions are even, so a two-byte entry never crosses a sector. *)
Lemma fat_pos_in_bounds s c : read_in_bounds (fat_pos s c) 2.
Proof. right. unfold fat_pos. zdm. Qed.

Lemma get_fat_entry_spec s c :
  fs_ok s -> 0 <= c < 2 ^ 28 ->
  wp (fat16_get_fat_entry c) (fun r s' => r = fat_at s c /\ quiet s s') s.
Proof.
  intros Hs Hc. pose proof (hd_reserved _ (hdr_ok s Hs)) as Hr.
  pose proof Hs as [Hd Hss (p & E & Hp)].
  assert (Hh : primary_header (header p) = hdr s) by (unfold hdr; by rewrite E).
  destruct (pv_streams _ Hp FAT_READ) as (v & Hv & _). simpl in Hv.
  unfold fat16_get_fat_entry. apply wp_bind, (wp_private _ _ p); [done|]. rewrite Hv.
  apply wp_bind, wp_gets. rewrite Hss.
  unfold fat16_get_first_fat_sector, PEACHOS_FAT16_FAT_ENTRY_SIZE. rewrite Hh.
  rewrite (i32_id (c * 2)), (u32_id (reserved_sectors _ * 512)), u32_id, i32_id by lia.
  replace (reserved_sectors (hdr s) * 512 + c * 2) with (fat_pos s c) by (unfold fat_pos; lia).
  eapply wp_step; [by apply seek_spec|]. intros _ s1 (-> & Q1 & A1). cbn.
  eapply wp_step; [apply (sread_spec s1 FAT_READ (fat_pos s c))|].
  { apply Q1. } { done. } { unfold fat_pos. lia. } { lia. } { unfold fat_pos. lia. }
  { apply fat_pos_in_bounds. }
  intros _ s2 (-> & Q2 & _). cbn. apply wp_ret. split; [|by eapply quiet_trans].
  unfold fat_at. by rewrite (bytes_same (dev s)) by apply Q1.
Qed.

(** [fat_set s c v s']: entry [c] of both FAT copies was set to [v]. *)
Record fat_set s (c v : Z) s' : Prop := {
  fs_set_ok : fs_ok s';
  fs_set_view : view s' = view s;
  fs_set_disk : exists d1, stored (dev s) (fat_pos s c) (le16 v) d1 /\
                           stored d1 (fat2_pos s c) (le16 v) (dev s') }.

Lemma set_fat_entry_spec s c v :
  fs_ok s -> 0 <= c < 2 ^ 28 ->
  wp (fat16_set_fat_entry c v) (fun r s' => r = 0 /\ fat_set s c v s') s.
Proof.
  intros Hs Hc. pose proof (hd_reserved _ (hdr_ok s Hs)) as Hr.
  pose proof (hd_spf _ (hdr_ok s Hs)) as Hf.
  pose proof Hs as [Hd Hss (p & E & Hp)].
  assert (Hh : primary_header (header p) = hdr s) by (unfold hdr; by rewrite E).
  unfold fat16_set_fat_entry. apply wp_bind, (wp_private _ _ p); [done|].
  apply wp_bind, wp_gets. rewrite Hss.
  unfold fat16_get_first_fat_sector, PEACHOS_FAT16_FAT_ENTRY_SIZE. rewrite Hh.
  rewrite (i32_id (c * 2)), (u32_id (c * 2)), (u32_id (reserved_sectors _ * 512)),
    (u32_id (sectors_per_fat _ * 512)), (u32_id (reserved_sectors _ * 512 + c * 2)) by lia.
  replace (reserved_sectors (hdr s) * 512 + c * 2) with (fat_pos s c) by (unfold fat_pos; lia).
  replace (fat_pos s c + sectors_per_fat (hdr s) * 512) with (fat2_pos s c) by (unfold fat2_pos; lia).
  rewrite (u32_id (fat2_pos s c)), !i32_id by (unfold fat2_pos, fat_pos; lia).
  eapply wp_step; [by apply seek_spec|]. intros _ s1 (-> & Q1 & A1). cbn -[le16].
  eapply wp_step; [apply (swrite_spec s1 FAT_WRITE (fat_pos s c) (le16 v) 2)|].
  { apply Q1. } { done. } { unfold fat_pos. lia. } { done. } { unfold fat_pos. lia. } { apply bytes_ok_le16. }
  intros _ s2 (-> & S2 & _). cbn -[le16].
  eapply wp_step; [apply (seek_spec s2), S2|]. intros _ s3 (-> & Q3 & A3). cbn -[le16].
  eapply wp_mono; [apply (swrite_spec s3 FAT_WRITE (fat2_pos s c) (le16 v) 2)|].
  { apply Q3. } { done. } { unfold fat2_pos, fat_pos. lia. } { done. }
  { unfold fat2_pos, fat_pos. lia. } { apply bytes_ok_le16. }
  intros _ s4 (-> & S4 & _). split; [done|].
  pose proof (stores_quiet_l _ _ _ _ _ Q1 S2) as [_ V2 D2].
  pose proof (stores_quiet_l _ _ _ _ _ Q3 S4) as [O4 V4 D4].
  split; [done|congruence|]. by exists (dev s2).
Qed.

(** ** What setting an entry changes *)
Definition in_fat s (c : Z) : Prop := 0 <= c < 256 * sectors_per_fat (hdr s).
(** The first position behind the two FAT copies. *)
Definition fat_end s : Z := 512 * (reserved_sectors (hdr s) + 2 * sectors_per_fat (hdr s)).

Lemma fat_at_set s s' c : view s' = view s -> fat_at s' c = of_le (bytes (dev s') (fat_pos s c) 2).
Proof. intros V. unfold fat_at, fat_pos. by rewrite (view_hdr s s'). Qed.

Lemma fat_set_same s c v s' :
  fs_ok s -> 0 <= c < 2 ^ 28 -> 0 <= v < 65536 -> fat_set s c v s' -> fat_at s' c = v.
Proof.
  intros Hs Hc Hv [O V (d1 & S1 & S2)]. pose proof (hdr_ok s Hs) as Hh.
  pose proof (hd_reserved _ Hh). pose proof (hd_spf _ Hh).
  rewrite (fat_at_set s) by done. rewrite <- (of_le16 v Hv). f_equal.
  destruct (decide (sectors_per_fat (hdr s) = 0)) as [Hz|Hz].
  - replace (fat2_pos s c) with (fat_pos s c) in S2 by (unfold fat2_pos; lia).
    apply (stored_bytes d1 _ (le16 v)); unfold fat_pos; simpl; [lia..|done].
  - rewrite (stored_other d1 (fat2_pos s c) (le16 v) (dev s')); simpl;
      unfold fat2_pos, fat_pos; try lia; [|done].
    apply (stored_bytes (dev s) _ (le16 v)); unfold fat_pos; simpl; [lia..|done].
Qed.

Lemma fat_set_other s c v s' c' :
  fs_ok s -> in_fat s c -> in_fat s c' -> c <> c' -> fat_set s c v s' -> fat_at s' c' = fat_at s c'.
Proof.
  intros Hs Hc Hc' Hne [O V (d1 & S1 & S2)]. pose proof (hdr_ok s Hs) as Hh.
  pose proof (hd_reserved _ Hh). pose proof (hd_spf _ Hh). unfold in_fat in *.
  rewrite (fat_at_set s) by done. unfold fat_at. f_equal.
  rewrite (stored_other d1 (fat2_pos s c) (le16 v) (dev s')), (stored_other (dev s) (fat_pos s c) (le16 v) d1);
    try done; simpl; unfold fat2_pos, fat_pos; lia.
Qed.

Lemma fat_set_second s c v s' :
  fs_ok s -> in_fat s c -> 0 <= v < 65536 -> fat_set s c v s' ->
  of_le (bytes (dev s') (fat2_pos s c) 2) = v.
Proof.
  intros Hs Hc Hv [O V (d1 & S1 & S2)]. pose proof (hdr_ok s Hs) as Hh.
  pose proof (hd_reserved _ Hh). pose proof (hd_spf _ Hh). unfold in_fat in Hc.
  rewrite <- (of_le16 v Hv). f_equal.
  apply (stored_bytes d1 _ (le16 v)); unfold fat2_pos, fat_pos; simpl; [lia..|done].
Qed.

(** Bytes outside the FAT copies are not touched. *)
Lemma fat_set_data s c v s' q n :
  fs_ok s -> in_fat s c -> fat_set s c v s' -> fat_end s <= q -> q + n <= 2 ^ 31 ->
  bytes (dev s') q n = bytes (dev s) q n.
Proof.
  intros Hs Hc [O V (d1 & S1 & S2)] Hq Hn. pose proof (hdr_ok s Hs) as Hh.
  pose proof (hd_reserved _ Hh). pose proof (hd_spf _ Hh). unfold in_fat, fat_end in *.
  rewrite (stored_other d1 (fat2_pos s c) (le16 v) (dev s')), (stored_other (dev s) (fat_pos s c) (le16 v) d1);
    try done; simpl; unfold fat2_pos, fat_pos; lia.
Qed.

(** Clearing an entry never turns a zero byte into a non-zero one. *)
Lemma stored_zero_mono d p v d' q :
  stored d p (le16 0) d' -> 0 <= q < 2 ^ 31 -> byte d q = v -> v = 0 -> byte d' q = 0.
Proof.
  intros Hs Hq <- Hz. rewrite Hs by done. case_bool_decide as Hin; [|done].
  simpl in Hin. assert (q - p = 0 \/ q - p = 1) as [-> | ->] by lia; done.
Qed.

Lemma fat_set_zero_mono s c s' c' :
  fs_ok s -> 0 <= c < 2 ^ 28 -> 0 <= c' < 2 ^ 28 -> fat_set s c 0 s' ->
  fat_at s c' = 0 -> fat_at s' c' = 0.
Proof.
  intros Hs Hc Hc' [O V (d1 & S1 & S2)] Hz. pose proof (hdr_ok s Hs) as Hh.
  pose proof (hd_reserved _ Hh). pose proof (hd_spf _ Hh).
  apply fat_at_zero in Hz as [Z1 Z2]; [|done]. apply fat_at_zero; [done|].
  assert (Hp : fat_pos s' c' = fat_pos s c') by (unfold fat_pos; by rewrite (view_hdr s s')).
  rewrite Hp. split; (eapply stored_zero_mono; [exact S2| |reflexivity|];
    [unfold fat_pos; lia|]; eapply stored_zero_mono; [exact S1| |reflexivity|done];
    unfold fat_pos; lia).
Qed.
End entries.

(** ** Searching, allocating and releasing clusters *)
Section clusters.
Context {D : Type} {B : BlockDevice D} {BS : BlockDeviceSpec D} {H : Type} {A : Allocator H}.
Implicit Types s : fs_state D H.

(** The number of data clusters, computed from the header as the code does. *)
Definition nclusters s : Z :=
  let total_sectors :=
    if negb (number_of_sectors (hdr s) =? 0) then number_of_sectors (hdr s)
    else i32 (sectors_big (hdr s)) in
  i32 (total_sectors - ending_sector_pos (root s)) ÷ sectors_per_cluster (hdr s).

(** A volume the driver can work on: clusters exist, the FAT has an entry
    for each, no cluster number is an end-of-chain mark, and the root
    directory and the data area lie behind the two FAT copies. *)
Record geometry s : Prop := {
  g_spc : 0 < sectors_per_cluster (hdr s);
  g_count : 0 <= nclusters s <= 0xFFF5;
  g_fat : nclusters s + 2 <= 256 * sectors_per_fat (hdr s);
  g_dir : fat_end s <= 512 * sector_pos (root s);
  g_data : sector_pos (root s) <= ending_sector_pos (root s) < 2 ^ 22 }.

(** All of this only depends on the header and on where the root directory is. *)
Definition layout s : fat_header * Z * Z := (hdr s, sector_pos (root s), ending_sector_pos (root s)).
Lemma view_layout s s' : view s' = view s -> layout s' = layout s.
Proof. intros V. unfold layout. by rewrite (view_hdr s s'), (view_root s s'). Qed.

Lemma layout_hdr s s' : layout s' = layout s -> hdr s' = hdr s.
Proof. unfold layout. by intros [= -> _ _]. Qed.
Lemma nclusters_layout s s' : layout s' = layout s -> nclusters s' = nclusters s.
Proof. unfold layout, nclusters. by intros [= -> _ ->]. Qed.
Lemma fat_end_layout s s' : layout s' = layout s -> fat_end s' = fat_end s.
Proof. unfold layout, fat_end. by intros [= -> _ _]. Qed.
Lemma geometry_layout s s' : layout s' = layout s -> geometry s -> geometry s'.
Proof.
  intros L [G1 G2 G3 G4 G5]. pose proof (nclusters_layout s s' L) as En.
  pose proof (fat_end_layout s s' L) as Ef. unfold layout in L. injection L as Eh E1 E2.
  split; rewrite ?En, ?Ef, ?Eh, ?E1, ?E2; done.
Qed.

Lemma nclusters_view s s' : view s' = view s -> nclusters s' = nclusters s.
Proof. intros V. by apply nclusters_layout, view_layout. Qed.
Lemma fat_end_view s s' : view s' = view s -> fat_end s' = fat_end s.
Proof. intros V. by apply fat_end_layout, view_layout. Qed.
Lemma geometry_view s s' : view s' = view s -> geometry s -> geometry s'.
Proof. intros V. by apply geometry_layout, view_layout. Qed.

Definition is_cluster s (c : Z) : Prop := 2 <= c <= nclusters s + 1.

Lemma cluster_in_fat s c : geometry s -> is_cluster s c -> in_fat s c.
Proof. intros G Hc. pose proof (g_fat _ G). unfold in_fat, is_cluster in *. lia. Qed.
Lemma cluster_range s c : geometry s -> is_cluster s c -> 2 <= c < 0xFFF8.
Proof. intros G Hc. pose proof (g_count _ G). unfold is_cluster in *. lia. Qed.

Lemma free_cluster_loop_spec n : forall s i,
  fs_ok s -> 0 <= i -> i + Z.of_nat n <= 2 ^ 28 ->
  wp (free_cluster_loop i n) (fun r s' => quiet s s' /\
    ((i <= r < i + Z.of_nat n /\ fat_at s r = 0 /\ forall c, i <= c < r -> fat_at s c <> 0) \/
     (r = - ENOMEM /\ forall c, i <= c < i + Z.of_nat n -> fat_at s c <> 0))) s.
Proof.
  induction n as [|n IH]; intros s i Hs Hi Hn; cbn [free_cluster_loop].
  - apply wp_ret. split; [by apply quiet_refl|]. right. split; [done|lia].
  - eapply wp_step; [apply get_fat_entry_spec; [done|lia]|]. intros e s1 [-> Q1].
    destruct (Z.eqb_spec (fat_at s i) PEACHOS_FAT16_UNUSED) as [Hz|Hz].
    + apply wp_ret. split; [done|]. left. split; [lia|]. split; [done|lia].
    + eapply wp_mono; [apply (IH s1 (i + 1)); [apply Q1|lia|lia]|].
      intros r s2 [Q2 Hr]. split; [by eapply quiet_trans|].
      setoid_rewrite (fat_at_quiet _ _ _ Q1) in Hr.
      destruct Hr as [(R1 & R2 & R3)|[R1 R2]]; [left|right].
      * split; [lia|]. split; [done|]. intros c Hc.
        destruct (decide (c = i)) as [->|]; [done|apply R3; lia].
      * split; [done|]. intros c Hc. destruct (decide (c = i)) as [->|]; [done|apply R2; lia].
Qed.

(** [fat16_find_free_cluster] returns the lowest free cluster of the volume,
    or [-ENOMEM] when none is free. *)
Lemma find_free_cluster_spec s :
  fs_ok s -> geometry s ->
  wp fat16_find_free_cluster (fun r s' => quiet s s' /\
    ((is_cluster s r /\ fat_at s r = 0 /\ forall c, 2 <= c < r -> fat_at s c <> 0) \/
     (r = - ENOMEM /\ forall c, is_cluster s c -> fat_at s c <> 0))) s.
Proof.
  intros Hs G. pose proof Hs as [_ _ (p & E & Hp)].
  assert (Hn : count_of_clusters p = nclusters s).
  { unfold count_of_clusters, nclusters, hdr, root. by rewrite E. }
  assert (Hh : primary_header (header p) = hdr s) by (unfold hdr; by rewrite E).
  pose proof (g_spc _ G). pose proof (g_count _ G).
  unfold fat16_find_free_cluster. apply wp_bind, (wp_private _ _ p); [done|]. rewrite Hh, Hn.
  destruct (Z.eqb_spec (sectors_per_cluster (hdr s)) 0); [lia|].
  eapply wp_mono; [apply free_cluster_loop_spec; [done|lia|lia]|].
  unfold is_cluster. rewrite Z2Nat.id by lia. intros r s' [Q Hr]. split; [done|].
  destruct Hr as [(R1 & R2 & R3)|[R1 R2]]; [left|right].
  - split; [lia|done].
  - split; [done|]. intros c Hc. apply R2. lia.
Qed.

(** ** The FAT as a function

    [fat_now s f s']: from [s] to [s'] the entries became [f] and no byte
    behind the FAT copies changed. *)
Definition fupd (f : Z -> Z) (c v : Z) : Z -> Z := fun x => if x =? c then v else f x.
Record fat_now s (f : Z -> Z) s' : Prop := {
  fn_ok : fs_ok s';
  fn_view : view s' = view s;
  fn_fat : forall c, in_fat s c -> fat_at s' c = f c;
  fn_data : forall q n, fat_end s <= q -> q + n <= 2 ^ 31 -> bytes (dev s') q n = bytes (dev s) q n }.

Lemma in_fat_layout s s' c : layout s' = layout s -> in_fat s' c <-> in_fat s c.
Proof. intros L. unfold in_fat. by rewrite (layout_hdr s s'). Qed.
Lemma in_fat_view s s' c : view s' = view s -> in_fat s' c <-> in_fat s c.
Proof. intros V. by apply in_fat_layout, view_layout. Qed.

Lemma in_fat_range s c : fs_ok s -> in_fat s c -> 0 <= c < 2 ^ 28.
Proof. intros Hs Hc. pose proof (hd_spf _ (hdr_ok s Hs)). unfold in_fat in Hc. lia. Qed.

Lemma fat_now_quiet s s' : quiet s s' -> fat_now s (fat_at s) s'.
Proof.
  intros Q. split; [apply Q|apply Q| |].
  - intros c _. by apply fat_at_quiet.
  - intros q n _ _. apply bytes_same, Q.
Qed.

Lemma fat_now_ext s f g s' :
  (forall c, in_fat s c -> f c = g c) -> fat_now s f s' -> fat_now s g s'.
Proof. intros E [H1 H2 H3 H4]. split; try done. intros c Hc. by rewrite <- E, H3. Qed.

Lemma fat_now_trans s f s1 (F : (Z -> Z) -> Z -> Z) s2 :
  fat_now s f s1 -> fat_now s1 (F (fat_at s1)) s2 ->
  (forall g h, (forall c, in_fat s c -> g c = h c) -> forall c, in_fat s c -> F g c = F h c) ->
  fat_now s (F f) s2.
Proof.
  intros [O1 V1 F1 D1] [O2 V2 F2 D2] HF. split; [done|congruence| |].
  - intros c Hc. rewrite F2 by (by apply (in_fat_view s s1)). by apply HF.
  - intros q n Hq Hn. rewrite D2, D1; try done. by rewrite (fat_end_view s s1).
Qed.

Lemma set_fat_spec s c v :
  fs_ok s -> in_fat s c -> 0 <= v < 65536 ->
  wp (fat16_set_fat_entry c v) (fun r s' => r = 0 /\ fat_now s (fupd (fat_at s) c v) s') s.
Proof.
  intros Hs Hc Hv. pose proof (in_fat_range s c Hs Hc) as Hr.
  eapply wp_mono; [by apply set_fat_entry_spec|]. intros r s' [-> F]. split; [done|].
  split; [apply F|apply F| |].
  - intros x Hx. unfold fupd. destruct (Z.eqb_spec x c) as [->|Hne].
    + by eapply fat_set_same.
    + eapply (fat_set_other s c v); done || congruence.
  - intros q n Hq Hn. by eapply fat_set_data.
Qed.

Lemma fat_now_set s f s1 c v s2 :
  fat_now s f s1 -> fat_now s1 (fupd (fat_at s1) c v) s2 -> fat_now s (fupd f c v) s2.
Proof.
  intros H1 H2. apply (fat_now_trans s f s1 (fun g => fupd g c v) s2 H1 H2).
  intros g h E x Hx. unfold fupd. destruct (x =? c); auto.
Qed.

(** The FAT after [fat16_alloc_cluster prev] took cluster [r]. *)
Definition alloc_fat (f : Z -> Z) (prev r : Z) : Z -> Z :=
  if prev >=? 2 then fupd (fupd f r FAT16_EOC) prev r else fupd f r FAT16_EOC.

Lemma alloc_cluster_spec s prev :
  fs_ok s -> geometry s -> prev < 2 \/ is_cluster s prev ->
  wp (fat16_alloc_cluster prev) (fun r s' =>
    (r = - ENOMEM /\ quiet s s' /\ forall c, is_cluster s c -> fat_at s c <> 0) \/
    (is_cluster s r /\ fat_at s r = 0 /\ (forall c, 2 <= c < r -> fat_at s c <> 0) /\
     fat_now s (alloc_fat (fat_at s) prev r) s')) s.
Proof.
  intros Hs G Hp. unfold fat16_alloc_cluster, alloc_fat.
  eapply wp_step; [by apply find_free_cluster_spec|]. intros r s1 [Q1 [(C & Z0 & L)|[-> N]]].
  2:{ apply wp_ret. left. done. }
  pose proof (cluster_range s r G C) as Hr. destruct (Z.ltb_spec r 0); [lia|].
  pose proof (q_view _ _ Q1) as V1.
  eapply wp_step; [apply (set_fat_spec s1 r FAT16_EOC)|].
  { apply Q1. } { apply (in_fat_view s s1); [done|]. by apply cluster_in_fat. } { done. }
  intros x s2 [-> N2]. cbn.
  pose proof (fat_now_set _ _ _ _ _ _ (fat_now_quiet _ _ Q1) N2) as F2.
  destruct (Z.geb_spec prev 2) as [Hge|Hlt].
  - destruct Hp as [?|Hp]; [lia|].
    eapply wp_step; [apply (set_fat_spec s2 prev (u16 r))|].
    { apply F2. } { apply (in_fat_view s s2); [apply F2|]. by apply cluster_in_fat. } { apply u16_range. }
    intros x s3 [-> N3]. cbn. apply wp_ret. right. rewrite u16_id in N3 by lia.
    repeat (split; [done|]). by eapply fat_now_set.
  - apply wp_ret. by right.
Qed.
End clusters.

(** ** Cluster chains *)
Definition is_end (e : Z) : Prop := e < 2 \/ 0xFFF8 <= e.

(** [chain f c l]: following [f] from [c] visits exactly the clusters [l] and
    then an entry that ends the chain. *)
Inductive chain (f : Z -> Z) : Z -> list Z -> Prop :=
| chain_last c : 2 <= c < 0xFFF8 -> is_end (f c) -> chain f c [c]
| chain_next c l : 2 <= c < 0xFFF8 -> ~ is_end (f c) -> chain f (f c) l -> chain f c (c :: l).

Lemma chain_det f c l1 l2 : chain f c l1 -> chain f c l2 -> l1 = l2.
Proof.
  intros H1. revert l2. induction H1 as [c Hc He|c l Hc He Hl IH]; intros l2 H2; inversion H2; subst;
    try done. f_equal. by apply IH.
Qed.

Lemma chain_suffix f c l x : chain f c l -> x ∈ l -> exists pre suf, l = pre ++ suf /\ chain f x suf.
Proof.
  induction 1 as [c Hc He|c l Hc He Hl IH]; intros Hx.
  - apply list_elem_of_singleton in Hx as ->. exists [], [c]. by split; [|constructor].
  - apply elem_of_cons in Hx as [->|Hx].
    + exists [], (c :: l). split; [done|]. by constructor.
    + destruct (IH Hx) as (pre & suf & -> & ?). exists (c :: pre), suf. done.
Qed.

Lemma chain_head f c l : chain f c l -> exists l', l = c :: l'.
Proof. inversion 1; eauto. Qed.

(** A chain that ends visits no cluster twice. *)
Lemma chain_NoDup f c l : chain f c l -> NoDup l.
Proof.
  induction 1 as [c Hc He|c l Hc He Hl IH]; [by apply NoDup_singleton|].
  apply NoDup_cons. split; [|done]. intros Hin.
  destruct (chain_suffix _ _ _ _ Hl Hin) as (pre & suf & E & Hs).
  assert (Hc' : chain f c (c :: l)) by (by constructor).
  pose proof (chain_det _ _ _ _ Hs Hc') as ->. apply (f_equal length) in E.
  rewrite length_app in E. simpl in E. lia.
Qed.

Lemma chain_bounds f c l x : chain f c l -> x ∈ l -> 2 <= x < 0xFFF8.
Proof.
  intros Hl Hx. destruct (chain_suffix _ _ _ _ Hl Hx) as (_ & suf & _ & Hs). by inversion Hs.
Qed.

(** A chain only depends on the entries of its own clusters. *)
Lemma chain_ext f g c l : (forall x, x ∈ l -> g x = f x) -> chain f c l -> chain g c l.
Proof.
  intros E Hl. induction Hl as [c Hc He|c l Hc He Hl IH].
  - constructor; [done|]. rewrite E; [done|by left].
  - assert (Ec : g c = f c) by (apply E; by left).
    apply chain_next; [done|by rewrite Ec|]. rewrite Ec. apply IH. intros x Hx. apply E. by right.
Qed.

Lemma chain_length f c l : chain f c l -> Z.of_nat (length l) <= 65526.
Proof.
  intros Hl. pose proof (chain_NoDup _ _ _ Hl) as Hnd.
  assert (Hsub : l ⊆ seqZ 2 65526).
  { intros x Hx. apply elem_of_seqZ. pose proof (chain_bounds _ _ _ _ Hl Hx). lia. }
  pose proof (submseteq_length _ _ (NoDup_submseteq _ _ Hnd Hsub)) as Hle.
  rewrite length_seqZ in Hle. lia.
Qed.

Section release.
Context {D : Type} {B : BlockDevice D} {BS : BlockDeviceSpec D} {H : Type} {A : Allocator H}.
Implicit Types s : fs_state D H.

Definition clear_all (l : list Z) (f : Z -> Z) : Z -> Z := fun x => if bool_decide (x ∈ l) then 0 else f x.

Lemma is_end_dec e : ((e <? 2) || (e >=? FAT16_EOC_MIN) = true) <-> is_end e.
Proof.
  unfold is_end, FAT16_EOC_MIN.
  destruct (Z.ltb_spec e 2), (Z.geb_spec e 0xFFF8); simpl; split; try done; lia.
Qed.

Lemma free_chain_loop_spec l : forall s c fuel,
  fs_ok s -> chain (fat_at s) c l -> (forall x, x ∈ l -> in_fat s x) -> (length l < fuel)%nat ->
  wp (free_chain_loop c fuel) (fun r s' => r = 0 /\ fat_now s (clear_all l (fat_at s)) s') s.
Proof.
  induction l as [|x l IH]; intros s c fuel Hs Hl Hin Hf; [by inversion Hl|].
  destruct fuel as [|fuel]; [simpl in Hf; lia|]. simpl in Hf. cbn [free_chain_loop].
  destruct (chain_head _ _ _ Hl) as (l' & [= -> ->]).
  assert (Hc : in_fat s c) by (apply Hin; by left).
  assert (Hb : 2 <= c < 0xFFF8) by (by inversion Hl).
  pose proof (in_fat_range s c Hs Hc) as Hr.
  assert (((c >=? 2) && (c <? FAT16_EOC_MIN)) = true) as ->.
  { unfold FAT16_EOC_MIN. destruct (Z.geb_spec c 2), (Z.ltb_spec c 0xFFF8); try done; lia. }
  eapply wp_step; [by apply get_fat_entry_spec|]. intros e s1 [-> Q1].
  eapply wp_step; [apply (set_fat_spec s1 c 0)|].
  { apply Q1. } { by apply (in_fat_view s s1), Hc; apply Q1. } { lia. }
  intros y s2 [-> N2].
  pose proof (fat_now_set _ _ _ _ _ _ (fat_now_quiet _ _ Q1) N2) as F2.
  pose proof (chain_NoDup _ _ _ Hl) as Hnd. apply NoDup_cons in Hnd as [Hnc Hnd].
  inversion Hl as [? _ He|? ? _ He Hl']; subst.
  - apply is_end_dec in He as ->. apply wp_ret. split; [done|].
    eapply fat_now_ext; [|exact F2]. intros x Hx. unfold fupd, clear_all.
    destruct (Z.eqb_spec x c) as [->|Hne]; [rewrite bool_decide_true; [done|by left]|].
    rewrite bool_decide_false; [done|]. by rewrite list_elem_of_singleton.
  - rewrite <- is_end_dec in He. apply not_true_is_false in He as ->.
    eapply wp_mono; [apply (IH s2 (fat_at s c) fuel)|].
    + apply F2.
    + eapply chain_ext; [|exact Hl']. intros x Hx. rewrite (fn_fat _ _ _ F2) by (apply Hin; by right).
      unfold fupd. destruct (Z.eqb_spec x c) as [->|]; done.
    + intros x Hx. apply (in_fat_view s s2); [apply F2|]. apply Hin. by right.
    + lia.
    + intros r s3 [-> F3]. split; [done|].
      eapply fat_now_ext; [|eapply (fat_now_trans s _ s2 (clear_all l')); [exact F2|exact F3|]].
      * intros x Hx. unfold clear_all, fupd. destruct (Z.eqb_spec x c) as [->|Hne].
        -- rewrite (bool_decide_true (c ∈ c :: l')) by (by left). by case_bool_decide.
        -- by rewrite (bool_decide_ext (x ∈ c :: l') (x ∈ l')) by set_solver.
      * intros g h E x Hx. unfold clear_all. case_bool_decide; auto.
Qed.

Lemma free_cluster_chain_spec s c l :
  fs_ok s -> chain (fat_at s) c l -> (forall x, x ∈ l -> in_fat s x) ->
  wp (fat16_free_cluster_chain c) (fun r s' => r = 0 /\ fat_now s (clear_all l (fat_at s)) s') s.
Proof.
  intros Hs Hl Hin. pose proof (chain_length _ _ _ Hl) as Hlen.
  destruct (chain_head _ _ _ Hl) as (l' & ->).
  pose proof (chain_bounds _ _ _ c Hl ltac:(by left)) as Hc.
  unfold fat16_free_cluster_chain, free_chain_fuel. rewrite i32_id by lia.
  apply free_chain_loop_spec; try done. lia.
Qed.

(** The number of clusters with a non-zero entry: the measure of the loop. *)
Definition used s : nat := length (filter (fun c => fat_at s c <> 0) (seqZ 2 65526)).

Lemma filter_length_lt {T} (P Q : T -> Prop) `{!forall x, Decision (P x), !forall x, Decision (Q x)}
    (l : list T) (x : T) :
  (forall y, y ∈ l -> Q y -> P y) -> x ∈ l -> P x -> ~ Q x -> (length (filter Q l) < length (filter P l))%nat.
Proof.
  intros Himp Hx HP HQ. induction l as [|y l IH]; [by apply not_elem_of_nil in Hx|].
  assert (Hle : (length (filter Q l) <= length (filter P l))%nat).
  { clear IH Hx. induction l as [|z l IH]; [done|]. rewrite !filter_cons.
    assert (length (filter Q l) <= length (filter P l))%nat by (apply IH; set_solver).
    destruct (decide (Q z)), (decide (P z)); simpl; try lia. set_solver. }
  rewrite !filter_cons. apply elem_of_cons in Hx as [->|Hx].
  - destruct (decide (Q y)), (decide (P y)); simpl; try done. lia.
  - specialize (IH ltac:(set_solver) Hx).
    destruct (decide (Q y)), (decide (P y)); simpl; try lia. set_solver.
Qed.

Lemma free_chain_loop_terminates fuel : forall s c,
  fs_ok s -> c < 2 ^ 28 -> (used s < fuel)%nat ->
  wp (free_chain_loop c fuel) (fun r s' => r = 0 /\ fs_ok s' /\ view s' = view s) s.
Proof.
  induction fuel as [|fuel IH]; intros s c Hs Hc Hf; [lia|]. cbn [free_chain_loop].
  destruct ((c >=? 2) && (c <? FAT16_EOC_MIN)) eqn:Hcond; [|by apply wp_ret].
  assert (Hb : 2 <= c < 0xFFF8).
  { unfold FAT16_EOC_MIN in Hcond.
    destruct (Z.geb_spec c 2), (Z.ltb_spec c 0xFFF8); try done; lia. }
  eapply wp_step; [apply get_fat_entry_spec; [done|lia]|]. intros e s1 [-> Q1].
  eapply wp_step; [apply (set_fat_entry_spec s1 c 0); [apply Q1|lia]|]. intros y s2 [-> F2].
  assert (V2 : view s2 = view s) by (rewrite (fs_set_view _ _ _ _ F2); apply Q1).
  pose proof (fs_set_ok _ _ _ _ F2) as O2.
  destruct ((fat_at s c <? 2) || (fat_at s c >=? FAT16_EOC_MIN)) eqn:He; [by apply wp_ret|].
  assert (Hn : 2 <= fat_at s c < 0xFFF8).
  { assert (~ is_end (fat_at s c)) by (rewrite <- is_end_dec; by rewrite He). unfold is_end in *. lia. }
  eapply wp_mono; [apply (IH s2); [done|lia|]|].
  - enough (used s2 < used s)%nat by lia. unfold used.
    apply filter_length_lt with c.
    + intros x Hx Hz Hz'. apply Hz. apply elem_of_seqZ in Hx.
      apply (fat_set_zero_mono s1 c s2 x); try done; [apply Q1|lia|lia|].
      by rewrite (fat_at_quiet _ _ _ Q1).
    + apply elem_of_seqZ. lia.
    + lia.
    + intros Hx. apply Hx. eapply fat_set_same; [apply Q1|lia|lia|done].
  - intros r s3 (-> & O3 & V3). split; [done|]. split; [done|congruence].
Qed.
End release.

(** ** An example volume

    Twelve sectors: the boot sector, two FAT copies of one sector, a root
    directory of sixteen entries and eight clusters of one sector.  Clusters 2
    and 3 form a chain, the others are free. *)
Module ExampleVolume.

Definition fat_sector : list Z := ([0xFFF8; 0xFFFF; 3; 0xFFFF] ≫= le16) ++ replicate 504 0.
Definition image : Ram.ram := {[1 := fat_sector; 2 := fat_sector]}.
Definition boot_header : fat_header := mk_header [] [] 512 1 1 2 16 12 0xF8 1 0 0 0 0.
Definition stream (self : Z) : option Streamer.disk_stream := Some (Streamer.mk_stream self 0 DISK).
Definition priv : fat_private :=
  mk_private (mk_fat_h boot_header (mk_ext 0x80 0 0x29 0 [] []))
    (mk_dir (replicate 16 zero_item) 0 3 4)
    (stream 0x1001000) (stream 0x1002000) (stream 0x1003000) (stream 0x1004000) (stream 0x1005000).
Definition volume : fs_state Ram.ram KHeap.kheap :=
  mk_fs image (KHeap.mk_kheap example_heap ∅) (mk_disk 0 512 0 true (Some priv)).

Lemma image_ok : Ram.ram_ok image.
Proof. apply (bool_decide_unpack _). vm_compute. exact I. Qed.

Lemma volume_ok : fs_ok volume.
Proof.
  split; [exact image_ok|done|]. exists priv. split; [done|].
  split; [split; simpl; lia|]. intros []; by eexists.
Qed.

Lemma volume_geometry : geometry volume.
Proof. split; vm_compute; intuition discriminate. Qed.

Lemma volume_fat c : fat_at volume c = of_le (bytes image (512 + 2 * c) 2).
Proof. done. Qed.

Lemma volume_chain : chain (fat_at volume) 2 [2; 3].
Proof.
  apply chain_next; [lia|vm_compute; intuition discriminate|].
  change (fat_at volume 2) with 3. apply chain_last; [lia|right; vm_compute; discriminate].
Qed.

End ExampleVolume.

(** ** Theorems *)
Section theorems.
Context {D : Type} {B : BlockDevice D} {BS : BlockDeviceSpec D} {H : Type} {A : Allocator H}.
Implicit Types s : fs_state D H.

(** Setting a FAT entry and reading it back: [fat16_set_fat_entry]
    returns 0, a following [fat16_get_fat_entry] of the cluster returns the
    value, the second FAT copy holds it too, no other entry changed, and no
    byte behind the FAT copies changed. *)
Theorem fat_entry_roundtrip s c v :
  fs_ok s -> in_fat s c -> 0 <= v < 65536 ->
  wp (r ← fat16_set_fat_entry c v; e ← fat16_get_fat_entry c; mret (r, e))
    (fun x s' => x = (0, v) /\ of_le (bytes (dev s') (fat2_pos s c) 2) = v /\
      fat_now s (fupd (fat_at s) c v) s') s.
Proof.
  intros Hs Hc Hv. pose proof (in_fat_range s c Hs Hc) as Hr.
  eapply wp_step.
  { apply wp_conj; [by apply set_fat_spec|by apply set_fat_entry_spec]. }
  intros r s1 [[-> F] [_ F2]]. eapply wp_step; [by apply get_fat_entry_spec; [apply F|]|].
  intros e s2 [-> Q]. apply wp_ret.
  assert (E : fat_at s1 c = v) by (rewrite (fn_fat _ _ _ F) by done; unfold fupd; by rewrite Z.eqb_refl).
  split; [by rewrite E|]. split.
  - rewrite (bytes_same (dev s1)) by apply Q. by apply (fat_set_second s c v s1).
  - eapply fat_now_trans with (F := fun g => g); [exact F|by apply fat_now_quiet|auto].
Qed.

(** [fat16_alloc_cluster] returns the lowest free cluster of the volume,
    marks it end-of-chain, links it behind [prev] when there is one, and
    changes no other entry and no byte behind the FAT; it returns [-ENOMEM]
    and changes nothing exactly when no cluster of the volume is free. *)
Theorem alloc_cluster_correct s prev :
  fs_ok s -> geometry s -> prev < 2 \/ is_cluster s prev ->
  wp (fat16_alloc_cluster prev) (fun r s' =>
    (r = - ENOMEM /\ quiet s s' /\ forall c, is_cluster s c -> fat_at s c <> 0) \/
    (is_cluster s r /\ fat_at s r = 0 /\ (forall c, 2 <= c < r -> fat_at s c <> 0) /\
     fat_now s (alloc_fat (fat_at s) prev r) s')) s.
Proof. apply alloc_cluster_spec. Qed.

(** [fat16_free_cluster_chain] on the head of a chain zeroes the FAT
    entries of exactly the clusters of the chain, returns 0, and changes no
    other entry and no byte behind the FAT. *)
Theorem free_cluster_chain_correct s c l :
  fs_ok s -> chain (fat_at s) c l -> (forall x, x ∈ l -> in_fat s x) ->
  wp (fat16_free_cluster_chain c)
    (fun r s' => r = 0 /\ fat_now s (fun x => if bool_decide (x ∈ l) then 0 else fat_at s x) s') s.
Proof. apply free_cluster_chain_spec. Qed.

(** C33: [fat16_free_cluster_chain] terminates on any contents of the FAT,
    also when the entries form a cycle or leave the volume: every round but
    the last clears a non-zero entry. *)
Theorem free_cluster_chain_terminates s c :
  fs_ok s -> 0 <= c < 2 ^ 28 ->
  wp (fat16_free_cluster_chain c) (fun r s' => r = 0 /\ fs_ok s' /\ view s' = view s) s.
Proof.
  intros Hs Hc. unfold fat16_free_cluster_chain, free_chain_fuel. rewrite i32_id by lia.
  apply free_chain_loop_terminates; [done|lia|].
  pose proof (length_filter (fun x => fat_at s x <> 0) (seqZ 2 65526)) as Hle.
  rewrite length_seqZ in Hle. unfold used. lia.
Qed.
End theorems.

Import ExampleVolume.

Lemma fat_entry_roundtrip_witness :
  wp (r ← fat16_set_fat_entry 5 0x1234; e ← fat16_get_fat_entry 5; mret (r, e))
    (fun x _ => x = (0, 0x1234)) volume.
Proof.
  eapply wp_mono; [apply (fat_entry_roundtrip volume 5 0x1234)|].
  - exact volume_ok.
  - vm_compute. intuition discriminate.
  - lia.
  - intros x s' (Hx & _). exact Hx.
Defined.

Lemma alloc_cluster_correct_witness :
  wp (fat16_alloc_cluster 3) (fun r s' => r = 4 /\ fat_at s' 3 = 4 /\ fat_at s' 4 = 0xFFFF) volume.
Proof.
  eapply wp_mono; [apply (alloc_cluster_correct volume 3)|].
  - exact volume_ok.
  - exact volume_geometry.
  - right. vm_compute. intuition discriminate.
  - intros r s' [(_ & _ & N)|(C & Z0 & L & F)].
    + destruct (N 4); [vm_compute; intuition discriminate|reflexivity].
    + assert (r = 4) as ->.
      { unfold is_cluster in C. destruct (Z.lt_trichotomy r 4) as [Hlt|[?|Hgt]]; [|done|].
        - assert (r = 2 \/ r = 3) as [-> | ->] by lia; vm_compute in Z0; discriminate.
        - destruct (L 4); [lia|reflexivity]. }
      split; [done|]. split; (rewrite (fn_fat _ _ _ F); [reflexivity|vm_compute; intuition discriminate]).
Defined.

Lemma free_cluster_chain_correct_witness :
  wp (fat16_free_cluster_chain 2) (fun r s' => r = 0 /\ fat_at s' 2 = 0 /\ fat_at s' 3 = 0) volume.
Proof.
  eapply wp_mono; [apply (free_cluster_chain_correct volume 2 [2; 3])|].
  - exact volume_ok.
  - exact volume_chain.
  - intros x Hx. assert (x = 2 \/ x = 3) as [-> | ->] by set_solver; vm_compute; intuition discriminate.
  - intros r s' [Hr F]. split; [exact Hr|].
    split; (rewrite (fn_fat _ _ _ F); [reflexivity|vm_compute; intuition discriminate]).
Defined.

Lemma free_cluster_chain_terminates_witness :
  wp (fat16_free_cluster_chain 7) (fun r _ => r = 0) volume.
Proof.
  eapply wp_mono; [apply (free_cluster_chain_terminates volume 7)|].
  - exact volume_ok.
  - lia.
  - intros r s' [Hr _]. exact Hr.
Defined.
