(* ===== verification/FatData.v ===== *)
(** * File contents: reading and writing along a cluster chain
    (src/fs/fat/fat16.c)

    [chain_bytes s l] is the contents of the clusters [l]: the file stored in
    a chain.  The theorems of this file say that [fat16_write_internal] and
    [fat16_read_internal] write and read exactly these bytes, extend the chain
    with free clusters only, and leave every other cluster alone. *)
From Stdlib Require Import ZArith Lia.
From stdpp Require Import base list gmap numbers option list_numbers.
From S2P Require Import Prelude CLib Heap Disk FatTypes FatTable.
Local Open Scope Z_scope.
Local Open Scope kernel_scope.

Section code.
Context {D : Type} {B : BlockDevice D} {H : Type} {A : Allocator H}.
Abbreviation FM := (M (fs_state D H)).

(** [private->header.primary_header.sectors_per_cluster * disk->sector_size] *)
Definition size_of_cluster_bytes (p : fat_private) (ss : Z) : Z :=
  i32 (sectors_per_cluster (primary_header (header p)) * ss).

(** The loop of [fat16_get_cluster_for_offset]; [n] rounds are left. *)
Fixpoint cluster_walk (cluster_to_use : Z) (n : nat) : FM Z :=
  match n with
  | O => mret cluster_to_use
  | S n' =>
      entry ← fat16_get_fat_entry cluster_to_use;
      if (entry =? 0xFF8) || (entry =? 0xFFF) then mret (- EIO)
      else if (entry =? PEACHOS_FAT16_BAD_SECTOR) || (entry =? 0xFF0) || (entry =? 0xFF6)
              || (entry =? 0x00) then mret (- EIO)
      else cluster_walk entry n'
  end.

Definition fat16_get_cluster_for_offset (starting_cluster offset : Z) : FM Z :=
  p ← private;
  ss ← disk_sector_size;
  let size := size_of_cluster_bytes p ss in
  if size =? 0 then ub
  else
    let clusters_ahead := offset ÷ size in
    cluster_walk starting_cluster (Z.to_nat clusters_ahead).

(** [fat16_read_internal_from_stream] returns its result and the bytes it
    stored through [out]; every recursive call reads at least one byte less. *)
Fixpoint read_from_stream (fuel : nat) (stream : stream_id) (cluster offset total : Z) :
    FM (Z * list Z) :=
  match fuel with
  | O => hang
  | S fuel =>
      p ← private;
      ss ← disk_sector_size;
      let size := size_of_cluster_bytes p ss in
      cluster_to_use ← fat16_get_cluster_for_offset cluster offset;
      if cluster_to_use <? 0 then mret (cluster_to_use, [])
      else
        let offset_from_cluster := Z.rem offset size in
        let starting_sector := fat16_cluster_to_sector p cluster_to_use in
        let starting_pos := i32 (i32 (starting_sector * ss) + offset_from_cluster) in
        let total_to_read := if total >? size then size else total in
        res ← seek stream starting_pos;
        if negb (res =? PEACHOS_ALL_OK) then mret (res, [])
        else
          '(res, bytes) ← sread stream total_to_read;
          if negb (res =? PEACHOS_ALL_OK) then mret (res, bytes)
          else
            let total := total - total_to_read in
            if total >? 0 then
              '(res, rest) ← read_from_stream fuel stream cluster (offset + total_to_read) total;
              mret (res, bytes ++ rest)
            else mret (res, bytes)
  end.

Definition fat16_read_internal_from_stream (stream : stream_id) (cluster offset total : Z) :
    FM (Z * list Z) :=
  read_from_stream (S (Z.to_nat total)) stream cluster offset total.

Definition fat16_read_internal (starting_cluster offset total : Z) : FM (Z * list Z) :=
  fat16_read_internal_from_stream CLUSTER_READ starting_cluster offset total.

(** Write [len] bytes of [buf] to the cluster from byte [offset_in_cluster] on. *)
Definition fat16_write_cluster_data (cluster offset_in_cluster : Z) (buf : list Z) (len : Z) : FM Z :=
  p ← private;
  ss ← disk_sector_size;
  let sector := fat16_cluster_to_sector p cluster in
  let byte_pos := i32 (i32 (sector * ss) + i32 offset_in_cluster) in
  res ← seek CLUSTER_WRITE byte_pos;
  if res <? 0 then mret res else swrite CLUSTER_WRITE buf (i32 len).

(** Follow the chain by one cluster, extending it when it is too short. *)
Definition next_or_extend (current_cluster : Z) : FM Z :=
  next ← fat16_get_fat_entry current_cluster;
  if (next <? 2) || (next >=? FAT16_EOC_MIN) then fat16_alloc_cluster current_cluster
  else mret next.

(** The walk to the cluster that contains [file_offset]; [n] rounds left.
    [inl] is an error code to return, [inr] the cluster reached. *)
Fixpoint write_walk (current_cluster : Z) (n : nat) : FM (Z + Z) :=
  match n with
  | O => mret (inr current_cluster)
  | S n' =>
      new_cluster ← next_or_extend current_cluster;
      if new_cluster <? 0 then mret (inl new_cluster) else write_walk new_cluster n'
  end.

(** [while (written < total)]; every round writes at least one byte. *)
Fixpoint write_loop (fuel : nat) (current_cluster offset_in_cluster written total cluster_size : Z)
    (data : list Z) : FM Z :=
  match fuel with
  | O => hang
  | S fuel =>
      if written <? total then
        let space := u32 (cluster_size - offset_in_cluster) in
        let to_write := if u32 (total - written) <? space then u32 (total - written) else space in
        res ← fat16_write_cluster_data current_cluster offset_in_cluster
                (drop (Z.to_nat written) data) to_write;
        if res <? 0 then mret res
        else
          let written := u32 (written + to_write) in
          if written <? total then
            new_cluster ← next_or_extend current_cluster;
            if new_cluster <? 0 then mret new_cluster
            else write_loop fuel new_cluster 0 written total cluster_size data
          else write_loop fuel current_cluster 0 written total cluster_size data
      else mret (i32 written)
  end.

(** [fat16_write_internal] returns its result and [*first_cluster]. *)
Definition fat16_write_internal (first_cluster file_offset : Z) (data : list Z) (total : Z) :
    FM (Z * Z) :=
  p ← private;
  ss ← disk_sector_size;
  let cluster_size := u32 (sectors_per_cluster (primary_header (header p)) * ss) in
  let continue (first_cluster current_cluster : Z) : FM (Z * Z) :=
    if cluster_size =? 0 then ub
    else
      let offset_in_cluster := file_offset mod cluster_size in
      res ← write_loop (S (S (Z.to_nat total))) current_cluster offset_in_cluster 0 total
              cluster_size data;
      mret (res, first_cluster) in
  if first_cluster =? 0 then
    new_cluster ← fat16_alloc_cluster (-1);
    if new_cluster <? 0 then mret (new_cluster, first_cluster)
    else continue new_cluster new_cluster
  else if cluster_size =? 0 then ub
  else
    let clusters_ahead := file_offset / cluster_size in
    reached ← write_walk (i32 first_cluster) (Z.to_nat clusters_ahead);
    match reached with
    | inl err => mret (err, first_cluster)
    | inr current_cluster => continue first_cluster current_cluster
    end.
End code.

(** ** Cluster contents *)
Section contents.
Context {D : Type} {B : BlockDevice D} {BS : BlockDeviceSpec D} {H : Type} {A : Allocator H}.
Implicit Types s : fs_state D H.

Definition csize s : Z := 512 * sectors_per_cluster (hdr s).
Definition data_start s : Z := 512 * ending_sector_pos (root s).
Definition cluster_pos s (c : Z) : Z := data_start s + (c - 2) * csize s.
Definition cluster_bytes s (c : Z) : list Z := bytes (dev s) (cluster_pos s c) (csize s).
Definition chain_bytes s (l : list Z) : list Z := l ≫= cluster_bytes s.

(** Clusters whose bytes have a position that fits in an [int]. *)
Definition addressable s (c : Z) : Prop := is_cluster s c /\ cluster_pos s c + csize s < 2 ^ 31.

Lemma csize_layout s s' : layout s' = layout s -> csize s' = csize s.
Proof. intros L. unfold csize. by rewrite (layout_hdr s s'). Qed.
Lemma data_start_layout s s' : layout s' = layout s -> data_start s' = data_start s.
Proof. unfold layout, data_start. by intros [= _ _ ->]. Qed.
Lemma cluster_pos_layout s s' c : layout s' = layout s -> cluster_pos s' c = cluster_pos s c.
Proof. intros L. unfold cluster_pos. by rewrite (data_start_layout s s'), (csize_layout s s'). Qed.
Lemma is_cluster_layout s s' c : layout s' = layout s -> is_cluster s' c <-> is_cluster s c.
Proof. intros L. unfold is_cluster. by rewrite (nclusters_layout s s'). Qed.
Lemma addressable_layout s s' c : layout s' = layout s -> addressable s' c <-> addressable s c.
Proof.
  intros L. unfold addressable.
  by rewrite (is_cluster_layout s s'), (cluster_pos_layout s s'), (csize_layout s s').
Qed.

Lemma csize_view s s' : view s' = view s -> csize s' = csize s.
Proof. intros V. by apply csize_layout, view_layout. Qed.
Lemma cluster_pos_view s s' c : view s' = view s -> cluster_pos s' c = cluster_pos s c.
Proof. intros V. by apply cluster_pos_layout, view_layout. Qed.
Lemma is_cluster_view s s' c : view s' = view s -> is_cluster s' c <-> is_cluster s c.
Proof. intros V. by apply is_cluster_layout, view_layout. Qed.
Lemma addressable_view s s' c : view s' = view s -> addressable s' c <-> addressable s c.
Proof. intros V. by apply addressable_layout, view_layout. Qed.

Lemma csize_pos s : geometry s -> 0 < csize s.
Proof. intros G. pose proof (g_spc _ G). unfold csize. lia. Qed.

Lemma cluster_pos_lower s c : geometry s -> 2 <= c -> data_start s <= cluster_pos s c.
Proof. intros G Hc. pose proof (csize_pos s G). unfold cluster_pos. nia. Qed.

(** The data area lies behind the FAT copies. *)
Lemma data_behind_fat s : geometry s -> fat_end s <= data_start s.
Proof. intros G. pose proof (g_dir _ G). pose proof (g_data _ G). unfold data_start. lia. Qed.

Lemma cluster_disjoint s c c' :
  geometry s -> c <> c' ->
  cluster_pos s c + csize s <= cluster_pos s c' \/ cluster_pos s c' + csize s <= cluster_pos s c.
Proof. intros G Hne. pose proof (csize_pos s G). unfold cluster_pos. nia. Qed.

Lemma length_cluster_bytes s c : length (cluster_bytes s c) = Z.to_nat (csize s).
Proof. apply length_bytes. Qed.

Lemma chain_bytes_cons s c l : chain_bytes s (c :: l) = cluster_bytes s c ++ chain_bytes s l.
Proof. done. Qed.
Lemma chain_bytes_app s l l' : chain_bytes s (l ++ l') = chain_bytes s l ++ chain_bytes s l'.
Proof. unfold chain_bytes. apply bind_app. Qed.

Lemma length_chain_bytes s l : length (chain_bytes s l) = (length l * Z.to_nat (csize s))%nat.
Proof.
  induction l as [|c l IH]; [done|].
  rewrite chain_bytes_cons, length_app, length_cluster_bytes, IH. done.
Qed.

Lemma chain_bytes_ext s s' l :
  (forall c, c ∈ l -> cluster_bytes s' c = cluster_bytes s c) -> chain_bytes s' l = chain_bytes s l.
Proof.
  intros E. induction l as [|c l IH]; [done|].
  rewrite !chain_bytes_cons, E by (by left). f_equal. apply IH. intros x Hx. apply E. by right.
Qed.

Lemma cluster_bytes_same s s' c :
  view s' = view s -> same_disk (dev s) (dev s') -> cluster_bytes s' c = cluster_bytes s c.
Proof.
  intros V Hd. unfold cluster_bytes. rewrite (cluster_pos_view s s'), (csize_view s s') by done.
  by apply bytes_same.
Qed.
Lemma chain_bytes_quiet s s' l : quiet s s' -> chain_bytes s' l = chain_bytes s l.
Proof. intros Q. apply chain_bytes_ext. intros c _. apply cluster_bytes_same; apply Q. Qed.

(** A piece of one cluster, read out of the file contents. *)
Lemma chain_bytes_slice s l i c off n :
  l !! i = Some c -> 0 <= off -> 0 <= n -> off + n <= csize s ->
  take (Z.to_nat n) (drop (i * Z.to_nat (csize s) + Z.to_nat off) (chain_bytes s l)) =
  bytes (dev s) (cluster_pos s c + off) n.
Proof.
  revert i. induction l as [|x l IH]; intros i Hi Ho Hn Hon; [done|].
  rewrite chain_bytes_cons. destruct i as [|i]; simpl in Hi.
  - injection Hi as ->. rewrite drop_app_le by (rewrite length_cluster_bytes; lia).
    rewrite take_app_le by (rewrite length_drop, length_cluster_bytes; lia).
    unfold cluster_bytes. simpl.
    replace (csize s) with (off + (csize s - off)) by lia. rewrite bytes_app by lia.
    rewrite drop_app_length' by (by rewrite length_bytes).
    replace (csize s - off) with (n + (csize s - off - n)) by lia. rewrite bytes_app by lia.
    rewrite take_app_length' by (by rewrite length_bytes).
    f_equal; lia.
  - rewrite drop_app_ge by (rewrite length_cluster_bytes; lia). rewrite length_cluster_bytes.
    rewrite <- (IH i) by done. do 2 f_equal. lia.
Qed.

(** ** What storing inside one cluster changes *)
Lemma cluster_store s c off w s' :
  geometry s -> 2 <= c -> cluster_pos s c + csize s < 2 ^ 31 -> 0 <= off ->
  off + Z.of_nat (length w) <= csize s -> 0 <= ending_sector_pos (root s) ->
  stores s (cluster_pos s c + off) w s' ->
  cluster_bytes s' c = splice (cluster_bytes s c) (Z.to_nat off) w.
Proof.
  intros G Hc Ha Ho Hw He [O V Hst]. pose proof (cluster_pos_lower s c G Hc) as Hlow.
  assert (0 <= data_start s) by (unfold data_start; lia).
  pose proof (length_cluster_bytes s c) as Hlen. pose proof (csize_pos s G).
  apply list_eq_same_length with (Z.to_nat (csize s)).
  - rewrite length_splice; rewrite Hlen; lia.
  - rewrite length_cluster_bytes. by rewrite (csize_view s s').
  - intros k x y Hk Hx Hy. unfold cluster_bytes in Hx.
    rewrite (cluster_pos_view s s'), (csize_view s s'), lookup_bytes in Hx by done.
    injection Hx as <-. rewrite Hst by lia. case_bool_decide as Hin.
    + rewrite lookup_splice_in in Hy by lia.
      replace (Z.to_nat (cluster_pos s c + Z.of_nat k - (cluster_pos s c + off)))
        with (k - Z.to_nat off)%nat by lia. by rewrite Hy.
    + rewrite lookup_splice_out in Hy by lia. unfold cluster_bytes in Hy.
      rewrite lookup_bytes in Hy by lia. congruence.
Qed.
End contents.

(** ** Extending a chain and writing into it *)
Section writing.
Context {D : Type} {B : BlockDevice D} {BS : BlockDeviceSpec D} {H : Type} {A : Allocator H}.
Implicit Types s : fs_state D H.

(** [clear_of s q n l]: the positions [q, q + n) meet no cluster of [l]. *)
Definition clear_of s (q n : Z) (l : list Z) : Prop :=
  forall x, x ∈ l -> q + n <= cluster_pos s x \/ cluster_pos s x + csize s <= q.

(** [extended s c l ext s']: the chain [l] of [c] became [l ++ ext], where
    [ext] were free clusters; no other FAT entry changed, and behind the FAT
    no byte outside the clusters of the chain changed. *)
Record extended s (c : Z) (l ext : list Z) s' : Prop := {
  e_ok : fs_ok s';
  e_view : view s' = view s;
  e_chain : chain (fat_at s') c (l ++ ext);
  e_fresh : forall x, x ∈ ext -> addressable s x /\ fat_at s x = 0;
  e_nonzero : forall x, x ∈ l ++ ext -> fat_at s' x <> 0;
  e_fat : forall x, in_fat s x -> x ∉ l ++ ext -> fat_at s' x = fat_at s x;
  e_data : forall q n, fat_end s <= q -> q + n <= 2 ^ 31 -> clear_of s q n (l ++ ext) ->
    bytes (dev s') q n = bytes (dev s) q n }.

(** The free clusters an allocation can hand out and the driver can address. *)
#[global] Instance addressable_dec s c : Decision (addressable s c).
Proof. unfold addressable, is_cluster. apply _. Defined.
Definition free_clusters s : list Z :=
  filter (fun c => addressable s c /\ fat_at s c = 0) (seqZ 2 (nclusters s)).

Lemma fat_end_nonneg s : fs_ok s -> 0 <= fat_end s.
Proof.
  intros Hs. pose proof (hd_reserved _ (hdr_ok s Hs)). pose proof (hd_spf _ (hdr_ok s Hs)).
  unfold fat_end. lia.
Qed.

(** Storing behind the FAT leaves the entries alone. *)
Lemma stores_fat s p w s' c :
  fs_ok s -> stores s p w s' -> fat_end s <= p -> in_fat s c -> fat_at s' c = fat_at s c.
Proof.
  intros Hs [O V Hst] Hp Hc. rewrite (fat_at_set s) by done. unfold fat_at. f_equal.
  pose proof (hd_reserved _ (hdr_ok s Hs)). pose proof (hd_spf _ (hdr_ok s Hs)).
  unfold in_fat, fat_end in *. eapply stored_other; [exact Hst|unfold fat_pos; lia..].
Qed.

Lemma cluster_bytes_stores_other s c p w s' :
  stores s p w s' -> 0 <= cluster_pos s c -> cluster_pos s c + csize s <= 2 ^ 31 ->
  cluster_pos s c + csize s <= p \/ p + Z.of_nat (length w) <= cluster_pos s c ->
  cluster_bytes s' c = cluster_bytes s c.
Proof.
  intros [O V Hst] H0 H1 Hd. unfold cluster_bytes.
  rewrite (cluster_pos_view s s'), (csize_view s s') by done. by eapply stored_other.
Qed.

Lemma addressable_pos s c :
  fs_ok s -> geometry s -> addressable s c ->
  0 <= fat_end s <= cluster_pos s c /\ cluster_pos s c + csize s < 2 ^ 31 /\ 2 <= c.
Proof.
  intros Hs G [Hc Ha]. unfold is_cluster in Hc.
  pose proof (fat_end_nonneg s Hs). pose proof (data_behind_fat s G).
  pose proof (cluster_pos_lower s c G). lia.
Qed.

Lemma write_cluster_data_spec s c off buf len :
  fs_ok s -> geometry s -> addressable s c -> 0 <= off -> 0 <= len <= Z.of_nat (length buf) ->
  off + len <= csize s -> bytes_ok buf ->
  wp (fat16_write_cluster_data c off buf len)
    (fun r s' => r = 0 /\ stores s (cluster_pos s c + off) (take (Z.to_nat len) buf) s') s.
Proof.
  intros Hs G Ha Ho Hl Hol Hb. pose proof Hs as [_ Hss (p & E & Hp)].
  assert (Hh : primary_header (header p) = hdr s) by (unfold hdr; by rewrite E).
  assert (Hr : root_directory p = root s) by (unfold root; by rewrite E).
  pose proof (addressable_pos s c Hs G Ha) as (Hp0 & Hp1 & Hc2).
  pose proof (csize_pos s G) as Hcs. destruct Ha as [Hc _]. pose proof (cluster_range s c G Hc).
  pose proof (g_spc _ G). pose proof (hd_spc _ (hdr_ok s Hs)). pose proof (g_data _ G) as Hg.
  pose proof (g_dir _ G) as Hg'.
  unfold fat16_write_cluster_data. apply wp_bind, (wp_private _ _ p); [done|].
  apply wp_bind, wp_gets. rewrite Hss. unfold fat16_cluster_to_sector. rewrite Hh, Hr.
  assert (Hmul : 0 <= (c - 2) * sectors_per_cluster (hdr s) < 2 ^ 24) by nia.
  rewrite (i32_id (c - 2)), (i32_id ((c - 2) * _)), (i32_id (ending_sector_pos _ + _)) by lia.
  assert (Hpos : (ending_sector_pos (root s) + (c - 2) * sectors_per_cluster (hdr s)) * 512 = cluster_pos s c).
  { unfold cluster_pos, data_start, csize. lia. }
  rewrite Hpos, (i32_id (cluster_pos s c)), (i32_id off), (i32_id (_ + _)), (i32_id len) by lia.
  eapply wp_step; [by apply seek_spec|]. intros _ s1 (-> & Q1 & A1). cbn.
  eapply wp_mono; [apply (swrite_spec s1 CLUSTER_WRITE (cluster_pos s c + off) buf len)|].
  { apply Q1. } { done. } { lia. } { done. } { lia. } { done. }
  intros _ s2 (-> & S2 & _). split; [done|]. by eapply stores_quiet_l.
Qed.

(** [stepped s cur rest new r s']: moving on from [cur], whose chain goes on
    with [rest], reached [r], after linking the free cluster [new] when
    [rest] was empty. *)
Record stepped s (cur : Z) (rest new : list Z) (r : Z) s' : Prop := {
  p_ok : fs_ok s';
  p_view : view s' = view s;
  p_next : fat_at s' cur = r /\ 2 <= r < 0xFFF8;
  p_chain : chain (fat_at s') r (rest ++ new);
  p_fresh : forall x, x ∈ new -> addressable s x /\ fat_at s x = 0;
  p_nonzero : forall x, x ∈ rest ++ new -> fat_at s' x <> 0;
  p_fat : forall x, in_fat s x -> x <> cur -> x ∉ new -> fat_at s' x = fat_at s x;
  p_data : forall q n, fat_end s <= q -> q + n <= 2 ^ 31 -> bytes (dev s') q n = bytes (dev s) q n;
  p_free : (length (rest ++ new) + length (free_clusters s') >= length rest + length (free_clusters s))%nat;
  p_new : new = [] \/ rest = [] /\ new = [r] }.

Lemma elem_of_free s c :
  c ∈ free_clusters s <-> addressable s c /\ fat_at s c = 0.
Proof.
  unfold free_clusters. rewrite list_elem_of_filter, elem_of_seqZ.
  unfold addressable, is_cluster. intuition lia.
Qed.

(** Removing one element from a filter shortens it by one at most. *)
Lemma filter_remove (P Q : Z -> Prop) `{!forall x, Decision (P x), !forall x, Decision (Q x)} r l :
  NoDup l -> (forall x, x ∈ l -> x <> r -> P x -> Q x) ->
  (length (filter P l) <= S (length (filter Q l)))%nat.
Proof.
  intros Hnd HPQ.
  assert (Hno : forall l', (forall x, x ∈ l' -> P x -> Q x) -> (length (filter P l') <= length (filter Q l'))%nat).
  { intros l' Himp. induction l' as [|y l' IH]; [done|]. rewrite !filter_cons.
    assert (length (filter P l') <= length (filter Q l'))%nat by (apply IH; set_solver).
    destruct (decide (P y)), (decide (Q y)); simpl; try lia. set_solver. }
  induction l as [|y l IH]; [simpl; lia|]. apply NoDup_cons in Hnd as [Hy Hnd].
  rewrite !filter_cons. destruct (decide (y = r)) as [->|Hne].
  - assert (length (filter P l) <= length (filter Q l))%nat by (apply Hno; set_solver).
    destruct (decide (P r)), (decide (Q r)); simpl; lia.
  - assert (length (filter P l) <= S (length (filter Q l)))%nat by (apply IH; set_solver).
    destruct (decide (P y)), (decide (Q y)); simpl; try lia. set_solver.
Qed.

(** Allocating behind [cur] costs one free cluster. *)
Lemma free_clusters_alloc s cur r s' :
  geometry s -> fat_at s cur <> 0 -> fat_now s (alloc_fat (fat_at s) cur r) s' ->
  (length (free_clusters s) <= S (length (free_clusters s')))%nat.
Proof.
  intros G Hcur F. pose proof (fn_view _ _ _ F) as V. unfold free_clusters.
  rewrite (nclusters_view s s') by done. apply filter_remove with r; [apply NoDup_seqZ|].
  intros x _ Hne [Ha Hz]. split; [by apply (addressable_view s s')|].
  rewrite (fn_fat _ _ _ F) by (apply cluster_in_fat; [done|apply Ha]).
  unfold alloc_fat, fupd. assert (x <> cur) by congruence.
  destruct (cur >=? 2); destruct (Z.eqb_spec x r), (Z.eqb_spec x cur); done.
Qed.

Lemma free_clusters_create s r s' :
  geometry s -> fat_now s (fupd (fat_at s) r FAT16_EOC) s' ->
  (length (free_clusters s) <= S (length (free_clusters s')))%nat.
Proof.
  intros G F. pose proof (fn_view _ _ _ F) as V. unfold free_clusters.
  rewrite (nclusters_view s s') by done. apply filter_remove with r; [apply NoDup_seqZ|].
  intros x _ Hne [Ha Hz]. split; [by apply (addressable_view s s')|].
  rewrite (fn_fat _ _ _ F) by (apply cluster_in_fat; [done|apply Ha]).
  unfold fupd. by destruct (Z.eqb_spec x r).
Qed.

(** The lowest free cluster is addressable when some free cluster is. *)
Lemma lowest_addressable s r c :
  geometry s -> c ∈ free_clusters s -> is_cluster s r ->
  (forall x, 2 <= x < r -> fat_at s x <> 0) -> addressable s r.
Proof.
  intros G Hc Hr Hlow. apply elem_of_free in Hc as [[Hc Ha] Hz].
  assert (r <= c) by (destruct (Z.le_gt_cases r c); [done|]; destruct (Hlow c); unfold is_cluster in *; [lia|done]).
  split; [done|]. pose proof (csize_pos s G). unfold cluster_pos in *. nia.
Qed.

Lemma extend_spec s cur :
  fs_ok s -> geometry s -> is_cluster s cur -> fat_at s cur <> 0 -> free_clusters s <> [] ->
  wp (fat16_alloc_cluster cur) (fun r s' => 0 <= r /\ stepped s cur [] [r] r s') s.
Proof.
  intros Hs G Hcur Hnz Hfree.
  destruct (free_clusters s) as [|c fl] eqn:Efl; [done|].
  assert (Hc : c ∈ free_clusters s) by (rewrite Efl; by left).
  eapply wp_mono; [by apply alloc_cluster_spec; auto|]. intros r s' [(-> & _ & N)|(C & Z0 & L & F)].
  { apply elem_of_free in Hc as [[Hc _] Hz]. by destruct (N c). }
  pose proof (cluster_range s r G C) as Hr. pose proof (cluster_range s cur G Hcur).
  assert (Hne : r <> cur) by congruence.
  assert (Hfr : fat_at s' r = FAT16_EOC).
  { rewrite (fn_fat _ _ _ F) by (by apply cluster_in_fat). unfold alloc_fat, fupd.
    destruct (cur >=? 2); rewrite ?Z.eqb_refl; destruct (Z.eqb_spec r cur); done. }
  split; [lia|]. split.
  - apply F.
  - apply F.
  - rewrite (fn_fat _ _ _ F) by (by apply cluster_in_fat). unfold alloc_fat, fupd.
    destruct (Z.geb_spec cur 2); [|lia]. by rewrite Z.eqb_refl.
  - simpl. constructor; [done|]. rewrite Hfr. unfold is_end, FAT16_EOC. lia.
  - intros x Hx. apply list_elem_of_singleton in Hx as ->. split; [|done]. by eapply lowest_addressable.
  - intros x Hx. apply list_elem_of_singleton in Hx as ->. by rewrite Hfr.
  - intros x Hx Hxc Hxn. assert (x <> r) by (intros ->; apply Hxn; by left).
    rewrite (fn_fat _ _ _ F) by done. unfold alloc_fat, fupd.
    by destruct (cur >=? 2), (Z.eqb_spec x cur), (Z.eqb_spec x r).
  - apply F.
  - pose proof (free_clusters_alloc s cur r s' G Hnz F). rewrite Efl in *. simpl in *. lia.
  - by right.
Qed.

(** [next_or_extend] moves to the next cluster of the chain, and allocates
    one when there is none. *)
Lemma next_or_extend_spec s cur rest :
  fs_ok s -> geometry s -> is_cluster s cur -> chain (fat_at s) cur (cur :: rest) ->
  (forall x, x ∈ cur :: rest -> fat_at s x <> 0) -> (rest = [] -> free_clusters s <> []) ->
  wp (next_or_extend cur) (fun r s' => 0 <= r /\ exists new, stepped s cur rest new r s') s.
Proof.
  intros Hs G Hcur Hch Hnz Hfree. pose proof (cluster_range s cur G Hcur) as Hr.
  unfold next_or_extend. eapply wp_step; [apply get_fat_entry_spec; [done|lia]|].
  intros e s1 [-> Q1]. pose proof (q_view _ _ Q1) as V1.
  assert (Hfq : forall x, fat_at s1 x = fat_at s x) by (intros; by apply fat_at_quiet).
  inversion Hch as [? _ He|? ? _ He Hrest]; subst.
  - apply is_end_dec in He as ->.
    assert (Hf1 : free_clusters s1 = free_clusters s).
    { unfold free_clusters. rewrite (nclusters_view s s1) by done. apply list_filter_iff.
      intros x. by rewrite (addressable_view s s1), Hfq. }
    eapply wp_mono; [apply (extend_spec s1 cur)|].
    { apply Q1. } { by eapply geometry_view. } { by apply (is_cluster_view s s1). }
    { rewrite Hfq. apply Hnz. by left. } { rewrite Hf1. by apply Hfree. }
    intros r s2 [H0 [P1 P2 P3 P4 P5 P6 P7 P8 P9 P10]]. split; [done|]. exists [r]. split; try done.
    + congruence.
    + intros x Hx. rewrite <- Hfq, <- (addressable_view s s1) by done. by apply P5.
    + intros x Hx. rewrite <- Hfq. apply P7. by apply (in_fat_view s s1).
    + intros q n Hq Hn. rewrite P8; [apply bytes_same, Q1| |done]. by rewrite (fat_end_view s s1).
    + by rewrite <- Hf1.
  - assert (Hn : 2 <= fat_at s cur < 0xFFF8) by (unfold is_end in He; lia).
    rewrite <- is_end_dec in He. apply not_true_is_false in He as ->. apply wp_ret.
    split; [lia|]. exists []. split; rewrite ?app_nil_r; try done.
    + apply Q1.
    + eapply chain_ext; [|done]. intros; apply Hfq.
    + intros x Hx. by apply not_elem_of_nil in Hx.
    + intros x Hx. rewrite Hfq. apply Hnz. by right.
    + intros q n _ _. apply bytes_same, Q1.
    + apply Nat.eq_le_incl. f_equal. unfold free_clusters. rewrite (nclusters_view s s1) by done.
      f_equal. apply list_filter_iff. intros x. by rewrite (addressable_view s s1), Hfq.
    + by left.
Qed.

(** The clusters behind [cur] differ from it. *)
Lemma cur_not_behind s cur rest off w s1 new r s2 ext s3 :
  fs_ok s -> geometry s -> addressable s cur -> chain (fat_at s) cur (cur :: rest) ->
  fat_at s cur <> 0 -> 0 <= off ->
  stores s (cluster_pos s cur + off) w s1 -> stepped s1 cur rest new r s2 ->
  extended s2 r (rest ++ new) ext s3 -> cur ∉ (rest ++ new) ++ ext.
Proof.
  intros Hs G Ha Hch Hnz Ho S1 P2 E3.
  pose proof (addressable_pos s cur Hs G Ha) as (Hp & _ & _).
  pose proof (cluster_in_fat s cur G (proj1 Ha)) as Hin.
  rewrite !elem_of_app. intros [[Hx|Hx]|Hx].
  - apply chain_NoDup, NoDup_cons in Hch as [? _]. done.
  - apply (p_fresh _ _ _ _ _ _ P2) in Hx as [_ Hz].
    rewrite (stores_fat s (cluster_pos s cur + off) w s1) in Hz; try done. lia.
  - apply (e_fresh _ _ _ _ _ E3) in Hx as [_ Hz]. pose proof (p_next _ _ _ _ _ _ P2). lia.
Qed.

Lemma extended_cons s cur rest off w s1 new r s2 ext s3 :
  fs_ok s -> geometry s -> addressable s cur -> chain (fat_at s) cur (cur :: rest) ->
  fat_at s cur <> 0 -> 0 <= off -> off + Z.of_nat (length w) <= csize s ->
  stores s (cluster_pos s cur + off) w s1 -> stepped s1 cur rest new r s2 ->
  extended s2 r (rest ++ new) ext s3 -> extended s cur (cur :: rest) (new ++ ext) s3.
Proof.
  intros Hs G Ha Hch Hnz Ho How S1 P2 E3.
  pose proof (cur_not_behind _ _ _ _ _ _ _ _ _ _ _ Hs G Ha Hch Hnz Ho S1 P2 E3) as Hno.
  pose proof (addressable_pos s cur Hs G Ha) as (Hp & Hmax & Hc2).
  pose proof (cluster_in_fat s cur G (proj1 Ha)) as Hin.
  pose proof (st_view _ _ _ _ S1) as V1. pose proof (p_view _ _ _ _ _ _ P2) as V2.
  assert (V20 : view s2 = view s) by congruence.
  assert (F1 : forall x, in_fat s x -> fat_at s1 x = fat_at s x).
  { intros x Hx. eapply stores_fat; try done. lia. }
  assert (F3 : fat_at s3 cur = r /\ 2 <= r < 0xFFF8).
  { pose proof (p_next _ _ _ _ _ _ P2) as [<- ?]. split; [|done].
    apply (e_fat _ _ _ _ _ E3); [by apply (in_fat_view s s2)|done]. }
  destruct F3 as [F3 Hr]. split.
  - apply E3.
  - rewrite (e_view _ _ _ _ _ E3). done.
  - simpl. rewrite app_assoc. apply chain_next.
    + by apply chain_bounds with (x := cur) in Hch; [|by left].
    + rewrite F3. unfold is_end. lia.
    + rewrite F3. apply E3.
  - intros x [Hx|Hx]%elem_of_app.
    + apply (p_fresh _ _ _ _ _ _ P2) in Hx as [Hxa Hz]. apply (addressable_view s s1) in Hxa; [|done].
      split; [done|]. rewrite <- F1; [done|]. apply cluster_in_fat; [done|apply Hxa].
    + pose proof Hx as Hx'. apply (e_fresh _ _ _ _ _ E3) in Hx as [Hxa Hz].
      apply (addressable_view s s2) in Hxa; [|done]. split; [done|].
      assert (Hxin : in_fat s x) by (apply cluster_in_fat; [done|apply Hxa]).
      rewrite <- F1 by done. rewrite <- (p_fat _ _ _ _ _ _ P2); [done|by apply (in_fat_view s s1)| |].
      * intros ->. apply Hno. apply elem_of_app. by right.
      * intros Hxn. apply (p_nonzero _ _ _ _ _ _ P2 x); [apply elem_of_app; by right|done].
  - intros x. rewrite <- app_comm_cons, app_assoc. intros [->|Hx]%elem_of_cons; [lia|].
    by apply (e_nonzero _ _ _ _ _ E3).
  - intros x Hx. rewrite <- app_comm_cons, app_assoc, not_elem_of_cons. intros [Hxc Hxn].
    rewrite (e_fat _ _ _ _ _ E3) by (done || by apply (in_fat_view s s2)).
    rewrite (p_fat _ _ _ _ _ _ P2); [by apply F1|by apply (in_fat_view s s1)|done|]. intros Hxw. apply Hxn. apply elem_of_app. left. apply elem_of_app. by right.
  - intros q n Hq Hn. rewrite <- app_comm_cons, app_assoc. intros Hcl.
    rewrite (e_data _ _ _ _ _ E3); [|by rewrite (fat_end_view s s2)|done|].
    2:{ intros x Hx. rewrite (cluster_pos_view s s2), (csize_view s s2) by done. apply Hcl. by right. }
    rewrite (p_data _ _ _ _ _ _ P2); [|by rewrite (fat_end_view s s1)|done].
    eapply stored_other; [apply S1|lia|lia|]. pose proof (Hcl cur ltac:(by left)). lia.
Qed.

(** The contents: the piece stored in [cur], and what the rest was before. *)
Lemma extended_cons_cur s cur rest off w s1 new r s2 ext s3 :
  fs_ok s -> geometry s -> addressable s cur -> chain (fat_at s) cur (cur :: rest) ->
  fat_at s cur <> 0 -> 0 <= off -> off + Z.of_nat (length w) <= csize s ->
  stores s (cluster_pos s cur + off) w s1 -> stepped s1 cur rest new r s2 ->
  extended s2 r (rest ++ new) ext s3 ->
  cluster_bytes s3 cur = splice (cluster_bytes s cur) (Z.to_nat off) w.
Proof.
  intros Hs G Ha Hch Hnz Ho How S1 P2 E3.
  pose proof (cur_not_behind _ _ _ _ _ _ _ _ _ _ _ Hs G Ha Hch Hnz Ho S1 P2 E3) as Hno.
  pose proof (addressable_pos s cur Hs G Ha) as (Hp & Hmax & Hc2). pose proof (g_data _ G) as Hg.
  pose proof (st_view _ _ _ _ S1) as V1. pose proof (p_view _ _ _ _ _ _ P2) as V2.
  assert (V20 : view s2 = view s) by congruence.
  rewrite <- (cluster_store s cur off w s1); try done.
  2:{ pose proof (g_dir _ G). pose proof (fat_end_nonneg s Hs). lia. }
  unfold cluster_bytes.
  assert (V3 : view s3 = view s) by (rewrite (e_view _ _ _ _ _ E3); done).
  rewrite (cluster_pos_view s s3), (csize_view s s3), (cluster_pos_view s s1), (csize_view s s1) by done.
  rewrite (e_data _ _ _ _ _ E3); [|rewrite (fat_end_view s s2) by done; lia|lia|].
  - apply (p_data _ _ _ _ _ _ P2); [rewrite (fat_end_view s s1) by done; lia|lia].
  - intros x Hx. rewrite (cluster_pos_view s s2), (csize_view s s2) by done.
    apply cluster_disjoint; [done|]. intros ->. done.
Qed.

Lemma extended_cons_rest s cur rest off w s1 new r s2 l :
  fs_ok s -> geometry s -> addressable s cur -> 0 <= off -> off + Z.of_nat (length w) <= csize s ->
  stores s (cluster_pos s cur + off) w s1 -> stepped s1 cur rest new r s2 ->
  cur ∉ l -> (forall x, x ∈ l -> addressable s x) -> chain_bytes s2 l = chain_bytes s l.
Proof.
  intros Hs G Ha Ho How S1 P2 Hno Hl. apply chain_bytes_ext. intros x Hx.
  pose proof (addressable_pos s x Hs G (Hl x Hx)) as (Hp & Hmax & Hc2).
  pose proof (st_view _ _ _ _ S1) as V1. pose proof (p_view _ _ _ _ _ _ P2) as V2.
  assert (V20 : view s2 = view s) by congruence.
  transitivity (cluster_bytes s1 x).
  - unfold cluster_bytes. rewrite (cluster_pos_view s s2), (csize_view s s2),
      (cluster_pos_view s s1), (csize_view s s1) by done.
    apply (p_data _ _ _ _ _ _ P2); [rewrite (fat_end_view s s1) by done; lia|lia].
  - eapply cluster_bytes_stores_other; [exact S1|lia..|].
    destruct (cluster_disjoint s x cur G); [intros ->; done|lia..].
Qed.

(** The chain [l] of a file: every cluster is addressable and in use. *)
Record file_chain s (c : Z) (l : list Z) : Prop := {
  fc_chain : chain (fat_at s) c l;
  fc_addr : forall x, x ∈ l -> addressable s x;
  fc_used : forall x, x ∈ l -> fat_at s x <> 0 }.

(** [wrote s c l ext off d s']: the bytes [d] were stored at offset [off] of
    the file whose chain is [l], extended by [ext], the clusters needed. *)
Record wrote s (c : Z) (l ext : list Z) (off : Z) (d : list Z) s' : Prop := {
  w_ext : extended s c l ext s';
  w_bytes : chain_bytes s' (l ++ ext) = splice (chain_bytes s (l ++ ext)) (Z.to_nat off) d;
  w_min : ext = [] \/ csize s * (Z.of_nat (length (l ++ ext)) - 1) < off + Z.of_nat (length d) }.

Lemma file_chain_next s cur rest off w s1 new r s2 :
  fs_ok s -> geometry s -> file_chain s cur (cur :: rest) -> 0 <= off ->
  stores s (cluster_pos s cur + off) w s1 -> stepped s1 cur rest new r s2 ->
  file_chain s2 r (rest ++ new).
Proof.
  intros Hs G [Hch Ha Hu] Ho S1 P2.
  assert (V2 : view s2 = view s1) by apply P2. assert (V1 : view s1 = view s) by apply S1.
  split; [apply P2| |apply P2]. intros x [Hx|Hx]%elem_of_app.
  - apply (addressable_view s s2); [congruence|]. apply Ha. by right.
  - apply (addressable_view s1 s2); [done|]. by apply (p_fresh _ _ _ _ _ _ P2).
Qed.

Lemma behind_addressable s cur rest new r s1 s2 ext s3 :
  view s1 = view s -> (forall x, x ∈ cur :: rest -> addressable s x) ->
  stepped s1 cur rest new r s2 -> extended s2 r (rest ++ new) ext s3 ->
  forall x, x ∈ (rest ++ new) ++ ext -> addressable s x.
Proof.
  intros V1 Ha P2 E3 x. assert (V2 : view s2 = view s1) by apply P2.
  rewrite !elem_of_app. intros [[Hx|Hx]|Hx].
  - apply Ha. by right.
  - apply (addressable_view s s1); [done|]. by apply (p_fresh _ _ _ _ _ _ P2).
  - apply (addressable_view s s2); [congruence|]. by apply (e_fresh _ _ _ _ _ E3).
Qed.

(** Storing the last piece of the data in the current cluster. *)
Lemma wrote_last s cur rest off w s1 :
  fs_ok s -> geometry s -> file_chain s cur (cur :: rest) -> 0 <= off ->
  off + Z.of_nat (length w) <= csize s -> stores s (cluster_pos s cur + off) w s1 ->
  wrote s cur (cur :: rest) [] off w s1.
Proof.
  intros Hs G [Hch Ha Hu] Ho How S1. pose proof (Ha cur ltac:(by left)) as Hac.
  pose proof (addressable_pos s cur Hs G Hac) as (Hp & Hmax & Hc2).
  pose proof (g_data _ G) as Hg. pose proof (g_dir _ G) as Hg'.
  assert (F : forall x, in_fat s x -> fat_at s1 x = fat_at s x) by (intros; eapply stores_fat; done || lia).
  assert (Hin : forall x, x ∈ cur :: rest -> in_fat s x).
  { intros x Hx. apply cluster_in_fat; [done|]. by apply Ha. }
  split; [split| |by left]; rewrite ?app_nil_r.
  - apply S1.
  - apply S1.
  - eapply chain_ext; [|done]. intros x Hx. by apply F, Hin.
  - intros x Hx. by apply not_elem_of_nil in Hx.
  - intros x Hx. rewrite F by (by apply Hin). by apply Hu.
  - intros x Hx _. by apply F.
  - intros q n Hq Hn Hcl. eapply stored_other; [apply S1|lia|lia|]. pose proof (Hcl cur ltac:(by left)). lia.
  - rewrite !chain_bytes_cons, splice_app_l by (rewrite length_cluster_bytes; lia). f_equal.
    + apply cluster_store; try done. lia.
    + apply chain_bytes_ext. intros x Hx. pose proof (Ha x ltac:(by right)) as Hxa.
      pose proof (addressable_pos s x Hs G Hxa) as (? & ? & ?).
      eapply cluster_bytes_stores_other; [exact S1|lia..|].
      apply chain_NoDup, NoDup_cons in Hch as [Hno _].
      destruct (cluster_disjoint s x cur G); [intros ->; done|lia..].
Qed.

Lemma stores_nil s p : fs_ok s -> stores s p [] s.
Proof. intros Hs. split; [done|done|apply stored_nil]. Qed.

(** One round: the bytes [w] go to [cur] and [d] behind it. *)
Lemma wrote_cons s cur rest off w s1 new r s2 ext off' d s3 :
  fs_ok s -> geometry s -> file_chain s cur (cur :: rest) -> 0 <= off ->
  off + Z.of_nat (length w) <= csize s ->
  stores s (cluster_pos s cur + off) w s1 -> stepped s1 cur rest new r s2 ->
  wrote s2 r (rest ++ new) ext off' d s3 ->
  extended s cur (cur :: rest) (new ++ ext) s3 /\
  chain_bytes s3 ((cur :: rest) ++ new ++ ext) =
    splice (cluster_bytes s cur) (Z.to_nat off) w ++
    splice (chain_bytes s (rest ++ new ++ ext)) (Z.to_nat off') d.
Proof.
  intros Hs G [Hch Ha Hu] Ho How S1 P2 [E3 B3 _]. pose proof (Ha cur ltac:(by left)) as Hac.
  pose proof (Hu cur ltac:(by left)) as Huc. pose proof (st_view _ _ _ _ S1) as V1.
  split; [by eapply extended_cons|]. rewrite <- app_comm_cons, chain_bytes_cons. f_equal.
  - by eapply extended_cons_cur.
  - rewrite (app_assoc rest). rewrite B3. f_equal. eapply extended_cons_rest; try done.
    + by eapply cur_not_behind.
    + by eapply behind_addressable.
Qed.

Lemma wrote_next s cur rest off w s1 new r s2 ext d s3 :
  fs_ok s -> geometry s -> file_chain s cur (cur :: rest) -> 0 <= off -> d <> [] ->
  off + Z.of_nat (length w) = csize s ->
  stores s (cluster_pos s cur + off) w s1 -> stepped s1 cur rest new r s2 ->
  wrote s2 r (rest ++ new) ext 0 d s3 -> wrote s cur (cur :: rest) (new ++ ext) off (w ++ d) s3.
Proof.
  intros Hs G Hf Ho Hd How S1 P2 W3.
  assert (How' : off + Z.of_nat (length w) <= csize s) by lia.
  destruct (wrote_cons _ _ _ _ _ _ _ _ _ _ _ _ _ Hs G Hf Ho How' S1 P2 W3) as [E Hb].
  assert (Hdl : (length d <> 0)%nat) by (by destruct d).
  split; [done| |].
  - rewrite Hb, <- app_comm_cons, chain_bytes_cons. rewrite splice_app_both; [done|].
    rewrite length_cluster_bytes. lia.
  - assert (V2 : view s2 = view s1) by apply P2. assert (V1 : view s1 = view s) by apply S1.
    pose proof (w_min _ _ _ _ _ _ _ W3) as Hm. rewrite (csize_view s s2) in Hm by congruence.
    pose proof (csize_pos s G). simpl. rewrite !length_app in *. simpl.
    destruct Hm as [->|Hm]; [|right; lia].
    destruct (p_new _ _ _ _ _ _ P2) as [->|[-> ->]]; [by left|right]. simpl. lia.
Qed.

Lemma wrote_skip s cur rest new r s2 ext off d s3 :
  fs_ok s -> geometry s -> file_chain s cur (cur :: rest) -> 0 <= off -> d <> [] ->
  stepped s cur rest new r s2 -> wrote s2 r (rest ++ new) ext off d s3 ->
  wrote s cur (cur :: rest) (new ++ ext) (csize s + off) d s3.
Proof.
  intros Hs G Hf Ho Hd P2 W3. pose proof (csize_pos s G).
  destruct (wrote_cons s cur rest 0 [] s new r s2 ext off d s3) as [E Hb]; try done.
  { simpl. lia. } { by apply stores_nil. }
  assert (Hdl : (length d <> 0)%nat) by (by destruct d).
  split; [done| |].
  - rewrite Hb, <- app_comm_cons, chain_bytes_cons, splice_nil, splice_app_r by (rewrite length_cluster_bytes; lia).
    rewrite length_cluster_bytes. do 2 f_equal. lia.
  - assert (V2 : view s2 = view s) by apply P2.
    pose proof (w_min _ _ _ _ _ _ _ W3) as Hm. rewrite (csize_view s s2) in Hm by done.
    simpl. rewrite !length_app in *. simpl.
    destruct Hm as [->|Hm]; [|right; lia].
    destruct (p_new _ _ _ _ _ _ P2) as [->|[-> ->]]; [by left|right]. simpl. lia.
Qed.

(** ** The write loop *)
Lemma write_loop_done fuel cur off total cs data s (Q : Z -> fs_state D H -> Prop) :
  (0 < fuel)%nat -> 0 <= total < 2 ^ 31 -> Q total s -> wp (write_loop fuel cur off total total cs data) Q s.
Proof.
  intros Hf Ht HQ. destruct fuel as [|fuel]; [lia|]. cbn [write_loop].
  rewrite Z.ltb_irrefl, i32_id by lia. by apply wp_ret.
Qed.

Lemma take_split_at (data : list Z) a b :
  (a <= b)%nat -> take b data = take a data ++ take (b - a) (drop a data).
Proof. intros. rewrite take_take_drop. f_equal. lia. Qed.

Lemma and_iff_distr (P Q R : Prop) : (P -> (Q <-> R)) -> (P /\ Q <-> P /\ R).
Proof. tauto. Qed.

Lemma free_clusters_stores s p w s' :
  fs_ok s -> geometry s -> fat_end s <= p -> stores s p w s' -> free_clusters s' = free_clusters s.
Proof.
  intros Hs G Hp S. pose proof (st_view _ _ _ _ S) as V.
  unfold free_clusters. rewrite (nclusters_view s s') by done. apply list_filter_iff.
  intros x. rewrite (addressable_view s s') by done. apply and_iff_distr. intros Ha.
  rewrite (stores_fat s p w s'); [done..|]. apply cluster_in_fat; [done|]. apply Ha.
Qed.

(** Moving on after a store in [cur], when [k] more bytes have room. *)
Lemma next_after_store s cur rest off w s1 k :
  fs_ok s -> geometry s -> file_chain s cur (cur :: rest) -> 0 <= off ->
  off + Z.of_nat (length w) <= csize s -> stores s (cluster_pos s cur + off) w s1 -> 0 < k ->
  csize s + k <= csize s * Z.of_nat (length (cur :: rest) + length (free_clusters s)) ->
  wp (next_or_extend cur) (fun r s2 => 0 <= r /\ exists new rest', stepped s1 cur rest new r s2 /\
    rest ++ new = r :: rest' /\ view s2 = view s /\ file_chain s2 r (r :: rest') /\
    k <= csize s2 * Z.of_nat (length (r :: rest') + length (free_clusters s2))) s1.
Proof.
  intros Hs G Hf Ho How S1 Hk Hcap. pose proof (fc_addr _ _ _ Hf cur ltac:(by left)) as Hac.
  pose proof (addressable_pos s cur Hs G Hac) as (Hp & Hmax & Hc2).
  assert (V1 : view s1 = view s) by apply S1.
  assert (Hfr : free_clusters s1 = free_clusters s)
    by (eapply (free_clusters_stores s _ _ s1 Hs G); [|exact S1]; lia).
  pose proof (wrote_last s cur rest off w s1 Hs G Hf Ho How S1) as [E1 _ _].
  pose proof (e_chain _ _ _ _ _ E1) as Hch. pose proof (e_nonzero _ _ _ _ _ E1) as Hnz.
  rewrite app_nil_r in Hch, Hnz.
  eapply wp_mono; [apply (next_or_extend_spec s1 cur rest); try done|].
  { apply S1. } { by eapply geometry_view. } { apply (is_cluster_view s s1); [done|apply Hac]. }
  { rewrite Hfr. intros -> E0. rewrite E0 in Hcap. simpl in Hcap. lia. }
  intros r s2 (Hr & new & P2). split; [done|].
  assert (V2 : view s2 = view s) by (rewrite (p_view _ _ _ _ _ _ P2); done).
  pose proof (file_chain_next s cur rest off w s1 new r s2 Hs G Hf Ho S1 P2) as Hf2.
  destruct (chain_head _ _ _ (fc_chain _ _ _ Hf2)) as (rest' & Er).
  exists new, rest'. rewrite Er in Hf2. repeat (split; [done|]).
  pose proof (p_free _ _ _ _ _ _ P2) as Hpf. rewrite Hfr, Er in Hpf.
  pose proof (csize_pos s G). rewrite (csize_view s s2) by done. simpl in *. nia.
Qed.

(** The write loop stores the rest of the data from the current cluster on. *)
Lemma write_loop_spec fuel : forall s cur rest off written total data,
  fs_ok s -> geometry s -> file_chain s cur (cur :: rest) -> 0 <= off < csize s ->
  0 <= written < total -> total < 2 ^ 31 -> total <= Z.of_nat (length data) -> bytes_ok data ->
  off + (total - written) <= csize s * Z.of_nat (length (cur :: rest) + length (free_clusters s)) ->
  (Z.to_nat (total - written) < fuel)%nat ->
  wp (write_loop fuel cur off written total (csize s) data) (fun r s' => r = total /\
    exists ext, wrote s cur (cur :: rest) ext off
      (take (Z.to_nat (total - written)) (drop (Z.to_nat written) data)) s') s.
Proof.
  induction fuel as [|fuel IH]; intros s cur rest off written total data Hs G Hf Ho Hw Ht Hl Hb Hcap Hfuel;
    [lia|]. cbn [write_loop].
  pose proof (fc_addr _ _ _ Hf cur ltac:(by left)) as Hac.
  pose proof (addressable_pos s cur Hs G Hac) as (Hp & Hmax & Hc2).
  destruct (Z.ltb_spec written total); [|lia].
  rewrite (u32_id (csize s - off)), (u32_id (total - written)) by lia.
  set (n := if total - written <? csize s - off then total - written else csize s - off).
  assert (Hn : 0 < n <= total - written /\ off + n <= csize s /\ (n < total - written -> off + n = csize s)).
  { unfold n. destruct (Z.ltb_spec (total - written) (csize s - off)); lia. }
  set (d := drop (Z.to_nat written) data).
  assert (Hd : bytes_ok d) by (by apply bytes_ok_drop).
  assert (Hdl : Z.of_nat (length d) = Z.of_nat (length data) - written) by (unfold d; rewrite length_drop; lia).
  assert (Hlen : length (take (Z.to_nat n) d) = Z.to_nat n) by (rewrite length_take; lia).
  eapply wp_step; [apply (write_cluster_data_spec s cur off d n); done || lia|].
  intros _ s1 [-> S1]. cbn -[write_loop]. rewrite (u32_id (written + n)) by lia.
  destruct (Z.ltb_spec (written + n) total) as [Hmore|Hlast].
  2:{ replace (written + n) with total by lia. apply write_loop_done; [lia..|]. split; [done|].
      exists []. replace (total - written) with n by lia. apply wrote_last; done || lia. }
  eapply wp_step; [apply (next_after_store s cur rest off (take (Z.to_nat n) d) s1 (total - (written + n))); done || lia|].
  intros r s2 (Hr & new & rest' & P2 & Er & V2 & Hf2 & Hcap2). destruct (Z.ltb_spec r 0); [lia|].
  rewrite <- (csize_view s s2) by done. pose proof (csize_view s s2 V2) as Hcs.
  eapply wp_mono; [apply (IH s2 r rest' 0 (written + n) total data); try done; try lia|].
  { apply P2. } { by eapply geometry_view. }
  intros ? s3 (-> & ext & W3). split; [done|]. exists (new ++ ext).
  rewrite (take_split_at d (Z.to_nat n)) by lia. rewrite <- Er in W3.
  assert (Ed : take (Z.to_nat (total - (written + n))) (drop (Z.to_nat (written + n)) data) =
               take (Z.to_nat (total - written) - Z.to_nat n) (drop (Z.to_nat n) d)).
  { unfold d. rewrite drop_drop. f_equal; [lia|]. f_equal. lia. }
  rewrite Ed in W3. eapply wrote_next; try done; try lia.
  intros E0. apply (f_equal length) in E0. rewrite length_take, length_drop in E0. simpl in E0. lia.
Qed.

(** The walk to the cluster of the offset, followed by the write loop. *)
Lemma write_walk_spec n : forall s cur rest off total data fuel,
  fs_ok s -> geometry s -> file_chain s cur (cur :: rest) -> 0 <= off < csize s ->
  0 < total < 2 ^ 31 -> total <= Z.of_nat (length data) -> bytes_ok data ->
  Z.of_nat n * csize s + off + total <=
    csize s * Z.of_nat (length (cur :: rest) + length (free_clusters s)) ->
  (Z.to_nat total < fuel)%nat ->
  wp (write_walk cur n) (fun reached s1 => exists cc, reached = inr cc /\
    wp (write_loop fuel cc off 0 total (csize s) data) (fun r s' => r = total /\
      exists ext, wrote s cur (cur :: rest) ext (Z.of_nat n * csize s + off) (take (Z.to_nat total) data) s')
      s1) s.
Proof.
  induction n as [|n IH]; intros s cur rest off total data fuel Hs G Hf Ho Ht Hl Hb Hcap Hfuel; cbn [write_walk].
  - apply wp_ret. exists cur. split; [done|].
    eapply wp_mono; [apply (write_loop_spec fuel s cur rest off 0 total data); done || lia|].
    intros r s' (-> & ext & W). split; [done|]. exists ext. rewrite Z.sub_0_r in W.
    by rewrite Nat2Z.inj_0, Z.mul_0_l, Z.add_0_l.
  - pose proof (csize_pos s G) as Hcs.
    eapply wp_step; [apply (next_after_store s cur rest 0 [] s (Z.of_nat n * csize s + off + total)); try done|].
    { simpl. lia. } { by apply stores_nil. } { lia. } { lia. }
    intros r s2 (Hr & new & rest' & P2 & Er & V2 & Hf2 & Hcap2). destruct (Z.ltb_spec r 0); [lia|].
    pose proof (csize_view s s2 V2) as Ecs. rewrite <- Ecs in Ho.
    eapply wp_mono; [apply (IH s2 r rest' off total data fuel); try done; try lia|].
    { apply P2. } { by eapply geometry_view. }
    intros reached s3 (cc & -> & W). exists cc. split; [done|]. rewrite <- Ecs.
    eapply wp_mono; [exact W|]. intros v s4 (-> & ext & W4). split; [done|]. exists (new ++ ext).
    rewrite <- Er in W4. rewrite Ecs in W4 |- *.
    replace (Z.of_nat (S n) * csize s + off) with (csize s + (Z.of_nat n * csize s + off)) by lia.
    eapply wrote_skip; try done; [lia|].
    intros E0. apply (f_equal length) in E0. rewrite length_take in E0. simpl in E0. lia.
Qed.

(** The header arithmetic at the start of [fat16_write_internal]. *)
Lemma cluster_size_u32 s p :
  fs_ok s -> fs_private (the_disk s) = Some p ->
  u32 (sectors_per_cluster (primary_header (header p)) * 512) = csize s.
Proof.
  intros Hs E. pose proof (hd_spc _ (hdr_ok s Hs)) as Hspc. unfold csize, hdr in *. rewrite E in *.
  rewrite u32_id; lia.
Qed.

Lemma write_internal_existing s c l off data total :
  fs_ok s -> geometry s -> file_chain s c l -> 0 <= off -> 0 < total < 2 ^ 31 ->
  total <= Z.of_nat (length data) -> bytes_ok data ->
  off + total <= csize s * Z.of_nat (length l + length (free_clusters s)) ->
  wp (fat16_write_internal c off data total)
    (fun r s' => r = (total, c) /\ exists ext, wrote s c l ext off (take (Z.to_nat total) data) s') s.
Proof.
  intros Hs G Hf Ho Ht Hl Hb Hcap. pose proof Hs as [_ Hss (p & E & _)].
  destruct (chain_head _ _ _ (fc_chain _ _ _ Hf)) as (rest & ->).
  pose proof (chain_bounds _ _ _ c (fc_chain _ _ _ Hf) ltac:(by left)) as Hc.
  pose proof (csize_pos s G) as Hcs. pose proof (Z.div_mod off (csize s) ltac:(lia)) as Hdm.
  pose proof (Z.mod_pos_bound off (csize s) Hcs) as Hmod. pose proof (Z.div_pos off (csize s) Ho Hcs) as Hq.
  unfold fat16_write_internal. apply wp_bind, (wp_private _ _ p); [done|].
  apply wp_bind, wp_gets. rewrite Hss, (cluster_size_u32 s) by done.
  destruct (Z.eqb_spec c 0); [lia|]. destruct (Z.eqb_spec (csize s) 0); [lia|]. rewrite i32_id by lia.
  eapply wp_step.
  - apply (write_walk_spec (Z.to_nat (off / csize s)) s c rest (off mod csize s) total data
      (S (S (Z.to_nat total)))); try done; [|lia]. rewrite Z2Nat.id by lia. lia.
  - intros reached s1 (cc & -> & W). cbn beta iota. eapply wp_step; [exact W|].
    intros r s' (-> & ext & W'). apply wp_ret. split; [done|]. exists ext.
    rewrite Z2Nat.id in W' by lia. by replace (off / csize s * csize s + off mod csize s) with off in W' by lia.
Qed.

(** A file that gets its first cluster. *)
Lemma wrote_create s c s1 ext off d s' :
  geometry s -> addressable s c -> fat_at s c = 0 ->
  fat_now s (fupd (fat_at s) c FAT16_EOC) s1 -> wrote s1 c [c] ext off d s' -> 0 <= fat_end s -> d <> [] ->
  0 <= off < csize s -> wrote s c [] (c :: ext) off d s'.
Proof.
  intros G Ha Hz F [[O V C Fr Nz Ft Dt] Bt Mn] Hfe Hd Ho. pose proof (fn_view _ _ _ F) as V1.
  assert (Hcs : csize s1 = csize s) by (by apply csize_view).
  assert (Hfr : forall x, x ∈ c :: ext -> addressable s x /\ fat_at s x = 0).
  { intros x [->|Hx]%elem_of_cons; [done|]. destruct (Fr x Hx) as [Hxa Hxz].
    apply (addressable_view s s1) in Hxa; [|done]. split; [done|].
    rewrite (fn_fat _ _ _ F) in Hxz by (apply cluster_in_fat; [done|apply Hxa]).
    unfold fupd in Hxz. by destruct (Z.eqb_spec x c). }
  split; [split; try done| |].
  - congruence.
  - intros x Hx Hxn. rewrite Ft by (done || by apply (in_fat_view s s1)).
    rewrite (fn_fat _ _ _ F) by done. unfold fupd. destruct (Z.eqb_spec x c) as [->|]; [|done].
    destruct Hxn. by left.
  - intros q n Hq Hn Hcl. rewrite Dt; [by apply F|by rewrite (fat_end_view s s1)|done|].
    intros x Hx. rewrite (cluster_pos_view s s1), Hcs by done. by apply Hcl.
  - cbn [app] in Bt |- *. rewrite Bt. f_equal. apply chain_bytes_ext. intros x Hx. destruct (Hfr x Hx) as [[Hxc Hxa] _].
    unfold cluster_bytes. rewrite (cluster_pos_view s s1), Hcs by done.
    pose proof (data_behind_fat s G). pose proof (cluster_pos_lower s x G). unfold is_cluster in Hxc.
    apply F; lia.
  - right. assert (length d <> 0)%nat by (by destruct d). rewrite Hcs in Mn. simpl in *.
    destruct Mn as [->|Mn]; simpl in *; lia.
Qed.

Lemma write_internal_new s off data total :
  fs_ok s -> geometry s -> 0 <= off < csize s -> 0 < total < 2 ^ 31 ->
  total <= Z.of_nat (length data) -> bytes_ok data ->
  off + total <= csize s * Z.of_nat (length (free_clusters s)) ->
  wp (fat16_write_internal 0 off data total)
    (fun r s' => exists c ext, r = (total, c) /\ wrote s c [] (c :: ext) off (take (Z.to_nat total) data) s') s.
Proof.
  intros Hs G Ho Ht Hl Hb Hcap. pose proof Hs as [_ Hss (p & E & _)].
  destruct (free_clusters s) as [|fc fl] eqn:Efl; [simpl in Hcap; lia|].
  assert (Hfc : fc ∈ free_clusters s) by (rewrite Efl; by left).
  unfold fat16_write_internal. apply wp_bind, (wp_private _ _ p); [done|].
  apply wp_bind, wp_gets. rewrite Hss, (cluster_size_u32 s) by done. cbn [Z.eqb].
  eapply wp_step; [apply alloc_cluster_spec; [done|done|left; lia]|].
  intros c s1 [(-> & _ & N)|(C & Z0 & L & F)].
  { apply elem_of_free in Hfc as [[? _] ?]. by destruct (N fc). }
  pose proof (cluster_range s c G C) as Hc. destruct (Z.ltb_spec c 0); [lia|].
  destruct (Z.eqb_spec (csize s) 0); [lia|]. rewrite Z.mod_small by lia.
  assert (Ha : addressable s c) by (by eapply lowest_addressable).
  unfold alloc_fat in F. simpl in F. pose proof (fn_view _ _ _ F) as V1.
  assert (Hfat : fat_at s1 c = FAT16_EOC).
  { rewrite (fn_fat _ _ _ F) by (by apply cluster_in_fat). unfold fupd. by rewrite Z.eqb_refl. }
  rewrite <- (csize_view s s1) by done.
  eapply wp_step; [apply (write_loop_spec _ s1 c [] off 0 total data); try done; try lia|].
  { apply F. } { by eapply geometry_view. }
  { split; [constructor; [done|rewrite Hfat; unfold is_end, FAT16_EOC; lia]|..];
      intros x Hx; apply list_elem_of_singleton in Hx as ->; [by apply (addressable_view s s1)|by rewrite Hfat]. }
  { by rewrite (csize_view s s1). }
  { rewrite (csize_view s s1) by done. rewrite Z.sub_0_r.
    assert (length (free_clusters s) <= S (length (free_clusters s1)))%nat.
    { by apply (free_clusters_create s c s1). }
    rewrite <- Efl in Hcap. pose proof (csize_pos s G). cbn [length]. nia. }
  intros r s' (-> & ext & W). apply wp_ret. exists c, ext. split; [done|]. rewrite Z.sub_0_r in W.
  eapply wrote_create; try done; [by apply fat_end_nonneg|].
  intros E0. apply (f_equal length) in E0. rewrite length_take in E0. simpl in E0. lia.
Qed.
End writing.

(** ** Reading a file *)
Section reading.
Context {D : Type} {B : BlockDevice D} {BS : BlockDeviceSpec D} {H : Type} {A : Allocator H}.
Implicit Types s : fs_state D H.

(** [quiet] and the chain. *)
Lemma chain_quiet s s' c l : quiet s s' -> chain (fat_at s) c l -> chain (fat_at s') c l.
Proof. intros Q. apply chain_ext. intros; by apply fat_at_quiet. Qed.

(** The cluster numbers [fat16_get_cluster_for_offset] refuses to follow:
    the 12-bit reserved marks, which are ordinary 16-bit cluster numbers. *)
Definition refused : list Z := [0xFF8; 0xFFF; PEACHOS_FAT16_BAD_SECTOR; 0xFF0; 0xFF6; 0].
Definition followed (l : list Z) : Prop := forall x, x ∈ tail l -> x ∉ refused.

(** How many clusters of a chain it reaches. *)
Fixpoint leading (l : list Z) : nat :=
  match l with [] => O | x :: l' => if bool_decide (x ∈ refused) then O else S (leading l') end.
Definition reach (l : list Z) : nat := match l with [] => O | _ :: l' => S (leading l') end.

Lemma leading_le l : (leading l <= length l)%nat.
Proof. induction l as [|x l IH]; [done|]. cbn [leading length]. case_bool_decide; lia. Qed.
Lemma leading_prefix l : forall x, x ∈ take (leading l) l -> x ∉ refused.
Proof.
  induction l as [|y l IH]; [by intros x ?%not_elem_of_nil|]. cbn [leading]. case_bool_decide; [by intros x ?%not_elem_of_nil|].
  intros x. cbn [take]. rewrite elem_of_cons. intros [->|Hx]; [done|by apply IH].
Qed.
Lemma leading_next l x : l !! leading l = Some x -> x ∈ refused.
Proof.
  induction l as [|y l IH]; [done|]. cbn [leading]. case_bool_decide; [by intros [= ->]|]. exact IH.
Qed.
Lemma leading_all l : (forall x, x ∈ l -> x ∉ refused) -> leading l = length l.
Proof.
  induction l as [|y l IH]; [done|]. intros Hl. cbn [leading length]. rewrite bool_decide_eq_false_2 by (apply Hl; by left).
  f_equal. apply IH. intros x Hx. apply Hl. by right.
Qed.

Lemma reach_le l : (reach l <= length l)%nat.
Proof. destruct l as [|c l]; [done|]. cbn. pose proof (leading_le l). lia. Qed.
Lemma reach_followed l n : (n < reach l)%nat -> followed (take (S n) l).
Proof.
  destruct l as [|c l]; cbn [reach]; [lia|]. intros Hn x Hx. cbn in Hx. apply (leading_prefix l).
  apply elem_of_take in Hx as (i & Hi & Hlt). apply elem_of_take. exists i. split; [done|lia].
Qed.
Lemma reach_next l : (0 < reach l < length l)%nat -> exists x, l !! reach l = Some x /\ x ∈ refused.
Proof.
  destruct l as [|c l]; cbn [reach length]; [lia|]. intros Hl. destruct (lookup_lt_is_Some_2 l (leading l)) as [x Hx]; [lia|].
  exists x. split; [exact Hx|]. by apply leading_next in Hx.
Qed.
Lemma reach_all l : followed l -> reach l = length l.
Proof. destruct l as [|c l]; [done|]. intros Hf. cbn. f_equal. by apply leading_all. Qed.
Lemma followed_take l n : followed l -> followed (take n l).
Proof.
  intros Hf x Hx. apply Hf. destruct l as [|c l], n as [|n]; cbn in *; try by apply not_elem_of_nil in Hx. apply elem_of_take in Hx as (i & Hi & _). by eapply list_elem_of_lookup_2.
Qed.

Lemma refused_dec e :
  e ∉ refused ->
  (e =? 0xFF8) || (e =? 0xFFF) = false /\
  (e =? PEACHOS_FAT16_BAD_SECTOR) || (e =? 0xFF0) || (e =? 0xFF6) || (e =? 0x00) = false.
Proof.
  unfold refused. rewrite !not_elem_of_cons. intros (? & ? & ? & ? & ? & ? & _).
  rewrite !orb_false_iff, !Z.eqb_neq. done.
Qed.

Lemma cluster_walk_spec n : forall s c l x,
  fs_ok s -> chain (fat_at s) c l -> followed (take (S n) l) -> l !! n = Some x ->
  wp (cluster_walk c n) (fun r s' => r = x /\ quiet s s') s.
Proof.
  induction n as [|n IH]; intros s c l x Hs Hl Hf Hx; cbn [cluster_walk].
  - destruct (chain_head _ _ _ Hl) as (l' & ->). injection Hx as <-.
    apply wp_ret. split; [done|]. by apply quiet_refl.
  - pose proof (chain_bounds _ _ _ c Hl) as Hc.
    inversion Hl as [? ? ?|? l' ? ? Hl']; subst; [done|].
    eapply wp_step; [apply get_fat_entry_spec; [done|]; pose proof (Hc ltac:(by left)); lia|].
    intros e s1 [-> Q1]. destruct (chain_head _ _ _ Hl') as (l'' & El).
    destruct (refused_dec (fat_at s c)) as [-> ->]; [apply Hf; simpl; rewrite El; by left|].
    eapply wp_mono; [apply (IH s1 (fat_at s c) l' x)|].
    + apply Q1.
    + eapply chain_ext; [|done]. intros; by apply fat_at_quiet.
    + intros y Hy. apply Hf. rewrite El in *. by right.
    + done.
    + intros r s2 [-> Q2]. split; [done|]. by eapply quiet_trans.
Qed.

(** Behind a refused cluster number there is no way. *)
Lemma cluster_walk_refused n : forall s c l k x,
  fs_ok s -> chain (fat_at s) c l -> l !! k = Some x -> x ∈ refused -> (0 < k <= n)%nat ->
  wp (cluster_walk c n) (fun r s' => r = - EIO /\ quiet s s') s.
Proof.
  induction n as [|n IH]; intros s c l k x Hs Hl Hx Hr Hk; [lia|]. cbn [cluster_walk].
  pose proof (chain_bounds _ _ _ c Hl) as Hc.
  inversion Hl as [? ? ?|? l' ? ? Hl']; subst; [destruct k as [|[|k]]; cbn in Hx; lia || done|].
  eapply wp_step; [apply get_fat_entry_spec; [done|]; pose proof (Hc ltac:(by left)); lia|].
  intros e s1 [-> Q1]. destruct (decide (fat_at s c ∈ refused)) as [Hin|Hno].
  - unfold refused in Hin. rewrite !elem_of_cons, elem_of_nil in Hin.
    destruct ((_ =? 0xFF8) || (_ =? 0xFFF)) eqn:E1; [by apply wp_ret|].
    destruct (_ || (fat_at s c =? 0x00)) eqn:E2; [by apply wp_ret|]. exfalso. lia.
  - destruct (refused_dec _ Hno) as [-> ->]. destruct (chain_head _ _ _ Hl') as (l'' & El).
    destruct k as [|[|k]]; [lia| |].
    { exfalso. subst l'. cbn in Hx. by injection Hx as <-. }
    eapply wp_mono; [apply (IH s1 (fat_at s c) l' (S k) x)|].
    + apply Q1.
    + by eapply chain_quiet.
    + exact Hx.
    + done.
    + lia.
    + intros r s2 [-> Q2]. split; [done|]. by eapply quiet_trans.
Qed.

Lemma get_cluster_for_offset_spec s c l off x :
  fs_ok s -> geometry s -> chain (fat_at s) c l -> followed (take (S (Z.to_nat (off / csize s))) l) -> 0 <= off ->
  l !! Z.to_nat (off / csize s) = Some x ->
  wp (fat16_get_cluster_for_offset c off) (fun r s' => r = x /\ quiet s s') s.
Proof.
  intros Hs G Hl Hf Ho Hx. pose proof Hs as [_ Hss (p & E & _)]. pose proof (csize_pos s G).
  pose proof (hd_spc _ (hdr_ok s Hs)) as Hspc.
  assert (Hcs : size_of_cluster_bytes p 512 = csize s).
  { unfold size_of_cluster_bytes, csize, hdr in *. rewrite E in *. rewrite i32_id; lia. }
  unfold fat16_get_cluster_for_offset. apply wp_bind, (wp_private _ _ p); [done|].
  apply wp_bind, wp_gets. rewrite Hss, Hcs. destruct (Z.eqb_spec (csize s) 0); [lia|].
  rewrite Z.quot_div_nonneg by lia. by apply cluster_walk_spec with l.
Qed.

Lemma get_cluster_refused s c l off k x :
  fs_ok s -> geometry s -> chain (fat_at s) c l -> 0 <= off -> l !! k = Some x -> x ∈ refused -> (0 < k <= Z.to_nat (off / csize s))%nat ->
  wp (fat16_get_cluster_for_offset c off) (fun r s' => r = - EIO /\ quiet s s') s.
Proof.
  intros Hs G Hl Ho Hx Hr Hk. pose proof Hs as [_ Hss (p & E & _)]. pose proof (csize_pos s G).
  unfold fat16_get_cluster_for_offset. apply wp_bind, (wp_private _ _ p); [done|].
  apply wp_bind, wp_gets. rewrite Hss. assert (Hcs : size_of_cluster_bytes p 512 = csize s).
  { pose proof (hd_spc _ (hdr_ok s Hs)) as Hspc. unfold size_of_cluster_bytes, csize, hdr in *. rewrite E in *. rewrite i32_id; lia. }
  rewrite Hcs. destruct (Z.eqb_spec (csize s) 0); [lia|]. rewrite Z.quot_div_nonneg by lia. by eapply cluster_walk_refused.
Qed.

(** Reads the driver serves: inside one cluster or from a cluster boundary
    on, and inside one sector or from a sector boundary on. *)
Definition read_ok s (off total : Z) : Prop :=
  (off mod csize s = 0 \/ off mod csize s + total <= csize s) /\
  (off mod 512 = 0 \/ off mod 512 + total <= 512).

Lemma cluster_pos_sector s x off :
  geometry s -> (cluster_pos s x + off mod csize s) mod 512 = off mod 512.
Proof.
  intros G. pose proof (g_spc _ G). unfold cluster_pos, data_start, csize in *.
  replace (512 * ending_sector_pos (root s) + (x - 2) * (512 * sectors_per_cluster (hdr s)))
    with ((ending_sector_pos (root s) + (x - 2) * sectors_per_cluster (hdr s)) * 512) by lia.
  rewrite Z.add_comm, Z_mod_plus_full, Z.rem_mul_r by lia.
  rewrite (Z.mul_comm 512), Z_mod_plus_full. apply Zmod_mod.
Qed.

(** The position of a cluster, computed as the code does. *)
Lemma cluster_pos_code s p x :
  fs_ok s -> geometry s -> addressable s x -> fs_private (the_disk s) = Some p ->
  i32 (fat16_cluster_to_sector p x * 512) = cluster_pos s x.
Proof.
  intros Hs G Ha E. pose proof (addressable_pos s x Hs G Ha) as (? & ? & _).
  pose proof (cluster_range s x G (proj1 Ha)). pose proof (csize_pos s G).
  pose proof (hd_spc _ (hdr_ok s Hs)). pose proof (g_data _ G). pose proof (g_dir _ G).
  unfold fat16_cluster_to_sector, cluster_pos, data_start, csize, hdr, root in *. rewrite E in *.
  assert (0 <= (x - 2) * sectors_per_cluster (primary_header (header p)) < 2 ^ 24) by nia.
  rewrite (i32_id (x - 2)), (i32_id ((x - 2) * _)), (i32_id (_ + _)), i32_id by lia. lia.
Qed.

Lemma size_of_cluster_bytes_csize s p :
  fs_ok s -> fs_private (the_disk s) = Some p -> size_of_cluster_bytes p 512 = csize s.
Proof.
  intros Hs E. pose proof (hd_spc _ (hdr_ok s Hs)).
  unfold size_of_cluster_bytes, csize, hdr in *. rewrite E in *. rewrite i32_id; lia.
Qed.

(** The cluster that holds offset [off] of a file, and the bytes there. *)
Lemma chain_slice_at s l off :
  geometry s -> 0 <= off < csize s * Z.of_nat (length l) ->
  exists x, l !! Z.to_nat (off / csize s) = Some x /\ x ∈ l /\
    forall n, 0 <= n -> off mod csize s + n <= csize s ->
      take (Z.to_nat n) (drop (Z.to_nat off) (chain_bytes s l)) =
      bytes (dev s) (cluster_pos s x + off mod csize s) n.
Proof.
  intros G Ho. pose proof (csize_pos s G) as Hcs. pose proof (Z.div_mod off (csize s) ltac:(lia)) as Hdm.
  pose proof (Z.mod_pos_bound off (csize s) Hcs) as Hm.
  assert (Hq : 0 <= off / csize s < Z.of_nat (length l)).
  { split; [apply Z.div_pos; lia|]. apply Z.div_lt_upper_bound; lia. }
  destruct (lookup_lt_is_Some_2 l (Z.to_nat (off / csize s))) as [x Hx]; [lia|].
  exists x. split; [done|]. split; [by eapply list_elem_of_lookup_2|]. intros n Hn Hin.
  rewrite <- (chain_bytes_slice s l (Z.to_nat (off / csize s)) x) by (done || lia). do 2 f_equal.
  rewrite <- Z2Nat.inj_mul, <- Z2Nat.inj_add by lia. f_equal. lia.
Qed.

Lemma seek_sread_spec s i x off n :
  fs_ok s -> geometry s -> addressable s x -> 0 <= n ->
  off mod csize s + n <= csize s -> off mod 512 = 0 \/ off mod 512 + n <= 512 ->
  let p := cluster_pos s x + off mod csize s in
  wp (seek i p) (fun r s1 => r = 0 /\
    wp (sread i n) (fun rb s2 => rb = (0, bytes (dev s) p n) /\ quiet s s2) s1) s.
Proof.
  intros Hs G Ha Hn Hin Hsec p. pose proof (addressable_pos s x Hs G Ha) as (Hp & Hmax & _).
  pose proof (csize_pos s G). pose proof (Z.mod_pos_bound off (csize s) ltac:(lia)) as Hm.
  eapply wp_mono; [by apply seek_spec|]. intros r s1 (-> & Q1 & A1). split; [done|].
  eapply wp_mono; [apply (sread_spec s1 i p n)|]; unfold p.
  { apply Q1. } { done. } { lia. } { lia. } { lia. }
  { unfold read_in_bounds. by rewrite cluster_pos_sector. }
  intros r s2 (-> & Q2 & _). split; [|by eapply quiet_trans]. by rewrite (bytes_same (dev s)) by apply Q1.
Qed.

(** A shorter read from the next cluster boundary. *)
Lemma read_ok_next s off total :
  geometry s -> off mod csize s = 0 -> read_ok s (off + csize s) (total - csize s).
Proof.
  intros G Hal. pose proof (csize_pos s G). pose proof (g_spc _ G).
  assert (E : (off + csize s) mod csize s = 0).
  { rewrite <- Zplus_mod_idemp_r, Z_mod_same_full, Z.add_0_r. done. }
  split; left; [done|]. apply Z.mod_divide in E; [|lia]. apply Z.mod_divide; [lia|].
  destruct E as [k ->]. exists (k * sectors_per_cluster (hdr s)). unfold csize. lia.
Qed.

Lemma read_from_stream_spec fuel : forall s i c l off total,
  fs_ok s -> geometry s -> chain (fat_at s) c l -> (forall n, csize s * Z.of_nat n <= off \/ csize s * Z.of_nat n < off + total -> followed (take (S n) l)) ->
  (forall x, x ∈ l -> addressable s x) -> 0 <= off < csize s * Z.of_nat (length l) -> 0 <= total ->
  off + total <= csize s * Z.of_nat (length l) -> read_ok s off total -> (Z.to_nat total < fuel)%nat ->
  wp (read_from_stream fuel i c off total) (fun r s' =>
    r = (0, take (Z.to_nat total) (drop (Z.to_nat off) (chain_bytes s l))) /\ quiet s s') s.
Proof.
  induction fuel as [|fuel IH]; intros s i c l off total Hs G Hl Hf Ha Ho Ht Hend [Hr1 Hr2] Hfuel; [lia|].
  cbn [read_from_stream]. pose proof Hs as [_ Hss (p & E & _)]. pose proof (csize_pos s G) as Hcs.
  destruct (chain_slice_at s l off G Ho) as (x & Hx & Hxl & Hslice). pose proof (Ha x Hxl) as Hxa.
  pose proof (addressable_pos s x Hs G Hxa) as (Hp & Hmax & Hx2).
  pose proof (Z.mod_pos_bound off (csize s) Hcs) as Hm.
  apply wp_bind, (wp_private _ _ p); [done|]. apply wp_bind, wp_gets.
  rewrite Hss, (size_of_cluster_bytes_csize s) by done.
  eapply wp_step; [eapply get_cluster_for_offset_spec; try done; [|lia]|].
  { apply Hf. left. rewrite Z2Nat.id by (apply Z.div_pos; lia). pose proof (Z.div_mod off (csize s) ltac:(lia)). lia. }
  intros _ s1 [-> Q1].
  pose proof (q_view _ _ Q1) as V1. destruct (Z.ltb_spec x 0); [lia|].
  rewrite (cluster_pos_code s), Z.rem_mod_nonneg, i32_id by (done || lia).
  set (n := if total >? csize s then csize s else total).
  assert (Hn : 0 <= n <= total /\ off mod csize s + n <= csize s /\ (n < total -> n = csize s /\ off mod csize s = 0)).
  { unfold n. destruct (Z.gtb_spec total (csize s)); lia. }
  clearbody n. destruct Hn as (Hn1 & Hn2 & Hn3).
  pose proof (seek_sread_spec s1 i x off n) as Hrd. cbv zeta in Hrd.
  rewrite (cluster_pos_view s s1), (csize_view s s1), (addressable_view s s1), (bytes_same (dev s) (dev s1)) in Hrd
    by (done || apply Q1).
  eapply wp_step; [apply Hrd; [apply Q1|by eapply geometry_view|done|lia|lia|lia]|].
  intros _ s2 [-> W2]. cbn -[read_from_stream]. eapply wp_step; [exact W2|].
  intros _ s3 [-> Q3]. cbn -[read_from_stream].
  pose proof (quiet_trans _ _ _ Q1 Q3) as Q13. rewrite <- Hslice by lia.
  destruct (Z.gtb_spec (total - n) 0) as [Hmore|Hlast].
  2:{ apply wp_ret. by replace total with n by lia. }
  destruct (Hn3 ltac:(lia)) as [-> Hal]. pose proof (q_view _ _ Q13) as V3.
  pose proof (csize_view s s3 V3) as Hcs3.
  eapply wp_step; [apply (IH s3 i c l (off + csize s) (total - csize s)); rewrite ?Hcs3; try lia|].
  { apply Q13. } { by eapply geometry_view. }
  { eapply chain_ext; [|done]. intros; by apply fat_at_quiet. } { intros k Hk. apply Hf. lia. }
  { intros y Hy. apply (addressable_view s s3); auto. }
  { unfold read_ok. rewrite Hcs3. by apply read_ok_next. }
  intros _ s4 [-> Q4]. apply wp_ret. split; [|by eapply quiet_trans].
  rewrite (chain_bytes_quiet s s3) by done. f_equal.
  rewrite (take_split_at (drop _ _) (Z.to_nat (csize s)) (Z.to_nat total)) by lia. rewrite drop_drop.
  replace (Z.to_nat (total - csize s)) with (Z.to_nat total - Z.to_nat (csize s))%nat by lia.
  by replace (Z.to_nat (off + csize s)) with (Z.to_nat off + Z.to_nat (csize s))%nat by lia.
Qed.

(** [fat16_read_internal] returns the bytes of the file. *)
Lemma read_internal_reach s c l off total :
  fs_ok s -> geometry s -> chain (fat_at s) c l -> (forall n, csize s * Z.of_nat n <= off \/ csize s * Z.of_nat n < off + total -> followed (take (S n) l)) ->
  (forall x, x ∈ l -> addressable s x) -> 0 <= off < csize s * Z.of_nat (length l) -> 0 <= total ->
  off + total <= csize s * Z.of_nat (length l) -> read_ok s off total ->
  wp (fat16_read_internal c off total) (fun r s' =>
    r = (0, take (Z.to_nat total) (drop (Z.to_nat off) (chain_bytes s l))) /\ quiet s s') s.
Proof. intros. apply read_from_stream_spec; try done; lia. Qed.
Lemma read_internal_spec s c l off total :
  fs_ok s -> geometry s -> chain (fat_at s) c l -> followed l ->
  (forall x, x ∈ l -> addressable s x) -> 0 <= off < csize s * Z.of_nat (length l) -> 0 <= total ->
  off + total <= csize s * Z.of_nat (length l) -> read_ok s off total ->
  wp (fat16_read_internal c off total) (fun r s' =>
    r = (0, take (Z.to_nat total) (drop (Z.to_nat off) (chain_bytes s l))) /\ quiet s s') s.
Proof. intros. apply read_internal_reach; try done. intros. by apply followed_take. Qed.

(** A read behind a refused cluster number stores nothing. *)
Lemma read_internal_refused s c l off total k x :
  fs_ok s -> geometry s -> chain (fat_at s) c l -> 0 <= off -> l !! k = Some x -> x ∈ refused -> (0 < k <= Z.to_nat (off / csize s))%nat ->
  wp (fat16_read_internal c off total) (fun r s' => r = (- EIO, []) /\ quiet s s') s.
Proof.
  intros Hs G Hl Ho Hx Hr Hk. pose proof Hs as [_ _ (p & E & _)]. unfold fat16_read_internal, fat16_read_internal_from_stream. cbn [read_from_stream].
  apply wp_bind, (wp_private _ _ p); [done|]. apply wp_bind, wp_gets. eapply wp_step; [by eapply get_cluster_refused|].
  intros r s1 [-> Q1]. by apply wp_ret.
Qed.
End reading.

(** ** Theorems *)
Section theorems.
Context {D : Type} {B : BlockDevice D} {BS : BlockDeviceSpec D} {H : Type} {A : Allocator H}.
Implicit Types s : fs_state D H.

(** The offset's slice of a splice. *)
Lemma slice_splice (l w : list Z) off :
  (off + length w <= length l)%nat -> take (length w) (drop off (splice l off w)) = w.
Proof. apply take_drop_splice. Qed.

(** The bytes written fit into the extended chain. *)
Lemma wrote_fits s c l ext off d s' :
  geometry s -> wrote s c l ext off d s' -> 0 <= off -> d <> [] ->
  (Z.to_nat off + length d <= length (chain_bytes s (l ++ ext)))%nat.
Proof.
  intros G W Ho Hd. pose proof (w_bytes _ _ _ _ _ _ _ W) as E. apply (f_equal length) in E.
  assert (Hcs : csize s' = csize s) by apply csize_view, W.
  rewrite length_chain_bytes, Hcs, <- length_chain_bytes in E. unfold splice in E.
  rewrite !length_app, length_take, length_drop in E.
  assert (length d <> 0)%nat by (by destruct d). lia.
Qed.

(** [fat16_write_internal] on an existing file: given room on the
    volume, it writes all [total] bytes and returns [total]; the file's
    contents become the old contents with the data stored at the offset, its
    chain is the old chain extended by exactly the clusters needed, taken
    from the free ones; all other FAT entries and all other bytes behind the
    FAT are unchanged. *)
Theorem write_internal_correct s c l off data total :
  fs_ok s -> geometry s -> file_chain s c l -> 0 <= off -> 0 < total < 2 ^ 31 ->
  total <= Z.of_nat (length data) -> bytes_ok data ->
  off + total <= csize s * Z.of_nat (length l + length (free_clusters s)) ->
  wp (fat16_write_internal c off data total)
    (fun r s' => r = (total, c) /\ exists ext, wrote s c l ext off (take (Z.to_nat total) data) s') s.
Proof. apply write_internal_existing. Qed.

(** [fat16_write_internal] on a file without clusters allocates the
    first one and returns its number through [first_cluster]; the new chain
    consists of free clusters only, as many as the data needs, and holds the
    data at the offset. *)
Theorem write_internal_fresh_correct s off data total :
  fs_ok s -> geometry s -> 0 <= off < csize s -> 0 < total < 2 ^ 31 ->
  total <= Z.of_nat (length data) -> bytes_ok data ->
  off + total <= csize s * Z.of_nat (length (free_clusters s)) ->
  wp (fat16_write_internal 0 off data total)
    (fun r s' => exists c ext, r = (total, c) /\ wrote s c [] (c :: ext) off (take (Z.to_nat total) data) s') s.
Proof. apply write_internal_new. Qed.

(** Files do not disturb each other: a write to one file leaves the
    chain and the contents of every file with a disjoint chain as they were. *)
Theorem write_internal_isolated s c l off data total c' l' :
  fs_ok s -> geometry s -> file_chain s c l -> 0 <= off -> 0 < total < 2 ^ 31 ->
  total <= Z.of_nat (length data) -> bytes_ok data ->
  off + total <= csize s * Z.of_nat (length l + length (free_clusters s)) ->
  file_chain s c' l' -> l ## l' ->
  wp (fat16_write_internal c off data total)
    (fun _ s' => file_chain s' c' l' /\ chain_bytes s' l' = chain_bytes s l') s.
Proof.
  intros Hs G Hf Ho Ht Hl Hb Hcap [Hch Ha Hu] Hdis.
  eapply wp_mono; [by apply (write_internal_existing s c l off data total)|].
  intros r s' (_ & ext & [[O V C Fr Nz Ft Dt] _ _]).
  assert (Hno : forall x, x ∈ l' -> x ∉ l ++ ext).
  { intros x Hx [Hx'|Hx']%elem_of_app; [by apply (Hdis x)|].
    destruct (Fr x Hx') as [_ Hz]. by apply (Hu x). }
  assert (Hsame : forall x, x ∈ l' -> fat_at s' x = fat_at s x).
  { intros x Hx. apply Ft; [|by apply Hno]. apply cluster_in_fat; [done|]. by apply Ha. }
  split; [split|].
  - eapply chain_ext; [|done]. done.
  - intros x Hx. apply (addressable_view s s'); auto.
  - intros x Hx. rewrite Hsame by done. by apply Hu.
  - apply chain_bytes_ext. intros x Hx. unfold cluster_bytes.
    rewrite (cluster_pos_view s s'), (csize_view s s') by done.
    pose proof (addressable_pos s x Hs G (Ha x Hx)). apply Dt; [lia|lia|].
    intros y Hy. apply cluster_disjoint; [done|]. intros ->. by apply (Hno y).
Qed.

(** [fat16_read_internal] along a chain returns exactly the bytes of the
    file at the offset and changes no byte of the disk, for reads that stay
    inside one sector or start on one, and stay inside one cluster or start
    on one. *)
Theorem read_internal_correct s c l off total :
  fs_ok s -> geometry s -> chain (fat_at s) c l -> followed l ->
  (forall x, x ∈ l -> addressable s x) -> 0 <= off < csize s * Z.of_nat (length l) -> 0 <= total ->
  off + total <= csize s * Z.of_nat (length l) -> read_ok s off total ->
  wp (fat16_read_internal c off total) (fun r s' =>
    r = (0, take (Z.to_nat total) (drop (Z.to_nat off) (chain_bytes s l))) /\ quiet s s') s.
Proof. apply read_internal_spec. Qed.

(** A new file written with [fat16_write_internal] and read back from
    its start with [fat16_read_internal] gives the data back, for data of any
    length that fits on the volume. *)
Theorem write_read_roundtrip s data :
  fs_ok s -> geometry s -> 0 < Z.of_nat (length data) < 2 ^ 31 -> bytes_ok data ->
  Z.of_nat (length data) <= csize s * Z.of_nat (length (free_clusters s)) ->
  (forall x, x ∈ free_clusters s -> x ∉ refused) ->
  wp ('(r, c) ← fat16_write_internal 0 0 data (Z.of_nat (length data));
      fat16_read_internal c 0 (Z.of_nat (length data)))
    (fun x _ => x = (0, data)) s.
Proof.
  intros Hs G Hl Hb Hcap Href. pose proof (csize_pos s G) as Hcs.
  assert (Hd : data <> []) by (intros ->; simpl in Hl; lia).
  eapply wp_step; [apply write_internal_new; try done; lia|].
  intros ? s1 (c & ext & -> & W). rewrite Nat2Z.id, firstn_all in W. cbn beta iota.
  pose proof (wrote_fits _ _ _ _ _ _ _ G W ltac:(lia) Hd) as Hfit. cbn [app] in *.
  pose proof (w_bytes _ _ _ _ _ _ _ W) as Wb. cbn [app] in Wb.
  destruct (w_ext _ _ _ _ _ _ _ W) as [O V C Fr _ _ _]. cbn [app] in C, Fr.
  rewrite length_chain_bytes in Hfit.
  assert (Hcs1 : csize s1 = csize s) by (by apply csize_view).
  assert (Hroom : Z.of_nat (length data) <= csize s1 * Z.of_nat (length (c :: ext))) by (rewrite Hcs1; nia).
  eapply wp_mono; [apply (read_internal_spec s1 c (c :: ext)); try done|].
  - by eapply geometry_view.
  - intros x Hx. apply Href, elem_of_free, Fr. by right.
  - intros x Hx. apply (addressable_view s s1); [done|]. by apply Fr.
  - lia.
  - lia.
  - split; left; apply Z.mod_0_l; lia.
  - intros r s2 [-> _]. f_equal. rewrite Nat2Z.id, Wb. apply slice_splice.
    rewrite length_chain_bytes. done.
Qed.

(** C34: reading behind the end of a chain is not reported: the end-of-chain
    mark 0xFFFF that [fat16_alloc_cluster] writes is not among the marks
    [fat16_get_cluster_for_offset] tests for, so the cluster "number" 0xFFFF
    itself is returned for the offset behind the last cluster. *)
Theorem cluster_for_offset_ignores_eoc s c :
  fs_ok s -> geometry s -> is_cluster s c -> fat_at s c = FAT16_EOC ->
  wp (fat16_get_cluster_for_offset c (csize s)) (fun r s' => r = FAT16_EOC /\ quiet s s') s.
Proof.
  intros Hs G Hc He. pose proof Hs as [_ Hss (p & E & _)]. pose proof (csize_pos s G).
  pose proof (cluster_range s c G Hc).
  unfold fat16_get_cluster_for_offset. apply wp_bind, (wp_private _ _ p); [done|].
  apply wp_bind, wp_gets. rewrite Hss, (size_of_cluster_bytes_csize s) by done.
  destruct (Z.eqb_spec (csize s) 0); [lia|]. rewrite Z.quot_same by lia.
  change (Z.to_nat 1) with 1%nat. cbn [cluster_walk].
  eapply wp_step; [apply get_fat_entry_spec; [done|lia]|]. intros e s1 [-> Q]. rewrite He. cbn.
  by apply wp_ret.
Qed.
End theorems.

Import ExampleVolume.

Lemma volume_file : file_chain volume 2 [2; 3].
Proof.
  split; [exact volume_chain|..];
    (intros x Hx; assert (x = 2 \/ x = 3) as [-> | ->] by (rewrite !elem_of_cons, elem_of_nil in Hx; tauto));
    vm_compute; intuition discriminate.
Qed.

Lemma volume_free : length (free_clusters volume) = 6%nat.
Proof. vm_compute. reflexivity. Qed.

Lemma write_internal_correct_witness :
  wp (fat16_write_internal 2 1020 [1; 2; 3; 4; 5; 6; 7; 8] 8) (fun r s' => r = (8, 2) /\
    exists ext, chain (fat_at s') 2 ([2; 3] ++ ext)) volume.
Proof.
  eapply wp_mono; [apply (write_internal_correct volume 2 [2; 3] 1020 [1; 2; 3; 4; 5; 6; 7; 8] 8)|].
  - exact volume_ok.
  - exact volume_geometry.
  - exact volume_file.
  - lia.
  - lia.
  - simpl; lia.
  - repeat constructor; unfold byte_ok; lia.
  - rewrite volume_free. vm_compute. discriminate.
  - intros r s' (Hr & ext & W). split; [exact Hr|]. exists ext. apply W.
Defined.

Lemma write_internal_fresh_correct_witness :
  wp (fat16_write_internal 0 0 (replicate 1500 9) 1500)
    (fun r s' => exists c ext, r = (1500, c) /\ chain (fat_at s') c (c :: ext)) volume.
Proof.
  eapply wp_mono; [apply (write_internal_fresh_correct volume 0 (replicate 1500 9) 1500)|].
  - exact volume_ok.
  - exact volume_geometry.
  - vm_compute. intuition discriminate.
  - lia.
  - rewrite length_replicate. lia.
  - apply bytes_ok_replicate. unfold byte_ok. lia.
  - rewrite volume_free. vm_compute. discriminate.
  - intros r s' (c & ext & Hr & W). exists c, ext. split; [exact Hr|]. apply W.
Defined.

(** A second file in cluster 5. *)
Definition two_files : fs_state Ram.ram KHeap.kheap :=
  set_dev volume (let f := ([0xFFF8; 0xFFFF; 3; 0xFFFF; 0; 0xFFFF] ≫= le16) ++ replicate 500 0 in
                  {[1 := f; 2 := f]}).

Lemma write_internal_isolated_witness :
  wp (fat16_write_internal 2 0 (replicate 1500 9) 1500) (fun _ s' => chain (fat_at s') 5 [5]) two_files.
Proof.
  eapply wp_mono; [apply (write_internal_isolated two_files 2 [2; 3] 0 (replicate 1500 9) 1500 5 [5])|].
  - split; [apply (bool_decide_unpack _); vm_compute; exact I|done|]. exists priv. split; [done|].
    split; [split; simpl; lia|]. intros []; by eexists.
  - split; vm_compute; intuition discriminate.
  - split.
    + apply chain_next; [lia|vm_compute; intuition discriminate|].
      change (fat_at two_files 2) with 3. apply chain_last; [lia|right; vm_compute; discriminate].
    + intros x Hx; assert (x = 2 \/ x = 3) as [-> | ->] by (rewrite !elem_of_cons, elem_of_nil in Hx; tauto);
        vm_compute; intuition discriminate.
    + intros x Hx; assert (x = 2 \/ x = 3) as [-> | ->] by (rewrite !elem_of_cons, elem_of_nil in Hx; tauto);
        vm_compute; discriminate.
  - lia.
  - lia.
  - rewrite length_replicate. lia.
  - apply bytes_ok_replicate. unfold byte_ok. lia.
  - vm_compute. discriminate.
  - split.
    + apply chain_last; [lia|right; vm_compute; discriminate].
    + intros x Hx. apply list_elem_of_singleton in Hx as ->. vm_compute; intuition discriminate.
    + intros x Hx. apply list_elem_of_singleton in Hx as ->. vm_compute; discriminate.
  - intros x H1 H2. apply list_elem_of_singleton in H2 as ->.
    rewrite !elem_of_cons, elem_of_nil in H1. destruct H1 as [?|[?|[]]]; discriminate.
  - intros r s' [Hf _]. apply Hf.
Defined.

Lemma read_internal_correct_witness :
  wp (fat16_read_internal 2 512 100) (fun r _ => r = (0, replicate 100 0)) volume.
Proof.
  eapply wp_mono; [apply (read_internal_correct volume 2 [2; 3] 512 100)|].
  - exact volume_ok.
  - exact volume_geometry.
  - exact volume_chain.
  - intros x Hx. apply list_elem_of_singleton in Hx as ->. unfold refused, PEACHOS_FAT16_BAD_SECTOR.
    rewrite !elem_of_cons, elem_of_nil. intuition discriminate.
  - apply volume_file.
  - vm_compute. intuition discriminate.
  - lia.
  - vm_compute. discriminate.
  - split; left; vm_compute; reflexivity.
  - intros r s' [Hr _]. rewrite Hr. vm_compute. reflexivity.
Defined.

Lemma write_read_roundtrip_witness :
  wp ('(r, c) ← fat16_write_internal 0 0 (replicate 1500 9) (Z.of_nat (length (replicate 1500 9)));
      fat16_read_internal c 0 (Z.of_nat (length (replicate 1500 9))))
    (fun x _ => x = (0, replicate 1500 9)) volume.
Proof.
  apply (write_read_roundtrip volume (replicate 1500 9)).
  - exact volume_ok.
  - exact volume_geometry.
  - rewrite length_replicate. lia.
  - apply bytes_ok_replicate. unfold byte_ok. lia.
  - rewrite length_replicate, volume_free. vm_compute. discriminate.
  - intros x Hx. apply elem_of_free in Hx as [[Hc _] _]. unfold is_cluster in Hc.
    change (nclusters volume) with 8 in Hc. unfold refused, PEACHOS_FAT16_BAD_SECTOR.
    rewrite !elem_of_cons, elem_of_nil. lia.
Defined.

Lemma cluster_for_offset_ignores_eoc_witness :
  wp (fat16_get_cluster_for_offset 3 512) (fun r _ => r = 0xFFFF) volume.
Proof.
  eapply wp_mono; [apply (cluster_for_offset_ignores_eoc volume 3)|].
  - exact volume_ok.
  - exact volume_geometry.
  - vm_compute. intuition discriminate.
  - vm_compute. reflexivity.
  - intros r s' [Hr _]. exact Hr.
Defined.
