(* ===== verification/FatDir.v ===== *)
(** * Directories: names, directory items and the root directory
    (src/fs/fat/fat16.c)

    [Section code] translates mounting ([fat16_resolve]), the directory
    readers and the helpers of the write path that work on root directory
    slots.  [coherent s] says that the root directory on disk is the encoding
    of the one in memory; the theorems show that mounting establishes it and
    that flushing a slot keeps it, and that 8.3 names round-trip. *)
From Stdlib Require Import ZArith Lia.
From stdpp Require Import base list gmap numbers option list_numbers.
From S2P Require Import Prelude CLib Heap Disk FatTypes FatTable FatData.
Local Open Scope Z_scope.
Local Open Scope kernel_scope.

(** ** Names *)

(** [fat16_to_proper_string]: copy the bytes of [in] before the first NUL or
    space to the buffer [out] from index [p] on; returns the buffer and the
    advanced output pointer. *)
Fixpoint fat16_to_proper_string (buf : list Z) (p : Z) (inp : list Z) : out (list Z * Z) :=
  match inp with
  | [] => Ub
  | c :: inp' =>
      if negb (c =? 0x00) && negb (c =? 0x20) then
        buf ← buf.[p <- c];
        fat16_to_proper_string buf (p + 1) inp'
      else if c =? 0x20 then buf ← buf.[p <- 0x00]; Ok (buf, p)
      else Ok (buf, p)
  end.

(** [fat16_get_full_relative_filename(item, out, max_len)]: the contents of
    [out], a buffer of [max_len] bytes. *)
Definition fat16_get_full_relative_filename (it : fat_directory_item) (max_len : Z) : out (list Z) :=
  let buf := replicate (Z.to_nat max_len) 0x00 in
  let fname_buf := filename it ++ [0x00] in
  let ext_buf := ext it ++ [0x00] in
  '(buf, p) ← fat16_to_proper_string buf 0 fname_buf;
  e0 ← ext_buf.[0];
  if negb (e0 =? 0x00) && negb (e0 =? 0x20) then
    buf ← buf.[p <- 46];
    '(buf, _) ← fat16_to_proper_string buf (p + 1) ext_buf;
    Ok buf
  else Ok buf.

(** [(c >= 'a' && c <= 'z') ? c - 32 : c] on a (signed) char, stored as a byte. *)
Definition upcase (c : Z) : Z := u8 (if (97 <=? i8 c) && (i8 c <=? 122) then i8 c - 32 else i8 c).

(** The first loop of [fat16_name_to_83]: the field and the rest of the name. *)
Fixpoint name_loop (name : list Z) (n : nat) : out (list Z * list Z) :=
  match n with
  | O => Ok ([], name)
  | S n' =>
      match name with
      | [] => Ub
      | c :: name' =>
          if (c =? 0) || (c =? 46) then Ok ([], name)
          else '(f, rest) ← name_loop name' n'; Ok (upcase c :: f, rest)
      end
  end.

(** The second loop, over the extension. *)
Fixpoint ext_loop (name : list Z) (n : nat) : out (list Z) :=
  match n with
  | O => Ok []
  | S n' =>
      match name with
      | [] => Ub
      | c :: name' => if c =? 0 then Ok [] else e ← ext_loop name' n'; Ok (upcase c :: e)
      end
  end.

Definition pad (n : nat) (l : list Z) : list Z := l ++ replicate (n - length l) 0x20.

(** [fat16_name_to_83]: the contents of the two fields. *)
Definition fat16_name_to_83 (name : list Z) : out (list Z * list Z) :=
  '(f, rest) ← name_loop name 8;
  rest ← match rest with
         | [] => Ub
         | c :: rest' => Ok (if c =? 46 then rest' else rest)
         end;
  e ← ext_loop rest 3;
  Ok (pad 8 f, pad 3 e).

Definition first_byte (it : fat_directory_item) : Z := default 0 (filename it !! 0%nat).

Section code.
Context {D : Type} {B : BlockDevice D} {H : Type} {A : Allocator H}.
Abbreviation FM := (M (fs_state D H)).

(** ** Reading directories *)

(** [while (1)] of [fat16_get_total_items_for_directory]; [i] items were
    counted.  A FAT directory has at most 65536 entries. *)
Fixpoint count_items (fuel : nat) (i : Z) : FM Z :=
  match fuel with
  | O => hang
  | S fuel =>
      '(res, bytes) ← sread DIRECTORY sizeof_item;
      if negb (res =? PEACHOS_ALL_OK) then mret (- EIO)
      else
        let it := decode_item bytes in
        if first_byte it =? 0x00 then mret i
        else if first_byte it =? 0xE5 then count_items fuel i
        else count_items fuel (i + 1)
  end.
Definition dir_fuel : nat := Z.to_nat 65537.

Definition fat16_get_total_items_for_directory (directory_start_sector : Z) : FM Z :=
  ss ← disk_sector_size;
  let directory_start_pos := i32 (u32 (directory_start_sector * ss)) in
  res ← seek DIRECTORY directory_start_pos;
  if negb (res =? PEACHOS_ALL_OK) then mret (- EIO) else count_items dir_fuel 0.

(** [fat16_get_root_directory(disk, fat_private, &fat_private->root_directory)]. *)
Definition fat16_get_root_directory : FM Z :=
  p ← private;
  ss ← disk_sector_size;
  let primary_header := primary_header (header p) in
  let root_dir_sector_pos :=
    fat_copies primary_header * sectors_per_fat primary_header + reserved_sectors primary_header in
  let root_dir_entries := root_dir_entries primary_header in
  let root_dir_size := root_dir_entries * sizeof_item in
  _ ← (if ss =? 0 then ub else mret tt);
  total_items ← fat16_get_total_items_for_directory (u32 root_dir_sector_pos);
  dir ← zalloc root_dir_size;
  if dir =? 0 then mret (- ENOMEM)
  else
    pos ← fat16_sector_to_absolute root_dir_sector_pos;
    res ← seek DIRECTORY pos;
    if negb (res =? PEACHOS_ALL_OK) then mret (- EIO)
    else
      '(res, bytes) ← sread DIRECTORY root_dir_size;
      if negb (res =? PEACHOS_ALL_OK) then mret (- EIO)
      else
        p ← private;
        _ ← put_private (set_root p
              (mk_dir (decode_items (Z.to_nat root_dir_entries) bytes) total_items root_dir_sector_pos
                 (root_dir_sector_pos + root_dir_size ÷ ss)));
        mret 0.

Definition sizeof_fat_private : Z := 100.

(** [diskstreamer_new] on the kernel's heap. *)
Definition new_stream (disk_id : Z) : FM (option Streamer.disk_stream) :=
  h ← gets heap;
  '(v, h) ← lift_out (Streamer.diskstreamer_new h disk_id);
  _ ← modify (fun s => set_heap s h); mret v.

Definition zero_header : fat_h := decode_fat_h (replicate 62 0).

(** [fat16_init_private]: the private data after [memset] and the five streams. *)
Definition fat16_init_private (disk_id : Z) : FM fat_private :=
  cluster_read ← new_stream disk_id;
  fat_read ← new_stream disk_id;
  directory ← new_stream disk_id;
  cluster_write ← new_stream disk_id;
  fat_write ← new_stream disk_id;
  mret (mk_private zero_header (mk_dir [] 0 0 0) cluster_read fat_read directory cluster_write fat_write).

(** [diskstreamer_close]. *)
Definition close_stream (v : Streamer.disk_stream) : FM unit :=
  h ← gets heap; h ← lift_out (Streamer.diskstreamer_close h v); modify (fun s => set_heap s h).

Definition set_filesystem (b : bool) : FM unit := modify (fun s =>
  let k := the_disk s in set_disk s (mk_disk (disk_type k) (sector_size k) (id k) b (fs_private k))).

Definition set_header (p : fat_private) (h : fat_h) : fat_private :=
  mk_private h (root_directory p) (cluster_read_stream p) (fat_read_stream p) (directory_stream p)
    (cluster_write_stream p) (fat_write_stream p).

Definition fat16_resolve : FM Z :=
  fat_private ← zalloc sizeof_fat_private;
  if fat_private =? 0 then ub
  else
    disk_id ← gets (fun s => id (the_disk s));
    p ← fat16_init_private disk_id;
    _ ← put_private p;
    _ ← set_filesystem true;
    stream ← new_stream disk_id;
    res ← match stream with
          | None => mret (- ENOMEM)
          | Some v =>
              d ← gets dev;
              '(res, bytes, v, d) ← lift_out (Streamer.diskstreamer_read d v sizeof_fat_h);
              _ ← modify (fun s => set_dev s d);
              res ← (if negb (res =? PEACHOS_ALL_OK) then mret (- EIO)
                     else
                       p ← private;
                       _ ← put_private (set_header p (decode_fat_h bytes));
                       if negb (signature (extended_header (decode_fat_h bytes)) =? 0x29)
                       then mret (- EFSNOTUS)
                       else
                         r ← fat16_get_root_directory;
                         if negb (r =? PEACHOS_ALL_OK) then mret (- EIO) else mret 0);
              _ ← close_stream v; mret res
          end;
    if res <? 0 then
      _ ← release fat_private;
      _ ← modify (fun s => set_private s None); mret res
    else mret res.

(** ** Directory items as objects *)
Definition sizeof_fat_directory : Z := 16.
Definition sizeof_fat_item : Z := 8.

Definition fat16_clone_directory_item (it : fat_directory_item) (size : Z) :
    FM (option (Z * fat_directory_item)) :=
  if size <? sizeof_item then mret None
  else
    item_copy ← zalloc size;
    if item_copy =? 0 then mret None else mret (Some (item_copy, it)).

(** A [struct fat_directory] on the heap: its address, the address of its
    items (0 for NULL) and its contents. *)
Definition fat16_free_directory (directory : option (Z * Z * fat_directory)) : FM unit :=
  match directory with
  | None => mret tt
  | Some (self, items, _) =>
      _ ← (if items =? 0 then mret tt else release items);
      release self
  end.

Definition fat16_fat_item_free (it : fat_item) : FM unit :=
  _ ← (if fi_type it =? FAT_ITEM_TYPE_DIRECTORY then
         match fi_union it with
         | UDirectory d => fat16_free_directory d
         | UItem _ => ub
         end
       else if fi_type it =? FAT_ITEM_TYPE_FILE then
         match fi_union it with
         | UItem (Some (p, _)) => release p
         | UDirectory (Some (p, _, _)) => release p
         | UItem None | UDirectory None => release 0
         end
       else mret tt);
  release (fi_self it).

(** [fat16_load_fat_directory]: the pointer is returned on errors too, after
    the directory was freed. *)
Definition fat16_load_fat_directory (it : fat_directory_item) : FM (option (Z * Z * fat_directory)) :=
  if Z.land (attribute it) FAT_FILE_SUBDIRECTORY =? 0 then mret None
  else
    directory ← zalloc sizeof_fat_directory;
    if directory =? 0 then mret None
    else
      p ← private;
      let cluster := i32 (fat16_get_first_cluster it) in
      let cluster_sector := fat16_cluster_to_sector p cluster in
      total_items ← fat16_get_total_items_for_directory (u32 cluster_sector);
      let directory_size := i32 (total_items * sizeof_item) in
      items ← zalloc (u32 directory_size);
      if items =? 0 then
        let d := Some (directory, 0, mk_dir [] total_items 0 0) in
        _ ← fat16_free_directory d; mret d
      else
        '(res, bytes) ← fat16_read_internal cluster 0x00 directory_size;
        let d := Some (directory, items, mk_dir (decode_items (Z.to_nat total_items) bytes) total_items 0 0) in
        if negb (res =? PEACHOS_ALL_OK) then _ ← fat16_free_directory d; mret d else mret d.

(** [fat16_new_fat_item_for_directory_item]: the union of a subdirectory's
    item is overwritten by the cloned item. *)
Definition fat16_new_fat_item_for_directory_item (it : fat_directory_item) : FM (option fat_item) :=
  f_item ← zalloc sizeof_fat_item;
  if f_item =? 0 then mret None
  else
    _ ← (if negb (Z.land (attribute it) FAT_FILE_SUBDIRECTORY =? 0)
         then _ ← fat16_load_fat_directory it; mret tt else mret tt);
    i ← fat16_clone_directory_item it sizeof_item;
    mret (Some (mk_fat_item f_item FAT_ITEM_TYPE_FILE (UItem i))).

(** [for (i = 0; i < directory->total; i++)]; [n] rounds are left. *)
Fixpoint find_item_loop (items : list fat_directory_item) (name : list Z) (i : Z) (n : nat)
    (f_item : option fat_item) : FM (option fat_item) :=
  match n with
  | O => mret f_item
  | S n' =>
      it ← lift_out (items.[i]);
      tmp_filename ← lift_out (fat16_get_full_relative_filename it PEACHOS_MAX_PATH);
      c ← lift_out (CString.istrncmp tmp_filename name PEACHOS_MAX_PATH);
      if c =? 0 then
        f ← fat16_new_fat_item_for_directory_item it; find_item_loop items name (i + 1) n' f
      else find_item_loop items name (i + 1) n' f_item
  end.

Definition fat16_find_item_in_directory (directory : fat_directory) (name : list Z) : FM (option fat_item) :=
  find_item_loop (item directory) name 0 (Z.to_nat (total directory)) None.

(** The loop over the rest of the path. *)
Fixpoint entry_loop (current_item : option fat_item) (path : list (list Z)) : FM (option fat_item) :=
  match path with
  | [] => mret current_item
  | part :: path' =>
      match current_item with
      | None => ub
      | Some cur =>
          if negb (fi_type cur =? FAT_ITEM_TYPE_DIRECTORY) then mret None
          else
            match fi_union cur with
            | UDirectory (Some (_, _, d)) =>
                tmp_item ← fat16_find_item_in_directory d part;
                _ ← fat16_fat_item_free cur;
                entry_loop tmp_item path'
            | _ => ub
            end
      end
  end.

(** The path is the list of its parts; it has at least one. *)
Definition fat16_get_directory_entry (path : list (list Z)) : FM (option fat_item) :=
  match path with
  | [] => ub
  | part :: next =>
      p ← private;
      current_item ← fat16_find_item_in_directory (root_directory p) part;
      match current_item with
      | None => mret None
      | Some _ => entry_loop current_item next
      end
  end.

(** ** Root directory slots *)

(** The root directory's item array has [root_dir_entries] cells. *)
Fixpoint slot_by_name_loop (items : list fat_directory_item) (name : list Z) (i : Z) (n : nat) : out Z :=
  match n with
  | O => Ok (-1)
  | S n' =>
      entry ← items.[i];
      if first_byte entry =? 0x00 then Ok (-1)
      else if first_byte entry =? 0xE5 then slot_by_name_loop items name (i + 1) n'
      else if attribute entry =? 0x0F then slot_by_name_loop items name (i + 1) n'
      else
        tmp ← fat16_get_full_relative_filename entry PEACHOS_MAX_PATH;
        c ← CString.istrncmp tmp name PEACHOS_MAX_PATH;
        if c =? 0 then Ok i else slot_by_name_loop items name (i + 1) n'
  end.

Definition fat16_find_root_dir_slot_by_name (name : list Z) : FM Z :=
  p ← private;
  lift_out (slot_by_name_loop (item (root_directory p)) name 0
              (Z.to_nat (root_dir_entries (primary_header (header p))))).

Fixpoint free_slot_loop (items : list fat_directory_item) (i : Z) (n : nat) : out Z :=
  match n with
  | O => Ok (- ENOMEM)
  | S n' =>
      entry ← items.[i];
      if (first_byte entry =? 0x00) || (first_byte entry =? 0xE5) then Ok i
      else free_slot_loop items (i + 1) n'
  end.

Definition fat16_find_free_root_dir_slot : FM Z :=
  p ← private;
  lift_out (free_slot_loop (item (root_directory p)) 0
              (Z.to_nat (root_dir_entries (primary_header (header p))))).

(** [private->root_directory.item[slot]] read and written. *)
Definition root_item (slot : Z) : FM fat_directory_item :=
  p ← private; lift_out ((item (root_directory p)).[slot]).
Definition put_root_item (slot : Z) (it : fat_directory_item) : FM unit :=
  p ← private;
  l ← lift_out ((item (root_directory p)).[slot <- it]);
  put_private (set_root_items p l).

Definition fat16_write_root_dir_entry (slot_index : Z) : FM Z :=
  p ← private;
  ss ← disk_sector_size;
  let byte_offset := i32 (i32 (sector_pos (root_directory p) * ss) + i32 (slot_index * sizeof_item)) in
  res ← seek FAT_WRITE byte_offset;
  if res <? 0 then mret res
  else
    it ← root_item slot_index;
    swrite FAT_WRITE (encode_item it) sizeof_item.
End code.

(** ** The name of a directory item *)
Section names.

(** The bytes before the first NUL or space. *)
Fixpoint trim (l : list Z) : list Z :=
  match l with
  | [] => []
  | c :: l => if (c =? 0x00) || (c =? 0x20) then [] else c :: trim l
  end.

Definition item_name (it : fat_directory_item) : list Z :=
  trim (filename it) ++ match trim (ext it) with [] => [] | e => 46 :: e end.

Lemma length_trim l : (length (trim l) <= length l)%nat.
Proof. induction l as [|c l IH]; simpl; [lia|]. destruct (_ || _); simpl; lia. Qed.

(** Copying into a zeroed part of a buffer. *)
Lemma to_proper_string_spec l : forall pre n,
  (length l <= n)%nat ->
  fat16_to_proper_string (pre ++ replicate n 0) (Z.of_nat (length pre)) (l ++ [0]) =
    Ok (pre ++ trim l ++ replicate (n - length (trim l)) 0, Z.of_nat (length pre + length (trim l))).
Proof.
  induction l as [|c l IH]; intros pre n Hn; simpl.
  - by rewrite Nat.sub_0_r, Nat.add_0_r.
  - simpl in Hn. destruct n as [|n]; [lia|].
    destruct (Z.eqb_spec c 0x00) as [->|H0]; simpl; [by rewrite Nat.add_0_r|].
    destruct (Z.eqb_spec c 0x20) as [->|H1]; simpl.
    + rewrite aset_app. simpl. by rewrite Nat.add_0_r.
    + rewrite aset_app. simpl.
      replace (pre ++ c :: replicate n 0) with ((pre ++ [c]) ++ replicate n 0) by (by rewrite <- app_assoc).
      replace (Z.of_nat (length pre) + 1) with (Z.of_nat (length (pre ++ [c]))) by (rewrite length_app; simpl; lia).
      rewrite IH by lia. rewrite <- app_assoc. simpl. rewrite length_app. simpl. f_equal. f_equal. lia.
Qed.

Local Arguments fat16_to_proper_string : simpl never.

(** [fat16_get_full_relative_filename] puts the item's name, NUL-padded, into
    any buffer of at least twelve bytes. *)
Lemma full_relative_filename_spec it n :
  length (filename it) = 8%nat -> length (ext it) = 3%nat -> (12 <= n)%nat ->
  fat16_get_full_relative_filename it (Z.of_nat n) =
    Ok (item_name it ++ replicate (n - length (item_name it)) 0).
Proof.
  intros Hf He Hn. unfold fat16_get_full_relative_filename, item_name. rewrite Nat2Z.id.
  pose proof (length_trim (filename it)) as Ht. pose proof (length_trim (ext it)) as Hte.
  pose proof (to_proper_string_spec (filename it) [] n ltac:(lia)) as Hs0.
  cbn [app length Nat.add] in Hs0. change (Z.of_nat 0) with 0 in Hs0. rewrite Hs0. cbn [mbind out_bind].
  destruct (ext it) as [|e0 er] eqn:Ee; [done|]. cbn [app aget Z.ltb Z.compare lookup list_lookup Z.to_nat].
  unfold aget. simpl.
  destruct (Z.eqb_spec e0 0) as [->|H0]; simpl; [by rewrite app_nil_r|].
  destruct (Z.eqb_spec e0 0x20) as [->|H1]; simpl; [by rewrite app_nil_r|].
  simpl in Hte. destruct (Z.eqb_spec e0 0), (Z.eqb_spec e0 32); try done. simpl in Hte.
  set (t := trim (filename it)) in *.
  assert (En : (n - length t = S (n - length t - 1))%nat) by lia.
  rewrite En. simpl. rewrite aset_app. simpl.
  replace (t ++ 46 :: replicate (n - length t - 1) 0) with ((t ++ [46]) ++ replicate (n - length t - 1) 0)
    by (by rewrite <- app_assoc).
  replace (Z.of_nat (length t) + 1) with (Z.of_nat (length (t ++ [46]))) by (rewrite length_app; simpl; lia).
  pose proof (to_proper_string_spec (e0 :: er) (t ++ [46]) (n - length t - 1)) as Hs.
  cbn [app] in Hs. rewrite Hs by (simpl in *; lia). simpl.
  destruct (Z.eqb_spec e0 0), (Z.eqb_spec e0 32); try done. simpl.
  rewrite <- !app_assoc. simpl. rewrite !length_app. simpl. do 6 f_equal. lia.
Qed.
End names.

(** ** 8.3 names *)
Section names83.

(** The characters of the names considered: printable, no dot and no space. *)
Definition name_char (c : Z) : Prop := 33 <= c < 127 /\ c <> 46.

Record valid83 (base e : list Z) : Prop := {
  v_base : (0 < length base <= 8)%nat /\ Forall name_char base;
  v_ext : (length e <= 3)%nat /\ Forall name_char e }.

(** The name as a string, and in a buffer with [k] bytes after its NUL. *)
Definition dotted (base e : list Z) : list Z := base ++ match e with [] => [] | _ => 46 :: e end.
Definition c_name (base e : list Z) (k : nat) : list Z := dotted base e ++ 0 :: replicate k 0.

Lemma upcase_char c : name_char c -> name_char (upcase c) /\ CString.lower (upcase c) = CString.lower c.
Proof.
  unfold name_char, upcase. intros [Hc Hd]. rewrite (i8_id c) by lia.
  destruct (Z.leb_spec 97 c), (Z.leb_spec c 122); simpl; rewrite u8_id by lia; (split; [lia|]);
    unfold CString.lower; try done;
    destruct (Z.leb_spec 65 (c - 32)), (Z.leb_spec (c - 32) 90), (Z.leb_spec 65 c), (Z.leb_spec c 90);
    simpl; lia.
Qed.

Lemma name_loop_spec base : forall n rest,
  Forall name_char base -> (length base <= n)%nat -> (exists c r, rest = c :: r /\ (c = 0 \/ c = 46)) ->
  name_loop (base ++ rest) n = Ok (upcase <$> base, rest).
Proof.
  induction base as [|c base IH]; intros n rest Hb Hn Hr.
  - destruct Hr as (c & r & -> & Hc). destruct n; simpl; [done|].
    destruct Hc as [->| ->]; done.
  - apply Forall_cons in Hb as [[Hc Hd] Hb]. simpl in Hn. destruct n as [|n]; [lia|]. simpl.
    destruct (Z.eqb_spec c 0), (Z.eqb_spec c 46); try lia. simpl. rewrite IH by (done || lia). done.
Qed.

Lemma ext_loop_spec e : forall n rest,
  Forall name_char e -> (length e <= n)%nat -> ext_loop (e ++ 0 :: rest) n = Ok (upcase <$> e).
Proof.
  induction e as [|c e IH]; intros n rest He Hn.
  - by destruct n.
  - apply Forall_cons in He as [[Hc Hd] He]. simpl in Hn. destruct n as [|n]; [lia|]. simpl.
    destruct (Z.eqb_spec c 0); [lia|]. rewrite IH by (done || lia). done.
Qed.

Lemma name_to_83_spec base e k :
  valid83 base e ->
  fat16_name_to_83 (c_name base e k) = Ok (pad 8 (upcase <$> base), pad 3 (upcase <$> e)).
Proof.
  intros [[Hb1 Hb2] [He1 He2]]. unfold fat16_name_to_83, c_name, dotted. rewrite <- app_assoc.
  destruct e as [|c e].
  - rewrite name_loop_spec; [|done|lia|simpl; eauto]. done.
  - rewrite name_loop_spec; [|done|lia|simpl; eauto].
    cbn [app mbind out_bind Z.eqb Pos.eqb].
    pose proof (ext_loop_spec (c :: e) 3 (replicate k 0) He2 He1) as Hx. cbn [app] in Hx. by rewrite Hx.
Qed.

Lemma trim_pad l n : Forall name_char l -> trim (pad n l) = l.
Proof.
  unfold pad. generalize (n - length l)%nat as k. intros k Hl.
  induction Hl as [|c l [Hc _] _ IH]; simpl.
  - by destruct k.
  - destruct (Z.eqb_spec c 0), (Z.eqb_spec c 32); try lia. simpl. by rewrite IH.
Qed.

Lemma length_pad n l : (length l <= n)%nat -> length (pad n l) = n.
Proof. intros. unfold pad. rewrite length_app, length_replicate. lia. Qed.

Lemma upcase_valid l : Forall name_char l -> Forall name_char (upcase <$> l).
Proof. intros Hl. apply Forall_fmap. eapply Forall_impl; [exact Hl|]. intros c Hc. by apply upcase_char. Qed.

Lemma lower_upcase l : Forall name_char l -> CString.lower <$> (upcase <$> l) = CString.lower <$> l.
Proof.
  induction 1 as [|c l Hc _ IH]; [done|]. rewrite !fmap_cons, IH. f_equal. by apply upcase_char.
Qed.

(** The item that [fat16_open] creates for a name carries its upper-case form. *)
Lemma item_name_83 base e it :
  valid83 base e -> filename it = pad 8 (upcase <$> base) -> ext it = pad 3 (upcase <$> e) ->
  item_name it = dotted (upcase <$> base) (upcase <$> e).
Proof.
  intros [[Hb1 Hb2] [He1 He2]] Hf Hx. unfold item_name, dotted.
  rewrite Hf, Hx, !trim_pad by (by apply upcase_valid). by destruct (upcase <$> e).
Qed.

Lemma lower_dotted base e base' e' :
  CString.lower <$> base = CString.lower <$> base' -> CString.lower <$> e = CString.lower <$> e' ->
  CString.lower <$> dotted base e = CString.lower <$> dotted base' e'.
Proof.
  intros Hb He. unfold dotted. rewrite !fmap_app, Hb. f_equal.
  destruct e, e'; try done. rewrite !fmap_cons in *. simpl in *. by injection He as -> ->.
Qed.

Lemma dotted_ok base e :
  valid83 base e -> Forall (fun c => c <> 0) (dotted base e) /\ bytes_ok (dotted base e) /\ (length (dotted base e) <= 12)%nat.
Proof.
  intros [[Hb1 Hb2] [He1 He2]]. unfold dotted.
  assert (Hall : Forall (fun c => 33 <= c < 127) (dotted base e)).
  { unfold dotted. apply Forall_app. split; [eapply Forall_impl; [exact Hb2|]; by intros c []|].
    destruct e; [constructor|]. constructor; [lia|]. eapply Forall_impl; [exact He2|]. by intros c' []. }
  split; [|split].
  - eapply Forall_impl; [exact Hall|]. simpl. lia.
  - eapply Forall_impl; [exact Hall|]. unfold byte_ok. simpl. lia.
  - rewrite length_app. destruct e; simpl in *; lia.
Qed.

End names83.

(** ** The root directory on disk and in memory *)
Section rootdir.
Context {D : Type} {B : BlockDevice D} {BS : BlockDeviceSpec D} {H : Type} {A : Allocator H}.
Implicit Types s : fs_state D H.

(** The position of entry [i] of the root directory. *)
Definition dir_pos s (i : Z) : Z := 512 * sector_pos (root s) + 32 * i.

(** The directory on disk is the encoding of the one in memory, it lies
    between the FAT and the data area, and no entry that [total] counts is an
    end mark. *)
Record dir_ok s : Prop := {
  d_len : Z.of_nat (length (item (root s))) = root_dir_entries (hdr s);
  d_room : dir_pos s (root_dir_entries (hdr s)) <= data_start s;
  d_items : forall i it, item (root s) !! i = Some it ->
    item_ok it /\ bytes (dev s) (dir_pos s (Z.of_nat i)) 32 = encode_item it;
  d_total : 0 <= total (root s) <= root_dir_entries (hdr s);
  d_used : forall i it, item (root s) !! i = Some it -> Z.of_nat i < total (root s) -> first_byte it <> 0 }.

Definition set_total (d : fat_directory) (n : Z) : fat_directory :=
  mk_dir (item d) n (sector_pos d) (ending_sector_pos d).
Definition set_items (d : fat_directory) (l : list fat_directory_item) : fat_directory :=
  mk_dir l (total d) (sector_pos d) (ending_sector_pos d).

(** [slot_set s i it s']: entry [i] became [it], in memory and on disk, and
    nothing else changed. *)
Record slot_set s (i : nat) (it : fat_directory_item) s' : Prop := {
  ss_ok : fs_ok s';
  ss_hdr : hdr s' = hdr s;
  ss_root : root s' = set_items (root s) (<[i := it]> (item (root s)));
  ss_heap : heap s' = heap s;
  ss_disk : stored (dev s) (dir_pos s (Z.of_nat i)) (encode_item it) (dev s') }.

Lemma slot_set_layout s i it s' : slot_set s i it s' -> layout s' = layout s.
Proof. intros [_ Eh Er _ _]. unfold layout. by rewrite Eh, Er. Qed.

(** The bounds of the directory region. *)
Lemma dir_bounds s i :
  fs_ok s -> geometry s -> dir_ok s -> (i < length (item (root s)))%nat ->
  0 <= fat_end s <= dir_pos s (Z.of_nat i) /\ dir_pos s (Z.of_nat i) + 32 <= data_start s /\ data_start s < 2 ^ 31.
Proof.
  intros Hs G Hd Hi. pose proof (d_len _ Hd). pose proof (d_room _ Hd). pose proof (g_dir _ G).
  pose proof (g_data _ G). pose proof (fat_end_nonneg s Hs). unfold dir_pos, data_start in *. lia.
Qed.

Lemma wp_root_item s slot it (Q : fat_directory_item -> fs_state D H -> Prop) :
  fs_ok s -> item (root s) !! slot = Some it -> Q it s -> wp (root_item (Z.of_nat slot)) Q s.
Proof.
  intros [_ _ (p & E & _)] Hit HQ. unfold root_item. apply wp_bind, (wp_private _ _ p); [done|].
  unfold root in Hit. rewrite E in Hit.
  eapply wp_lift; [|exact HQ]. apply aget_ok; [lia|]. by rewrite Nat2Z.id.
Qed.

(** Replacing the root directory in memory. *)
Lemma set_root_spec s p d :
  fs_ok s -> fs_private (the_disk s) = Some p ->
  let s' := set_private s (Some (set_root p d)) in
  fs_ok s' /\ hdr s' = hdr s /\ root s' = d /\ heap s' = heap s /\ dev s' = dev s.
Proof.
  intros [H1 H2 (p' & E & [P1 P2])] E'. rewrite E' in E. injection E as <-. simpl.
  split; [|unfold hdr, root; simpl; rewrite E'; done].
  split; [done|done|]. exists (set_root p d). split; [done|]. split; [done|]. intros i.
  destruct (P2 i) as (v & Hv & Hk). exists v. split; [|done]. by destruct i.
Qed.

Lemma put_root_item_spec s slot it :
  fs_ok s -> (slot < length (item (root s)))%nat ->
  wp (put_root_item (Z.of_nat slot) it) (fun _ s' => fs_ok s' /\ hdr s' = hdr s /\
    root s' = set_items (root s) (<[slot := it]> (item (root s))) /\ heap s' = heap s /\ dev s' = dev s) s.
Proof.
  intros Hs Hl. pose proof Hs as [_ _ (p & E & _)].
  assert (Er : root s = root_directory p) by (unfold root; by rewrite E).
  unfold put_root_item. apply wp_bind, (wp_private _ _ p); [done|]. rewrite Er in *.
  apply wp_bind. eapply wp_lift; [apply aset_ok; lia|]. rewrite Nat2Z.id.
  apply wp_modify. by apply set_root_spec.
Qed.

Lemma write_root_dir_entry_spec s slot it :
  fs_ok s -> geometry s -> dir_pos s (Z.of_nat slot) + 32 < 2 ^ 31 -> item (root s) !! slot = Some it -> item_ok it ->
  wp (fat16_write_root_dir_entry (Z.of_nat slot))
    (fun r s' => r = 0 /\ stores s (dir_pos s (Z.of_nat slot)) (encode_item it) s') s.
Proof.
  intros Hs G Hmax Hit Hok. pose proof Hs as [_ Hss (p & E & _)].
  assert (Er : root s = root_directory p) by (unfold root; by rewrite E).
  pose proof (g_dir _ G) as Hg. pose proof (g_data _ G) as Hg'. pose proof (fat_end_nonneg s Hs) as H0.
  unfold fat16_write_root_dir_entry. apply wp_bind, (wp_private _ _ p); [done|]. apply wp_bind, wp_gets.
  rewrite Hss, <- Er. unfold sizeof_item.
  unfold dir_pos in Hmax. rewrite (i32_id (sector_pos _ * 512)), (i32_id (Z.of_nat slot * 32)), i32_id by lia.
  replace (sector_pos (root s) * 512 + Z.of_nat slot * 32) with (dir_pos s (Z.of_nat slot)) by (unfold dir_pos; lia).
  eapply wp_step; [by apply seek_spec|]. intros _ s1 (-> & Q1 & A1). cbn -[encode_item].
  apply wp_bind, (wp_root_item s1 slot it); [apply Q1| |].
  { rewrite (view_root s s1) by apply Q1. done. }
  eapply wp_mono; [apply (swrite_spec s1 FAT_WRITE (dir_pos s (Z.of_nat slot)) (encode_item it) 32)|].
  { apply Q1. } { done. } { unfold dir_pos. lia. } { rewrite length_encode_item by done. lia. }
  { unfold dir_pos. lia. } { by apply bytes_ok_encode_item. }
  intros r s2 (-> & S2 & _). split; [done|].
  rewrite take_ge in S2 by (rewrite length_encode_item by done; simpl; lia). by eapply stores_quiet_l.
Qed.

(** Changing an entry in memory and flushing it. *)
Lemma flush_spec s slot it :
  fs_ok s -> geometry s -> dir_ok s -> (slot < length (item (root s)))%nat -> item_ok it ->
  wp (_ ← put_root_item (Z.of_nat slot) it; fat16_write_root_dir_entry (Z.of_nat slot))
    (fun r s' => r = 0 /\ slot_set s slot it s') s.
Proof.
  intros Hs G Hd Hl Hit. pose proof (dir_bounds s slot Hs G Hd Hl) as (B1 & B2 & B3).
  eapply wp_step; [by apply put_root_item_spec|]. intros _ s1 (O1 & H1 & R1 & P1 & D1).
  assert (L1 : layout s1 = layout s) by (unfold layout; by rewrite H1, R1).
  assert (Hp : dir_pos s1 (Z.of_nat slot) = dir_pos s (Z.of_nat slot)) by (unfold dir_pos; by rewrite R1).
  eapply wp_mono; [apply (write_root_dir_entry_spec s1 slot it); try done|].
  - by eapply geometry_layout.
  - rewrite Hp. lia.
  - rewrite R1. simpl. by apply list_lookup_insert_eq.
  - intros r s2 [-> [O2 V2 D2]]. split; [done|]. rewrite Hp, D1 in D2. split; try done.
    + rewrite (view_hdr s1 s2) by done. done.
    + rewrite (view_root s1 s2) by done. done.
    + rewrite (view_heap s1 s2) by done. done.
Qed.

Lemma slot_set_coherent s i it s' :
  fs_ok s -> geometry s -> dir_ok s -> (i < length (item (root s)))%nat -> item_ok it ->
  (Z.of_nat i < total (root s) -> first_byte it <> 0) -> slot_set s i it s' -> dir_ok s'.
Proof.
  intros Hs G Hd Hi Hit Hf Sl. pose proof (slot_set_layout _ _ _ _ Sl) as L.
  destruct Sl as [O Eh Er _ St]. pose proof (length_encode_item it Hit) as Hlen.
  pose proof (dir_bounds s i Hs G Hd Hi) as (B1 & B2 & B3).
  assert (Hp : forall j, dir_pos s' j = dir_pos s j) by (intros; unfold dir_pos; by rewrite Er).
  split; rewrite ?Er, ?Eh, ?Hp, ?(data_start_layout s s' L); try apply Hd; simpl.
  - rewrite length_insert. apply Hd.
  - intros j x Hj. rewrite Hp. destruct (decide (i = j)) as [<-|Hne].
    + rewrite list_lookup_insert_eq in Hj by done. injection Hj as <-. split; [done|].
      pose proof (stored_bytes (dev s) (dir_pos s (Z.of_nat i)) (encode_item it) (dev s')) as Hb.
      rewrite Hlen in Hb. apply Hb; [lia|lia|done].
    + rewrite list_lookup_insert_ne in Hj by done. destruct (d_items _ Hd j x Hj) as [Hx Hb].
      split; [done|]. apply lookup_lt_Some in Hj as Hjl.
      pose proof (dir_bounds s j Hs G Hd Hjl) as (B4 & B5 & B6).
      rewrite <- Hb. eapply stored_other; [exact St|lia|lia|]. unfold dir_pos in *. lia.
  - intros j x Hj Hjt. destruct (decide (i = j)) as [<-|Hne].
    + rewrite list_lookup_insert_eq in Hj by done. injection Hj as <-. by apply Hf.
    + rewrite list_lookup_insert_ne in Hj by done. by eapply (d_used _ Hd).
Qed.

(** A slot update touches neither the FAT nor any cluster. *)
Lemma slot_set_fat s i it s' c :
  fs_ok s -> geometry s -> dir_ok s -> (i < length (item (root s)))%nat -> slot_set s i it s' ->
  in_fat s c -> fat_at s' c = fat_at s c.
Proof.
  intros Hs G Hd Hi Sl Hc. pose proof (dir_bounds s i Hs G Hd Hi) as (B1 & B2 & B3).
  pose proof (hd_reserved _ (hdr_ok s Hs)). pose proof (hd_spf _ (hdr_ok s Hs)).
  unfold fat_at, fat_pos. rewrite (ss_hdr _ _ _ _ Sl). f_equal.
  unfold in_fat, fat_end in *. eapply stored_other; [apply Sl|lia..].
Qed.

Lemma slot_set_cluster s i it s' c :
  fs_ok s -> geometry s -> dir_ok s -> (i < length (item (root s)))%nat -> item_ok it -> slot_set s i it s' ->
  addressable s c -> cluster_bytes s' c = cluster_bytes s c.
Proof.
  intros Hs G Hd Hi Hit Sl Hc. pose proof (slot_set_layout _ _ _ _ Sl) as L.
  pose proof (dir_bounds s i Hs G Hd Hi) as (B1 & B2 & B3).
  pose proof (addressable_pos s c Hs G Hc) as (? & ? & ?). pose proof (length_encode_item it Hit).
  pose proof (cluster_pos_lower s c G). unfold cluster_bytes.
  rewrite (cluster_pos_layout s s'), (csize_layout s s') by done.
  eapply stored_other; [apply Sl|lia..].
Qed.
End rootdir.

(** ** Searching the root directory *)
Section search.

Definition in_use (it : fat_directory_item) : Prop := first_byte it <> 0x00 /\ first_byte it <> 0xE5.
#[global] Instance in_use_dec it : Decision (in_use it).
Proof. unfold in_use. apply _. Defined.

(** Equality of names, ignoring case. *)
Definition name_matches (str : list Z) (it : fat_directory_item) : Prop :=
  CString.lower <$> item_name it = CString.lower <$> str.

(** A name as the code receives it: a C string shorter than the name buffer. *)
Record search_name (name str : list Z) : Prop := {
  sn_bytes : bytes_ok name;
  sn_string : CString.cstring name = Some str;
  sn_length : (length str < 108)%nat }.

Lemma trim_nonzero l : Forall (fun c => c <> 0) (trim l).
Proof.
  induction l as [|c l IH]; simpl; [constructor|].
  destruct (Z.eqb_spec c 0); simpl; [constructor|]. destruct (c =? 32); [constructor|]. by constructor.
Qed.
Lemma trim_bytes l : bytes_ok l -> bytes_ok (trim l).
Proof.
  induction 1 as [|c l Hc _ IH]; simpl; [constructor|]. destruct (_ || _); [constructor|]. by constructor.
Qed.

Lemma item_name_ok it : item_ok it ->
  Forall (fun c => c <> 0) (item_name it) /\ bytes_ok (item_name it) /\ (length (item_name it) <= 12)%nat.
Proof.
  intros Hit. destruct (ok_filename _ Hit) as [F1 F2], (ok_ext _ Hit) as [E1 E2]. unfold item_name.
  pose proof (trim_nonzero (filename it)). pose proof (trim_nonzero (ext it)) as Hn.
  pose proof (trim_bytes _ F2). pose proof (trim_bytes _ E2) as Hb.
  pose proof (length_trim (filename it)). pose proof (length_trim (ext it)) as Hl.
  split; [|split].
  - apply Forall_app. split; [done|]. destruct (trim (ext it)); [constructor|]. by constructor.
  - apply bytes_ok_app. split; [done|]. destruct (trim (ext it)); [constructor|].
    constructor; [unfold byte_ok; lia|done].
  - rewrite length_app. destruct (trim (ext it)); simpl in *; lia.
Qed.

(** The comparison both searches make at an item. *)
Lemma compare_item it name str :
  item_ok it -> search_name name str ->
  exists tmp z, fat16_get_full_relative_filename it PEACHOS_MAX_PATH = Ok tmp /\
    CString.istrncmp tmp name PEACHOS_MAX_PATH = Ok z /\ (z = 0 <-> name_matches str it).
Proof.
  intros Hit [N1 N2 N3]. destruct (item_name_ok it Hit) as (I1 & I2 & I3).
  destruct (ok_filename _ Hit) as [F1 _], (ok_ext _ Hit) as [E1 _].
  change PEACHOS_MAX_PATH with (Z.of_nat 108).
  rewrite full_relative_filename_spec by (done || lia).
  destruct (CString.istrncmp_zero (item_name it ++ replicate (108 - length (item_name it)) 0) name
    (item_name it) str (Z.of_nat 108)) as (z & Ez & Hz); try done; try lia; eauto.
  - apply bytes_ok_app. split; [done|]. apply bytes_ok_replicate. unfold byte_ok. lia.
  - replace (108 - length (item_name it))%nat with (S (107 - length (item_name it))) by lia.
    by apply CString.cstring_app.
Qed.

(** The entries [fat16_find_root_dir_slot_by_name] looks at: in front of the
    end mark, not deleted, not part of a long name. *)
Record listed (items : list fat_directory_item) (k : nat) (it : fat_directory_item) : Prop := {
  li_item : items !! k = Some it;
  li_use : in_use it;
  li_attribute : attribute it <> 0x0F;
  li_before : forall k' it', (k' < k)%nat -> items !! k' = Some it' -> first_byte it' <> 0 }.

Definition found (items : list fat_directory_item) (str : list Z) (r : Z) : Prop :=
  (r = -1 /\ forall k it, listed items k it -> ~ name_matches str it) \/
  (exists k it, r = Z.of_nat k /\ listed items k it /\ name_matches str it).

Lemma slot_by_name_spec items name str : Forall item_ok items -> search_name name str ->
  forall n i, (i + n = length items)%nat ->
  (forall k it, (k < i)%nat -> items !! k = Some it -> first_byte it <> 0) ->
  (forall k it, (k < i)%nat -> listed items k it -> ~ name_matches str it) ->
  exists r, slot_by_name_loop items name (Z.of_nat i) n = Ok r /\ found items str r.
Proof.
  intros Hok Hn. induction n as [|n IH]; intros i Hi Hz Hno; cbn [slot_by_name_loop].
  - exists (-1). split; [done|]. left. split; [done|]. intros k it Hk. apply (Hno k); [|done].
    pose proof (lookup_lt_Some _ _ _ (li_item _ _ _ Hk)). lia.
  - destruct (lookup_lt_is_Some_2 items i) as [it Hit]; [lia|].
    assert (Hito : item_ok it) by (rewrite Forall_lookup in Hok; eauto).
    rewrite (aget_ok items (Z.of_nat i) it) by (lia || by rewrite Nat2Z.id). cbn [mbind out_bind].
    assert (Hnext : first_byte it <> 0 -> (listed items i it -> ~ name_matches str it) ->
      exists r, slot_by_name_loop items name (Z.of_nat i + 1) n = Ok r /\ found items str r).
    { intros Hf Hm. replace (Z.of_nat i + 1) with (Z.of_nat (S i)) by lia. apply IH; [lia|..].
      - intros k x Hk Hx. destruct (decide (k = i)) as [->|]; [congruence|]. apply (Hz k); [lia|done].
      - intros k x Hk Hx. destruct (decide (k = i)) as [->|].
        + pose proof (li_item _ _ _ Hx) as Hx'. rewrite Hit in Hx'. injection Hx' as <-. auto.
        + apply (Hno k); [lia|done]. }
    destruct (Z.eqb_spec (first_byte it) 0) as [E0|E0].
    { exists (-1). split; [done|]. left. split; [done|]. intros k x Hk.
      destruct (Nat.lt_trichotomy k i) as [?|[->|?]]; [by apply (Hno k)| |].
      - pose proof (li_item _ _ _ Hk) as Hx'. rewrite Hit in Hx'. injection Hx' as <-. by destruct (li_use _ _ _ Hk).
      - by destruct (li_before _ _ _ Hk i it). }
    destruct (Z.eqb_spec (first_byte it) 0xE5) as [E1|E1].
    { apply Hnext; [done|]. intros Hl. by destruct (li_use _ _ _ Hl). }
    destruct (Z.eqb_spec (attribute it) 0x0F) as [E2|E2].
    { apply Hnext; [done|]. intros Hl. by destruct (li_attribute _ _ _ Hl). }
    destruct (compare_item it name str Hito Hn) as (tmp & z & -> & Hc & Hm). cbn [mbind out_bind].
    rewrite Hc. cbn [mbind out_bind]. destruct (Z.eqb_spec z 0) as [Ez|Ez].
    + exists (Z.of_nat i). split; [done|]. right. exists i, it. split; [done|]. split; [|by apply Hm].
      split; eauto; done.
    + apply Hnext; [done|]. intros _. by rewrite <- Hm.
Qed.

Lemma free_slot_spec items : forall n i, (i + n = length items)%nat ->
  (forall k it, (k < i)%nat -> items !! k = Some it -> in_use it) ->
  exists r, free_slot_loop items (Z.of_nat i) n = Ok r /\
    ((r = - ENOMEM /\ forall k it, items !! k = Some it -> in_use it) \/
     (exists k it, r = Z.of_nat k /\ items !! k = Some it /\ ~ in_use it /\
        forall k' it', (k' < k)%nat -> items !! k' = Some it' -> in_use it')).
Proof.
  induction n as [|n IH]; intros i Hi Hu; cbn [free_slot_loop].
  - exists (- ENOMEM). split; [done|]. left. split; [done|]. intros k it Hk. apply (Hu k); [|done].
    apply lookup_lt_Some in Hk. lia.
  - destruct (lookup_lt_is_Some_2 items i) as [it Hit]; [lia|].
    rewrite (aget_ok items (Z.of_nat i) it) by (lia || by rewrite Nat2Z.id). cbn [mbind out_bind].
    destruct (decide (in_use it)) as [Huse|Hfree].
    + assert ((first_byte it =? 0x00) || (first_byte it =? 0xE5) = false) as ->.
      { destruct Huse. by rewrite orb_false_iff, !Z.eqb_neq. }
      replace (Z.of_nat i + 1) with (Z.of_nat (S i)) by lia. apply IH; [lia|].
      intros k x Hk Hx. destruct (decide (k = i)) as [->|]; [congruence|]. apply (Hu k); [lia|done].
    + assert ((first_byte it =? 0x00) || (first_byte it =? 0xE5) = true) as ->.
      { unfold in_use in Hfree. rewrite orb_true_iff, !Z.eqb_eq. lia. }
      exists (Z.of_nat i). split; [done|]. right. exists i, it. eauto.
Qed.

Lemma c_name_search base e k : valid83 base e -> search_name (c_name base e k) (dotted base e).
Proof.
  intros Hv. destruct (dotted_ok _ _ Hv) as (N & Hb & L). split; [|by apply CString.cstring_app|lia].
  apply bytes_ok_app. split; [done|]. apply (bytes_ok_replicate (S k)). unfold byte_ok. lia.
Qed.

(** The item made for an 8.3 name answers to that name, ignoring case. *)
Lemma name_matches_83 base e it base' e' :
  valid83 base e -> filename it = pad 8 (upcase <$> base) -> ext it = pad 3 (upcase <$> e) ->
  name_matches (dotted base' e') it <-> CString.lower <$> dotted base e = CString.lower <$> dotted base' e'.
Proof.
  intros Hv Hf Hx. pose proof Hv as [[_ Hb] [_ He]]. unfold name_matches. rewrite (item_name_83 base e) by done.
  by rewrite (lower_dotted (upcase <$> base) (upcase <$> e) base e) by (by apply lower_upcase).
Qed.
End search.

Section search_code.
Context {D : Type} {B : BlockDevice D} {BS : BlockDeviceSpec D} {H : Type} {A : Allocator H}.
Implicit Types s : fs_state D H.

Lemma dir_items_ok s : dir_ok s -> Forall item_ok (item (root s)).
Proof. intros Hd. apply Forall_lookup. intros i it Hi. by destruct (d_items _ Hd i it Hi). Qed.

Lemma find_slot_spec s name str :
  fs_ok s -> dir_ok s -> search_name name str ->
  wp (fat16_find_root_dir_slot_by_name name) (fun r s' => s' = s /\ found (item (root s)) str r) s.
Proof.
  intros Hs Hd Hn. pose proof Hs as [_ _ (p & E & _)].
  assert (Er : root s = root_directory p) by (unfold root; by rewrite E).
  assert (Eh : hdr s = primary_header (header p)) by (unfold hdr; by rewrite E).
  destruct (slot_by_name_spec (item (root s)) name str (dir_items_ok s Hd) Hn (length (item (root s))) 0)
    as (r & Hr & Hf); [lia|lia|lia|].
  unfold fat16_find_root_dir_slot_by_name. apply wp_bind, (wp_private _ _ p); [done|].
  rewrite <- Er, <- Eh, <- (d_len _ Hd), Nat2Z.id. eapply wp_lift; [exact Hr|]. done.
Qed.

Lemma find_free_slot_spec s :
  fs_ok s -> dir_ok s ->
  wp fat16_find_free_root_dir_slot (fun r s' => s' = s /\
    ((r = - ENOMEM /\ forall k it, item (root s) !! k = Some it -> in_use it) \/
     (exists k it, r = Z.of_nat k /\ item (root s) !! k = Some it /\ ~ in_use it /\
        forall k' it', (k' < k)%nat -> item (root s) !! k' = Some it' -> in_use it'))) s.
Proof.
  intros Hs Hd. pose proof Hs as [_ _ (p & E & _)].
  assert (Er : root s = root_directory p) by (unfold root; by rewrite E).
  assert (Eh : hdr s = primary_header (header p)) by (unfold hdr; by rewrite E).
  destruct (free_slot_spec (item (root s)) (length (item (root s))) 0) as (r & Hr & Hf); [lia|lia|].
  unfold fat16_find_free_root_dir_slot. apply wp_bind, (wp_private _ _ p); [done|].
  rewrite <- Er, <- Eh, <- (d_len _ Hd), Nat2Z.id. eapply wp_lift; [exact Hr|]. done.
Qed.
End search_code.

(** ** Theorems *)

Lemma pad_bytes n l : Forall name_char l -> bytes_ok (pad n (upcase <$> l)).
Proof.
  intros Hl. unfold pad. apply bytes_ok_app. split; [|apply bytes_ok_replicate; unfold byte_ok; lia].
  apply Forall_fmap. eapply Forall_impl; [exact Hl|]. intros c Hc. destruct (upcase_char c Hc) as [[? _] _].
  simpl. unfold byte_ok. lia.
Qed.

(** C31: 8.3 names round-trip.  For a name of at most eight characters with
    an extension of at most three, [fat16_name_to_83] fills fields of 8 and 3
    bytes, and the entry with these fields is found again by exactly the
    names that [fat16_get_full_relative_filename] and [istrncmp] compare
    equal to it: those that differ from the original one in case only. *)
Theorem name_83_roundtrip base e k base' e' k' it :
  valid83 base e -> valid83 base' e' -> item_ok it ->
  exists f x, fat16_name_to_83 (c_name base e k) = Ok (f, x) /\ item_ok (set_name it f x) /\
  exists buf c, fat16_get_full_relative_filename (set_name it f x) PEACHOS_MAX_PATH = Ok buf /\
    CString.istrncmp buf (c_name base' e' k') PEACHOS_MAX_PATH = Ok c /\
    (c = 0 <-> CString.lower <$> dotted base e = CString.lower <$> dotted base' e').
Proof.
  intros Hv Hv' Hit. pose proof Hv as [[Hb1 Hb2] [He1 He2]].
  set (f := pad 8 (upcase <$> base)). set (x := pad 3 (upcase <$> e)).
  exists f, x. split; [by apply name_to_83_spec|].
  assert (Hok : item_ok (set_name it f x)).
  { destruct Hit. split; try done; (split; [apply length_pad; rewrite length_fmap; lia|by apply pad_bytes]). }
  split; [done|].
  destruct (compare_item _ _ _ Hok (c_name_search base' e' k' Hv')) as (buf & c & E1 & E2 & E3).
  exists buf, c. split; [done|]. split; [done|]. rewrite E3. by apply name_matches_83.
Qed.

Lemma name_83_roundtrip_witness :
  exists f x, fat16_name_to_83 [104; 105; 46; 116; 120; 116; 0] = Ok (f, x) /\
  exists buf c, fat16_get_full_relative_filename (set_name zero_item f x) PEACHOS_MAX_PATH = Ok buf /\
    CString.istrncmp buf [72; 105; 46; 84; 120; 116; 0] PEACHOS_MAX_PATH = Ok c /\ c = 0.
Proof.
  assert (V : forall a b c d f, name_char a -> name_char b -> name_char c -> name_char d -> name_char f ->
    valid83 [a; b] [c; d; f]) by (intros; split; (split; [simpl; lia|]); repeat (constructor; [done|]); constructor).
  destruct (name_83_roundtrip [104; 105] [116; 120; 116] 0 [72; 105] [84; 120; 116] 0 zero_item)
    as (f & x & E & _ & buf & c & E1 & E2 & E3).
  - apply V; unfold name_char; lia.
  - apply V; unfold name_char; lia.
  - exact zero_item_ok.
  - exists f, x. split; [exact E|]. exists buf, c. split; [exact E1|]. split; [exact E2|]. apply E3. reflexivity.
Defined.
