(* ===== verification/Fat16.v ===== *)
(** * The FAT16 filesystem operations of src/fs/fat/fat16.c

    [fat16_open], [fat16_read], [fat16_write], [fat16_seek], [fat16_stat],
    [fat16_close], [fat16_delete] and [fat16_readdir], the entries of the
    operation table [fat16_fs], over the driver state of FatTypes. *)
From Stdlib Require Import ZArith Lia.
From stdpp Require Import base list gmap numbers option list_numbers.
From S2P Require Import Prelude CLib Heap Disk FatTypes FatTable FatData FatDir.
Local Open Scope Z_scope.
Local Open Scope kernel_scope.

Definition FILE_MODE_READ : Z := 0.
Definition FILE_MODE_WRITE : Z := 1.
Definition FILE_MODE_APPEND : Z := 2.
Definition FILE_MODE_INVALID : Z := 3.
Definition SEEK_SET : Z := 0.
Definition SEEK_CUR : Z := 1.
Definition SEEK_END : Z := 2.
Definition FILE_STAT_READ_ONLY : Z := 1.
Record file_stat := mk_stat { st_flags : Z; st_filesize : Z }.

Definition sizeof_descriptor : Z := 12.

Section code.
Context {D : Type} {B : BlockDevice D} {H : Type} {A : Allocator H}.
Abbreviation FM := (M (fs_state D H)).

(** [fat16_open] with [FILE_MODE_READ].  [inl] is [ERROR(code)]. *)
Definition open_read (path : list (list Z)) : FM (Z + fat_file_descriptor) :=
  descriptor ← zalloc sizeof_descriptor;
  if descriptor =? 0 then mret (inl (- ENOMEM))
  else
    it ← fat16_get_directory_entry path;
    match it with
    | None => _ ← release descriptor; mret (inl (- EIO))
    | Some it => mret (inr (mk_desc descriptor it 0 (-1)))
    end.

(** The existing file is truncated. *)
Definition truncate_slot (slot : Z) : FM unit :=
  existing ← root_item slot;
  let first_cluster := fat16_get_first_cluster existing in
  _ ← (if first_cluster >=? 2 then _ ← fat16_free_cluster_chain first_cluster; mret tt else mret tt);
  existing ← root_item slot;
  _ ← put_root_item slot (set_cluster (set_filesize existing 0) 0 0);
  _ ← fat16_write_root_dir_entry slot; mret tt.

(** The entry of a new file, in a slot that is free. *)
Definition create_slot (slot : Z) (name : list Z) : FM unit :=
  '(f, e) ← lift_out (fat16_name_to_83 name);
  _ ← put_root_item slot (set_attribute (set_name zero_item f e) FAT_FILE_ARCHIVED);
  _ ← fat16_write_root_dir_entry slot;
  p ← private;
  if slot >=? total (root_directory p) then put_private (set_root_total p (slot + 1)) else mret tt.

(** The descriptor of a file opened for writing. *)
Definition write_descriptor (slot : Z) : FM (Z + fat_file_descriptor) :=
  descriptor ← zalloc sizeof_descriptor;
  if descriptor =? 0 then mret (inl (- ENOMEM))
  else
    it ← zalloc sizeof_fat_item;
    if it =? 0 then _ ← release descriptor; mret (inl (- ENOMEM))
    else
      existing ← root_item slot;
      i ← fat16_clone_directory_item existing sizeof_item;
      match i with
      | None => _ ← release it; _ ← release descriptor; mret (inl (- ENOMEM))
      | Some i =>
          mret (inr (mk_desc descriptor (mk_fat_item it FAT_ITEM_TYPE_FILE (UItem (Some i))) 0 slot))
      end.

Definition open_write (name : list Z) : FM (Z + fat_file_descriptor) :=
  slot ← fat16_find_root_dir_slot_by_name name;
  if slot >=? 0 then _ ← truncate_slot slot; write_descriptor slot
  else
    slot ← fat16_find_free_root_dir_slot;
    if slot <? 0 then mret (inl (- ENOMEM))
    else _ ← create_slot slot name; write_descriptor slot.

Definition fat16_open (path : list (list Z)) (mode : Z) : FM (Z + fat_file_descriptor) :=
  if mode =? FILE_MODE_READ then open_read path
  else if mode =? FILE_MODE_WRITE then
    match path with [] => ub | part :: _ => open_write part end
  else mret (inl (- EINVARG)).

Definition fat16_free_file_descriptor (desc : fat_file_descriptor) : FM unit :=
  _ ← fat16_fat_item_free (fd_item desc); release (fd_self desc).

Definition fat16_close (desc : fat_file_descriptor) : FM Z :=
  _ ← fat16_free_file_descriptor desc; mret 0.

(** [descriptor->item->item] dereferenced. *)
Definition desc_item (desc : fat_file_descriptor) : FM fat_directory_item :=
  match fi_union (fd_item desc) with
  | UItem (Some (_, it)) => mret it
  | _ => ub
  end.
Definition set_desc_item (desc : fat_file_descriptor) (it : fat_directory_item) : fat_file_descriptor :=
  let f := fd_item desc in
  let u := match fi_union f with UItem (Some (p, _)) => UItem (Some (p, it)) | u => u end in
  mk_desc (fd_self desc) (mk_fat_item (fi_self f) (fi_type f) u) (fd_pos desc) (root_dir_slot desc).
Definition set_desc_pos (desc : fat_file_descriptor) (p : Z) : fat_file_descriptor :=
  mk_desc (fd_self desc) (fd_item desc) p (root_dir_slot desc).

(** [fat16_stat] returns its result and the [struct file_stat] it fills. *)
Definition fat16_stat (desc : fat_file_descriptor) (stat : file_stat) : FM (Z * file_stat) :=
  if negb (fi_type (fd_item desc) =? FAT_ITEM_TYPE_FILE) then mret (- EINVARG, stat)
  else
    ritem ← desc_item desc;
    let flags :=
      if negb (Z.land (attribute ritem) FAT_FILE_READ_ONLY =? 0) then FILE_STAT_READ_ONLY else 0x00 in
    mret (0, mk_stat flags (filesize ritem)).

(** The loop of [fat16_read]; [n] members are left. *)
Fixpoint read_members (first_cluster offset size : Z) (n : nat) : FM (Z * list Z) :=
  match n with
  | O => mret (0, [])
  | S n' =>
      '(res, bytes) ← fat16_read_internal first_cluster offset (i32 size);
      if res <? 0 then mret (res, bytes)
      else
        '(res, rest) ← read_members first_cluster (i32 (offset + size)) size n';
        mret (res, bytes ++ rest)
  end.

(** [fat16_read] returns its result and the bytes stored at [out_ptr]. *)
Definition fat16_read (desc : fat_file_descriptor) (size nmemb : Z) : FM (Z * list Z) :=
  it ← desc_item desc;
  let offset := i32 (fd_pos desc) in
  '(res, bytes) ← read_members (i32 (fat16_get_first_cluster it)) offset size (Z.to_nat nmemb);
  if res <? 0 then mret (res, bytes) else mret (i32 nmemb, bytes).

(** The item after a write: a first cluster that was allocated is recorded,
    and the file size is extended if the write grew the file. *)
Definition written_item (it : fat_directory_item) (first_cluster new_end : Z) : fat_directory_item :=
  let it :=
    if (low_16_bits_first_cluster it =? 0) && negb (first_cluster =? 0)
    then set_cluster it (u16 (Z.shiftr first_cluster 16)) (u16 first_cluster) else it in
  if new_end >? filesize it then set_filesize it new_end else it.

(** [fat16_write] returns its result and the updated descriptor. *)
Definition fat16_write (desc : fat_file_descriptor) (size nmemb : Z) (buf : list Z) :
    FM (Z * fat_file_descriptor) :=
  it ← desc_item desc;
  let total := u32 (size * nmemb) in
  let first_cluster := fat16_get_first_cluster it in
  '(bytes_written, first_cluster) ← fat16_write_internal first_cluster (fd_pos desc) buf total;
  if bytes_written <? 0 then mret (bytes_written, desc)
  else
    let new_end := u32 (fd_pos desc + u32 bytes_written) in
    let it := written_item it first_cluster new_end in
    let desc := set_desc_pos (set_desc_item desc it) new_end in
    _ ← (if root_dir_slot desc >=? 0 then
           _ ← put_root_item (root_dir_slot desc) it;
           _ ← fat16_write_root_dir_entry (root_dir_slot desc); mret tt
         else mret tt);
    mret (i32 nmemb, desc).

Definition delete_name (l : list Z) : list Z := <[0%nat := 0xE5]> l.

Definition fat16_delete (path : list (list Z)) : FM Z :=
  match path with
  | [] => ub
  | part :: _ =>
      slot ← fat16_find_root_dir_slot_by_name part;
      if slot <? 0 then mret (- EIO)
      else
        it ← root_item slot;
        let first_cluster := fat16_get_first_cluster it in
        _ ← (if first_cluster >=? 2 then _ ← fat16_free_cluster_chain first_cluster; mret tt else mret tt);
        it ← root_item slot;
        _ ← put_root_item slot
              (set_cluster (set_filesize (set_name it (delete_name (filename it)) (ext it)) 0) 0 0);
        _ ← fat16_write_root_dir_entry slot; mret 0
  end.

(** The loop of [fat16_readdir] from slot [i] on; [count] entries were passed. *)
Fixpoint readdir_loop (items : list fat_directory_item) (index buf_size count i : Z) (n : nat) :
    out (Z * option (list Z)) :=
  match n with
  | O => Ok (0, None)
  | S n' =>
      entry ← items.[i];
      if first_byte entry =? 0x00 then Ok (0, None)
      else if first_byte entry =? 0xE5 then readdir_loop items index buf_size count (i + 1) n'
      else if negb (Z.land (attribute entry) (Z.lor FAT_FILE_VOLUME_LABEL FAT_FILE_SUBDIRECTORY) =? 0)
      then readdir_loop items index buf_size count (i + 1) n'
      else if count =? index then
        buf ← fat16_get_full_relative_filename entry buf_size; Ok (1, Some buf)
      else readdir_loop items index buf_size (count + 1) (i + 1) n'
  end.

(** [fat16_readdir] returns its result and the contents of [buf] if written. *)
Definition fat16_readdir (index buf_size : Z) : FM (Z * option (list Z)) :=
  p ← private;
  lift_out (readdir_loop (item (root_directory p)) index buf_size 0 0
              (Z.to_nat (root_dir_entries (primary_header (header p))))).

Definition fat16_seek (desc : fat_file_descriptor) (offset seek_mode : Z) : FM (Z * fat_file_descriptor) :=
  if negb (fi_type (fd_item desc) =? FAT_ITEM_TYPE_FILE) then mret (- EINVARG, desc)
  else
    ritem ← desc_item desc;
    if offset >=? filesize ritem then mret (- EIO, desc)
    else if seek_mode =? SEEK_SET then mret (0, set_desc_pos desc offset)
    else if seek_mode =? SEEK_END then mret (- EUNIMP, desc)
    else if seek_mode =? SEEK_CUR then mret (0, set_desc_pos desc (u32 (fd_pos desc + offset)))
    else mret (- EINVARG, desc).
End code.

(** ** The volume as a set of files

    [vol_ok s ch]: the mounted volume is consistent and [ch] gives the chain
    of every directory slot in use.  The chains of different slots share no
    cluster. *)
Section volume.
Context {D : Type} {B : BlockDevice D} {BS : BlockDeviceSpec D} {H : Type} {A : Allocator H}.
Implicit Types s : fs_state D H.

(** The chain of an item: no clusters at all, or a chain from its first one. *)
Definition chain_of s (it : fat_directory_item) (l : list Z) : Prop :=
  (l = [] /\ fat16_get_first_cluster it = 0) \/ file_chain s (fat16_get_first_cluster it) l.

Record vol_ok s (ch : gmap nat (list Z)) : Prop := {
  vo_fs : fs_ok s;
  vo_geometry : geometry s;
  vo_dir : dir_ok s;
  vo_dom : forall i it, item (root s) !! i = Some it -> is_Some (ch !! i) <-> in_use it;
  vo_slot : forall i l, ch !! i = Some l -> (i < length (item (root s)))%nat;
  vo_chain : forall i it l, item (root s) !! i = Some it -> ch !! i = Some l -> chain_of s it l;
  vo_disjoint : forall i j l l', i <> j -> ch !! i = Some l -> ch !! j = Some l' -> l ## l' }.

Lemma file_chain_same s s' c l :
  layout s' = layout s -> (forall x, x ∈ l -> fat_at s' x = fat_at s x) -> file_chain s c l -> file_chain s' c l.
Proof.
  intros L F [H1 H2 H3]. split.
  - by eapply chain_ext.
  - intros x Hx. apply (addressable_layout s s'); auto.
  - intros x Hx. rewrite F by done. auto.
Qed.

Lemma chain_of_same s s' it l :
  layout s' = layout s -> (forall x, x ∈ l -> fat_at s' x = fat_at s x) -> chain_of s it l -> chain_of s' it l.
Proof. intros L F [?|?]; [by left|right]. by eapply file_chain_same. Qed.

Lemma chain_of_addressable s it l x : chain_of s it l -> x ∈ l -> addressable s x.
Proof. intros [[-> _]|Hf] Hx; [by apply not_elem_of_nil in Hx|]. by apply Hf. Qed.
Lemma chain_of_used s it l x : chain_of s it l -> x ∈ l -> fat_at s x <> 0.
Proof. intros [[-> _]|Hf] Hx; [by apply not_elem_of_nil in Hx|]. by apply Hf. Qed.

Lemma vo_item s ch i l : vol_ok s ch -> ch !! i = Some l -> exists it, item (root s) !! i = Some it /\ in_use it.
Proof.
  intros V Hi. destruct (lookup_lt_is_Some_2 _ _ (vo_slot _ _ V _ _ Hi)) as [it Hit].
  exists it. split; [done|]. apply (vo_dom _ _ V i it Hit). eauto.
Qed.

(** Every cluster of a file can be addressed and is marked as used. *)
Lemma vol_cluster s ch i l x :
  vol_ok s ch -> ch !! i = Some l -> x ∈ l -> addressable s x /\ fat_at s x <> 0 /\ in_fat s x.
Proof.
  intros V Hi Hx. destruct (vo_item _ _ _ _ V Hi) as (it & Hit & _).
  pose proof (vo_chain _ _ V _ _ _ Hit Hi) as Hc.
  pose proof (chain_of_addressable _ _ _ _ Hc Hx) as Ha. split; [done|].
  split; [by eapply chain_of_used|]. apply cluster_in_fat; [apply V|apply Ha].
Qed.

(** [dir_ok] is kept when the directory's bytes are. *)
Lemma dir_ok_same s s' :
  hdr s' = hdr s -> root s' = root s ->
  (forall i, (i < length (item (root s)))%nat ->
     bytes (dev s') (dir_pos s (Z.of_nat i)) 32 = bytes (dev s) (dir_pos s (Z.of_nat i)) 32) ->
  dir_ok s -> dir_ok s'.
Proof.
  intros Eh Er Eb [D1 D2 D3 D4 D5].
  assert (L : layout s' = layout s) by (unfold layout; by rewrite Eh, Er).
  assert (Hp : forall j, dir_pos s' j = dir_pos s j) by (intros; unfold dir_pos; by rewrite Er).
  split; rewrite ?Eh, ?Er, ?Hp, ?(data_start_layout s s' L); try done.
  intros i it Hi. rewrite Hp, Eb by (by eapply lookup_lt_Some). by apply D3.
Qed.

(** The frame of one operation on slot [i]: [s1] differs from [s] in the FAT
    and the clusters only, and not in those of the other files. *)
Record others_kept s (ch : gmap nat (list Z)) (i : nat) s1 : Prop := {
  ok_fs : fs_ok s1;
  ok_view : view s1 = view s;
  ok_dir : dir_ok s1;
  ok_fat : forall j l x, j <> i -> ch !! j = Some l -> x ∈ l -> fat_at s1 x = fat_at s x;
  ok_bytes : forall j l, j <> i -> ch !! j = Some l -> chain_bytes s1 l = chain_bytes s l }.

Definition put_chain (ch : gmap nat (list Z)) (i : nat) (l : option (list Z)) : gmap nat (list Z) :=
  partial_alter (fun _ => l) i ch.

(** The chain the slot has afterwards fits its new entry. *)
Definition new_chain s (ch : gmap nat (list Z)) (i : nat) (it : fat_directory_item) (l : option (list Z)) : Prop :=
  match l with
  | None => ~ in_use it
  | Some l => in_use it /\ chain_of s it l /\ forall j l', j <> i -> ch !! j = Some l' -> l ## l'
  end.

Lemma chain_bytes_slot_set s i it s' l :
  fs_ok s -> geometry s -> dir_ok s -> (i < length (item (root s)))%nat -> item_ok it -> slot_set s i it s' ->
  (forall x, x ∈ l -> addressable s x) -> chain_bytes s' l = chain_bytes s l.
Proof.
  intros Hs G Hd Hi Hit Sl Ha. apply chain_bytes_ext. intros x Hx. eapply slot_set_cluster; eauto.
Qed.

Lemma put_chain_eq ch i l : put_chain ch i l !! i = l.
Proof. apply lookup_partial_alter_eq. Qed.
Lemma put_chain_ne ch i j l : j <> i -> put_chain ch i l !! j = ch !! j.
Proof. intros Hne. by apply lookup_partial_alter_ne. Qed.

Lemma put_chain_twice ch i l l' : put_chain (put_chain ch i l) i l' = put_chain ch i l'.
Proof. unfold put_chain. by rewrite partial_alter_partial_alter_eq. Qed.

(** The parts of [vol_ok] after an update of slot [i]. *)
Lemma put_chain_dom ch i s1 it l (items : list fat_directory_item) :
  (forall j x, items !! j = Some x -> is_Some (ch !! j) <-> in_use x) ->
  (i < length items)%nat -> new_chain s1 ch i it l ->
  forall j x, <[i := it]> items !! j = Some x -> is_Some (put_chain ch i l !! j) <-> in_use x.
Proof.
  intros Hdom Hi Hl j x Hj. destruct (decide (j = i)) as [->|Hne].
  - rewrite list_lookup_insert_eq in Hj by done. injection Hj as <-. rewrite put_chain_eq.
    destruct l; simpl in Hl; [|by rewrite is_Some_alt]. split; [intros _; apply Hl|by eauto].
  - rewrite list_lookup_insert_ne in Hj by done. rewrite put_chain_ne by done. eauto.
Qed.

Lemma put_chain_disjoint s ch i it l :
  (forall j k l1 l2, j <> k -> ch !! j = Some l1 -> ch !! k = Some l2 -> l1 ## l2) -> new_chain s ch i it l ->
  forall j k l1 l2, j <> k -> put_chain ch i l !! j = Some l1 -> put_chain ch i l !! k = Some l2 -> l1 ## l2.
Proof.
  intros Hdis Hl j k l1 l2 Hjk.
  destruct (decide (j = i)) as [->|Hj]; [|destruct (decide (k = i)) as [->|Hk]].
  - rewrite put_chain_eq, put_chain_ne by done. intros -> Hk. destruct Hl as (_ & _ & Hd). eauto.
  - rewrite put_chain_eq, put_chain_ne by done. intros Hj' ->. destruct Hl as (_ & _ & Hd).
    intros x H1 H2. by apply (Hd j l1 Hj Hj' x).
  - rewrite !put_chain_ne by done. eauto.
Qed.

(** What a slot update keeps of the other files. *)
Lemma step_others s ch i s1 it s2 :
  vol_ok s ch -> (i < length (item (root s)))%nat -> others_kept s ch i s1 -> item_ok it -> slot_set s1 i it s2 ->
  forall j l, j <> i -> ch !! j = Some l ->
    (forall x, x ∈ l -> fat_at s2 x = fat_at s x) /\ chain_bytes s2 l = chain_bytes s l.
Proof.
  intros V Hi [O1 V1 D1 F1 B1] Hit Sl j l Hj Hc. pose proof (view_root s s1 V1) as R1.
  assert (G1 : geometry s1) by (eapply geometry_view; [done|apply V]).
  assert (Hi1 : (i < length (item (root s1)))%nat) by (by rewrite R1).
  assert (Ha : forall x, x ∈ l -> addressable s1 x).
  { intros x Hx. apply (addressable_view s s1); [done|]. by eapply vol_cluster. }
  split.
  - intros x Hx. rewrite <- (F1 j l x) by done. eapply slot_set_fat; try done.
    apply cluster_in_fat; [done|]. by apply Ha.
  - rewrite <- (B1 j l) by done. by eapply chain_bytes_slot_set.
Qed.

(** Updating the FAT and the clusters of one file, then its entry. *)
Lemma vol_step s ch i s1 it s2 l :
  vol_ok s ch -> (i < length (item (root s)))%nat -> others_kept s ch i s1 -> item_ok it ->
  (Z.of_nat i < total (root s) -> first_byte it <> 0) -> slot_set s1 i it s2 -> new_chain s1 ch i it l ->
  vol_ok s2 (put_chain ch i l).
Proof.
  intros V Hi K Hit Hfb Sl Hl. pose proof K as [O1 V1 D1 F1 B1]. pose proof (view_root s s1 V1) as R1.
  assert (G1 : geometry s1) by (eapply geometry_view; [done|apply V]).
  assert (Hi1 : (i < length (item (root s1)))%nat) by (by rewrite R1).
  pose proof (slot_set_layout _ _ _ _ Sl) as L2. pose proof (ss_root _ _ _ _ Sl) as R2.
  rewrite R1 in R2. split.
  - apply Sl.
  - eapply geometry_layout; done.
  - eapply slot_set_coherent; try done. by rewrite R1.
  - rewrite R2. eapply put_chain_dom; [apply (vo_dom _ _ V)|done|exact Hl].
  - intros j l' Hj. rewrite R2. simpl. rewrite length_insert.
    destruct (decide (j = i)) as [->|Hne]; [done|]. rewrite put_chain_ne in Hj by done. by eapply (vo_slot _ _ V).
  - intros j x l' Hx Hj. rewrite R2 in Hx. simpl in Hx. destruct (decide (j = i)) as [->|Hne].
    + rewrite list_lookup_insert_eq in Hx by done. injection Hx as <-.
      rewrite put_chain_eq in Hj. subst l. destruct Hl as (_ & Hc & _).
      eapply chain_of_same; [exact L2| |exact Hc]. intros y Hy. eapply slot_set_fat; try done.
      apply cluster_in_fat; [done|]. by eapply chain_of_addressable.
    + rewrite list_lookup_insert_ne in Hx by done. rewrite put_chain_ne in Hj by done.
      eapply chain_of_same; [|by eapply step_others|by eapply (vo_chain _ _ V)].
      rewrite L2. by apply view_layout.
  - eapply put_chain_disjoint; [apply (vo_disjoint _ _ V)|exact Hl].
Qed.
End volume.

(** ** Writing through a descriptor *)
Section write.
Context {D : Type} {B : BlockDevice D} {BS : BlockDeviceSpec D} {H : Type} {A : Allocator H}.
Implicit Types s : fs_state D H.

Lemma first_cluster_value it :
  item_ok it ->
  fat16_get_first_cluster it = 65536 * high_16_bits_first_cluster it + low_16_bits_first_cluster it.
Proof.
  intros Hit. pose proof (ok_high _ Hit). pose proof (ok_low _ Hit). unfold fat16_get_first_cluster.
  rewrite Z.shiftl_mul_pow2, u32_id by lia. rewrite <- Z.add_nocarry_lor; [lia|].
  apply Z.bits_inj'. intros n Hn. rewrite Z.land_spec, Z.bits_0.
  destruct (Z.ltb_spec n 16); [by rewrite Z.mul_pow2_bits_low|].
  rewrite (Z.bits_above_log2 (low_16_bits_first_cluster it)); [by rewrite andb_false_r|lia|].
  destruct (decide (low_16_bits_first_cluster it = 0)) as [->|]; [simpl; lia|].
  apply Z.log2_lt_pow2; [lia|]. apply Z.lt_le_trans with (2 ^ 16); [lia|]. apply Z.pow_le_mono_r; lia.
Qed.

(** The directory lies in front of every cluster. *)
Lemma dir_clear s l i :
  fs_ok s -> geometry s -> dir_ok s -> (i < length (item (root s)))%nat -> (forall x, x ∈ l -> addressable s x) ->
  clear_of s (dir_pos s (Z.of_nat i)) 32 l.
Proof.
  intros Hs G Hd Hi Ha x Hx. left. pose proof (dir_bounds s i Hs G Hd Hi) as (_ & B2 & _).
  pose proof (cluster_pos_lower s x G). destruct (Ha x Hx) as [Hc _]. unfold is_cluster in Hc. lia.
Qed.

Lemma wrote_addressable s ch i c l ext off d s1 :
  vol_ok s ch -> ch !! i = Some l -> wrote s c l ext off d s1 -> forall x, x ∈ l ++ ext -> addressable s x.
Proof.
  intros V Hi W x [Hx|Hx]%elem_of_app; [by eapply vol_cluster|].
  by apply (e_fresh _ _ _ _ _ (w_ext _ _ _ _ _ _ _ W)).
Qed.

Lemma wrote_disjoint s ch i c l ext off d s1 j l' :
  vol_ok s ch -> ch !! i = Some l -> wrote s c l ext off d s1 -> j <> i -> ch !! j = Some l' -> l ++ ext ## l'.
Proof.
  intros V Hi W Hj Hl' x [Hx|Hx]%elem_of_app Hx'.
  - by apply (vo_disjoint _ _ V i j l l' (not_eq_sym Hj) Hi Hl' x).
  - apply (e_fresh _ _ _ _ _ (w_ext _ _ _ _ _ _ _ W)) in Hx as [_ Hz].
    by destruct (vol_cluster _ _ _ _ _ V Hl' Hx') as (_ & Hnz & _).
Qed.

Lemma wrote_others s ch i c l ext off d s1 :
  vol_ok s ch -> ch !! i = Some l -> wrote s c l ext off d s1 -> others_kept s ch i s1.
Proof.
  intros V Hi W. pose proof (wrote_addressable _ _ _ _ _ _ _ _ _ V Hi W) as Ha.
  pose proof (w_ext _ _ _ _ _ _ _ W) as [O1 V1 C1 Fr Nz Ft Dt]. pose proof V as [Hs G Hd _ _ _ _].
  split; try done.
  - apply (dir_ok_same s); [by apply view_hdr|by apply view_root| |done]. intros k Hk.
    pose proof (dir_bounds s k Hs G Hd Hk). apply Dt; [lia|lia|]. by apply dir_clear.
  - intros j l' x Hj Hl' Hx. destruct (vol_cluster _ _ _ _ _ V Hl' Hx) as (_ & _ & Hin).
    apply Ft; [done|]. intros Hx'. by eapply (wrote_disjoint _ _ _ _ _ _ _ _ _ _ _ V Hi W Hj Hl').
  - intros j l' Hj Hl'. apply chain_bytes_ext. intros x Hx.
    destruct (vol_cluster _ _ _ _ _ V Hl' Hx) as (Hxa & _ & _). unfold cluster_bytes.
    rewrite (cluster_pos_view s s1), (csize_view s s1) by done.
    pose proof (addressable_pos s x Hs G Hxa). apply Dt; [lia|lia|]. intros y Hy.
    apply cluster_disjoint; [done|]. intros ->. by eapply (wrote_disjoint _ _ _ _ _ _ _ _ _ _ _ V Hi W Hj Hl').
Qed.

(** A descriptor that is in step with its directory slot. *)
Record desc_of s (desc : fat_file_descriptor) (i : nat) (it : fat_directory_item) : Prop := {
  do_slot : root_dir_slot desc = Z.of_nat i;
  do_type : fi_type (fd_item desc) = FAT_ITEM_TYPE_FILE;
  do_item : exists p, fi_union (fd_item desc) = UItem (Some (p, it));
  do_root : item (root s) !! i = Some it }.

Lemma written_item_spec it c e :
  item_ok it -> 2 <= c < 0xFFF8 -> 0 <= e < 2 ^ 32 ->
  fat16_get_first_cluster it = 0 \/ fat16_get_first_cluster it = c ->
  let it' := written_item it c e in
  item_ok it' /\ fat16_get_first_cluster it' = c /\ filename it' = filename it /\ ext it' = ext it /\
  attribute it' = attribute it /\ filesize it' = Z.max (filesize it) e.
Proof.
  intros Hit Hc He Hfc. rewrite (first_cluster_value it Hit) in Hfc.
  pose proof (ok_high _ Hit). pose proof (ok_low _ Hit). unfold written_item.
  set (it1 := if (_ && _) then _ else it).
  assert (K0 : item_ok it1 /\ fat16_get_first_cluster it1 = c /\ filename it1 = filename it /\ ext it1 = ext it /\
    attribute it1 = attribute it /\ filesize it1 = filesize it).
  { unfold it1. destruct (Z.eqb_spec (low_16_bits_first_cluster it) 0); simpl.
    - destruct (Z.eqb_spec c 0); [lia|]. simpl.
      assert (Hok : item_ok (set_cluster it (u16 (Z.shiftr c 16)) (u16 c))).
      { destruct Hit. split; simpl; try done; apply u16_range. }
      split; [done|]. split; [|done]. rewrite first_cluster_value by done. simpl.
      rewrite Z.shiftr_div_pow2, (Z.div_small c), !u16_id by lia. lia.
    - split; [done|]. split; [|done]. rewrite first_cluster_value by done. lia. }
  destruct K0 as (K1 & K2 & K3 & K4 & K5 & K6). cbv zeta. rewrite K6.
  destruct (Z.gtb_spec e (filesize it)).
  - split; [destruct K1; split; simpl; done|]. split; [exact K2|]. simpl. rewrite Z.max_r by lia. done.
  - rewrite Z.max_l by lia. done.
Qed.

Lemma write_internal_any s it l off data total :
  fs_ok s -> geometry s -> chain_of s it l -> 0 <= off -> (l = [] -> off < csize s) -> 0 < total < 2 ^ 31 ->
  total <= Z.of_nat (length data) -> bytes_ok data ->
  off + total <= csize s * Z.of_nat (length l + length (free_clusters s)) ->
  wp (fat16_write_internal (fat16_get_first_cluster it) off data total) (fun r s' => exists c ext,
    r = (total, c) /\ (fat16_get_first_cluster it = 0 \/ fat16_get_first_cluster it = c) /\
    wrote s c l ext off (take (Z.to_nat total) data) s') s.
Proof.
  intros Hs G Hc Ho Hl Ht Hd Hb Hcap. destruct Hc as [[-> Hz]|Hf].
  - rewrite Hz. eapply wp_mono; [apply write_internal_new; try done; auto|].
    intros r s' (c & ext & -> & W). exists c, (c :: ext). auto.
  - eapply wp_mono; [by apply (write_internal_existing s _ l)|].
    intros r s' (-> & ext & W). eexists _, ext. auto.
Qed.

(** The slot update that ends [fat16_write] and friends. *)
Lemma flush_slot_spec s slot it :
  fs_ok s -> geometry s -> dir_ok s -> (slot < length (item (root s)))%nat -> item_ok it ->
  wp (_ ← put_root_item (Z.of_nat slot) it; _ ← fat16_write_root_dir_entry (Z.of_nat slot); mret tt)
    (fun _ s' => slot_set s slot it s') s.
Proof.
  intros Hs G Hd Hl Hit. pose proof (flush_spec s slot it Hs G Hd Hl Hit) as W.
  apply wp_bind. apply wp_bind_inv in W. eapply wp_mono; [exact W|]. intros u s1 W1.
  eapply wp_step; [exact W1|]. intros r s2 [_ Sl]. by apply wp_ret.
Qed.

(** The three objects of a descriptor. *)
Definition desc_objects (desc : fat_file_descriptor) (m : gmap Z Z) : gmap Z Z :=
  match fi_union (fd_item desc) with
  | UItem (Some (p, _)) => <[p := 1]> (<[fi_self (fd_item desc) := 1]> (<[fd_self desc := 1]> m))
  | _ => m
  end.
Definition desc_fresh (desc : fat_file_descriptor) (m : gmap Z Z) : Prop :=
  match fi_union (fd_item desc) with
  | UItem (Some (p, _)) => m !! fd_self desc = None /\ <[fd_self desc := 1]> m !! fi_self (fd_item desc) = None /\
      <[fi_self (fd_item desc) := 1]> (<[fd_self desc := 1]> m) !! p = None
  | _ => False
  end.

(** What [fat16_write] leaves behind: in the files, *)
Record file_written s (ch : gmap nat (list Z)) (i : nat) (l : list Z) (pos : Z) (d : list Z) s' : Prop := {
  wd_chain : exists ext, vol_ok s' (put_chain ch i (Some (l ++ ext))) /\
    chain_bytes s' (l ++ ext) = splice (chain_bytes s (l ++ ext)) (Z.to_nat pos) d /\
    (forall x, x ∈ ext -> x ∈ free_clusters s);
  wd_others : forall j l', j <> i -> ch !! j = Some l' -> chain_bytes s' l' = chain_bytes s l';
  wd_items : forall j, j <> i -> item (root s') !! j = item (root s) !! j;
  wd_total : total (root s') = total (root s);
  wd_heap : heap s' = heap s;
  wd_layout : layout s' = layout s }.

(** and in the descriptor. *)
Record desc_written (it : fat_directory_item) (pos n : Z) (desc desc' : fat_file_descriptor) (i : nat) s' : Prop := {
  wd_pos : fd_pos desc' = pos + n;
  wd_objects : forall m, desc_objects desc' m = desc_objects desc m /\ (desc_fresh desc m -> desc_fresh desc' m);
  wd_desc : exists it', desc_of s' desc' i it' /\ filename it' = filename it /\ ext it' = ext it /\
    attribute it' = attribute it /\ filesize it' = Z.max (filesize it) (pos + n) }.

(** The facts both records follow from: the data were written in the chain
    from [c], then the slot was updated. *)
Record write_steps s (ch : gmap nat (list Z)) (i : nat) (l : list Z) (it : fat_directory_item) (c : Z)
    (pos : Z) (d x : list Z) s1 s2 : Prop := {
  ws_vol : vol_ok s ch;
  ws_slot : ch !! i = Some l;
  ws_item : item (root s) !! i = Some it;
  ws_pos : 0 <= pos /\ pos + Z.of_nat (length d) < 2 ^ 32;
  ws_first : fat16_get_first_cluster it = 0 \/ fat16_get_first_cluster it = c;
  ws_wrote : wrote s c l x pos d s1;
  ws_set : slot_set s1 i (written_item it c (pos + Z.of_nat (length d))) s2 }.

Lemma wrote_first s c l x pos d s1 : wrote s c l x pos d s1 -> 2 <= c < 0xFFF8.
Proof.
  intros W. pose proof (e_chain _ _ _ _ _ (w_ext _ _ _ _ _ _ _ W)) as Hch.
  destruct (chain_head _ _ _ Hch) as (r & Er). rewrite Er in Hch. by apply (chain_bounds _ _ _ c Hch); left.
Qed.

Lemma write_steps_item s ch i l it c pos d x s1 s2 :
  write_steps s ch i l it c pos d x s1 s2 ->
  let it' := written_item it c (pos + Z.of_nat (length d)) in
  item_ok it' /\ fat16_get_first_cluster it' = c /\ filename it' = filename it /\ ext it' = ext it /\
  attribute it' = attribute it /\ filesize it' = Z.max (filesize it) (pos + Z.of_nat (length d)).
Proof.
  intros [V Hi Hit [Hp Hmax] Hfc W Sl]. destruct (d_items _ (vo_dir _ _ V) _ _ Hit) as [Hok _].
  apply written_item_spec; try done; [by eapply wrote_first|lia].
Qed.

Lemma write_steps_file s ch i l it c pos d x s1 s2 :
  write_steps s ch i l it c pos d x s1 s2 -> file_written s ch i l pos d s2.
Proof.
  intros St. destruct (write_steps_item _ _ _ _ _ _ _ _ _ _ _ St) as (W1 & W2 & W3 & _).
  destruct St as [V Hi Hit [Hp Hmax] Hfc W Sl]. set (it' := written_item _ _ _) in *.
  pose proof (wrote_others _ _ _ _ _ _ _ _ _ V Hi W) as K. pose proof V as [Hs G Hdir _ _ _ _].
  pose proof (proj1 (vo_dom _ _ V _ _ Hit) ltac:(eauto)) as Huse. pose proof (vo_slot _ _ V _ _ Hi) as Hlt.
  assert (Hfb : first_byte it' = first_byte it) by (unfold first_byte; by rewrite W3).
  assert (R1 : root s1 = root s) by (apply view_root, K).
  assert (Ha : forall y, y ∈ l ++ x -> addressable s1 y).
  { intros y Hy. apply (addressable_view s s1); [apply K|]. by eapply wrote_addressable. }
  split.
  - exists x. split; [|split].
    + apply (vol_step s ch i s1 it' s2); try done; [intros _; rewrite Hfb; apply Huse|]. split; [|split].
      * unfold in_use. rewrite Hfb. apply Huse.
      * right. rewrite W2. split; [apply (w_ext _ _ _ _ _ _ _ W)|done|]. apply (w_ext _ _ _ _ _ _ _ W).
      * intros j l' Hj Hl'. by eapply wrote_disjoint.
    + rewrite <- (w_bytes _ _ _ _ _ _ _ W). eapply chain_bytes_slot_set; try done; [apply K|..|by rewrite R1].
      * eapply geometry_view; [apply K|done].
      * apply K.
    + intros y Hy. by apply elem_of_free, (e_fresh _ _ _ _ _ (w_ext _ _ _ _ _ _ _ W)).
  - intros j l' Hj Hl'. by apply (step_others s ch i s1 it' s2 V Hlt K W1 Sl j l').
  - intros j Hj. rewrite (ss_root _ _ _ _ Sl), R1. simpl. by rewrite list_lookup_insert_ne by done.
  - by rewrite (ss_root _ _ _ _ Sl), R1.
  - rewrite (ss_heap _ _ _ _ Sl). apply view_heap, K.
  - rewrite (slot_set_layout _ _ _ _ Sl). apply view_layout, K.
Qed.

Lemma write_steps_desc s ch i l it c pos d x s1 s2 desc :
  write_steps s ch i l it c pos d x s1 s2 -> desc_of s desc i it ->
  let e := pos + Z.of_nat (length d) in
  desc_written it pos (Z.of_nat (length d)) desc
    (set_desc_pos (set_desc_item desc (written_item it c e)) e) i s2.
Proof.
  intros St [Ds Dt (q & Di) Dr] e. destruct (write_steps_item _ _ _ _ _ _ _ _ _ _ _ St) as (W1 & W2 & W3 & W4 & W5 & W6).
  destruct St as [V Hi _ _ _ W Sl]. pose proof (wrote_others _ _ _ _ _ _ _ _ _ V Hi W) as K.
  assert (R1 : root s1 = root s) by (apply view_root, K).
  split; [done| |].
  - intros m. unfold desc_objects, desc_fresh. simpl. by rewrite Di.
  - exists (written_item it c e). split; [|done]. split; [done|done| |].
    + exists q. simpl. by rewrite Di.
    + rewrite (ss_root _ _ _ _ Sl), R1. simpl. apply list_lookup_insert_eq. by eapply (vo_slot _ _ V).
Qed.

Lemma fat16_write_spec s ch i l it desc size nmemb buf :
  vol_ok s ch -> ch !! i = Some l -> desc_of s desc i it ->
  0 < size -> 0 < nmemb -> size * nmemb < 2 ^ 31 -> size * nmemb <= Z.of_nat (length buf) -> bytes_ok buf ->
  0 <= fd_pos desc -> fd_pos desc + size * nmemb < 2 ^ 32 -> (l = [] -> fd_pos desc < csize s) ->
  fd_pos desc + size * nmemb <= csize s * Z.of_nat (length l + length (free_clusters s)) ->
  wp (fat16_write desc size nmemb buf) (fun r s' => fst r = nmemb /\
    file_written s ch i l (fd_pos desc) (take (Z.to_nat (size * nmemb)) buf) s' /\
    desc_written it (fd_pos desc) (size * nmemb) desc (snd r) i s') s.
Proof.
  intros V Hi Hdesc Hsz Hnm Ht Hlen Hb Hp Hmax Hl Hcap. pose proof V as [Hs G Hdir _ _ _ _].
  pose proof Hdesc as [Ds _ (q & Di) Dr]. pose proof (d_items _ Hdir _ _ Dr) as [Hok _].
  set (total := size * nmemb) in *. set (d := take (Z.to_nat total) buf).
  assert (Hd : Z.of_nat (length d) = total) by (unfold d; rewrite length_take; lia).
  assert (Hnn : nmemb < 2 ^ 31) by nia. assert (Ht0 : 0 < total) by nia.
  unfold fat16_write, desc_item. rewrite Di. apply wp_bind, wp_ret. fold total. rewrite (u32_id total) by lia.
  eapply wp_step; [apply (write_internal_any s it l); try done; by eapply (vo_chain _ _ V)|].
  intros ? s1 (c & x & -> & Hfc & W). fold d in W. cbn beta iota.
  destruct (Z.ltb_spec total 0); [lia|]. rewrite (u32_id total), (u32_id (fd_pos desc + total)) by lia.
  pose proof (wrote_others _ _ _ _ _ _ _ _ _ V Hi W) as K.
  assert (R1 : root s1 = root s) by (apply view_root, K).
  destruct (written_item_spec it c (fd_pos desc + total)) as (W1 & _); try done; [by eapply wrote_first|lia|].
  change (root_dir_slot (set_desc_pos (set_desc_item desc _) _)) with (root_dir_slot desc). rewrite Ds.
  destruct (Z.geb_spec (Z.of_nat i) 0); [|lia].
  eapply wp_step; [apply flush_slot_spec; try done; [apply K| |apply K|]|].
  - eapply geometry_view; [apply K|done].
  - rewrite R1. by eapply (vo_slot _ _ V).
  - intros u s2 Sl. apply wp_ret. split; [simpl; rewrite i32_id; lia|]. rewrite <- Hd in Sl, Hmax |- *. simpl.
    assert (St : write_steps s ch i l it c (fd_pos desc) d x s1 s2) by (by split).
    split; [by eapply write_steps_file|]. by eapply write_steps_desc.
Qed.
End write.

(** ** Creating, truncating and deleting files *)
Section slots.
Context {D : Type} {B : BlockDevice D} {BS : BlockDeviceSpec D} {H : Type} {A : Allocator H}.
Implicit Types s : fs_state D H.

(** Releasing the clusters of the file in slot [i]. *)
Lemma release_file_spec s ch i l it :
  vol_ok s ch -> ch !! i = Some l -> item (root s) !! i = Some it ->
  wp (if fat16_get_first_cluster it >=? 2
      then _ ← fat16_free_cluster_chain (fat16_get_first_cluster it); mret tt else mret tt)
    (fun _ s1 => others_kept s ch i s1 /\ forall x, x ∈ l -> fat_at s1 x = 0) s.
Proof.
  intros V Hi Hit. pose proof V as [Hs G Hd _ _ _ _].
  destruct (vo_chain _ _ V _ _ _ Hit Hi) as [[-> Hz]|Hf].
  - rewrite Hz. simpl. apply wp_ret. split; [by split|]. intros x Hx. by apply not_elem_of_nil in Hx.
  - destruct (chain_head _ _ _ (fc_chain _ _ _ Hf)) as (r & Er).
    pose proof (chain_bounds _ _ _ (fat16_get_first_cluster it) (fc_chain _ _ _ Hf)) as Hc.
    rewrite Er in Hc. specialize (Hc ltac:(by left)).
    destruct (Z.geb_spec (fat16_get_first_cluster it) 2); [|lia].
    eapply wp_step; [apply (free_cluster_chain_spec s _ l); [done|apply Hf|]|].
    { intros x Hx. apply cluster_in_fat; [done|]. by apply Hf. }
    intros u s1 [_ F]. apply wp_ret. pose proof (fn_view _ _ _ F) as V1. split; [split|].
    + apply F.
    + done.
    + apply (dir_ok_same s); [by apply view_hdr|by apply view_root| |done]. intros k Hk.
      pose proof (dir_bounds s k Hs G Hd Hk). apply F; lia.
    + intros j l' x Hj Hl' Hx. destruct (vol_cluster _ _ _ _ _ V Hl' Hx) as (_ & _ & Hin).
      rewrite (fn_fat _ _ _ F) by done. unfold clear_all. rewrite bool_decide_false; [done|].
      intros Hx'. by apply (vo_disjoint _ _ V i j l l' (not_eq_sym Hj) Hi Hl' x).
    + intros j l' Hj Hl'. apply chain_bytes_ext. intros x Hx.
      destruct (vol_cluster _ _ _ _ _ V Hl' Hx) as (Hxa & _ & _). unfold cluster_bytes.
      rewrite (cluster_pos_view s s1), (csize_view s s1) by done.
      pose proof (addressable_pos s x Hs G Hxa). apply F; lia.
    + intros x Hx. destruct (vol_cluster _ _ _ _ _ V Hi Hx) as (_ & _ & Hin).
      rewrite (fn_fat _ _ _ F) by done. unfold clear_all. by rewrite bool_decide_true.
Qed.

(** The outcome of an operation on slot [i] that gave it the entry [it] and
    the chain [l]. *)
Record slot_done s (ch : gmap nat (list Z)) (i : nat) (it : fat_directory_item) (l : option (list Z)) s' : Prop := {
  sd_vol : vol_ok s' (put_chain ch i l);
  sd_item : item (root s') = <[i := it]> (item (root s));
  sd_others : forall j l', j <> i -> ch !! j = Some l' -> chain_bytes s' l' = chain_bytes s l';
  sd_layout : layout s' = layout s }.

Lemma slot_done_intro s ch i s1 it s2 l :
  vol_ok s ch -> (i < length (item (root s)))%nat -> others_kept s ch i s1 -> item_ok it ->
  (Z.of_nat i < total (root s) -> first_byte it <> 0) -> slot_set s1 i it s2 -> new_chain s1 ch i it l ->
  slot_done s ch i it l s2.
Proof.
  intros V Hi K Hit Hfb Sl Hl. split.
  - by eapply vol_step.
  - rewrite (ss_root _ _ _ _ Sl), (view_root s s1) by apply K. done.
  - intros j l' Hj Hl'. by apply (step_others s ch i s1 it s2 V Hi K Hit Sl j l').
  - rewrite (slot_set_layout _ _ _ _ Sl). apply view_layout, K.
Qed.

Lemma no_cluster_ok it : item_ok it -> item_ok (set_cluster (set_filesize it 0) 0 0).
Proof. intros []. split; simpl; done || lia. Qed.

(** The entry [fat16_delete] leaves behind. *)
Definition deleted_item (it : fat_directory_item) : fat_directory_item :=
  set_cluster (set_filesize (set_name it (delete_name (filename it)) (ext it)) 0) 0 0.

Lemma deleted_item_ok it : item_ok it -> item_ok (deleted_item it) /\ first_byte (deleted_item it) = 0xE5.
Proof.
  intros Hit. destruct (ok_filename _ Hit) as [Hl Hb]. split.
  - apply no_cluster_ok. destruct Hit. split; simpl; try done. unfold delete_name. rewrite length_insert.
    split; [done|]. apply Forall_insert; [done|]. unfold byte_ok. lia.
  - unfold first_byte, deleted_item, delete_name. simpl. rewrite list_lookup_insert_eq; [done|lia].
Qed.

Lemma free_after s ch i l it s1 it' s2 :
  vol_ok s ch -> ch !! i = Some l -> item (root s) !! i = Some it -> others_kept s ch i s1 ->
  (forall x, x ∈ l -> fat_at s1 x = 0) -> slot_set s1 i it' s2 -> forall x, x ∈ l -> fat_at s2 x = 0.
Proof.
  intros V Hi Hit K Hz Sl x Hx. rewrite <- (Hz x Hx). pose proof (vo_slot _ _ V _ _ Hi) as Hlt.
  destruct (vol_cluster _ _ _ _ _ V Hi Hx) as (_ & _ & Hin).
  eapply slot_set_fat; try done; [apply K| |apply K| |].
  - eapply geometry_view; [apply K|apply V].
  - rewrite (view_root s s1) by apply K. done.
  - apply (in_fat_view s s1); [apply K|done].
Qed.

(** [fat16_delete] of a listed name: the slot is freed, its clusters too. *)
Lemma fat16_delete_spec s ch name path str :
  vol_ok s ch -> search_name name str ->
  wp (fat16_delete (name :: path)) (fun r s' =>
    (r = - EIO /\ s' = s /\ forall k it, listed (item (root s)) k it -> ~ name_matches str it) \/
    (r = 0 /\ exists i it l, listed (item (root s)) i it /\ name_matches str it /\ ch !! i = Some l /\
       slot_done s ch i (deleted_item it) None s' /\ heap s' = heap s /\ forall x, x ∈ l -> fat_at s' x = 0)) s.
Proof.
  intros V Hn. pose proof V as [Hs G Hd _ _ _ _]. unfold fat16_delete.
  eapply wp_step; [by apply (find_slot_spec s name str)|]. intros r s0 [-> [[-> Hno]|(i & it & -> & Hl & Hm)]].
  { apply wp_ret. by left. }
  destruct (Z.ltb_spec (Z.of_nat i) 0); [lia|]. pose proof (li_item _ _ _ Hl) as Hit.
  pose proof (proj2 (vo_dom _ _ V _ _ Hit) (li_use _ _ _ Hl)) as [l Hi].
  destruct (d_items _ Hd _ _ Hit) as [Hok _]. destruct (deleted_item_ok it Hok) as [Hdok Hdf].
  apply wp_bind, (wp_root_item s i it); [done|done|]. cbn beta zeta.
  eapply wp_step; [by apply (release_file_spec s ch i l it)|]. intros u s1 [K Hz].
  assert (R1 : root s1 = root s) by (apply view_root, K).
  apply wp_bind, (wp_root_item s1 i it); [apply K|by rewrite R1|]. cbn beta zeta.
  fold (deleted_item it).
  assert (G1 : geometry s1) by (eapply geometry_view; [apply K|done]).
  assert (Hi1 : (i < length (item (root s1)))%nat) by (rewrite R1; by eapply (vo_slot _ _ V)).
  pose proof (flush_spec s1 i (deleted_item it) (ok_fs _ _ _ _ K) G1 (ok_dir _ _ _ _ K) Hi1 Hdok) as W.
  apply wp_bind_inv in W. apply wp_bind. eapply wp_mono; [exact W|].
  intros u' s2 W2. eapply wp_step; [exact W2|]. intros r s3 [_ Sl]. apply wp_ret. right. split; [done|].
  exists i, it, l. split; [done|]. split; [done|]. split; [done|].
  assert (Hh : heap s3 = heap s) by (rewrite (ss_heap _ _ _ _ Sl); apply view_heap, K).
  split; [|split; [exact Hh|by eapply free_after]]. eapply (slot_done_intro s ch i s1); try done.
  - by eapply (vo_slot _ _ V).
  - intros _. by rewrite Hdf.
  - simpl. unfold in_use. rewrite Hdf. tauto.
Qed.
End slots.

(** ** Opening for writing *)
Section opening.
Context {D : Type} {B : BlockDevice D} {BS : BlockDeviceSpec D} {H : Type} {A : Allocator H} {AS : AllocatorSpec H}.
Implicit Types s : fs_state D H.

Lemma others_kept_refl s ch i : vol_ok s ch -> others_kept s ch i s.
Proof. intros V. split; try done; apply V. Qed.

Lemma truncate_slot_spec s ch i l it :
  vol_ok s ch -> ch !! i = Some l -> item (root s) !! i = Some it ->
  wp (truncate_slot (Z.of_nat i)) (fun _ s' =>
    slot_done s ch i (set_cluster (set_filesize it 0) 0 0) (Some []) s' /\
    (forall x, x ∈ l -> fat_at s' x = 0) /\ heap s' = heap s) s.
Proof.
  intros V Hi Hit. pose proof V as [Hs G Hd _ _ _ _]. destruct (d_items _ Hd _ _ Hit) as [Hok _].
  set (it' := set_cluster (set_filesize it 0) 0 0).
  assert (Hok' : item_ok it') by (by apply no_cluster_ok).
  pose proof (vo_dom _ _ V i it Hit) as [Huse _]. specialize (Huse ltac:(eauto)).
  pose proof (vo_slot _ _ V _ _ Hi) as Hlt.
  unfold truncate_slot. apply wp_bind, (wp_root_item s i it); [done|done|]. cbn beta zeta.
  eapply wp_step; [by apply (release_file_spec s ch i l it)|]. intros u s1 [K Hz].
  assert (R1 : root s1 = root s) by (apply view_root, K).
  apply wp_bind, (wp_root_item s1 i it); [apply K|by rewrite R1|]. cbn beta zeta. fold it'.
  assert (G1 : geometry s1) by (eapply geometry_view; [apply K|done]).
  assert (Hi1 : (i < length (item (root s1)))%nat) by (by rewrite R1).
  eapply wp_mono; [by apply (flush_slot_spec s1 i it' (ok_fs _ _ _ _ K) G1 (ok_dir _ _ _ _ K))|].
  intros v s2 Sl. split; [|split].
  2:{ by apply (free_after s ch i l it s1 it' s2). }
  2:{ rewrite (ss_heap _ _ _ _ Sl). apply view_heap, K. }
  eapply (slot_done_intro s ch i s1); try done.
  - intros _. apply Huse.
  - split; [exact Huse|]. split; [by left|]. intros j l' _ _ x Hx. by apply not_elem_of_nil in Hx.
Qed.

(** The entry of a new file. *)
Definition new_item (f e : list Z) : fat_directory_item :=
  set_attribute (set_name zero_item f e) FAT_FILE_ARCHIVED.

Lemma new_item_ok base e :
  valid83 base e -> let it := new_item (pad 8 (upcase <$> base)) (pad 3 (upcase <$> e)) in
  item_ok it /\ in_use it /\ fat16_get_first_cluster it = 0.
Proof.
  intros Hv it. pose proof Hv as [[Hb1 Hb2] [He1 He2]].
  assert (Hc : forall l n, Forall name_char l -> (length l <= n)%nat -> length (pad n (upcase <$> l)) = n /\
    bytes_ok (pad n (upcase <$> l))).
  { intros l n Hl Hn. rewrite length_pad by (by rewrite length_fmap). split; [done|by apply pad_bytes]. }
  destruct base as [|c base]; [simpl in Hb1; lia|]. apply Forall_cons in Hb2 as Hb3. destruct Hb3 as [Hc0 _].
  split; [|split; [|done]].
  - split; [apply (Hc (c :: base) 8%nat); [done|lia]|by apply (Hc e 3%nat)|..]; simpl;
      unfold byte_ok, FAT_FILE_ARCHIVED; lia.
  - destruct (upcase_char c Hc0) as [[? _] _]. unfold in_use, first_byte. simpl. lia.
Qed.

Lemma set_total_vol s ch p t :
  vol_ok s ch -> fs_private (the_disk s) = Some p -> 0 <= t <= root_dir_entries (hdr s) ->
  (forall k it, item (root s) !! k = Some it -> Z.of_nat k < t -> first_byte it <> 0) ->
  let s' := set_private s (Some (set_root_total p t)) in
  vol_ok s' ch /\ root s' = set_total (root s) t /\ dev s' = dev s /\ layout s' = layout s.
Proof.
  intros V E Ht Hu s'. pose proof V as [Hs G [D1 D2 D3 D4 D5] V4 V5 V6 V7].
  destruct (set_root_spec s p (set_total (root_directory p) t) Hs E) as (O' & Eh & Er & _ & Ed).
  change (set_private s (Some (set_root p (set_total (root_directory p) t)))) with s' in O', Eh, Er, Ed.
  assert (E0 : root_directory p = root s) by (unfold root; by rewrite E). rewrite E0 in Er.
  assert (L : layout s' = layout s) by (unfold layout; by rewrite Eh, Er).
  assert (Hfat : forall x, fat_at s' x = fat_at s x) by (intros; unfold fat_at, fat_pos; by rewrite Eh, Ed).
  split; [|done]. split; try done.
  - by eapply geometry_layout.
  - split; rewrite ?Eh, ?Er, ?Ed, ?(data_start_layout s s' L); try done; unfold dir_pos; by rewrite Er.
  - by rewrite Er.
  - by rewrite Er.
  - rewrite Er. simpl. intros i it l Hi Hl. eapply chain_of_same; [exact L|auto|eauto].
Qed.

Lemma create_slot_spec s ch i it0 base e k :
  vol_ok s ch -> item (root s) !! i = Some it0 -> ~ in_use it0 ->
  (forall k it, (k < i)%nat -> item (root s) !! k = Some it -> in_use it) -> valid83 base e ->
  wp (create_slot (Z.of_nat i) (c_name base e k)) (fun _ s' =>
    slot_done s ch i (new_item (pad 8 (upcase <$> base)) (pad 3 (upcase <$> e))) (Some []) s' /\
    Z.of_nat i < total (root s') /\ (forall x, in_fat s x -> fat_at s' x = fat_at s x) /\ heap s' = heap s) s.
Proof.
  intros V Hi Hnu Hb Hv. pose proof V as [Hs G Hd _ _ _ _]. apply lookup_lt_Some in Hi as Hlt.
  set (it := new_item _ _). destruct (new_item_ok base e Hv) as (Hok & Huse & Hfc). fold it in Hok, Huse, Hfc.
  unfold create_slot. rewrite (name_to_83_spec base e k Hv). apply wp_bind.
  eapply wp_lift; [reflexivity|]. cbn beta iota. fold (new_item (pad 8 (upcase <$> base)) (pad 3 (upcase <$> e))).
  fold it. pose proof (flush_spec s i it Hs G Hd Hlt Hok) as W. apply wp_bind_inv in W.
  apply wp_bind. eapply wp_mono; [exact W|]. intros u s1 W1. eapply wp_step; [exact W1|]. intros r s2 [_ Sl].
  assert (Hn : new_chain s ch i it (Some [])).
  { split; [done|]. split; [by left|]. intros j l' _ _ x Hx. by apply not_elem_of_nil in Hx. }
  pose proof (slot_done_intro s ch i s it s2 (Some []) V Hlt (others_kept_refl s ch i V) Hok
    (fun _ => proj1 Huse) Sl Hn) as [S1 S2 S3 S4].
  pose proof (ss_root _ _ _ _ Sl) as R2. destruct (ss_ok _ _ _ _ Sl) as [_ _ (p & E & _)].
  assert (Ep : root_directory p = root s2) by (unfold root; by rewrite E).
  apply wp_bind, (wp_private _ _ p); [done|]. rewrite Ep, R2. cbn [total set_items].
  pose proof (fun x => slot_set_fat s i it s2 x Hs G Hd Hlt Sl) as F2.
  destruct (Z.geb_spec (Z.of_nat i) (total (root s))) as [Hge|Hlt'].
  - apply wp_modify. destruct (set_total_vol s2 _ p (Z.of_nat i + 1) S1 E) as (T1 & T2 & T3 & T4).
    + rewrite (ss_hdr _ _ _ _ Sl). pose proof (d_len _ Hd). lia.
    + intros q x Hk Hki. rewrite S2 in Hk. destruct (decide (q = i)) as [->|Hne].
      * rewrite list_lookup_insert_eq in Hk by done. injection Hk as <-. apply Huse.
      * rewrite list_lookup_insert_ne in Hk by done. apply (Hb q x); [lia|done].
    + split; [split|].
      * done.
      * rewrite T2. simpl. done.
      * intros j l' Hj Hl'. rewrite <- (S3 j l') by done. apply chain_bytes_ext. intros x _.
        unfold cluster_bytes. by rewrite (cluster_pos_layout s2), (csize_layout s2), T3.
      * by rewrite T4.
      * rewrite T2. simpl. split; [lia|]. split; [|apply Sl]. intros x Hx. rewrite <- F2 by done.
        unfold fat_at, fat_pos. by rewrite (layout_hdr s2 _ T4), T3.
  - apply wp_ret. split; [done|]. rewrite R2. simpl. split; [lia|]. split; [done|apply Sl].
Qed.

(** Changes of the heap alone. *)
Lemma vol_heap s ch h : vol_ok s ch -> vol_ok (set_heap s h) ch.
Proof.
  intros [[H1 H2 H3] G [D1 D2 D3 D4 D5] V4 V5 V6 V7]. split; try done.
  - by eapply (geometry_layout s).
  - intros i it l Hi Hl. eapply (chain_of_same s); eauto.
Qed.

Lemma zalloc_spec s m size :
  owns (heap s) m -> 0 < size <= 4096 ->
  wp (zalloc size) (fun p s' => exists h, s' = set_heap s h /\
    ((p = 0 /\ owns h m /\ free_blocks (heap s) = 0%nat) \/
     (0 < p /\ m !! p = None /\ owns h (<[p := 1]> m) /\
      free_blocks (heap s) = S (free_blocks h) /\ loses (heap s) h 1))) s.
Proof.
  intros Ho Hs. destruct (kzalloc_small (heap s) m size Ho Hs) as (p & h & E & Hc).
  unfold zalloc. apply wp_bind, wp_gets, wp_bind. eapply wp_lift; [exact E|]. cbn beta iota.
  apply wp_bind, wp_modify, wp_ret. exists h. split; [done|].
  destruct Hc as [(-> & -> & ?)|(? & ? & ? & ?)]; [by left|right]. split; [lia|]. repeat (split; [done|]). by apply (kzalloc_loses (heap s) m size p).
Qed.

Lemma release_spec s m p n :
  owns (heap s) m -> m !! p = Some n ->
  wp (release p) (fun _ s' => exists h, s' = set_heap s h /\ owns h (delete p m) /\
    free_blocks h = (free_blocks (heap s) + Z.to_nat n)%nat /\ loses (heap s) h 0) s.
Proof.
  intros Ho Hm. destruct (kfree_owned (heap s) m p n Ho Hm) as (h & E & Ho' & Hc).
  unfold release. apply wp_bind, wp_gets, wp_bind. eapply wp_lift; [exact E|]. apply wp_modify.
  exists h. repeat (split; [done|]). by apply (kfree_loses (heap s) m p n).
Qed.

(** [fat16_open] for writing ends by building a descriptor of three heap
    objects, or releases what it took and reports [-ENOMEM]. *)
Lemma write_descriptor_spec s m i it :
  fs_ok s -> owns (heap s) m -> item (root s) !! i = Some it ->
  wp (write_descriptor (Z.of_nat i)) (fun r s' => exists h, s' = set_heap s h /\
    ((r = inl (- ENOMEM) /\ owns h m /\ (free_blocks (heap s) < 3)%nat) \/
     exists desc, r = inr desc /\ desc_of s desc i it /\ fd_pos desc = 0 /\
       desc_fresh desc m /\ owns h (desc_objects desc m) /\ free_blocks (heap s) = (3 + free_blocks h)%nat)) s.
Proof.
  intros Hs Ho Hit. unfold write_descriptor.
  eapply wp_step; [by apply (zalloc_spec s m sizeof_descriptor)|].
  intros a s1 (h1 & -> & [(-> & O1 & N1)|(Ha & Fa & O1 & N1 & _)]).
  { apply wp_ret. exists h1. split; [done|]. left. split; [done|]. split; [done|lia]. }
  destruct (Z.eqb_spec a 0); [lia|].
  eapply wp_step; [by apply (zalloc_spec (set_heap s h1) (<[a := 1]> m) sizeof_fat_item)|].
  intros b s2 (h2 & -> & [(-> & O2 & N2)|(Hb & Fb & O2 & N2)]); cbn [Z.eqb]; simpl in N2.
  { eapply wp_step; [eapply (release_spec _ _ a 1); [exact O2|by simplify_map_eq]|].
    intros u s3 (h3 & -> & O3 & _). apply wp_ret. exists h3. split; [done|]. left. split; [done|].
    rewrite delete_insert_id in O3 by done. split; [done|lia]. }
  destruct (Z.eqb_spec b 0); [lia|].
  apply wp_bind, (wp_root_item _ i it); [by destruct Hs|done|].
  unfold fat16_clone_directory_item. change (sizeof_item <? sizeof_item) with false. cbn iota.
  apply wp_bind. eapply wp_step; [by apply (zalloc_spec (set_heap s h2) (<[b := 1]> (<[a := 1]> m)) sizeof_item)|].
  intros c s3 (h3 & -> & [(-> & O3 & N3)|(Hc & Fc & O3 & N3)]); cbn [Z.eqb]; simpl in N3.
  { apply wp_ret. eapply wp_step; [eapply (release_spec _ _ b 1); [exact O3|by simplify_map_eq]|].
    intros u s4 (h4 & -> & O4 & _). rewrite delete_insert_id in O4 by done.
    eapply wp_step; [eapply (release_spec _ _ a 1); [exact O4|by simplify_map_eq]|].
    intros v s5 (h5 & -> & O5 & _). rewrite delete_insert_id in O5 by done. apply wp_ret.
    exists h5. split; [done|]. left. split; [done|]. split; [done|lia]. }
  destruct (Z.eqb_spec c 0); [lia|]. apply wp_ret, wp_ret. exists h3. split; [done|]. right.
  eexists. split; [done|]. split; [by split; [|done|eexists|]|]. split; [done|]. split; [by split|]. split; [done|lia].
Qed.

Lemma fat16_close_spec s desc m :
  owns (heap s) (desc_objects desc m) -> desc_fresh desc m -> fi_type (fd_item desc) = FAT_ITEM_TYPE_FILE ->
  wp (fat16_close desc) (fun r s' => r = 0 /\ exists h, s' = set_heap s h /\ owns h m /\
    free_blocks h = (3 + free_blocks (heap s))%nat /\ loses (heap s) h 0) s.
Proof.
  unfold desc_objects, desc_fresh. intros Ho Hf Ht.
  destruct (fi_union (fd_item desc)) as [[[p it]|]|] eqn:Eu; try done. destruct Hf as (F1 & F2 & F3).
  unfold fat16_close, fat16_free_file_descriptor, fat16_fat_item_free. rewrite Ht, Eu. cbn [Z.eqb FAT_ITEM_TYPE_FILE].
  do 3 apply wp_bind. eapply wp_mono; [eapply (release_spec s _ p 1); [exact Ho|by simplify_map_eq]|].
  intros u s1 (h1 & -> & O1 & N1 & L1). rewrite delete_insert_id in O1 by done.
  eapply wp_mono; [eapply (release_spec _ _ (fi_self (fd_item desc)) 1); [exact O1|by simplify_map_eq]|].
  intros v s2 (h2 & -> & O2 & N2 & L2). rewrite delete_insert_id in O2 by done.
  eapply wp_mono; [eapply (release_spec _ _ (fd_self desc) 1); [exact O2|by simplify_map_eq]|].
  intros w s3 (h3 & -> & O3 & N3 & L3). rewrite delete_insert_id in O3 by done. apply wp_ret. split; [done|].
  exists h3. split; [done|]. split; [done|]. split; [simpl in *; lia|].
  eapply loses_trans; [exact L1|eapply loses_trans; [exact L2|exact L3|reflexivity]|reflexivity].
Qed.

Lemma desc_of_heap s desc i it h : desc_of s desc i it -> desc_of (set_heap s h) desc i it.
Proof. by intros []. Qed.
Lemma slot_done_heap s ch i it l s' h : slot_done s ch i it l s' -> slot_done s ch i it l (set_heap s' h).
Proof. intros [S1 S2 S3 S4]. split; try done. by apply vol_heap. Qed.

(** What [fat16_open] with [FILE_MODE_WRITE] does on slot [i]. *)
Record write_opened s (ch : gmap nat (list Z)) (m : gmap Z Z) (i : nat) (it : fat_directory_item)
    (r : Z + fat_file_descriptor) s' : Prop := {
  wo_slot : slot_done s ch i it (Some []) s';
  wo_size : filesize it = 0;
  wo_result :
    (r = inl (- ENOMEM) /\ owns (heap s') m /\ (free_blocks (heap s) < 3)%nat) \/
    exists desc, r = inr desc /\ desc_of s' desc i it /\ fd_pos desc = 0 /\ desc_fresh desc m /\
      owns (heap s') (desc_objects desc m) /\ free_blocks (heap s) = (3 + free_blocks (heap s'))%nat }.

Lemma finish_open s ch m i it l s1 :
  slot_done s ch i it (Some l) s1 -> l = [] -> filesize it = 0 -> heap s1 = heap s -> owns (heap s) m ->
  (i < length (item (root s)))%nat ->
  wp (write_descriptor (Z.of_nat i)) (fun r s' => (exists h, s' = set_heap s1 h) /\ write_opened s ch m i it r s') s1.
Proof.
  intros Sd -> Hz Hh Ho Hi. pose proof (sd_vol _ _ _ _ _ _ Sd) as V.
  eapply wp_mono; [apply (write_descriptor_spec s1 m i it); [apply V|by rewrite Hh|]|].
  { rewrite (sd_item _ _ _ _ _ _ Sd). by apply list_lookup_insert_eq. }
  intros r s' (h & -> & Hc). rewrite Hh in Hc. split; [eauto|]. split; [by apply slot_done_heap|done|].
  destruct Hc as [?|(desc & -> & Hd & Hr)]; [by left|right]. exists desc. split; [done|].
  split; [by apply desc_of_heap|done].
Qed.

(** [fat16_open] with [FILE_MODE_WRITE]: the file of that name is truncated,
    or created in the first free slot. *)
Lemma open_write_spec s ch m base e k path :
  vol_ok s ch -> owns (heap s) m -> valid83 base e ->
  wp (fat16_open (c_name base e k :: path) FILE_MODE_WRITE) (fun r s' =>
    (exists i it l, listed (item (root s)) i it /\ name_matches (dotted base e) it /\ ch !! i = Some l /\
       write_opened s ch m i (set_cluster (set_filesize it 0) 0 0) r s' /\ (forall x, x ∈ l -> fat_at s' x = 0)) \/
    ((forall k it, listed (item (root s)) k it -> ~ name_matches (dotted base e) it) /\
     ((r = inl (- ENOMEM) /\ s' = s /\ forall k it, item (root s) !! k = Some it -> in_use it) \/
      exists i it0, item (root s) !! i = Some it0 /\ ~ in_use it0 /\ Z.of_nat i < total (root s') /\
        write_opened s ch m i (new_item (pad 8 (upcase <$> base)) (pad 3 (upcase <$> e))) r s' /\
        (forall x, in_fat s x -> fat_at s' x = fat_at s x)))) s.
Proof.
  intros V Ho Hv. pose proof V as [Hs G Hd _ _ _ _]. pose proof (c_name_search base e k Hv) as Hn.
  unfold fat16_open. cbn [Z.eqb FILE_MODE_WRITE FILE_MODE_READ Pos.eqb]. unfold open_write.
  eapply wp_step; [by apply (find_slot_spec s _ (dotted base e))|].
  intros r s0 [-> [[-> Hno]|(i & it & -> & Hl & Hm)]].
  - change (-1 >=? 0) with false. cbn iota. eapply wp_step; [by apply find_free_slot_spec|].
    intros r s0 [-> [[-> Hfull]|(i & it0 & -> & Hi & Hnu & Hbef)]].
    { apply wp_ret. right. split; [done|]. by left. }
    destruct (Z.ltb_spec (Z.of_nat i) 0); [lia|]. apply lookup_lt_Some in Hi as Hlt.
    eapply wp_step; [by apply (create_slot_spec s ch i it0 base e k)|]. intros u s1 (Sd & Ht & Hf & Hh).
    eapply wp_mono; [by apply (finish_open s ch m i _ [] s1 Sd)|]. intros r s2 [(h & ->) Hw].
    right. split; [done|]. right. exists i, it0. done.
  - destruct (Z.geb_spec (Z.of_nat i) 0); [|lia]. pose proof (li_item _ _ _ Hl) as Hit.
    pose proof (proj2 (vo_dom _ _ V _ _ Hit) (li_use _ _ _ Hl)) as [l Hi]. apply lookup_lt_Some in Hit as Hlt.
    eapply wp_step; [by apply (truncate_slot_spec s ch i l it)|]. intros u s1 (Sd & Hz & Hh).
    eapply wp_mono; [by apply (finish_open s ch m i _ [] s1 Sd)|]. intros r s2 [(h & ->) Hw].
    left. exists i, it, l. done.
Qed.
End opening.

(** ** Opening for reading, and reading *)
Section reading.
Context {D : Type} {B : BlockDevice D} {BS : BlockDeviceSpec D} {H : Type} {A : Allocator H} {AS : AllocatorSpec H}.
Implicit Types s : fs_state D H.

Lemma wp_compare s it name str (k : Z -> M (fs_state D H) (option fat_item)) R :
  item_ok it -> search_name name str ->
  (forall z, (z = 0 <-> name_matches str it) -> wp (k z) R s) ->
  wp (tmp ← lift_out (fat16_get_full_relative_filename it PEACHOS_MAX_PATH);
      c ← lift_out (CString.istrncmp tmp name PEACHOS_MAX_PATH); k c) R s.
Proof.
  intros Hit Hn Hk. destruct (compare_item it name str Hit Hn) as (tmp & z & E1 & E2 & Hz).
  apply wp_bind. eapply wp_lift; [exact E1|]. apply wp_bind. eapply wp_lift; [exact E2|]. by apply Hk.
Qed.

Lemma find_item_none items name str : Forall item_ok items -> search_name name str ->
  forall n j f s, (j + n <= length items)%nat ->
  (forall k it, (j <= k < j + n)%nat -> items !! k = Some it -> ~ name_matches str it) ->
  wp (find_item_loop items name (Z.of_nat j) n f) (fun r s' => r = f /\ s' = s) s.
Proof.
  intros Hok Hn. induction n as [|n IH]; intros j f s Hj Hno; cbn [find_item_loop]; [by apply wp_ret|].
  destruct (lookup_lt_is_Some_2 items j) as [it Hit]; [lia|].
  assert (Hito : item_ok it) by (rewrite Forall_lookup in Hok; eauto).
  apply wp_bind. eapply wp_lift; [apply aget_ok; [lia|by rewrite Nat2Z.id]|].
  apply (wp_compare s it name str); [done|done|]. intros z Hz.
  destruct (Z.eqb_spec z 0) as [Ez|_].
  { exfalso. apply (Hno j it); [lia|done|by apply Hz]. }
  replace (Z.of_nat j + 1) with (Z.of_nat (S j)) by lia. apply IH; [lia|].
  intros k x Hk. apply Hno. lia.
Qed.

(** The item object of a file: two heap objects. *)
Lemma new_fat_item_spec s m it :
  owns (heap s) m -> Z.land (attribute it) FAT_FILE_SUBDIRECTORY = 0 -> (2 <= free_blocks (heap s))%nat ->
  wp (fat16_new_fat_item_for_directory_item it) (fun r s' => exists a b h, s' = set_heap s h /\
    r = Some (mk_fat_item a FAT_ITEM_TYPE_FILE (UItem (Some (b, it)))) /\
    m !! a = None /\ <[a := 1]> m !! b = None /\ owns h (<[b := 1]> (<[a := 1]> m)) /\
    free_blocks (heap s) = (2 + free_blocks h)%nat /\ loses (heap s) h 2) s.
Proof.
  intros Ho Hat Hf. unfold fat16_new_fat_item_for_directory_item.
  eapply wp_step; [by apply (zalloc_spec s m sizeof_fat_item)|].
  intros a s1 (h1 & -> & [(-> & O1 & N1)|(Ha & Fa & O1 & N1 & L1)]); [lia|].
  destruct (Z.eqb_spec a 0); [lia|]. rewrite Hat. cbn [Z.eqb negb]. apply wp_bind, wp_ret.
  unfold fat16_clone_directory_item. change (sizeof_item <? sizeof_item) with false. cbn iota.
  apply wp_bind. eapply wp_step; [by apply (zalloc_spec (set_heap s h1) (<[a := 1]> m) sizeof_item)|].
  intros b s2 (h2 & -> & [(-> & O2 & N2)|(Hb & Fb & O2 & N2 & L2)]); simpl in N2; [lia|].
  destruct (Z.eqb_spec b 0); [lia|]. apply wp_ret, wp_ret. exists a, b, h2.
  repeat (split; [done|]). split; [lia|]. by eapply loses_trans.
Qed.

Lemma find_item_unique items name str i it m : Forall item_ok items -> search_name name str ->
  items !! i = Some it -> name_matches str it -> Z.land (attribute it) FAT_FILE_SUBDIRECTORY = 0 ->
  forall n j f s, (j <= i < j + n)%nat -> (j + n <= length items)%nat ->
  (forall k x, (j <= k < j + n)%nat -> k <> i -> items !! k = Some x -> ~ name_matches str x) ->
  owns (heap s) m -> (2 <= free_blocks (heap s))%nat ->
  wp (find_item_loop items name (Z.of_nat j) n f) (fun r s' => exists a b h, s' = set_heap s h /\
    r = Some (mk_fat_item a FAT_ITEM_TYPE_FILE (UItem (Some (b, it)))) /\
    m !! a = None /\ <[a := 1]> m !! b = None /\ owns h (<[b := 1]> (<[a := 1]> m)) /\
    free_blocks (heap s) = (2 + free_blocks h)%nat /\ loses (heap s) h 2) s.
Proof.
  intros Hok Hn Hi Hm Hat. induction n as [|n IH]; intros j f s Hij Hj Hno Ho Hf; [lia|]. cbn [find_item_loop].
  destruct (lookup_lt_is_Some_2 items j) as [x Hx]; [lia|].
  assert (Hxo : item_ok x) by (rewrite Forall_lookup in Hok; eauto).
  apply wp_bind. eapply wp_lift; [apply aget_ok; [lia|by rewrite Nat2Z.id]|].
  apply (wp_compare s x name str); [done|done|]. intros z Hz.
  replace (Z.of_nat j + 1) with (Z.of_nat (S j)) by lia.
  destruct (decide (j = i)) as [->|Hne].
  - rewrite Hi in Hx. injection Hx as <-. destruct (Z.eqb_spec z 0) as [_|Ez]; [|by destruct Ez; apply Hz].
    eapply wp_step; [by apply (new_fat_item_spec s m it)|]. intros r s1 (a & b & h & -> & -> & Hr).
    eapply wp_mono; [apply (find_item_none items name str Hok Hn); [lia|]|].
    + intros k y Hk. apply Hno; lia.
    + intros r s2 [-> ->]. exists a, b, h. done.
  - destruct (Z.eqb_spec z 0) as [Ez|_].
    { exfalso. apply (Hno j x); [lia|done|done|by apply Hz]. }
    apply IH; try done; [lia|lia|]. intros k y Hk. apply Hno. lia.
Qed.

(** [fat16_open] with [FILE_MODE_READ] on a name in the root directory. *)
Lemma open_read_spec s m base e k i it :
  fs_ok s -> dir_ok s -> owns (heap s) m -> (3 <= free_blocks (heap s))%nat -> valid83 base e ->
  item (root s) !! i = Some it -> Z.of_nat i < total (root s) -> name_matches (dotted base e) it ->
  Z.land (attribute it) FAT_FILE_SUBDIRECTORY = 0 ->
  (forall k x, k <> i -> Z.of_nat k < total (root s) -> item (root s) !! k = Some x ->
     ~ name_matches (dotted base e) x) ->
  wp (fat16_open [c_name base e k] FILE_MODE_READ) (fun r s' => exists desc h q, s' = set_heap s h /\ r = inr desc /\
    fi_type (fd_item desc) = FAT_ITEM_TYPE_FILE /\ fi_union (fd_item desc) = UItem (Some (q, it)) /\
    fd_pos desc = 0 /\ root_dir_slot desc = -1 /\ desc_fresh desc m /\ owns h (desc_objects desc m) /\
    free_blocks (heap s) = (3 + free_blocks h)%nat /\ loses (heap s) h 3) s.
Proof.
  intros Hs Hd Ho Hf Hv Hi Hit Hm Hat Huniq. pose proof Hs as [_ _ (p & E & _)].
  assert (Er : root s = root_directory p) by (unfold root; by rewrite E).
  unfold fat16_open. cbn [Z.eqb FILE_MODE_READ]. unfold open_read.
  eapply wp_step; [by apply (zalloc_spec s m sizeof_descriptor)|].
  intros a s1 (h1 & -> & [(-> & O1 & N1)|(Ha & Fa & O1 & N1 & L1)]); [lia|]. destruct (Z.eqb_spec a 0); [lia|].
  unfold fat16_get_directory_entry. apply wp_bind, wp_bind, (wp_private _ _ p); [done|]. rewrite <- Er.
  unfold fat16_find_item_in_directory. pose proof (d_total _ Hd) as Ht. pose proof (d_len _ Hd) as Hl.
  eapply wp_step; [apply (find_item_unique _ _ (dotted base e) i it (<[a := 1]> m)
    (dir_items_ok s Hd) (c_name_search base e k Hv) Hi Hm Hat _ 0)|].
  - lia.
  - lia.
  - intros q x Hk Hne. apply Huniq; [done|lia].
  - exact O1.
  - simpl. lia.
  - intros r s2 (b & c & h & -> & -> & F1 & F2 & O2 & N2 & L2). apply wp_ret, wp_ret.
    eexists _, h, c. repeat (split; [done|]). simpl in N2. split; [lia|]. by eapply loses_trans.
Qed.

(** The members of a read. *)
Lemma read_members_spec s c l size : geometry s -> chain (fat_at s) c l -> followed l ->
  (forall x, x ∈ l -> addressable s x) -> 0 < size < 2 ^ 31 ->
  forall n off s0, quiet s s0 -> 0 <= off -> off + Z.of_nat n * size <= csize s * Z.of_nat (length l) ->
  off + Z.of_nat n * size < 2 ^ 31 ->
  (forall k, 0 <= k < Z.of_nat n -> read_ok s (off + k * size) size) ->
  wp (read_members c off size n) (fun r s' =>
    r = (0, take (Z.to_nat (Z.of_nat n * size)) (drop (Z.to_nat off) (chain_bytes s l))) /\ quiet s s') s0.
Proof.
  intros G Hl Hf Ha Hsz. induction n as [|n IH]; intros off s0 Q Ho Hend Hmax Hr; cbn [read_members].
  - apply wp_ret. done.
  - pose proof (q_view _ _ Q) as V0. rewrite (i32_id size) by lia.
    pose proof (csize_view s s0 V0) as Ec.
    assert (Hsn : Z.of_nat (S n) * size = size + Z.of_nat n * size) by lia.
    assert (Hn0 : 0 <= Z.of_nat n * size) by (apply Z.mul_nonneg_nonneg; lia). rewrite Hsn in Hend, Hmax.
    eapply wp_step; [apply (read_internal_spec s0 c l off size)|].
    { apply Q. } { by eapply geometry_view. }
    { eapply chain_ext; [|done]. intros; by apply fat_at_quiet. } { done. }
    { intros x Hx. apply (addressable_view s s0); auto. } { rewrite Ec. lia. } { lia. } { rewrite Ec. lia. }
    { unfold read_ok. rewrite Ec. pose proof (Hr 0 ltac:(lia)) as H0. by rewrite Z.mul_0_l, Z.add_0_r in H0. }
    intros ? s1 [-> Q1]. cbn -[read_members]. rewrite (i32_id (off + size)) by lia.
    pose proof (quiet_trans _ _ _ Q Q1) as Q01.
    eapply wp_step; [apply (IH (off + size) s1 Q01); [lia|lia|lia|]|].
    { intros k Hk. replace (off + size + k * size) with (off + (k + 1) * size) by lia. apply Hr. lia. }
    intros ? s2 [-> Q2]. apply wp_ret. split; [|done]. rewrite (chain_bytes_quiet s s0) by done. f_equal.
    rewrite Hsn, (take_split_at (drop _ _) (Z.to_nat size) (Z.to_nat (size + Z.of_nat n * size))) by lia.
    rewrite drop_drop. f_equal.
    replace (Z.to_nat (size + Z.of_nat n * size) - Z.to_nat size)%nat with (Z.to_nat (Z.of_nat n * size)) by lia.
    by replace (Z.to_nat (off + size)) with (Z.to_nat off + Z.to_nat size)%nat by lia.
Qed.

(** [fat16_read]: the bytes of the file from the descriptor's position on. *)
Lemma fat16_read_spec s desc p it l size nmemb :
  fs_ok s -> geometry s -> fi_union (fd_item desc) = UItem (Some (p, it)) ->
  chain (fat_at s) (fat16_get_first_cluster it) l -> followed l -> (forall x, x ∈ l -> addressable s x) ->
  0 < size -> 0 < nmemb -> 0 <= fd_pos desc -> fd_pos desc + nmemb * size < 2 ^ 31 ->
  fd_pos desc + nmemb * size <= csize s * Z.of_nat (length l) ->
  (forall k, 0 <= k < nmemb -> read_ok s (fd_pos desc + k * size) size) ->
  wp (fat16_read desc size nmemb) (fun r s' =>
    r = (nmemb, take (Z.to_nat (nmemb * size)) (drop (Z.to_nat (fd_pos desc)) (chain_bytes s l))) /\ quiet s s') s.
Proof.
  intros Hs G Hu Hl Hf Ha Hsz Hnm Hp Hmax Hend Hr. unfold fat16_read, desc_item. rewrite Hu.
  assert (Hc : 2 <= fat16_get_first_cluster it < 0xFFF8).
  { destruct (chain_head _ _ _ Hl) as (r & Er). rewrite Er in Hl. by apply (chain_bounds _ _ _ _ Hl); left. }
  apply wp_bind, wp_ret. rewrite (i32_id (fd_pos desc)), (i32_id (fat16_get_first_cluster it)) by nia.
  assert (Hs31 : 0 < size < 2 ^ 31) by (split; [done|nia]).
  pose proof (read_members_spec s _ l size G Hl Hf Ha Hs31 (Z.to_nat nmemb) (fd_pos desc) s) as W.
  rewrite Z2Nat.id in W by lia. eapply wp_step; [by apply W; [apply quiet_refl|..]|].
  intros ? s' [-> Q]. cbn. rewrite i32_id by nia. by apply wp_ret.
Qed.

Lemma read_ok_bytes s off : geometry s -> read_ok s off 1.
Proof.
  intros G. pose proof (csize_pos s G). pose proof (Z.mod_pos_bound off (csize s)).
  pose proof (Z.mod_pos_bound off 512). split; right; lia.
Qed.

(** A read byte by byte, whatever the cluster numbers of the file: the bytes
    of the clusters that can be reached, and [-EIO] if these are not all. *)
Definition reached s (l : list Z) : Z := csize s * Z.of_nat (reach l).

Lemma reached_quiet s s' l : quiet s s' -> reached s' l = reached s l.
Proof. intros Q. unfold reached. by rewrite (csize_view s s') by apply Q. Qed.

Lemma read_byte_spec s c l off : fs_ok s -> geometry s -> chain (fat_at s) c l -> (forall x, x ∈ l -> addressable s x) ->
  0 <= off < csize s * Z.of_nat (length l) ->
  wp (fat16_read_internal c off 1) (fun r s' =>
    r = (if off <? reached s l then (0, take 1 (drop (Z.to_nat off) (chain_bytes s l))) else (- EIO, [])) /\ quiet s s') s.
Proof.
  intros Hs G Hl Ha Ho. pose proof (csize_pos s G). pose proof (reach_le l). unfold reached. destruct (Z.ltb_spec off (csize s * Z.of_nat (reach l))).
  - eapply wp_mono; [apply (read_internal_reach s c l off 1); try done; [|lia|by apply read_ok_bytes]|done].
    intros n Hn. apply reach_followed. assert (csize s * Z.of_nat n < csize s * Z.of_nat (reach l)) by lia. nia.
  - destruct (reach_next l) as (x & Hx & Hr).
    { split; [|nia]. destruct (chain_head _ _ _ Hl) as (l' & ->). cbn. lia. }
    assert (Hq : Z.of_nat (reach l) <= off / csize s) by (apply Z.div_le_lower_bound; lia).
    eapply read_internal_refused; try done; [lia|]. split; [|lia]. destruct (chain_head _ _ _ Hl) as (l' & ->). cbn. lia.
Qed.

Lemma read_members_bytes s c l : geometry s -> chain (fat_at s) c l -> (forall x, x ∈ l -> addressable s x) ->
  forall n off s0, quiet s s0 -> 0 <= off -> off + Z.of_nat n <= csize s * Z.of_nat (length l) -> off + Z.of_nat n < 2 ^ 31 ->
  off <= reached s l ->
  wp (read_members c off 1 n) (fun r s' =>
    r = (if off + Z.of_nat n <=? reached s l then 0 else - EIO,
         take (Z.to_nat (Z.min (Z.of_nat n) (reached s l - off))) (drop (Z.to_nat off) (chain_bytes s l))) /\ quiet s s') s0.
Proof.
  intros G Hl Ha. induction n as [|n IH]; intros off s0 Q Ho Hend Hmax Hr; cbn [read_members].
  - apply wp_ret. split; [|done]. rewrite (proj2 (Z.leb_le _ _)) by lia. by rewrite Z.min_l by lia.
  - change (i32 1) with 1. pose proof (q_view _ _ Q) as V0. pose proof (csize_view s s0 V0) as Ec.
    eapply wp_step; [apply (read_byte_spec s0 c l off)|].
    { apply Q. } { by eapply geometry_view. } { by eapply chain_quiet. }
    { intros x Hx. apply (addressable_view s s0); auto. } { rewrite Ec. lia. }
    rewrite (reached_quiet s s0), (chain_bytes_quiet s s0) by done.
    intros ? s1 [-> Q1]. pose proof (quiet_trans _ _ _ Q Q1) as Q01. destruct (Z.ltb_spec off (reached s l)) as [Hlt|Hge].
    + cbn -[read_members take]. rewrite (i32_id (off + 1)) by lia. eapply wp_step; [apply (IH (off + 1) s1 Q01); lia|].
      intros ? s2 [-> Q2]. apply wp_ret. split; [|done]. replace (off + 1 + Z.of_nat n) with (off + Z.of_nat (S n)) by lia. f_equal.
      rewrite (take_split_at (drop _ _) 1 (Z.to_nat (Z.min (Z.of_nat (S n)) (reached s l - off)))) by lia. rewrite drop_drop. f_equal.
      replace (Z.to_nat (Z.min (Z.of_nat (S n)) (reached s l - off)) - 1)%nat with (Z.to_nat (Z.min (Z.of_nat n) (reached s l - (off + 1)))) by lia.
      by replace (Z.to_nat (off + 1)) with (Z.to_nat off + 1)%nat by lia.
    + apply wp_ret. split; [|done]. destruct (Z.leb_spec (off + Z.of_nat (S n)) (reached s l)); [lia|].
      by replace (Z.to_nat (Z.min (Z.of_nat (S n)) (reached s l - off))) with 0%nat by lia.
Qed.

Lemma fat16_read_bytes s desc p it l n :
  fs_ok s -> geometry s -> fi_union (fd_item desc) = UItem (Some (p, it)) ->
  chain (fat_at s) (fat16_get_first_cluster it) l -> (forall x, x ∈ l -> addressable s x) ->
  0 < n < 2 ^ 31 -> fd_pos desc = 0 -> n <= csize s * Z.of_nat (length l) ->
  wp (fat16_read desc 1 n) (fun r s' =>
    r = (if n <=? reached s l then n else - EIO, take (Z.to_nat (Z.min n (reached s l))) (chain_bytes s l)) /\ quiet s s') s.
Proof.
  intros Hs G Hu Hl Ha Hn Hp Hend. unfold fat16_read, desc_item. rewrite Hu, Hp. pose proof (csize_pos s G).
  assert (Hc : 2 <= fat16_get_first_cluster it < 0xFFF8).
  { destruct (chain_head _ _ _ Hl) as (r & Er). rewrite Er in Hl. by apply (chain_bounds _ _ _ _ Hl); left. }
  apply wp_bind, wp_ret. change (i32 0) with 0. rewrite (i32_id (fat16_get_first_cluster it)) by lia.
  eapply wp_step; [apply (read_members_bytes s _ l G Hl Ha (Z.to_nat n) 0 s (quiet_refl s Hs)); unfold reached; lia|].
  rewrite Z2Nat.id, Z.add_0_l, Z.sub_0_r by lia. change (drop (Z.to_nat 0) ?x) with x.
  intros ? s' [-> Q]. destruct (Z.leb_spec n (reached s l)); cbn; rewrite ?(i32_id n) by lia; by apply wp_ret.
Qed.
End reading.

(** ** Saving a new file and loading it again *)
Section clients.
Context {D : Type} {B : BlockDevice D} {BS : BlockDeviceSpec D} {H : Type} {A : Allocator H} {AS : AllocatorSpec H}.
Implicit Types s : fs_state D H.
Abbreviation FM := (M (fs_state D H)).

(** Clients of the operation table: open, write all of [data], close; and
    open, read [n] bytes. *)
Definition save (name data : list Z) : FM (option Z) :=
  r ← fat16_open [name] FILE_MODE_WRITE;
  match r with
  | inl _ => mret None
  | inr desc =>
      '(n, desc) ← fat16_write desc 1 (Z.of_nat (length data)) data;
      _ ← fat16_close desc; mret (Some n)
  end.
Definition load (name : list Z) (n : Z) : FM (option (Z * list Z)) :=
  r ← fat16_open [name] FILE_MODE_READ;
  match r with
  | inl _ => mret None
  | inr desc => x ← fat16_read desc 1 n; mret (Some x)
  end.

(** No file answers to the name. *)
Definition absent s (str : list Z) : Prop :=
  forall k it, item (root s) !! k = Some it -> in_use it -> ~ name_matches str it.

(** A deleted entry answers to no 8.3 name. *)
Lemma deleted_no_match base e it : valid83 base e -> first_byte it = 0xE5 -> ~ name_matches (dotted base e) it.
Proof.
  intros [[Hb1 Hb2] _] Hf Hm. unfold name_matches, item_name in Hm. unfold first_byte in Hf.
  destruct (filename it) as [|c r]; [done|]. simpl in Hf. subst c.
  destruct base as [|c base]; [simpl in Hb1; lia|]. apply Forall_cons in Hb2 as [[Hc _] _].
  simpl in Hm. injection Hm as Hm _. unfold CString.lower in Hm. simpl in Hm.
  destruct (Z.leb_spec 65 c), (Z.leb_spec c 90); simpl in Hm; lia.
Qed.

(** The file that [save] leaves in slot [i] with chain [l]. *)
Record saved s (ch : gmap nat (list Z)) base e (data : list Z) (i : nat) (it : fat_directory_item) (l : list Z) s' :
    Prop := {
  sv_vol : vol_ok s' (put_chain ch i (Some l));
  sv_item : item (root s') !! i = Some it /\ Z.of_nat i < total (root s');
  sv_name : filename it = pad 8 (upcase <$> base) /\ ext it = pad 3 (upcase <$> e) /\ attribute it = FAT_FILE_ARCHIVED;
  sv_size : filesize it = Z.of_nat (length data);
  sv_data : take (length data) (chain_bytes s' l) = data /\ (length data <= length (chain_bytes s' l))%nat;
  sv_fresh : forall x, x ∈ l -> x ∈ free_clusters s;
  sv_others : forall j l', j <> i -> ch !! j = Some l' -> chain_bytes s' l' = chain_bytes s l';
  sv_items : forall j, j <> i -> item (root s') !! j = item (root s) !! j;
  sv_new : ch !! i = None }.

Lemma free_clusters_same s s' :
  geometry s -> layout s' = layout s -> (forall x, in_fat s x -> fat_at s' x = fat_at s x) ->
  free_clusters s' = free_clusters s.
Proof.
  intros G L F. unfold free_clusters. rewrite (nclusters_layout s s') by done. apply list_filter_iff. intros x.
  rewrite (addressable_layout s s') by done. apply and_iff_distr. intros Ha.
  rewrite F; [done|]. apply cluster_in_fat; [done|apply Ha].
Qed.

Lemma splice_fits (l w : list Z) n :
  length (splice l n w) = length l -> w <> [] -> (n + length w <= length l)%nat.
Proof.
  unfold splice. rewrite !length_app, length_take, length_drop. intros E Hw.
  assert (length w <> 0)%nat by (by destruct w). lia.
Qed.

(** The first write to a file that was just created. *)
Lemma write_saved s ch i it0 base e data s1 desc :
  vol_ok s ch -> item (root s) !! i = Some it0 -> ~ in_use it0 -> Z.of_nat i < total (root s1) ->
  slot_done s ch i (new_item (pad 8 (upcase <$> base)) (pad 3 (upcase <$> e))) (Some []) s1 ->
  (forall x, in_fat s x -> fat_at s1 x = fat_at s x) ->
  desc_of s1 desc i (new_item (pad 8 (upcase <$> base)) (pad 3 (upcase <$> e))) -> fd_pos desc = 0 ->
  bytes_ok data -> 0 < Z.of_nat (length data) < 2 ^ 31 ->
  Z.of_nat (length data) <= csize s * Z.of_nat (length (free_clusters s)) ->
  wp (fat16_write desc 1 (Z.of_nat (length data)) data) (fun r s2 => fst r = Z.of_nat (length data) /\
    (exists it l, saved s ch base e data i it l s2) /\ heap s2 = heap s1 /\
    fi_type (fd_item (snd r)) = FAT_ITEM_TYPE_FILE /\
    forall m, desc_objects (snd r) m = desc_objects desc m /\ (desc_fresh desc m -> desc_fresh (snd r) m)) s1.
Proof.
  intros V Hi Hnu Ht [V1 R1 Oth1 L1] Hfat Hdesc Hpos Hb Hlen Hroom. pose proof V as [Hs G Hd _ _ _ _].
  assert (Hne : data <> []) by (intros ->; simpl in Hlen; lia).
  pose proof (free_clusters_same s s1 G L1 Hfat) as Hfree. assert (Hcs : csize s1 = csize s) by (by apply csize_layout).
  eapply wp_mono; [eapply (fat16_write_spec s1 _ i [] _ desc 1 (Z.of_nat (length data)) data V1)|].
  { apply put_chain_eq. } { exact Hdesc. } { lia. } { lia. } { lia. } { lia. } { done. } { lia. } { lia. }
  { intros _. rewrite Hpos. apply csize_pos. apply V1. } { rewrite Hpos, Hcs, Hfree. simpl. lia. }
  intros [n desc'] s2 ([= ->] & Fw & [Wp Wo (it' & Hd' & N1 & N2 & N3 & N4)]). simpl in *.
  rewrite Hpos, Z.mul_1_l, ?Z.add_0_l in *. rewrite Nat2Z.id, firstn_all in Fw.
  destruct Fw as [(l & V2 & Wb & Wf) Woth Wit Wtot Wh Wl]. cbn [app] in *.
  split; [done|]. split; [|split; [done|split; [by destruct Hd'|done]]].
  assert (Hin : ch !! i = None).
  { destruct (ch !! i) eqn:E; [|done]. destruct Hnu. apply (vo_dom _ _ V i it0 Hi). eauto. }
  rewrite put_chain_twice in V2. exists it', l. split; try done.
  - split; [apply Hd'|]. by rewrite Wtot.
  - rewrite N4. lia.
  - assert (Hf : (0 + length data <= length (chain_bytes s1 l))%nat).
    { apply splice_fits; [|done]. change 0%nat with (Z.to_nat 0). rewrite <- Wb, !length_chain_bytes.
      by rewrite (csize_layout s1 s2). }
    rewrite Wb. split; [by apply (take_drop_splice _ 0)|]. rewrite length_splice; done.
  - intros x Hx. rewrite <- Hfree. auto.
  - intros j l' Hj Hl'. rewrite <- (Oth1 j l') by done. apply (Woth j l'); [done|]. by rewrite put_chain_ne.
  - intros j Hj. rewrite (Wit j Hj), R1. by rewrite list_lookup_insert_ne.
Qed.

(** None of this depends on the heap. *)
Lemma saved_heap s ch base e data i it l s' h :
  saved s ch base e data i it l s' -> saved s ch base e data i it l (set_heap s' h).
Proof. intros []. split; try done. by apply vol_heap. Qed.

Lemma saved_heap_l s ch base e data i it l s' h :
  saved (set_heap s h) ch base e data i it l s' -> saved s ch base e data i it l s'.
Proof. intros []. by split. Qed.

Lemma save_spec s ch m base e k data :
  vol_ok s ch -> owns (heap s) m -> (3 <= free_blocks (heap s))%nat -> valid83 base e ->
  absent s (dotted base e) -> (exists k it, item (root s) !! k = Some it /\ ~ in_use it) ->
  bytes_ok data -> 0 < Z.of_nat (length data) < 2 ^ 31 ->
  Z.of_nat (length data) <= csize s * Z.of_nat (length (free_clusters s)) ->
  wp (save (c_name base e k) data) (fun r s' => r = Some (Z.of_nat (length data)) /\
    (exists i it l, saved s ch base e data i it l s') /\
    owns (heap s') m /\ free_blocks (heap s') = free_blocks (heap s)) s.
Proof.
  intros V Ho Hfb Hv Habs Hslot Hb Hlen Hroom. unfold save.
  eapply wp_step; [by apply (open_write_spec s ch m base e k [])|].
  intros r s1 [(i & it & l & Hl & Hm & _)|[_ [(_ & _ & Hfull)|(i & it0 & Hi & Hnu & Ht & [W1 W2 W3] & Hfat)]]].
  { exfalso. by apply (Habs i it); [apply Hl|apply Hl|]. }
  { destruct Hslot as (q & it & Hk & Hu). destruct Hu. eauto. }
  destruct W3 as [(_ & _ & ?)|(desc & -> & Hdesc & Hpos & Hfr & Ho1 & Hn1)]; [lia|].
  eapply wp_step; [by apply (write_saved s ch i it0 base e data s1 desc)|].
  intros [n desc'] s2 ([= ->] & (it & l & Sv) & Wh & Hty & Wo). destruct (Wo m) as [Wo1 Wo2]. simpl in *.
  eapply wp_step; [apply (fat16_close_spec s2 desc' m); [by rewrite Wo1, Wh|auto|done]|].
  intros _ s3 (_ & h & -> & O3 & N3' & _). apply wp_ret. split; [done|].
  split; [|split; [exact O3|simpl; rewrite N3', Wh, Hn1; lia]]. exists i, it, l. by apply saved_heap.
Qed.

(** A saved file is the only one its name finds, and reading it gives the data. *)
Lemma saved_unique s ch base e data i it l s' :
  saved s ch base e data i it l s' -> absent s (dotted base e) -> valid83 base e ->
  name_matches (dotted base e) it /\ Z.land (attribute it) FAT_FILE_SUBDIRECTORY = 0 /\
  forall k x, k <> i -> Z.of_nat k < total (root s') -> item (root s') !! k = Some x -> ~ name_matches (dotted base e) x.
Proof.
  intros [V _ [N1 [N2 N3]] _ _ _ _ Hits _] Habs Hv. split; [by apply (name_matches_83 base e)|]. split; [by rewrite N3|].
  intros k x Hk Hkt Hx. destruct (decide (first_byte x = 0xE5)) as [E5|E5]; [by apply deleted_no_match|].
  apply (Habs k); [by rewrite <- Hits|]. split; [|done]. by eapply (d_used _ (vo_dir _ _ V)).
Qed.

Lemma saved_read_bytes s ch base e data i it l s' desc q :
  saved s ch base e data i it l s' -> 0 < Z.of_nat (length data) < 2 ^ 31 ->
  fi_union (fd_item desc) = UItem (Some (q, it)) -> fd_pos desc = 0 ->
  wp (fat16_read desc 1 (Z.of_nat (length data))) (fun r s2 =>
    r = (if Z.of_nat (length data) <=? reached s' l then Z.of_nat (length data) else - EIO, take (Z.to_nat (reached s' l)) data) /\ quiet s' s2) s'.
Proof.
  intros [V [Hi Ht] _ _ [Hd Hl] Hfr _ _ _] Hlen Hu Hp. pose proof V as [Hs G _ _ _ _ _].
  assert (Hch : chain_of s' it l) by (apply (vo_chain _ _ V i); [done|apply put_chain_eq]).
  destruct Hch as [[-> _]|Hf]; [simpl in Hl; lia|].
  pose proof (length_chain_bytes s' l) as Hcl. pose proof (csize_pos s' G).
  eapply wp_mono; [apply (fat16_read_bytes s' desc q it l (Z.of_nat (length data))); try done; [apply Hf|apply Hf|lia]|].
  intros x s2 [-> Q2]. split; [|done]. f_equal. rewrite <- Hd at 2. rewrite take_take. f_equal. lia.
Qed.

Lemma saved_reached s ch base e data i it l s' :
  saved s ch base e data i it l s' -> followed l -> Z.of_nat (length data) <= reached s' l.
Proof.
  intros [V _ _ _ [Hd Hl] _ _ _ _] Hf. unfold reached. rewrite reach_all by done.
  pose proof (length_chain_bytes s' l). pose proof (csize_pos s' (vo_geometry _ _ V)). lia.
Qed.

Lemma saved_read s ch base e data i it l s' desc q :
  saved s ch base e data i it l s' -> (forall x, x ∈ free_clusters s -> x ∉ refused) ->
  0 < Z.of_nat (length data) < 2 ^ 31 -> fi_union (fd_item desc) = UItem (Some (q, it)) -> fd_pos desc = 0 ->
  wp (fat16_read desc 1 (Z.of_nat (length data))) (fun r s2 => r = (Z.of_nat (length data), data) /\ quiet s' s2) s'.
Proof.
  intros Sv Href Hlen Hu Hp. eapply wp_mono; [by apply (saved_read_bytes _ _ _ _ _ _ _ _ _ desc q Sv)|].
  intros r s2 [-> Q2]. split; [|done].
  pose proof (saved_reached _ _ _ _ _ _ _ _ _ Sv) as Hr. destruct Sv as [_ _ _ _ _ Hfr _ _ _].
  assert (Hf : followed l) by (intros x Hx; apply Href, Hfr; destruct l; [done|by right]). specialize (Hr Hf).
  rewrite (proj2 (Z.leb_le _ _)) by done. by rewrite take_ge by lia.
Qed.

Lemma load_spec s ch m base e k data i it l s' :
  saved s ch base e data i it l s' -> absent s (dotted base e) -> valid83 base e ->
  (forall x, x ∈ free_clusters s -> x ∉ refused) -> 0 < Z.of_nat (length data) < 2 ^ 31 ->
  owns (heap s') m -> (3 <= free_blocks (heap s'))%nat ->
  wp (load (c_name base e k) (Z.of_nat (length data)))
    (fun r _ => r = Some (Z.of_nat (length data), data)) s'.
Proof.
  intros Sv Habs Hv Href Hlen Ho Hfb. destruct (saved_unique _ _ _ _ _ _ _ _ _ Sv Habs Hv) as (M1 & M2 & M3).
  pose proof Sv as [V [Hi Ht] _ _ _ _ _ _ _]. unfold load.
  eapply wp_step; [apply (open_read_spec s' m base e k i it); try done; apply V|].
  intros r s1 (desc & h & q & -> & -> & Hty & Hu & Hp & _). cbn beta iota.
  eapply wp_step; [apply (saved_read _ _ _ _ _ _ _ _ _ desc q (saved_heap _ _ _ _ _ _ _ _ _ h Sv)); done|].
  intros x s2 [-> _]. by apply wp_ret.
Qed.
End clients.

(** ** Theorems *)
Section theorems.
Context {D : Type} {B : BlockDevice D} {BS : BlockDeviceSpec D} {H : Type} {A : Allocator H} {AS : AllocatorSpec H}.
Implicit Types s : fs_state D H.

(** The filesystem keeps what is saved: on a consistent volume with a free
    directory slot and room for the data, opening a new 8.3 name for writing,
    writing the data and closing, and then opening the name for reading and
    reading, yields the data, and the heap is back to where it was after the
    close.  The files that were there keep their contents, and the volume is
    consistent again. *)
Theorem fat16_save_load s ch m base e k data :
  vol_ok s ch -> owns (heap s) m -> (3 <= free_blocks (heap s))%nat -> valid83 base e ->
  absent s (dotted base e) -> (exists k it, item (root s) !! k = Some it /\ ~ in_use it) ->
  bytes_ok data -> 0 < Z.of_nat (length data) < 2 ^ 31 ->
  Z.of_nat (length data) <= csize s * Z.of_nat (length (free_clusters s)) ->
  (forall x, x ∈ free_clusters s -> x ∉ refused) ->
  wp (save (c_name base e k) data) (fun r s' => r = Some (Z.of_nat (length data)) /\ owns (heap s') m /\
    (exists i l, vol_ok s' (put_chain ch i (Some l)) /\
       forall j l', ch !! j = Some l' -> chain_bytes s' l' = chain_bytes s l') /\
    wp (load (c_name base e k) (Z.of_nat (length data)))
      (fun r _ => r = Some (Z.of_nat (length data), data)) s') s.
Proof.
  intros V Ho Hfb Hv Habs Hslot Hb Hlen Hroom Href.
  eapply wp_mono; [by apply (save_spec s ch m base e k data)|].
  intros r s' (-> & (i & it & l & Sv) & Ho' & Hn). split; [done|]. split; [done|]. split.
  - exists i, l. split; [apply Sv|]. intros j l' Hj. apply (sv_others _ _ _ _ _ _ _ _ _ Sv j l'); [|done].
    intros ->. by rewrite (sv_new _ _ _ _ _ _ _ _ _ Sv) in Hj.
  - eapply load_spec; try done. by rewrite Hn.
Qed.

(** C5: [fat16_write] through a descriptor returns the number of members,
    stores the data at the descriptor's position of its file and nowhere else,
    advances the position, extends the size to the end of the write if that is
    larger, updates the directory entry in memory and on disk, and leaves a
    consistent volume in which every other file has its old contents. *)
Theorem fat16_write_correct s ch i l it desc size nmemb buf :
  vol_ok s ch -> ch !! i = Some l -> desc_of s desc i it ->
  0 < size -> 0 < nmemb -> size * nmemb < 2 ^ 31 -> size * nmemb <= Z.of_nat (length buf) -> bytes_ok buf ->
  0 <= fd_pos desc -> fd_pos desc + size * nmemb < 2 ^ 32 -> (l = [] -> fd_pos desc < csize s) ->
  fd_pos desc + size * nmemb <= csize s * Z.of_nat (length l + length (free_clusters s)) ->
  wp (fat16_write desc size nmemb buf) (fun r s' => fst r = nmemb /\
    file_written s ch i l (fd_pos desc) (take (Z.to_nat (size * nmemb)) buf) s' /\
    desc_written it (fd_pos desc) (size * nmemb) desc (snd r) i s') s.
Proof. apply fat16_write_spec. Qed.

(** C6: [fat16_delete] returns [-EIO] and changes nothing when no entry has
    the name; otherwise it marks the entry as deleted, in memory and on disk,
    zeroes the FAT entries of the file's clusters, does not touch the heap, and leaves a consistent
    volume in which every other file has its old contents. *)
Theorem fat16_delete_correct s ch name path str :
  vol_ok s ch -> search_name name str ->
  wp (fat16_delete (name :: path)) (fun r s' =>
    (r = - EIO /\ s' = s /\ forall k it, listed (item (root s)) k it -> ~ name_matches str it) \/
    (r = 0 /\ exists i it l, listed (item (root s)) i it /\ name_matches str it /\ ch !! i = Some l /\
       slot_done s ch i (deleted_item it) None s' /\ heap s' = heap s /\ forall x, x ∈ l -> fat_at s' x = 0)) s.
Proof. apply fat16_delete_spec. Qed.

(** C7: [fat16_open] with [FILE_MODE_WRITE] truncates the file of that name
    (releasing all its clusters), or else creates an empty file in a free
    slot, or else reports [-ENOMEM] because the directory is full; the
    descriptor is in step with the slot, starts at position 0 and owns three
    heap objects, which are given back if the heap runs out; the volume stays
    consistent and every other file keeps its contents. *)
Theorem fat16_open_write_correct s ch m base e k path :
  vol_ok s ch -> owns (heap s) m -> valid83 base e ->
  wp (fat16_open (c_name base e k :: path) FILE_MODE_WRITE) (fun r s' =>
    (exists i it l, listed (item (root s)) i it /\ name_matches (dotted base e) it /\ ch !! i = Some l /\
       write_opened s ch m i (set_cluster (set_filesize it 0) 0 0) r s' /\ (forall x, x ∈ l -> fat_at s' x = 0)) \/
    ((forall k it, listed (item (root s)) k it -> ~ name_matches (dotted base e) it) /\
     ((r = inl (- ENOMEM) /\ s' = s /\ forall k it, item (root s) !! k = Some it -> in_use it) \/
      exists i it0, item (root s) !! i = Some it0 /\ ~ in_use it0 /\ Z.of_nat i < total (root s') /\
        write_opened s ch m i (new_item (pad 8 (upcase <$> base)) (pad 3 (upcase <$> e))) r s' /\
        (forall x, in_fat s x -> fat_at s' x = fat_at s x)))) s.
Proof. apply open_write_spec. Qed.
End theorems.

(** ** An example volume with one file

    The volume of FatTable with the file A.TXT of 1000 bytes in slot 0; its
    chain is clusters 2 and 3. *)
Module ExampleFiles.
Import ExampleVolume.

Definition a_txt : fat_directory_item :=
  set_filesize (set_cluster (new_item (pad 8 [65]) (pad 3 [84; 88; 84])) 0 2) 1000.
Definition dir_sector : list Z := encode_item a_txt ++ replicate 480 0.
Definition files_image : Ram.ram := {[1 := fat_sector; 2 := fat_sector; 3 := dir_sector]}.
Definition files_priv : fat_private := set_root priv (mk_dir (a_txt :: replicate 15 zero_item) 1 3 4).
Definition files : fs_state Ram.ram KHeap.kheap :=
  mk_fs files_image (KHeap.mk_kheap example_heap ∅) (mk_disk 0 512 0 true (Some files_priv)).
Definition chains : gmap nat (list Z) := {[0%nat := [2; 3]]}.
Definition blocks : gmap Z Z := KHeap.by_address example_heap {[0 := 1]}.

Lemma a_txt_ok : item_ok a_txt.
Proof.
  split; simpl; try (unfold byte_ok; lia); (split; [done|repeat (constructor; [unfold byte_ok; lia|]); constructor]).
Qed.

Lemma files_fs_ok : fs_ok files.
Proof.
  split; [apply (bool_decide_unpack _); vm_compute; exact I|done|]. exists files_priv. split; [done|].
  split; [split; simpl; lia|]. intros []; by eexists.
Qed.

Lemma files_items k it :
  item (root files) !! k = Some it -> (k = 0%nat /\ it = a_txt) \/ ((0 < k < 16)%nat /\ it = zero_item).
Proof.
  change (item (root files)) with (a_txt :: replicate 15 zero_item).
  destruct k as [|k]; simpl; [by intros [= <-]; left|]. intros Hk. right.
  change (replicate 15 zero_item !! k = Some it) in Hk. apply lookup_replicate in Hk as [-> ?]. split; [lia|done].
Qed.

Lemma files_zero k : (0 < k < 16)%nat ->
  bytes files_image (1536 + 32 * Z.of_nat k) 32 = encode_item zero_item.
Proof.
  intros Hk. do 16 (destruct k as [|k]; [try lia; vm_compute; reflexivity|]). lia.
Qed.

Lemma files_dir : dir_ok files.
Proof.
  split.
  - reflexivity.
  - vm_compute. discriminate.
  - intros k it Hk. change (dir_pos files (Z.of_nat k)) with (1536 + 32 * Z.of_nat k).
    change (dev files) with files_image. destruct (files_items k it Hk) as [[-> ->]|[Hlt ->]].
    + split; [exact a_txt_ok|vm_compute; reflexivity].
    + split; [exact zero_item_ok|by apply files_zero].
  - vm_compute. intuition discriminate.
  - intros k it Hk Hlt. change (total (root files)) with 1 in Hlt.
    destruct (files_items k it Hk) as [[-> ->]|[? ->]]; [|lia]. by vm_compute.
Qed.

Lemma files_chain : file_chain files 2 [2; 3].
Proof.
  split.
  - apply chain_next; [lia|vm_compute; intuition discriminate|].
    change (fat_at files 2) with 3. apply chain_last; [lia|right; vm_compute; discriminate].
  - intros x Hx; assert (x = 2 \/ x = 3) as [-> | ->] by (rewrite !elem_of_cons, elem_of_nil in Hx; tauto);
      vm_compute; intuition discriminate.
  - intros x Hx; assert (x = 2 \/ x = 3) as [-> | ->] by (rewrite !elem_of_cons, elem_of_nil in Hx; tauto);
      vm_compute; discriminate.
Qed.

Lemma files_vol : vol_ok files chains.
Proof.
  split; [exact files_fs_ok|split; vm_compute; intuition discriminate|exact files_dir|..].
  - intros k it Hk. destruct (files_items k it Hk) as [[-> ->]|[? ->]].
    + split; [intros _; by vm_compute|eauto].
    + split; [|intros [Hz _]; by destruct Hz]. intros [l Hl]. unfold chains in Hl.
      rewrite lookup_singleton_ne in Hl by lia. done.
  - intros k l Hl. unfold chains in Hl. apply lookup_singleton_Some in Hl as [<- _]. vm_compute. lia.
  - intros k it l Hk Hl. unfold chains in Hl. apply lookup_singleton_Some in Hl as [<- <-].
    destruct (files_items 0 it Hk) as [[_ ->]|[? _]]; [|lia]. right. exact files_chain.
  - intros i j l l' Hne Hi Hj. unfold chains in *. apply lookup_singleton_Some in Hi as [<- _].
    by rewrite lookup_singleton_ne in Hj.
Qed.

Lemma files_owns : owns (heap files) blocks.
Proof. exists {[0 := 1]}. split; [exact example_heap_ok|done]. Qed.

Lemma files_free : length (free_clusters files) = 6%nat.
Proof. vm_compute. reflexivity. Qed.

(** The name B.TXT, as typed and in the form of the directory. *)
Lemma b_txt : valid83 [98] [116; 120; 116].
Proof.
  split; (split; [simpl; lia|]); repeat (constructor; [unfold name_char; lia|]); constructor.
Qed.
Lemma b_txt_absent : absent files (dotted [98] [116; 120; 116]).
Proof.
  intros k it Hk Hu. destruct (files_items k it Hk) as [[_ ->]|[_ ->]]; [by vm_compute|]. by destruct Hu.
Qed.
Definition a_desc : fat_file_descriptor :=
  mk_desc 0x1001000 (mk_fat_item 0x1002000 FAT_ITEM_TYPE_FILE (UItem (Some (0x1003000, a_txt)))) 1000 0.
End ExampleFiles.
Import ExampleFiles.

Lemma fat16_save_load_witness :
  wp (save [98; 46; 116; 120; 116; 0] (replicate 1500 7)) (fun r s' => r = Some 1500 /\
    wp (load [98; 46; 116; 120; 116; 0] 1500) (fun r _ => r = Some (1500, replicate 1500 7)) s') files.
Proof.
  eapply wp_mono; [apply (fat16_save_load files chains blocks [98] [116; 120; 116] 0 (replicate 1500 7))|].
  - exact files_vol.
  - exact files_owns.
  - vm_compute. lia.
  - exact b_txt.
  - exact b_txt_absent.
  - exists 1%nat, zero_item. split; [reflexivity|]. intros [Hz _]. by destruct Hz.
  - apply bytes_ok_replicate. unfold byte_ok. lia.
  - rewrite length_replicate. lia.
  - rewrite length_replicate, files_free. vm_compute. discriminate.
  - intros x Hx. apply elem_of_free in Hx as [[Hc _] _]. unfold is_cluster in Hc.
    change (nclusters files) with 8 in Hc. unfold refused, PEACHOS_FAT16_BAD_SECTOR.
    rewrite !elem_of_cons, elem_of_nil. lia.
  - intros r s' (Hr & _ & _ & Hl). split; [exact Hr|]. exact Hl.
Defined.

Lemma fat16_write_correct_witness :
  wp (fat16_write a_desc 4 2 [1; 2; 3; 4; 5; 6; 7; 8]) (fun r s' => fst r = 2 /\
    exists l, vol_ok s' (put_chain chains 0 (Some l))) files.
Proof.
  eapply wp_mono; [apply (fat16_write_correct files chains 0 [2; 3] a_txt a_desc 4 2 [1; 2; 3; 4; 5; 6; 7; 8])|].
  - exact files_vol.
  - reflexivity.
  - split; [reflexivity|reflexivity|eexists; reflexivity|reflexivity].
  - lia.
  - lia.
  - lia.
  - simpl; lia.
  - repeat constructor; unfold byte_ok; lia.
  - simpl; lia.
  - simpl; lia.
  - discriminate.
  - rewrite files_free. vm_compute. discriminate.
  - intros r s' (Hr & Fw & _). split; [exact Hr|]. destruct (wd_chain _ _ _ _ _ _ _ Fw) as (x & V & _).
    exists ([2; 3] ++ x). exact V.
Defined.

Lemma fat16_delete_correct_witness :
  wp (fat16_delete [[97; 46; 116; 120; 116; 0]]) (fun r s' => r = 0 /\ exists i, vol_ok s' (put_chain chains i None)) files.
Proof.
  eapply wp_mono; [apply (fat16_delete_correct files chains [97; 46; 116; 120; 116; 0] [] [97; 46; 116; 120; 116])|].
  - exact files_vol.
  - split; [repeat constructor; unfold byte_ok; lia|reflexivity|simpl; lia].
  - intros r s' [(_ & _ & Hno)|(Hr & i & it & l & _ & _ & _ & Sd & _)].
    + exfalso. apply (Hno 0%nat a_txt); [|by vm_compute]. split; [reflexivity|by vm_compute|by vm_compute|lia].
    + split; [exact Hr|]. exists i. apply Sd.
Defined.

Lemma fat16_open_write_correct_witness :
  wp (fat16_open [[98; 46; 116; 120; 116; 0]] FILE_MODE_WRITE)
    (fun r s' => exists i, vol_ok s' (put_chain chains i (Some []))) files.
Proof.
  eapply wp_mono; [apply (fat16_open_write_correct files chains blocks [98] [116; 120; 116] 0 [])|].
  - exact files_vol.
  - exact files_owns.
  - exact b_txt.
  - intros r s' [(i & it & l & _ & _ & _ & W & _)|[_ [(_ & _ & Hfull)|(i & it0 & _ & _ & _ & W & _)]]].
    + exists i. apply W.
    + destruct (Hfull 1%nat zero_item eq_refl) as [Hz _]. by destruct Hz.
    + exists i. apply W.
Defined.
