(* ===== verification/FatFiles.v ===== *)
(** * Listing and reading existing files: [fat16_readdir], [fat16_read],
    [fat16_seek] and [fat16_close] of src/fs/fat/fat16.c

    The operations are defined in Fat16; this file relates them to the
    abstract list of visible files of a directory and to the contents of a
    file's chain. *)
From Stdlib Require Import ZArith Lia.
From stdpp Require Import base list gmap numbers option list_numbers.
From S2P Require Import Prelude CLib Heap Disk FatTypes FatTable FatData FatDir Fat16.
Local Open Scope Z_scope.
Local Open Scope kernel_scope.

(** ** What a listing shows *)

(** An entry that [fat16_readdir] counts: not deleted, not a label, not a
    subdirectory. *)
Definition shown (it : fat_directory_item) : bool :=
  negb (first_byte it =? 0xE5) &&
  (Z.land (attribute it) (Z.lor FAT_FILE_VOLUME_LABEL FAT_FILE_SUBDIRECTORY) =? 0).

(** The entries in front of the end mark. *)
Fixpoint before_mark (items : list fat_directory_item) : list fat_directory_item :=
  match items with
  | [] => []
  | it :: items' => if first_byte it =? 0x00 then [] else it :: before_mark items'
  end.

Definition visible (items : list fat_directory_item) : list fat_directory_item :=
  filter (fun it => shown it = true) (before_mark items).

(** The answer of [readdir] for an optional entry. *)
Definition listing (o : option fat_directory_item) (n : nat) : Z * option (list Z) :=
  match o with
  | Some it => (1, Some (item_name it ++ replicate (n - length (item_name it)) 0))
  | None => (0, None)
  end.

Section listing.
Context {D : Type} {B : BlockDevice D} {BS : BlockDeviceSpec D} {H : Type} {A : Allocator H}.
Implicit Types s : fs_state D H.

Lemma readdir_loop_spec n index : (12 <= n)%nat ->
  forall rest pre count, Forall item_ok rest -> 0 <= count <= index ->
  readdir_loop (pre ++ rest) index (Z.of_nat n) count (Z.of_nat (length pre)) (length rest) =
    Ok (listing (visible rest !! Z.to_nat (index - count)) n).
Proof.
  intros Hn. induction rest as [|it rest IH]; intros pre count Hok Hc; cbn [length readdir_loop]; [done|].
  apply Forall_cons in Hok as [Hit Hok].
  rewrite (aget_ok _ _ it) by (lia || by rewrite Nat2Z.id, list_lookup_middle).
  cbn [mbind out_bind]. unfold visible. cbn [before_mark].
  destruct (Z.eqb_spec (first_byte it) 0) as [E0|E0]; [done|].
  assert (IH' : forall c, 0 <= c <= index ->
    readdir_loop (pre ++ it :: rest) index (Z.of_nat n) c (Z.of_nat (length pre) + 1) (length rest) =
      Ok (listing (visible rest !! Z.to_nat (index - c)) n)).
  { intros c Hc'. rewrite (cons_middle it), app_assoc.
    replace (Z.of_nat (length pre) + 1) with (Z.of_nat (length (pre ++ [it]))) by (rewrite length_app; simpl; lia).
    by apply IH. }
  rewrite filter_cons. destruct (shown it) eqn:Hsh; unfold shown in Hsh.
  2:{ rewrite decide_False by done. destruct (first_byte it =? 0xE5); [by apply IH'|]. simpl in Hsh. rewrite Hsh.
      by apply IH'. }
  apply andb_true_iff in Hsh as [->%negb_true_iff ->]. cbn [negb].
  rewrite decide_True by done. destruct (Z.eqb_spec count index) as [->|Hne].
  - destruct (ok_filename _ Hit) as [F1 _], (ok_ext _ Hit) as [F2 _].
    rewrite full_relative_filename_spec by done. by rewrite Z.sub_diag.
  - rewrite IH' by lia. replace (Z.to_nat (index - count)) with (S (Z.to_nat (index - (count + 1)))) by lia. done.
Qed.

(** C29: listing a directory.  For every index, [fat16_readdir] returns 1 and
    the NUL-padded name of the index-th visible file (in front of the end
    mark, neither deleted nor a label nor a subdirectory), and 0 exactly when
    there are no more; the state does not change. *)
Theorem fat16_readdir_correct s index n :
  fs_ok s -> dir_ok s -> 0 <= index -> (12 <= n)%nat ->
  wp (fat16_readdir index (Z.of_nat n)) (fun r s' =>
    s' = s /\ r = listing (visible (item (root s)) !! Z.to_nat index) n) s.
Proof.
  intros Hs Hd Hi Hn. pose proof Hs as [_ _ (p & E & _)].
  assert (Er : root s = root_directory p) by (unfold root; by rewrite E).
  assert (Eh : hdr s = primary_header (header p)) by (unfold hdr; by rewrite E).
  unfold fat16_readdir. apply wp_bind, (wp_private _ _ p); [done|]. rewrite <- Er, <- Eh, <- (d_len _ Hd), Nat2Z.id.
  eapply wp_lift; [|split; [done|reflexivity]].
  pose proof (readdir_loop_spec n index Hn (item (root s)) [] 0 (dir_items_ok s Hd)) as W.
  rewrite Z.sub_0_r in W. apply W. lia.
Qed.
End listing.

(** ** Opening, reading and closing an existing file *)
Section reading.
Context {D : Type} {B : BlockDevice D} {BS : BlockDeviceSpec D} {H : Type} {A : Allocator H} {AS : AllocatorSpec H}.
Implicit Types s : fs_state D H.

(** The entry [it] of slot [i] is the only one the search for a name can find. *)
Record only_match s (base e : list Z) (i : nat) (it : fat_directory_item) : Prop := {
  om_item : item (root s) !! i = Some it;
  om_counted : Z.of_nat i < total (root s);
  om_match : name_matches (dotted base e) it;
  om_file : Z.land (attribute it) FAT_FILE_SUBDIRECTORY = 0;
  om_only : forall k x, k <> i -> Z.of_nat k < total (root s) -> item (root s) !! k = Some x ->
     ~ name_matches (dotted base e) x }.

(** A client: open for reading, move to [off], read [nmemb] members of
    [size] bytes, close. *)
Definition read_at (name : list Z) (off size nmemb : Z) : M (fs_state D H) (Z * Z * list Z) :=
  r ← fat16_open [name] FILE_MODE_READ;
  match r with
  | inl e => mret (e, 0, [])
  | inr desc =>
      '(sk, desc) ← fat16_seek desc off SEEK_SET;
      '(n, b) ← fat16_read desc size nmemb;
      _ ← fat16_close desc; mret (sk, n, b)
  end.

End reading.

(** ** Witnesses *)
Import ExampleVolume ExampleFiles.

Lemma fat16_readdir_correct_witness :
  wp (fat16_readdir 0 20) (fun r s' => r = (1, Some ([65; 46; 84; 88; 84] ++ replicate 15 0)) /\
    wp (fat16_readdir 1 20) (fun r _ => r = (0, None)) s') files.
Proof.
  eapply wp_mono; [apply (fat16_readdir_correct files 0 20 files_fs_ok files_dir); lia|].
  intros r s' [-> ->]. split; [vm_compute; reflexivity|].
  eapply wp_mono; [apply (fat16_readdir_correct files 1 20 files_fs_ok files_dir); lia|].
  intros r s' [_ ->]. vm_compute. reflexivity.
Defined.

