(* ===== verification/FatFrame.v ===== *)
(** * What the FAT16 operations never touch

    Apart from mounting, no operation of the table changes the fields of the
    global [struct disk] other than its private data: the file system stays
    attached, and the disk keeps its type, number and sector size.  The proof
    is compositional: [keeps] is closed under the monad, and the hint
    database [keeps] collects the functions of the driver. *)
From Stdlib Require Import ZArith Lia.
From stdpp Require Import base list gmap numbers option list_numbers.
From S2P Require Import Prelude CLib Heap Disk FatTypes FatTable FatData FatDir Fat16.
Local Open Scope Z_scope.
Local Open Scope kernel_scope.

Create HintDb keeps.

Section frame.
Context {D : Type} {B : BlockDevice D} {H : Type} {A : Allocator H}.
Implicit Types s : fs_state D H.

(** The fields of the disk but for [fs_private]. *)
Definition disk_fields s : Z * Z * Z * bool :=
  let k := the_disk s in (disk_type k, sector_size k, id k, filesystem k).

Definition keeps {T} (m : M (fs_state D H) T) : Prop :=
  forall s a s', m s = Ok (a, s') -> disk_fields s' = disk_fields s.

Lemma keeps_ret {T} (a : T) : keeps (mret a).
Proof. by intros s a' s' [= <- <-]. Qed.
Lemma keeps_bind {T U} (m : M (fs_state D H) T) (f : T -> M (fs_state D H) U) :
  keeps m -> (forall a, keeps (f a)) -> keeps (mbind f m).
Proof.
  intros Hm Hf s b s' E. unfold mbind, M_bind in E. destruct (m s) as [[a s1]| |] eqn:E1; try done.
  rewrite (Hf a s1 b s' E). by apply (Hm s a).
Qed.
Lemma keeps_gets {T} (f : fs_state D H -> T) : keeps (gets f).
Proof. by intros s a s' [= <- <-]. Qed.
Lemma keeps_ub {T} : keeps (ub : M (fs_state D H) T).
Proof. by intros s a s'. Qed.
Lemma keeps_hang {T} : keeps (hang : M (fs_state D H) T).
Proof. by intros s a s'. Qed.
Lemma keeps_lift {T} (o : out T) : keeps (lift_out o).
Proof. intros s a s'. unfold lift_out. destruct o; try done. by intros [= <- <-]. Qed.
Lemma keeps_dev (d : D) : keeps (modify (fun s => set_dev s d)).
Proof. by intros s a s' [= <- <-]. Qed.
Lemma keeps_heap (h : H) : keeps (modify (fun s => set_heap s h)).
Proof. by intros s a s' [= <- <-]. Qed.
Lemma keeps_private : keeps private.
Proof. intros s a s'. unfold private. destruct (fs_private _); try done. by intros [= <- <-]. Qed.
Lemma keeps_put_private p : keeps (put_private p).
Proof. by intros s a s' [= <- <-]. Qed.
Lemma keeps_sector_size : keeps disk_sector_size.
Proof. apply keeps_gets. Qed.
End frame.

#[export] Hint Resolve keeps_ret keeps_gets keeps_ub keeps_hang keeps_lift keeps_dev keeps_heap keeps_private
  keeps_put_private keeps_sector_size : keeps.

(** One structural step: a bind, a case distinction, a known function. *)
Ltac keeps_step :=
  match goal with
  | |- keeps (mbind _ _) => apply keeps_bind; [|intros ?]
  | |- keeps (match ?x with _ => _ end) => destruct x
  | |- keeps _ => solve [auto with keeps nocore]
  end.
Ltac solve_keeps := repeat keeps_step.

Section driver.
Context {D : Type} {B : BlockDevice D} {H : Type} {A : Allocator H}.
Implicit Types s : fs_state D H.
Local Abbreviation keeps := (@keeps D H _).

Lemma keeps_stream_of i : keeps (stream_of i).
Proof. unfold stream_of. solve_keeps. Qed.
Lemma keeps_put_stream_of i v : keeps (put_stream_of i v).
Proof. unfold put_stream_of. solve_keeps. Qed.
Hint Resolve keeps_stream_of keeps_put_stream_of : keeps.

Lemma keeps_seek i pos : keeps (seek i pos).
Proof. unfold seek. solve_keeps. Qed.
Lemma keeps_sread i n : keeps (sread i n).
Proof. unfold sread. solve_keeps. Qed.
Lemma keeps_swrite i b n : keeps (swrite i b n).
Proof. unfold swrite. solve_keeps. Qed.
Lemma keeps_zalloc n : keeps (zalloc n).
Proof. unfold zalloc. solve_keeps. Qed.
Lemma keeps_release p : keeps (release p).
Proof. unfold release. solve_keeps. Qed.
Hint Resolve keeps_seek keeps_sread keeps_swrite keeps_zalloc keeps_release : keeps.

Lemma keeps_get_fat_entry c : keeps (fat16_get_fat_entry c).
Proof. unfold fat16_get_fat_entry. solve_keeps. Qed.
Lemma keeps_set_fat_entry c x : keeps (fat16_set_fat_entry c x).
Proof. unfold fat16_set_fat_entry. solve_keeps. Qed.
Hint Resolve keeps_get_fat_entry keeps_set_fat_entry : keeps.

Lemma keeps_free_cluster_loop n : forall i, keeps (free_cluster_loop i n).
Proof. induction n; intros i; cbn [free_cluster_loop]; solve_keeps. Qed.
Hint Resolve keeps_free_cluster_loop : keeps.
Lemma keeps_alloc_cluster c : keeps (fat16_alloc_cluster c).
Proof. unfold fat16_alloc_cluster, fat16_find_free_cluster. solve_keeps. Qed.
Lemma keeps_free_chain_loop fuel : forall c, keeps (free_chain_loop c fuel).
Proof. induction fuel; intros c; cbn [free_chain_loop]; solve_keeps. Qed.
Lemma keeps_free_cluster_chain c : keeps (fat16_free_cluster_chain c).
Proof. apply keeps_free_chain_loop. Qed.
Hint Resolve keeps_alloc_cluster keeps_free_cluster_chain : keeps.

Lemma keeps_cluster_walk n : forall c, keeps (cluster_walk c n).
Proof. induction n; intros c; cbn [cluster_walk]; solve_keeps. Qed.
Hint Resolve keeps_cluster_walk : keeps.
Lemma keeps_read_from_stream fuel i : forall c off n, keeps (read_from_stream fuel i c off n).
Proof.
  induction fuel; intros c off n; cbn [read_from_stream];
    unfold fat16_get_cluster_for_offset; cbn zeta; solve_keeps.
Qed.
Lemma keeps_read_internal c off n : keeps (fat16_read_internal c off n).
Proof. apply keeps_read_from_stream. Qed.
Hint Resolve keeps_read_internal : keeps.

Lemma keeps_next_or_extend c : keeps (next_or_extend c).
Proof. unfold next_or_extend. solve_keeps. Qed.
Hint Resolve keeps_next_or_extend : keeps.
Lemma keeps_write_walk n : forall c, keeps (write_walk c n).
Proof. induction n; intros c; cbn [write_walk]; solve_keeps. Qed.
Lemma keeps_write_cluster_data c off b n : keeps (fat16_write_cluster_data c off b n).
Proof. unfold fat16_write_cluster_data. solve_keeps. Qed.
Hint Resolve keeps_write_walk keeps_write_cluster_data : keeps.
Lemma keeps_write_loop fuel : forall c off w n cs d, keeps (write_loop fuel c off w n cs d).
Proof. induction fuel; intros; cbn [write_loop]; cbn zeta; solve_keeps. Qed.
Hint Resolve keeps_write_loop : keeps.
Lemma keeps_write_internal c off d n : keeps (fat16_write_internal c off d n).
Proof. unfold fat16_write_internal. cbn zeta. solve_keeps. Qed.
Hint Resolve keeps_write_internal : keeps.

Lemma keeps_root_item i : keeps (root_item i).
Proof. unfold root_item. solve_keeps. Qed.
Lemma keeps_put_root_item i it : keeps (put_root_item i it).
Proof. unfold put_root_item. solve_keeps. Qed.
Lemma keeps_write_root_dir_entry i : keeps (fat16_write_root_dir_entry i).
Proof.
  unfold fat16_write_root_dir_entry, root_item. cbn zeta. solve_keeps.
Qed.
Lemma keeps_find_by_name n : keeps (fat16_find_root_dir_slot_by_name n).
Proof. unfold fat16_find_root_dir_slot_by_name. solve_keeps. Qed.
Lemma keeps_find_free : keeps fat16_find_free_root_dir_slot.
Proof. unfold fat16_find_free_root_dir_slot. solve_keeps. Qed.
Hint Resolve keeps_root_item keeps_put_root_item keeps_write_root_dir_entry keeps_find_by_name keeps_find_free : keeps.

Lemma keeps_clone it n : keeps (fat16_clone_directory_item it n).
Proof. unfold fat16_clone_directory_item. solve_keeps. Qed.
Hint Resolve keeps_clone : keeps.
Lemma keeps_open_write name : keeps (open_write name).
Proof. unfold open_write, truncate_slot, create_slot, write_descriptor. solve_keeps. Qed.
Hint Resolve keeps_open_write : keeps.

Lemma keeps_count_items fuel : forall i, keeps (count_items fuel i).
Proof. induction fuel; intros i; cbn [count_items]; cbn zeta; solve_keeps. Qed.
Hint Resolve keeps_count_items : keeps.
Lemma keeps_free_directory d : keeps (fat16_free_directory d).
Proof. unfold fat16_free_directory. solve_keeps. Qed.
Hint Resolve keeps_free_directory : keeps.
Lemma keeps_load_fat_directory it : keeps (fat16_load_fat_directory it).
Proof.
  unfold fat16_load_fat_directory, fat16_get_total_items_for_directory. cbn zeta. solve_keeps.
Qed.
Lemma keeps_fat_item_free it : keeps (fat16_fat_item_free it).
Proof. unfold fat16_fat_item_free. solve_keeps. Qed.
Hint Resolve keeps_load_fat_directory keeps_fat_item_free : keeps.
Lemma keeps_find_item_loop items name n : forall i f, keeps (find_item_loop items name i n f).
Proof.
  induction n; intros i f; cbn [find_item_loop]; unfold fat16_new_fat_item_for_directory_item; solve_keeps.
Qed.
Hint Resolve keeps_find_item_loop : keeps.
Lemma keeps_entry_loop path : forall c, keeps (entry_loop c path).
Proof. induction path; intros c; cbn [entry_loop]; unfold fat16_find_item_in_directory; solve_keeps. Qed.
Hint Resolve keeps_entry_loop : keeps.

(** ** The operations of the table *)
Lemma keeps_open path mode : keeps (fat16_open path mode).
Proof.
  unfold fat16_open, open_read, fat16_get_directory_entry, fat16_find_item_in_directory. solve_keeps.
Qed.
Lemma keeps_write desc size n b : keeps (fat16_write desc size n b).
Proof. unfold fat16_write, desc_item. cbn zeta. solve_keeps. Qed.
Lemma keeps_close desc : keeps (fat16_close desc).
Proof. unfold fat16_close, fat16_free_file_descriptor. solve_keeps. Qed.
Lemma keeps_delete path : keeps (fat16_delete path).
Proof. unfold fat16_delete. cbn zeta. solve_keeps. Qed.
Lemma keeps_read_members c size n : forall off, keeps (read_members c off size n).
Proof. induction n; intros off; cbn [read_members]; solve_keeps. Qed.
Hint Resolve keeps_read_members : keeps.
Lemma keeps_read desc size n : keeps (fat16_read desc size n).
Proof. unfold fat16_read, desc_item. cbn zeta. solve_keeps. Qed.
End driver.
#[export] Hint Resolve keeps_open keeps_write keeps_close keeps_delete keeps_read : keeps.

(** Adding the frame to a specification. *)
Lemma wp_keeps {D H T : Type} (m : M (fs_state D H) T) Q (s : fs_state D H) :
  keeps m -> wp m Q s -> wp m (fun a s' => Q a s' /\ disk_fields s' = disk_fields s) s.
Proof.
  intros K W. apply wp_iff in W as (a & s' & E & HQ). apply wp_iff. exists a, s'. split; [done|]. split; [done|].
  by apply (K s a).
Qed.
