(* ===== verification/Mount.v ===== *)
(** * Mounting: [fat16_resolve] of src/fs/fat/fat16.c

    Mounting a volume reads the boot sector and the root directory.  The
    theorems of this file show that it establishes the state the other
    operations are proved in ([fs_ok], [dir_ok]), and what it does on a disk
    that is not FAT16. *)
From Stdlib Require Import ZArith Lia.
From stdpp Require Import base list gmap numbers option list_numbers.
From S2P Require Import Prelude CLib Heap Disk FatTypes FatTable FatData FatDir Fat16.
Local Open Scope Z_scope.
Local Open Scope kernel_scope.

Section mount.
Context {D : Type} {B : BlockDevice D} {BS : BlockDeviceSpec D} {H : Type} {A : Allocator H} {AS : AllocatorSpec H}.
Implicit Types s : fs_state D H.

(** The item at position [p] of the device. *)
Definition item_at (d : D) (p : Z) : fat_directory_item := decode_item (bytes d p 32).

(** The number of entries [fat16_get_total_items_for_directory] counts among
    the [n] entries from position [p] on: all but the deleted ones. *)
Fixpoint count_live (d : D) (p : Z) (n : nat) : Z :=
  match n with
  | O => 0
  | S n => (if first_byte (item_at d p) =? 0xE5 then 0 else 1) + count_live d (p + 32) n
  end.

Lemma count_live_range d n : forall p, 0 <= count_live d p n <= Z.of_nat n.
Proof.
  induction n as [|n IH]; intros p; cbn [count_live]; [lia|]. pose proof (IH (p + 32)). destruct (_ =? _); lia.
Qed.

Lemma item_at_same d d' p : same_disk d d' -> item_at d' p = item_at d p.
Proof. intros Hd. unfold item_at. by rewrite (bytes_same d). Qed.
Lemma count_live_same d d' n : same_disk d d' -> forall p, count_live d' p n = count_live d p n.
Proof.
  intros Hd. induction n as [|n IH]; intros p; cbn [count_live]; [done|]. by rewrite (item_at_same d), IH.
Qed.

Lemma item_in_bounds p : p mod 32 = 0 -> read_in_bounds p 32.
Proof.
  intros Hp. right. pose proof (Z.mod_pos_bound p 512 ltac:(lia)).
  assert (E : (p mod 512) mod 32 = 0).
  { change 512 with (32 * 16). rewrite Z.rem_mul_r by lia.
    rewrite Hp, Z.add_0_l, Z.mul_comm. apply Z_mod_mult. }
  pose proof (Z.div_mod (p mod 512) 32 ltac:(lia)). lia.
Qed.

(** Counting stops at the first end mark. *)
Lemma count_items_spec z : forall s p i fuel,
  fs_ok s -> stream_at s DIRECTORY p -> 0 <= p -> p mod 32 = 0 -> p + 32 * Z.of_nat z + 32 < 2 ^ 31 ->
  (forall k, (k < z)%nat -> first_byte (item_at (dev s) (p + 32 * Z.of_nat k)) <> 0) ->
  first_byte (item_at (dev s) (p + 32 * Z.of_nat z)) = 0 -> (z < fuel)%nat ->
  wp (count_items fuel i) (fun r s' => r = i + count_live (dev s) p z /\ quiet s s') s.
Proof.
  induction z as [|z IH]; intros s p i fuel Hs Hat Hp Hal Hmax Hne Hz Hf;
    (destruct fuel as [|fuel]; [lia|]); cbn [count_items].
  - eapply wp_step; [apply (sread_spec s DIRECTORY p 32); try done; [lia|by apply item_in_bounds]|].
    intros _ s1 (-> & Q1 & _). cbn -[first_byte decode_item]. rewrite Z.add_0_r in Hz. unfold item_at in Hz.
    rewrite Hz. cbn [Z.eqb]. apply wp_ret. split; [lia|done].
  - eapply wp_step; [apply (sread_spec s DIRECTORY p 32); try done; [lia|by apply item_in_bounds]|].
    intros _ s1 (-> & Q1 & A1). cbn -[first_byte decode_item count_items count_live].
    pose proof (Hne 0%nat ltac:(lia)) as H0. rewrite Z.add_0_r in H0. unfold item_at in H0.
    destruct (Z.eqb_spec (first_byte (decode_item (bytes (dev s) p 32))) 0); [done|].
    assert (IH' : forall j, wp (count_items fuel j) (fun r s' => r = j + count_live (dev s) (p + 32) z /\ quiet s s') s1).
    { intros j. pose proof (fun q => item_at_same _ _ q (q_disk _ _ Q1)) as Hit.
      eapply wp_mono; [apply (IH s1 (p + 32) j fuel); try done; try lia|].
      - apply Q1.
      - rewrite <- Zplus_mod_idemp_r, Z_mod_same_full, Z.add_0_r. done.
      - intros k Hk. rewrite Hit. replace (p + 32 + 32 * Z.of_nat k) with (p + 32 * Z.of_nat (S k)) by lia.
        apply Hne. lia.
      - rewrite Hit. replace (p + 32 + 32 * Z.of_nat z) with (p + 32 * Z.of_nat (S z)) by lia. done.
      - intros r s2 [-> Q2]. rewrite (count_live_same (dev s)) by apply Q1. split; [done|]. by eapply quiet_trans. }
    cbn [count_live]. unfold item_at.
    destruct (Z.eqb_spec (first_byte (decode_item (bytes (dev s) p 32))) 0xE5).
    + eapply wp_mono; [apply (IH' i)|]. intros r s2 [-> Q2]. split; [lia|done].
    + eapply wp_mono; [apply (IH' (i + 1))|]. intros r s2 [-> Q2]. split; [lia|done].
Qed.

(** The root directory as the boot sector describes it. *)
Definition root_sector (hd : fat_header) : Z := fat_copies hd * sectors_per_fat hd + reserved_sectors hd.

(** A volume whose root directory [fat16_get_root_directory] can read: it fits
    in one heap block, its position fits an [int], and it has an end mark,
    the first of which is entry [z]. *)
Record mountable (d : D) (hd : fat_header) (z : nat) : Prop := {
  mt_entries : 0 < root_dir_entries hd * 32 <= 4096;
  mt_pos : 0 <= root_sector hd < 2 ^ 21;
  mt_mark : Z.of_nat z < root_dir_entries hd;
  mt_first : first_byte (item_at d (512 * root_sector hd + 32 * Z.of_nat z)) = 0;
  mt_before : forall k, (k < z)%nat -> first_byte (item_at d (512 * root_sector hd + 32 * Z.of_nat k)) <> 0 }.

(** The root directory in memory after mounting. *)
Definition mounted_root (d : D) (hd : fat_header) (z : nat) : fat_directory :=
  mk_dir (decode_items (Z.to_nat (root_dir_entries hd)) (bytes d (512 * root_sector hd) (root_dir_entries hd * 32)))
    (count_live d (512 * root_sector hd) z) (root_sector hd) (root_sector hd + root_dir_entries hd * 32 ÷ 512).

Lemma fs_ok_heap s h : fs_ok s -> fs_ok (set_heap s h).
Proof. by intros []. Qed.

Lemma get_root_directory_spec s z m :
  fs_ok s -> owns (heap s) m -> (1 <= free_blocks (heap s))%nat -> mountable (dev s) (hdr s) z ->
  wp fat16_get_root_directory (fun r s' => r = 0 /\ fs_ok s' /\ hdr s' = hdr s /\
    root s' = mounted_root (dev s) (hdr s) z /\ same_disk (dev s) (dev s') /\
    free_blocks (heap s) = S (free_blocks (heap s')) /\ loses (heap s) (heap s') 1 /\
    exists q, 0 < q /\ m !! q = None /\ owns (heap s') (<[q := 1]> m)) s.
Proof.
  intros Hs Ho Hfb [M1 M2 M3 M4 M5]. pose proof Hs as [_ Hss (p & E & _)].
  assert (Eh : primary_header (header p) = hdr s) by (unfold hdr; by rewrite E).
  unfold fat16_get_root_directory. apply wp_bind, (wp_private _ _ p); [done|]. apply wp_bind, wp_gets.
  rewrite Eh, Hss. fold (root_sector (hdr s)). cbn [Z.eqb Pos.eqb]. apply wp_bind, wp_ret. unfold sizeof_item.
  unfold fat16_get_total_items_for_directory. apply wp_bind, wp_bind, wp_gets. rewrite Hss.
  rewrite (u32_id (root_sector _)), u32_id, (i32_id (root_sector (hdr s) * 512)) by lia.
  replace (root_sector (hdr s) * 512) with (512 * root_sector (hdr s)) by lia.
  eapply wp_step; [by apply seek_spec|]. intros _ s1 (-> & Q1 & A1). cbn -[count_items dir_fuel].
  pose proof (fun q => item_at_same _ _ q (q_disk _ _ Q1)) as Hd1.
  eapply wp_mono; [apply (count_items_spec z s1 (512 * root_sector (hdr s)) 0 dir_fuel); try done; try lia|].
  { apply Q1. } { rewrite Z.mul_comm. change 512 with (16 * 32). rewrite Z.mul_assoc. apply Z_mod_mult. }
  { intros k Hk. rewrite Hd1. auto. } { by rewrite Hd1. } { unfold dir_fuel. lia. }
  intros t s2 [-> Q2]. rewrite (count_live_same (dev s)), Z.add_0_l by apply Q1. pose proof (quiet_trans _ _ _ Q1 Q2) as Q12.
  pose proof (view_heap s s2 (q_view _ _ Q12)) as Hh2.
  eapply wp_step; [apply (zalloc_spec s2 m); [by rewrite Hh2|lia]|].
  intros a s3 (h & -> & [(-> & _ & N)|(Ha & Fa & O3 & N3 & L3)]); [rewrite Hh2 in N; lia|].
  destruct (Z.eqb_spec a 0); [lia|]. unfold fat16_sector_to_absolute. apply wp_bind, wp_bind, wp_gets.
  assert (Hss2 : sector_size (the_disk (set_heap s2 h)) = 512) by apply Q12. rewrite Hss2. apply wp_ret.
  rewrite i32_id by lia. replace (root_sector (hdr s) * 512) with (512 * root_sector (hdr s)) by lia.
  eapply wp_step; [apply seek_spec, fs_ok_heap, Q12|]. intros _ s4 (-> & Q4 & A4). cbn -[decode_items].
  eapply wp_step; [apply (sread_spec s4 DIRECTORY (512 * root_sector (hdr s)) (root_dir_entries (hdr s) * 32))|].
  { apply Q4. } { done. } { lia. } { lia. } { lia. }
  { left. rewrite Z.mul_comm. apply Z_mod_mult. }
  intros _ s5 (-> & Q5 & _). cbn -[decode_items].
  pose proof (quiet_trans _ _ _ Q4 Q5) as Q45. destruct (q_ok _ _ Q5) as [_ _ (p5 & E5 & _)].
  apply wp_bind, (wp_private _ _ p5); [done|]. apply wp_bind, wp_modify, wp_ret. split; [done|].
  destruct (set_root_spec s5 p5 (mounted_root (dev s) (hdr s) z) (q_ok _ _ Q5) E5) as (O6 & H6 & R6 & P6 & D6).
  assert (Hb : bytes (dev s4) (512 * root_sector (hdr s)) (root_dir_entries (hdr s) * 32) =
               bytes (dev s) (512 * root_sector (hdr s)) (root_dir_entries (hdr s) * 32)).
  { rewrite (bytes_same (dev (set_heap s2 h))) by apply Q4. apply (bytes_same (dev s)), Q12. }
  rewrite Hb. fold (mounted_root (dev s) (hdr s) z).
  split; [exact O6|]. split; [|split; [exact R6|split]].
  - rewrite H6, (view_hdr _ _ (q_view _ _ Q45)). change (hdr (set_heap s2 h)) with (hdr s2).
    by apply view_hdr, Q12.
  - rewrite D6. etransitivity; [apply Q12|]. apply (q_disk _ _ Q45).
  - rewrite P6, (view_heap _ _ (q_view _ _ Q45)), <- Hh2. exact (conj N3 (conj L3 (ex_intro _ a (conj Ha (conj Fa O3))))).
Qed.

(** ** The boot sector *)
Definition boot (d : D) : fat_h := decode_fat_h (bytes d 0 62).

Lemma decode_header_ok b : length b = 62%nat -> bytes_ok b -> header_ok (primary_header (decode_fat_h b)).
Proof.
  intros Hl Hb. do 36 (destruct b as [|? b]; [done|]). unfold bytes_ok in Hb.
  repeat (apply Forall_cons_1 in Hb as [? Hb]). unfold byte_ok in *.
  unfold decode_fat_h, fieldz, field. cbn -[of_le].
  split; cbn -[of_le]; rewrite ?of_le1; try done;
    try (by apply of_le_range2); by apply of_le_range4.
Qed.

Lemma boot_same d d' : same_disk d d' -> boot d' = boot d.
Proof. intros Hd. unfold boot. by rewrite (bytes_same d). Qed.

(** ** Streams on the heap *)
Lemma new_stream_spec s m :
  owns (heap s) m -> (1 <= free_blocks (heap s))%nat ->
  wp (new_stream 0) (fun r s' => exists a h, r = Some (Streamer.mk_stream a 0 DISK) /\ s' = set_heap s h /\
    0 < a /\ m !! a = None /\ owns h (<[a := 1]> m) /\ free_blocks (heap s) = S (free_blocks h) /\ loses (heap s) h 1) s.
Proof.
  intros Ho Hf. destruct (kzalloc_small (heap s) m Streamer.sizeof_disk_stream Ho ltac:(done)) as (a & h & E & Hc).
  destruct Hc as [(_ & _ & ?)|(Ha & Fa & Oa & Na)]; [lia|].
  unfold new_stream. apply wp_bind, wp_gets, wp_bind.
  eapply (wp_lift _ (Some (Streamer.mk_stream a 0 DISK), h)).
  - unfold Streamer.diskstreamer_new. cbn [disk_get Z.eqb negb]. rewrite E. cbn -[Z.eqb].
    destruct (Z.eqb_spec a 0); [lia|done].
  - apply wp_bind, wp_modify, wp_ret. exists a, h. split; [done|]. split; [done|]. split; [lia|].
    repeat (split; [done|]). by apply (kzalloc_loses (heap s) m Streamer.sizeof_disk_stream a).
Qed.

(** [grown m n h h']: [h'] owns the blocks of [m] and more; [n] blocks of [h]
    were taken. *)
Definition grown (m : gmap Z Z) (n : nat) (h h' : H) : Prop :=
  exists m', m ⊆ m' /\ owns h' m' /\ free_blocks h = (n + free_blocks h')%nat.

Lemma grown_insert m m' a n h h' :
  m ⊆ m' -> m' !! a = None -> owns h' (<[a := 1]> m') -> free_blocks h = (n + free_blocks h')%nat -> grown m n h h'.
Proof. intros ? ? ? ?. exists (<[a := 1]> m'). split; [|done]. etransitivity; [done|by apply insert_subseteq]. Qed.

(** Private data whose five streams exist. *)
Definition streams_ok (p : fat_private) : Prop := forall i, exists v, get_stream p i = Some v /\ Streamer.disk v = DISK.

Lemma init_private_spec s m :
  owns (heap s) m -> (5 <= free_blocks (heap s))%nat ->
  wp (fat16_init_private 0) (fun p s' => streams_ok p /\ exists h, s' = set_heap s h /\ grown m 5 (heap s) h /\ loses (heap s) h 5) s.
Proof.
  intros Ho Hf. unfold fat16_init_private.
  eapply wp_step; [apply (new_stream_spec s m); [done|lia]|]. intros r1 s1 (a1 & h1 & -> & -> & _ & F1 & O1 & N1 & L1).
  eapply wp_step; [apply (new_stream_spec (set_heap s h1) _ O1); simpl; lia|].
  intros r2 s2 (a2 & h2 & -> & -> & _ & F2 & O2 & N2 & L2).
  eapply wp_step; [apply (new_stream_spec (set_heap s h2) _ O2); simpl in *; lia|].
  intros r3 s3 (a3 & h3 & -> & -> & _ & F3 & O3 & N3 & L3).
  eapply wp_step; [apply (new_stream_spec (set_heap s h3) _ O3); simpl in *; lia|].
  intros r4 s4 (a4 & h4 & -> & -> & _ & F4 & O4 & N4 & L4).
  eapply wp_step; [apply (new_stream_spec (set_heap s h4) _ O4); simpl in *; lia|].
  intros r5 s5 (a5 & h5 & -> & -> & _ & F5 & O5 & N5 & L5). apply wp_ret. split; [intros []; by eexists|].
  exists h5. split; [done|]. split; [|do 4 (eapply loses_trans; [eassumption| |reflexivity]); exact L5].
  eapply (grown_insert m _ a5); [|exact F5|exact O5|simpl in *; lia].
  etransitivity; [by apply (insert_subseteq _ a1 1)|]. etransitivity; [by apply (insert_subseteq _ a2 1)|].
  etransitivity; [by apply (insert_subseteq _ a3 1)|]. by apply insert_subseteq.
Qed.

(** What [fat16_resolve] needs of the kernel: an idle device, the global disk
    as [disk_search_and_init] leaves it, and [n] free heap blocks. *)
Record unmounted s (m : gmap Z Z) (n : nat) : Prop := {
  um_dev : dev_ok (dev s);
  um_size : sector_size (the_disk s) = 512;
  um_id : id (the_disk s) = 0;
  um_heap : owns (heap s) m;
  um_room : (n <= free_blocks (heap s))%nat }.

(** The part of [fat16_resolve] that takes the signature of the boot sector
    into account. *)
Definition check_root (b : fat_h) : M (fs_state D H) Z :=
  if negb (signature (extended_header b) =? 0x29) then mret (- EFSNOTUS)
  else r ← fat16_get_root_directory; if negb (r =? PEACHOS_ALL_OK) then mret (- EIO) else mret 0.

(** Everything [fat16_resolve] does before that: the streams exist, the
    header is the boot sector's, the disk's contents are the old ones. *)
Record header_read s m s' : Prop := {
  hr_fs : fs_ok s';
  hr_hdr : hdr s' = primary_header (boot (dev s));
  hr_disk : same_disk (dev s) (dev s');
  hr_filesystem : filesystem (the_disk s') = true;
  hr_heap : exists m', m ⊆ m' /\ owns (heap s') m' }.

Lemma resolve_wp s m n Q :
  unmounted s m (7 + n) ->
  (forall s1 fp a m1, header_read s m s1 -> m !! fp = None -> <[fp := 1]> m ⊆ m1 -> m1 !! a = None ->
     owns (heap s1) (<[a := 1]> m1) -> free_blocks (heap s) = (7 + free_blocks (heap s1))%nat ->
     loses (heap s) (heap s1) 7 ->
     wp (check_root (boot (dev s))) (fun r s2 =>
       wp (release a) (fun _ s3 => wp (if r <? 0 then _ ← release fp; _ ← modify (fun s => set_private s None); mret r
                                       else mret r) Q s3) s2) s1) ->
  wp fat16_resolve Q s.
Proof.
  intros [Hd Hss Hid Ho Hf] HQ. unfold fat16_resolve.
  eapply wp_step; [by apply (zalloc_spec s m)|]. intros fp s1 (h1 & -> & [(_ & _ & N)|(Hfp & Ffp & O1 & N1 & L1)]); [lia|].
  destruct (Z.eqb_spec fp 0); [lia|]. apply wp_bind, wp_gets. change (id (the_disk (set_heap s h1))) with (id (the_disk s)).
  rewrite Hid. eapply wp_step; [apply (init_private_spec (set_heap s h1) _ O1); simpl; lia|].
  intros p s2 (Hp & h2 & -> & (m2 & S2 & O2 & N2) & L2). cbn [heap set_heap] in N2.
  apply wp_bind, wp_modify, wp_bind, wp_modify.
  match goal with |- wp _ _ ?x => set (s3 := x) end.
  eapply wp_step; [apply (new_stream_spec s3 m2 O2); unfold s3; simpl; lia|].
  intros r s4 (a & h4 & -> & -> & Ha & Fa & O4 & N4 & L4). change (free_blocks (heap s3)) with (free_blocks h2) in N4.
  cbn iota. do 2 apply wp_bind. apply wp_gets. apply wp_bind.
  destruct (diskstreamer_read_spec (dev s) (Streamer.mk_stream a 0 DISK) sizeof_fat_h) as (d & E & Hd' & Hsame);
    [done..|by left|].
  eapply wp_lift; [exact E|]. cbn beta iota.
  apply wp_bind, wp_modify, wp_bind. change (negb (0 =? PEACHOS_ALL_OK)) with false. cbn iota.
  cbn [Streamer.pos]. unfold sizeof_fat_h. fold (boot (dev s)). apply wp_bind, (wp_private _ _ p); [done|].
  apply wp_bind, wp_modify. fold (check_root (boot (dev s))).
  eapply wp_mono; [apply (HQ _ fp a m2)|]; try done.
  - split; try done.
    + split; [done|done|]. eexists. split; [done|]. split; [|intros i; destruct (Hp i) as (v & Hv & Hk); exists v; by destruct i].
      cbn [header set_header]. apply decode_header_ok; [by rewrite length_bytes|by apply bytes_range].
    + exists (<[a := 1]> m2). split; [|done]. etransitivity; [by apply (insert_subseteq _ fp 1)|].
      etransitivity; [done|by apply insert_subseteq].
  - cbn [heap set_private set_disk set_dev set_heap]. simpl in *. lia.
  - eapply loses_trans; [exact L1|eapply loses_trans; [exact L2|exact L4|reflexivity]|reflexivity].
  - intros r' s5 W. unfold close_stream, Streamer.diskstreamer_close. cbn [Streamer.self Streamer.set_pos].
    fold (release (D:=D) a). apply wp_bind. eapply wp_mono; [exact W|]. intros u s6 W6. apply wp_ret, W6.
Qed.

(** ** The mounted root directory is the one on disk *)
Lemma bytes_field d p n off k :
  (0 <= p) -> (off + k <= n)%nat ->
  field (bytes d p (Z.of_nat n)) off k = bytes d (p + Z.of_nat off) (Z.of_nat k).
Proof.
  intros Hp Hn. replace (Z.of_nat n) with (Z.of_nat off + (Z.of_nat k + Z.of_nat (n - off - k))) by lia.
  rewrite !bytes_app by lia. unfold field. rewrite drop_app_length' by (rewrite length_bytes; lia).
  by rewrite take_app_length' by (rewrite length_bytes; lia).
Qed.

Lemma lookup_mounted d hd z k it :
  0 <= root_sector hd -> 0 <= root_dir_entries hd -> item (mounted_root d hd z) !! k = Some it ->
  Z.of_nat k < root_dir_entries hd /\ it = item_at d (512 * root_sector hd + 32 * Z.of_nat k).
Proof.
  intros Hp He. cbn [mounted_root item]. unfold decode_items. intros Hk.
  apply list_lookup_fmap_Some in Hk as (j & -> & Hj). apply lookup_seq in Hj as [-> Hj]. rewrite Nat.add_0_l. split; [lia|].
  unfold item_at. f_equal.
  replace (root_dir_entries hd * 32) with (Z.of_nat (Z.to_nat (root_dir_entries hd) * 32)) by lia.
  rewrite bytes_field by lia. f_equal; lia.
Qed.

Lemma mounted_dir_ok s z :
  fs_ok s -> mountable (dev s) (hdr s) z -> root s = mounted_root (dev s) (hdr s) z ->
  root_dir_entries (hdr s) mod 16 = 0 -> dir_ok s.
Proof.
  intros Hs [M1 M2 M3 M4 M5] Hr Hal. pose proof (count_live_range (dev s) z (512 * root_sector (hdr s))) as Hc.
  assert (Hsp : sector_pos (root s) = root_sector (hdr s)) by (by rewrite Hr).
  split.
  - rewrite Hr. cbn [mounted_root item]. rewrite length_decode_items. lia.
  - unfold dir_pos, data_start. rewrite Hsp, Hr. cbn [mounted_root ending_sector_pos].
    rewrite Z.quot_div_nonneg by lia. pose proof (Z.div_mod (root_dir_entries (hdr s)) 16 ltac:(lia)) as E.
    rewrite Hal in E. replace (root_dir_entries (hdr s) * 32) with (root_dir_entries (hdr s) / 16 * 512) by lia.
    rewrite Z.div_mul by lia. lia.
  - intros i it Hi. unfold dir_pos. rewrite Hsp. rewrite Hr in Hi. apply lookup_mounted in Hi as [Hi ->]; [|lia..].
    pose proof (ok_dev _ Hs) as Hd. set (p := 512 * root_sector (hdr s) + 32 * Z.of_nat i).
    unfold item_at. rewrite encode_decode_item; [|by rewrite length_bytes|by apply bytes_range].
    split; [|done]. apply decode_item_ok; [by rewrite length_bytes|by apply bytes_range].
  - rewrite Hr. cbn [mounted_root total]. lia.
  - intros i it Hi Ht. rewrite Hr in Hi, Ht. apply lookup_mounted in Hi as [Hi ->]; [|lia..].
    apply M5. cbn [mounted_root total] in Ht. lia.
Qed.

Lemma mountable_same d d' hd z : same_disk d d' -> mountable d hd z -> mountable d' hd z.
Proof.
  intros Hd []. split; try done.
  - by rewrite (item_at_same d).
  - intros k Hk. rewrite (item_at_same d) by done. auto.
Qed.
Lemma mounted_root_same d d' hd z : same_disk d d' -> mounted_root d' hd z = mounted_root d hd z.
Proof. intros Hd. unfold mounted_root. by rewrite (bytes_same d), (count_live_same d). Qed.
End mount.

(** ** Outcomes of [fat16_resolve] *)
Section outcomes.
Context {D : Type} {B : BlockDevice D} {BS : BlockDeviceSpec D} {H : Type} {A : Allocator H} {AS : AllocatorSpec H}.
Implicit Types s : fs_state D H.

Lemma resolve_mounts_spec s m z :
  unmounted s m 8 -> signature (extended_header (boot (dev s))) = 0x29 ->
  mountable (dev s) (primary_header (boot (dev s))) z ->
  wp fat16_resolve (fun r s' => r = 0 /\ fs_ok s' /\ hdr s' = primary_header (boot (dev s)) /\
    root s' = mounted_root (dev s) (hdr s') z /\ same_disk (dev s) (dev s') /\
    (root_dir_entries (hdr s') mod 16 = 0 -> dir_ok s') /\ grown m 7 (heap s) (heap s') /\ loses (heap s) (heap s') 8) s.
Proof.
  intros Hu Hsig Hm. apply (resolve_wp s m 1 _ Hu). intros s1 fp a m1 [R1 R2 R3 R4 _] Ffp S1 Fa O1 N1 L1.
  pose proof (um_room _ _ _ Hu) as Hroom.
  unfold check_root. rewrite Hsig. cbn [Z.eqb Pos.eqb negb]. rewrite <- R2 in Hm.
  eapply wp_step; [apply (get_root_directory_spec s1 z (<[a := 1]> m1)); [done|done|lia|by apply (mountable_same (dev s))]|].
  intros r s2 (-> & O2 & H2 & T2 & D2 & N2 & L2 & q & Hq & Fq & W2). apply lookup_insert_None in Fq as [Fq Hne]. cbn -[Z.ltb].
  apply wp_ret. eapply wp_mono; [eapply (release_spec s2 _ a 1); [exact W2|]|].
  { rewrite lookup_insert_ne by done. apply lookup_insert_eq. }
  intros u s3 (h3 & -> & O3 & N3 & L3). cbn. apply wp_ret. rewrite delete_insert_ne, delete_insert_id in O3 by done.
  assert (Hs3 : fs_ok (set_heap s2 h3)) by (by destruct O2).
  assert (HH : hdr (set_heap s2 h3) = hdr s1) by exact H2.
  assert (HD : same_disk (dev s) (dev (set_heap s2 h3))) by (by transitivity (dev s1)).
  assert (HR : root (set_heap s2 h3) = mounted_root (dev s) (hdr (set_heap s2 h3)) z).
  { rewrite HH, <- (mounted_root_same (dev s) (dev s1)) by done. exact T2. }
  rewrite R2 in HH. split; [done|]. split; [exact Hs3|]. split; [exact HH|]. split; [exact HR|]. split; [exact HD|]. split.
  - intros Hal. apply (mounted_dir_ok _ z); try done.
    + rewrite HH, <- R2. by apply (mountable_same (dev s)).
    + by rewrite (mounted_root_same (dev s)).
  - split; [|eapply loses_trans; [exact L1|eapply loses_trans; [exact L2|exact L3|reflexivity]|reflexivity]].
    eapply (grown_insert m m1 q); [|done|exact O3|cbn [heap set_heap]; lia].
    etransitivity; [by apply (insert_subseteq _ fp 1)|done].
Qed.

Lemma resolve_refuses_spec s m :
  unmounted s m 7 -> signature (extended_header (boot (dev s))) <> 0x29 ->
  wp fat16_resolve (fun r s' => r = - EFSNOTUS /\ fs_private (the_disk s') = None /\
    same_disk (dev s) (dev s') /\ filesystem (the_disk s') = true /\ grown m 5 (heap s) (heap s')) s.
Proof.
  intros Hu Hsig. apply (resolve_wp s m 0 _ Hu). intros s1 fp a m1 [R1 R2 R3 R4 _] Ffp S1 Fa O1 N1 L1.
  unfold check_root. destruct (Z.eqb_spec (signature (extended_header (boot (dev s)))) 0x29); [done|]. cbn [negb].
  apply wp_ret. eapply wp_mono; [eapply (release_spec s1 _ a 1); [exact O1|apply lookup_insert_eq]|].
  intros u s3 (h3 & -> & O3 & N3 & _). change (- EFSNOTUS <? 0) with true. cbn iota.
  rewrite delete_insert_id in O3 by done.
  eapply wp_step; [eapply (release_spec (set_heap s1 h3) m1 fp 1); [exact O3|]|].
  { eapply lookup_weaken; [apply lookup_insert_eq|exact S1]. }
  intros u2 s4 (h4 & -> & O4 & N4 & _). apply wp_bind, wp_modify, wp_ret. repeat split; try done.
  { apply R3. }
  exists (delete fp m1). split; [|split; [exact O4|simpl in *; lia]].
  transitivity (delete fp (<[fp := 1]> m)); [by rewrite delete_insert_id|]. by apply delete_mono.
Qed.
End outcomes.

(** ** Theorems *)
Section theorems.
Context {D : Type} {B : BlockDevice D} {BS : BlockDeviceSpec D} {H : Type} {A : Allocator H} {AS : AllocatorSpec H}.
Implicit Types s : fs_state D H.

(** C8: mounting.  On a disk whose boot sector has the FAT16 signature and
    whose root directory has an end mark, [fat16_resolve] returns 0 and
    leaves the state every other operation is proved in: the header is the
    boot sector's, the root directory in memory is the decoded one of the
    disk (so [dir_ok] holds when it fills whole sectors), the file system is
    attached, no byte of the disk changed, and seven heap blocks are used. *)
Theorem fat16_resolve_mounts s m z :
  unmounted s m 8 -> signature (extended_header (boot (dev s))) = 0x29 ->
  mountable (dev s) (primary_header (boot (dev s))) z ->
  wp fat16_resolve (fun r s' => r = 0 /\ fs_ok s' /\ hdr s' = primary_header (boot (dev s)) /\
    root s' = mounted_root (dev s) (hdr s') z /\ same_disk (dev s) (dev s') /\
    (root_dir_entries (hdr s') mod 16 = 0 -> dir_ok s') /\ grown m 7 (heap s) (heap s')) s.
Proof.
  intros Hu Hs Hm. eapply wp_mono; [by apply resolve_mounts_spec|].
  intros r s' (R1 & R2 & R3 & R4 & R5 & R6 & R7 & _). done.
Qed.

(** A disk without the FAT16 signature is refused.  [fat16_resolve]
    returns [-EFSNOTUS], takes the private data away again and changes no
    byte of the disk; the five streams of the private data stay allocated and
    the disk keeps its pointer to the FAT16 operations. *)
Theorem fat16_resolve_refuses s m :
  unmounted s m 7 -> signature (extended_header (boot (dev s))) <> 0x29 ->
  wp fat16_resolve (fun r s' => r = - EFSNOTUS /\ fs_private (the_disk s') = None /\
    same_disk (dev s) (dev s') /\ filesystem (the_disk s') = true /\ grown m 5 (heap s) (heap s')) s.
Proof. apply resolve_refuses_spec. Qed.
End theorems.

(** A bootable image: the volume of [ExampleFiles] with its boot sector, and
    an empty heap of ten blocks. *)
Module ExampleBoot.
Import ExampleVolume ExampleFiles.

Definition boot_bytes (sig : Z) : list Z :=
  [0xEB; 0x3C; 0x90] ++ replicate 8 0x20 ++ le16 512 ++ [1] ++ le16 1 ++ [2] ++ le16 16 ++ le16 12 ++ [0xF8] ++
  le16 1 ++ le16 32 ++ le16 64 ++ le32 0 ++ le32 0 ++ [0x80; 0; sig] ++ le32 0xD105 ++ replicate 19 0x20.
Definition disk_image (sig : Z) : Ram.ram := <[0 := boot_bytes sig ++ replicate 450 0]> files_image.
Definition ten_blocks : Heap.heap := Heap.mk_heap (Heap.mk_table (replicate 10 0) 10) 0x01000000.
Definition unmounted_disk (sig : Z) : fs_state Ram.ram KHeap.kheap :=
  mk_fs (disk_image sig) (KHeap.mk_kheap ten_blocks ∅) (mk_disk 0 512 0 false None).

Lemma ten_blocks_ok : Heap.heap_ok ten_blocks ∅.
Proof. split; [done| |done|done|done]. simpl. repeat constructor. Qed.

Lemma disk_image_ok sig : sig = 0 \/ sig = 0x29 -> Ram.ram_ok (disk_image sig).
Proof. intros [-> | ->]; apply (bool_decide_unpack _); vm_compute; exact I. Qed.

Lemma unmounted_disk_ok sig n : sig = 0 \/ sig = 0x29 -> (n <= 10)%nat -> unmounted (unmounted_disk sig) ∅ n.
Proof.
  intros Hs Hn. split; [by apply disk_image_ok|done|done| |].
  - exists ∅. split; [exact ten_blocks_ok|]. done.
  - etransitivity; [exact Hn|]. vm_compute. lia.
Qed.

Lemma disk_mountable : mountable (disk_image 0x29) (primary_header (boot (disk_image 0x29))) 1.
Proof.
  split.
  - vm_compute. intuition discriminate.
  - vm_compute. intuition discriminate.
  - vm_compute. reflexivity.
  - vm_compute. reflexivity.
  - intros k Hk. assert (k = 0%nat) as -> by lia. vm_compute. discriminate.
Qed.
End ExampleBoot.
Import ExampleBoot.

Lemma fat16_resolve_mounts_witness :
  wp fat16_resolve (fun r s' => r = 0 /\ dir_ok s' /\ total (root s') = 1) (unmounted_disk 0x29).
Proof.
  eapply wp_mono; [apply (fat16_resolve_mounts (unmounted_disk 0x29) ∅ 1)|].
  - apply unmounted_disk_ok; [by right|lia].
  - vm_compute. reflexivity.
  - exact disk_mountable.
  - intros r s' (Hr & _ & Hh & Ht & _ & Hd & _). split; [exact Hr|]. split.
    + apply Hd. rewrite Hh. vm_compute. reflexivity.
    + rewrite Ht, Hh. vm_compute. reflexivity.
Defined.

Lemma fat16_resolve_refuses_witness :
  wp fat16_resolve (fun r s' => r = - EFSNOTUS /\ fs_private (the_disk s') = None) (unmounted_disk 0).
Proof.
  eapply wp_mono; [apply (fat16_resolve_refuses (unmounted_disk 0) ∅)|].
  - apply unmounted_disk_ok; [by left|lia].
  - vm_compute. discriminate.
  - intros r s' (Hr & Hp & _). split; [exact Hr|exact Hp].
Defined.
