(* ===== verification/Vfs.v ===== *)
(** * The file layer: src/fs/file.c and [disk_search_and_init] of src/disk/disk.c

    The kernel calls a file system through a table of operations ([struct
    filesystem]); [Filesystem] is that interface and [fat16_fs] its only
    implementation.  [vfs] adds the two global arrays of file.c to the state
    of the driver. *)
From Stdlib Require Import ZArith Lia.
From stdpp Require Import base list gmap numbers option list_numbers.
From S2P Require Import Prelude CLib Heap Disk PathParser FatTypes FatTable FatData FatDir Fat16 Mount.
Local Open Scope Z_scope.
Local Open Scope kernel_scope.

(** ** [struct filesystem]: the operations, on states [S] and private data [P] *)
Class Filesystem (S P : Type) : Type := {
  op_resolve : M S Z;
  op_open : list (list Z) -> Z -> M S (Z + P);
  op_read : P -> Z -> Z -> M S (Z * list Z);
  op_write : P -> Z -> Z -> list Z -> M S (Z * P);
  op_seek : P -> Z -> Z -> M S (Z * P);
  op_stat : P -> file_stat -> M S (Z * file_stat);
  op_close : P -> M S Z;
  op_delete : list (list Z) -> M S Z;
  op_readdir : Z -> Z -> M S (Z * option (list Z)) }.

(** [fat16_init] of fat16.c. *)
#[global] Instance fat16_fs {D H} `{BlockDevice D} `{Allocator H} :
    Filesystem (fs_state D H) fat_file_descriptor := {
  op_resolve := fat16_resolve;
  op_open := fat16_open;
  op_read := fat16_read;
  op_write := fat16_write;
  op_seek := fat16_seek;
  op_stat := fat16_stat;
  op_close := fat16_close;
  op_delete := fat16_delete;
  op_readdir := fat16_readdir }.

(** A pointer to the FAT16 table, the only one the kernel registers. *)
Inductive fs_ref := FAT16_FS.
#[global] Instance fs_ref_eq_dec : EqDecision fs_ref.
Proof. solve_decision. Defined.

(** [struct file_descriptor]; [fd_addr] is its address, NULL is [None]. *)
Record file_descriptor (P : Type) := mk_fd {
  fd_addr : Z; index : Z; fd_filesystem : option fs_ref; fd_private : option P; fd_disk : option disk_ref }.
Arguments mk_fd {P} _ _ _ _ _.
Arguments fd_addr {P} _.
Arguments index {P} _.
Arguments fd_filesystem {P} _.
Arguments fd_private {P} _.
Arguments fd_disk {P} _.
Definition sizeof_file_descriptor : Z := 16.

Record vfs (P D H : Type) := mk_vfs {
  filesystems : list (option fs_ref);
  file_descriptors : list (option (file_descriptor P));
  driver : fs_state D H }.
Arguments mk_vfs {P D H} _ _ _.
Arguments filesystems {P D H} _.
Arguments file_descriptors {P D H} _.
Arguments driver {P D H} _.

Section code.
Context {D : Type} {B : BlockDevice D} {H : Type} {A : Allocator H}.
Context {P : Type} {F : Filesystem (fs_state D H) P}.
Abbreviation VM := (M (vfs P D H)).

Definition set_driver (v : vfs P D H) (s : fs_state D H) : vfs P D H := mk_vfs (filesystems v) (file_descriptors v) s.
Definition set_fds (v : vfs P D H) (t : list (option (file_descriptor P))) : vfs P D H :=
  mk_vfs (filesystems v) t (driver v).
Definition set_filesystems (v : vfs P D H) (l : list (option fs_ref)) : vfs P D H :=
  mk_vfs l (file_descriptors v) (driver v).

(** Code of the driver, and code that only uses the heap. *)
Definition on_driver {T} (m : M (fs_state D H) T) : VM T := fun v =>
  match m (driver v) with Ok (a, s) => Ok (a, set_driver v s) | Ub => Ub | Hang => Hang end.
Definition on_heap {T} (m : M H T) : VM T := on_driver (fun s =>
  match m (heap s) with Ok (a, h) => Ok (a, set_heap s h) | Ub => Ub | Hang => Hang end).

(** ** File systems *)

(** The first free cell of [filesystems] from [i] on; [n] cells are left. *)
Fixpoint free_cell {T} (l : list (option T)) (i : Z) (n : nat) : out (option Z) :=
  match n with
  | O => Ok None
  | S n' => c ← l.[i]; match c with None => Ok (Some i) | Some _ => free_cell l (i + 1) n' end
  end.

Definition fs_get_free_filesystem : VM (option Z) :=
  l ← gets filesystems; lift_out (free_cell l 0 (Z.to_nat PEACHOS_MAX_FILESYSTEMS)).

(** "Problem inserting filesystem" ends in [while(1)]. *)
Definition fs_insert_filesystem (fs : fs_ref) : VM unit :=
  c ← fs_get_free_filesystem;
  match c with
  | None => hang
  | Some i => l ← gets filesystems; l ← lift_out (l.[i <- Some fs]); modify (fun v => set_filesystems v l)
  end.

Definition fs_static_load : VM unit := fs_insert_filesystem FAT16_FS.

Definition fs_load : VM unit :=
  _ ← modify (fun v => set_filesystems v (replicate (Z.to_nat PEACHOS_MAX_FILESYSTEMS) None));
  fs_static_load.

Definition fs_init : VM unit :=
  _ ← modify (fun v => set_fds v (replicate (Z.to_nat PEACHOS_MAX_FILE_DESCRIPTORS) None));
  fs_load.

Fixpoint resolve_loop (l : list (option fs_ref)) (i : Z) (n : nat) : VM (option fs_ref) :=
  match n with
  | O => mret None
  | S n' =>
      c ← lift_out (l.[i]);
      match c with
      | None => resolve_loop l (i + 1) n'
      | Some fs =>
          r ← on_driver op_resolve;
          if r =? 0 then mret (Some fs) else resolve_loop l (i + 1) n'
      end
  end.

Definition fs_resolve : VM (option fs_ref) :=
  l ← gets filesystems; resolve_loop l 0 (Z.to_nat PEACHOS_MAX_FILESYSTEMS).

Definition PEACHOS_DISK_TYPE_REAL : Z := 0.

(** [disk_search_and_init] (src/disk/disk.c). *)
Definition disk_search_and_init : VM unit :=
  _ ← on_driver (modify (fun s => set_disk s (mk_disk PEACHOS_DISK_TYPE_REAL PEACHOS_SECTOR_SIZE 0 false None)));
  fs ← fs_resolve;
  on_driver (modify (fun s => let k := the_disk s in
    set_disk s (mk_disk (disk_type k) (sector_size k) (id k) (bool_decide (is_Some fs)) (fs_private k)))).

(** ** Descriptors *)

(** [desc] is the descriptor that cell [index - 1] points to. *)
Definition file_free_descriptor (desc : file_descriptor P) : VM unit :=
  t ← gets file_descriptors;
  t ← lift_out (t.[index desc - 1 <- None]);
  _ ← modify (fun v => set_fds v t);
  on_heap (dealloc (fd_addr desc)).

(** The status and the cell of the new descriptor. *)
Definition file_new_descriptor : VM (Z * Z) :=
  t ← gets file_descriptors;
  c ← lift_out (free_cell t 0 (Z.to_nat PEACHOS_MAX_FILE_DESCRIPTORS));
  match c with
  | None => mret (- ENOMEM, 0)
  | Some i =>
      desc ← on_heap (alloc sizeof_file_descriptor);
      if desc =? 0 then ub
      else
        t ← lift_out (t.[i <- Some (mk_fd desc (i + 1) None None None)]);
        _ ← modify (fun v => set_fds v t); mret (0, i)
  end.

Definition file_get_descriptor (fd : Z) : VM (option (file_descriptor P)) :=
  if (fd <=? 0) || (fd >=? PEACHOS_MAX_FILE_DESCRIPTORS) then mret None
  else t ← gets file_descriptors; lift_out (t.[fd - 1]).

(** Storing through the pointer in cell [i]. *)
Definition put_descriptor (i : Z) (desc : file_descriptor P) : VM unit :=
  t ← gets file_descriptors; t ← lift_out (t.[i <- Some desc]); modify (fun v => set_fds v t).

Definition set_fd_private (desc : file_descriptor P) (p : P) : file_descriptor P :=
  mk_fd (fd_addr desc) (index desc) (fd_filesystem desc) (Some p) (fd_disk desc).

(** [desc->filesystem->op] and [desc->private]: NULL is dereferenced otherwise. *)
Definition fd_data (desc : file_descriptor P) : VM P :=
  match fd_filesystem desc, fd_private desc with Some _, Some p => mret p | _, _ => ub end.

Definition file_get_mode_by_string (str : list Z) : out Z :=
  r ← CString.strncmp str [114; 0] 1;
  if r =? 0 then Ok FILE_MODE_READ
  else
    w ← CString.strncmp str [119; 0] 1;
    if w =? 0 then Ok FILE_MODE_WRITE
    else
      a ← CString.strncmp str [97; 0] 1;
      if a =? 0 then Ok FILE_MODE_APPEND else Ok FILE_MODE_INVALID.

(** The body of [fopen], which may return a negative status. *)
Definition fopen_body (filename mode_str : list Z) : VM Z :=
  root_path ← on_heap (pathparser_parse filename);
  match root_path with
  | None => mret (- EINVARG)
  | Some root_path =>
      match first root_path with
      | [] => mret (- EINVARG)
      | _ =>
          match disk_get (drive_no root_path) with
          | None => mret (- EIO)
          | Some disk =>
              mounted ← gets (fun v => filesystem (the_disk (driver v)));
              if negb mounted then mret (- EIO)
              else
                mode ← lift_out (file_get_mode_by_string mode_str);
                if mode =? FILE_MODE_INVALID then mret (- EINVARG)
                else
                  r ← on_driver (op_open (part <$> first root_path) mode);
                  match r with
                  | inl e => mret e
                  | inr p =>
                      '(res, i) ← file_new_descriptor;
                      if res <? 0 then mret res
                      else
                        t ← gets file_descriptors;
                        c ← lift_out (t.[i]);
                        match c with
                        | None => ub
                        | Some desc =>
                            _ ← put_descriptor i
                                  (mk_fd (fd_addr desc) (index desc) (Some FAT16_FS) (Some p) (Some disk));
                            mret (index desc)
                        end
                  end
          end
      end
  end.

Definition fopen (filename mode_str : list Z) : VM Z :=
  res ← fopen_body filename mode_str; mret (if res <? 0 then 0 else res).

Definition fstat (fd : Z) (stat : file_stat) : VM (Z * file_stat) :=
  desc ← file_get_descriptor fd;
  match desc with
  | None => mret (- EIO, stat)
  | Some desc => p ← fd_data desc; on_driver (op_stat p stat)
  end.

Definition fclose (fd : Z) : VM Z :=
  desc ← file_get_descriptor fd;
  match desc with
  | None => mret (- EIO)
  | Some desc =>
      p ← fd_data desc;
      res ← on_driver (op_close p);
      if res =? PEACHOS_ALL_OK then _ ← file_free_descriptor desc; mret res else mret res
  end.

Definition fseek (fd offset whence : Z) : VM Z :=
  desc ← file_get_descriptor fd;
  match desc with
  | None => mret (- EIO)
  | Some desc =>
      p ← fd_data desc;
      '(res, p) ← on_driver (op_seek p (u32 offset) whence);
      _ ← put_descriptor (fd - 1) (set_fd_private desc p); mret res
  end.

Definition fread (size nmemb fd : Z) : VM (Z * list Z) :=
  if (size =? 0) || (nmemb =? 0) || (fd <? 1) then mret (- EINVARG, [])
  else
    desc ← file_get_descriptor fd;
    match desc with
    | None => mret (- EINVARG, [])
    | Some desc => p ← fd_data desc; on_driver (op_read p size nmemb)
    end.

Definition fwrite (ptr : list Z) (size nmemb fd : Z) : VM Z :=
  if (size =? 0) || (nmemb =? 0) || (fd <? 1) then mret (- EINVARG)
  else
    desc ← file_get_descriptor fd;
    match desc with
    | None => mret (- EINVARG)
    | Some desc =>
        p ← fd_data desc;
        '(res, p) ← on_driver (op_write p size nmemb ptr);
        _ ← put_descriptor (fd - 1) (set_fd_private desc p); mret res
    end.

Definition freaddir (idx buf_size : Z) : VM (Z * option (list Z)) :=
  mounted ← gets (fun v => filesystem (the_disk (driver v)));
  if negb mounted then mret (- EIO, None) else on_driver (op_readdir idx buf_size).

(** The statuses of [fdelete]; the parsed path is freed on every way out. *)
Definition fdelete_body (root_path : path_root) : VM Z :=
  match first root_path with
  | [] => mret (- EINVARG)
  | _ =>
      match disk_get (drive_no root_path) with
      | None => mret (- EIO)
      | Some _ =>
          mounted ← gets (fun v => filesystem (the_disk (driver v)));
          if negb mounted then mret (- EIO) else on_driver (op_delete (part <$> first root_path))
      end
  end.

Definition fdelete (filename : list Z) : VM Z :=
  root_path ← on_heap (pathparser_parse filename);
  match root_path with
  | None => mret (- EINVARG)
  | Some root_path => res ← fdelete_body root_path; _ ← on_heap (pathparser_free root_path); mret res
  end.
End code.

(** ** Rules *)
Section rules.
Context {D : Type} {B : BlockDevice D} {H : Type} {A : Allocator H} {AS : AllocatorSpec H}.
Context {P : Type} {F : Filesystem (fs_state D H) P}.
Implicit Types v : vfs P D H.

Lemma wp_on_driver {T} (m : M (fs_state D H) T) (Q : T -> vfs P D H -> Prop) v :
  wp m (fun a s => Q a (set_driver v s)) (driver v) -> wp (on_driver m) Q v.
Proof. unfold wp, on_driver. by destruct (m (driver v)) as [[a s]| |]. Qed.

Lemma wp_on_heap {T} (m : M H T) (Q : T -> vfs P D H -> Prop) v :
  wp m (fun a h => Q a (set_driver v (set_heap (driver v) h))) (heap (driver v)) -> wp (on_heap m) Q v.
Proof. unfold wp, on_heap, on_driver. by destruct (m (heap (driver v))) as [[a h]| |]. Qed.

(** The first free cell of a table. *)
Definition first_free {T} (l : list (option T)) (i : nat) : Prop :=
  l !! i = Some None /\ forall k, (k < i)%nat -> exists x, l !! k = Some (Some x).
Definition all_used {T} (l : list (option T)) : Prop := forall k c, l !! k = Some c -> is_Some c.

Lemma free_cell_from {T} (l : list (option T)) n : forall i, (i + n = length l)%nat ->
  (forall k, (k < i)%nat -> exists x, l !! k = Some (Some x)) ->
  (free_cell l (Z.of_nat i) n = Ok None /\ all_used l) \/
  exists k, free_cell l (Z.of_nat i) n = Ok (Some (Z.of_nat k)) /\ first_free l k.
Proof.
  induction n as [|n IH]; intros i Hi Hb; cbn [free_cell].
  - left. split; [done|]. intros k c Hk. destruct (Hb k) as [x Hx].
    + apply lookup_lt_Some in Hk. lia.
    + rewrite Hx in Hk. injection Hk as <-. eauto.
  - destruct (lookup_lt_is_Some_2 l i) as [c Hc]; [lia|].
    rewrite (aget_ok _ _ c) by (lia || by rewrite Nat2Z.id). cbn [mbind out_bind]. destruct c as [x|].
    + replace (Z.of_nat i + 1) with (Z.of_nat (S i)) by lia. apply IH; [lia|]. intros k Hk.
      destruct (decide (k = i)) as [->|]; [eauto|]. apply Hb. lia.
    + right. exists i. done.
Qed.

Lemma free_cell_spec {T} (l : list (option T)) n : length l = n ->
  (free_cell l 0 n = Ok None /\ all_used l) \/
  exists k, free_cell l 0 n = Ok (Some (Z.of_nat k)) /\ first_free l k.
Proof. intros Hl. apply (free_cell_from l n 0); [done|]. intros k Hk. lia. Qed.

(** The table of descriptors: 512 cells, each empty or a complete descriptor
    that knows its number. *)
Record table_ok (t : list (option (file_descriptor P))) : Prop := {
  tb_length : length t = 512%nat;
  tb_entry : forall i d, t !! i = Some (Some d) -> index d = Z.of_nat i + 1 /\
    fd_filesystem d = Some FAT16_FS /\ fd_disk d = Some DISK /\ is_Some (fd_private d) }.

Definition new_fd (a : Z) (i : nat) (p : P) : file_descriptor P :=
  mk_fd a (Z.of_nat i + 1) (Some FAT16_FS) (Some p) (Some DISK).

Lemma table_ok_insert t i c : table_ok t -> (i < 512)%nat ->
  match c with Some d => index d = Z.of_nat i + 1 /\
    fd_filesystem d = Some FAT16_FS /\ fd_disk d = Some DISK /\ is_Some (fd_private d) | None => True end ->
  table_ok (<[i := c]> t).
Proof.
  intros [T1 T2] Hi Hc. split; [by rewrite length_insert|]. intros j d Hj.
  destruct (decide (i = j)) as [<-|Hne].
  - rewrite list_lookup_insert_eq in Hj by lia. injection Hj as ->. done.
  - rewrite list_lookup_insert_ne in Hj by done. eauto.
Qed.

(** A descriptor number that [file_get_descriptor] accepts. *)
Lemma wp_get_descriptor v i c (Q : _ -> vfs P D H -> Prop) :
  file_descriptors v !! i = Some c -> (i < 511)%nat -> Q c v ->
  wp (file_get_descriptor (Z.of_nat i + 1)) Q v.
Proof.
  intros Hc Hi HQ. unfold file_get_descriptor, PEACHOS_MAX_FILE_DESCRIPTORS.
  destruct (Z.leb_spec (Z.of_nat i + 1) 0), (Z.geb_spec (Z.of_nat i + 1) 512); try lia. cbn [orb].
  apply wp_bind, wp_gets. eapply wp_lift; [|exact HQ]. replace (Z.of_nat i + 1 - 1) with (Z.of_nat i) by lia.
  apply aget_ok; [lia|]. by rewrite Nat2Z.id.
Qed.

Lemma wp_put_descriptor v i d (Q : unit -> vfs P D H -> Prop) :
  (i < length (file_descriptors v))%nat -> Q tt (set_fds v (<[i := Some d]> (file_descriptors v))) ->
  wp (put_descriptor (Z.of_nat i) d) Q v.
Proof.
  intros Hi HQ. unfold put_descriptor. apply wp_bind, wp_gets, wp_bind. eapply wp_lift; [apply aset_ok; lia|].
  apply wp_modify. by rewrite Nat2Z.id.
Qed.

(** [file_new_descriptor] and the three stores of [fopen]. *)
Lemma new_descriptor_wp v m p (Q : Z -> vfs P D H -> Prop) :
  length (file_descriptors v) = 512%nat -> owns (heap (driver v)) m -> (1 <= free_blocks (heap (driver v)))%nat ->
  (all_used (file_descriptors v) -> Q (- ENOMEM) v) ->
  (forall i a h, first_free (file_descriptors v) i -> (i < 512)%nat -> m !! a = None -> owns h (<[a := 1]> m) ->
     free_blocks (heap (driver v)) = S (free_blocks h) -> loses (heap (driver v)) h 1 ->
     Q (Z.of_nat i + 1) (mk_vfs (filesystems v) (<[i := Some (new_fd a i p)]> (file_descriptors v))
                           (set_heap (driver v) h))) ->
  wp ('(res, i) ← file_new_descriptor;
      if res <? 0 then mret res
      else
        t ← gets file_descriptors;
        c ← lift_out (t.[i]);
        match c with
        | None => ub
        | Some desc =>
            _ ← put_descriptor i (mk_fd (fd_addr desc) (index desc) (Some FAT16_FS) (Some p) (Some DISK));
            mret (index desc)
        end) Q v.
Proof.
  intros Hl Ho Hf Hfull Hnew. unfold file_new_descriptor. apply wp_bind, wp_bind, wp_gets, wp_bind.
  change (Z.to_nat PEACHOS_MAX_FILE_DESCRIPTORS) with 512%nat.
  destruct (free_cell_spec (file_descriptors v) 512 Hl) as [[E U]|(i & E & U)]; (eapply wp_lift; [exact E|]).
  - apply wp_ret. cbn -[Z.ltb]. apply wp_ret. auto.
  - pose proof (lookup_lt_Some _ _ _ (proj1 U)) as Hi. rewrite Hl in Hi.
    apply wp_bind, wp_on_heap. eapply wp_mono; [by apply (alloc_spec _ m sizeof_file_descriptor)|].
    intros a h (Ha & Fa & O1 & N1 & L1). destruct (Z.eqb_spec a 0); [lia|]. apply wp_bind.
    eapply wp_lift; [apply aset_ok; lia|]. apply wp_bind, wp_modify, wp_ret. cbn beta iota. cbn [Z.ltb Z.compare].
    rewrite Nat2Z.id. apply wp_bind, wp_gets, wp_bind. eapply wp_lift.
    { apply aget_ok; [lia|]. rewrite Nat2Z.id. cbn [file_descriptors set_fds]. apply list_lookup_insert_eq. lia. }
    cbn beta iota. cbn [fd_addr index]. apply wp_bind, wp_put_descriptor.
    { cbn [file_descriptors set_fds]. rewrite length_insert. lia. }
    apply wp_ret. cbn [file_descriptors set_fds]. unfold set_fds. cbn [file_descriptors filesystems driver set_driver].
    rewrite list_insert_insert_eq. by apply Hnew.
Qed.

(** The path and mode [fopen] accepts. *)
Record openable v (m : gmap Z Z) (filename str : list Z) (ws : list (list Z)) (mode_str : list Z) (mode : Z) : Prop := {
  op_owns : owns (heap (driver v)) m;
  op_string : CString.cstring filename = Some str /\ bytes_ok str;
  op_path : parse_path str = Some (0, ws);
  op_parts : ws <> [];
  op_room : (2 * length ws + 2 <= free_blocks (heap (driver v)))%nat;
  op_mounted : filesystem (the_disk (driver v)) = true;
  op_mode : file_get_mode_by_string mode_str = Ok mode;
  op_valid : mode <> FILE_MODE_INVALID;
  op_table : length (file_descriptors v) = 512%nat }.

(** [fopen] on such a path: the file system's [open] runs after the path was
    parsed, with the parts of the path. *)
Lemma fopen_wp v m filename str ws mode_str mode (Q : Z -> vfs P D H -> Prop) :
  openable v m filename str ws mode_str mode ->
  (forall addrs h, length addrs = (1 + 2 * length ws)%nat -> fresh_blocks addrs m -> owns h (with_blocks addrs m) ->
     free_blocks (heap (driver v)) = (length addrs + free_blocks h)%nat ->
     loses (heap (driver v)) h (2 * length ws + 2) ->
     wp (op_open (part_buf <$> ws) mode) (fun r s =>
       match r with
       | inl e => Q (if e <? 0 then 0 else e) (set_driver v s)
       | inr p => exists m', owns (heap s) m' /\ (1 <= free_blocks (heap s))%nat /\
           (all_used (file_descriptors v) -> Q 0 (set_driver v s)) /\
           (forall i a h', first_free (file_descriptors v) i -> (i < 512)%nat -> m' !! a = None ->
              owns h' (<[a := 1]> m') -> free_blocks (heap s) = S (free_blocks h') ->
              loses (heap s) h' 1 -> Q (Z.of_nat i + 1) (mk_vfs (filesystems v) (<[i := Some (new_fd a i p)]> (file_descriptors v))
                                    (set_heap s h')))
       end) (set_heap (driver v) h)) ->
  wp (fopen filename mode_str) Q v.
Proof.
  intros [Ho [Hs Hb] Hp Hne Hr Hm Hmode Hval Hl] HQ. unfold fopen, fopen_body. apply wp_bind, wp_bind, wp_on_heap.
  eapply wp_mono; [apply (parse_spec _ m filename str Ho Hs Hb); unfold room_for; by rewrite Hp|].
  intros r h. rewrite Hp. intros (root & -> & Pd & Oh & Nh & Lh). cbn beta iota.
  pose proof (pd_parts _ _ _ _ Pd) as Ep. pose proof (pd_drive _ _ _ _ Pd) as Ed.
  assert (Hlen : length (first root) = length ws) by (rewrite <- (length_fmap part), Ep; apply length_fmap).
  assert (Ha : length (root_addrs root) = (1 + 2 * length ws)%nat).
  { unfold root_addrs. rewrite length_app, length_parts_addrs. simpl. lia. }
  destruct (first root) as [|x l] eqn:Ef; [destruct ws; [done|discriminate Hlen]|]. rewrite <- Ef in *.
  rewrite Ed. cbn [disk_get Z.eqb negb]. apply wp_bind, wp_gets. cbn [driver set_driver the_disk set_heap]. rewrite Hm.
  cbn [negb]. apply wp_bind. eapply wp_lift; [exact Hmode|]. destruct (Z.eqb_spec mode FILE_MODE_INVALID); [done|].
  apply wp_bind, wp_on_driver. rewrite Ep. cbn [driver set_driver].
  eapply wp_mono; [apply (HQ (root_addrs root) h Ha (pd_fresh _ _ _ _ Pd) Oh); [lia|exact Lh]|].
  intros [e|p] s HR; cbn beta iota; [by apply wp_ret, wp_ret|].
  destruct HR as (m' & O' & N' & Qf & Qn).
  apply (new_descriptor_wp _ m' p); cbn [driver set_driver file_descriptors filesystems]; try done.
  intros i a h' Fi Hi Fa Oa Na La. apply wp_ret. destruct (Z.ltb_spec (Z.of_nat i + 1) 0); [lia|]. by apply Qn.
Qed.
End rules.

(** ** The descriptor table over the life of the kernel *)
Section invariant.
Context {D : Type} {B : BlockDevice D} {H : Type} {A : Allocator H}.
Context {P : Type} {F : Filesystem (fs_state D H) P}.
Abbreviation VM := (M (vfs P D H)).
Implicit Types v : vfs P D H.

(** The calls other parts of the kernel make. *)
Inductive file_call :=
| CallOpen (filename mode_str : list Z)
| CallClose (fd : Z)
| CallSeek (fd offset whence : Z)
| CallRead (size nmemb fd : Z)
| CallWrite (ptr : list Z) (size nmemb fd : Z)
| CallStat (fd : Z) (stat : file_stat)
| CallReaddir (idx buf_size : Z)
| CallDelete (filename : list Z).

Definition run_call (c : file_call) : VM unit :=
  match c with
  | CallOpen f m => _ ← fopen f m; mret tt
  | CallClose fd => _ ← fclose fd; mret tt
  | CallSeek fd o w => _ ← fseek fd o w; mret tt
  | CallRead s n fd => _ ← fread s n fd; mret tt
  | CallWrite p s n fd => _ ← fwrite p s n fd; mret tt
  | CallStat fd st => _ ← fstat fd st; mret tt
  | CallReaddir i n => _ ← freaddir i n; mret tt
  | CallDelete f => _ ← fdelete f; mret tt
  end.

Inductive reachable : vfs P D H -> Prop :=
| reach_init v v' : fs_init v = Ok (tt, v') -> reachable v'
| reach_call v c v' : reachable v -> run_call c v = Ok (tt, v') -> reachable v'.

Lemma fs_init_eval v :
  fs_init v = Ok (tt, mk_vfs (Some FAT16_FS :: replicate 11 None) (replicate 512 None) (driver v)).
Proof. reflexivity. Qed.

(** [pres m]: the code keeps the table as it is or well formed. *)
Definition pres {T} (m : VM T) : Prop :=
  forall v a v', table_ok (file_descriptors v) -> m v = Ok (a, v') -> table_ok (file_descriptors v').

Lemma pres_ret {T} (a : T) : pres (mret a).
Proof. by intros v a' v' Hv [= <- <-]. Qed.
Lemma pres_bind {T U} (m : VM T) (f : T -> VM U) : pres m -> (forall a, pres (f a)) -> pres (mbind f m).
Proof.
  intros Hm Hf v b v' Hv E. unfold mbind, M_bind in E. destruct (m v) as [[a v1]| |] eqn:E1; try done.
  eapply Hf; [|exact E]. by eapply Hm.
Qed.
Lemma pres_gets {T} (f : vfs P D H -> T) : pres (gets f).
Proof. by intros v a v' Hv [= <- <-]. Qed.
Lemma pres_ub {T} : pres (ub : VM T).
Proof. by intros v a v' Hv. Qed.
Lemma pres_lift {T} (o : out T) : pres (lift_out o).
Proof. intros v a v' Hv. unfold lift_out. destruct o; try done. by intros [= <- <-]. Qed.
Lemma pres_driver {T} (m : M (fs_state D H) T) : pres (on_driver m).
Proof.
  intros v a v' Hv. unfold on_driver. destruct (m (driver v)) as [[x s]| |]; try done. by intros [= <- <-].
Qed.
Lemma pres_heap {T} (m : M H T) : pres (on_heap m).
Proof. apply pres_driver. Qed.

Lemma get_descriptor_eval fd v : file_get_descriptor fd v =
  if (fd <=? 0) || (fd >=? PEACHOS_MAX_FILE_DESCRIPTORS) then Ok (None, v)
  else match (file_descriptors v).[fd - 1] with Ok c => Ok (c, v) | Ub => Ub | Hang => Hang end.
Proof. unfold file_get_descriptor. by destruct (_ || _). Qed.

(** Code that continues with the descriptor of an open file. *)
Lemma pres_descriptor {T} fd (f : option (file_descriptor P) -> VM T) :
  (forall v a v', f None v = Ok (a, v') -> table_ok (file_descriptors v) -> table_ok (file_descriptors v')) ->
  (forall i d v a v', fd = Z.of_nat i + 1 -> file_descriptors v !! i = Some (Some d) ->
     table_ok (file_descriptors v) -> f (Some d) v = Ok (a, v') -> table_ok (file_descriptors v')) ->
  pres (mbind f (file_get_descriptor fd)).
Proof.
  intros Hn Hs v a v' Hv E. unfold mbind, M_bind in E. rewrite get_descriptor_eval in E.
  destruct ((fd <=? 0) || (fd >=? PEACHOS_MAX_FILE_DESCRIPTORS)) eqn:Eb; [exact (Hn v a v' E Hv)|].
  destruct (aget (file_descriptors v) (fd - 1)) as [c| |] eqn:Ec; try done.
  apply aget_inv in Ec as [Hr Hc]. destruct c as [d|]; [|exact (Hn v a v' E Hv)].
  eapply (Hs (Z.to_nat (fd - 1)) d v a v'); [lia|done|done|exact E].
Qed.

(** Replacing the private data of an open file. *)
Lemma put_private_pres i d p v a v' :
  table_ok (file_descriptors v) -> file_descriptors v !! i = Some (Some d) ->
  put_descriptor (Z.of_nat i) (set_fd_private d p) v = Ok (a, v') -> table_ok (file_descriptors v').
Proof.
  intros Hv Hd E. pose proof (lookup_lt_Some _ _ _ Hd) as Hi.
  assert (W : wp (put_descriptor (Z.of_nat i) (set_fd_private d p)) (fun _ v' => table_ok (file_descriptors v')) v).
  { apply wp_put_descriptor; [done|]. cbn [file_descriptors set_fds]. destruct (tb_entry _ Hv i d Hd) as (E1 & E2 & E3 & _).
    apply table_ok_insert; [done|rewrite (tb_length _ Hv) in Hi; lia|]. cbn. split; [done|]. split; [done|]. split; [done|]. eauto. }
  unfold wp in W. by rewrite E in W.
Qed.
End invariant.

#[export] Hint Resolve pres_ret pres_gets pres_ub pres_lift pres_driver pres_heap : kdb.
Ltac pres_step :=
  match goal with
  | |- pres (mbind _ _) => apply pres_bind; [|intros ?]
  | |- pres (match ?x with _ => _ end) => destruct x
  | |- pres _ => solve [auto with kdb nocore]
  end.
Ltac solve_pres := repeat pres_step.

Section reachable.
Context {D : Type} {B : BlockDevice D} {H : Type} {A : Allocator H} {AS : AllocatorSpec H}.
Context {P : Type} {F : Filesystem (fs_state D H) P}.
Implicit Types v : vfs P D H.

(** The part of [fopen] behind the file system's [open]. *)
Lemma pres_new_descriptor p :
  pres (P:=P) (D:=D) (H:=H) ('(res, i) ← file_new_descriptor;
      if res <? 0 then mret res
      else
        t ← gets file_descriptors;
        c ← lift_out (t.[i]);
        match c with
        | None => ub
        | Some desc =>
            _ ← put_descriptor i (mk_fd (fd_addr desc) (index desc) (Some FAT16_FS) (Some p) (Some DISK));
            mret (index desc)
        end).
Proof.
  intros v r v' Hv E. unfold file_new_descriptor, mbind, M_bind, gets, lift_out, on_heap, on_driver, alloc in E.
  change (Z.to_nat PEACHOS_MAX_FILE_DESCRIPTORS) with 512%nat in E.
  destruct (free_cell_spec (file_descriptors v) 512 (tb_length _ Hv)) as [[Ec U]|(i & Ec & U)]; rewrite Ec in E.
  - cbn in E. by injection E as <- <-.
  - cbn -[aget aset free_cell] in E.
    destruct (kzalloc (heap (driver v)) sizeof_file_descriptor) as [[a h]| |]; try done. cbn -[aget aset] in E.
    destruct (a =? 0); [done|]. pose proof (lookup_lt_Some _ _ _ (proj1 U)) as Hi. rewrite (tb_length _ Hv) in Hi.
    rewrite aset_ok in E by (rewrite (tb_length _ Hv); lia). cbn -[aget aset] in E. rewrite Nat2Z.id in E.
    rewrite (aget_ok _ _ (Some (mk_fd a (Z.of_nat i + 1) None None None))) in E
      by (lia || (rewrite Nat2Z.id; apply list_lookup_insert_eq; rewrite (tb_length _ Hv); lia)).
    cbn -[aget aset] in E. unfold put_descriptor, mbind, M_bind, gets, lift_out in E. cbn -[aget aset] in E.
    rewrite aset_ok in E by (rewrite length_insert, (tb_length _ Hv); lia). cbn in E. injection E as <- <-.
    cbn [file_descriptors]. rewrite Nat2Z.id, list_insert_insert_eq. apply table_ok_insert; [done|lia|]. cbn. eauto.
Qed.

Lemma pres_fopen f m : pres (P:=P) (D:=D) (H:=H) (fopen f m).
Proof.
  unfold fopen, fopen_body. apply pres_bind; [|intros; apply pres_ret].
  apply pres_bind; [apply pres_heap|intros [root|]; [|apply pres_ret]].
  destruct (first root) as [|x l]; [apply pres_ret|]. unfold disk_get. destruct (negb _); [apply pres_ret|].
  apply pres_bind; [apply pres_gets|intros mounted]. destruct (negb mounted); [apply pres_ret|].
  apply pres_bind; [apply pres_lift|intros mode]. destruct (mode =? FILE_MODE_INVALID); [apply pres_ret|].
  apply pres_bind; [apply pres_driver|intros [e|p]]; [apply pres_ret|apply pres_new_descriptor].
Qed.

Lemma pres_fclose fd : pres (P:=P) (D:=D) (H:=H) (fclose fd).
Proof.
  unfold fclose. apply pres_descriptor; [by intros v a v' [= <- <-]|].
  intros i d v a v' -> Hd Hv E. revert E. 
  assert (K : pres (P:=P) (D:=D) (H:=H) (p ← fd_data d; res ← on_driver (op_close p);
     if res =? PEACHOS_ALL_OK then _ ← file_free_descriptor d; mret res else mret res)).
  { apply pres_bind; [unfold fd_data; solve_pres|intros p]. apply pres_bind; [apply pres_driver|intros res].
    destruct (res =? PEACHOS_ALL_OK); [|apply pres_ret]. apply pres_bind; [|intros; apply pres_ret].
    unfold file_free_descriptor. intros w b w' Hw E. unfold mbind, M_bind, gets, lift_out in E.
    destruct (aset (file_descriptors w) (index d - 1) None) as [t| |] eqn:Et; try done.
    eapply (pres_heap (dealloc (fd_addr d)) (set_fds w t)); [|exact E]. cbn [file_descriptors set_fds].
    unfold aset in Et. destruct (Z.leb_spec 0 (index d - 1)), (Z.ltb_spec (index d - 1) (Z.of_nat (length (file_descriptors w)))); try done.
    injection Et as <-. rewrite (tb_length _ Hw) in *. apply table_ok_insert; [done|lia|done]. }
  apply K, Hv.
Qed.

(** [fseek] and [fwrite]: an operation of the file system and a store. *)
Lemma pres_update {T} fd (op : P -> M (fs_state D H) (T * P)) (err : T) :
  pres (P:=P) (D:=D) (H:=H) (desc ← file_get_descriptor fd;
    match desc with
    | None => mret err
    | Some desc => p ← fd_data desc; '(res, p) ← on_driver (op p);
        _ ← put_descriptor (fd - 1) (set_fd_private desc p); mret res
    end).
Proof.
  apply pres_descriptor; [by intros v a v' [= <- <-]|]. intros i d v a v' -> Hd Hv E.
  replace (Z.of_nat i + 1 - 1) with (Z.of_nat i) in E by lia. unfold mbind, M_bind, fd_data, on_driver in E.
  destruct (fd_filesystem d), (fd_private d) as [p|]; try done. cbn -[put_descriptor] in E.
  destruct (op p (driver v)) as [[[res p'] s]| |]; try done. cbn -[put_descriptor] in E.
  destruct (put_descriptor (Z.of_nat i) (set_fd_private d p') (set_driver v s)) as [[u w]| |] eqn:Ep; try done.
  injection E as <- <-. by eapply (put_private_pres i d p' (set_driver v s)).
Qed.

Lemma pres_call c : pres (P:=P) (D:=D) (H:=H) (run_call c).
Proof.
  destruct c; cbn [run_call]; (apply pres_bind; [|intros; apply pres_ret]).
  - apply pres_fopen.
  - apply pres_fclose.
  - apply (pres_update fd (fun p => op_seek p (u32 offset) whence)).
  - unfold fread, file_get_descriptor, fd_data. solve_pres.
  - unfold fwrite. destruct (_ || _); [apply pres_ret|]. apply (pres_update fd (fun p => op_write p size nmemb ptr)).
  - unfold fstat, file_get_descriptor, fd_data. solve_pres.
  - unfold freaddir. solve_pres.
  - unfold fdelete, fdelete_body. solve_pres.
Qed.


(** What [fopen] refuses.  A path that does not parse, that names no
    file, that is on another drive, a disk without a file system and an
    unknown mode all give 0; the table and the disk stay as they are, and
    the blocks of the parsed path stay allocated. *)
Theorem fopen_refuses v m filename str mode_str mode :
  owns (heap (driver v)) m -> CString.cstring filename = Some str -> bytes_ok str -> room_for (heap (driver v)) str ->
  file_get_mode_by_string mode_str = Ok mode ->
  match parse_path str with
  | None => True
  | Some (d, ws) => ws = [] \/ d <> 0 \/ filesystem (the_disk (driver v)) = false \/ mode = FILE_MODE_INVALID
  end ->
  wp (fopen filename mode_str) (fun r v' => r = 0 /\ exists h, v' = set_driver v (set_heap (driver v) h) /\
    free_blocks (heap (driver v)) =
      (match parse_path str with None => 0 | Some (_, ws) => 1 + 2 * length ws end + free_blocks h)%nat) v.
Proof.
  intros Ho Hs Hb Hroom Hmode Hrej. unfold fopen, fopen_body. apply wp_bind, wp_bind, wp_on_heap.
  eapply wp_mono; [by apply (parse_spec _ m filename str)|]. intros r h.
  destruct (parse_path str) as [[d ws]|]; [|intros [-> ->]; apply wp_ret, wp_ret; split; [done|]; eauto].
  intros (root & -> & Pd & Oh & Nh & _). cbn beta iota.
  assert (Hend : forall e, e < 0 -> wp (mret (if e <? 0 then 0 else e)) (fun r v' => r = 0 /\
    exists h', v' = set_driver v (set_heap (driver v) h') /\ free_blocks (heap (driver v)) = (1 + 2 * length ws + free_blocks h')%nat)
    (set_driver v (set_heap (driver v) h))).
  { intros e He. apply wp_ret. destruct (Z.ltb_spec e 0); [|lia]. eauto. }
  pose proof (pd_parts _ _ _ _ Pd) as Ep. pose proof (pd_drive _ _ _ _ Pd) as Ed.
  destruct (first root) as [|x l] eqn:Ef; [apply wp_ret, Hend; done|]. rewrite Ed. unfold disk_get.
  destruct (Z.eqb_spec d 0) as [->|Hd]; cbn [negb]; [|by apply wp_ret, Hend].
  apply wp_bind, wp_gets. cbn [driver set_driver the_disk set_heap].
  destruct (filesystem (the_disk (driver v))); cbn [negb]; [|by apply wp_ret, Hend].
  apply wp_bind. eapply wp_lift; [exact Hmode|]. destruct (Z.eqb_spec mode FILE_MODE_INVALID) as [->|Hm].
  - by apply wp_ret, Hend.
  - destruct Hrej as [->|[?|[?|?]]]; try done.
Qed.
End reachable.
