(* ===== verification/FileIO.v ===== *)
(** * Files end to end: [fopen], [fwrite], [fread] and [fclose] on FAT16

    The theorems of this file compose the path parser, the descriptor table,
    the FAT16 operations and the heap: what a program writes to a new file is
    what it reads back. *)
From Stdlib Require Import ZArith Lia.
From stdpp Require Import base list gmap numbers option list_numbers.
From S2P Require Import Prelude CLib Heap Disk PathParser FatTypes FatTable FatData FatDir Fat16 FatFrame Mount Vfs.
Local Open Scope Z_scope.
Local Open Scope kernel_scope.

(** ** Descriptors on the heap *)
Lemma insert_one_comm (a b : Z) (m : gmap Z Z) : <[a := 1]> (<[b := 1]> m) = <[b := 1]> (<[a := 1]> m).
Proof. destruct (decide (a = b)) as [->|Hne]; [done|]. by apply insert_insert_ne. Qed.

Lemma desc_objects_insert desc m a : desc_fresh desc m ->
  desc_objects desc (<[a := 1]> m) = <[a := 1]> (desc_objects desc m).
Proof.
  unfold desc_objects, desc_fresh. destruct (fi_union (fd_item desc)) as [[[p it]|]|]; try done. intros _.
  by rewrite (insert_one_comm a p), (insert_one_comm a (fi_self _)), (insert_one_comm a (fd_self desc)).
Qed.

Lemma desc_fresh_insert desc m a : desc_fresh desc m -> desc_objects desc m !! a = None -> desc_fresh desc (<[a := 1]> m).
Proof.
  unfold desc_objects, desc_fresh. destruct (fi_union (fd_item desc)) as [[[p it]|]|]; try done.
  intros (F1 & F2 & F3). rewrite !lookup_insert_None in *. naive_solver.
Qed.

(** The name of a file in the root directory of drive 0. *)
Definition root_file (base e : list Z) (tail : list Z) : list Z := render_path 0 [dotted base e] ++ 0 :: tail.

Lemma dotted_text base e : valid83 base e -> (SLASH ∉ dotted base e) -> part_text (dotted base e).
Proof.
  intros Hv Hs. destruct (dotted_ok _ _ Hv) as (N & Hb & L). split.
  - destruct Hv as [[Hb1 _] _]. unfold dotted. destruct base; [simpl in Hb1; lia|done].
  - apply Forall_lookup. intros i c Hi. rewrite Forall_lookup in N. unfold bytes_ok in Hb. rewrite Forall_lookup in Hb.
    split; [by eapply Hb|]. split; [by eapply N|]. intros ->. apply Hs. by eapply list_elem_of_lookup_2.
Qed.

Lemma part_buf_name base e : valid83 base e -> part_buf (dotted base e) = c_name base e (107 - length (dotted base e)).
Proof.
  intros Hv. destruct (dotted_ok _ _ Hv) as (_ & _ & L). unfold part_buf, c_name.
  by replace (108 - length (dotted base e))%nat with (S (107 - length (dotted base e))) by lia.
Qed.

Section files.
Context {D : Type} {B : BlockDevice D} {BS : BlockDeviceSpec D} {H : Type} {A : Allocator H} {AS : AllocatorSpec H}.
Abbreviation state := (vfs fat_file_descriptor D H).
Abbreviation VM := (M state).
Implicit Types v : state.

Lemma root_file_openable v m base e tail mode_str mode :
  owns (heap (driver v)) m -> valid83 base e -> SLASH ∉ dotted base e ->
  (4 <= free_blocks (heap (driver v)))%nat -> filesystem (the_disk (driver v)) = true ->
  file_get_mode_by_string mode_str = Ok mode -> mode <> FILE_MODE_INVALID -> length (file_descriptors v) = 512%nat ->
  openable v m (root_file base e tail) (render_path 0 [dotted base e]) [dotted base e] mode_str mode.
Proof.
  intros Ho Hv Hs Hf Hm Hmo Hval Hl. pose proof (dotted_text base e Hv Hs) as Ht.
  destruct (dotted_ok _ _ Hv) as (_ & _ & L).
  assert (Hr : Forall (fun c => byte_ok c /\ c <> 0) (render_path 0 [dotted base e])) by (apply render_bytes; [lia|by apply Forall_singleton]).
  split; try done.
  - split.
    + apply CString.cstring_app. eapply Forall_impl; [exact Hr|]. by intros c [_ ?].
    + eapply Forall_impl; [exact Hr|]. by intros c [? _].
  - apply parse_render; [lia|by apply Forall_singleton|]. unfold render_path. simpl. rewrite app_nil_r. lia.
Qed.

(** Programs: write a new file, read a file. *)
Definition write_file (filename data : list Z) : VM (option (Z * Z)) :=
  fd ← fopen filename [119; 0];
  if fd =? 0 then mret None
  else
    n ← fwrite data 1 (Z.of_nat (length data)) fd;
    c ← fclose fd; mret (Some (n, c)).
Definition read_file (filename : list Z) (n : Z) : VM (option (Z * list Z * Z)) :=
  fd ← fopen filename [114; 0];
  if fd =? 0 then mret None
  else
    '(r, b) ← fread 1 n fd;
    c ← fclose fd; mret (Some (r, b, c)).

(** [fclose] of a FAT16 file: the descriptor's objects and its own block are
    given back and its cell is empty again. *)
Lemma fclose_spec v m i a desc :
  file_descriptors v !! i = Some (Some (new_fd a i desc)) -> (i < 511)%nat -> length (file_descriptors v) = 512%nat ->
  fi_type (fd_item desc) = FAT_ITEM_TYPE_FILE -> desc_fresh desc m -> desc_objects desc m !! a = None ->
  owns (heap (driver v)) (<[a := 1]> (desc_objects desc m)) ->
  wp (fclose (Z.of_nat i + 1)) (fun r v' => r = 0 /\ exists h,
    v' = mk_vfs (filesystems v) (<[i := None]> (file_descriptors v)) (set_heap (driver v) h) /\ owns h m /\
    free_blocks h = (4 + free_blocks (heap (driver v)))%nat /\ loses (heap (driver v)) h 0) v.
Proof.
  intros Hi Hlt Hl Hty Hfr Ha Ho. unfold fclose. apply wp_bind. eapply wp_get_descriptor; [exact Hi|done|]. cbn beta iota.
  apply wp_bind, wp_ret, wp_bind, wp_on_driver.
  eapply wp_mono; [apply (fat16_close_spec (driver v) desc (<[a := 1]> m)); [|by apply desc_fresh_insert|done]|].
  { by rewrite desc_objects_insert. }
  intros r s1 (-> & h1 & -> & O1 & N1 & L1). cbn [Z.eqb PEACHOS_ALL_OK]. unfold file_free_descriptor.
  apply wp_bind, wp_bind, wp_gets, wp_bind. cbn [file_descriptors set_driver new_fd index].
  replace (Z.of_nat i + 1 - 1) with (Z.of_nat i) by lia. eapply wp_lift; [apply aset_ok; lia|]. rewrite Nat2Z.id.
  apply wp_bind, wp_modify, wp_on_heap. cbn [fd_addr].
  assert (Ham : m !! a = None).
  { revert Ha. unfold desc_objects. destruct (fi_union (fd_item desc)) as [[[p it]|]|]; try done.
    rewrite !lookup_insert_None. naive_solver. }
  eapply wp_mono; [eapply (dealloc_spec h1 _ a 1); [exact O1|apply lookup_insert_eq]|].
  intros u h2 (O2 & N2 & L2). rewrite delete_insert_id in O2 by done. apply wp_ret. split; [done|].
  exists h2. split; [done|]. split; [done|]. split; [lia|]. by eapply loses_trans.
Qed.

(** A kernel that can take a new file: a consistent mounted volume with a
    free directory slot and room for [n] bytes, a usable free descriptor and
    [blocks] free heap blocks. *)
Record ready v (ch : gmap nat (list Z)) (m : gmap Z Z) (blocks : nat) (n : Z) : Prop := {
  rd_vol : vol_ok (driver v) ch;
  rd_owns : owns (heap (driver v)) m;
  rd_blocks : (blocks <= free_blocks (heap (driver v)))%nat;
  rd_mounted : filesystem (the_disk (driver v)) = true;
  rd_table : length (file_descriptors v) = 512%nat;
  rd_fd : exists i, first_free (file_descriptors v) i /\ (i < 511)%nat;
  rd_slot : exists k it, item (root (driver v)) !! k = Some it /\ ~ in_use it;
  rd_room : n <= csize (driver v) * Z.of_nat (length (free_clusters (driver v))) }.

Lemma first_free_unique {T} (l : list (option T)) i j : first_free l i -> first_free l j -> i = j.
Proof.
  intros [I1 I2] [J1 J2]. destruct (Nat.lt_total i j) as [Hlt|[->|Hlt]]; [|done|].
  - destruct (J2 i Hlt) as [x Hx]. congruence.
  - destruct (I2 j Hlt) as [x Hx]. congruence.
Qed.

Lemma all_used_free {T} (l : list (option T)) i : all_used l -> first_free l i -> False.
Proof. intros U [I _]. destruct (U i None I) as [x Hx]. done. Qed.

(** The descriptor of a cell, as [fread] and [fwrite] find it. *)
Lemma fd_cell (t : list (option (file_descriptor fat_file_descriptor))) i d :
  first_free t i -> <[i := Some d]> t !! i = Some (Some d).
Proof. intros [I _]. apply list_lookup_insert_eq. by eapply lookup_lt_Some. Qed.

Lemma fwrite_wp v i a desc buf n (Q : Z -> state -> Prop) :
  file_descriptors v !! i = Some (Some (new_fd a i desc)) -> (i < 511)%nat -> length (file_descriptors v) = 512%nat ->
  0 < n ->
  wp (fat16_write desc 1 n buf) (fun r s =>
    Q (fst r) (mk_vfs (filesystems v) (<[i := Some (new_fd a i (snd r))]> (file_descriptors v)) s)) (driver v) ->
  wp (fwrite buf 1 n (Z.of_nat i + 1)) Q v.
Proof.
  intros Hi Hlt Hl Hn W. unfold fwrite. destruct (Z.eqb_spec n 0), (Z.ltb_spec (Z.of_nat i + 1) 1); try lia.
  cbn [Z.eqb orb]. apply wp_bind. eapply wp_get_descriptor; [exact Hi|done|]. cbn beta iota.
  apply wp_bind, wp_ret, wp_bind, wp_on_driver. eapply wp_mono; [exact W|]. intros [r d'] s HQ. cbn beta iota.
  apply wp_bind. replace (Z.of_nat i + 1 - 1) with (Z.of_nat i) by lia.
  apply wp_put_descriptor; [cbn [file_descriptors set_driver]; lia|]. apply wp_ret. exact HQ.
Qed.

Lemma write_file_spec v ch m base e tail data :
  ready v ch m 7 (Z.of_nat (length data)) -> valid83 base e -> SLASH ∉ dotted base e ->
  absent (driver v) (dotted base e) -> bytes_ok data -> 0 < Z.of_nat (length data) < 2 ^ 31 ->
  wp (write_file (root_file base e tail) data) (fun r v' => r = Some (Z.of_nat (length data), 0) /\
    exists addrs i it l s', v' = mk_vfs (filesystems v) (file_descriptors v) s' /\
      saved (driver v) ch base e data i it l s' /\ disk_fields s' = disk_fields (driver v) /\
      fresh_blocks addrs m /\ owns (heap s') (with_blocks addrs m) /\ length addrs = 3%nat /\
      free_blocks (heap (driver v)) = (3 + free_blocks (heap s'))%nat) v.
Proof.
  intros [V Ho Hfb Hm Hl (i & Hi & Hi511) Hslot Hroom] Hv Hsl Habs Hb Hlen. unfold write_file. apply wp_bind.
  apply (fopen_wp v m _ _ _ _ FILE_MODE_WRITE _ (root_file_openable v m base e tail [119; 0] FILE_MODE_WRITE Ho Hv Hsl
    ltac:(lia) Hm eq_refl ltac:(done) Hl)).
  intros addrs h La Fad Oad Nad _. simpl in La. cbn [fmap list_fmap]. rewrite part_buf_name by done.
  set (s0 := set_heap (driver v) h). assert (V0 : vol_ok s0 ch) by (by apply vol_heap).
  eapply wp_mono; [apply wp_keeps; [apply keeps_open|by apply (open_write_spec s0 ch (with_blocks addrs m) base e)]|].
  intros r s1 [[(j & it & l & Hj & Hmt & _)|[_ [(_ & _ & Hfull)|(j & it0 & Hj & Hnu & Ht & [W1 W2 W3] & Hfat)]]] K1].
  { exfalso. by apply (Habs j it); [apply Hj|apply Hj|]. }
  { destruct Hslot as (q & it & Hk & Hu). destruct Hu. eauto. }
  destruct W3 as [(_ & _ & Hbad)|(desc & -> & Hdesc & Hpos & Hfr & Ho1 & Hn1)]; [simpl in Hbad; lia|].
  change (heap s0) with h in Hn1. cbn beta iota.
  exists (desc_objects desc (with_blocks addrs m)). split; [done|]. split; [lia|].
  split; [intros U; by destruct (all_used_free _ _ U Hi)|].
  intros i' a h' Hi' _ Fa Oa Na _. rewrite (first_free_unique _ _ _ Hi' Hi) in *. clear i' Hi'.
  destruct (Z.eqb_spec (Z.of_nat i + 1) 0); [lia|]. apply wp_bind.
  eapply fwrite_wp; cbn [driver filesystems file_descriptors]; [by apply fd_cell|done|by rewrite length_insert|lia|].
  eapply wp_mono; [apply wp_keeps; [apply keeps_write|apply (write_saved s0 ch j it0 base e data (set_heap s1 h') desc)]|].
  { done. } { done. } { done. } { done. } { by apply slot_done_heap. } { done. } { by destruct Hdesc. } { done. }
  { done. } { done. } { done. }
  intros [nw desc'] s2 (([= ->] & (it & l & Sv) & Wh & Hty & Wo) & K2). destruct (Wo (with_blocks addrs m)) as [Wo1 Wo2].
  cbn [fst snd] in *. apply wp_bind. rewrite list_insert_insert_eq.
  eapply wp_mono; [apply (fclose_spec _ (with_blocks addrs m) i a desc')|].
  { by apply fd_cell. } { done. } { cbn [file_descriptors]. by rewrite length_insert. } { done. } { auto. }
  { by rewrite Wo1. } { cbn [driver]. by rewrite Wo1, Wh. }
  intros c v' (-> & h3 & -> & O3 & N3 & _). apply wp_ret. split; [done|].
  cbn [filesystems file_descriptors driver] in *. rewrite list_insert_insert_eq, list_insert_id by apply Hi.
  exists addrs, j, it, l, (set_heap s2 h3). split; [done|].
  split; [by apply saved_heap, (saved_heap_l _ _ _ _ _ _ _ _ _ h)|]. split.
  { change (disk_fields (set_heap s2 h3)) with (disk_fields s2). rewrite K2. exact K1. }
  split; [done|]. split; [done|]. split; [done|]. simpl. rewrite N3, Wh. simpl. lia.
Qed.

(** What reading [data] back from the clusters [l] gives: [reached] bytes of
    the file lie before the first cluster number that the driver takes for a
    FAT12 mark. *)
Definition read_back (s : fs_state D H) (l data : list Z) : Z * list Z :=
  (if Z.of_nat (length data) <=? reached s l then Z.of_nat (length data) else - EIO, take (Z.to_nat (reached s l)) data).

Lemma read_back_all s ch base e data i it l s' : saved s ch base e data i it l s' -> followed l -> read_back s' l data = (Z.of_nat (length data), data).
Proof.
  intros Sv Hf. pose proof (saved_reached _ _ _ _ _ _ _ _ _ Sv Hf) as Hr. unfold read_back.
  rewrite (proj2 (Z.leb_le _ _)) by done. by rewrite take_ge by lia.
Qed.

Lemma small_volume (s : fs_state D H) x : nclusters s < 0xFEF -> x ∈ free_clusters s -> x ∉ refused.
Proof.
  intros Hn Hx. apply elem_of_free in Hx as [[Hc _] _]. unfold is_cluster in Hc.
  unfold refused, PEACHOS_FAT16_BAD_SECTOR. rewrite !elem_of_cons, elem_of_nil. lia.
Qed.

(** Reading back a file that was saved.  [load_spec] of Fat16 is the same
    statement for the operations of the table. *)
Lemma read_file_spec v s ch m base e tail data i it l :
  saved s ch base e data i it l (driver v) -> absent s (dotted base e) -> valid83 base e -> SLASH ∉ dotted base e ->
  0 < Z.of_nat (length data) < 2 ^ 31 ->
  owns (heap (driver v)) m -> (7 <= free_blocks (heap (driver v)))%nat -> filesystem (the_disk (driver v)) = true ->
  length (file_descriptors v) = 512%nat -> (exists j, first_free (file_descriptors v) j /\ (j < 511)%nat) ->
  wp (read_file (root_file base e tail) (Z.of_nat (length data))) (fun r v' =>
    r = Some (read_back (driver v) l data, 0) /\ file_descriptors v' = file_descriptors v /\
    same_disk (dev (driver v)) (dev (driver v'))) v.
Proof.
  intros Sv Habs Hv Hsl Hlen Ho Hfb Hm Hl (j & Hj & Hj511). unfold read_file. apply wp_bind.
  apply (fopen_wp v m _ _ _ _ FILE_MODE_READ _ (root_file_openable v m base e tail [114; 0] FILE_MODE_READ Ho Hv Hsl
    ltac:(lia) Hm eq_refl ltac:(done) Hl)).
  intros addrs h La Fad Oad Nad _. simpl in La. cbn [fmap list_fmap]. rewrite part_buf_name by done.
  set (s0 := set_heap (driver v) h). apply (saved_heap _ _ _ _ _ _ _ _ _ h) in Sv. fold s0 in Sv.
  destruct (saved_unique _ _ _ _ _ _ _ _ _ Sv Habs Hv) as (M1 & M2 & M3). pose proof Sv as [V [Hi Ht] _ _ _ _ _ _ _].
  eapply wp_mono; [apply (open_read_spec s0 (with_blocks addrs m) base e _ i it); try done; try apply V|].
  { change (heap s0) with h. lia. }
  intros r s1 (desc & h1 & q & -> & -> & Hty & Hu & Hp & _ & Hfresh & Ho1 & Hn1 & _). cbn beta iota.
  exists (desc_objects desc (with_blocks addrs m)). split; [done|]. split; [simpl in *; lia|].
  split; [intros U; by destruct (all_used_free _ _ U Hj)|].
  intros j' a h' Hj' _ Fa Oa Na _. rewrite (first_free_unique _ _ _ Hj' Hj) in *. clear j' Hj'.
  destruct (Z.eqb_spec (Z.of_nat j + 1) 0); [lia|]. apply wp_bind. unfold fread.
  destruct (Z.eqb_spec (Z.of_nat (length data)) 0), (Z.ltb_spec (Z.of_nat j + 1) 1); try lia. cbn [Z.eqb orb].
  apply wp_bind. eapply wp_get_descriptor; [by apply fd_cell|done|]. cbn beta iota.
  apply wp_bind, wp_ret, wp_on_driver. cbn [driver].
  eapply wp_mono; [apply (saved_read_bytes _ _ _ _ _ _ _ _ _ desc q (saved_heap _ _ _ _ _ _ _ _ _ h' Sv)); done|].
  intros x s2 [-> Q2]. cbn beta iota. apply wp_bind.
  pose proof (view_heap _ _ (q_view _ _ Q2)) as Hh2.
  eapply wp_mono; [apply (fclose_spec _ (with_blocks addrs m) j a desc)|].
  { by apply fd_cell. } { done. } { cbn [file_descriptors set_driver]. by rewrite length_insert. } { done. } { done. }
  { done. } { cbn [driver set_driver]. by rewrite Hh2. }
  intros c v' (-> & h3 & -> & O3 & N3 & _). apply wp_ret. split; [done|]. cbn [file_descriptors driver set_driver].
  rewrite list_insert_insert_eq, list_insert_id by apply Hj. split; [done|]. apply Q2.
Qed.
End files.

(** ** Theorems *)
Section theorems.
Context {D : Type} {B : BlockDevice D} {BS : BlockDeviceSpec D} {H : Type} {A : Allocator H} {AS : AllocatorSpec H}.

(** C4: files keep what programs write.  On a mounted, consistent volume with
    room, [fopen(path, "w")], [fwrite] of the data and [fclose] on a new name
    succeed: the descriptor table is the old one, the volume is consistent
    with the new file added in clusters [l] that were free, and every older
    file still has its contents.  [fopen(path, "r")], [fread] and [fclose]
    then return exactly the data, if no cluster of [l] behind the first has
    one of the numbers 0xFF0, 0xFF6, 0xFF7, 0xFF8 and 0xFFF, which the driver
    takes for FAT12 marks; if one has, the read returns the bytes in the
    clusters before it and, if the data is longer than these, [-EIO].  Volumes of fewer
    than 0xFEF clusters have no such numbers. *)
Theorem file_write_read (v : vfs fat_file_descriptor D H) ch m base e tail data :
  ready v ch m 10 (Z.of_nat (length data)) -> valid83 base e -> SLASH ∉ dotted base e ->
  absent (driver v) (dotted base e) -> bytes_ok data -> 0 < Z.of_nat (length data) < 2 ^ 31 ->
  wp (write_file (root_file base e tail) data) (fun r v' => r = Some (Z.of_nat (length data), 0) /\
    file_descriptors v' = file_descriptors v /\
    exists i l, vol_ok (driver v') (put_chain ch i (Some l)) /\ (forall x, x ∈ l -> x ∈ free_clusters (driver v)) /\
      (forall j l', ch !! j = Some l' -> chain_bytes (driver v') l' = chain_bytes (driver v) l') /\
      wp (read_file (root_file base e tail) (Z.of_nat (length data))) (fun r v'' =>
        r = Some (read_back (driver v') l data, 0) /\ file_descriptors v'' = file_descriptors v /\
        same_disk (dev (driver v')) (dev (driver v''))) v' /\
      (followed l -> read_back (driver v') l data = (Z.of_nat (length data), data)) /\
      (nclusters (driver v) < 0xFEF -> followed l)) v.
Proof.
  intros Rd Hv Hsl Habs Hb Hlen. destruct Rd as [R1 R2 R3 R4 R5 R6 R7 R8].
  eapply wp_mono; [apply (write_file_spec v ch m base e tail data); try done|].
  { split; try done. lia. }
  intros r v' (-> & addrs & i & it & l & s' & -> & Sv & K & Fa & Oa & La & Na). split; [done|]. split; [done|].
  exists i, l. split; [apply Sv|]. split; [apply Sv|]. split; [|split; [|split]].
  - intros j l' Hj. apply (sv_others _ _ _ _ _ _ _ _ _ Sv j l'); [|done].
    intros ->. by rewrite (sv_new _ _ _ _ _ _ _ _ _ Sv) in Hj.
  - apply (read_file_spec (mk_vfs (filesystems v) (file_descriptors v) s') (driver v) ch (with_blocks addrs m)
      base e tail data i it l Sv Habs Hv Hsl Hlen Oa).
    + cbn [driver]. lia.
    + cbn [driver]. unfold disk_fields in K. congruence.
    + exact R5.
    + exact R6.
  - by eapply read_back_all.
  - intros Hn x Hx. eapply small_volume; [exact Hn|]. apply Sv. destruct l; [done|by right].
Qed.
End theorems.

(** ** Booting the file layer *)
Section boot.
Context {D : Type} {B : BlockDevice D} {BS : BlockDeviceSpec D} {H : Type} {A : Allocator H} {AS : AllocatorSpec H}.
Implicit Types v : vfs fat_file_descriptor D H.

Definition boot_files : M (vfs fat_file_descriptor D H) unit := _ ← fs_init; disk_search_and_init.

Lemma fs_init_spec v :
  wp fs_init (fun _ v' => v' = mk_vfs (Some FAT16_FS :: replicate 11 None) (replicate 512 None) (driver v)) v.
Proof. done. Qed.

(** The state [fs_resolve] runs in. *)
Definition fresh_disk (s : fs_state D H) : fs_state D H :=
  set_disk s (mk_disk PEACHOS_DISK_TYPE_REAL PEACHOS_SECTOR_SIZE 0 false None).

Lemma fs_resolve_spec v (Q : option fs_ref -> vfs fat_file_descriptor D H -> Prop) :
  filesystems v = Some FAT16_FS :: replicate 11 None ->
  wp fat16_resolve (fun r s => Q (if r =? 0 then Some FAT16_FS else None) (set_driver v s)) (driver v) ->
  wp fs_resolve Q v.
Proof.
  intros Hl W. unfold fs_resolve. apply wp_bind, wp_gets. rewrite Hl.
  change (Z.to_nat PEACHOS_MAX_FILESYSTEMS) with 12%nat. cbn [resolve_loop]. apply wp_bind.
  eapply wp_lift; [reflexivity|]. apply wp_bind, wp_on_driver. eapply wp_mono; [exact W|].
  intros r s HQ. cbn beta in HQ. destruct (r =? 0); exact HQ.
Qed.

Lemma fs_ok_flag (s : fs_state D H) b : fs_ok s -> 
  fs_ok (set_disk s (mk_disk (disk_type (the_disk s)) (sector_size (the_disk s)) (id (the_disk s)) b (fs_private (the_disk s)))).
Proof. intros [O1 O2 O3]. by split. Qed.

(** The disk carries the signature. *)
Lemma disk_init_spec v m z : filesystems v = Some FAT16_FS :: replicate 11 None ->
  dev_ok (dev (driver v)) -> owns (heap (driver v)) m -> (8 <= free_blocks (heap (driver v)))%nat ->
  let b := boot (dev (driver v)) in signature (extended_header b) = 0x29 -> mountable (dev (driver v)) (primary_header b) z ->
  wp disk_search_and_init (fun _ v' => exists s, v' = set_driver v s /\
    filesystem (the_disk s) = true /\ fs_ok s /\ hdr s = primary_header b /\ root s = mounted_root (dev (driver v)) (primary_header b) z /\
    same_disk (dev (driver v)) (dev s) /\ (root_dir_entries (primary_header b) mod 16 = 0 -> dir_ok s) /\
    grown m 7 (heap (driver v)) (heap s) /\ loses (heap (driver v)) (heap s) 8) v.
Proof.
  intros Hl Hd Ho Hf b Hs Hm. unfold disk_search_and_init. apply wp_bind, wp_on_driver, wp_modify.
  change (set_disk (driver v) _) with (fresh_disk (driver v)). apply wp_bind, fs_resolve_spec; [done|]. cbn [driver set_driver].
  eapply wp_mono; [apply (resolve_mounts_spec (fresh_disk (driver v)) m z); [by split|exact Hs|exact Hm]|].
  intros r s (-> & Hs1 & Hh & Hr & Hsd & Hdir & G & L). apply wp_on_driver, wp_modify. cbn [driver set_driver Z.eqb].
  change (hdr s = primary_header b) in Hh. rewrite Hh in Hr, Hdir. eexists. split; [reflexivity|]. split; [done|].
  split; [by apply fs_ok_flag|]. do 3 (split; [done|]). split; [|done]. intros Ha. destruct (Hdir Ha). by split.
Qed.

(** C26: booting the file layer.  From any state, [fs_init] and
    [disk_search_and_init] leave an empty descriptor table and do not write
    to the disk.  If the boot sector carries the FAT16 signature, the volume
    is mounted with the root directory of the disk; if not, no file system
    is attached and there is no private data. *)
Theorem boot_files_correct v m z :
  dev_ok (dev (driver v)) -> owns (heap (driver v)) m -> (8 <= free_blocks (heap (driver v)))%nat ->
  let b := boot (dev (driver v)) in
  (signature (extended_header b) = 0x29 -> mountable (dev (driver v)) (primary_header b) z) ->
  wp boot_files (fun _ v' => let s := driver v' in
    file_descriptors v' = replicate 512 None /\ same_disk (dev (driver v)) (dev s) /\
    filesystem (the_disk s) = bool_decide (signature (extended_header b) = 0x29) /\
    (signature (extended_header b) = 0x29 -> fs_ok s /\ hdr s = primary_header b /\
       root s = mounted_root (dev (driver v)) (primary_header b) z /\
       (root_dir_entries (primary_header b) mod 16 = 0 -> dir_ok s)) /\
    (signature (extended_header b) <> 0x29 -> fs_private (the_disk s) = None)) v.
Proof.
  intros Hd Ho Hf b Hm. destruct (decide (signature (extended_header b) = 0x29)) as [Hs|Hs].
  - unfold boot_files. eapply wp_step; [apply fs_init_spec|]. intros _ v1 ->.
    eapply wp_mono; [by apply (disk_init_spec _ m z); [done..|apply Hm]|]. cbn [driver]. fold b.
    intros _ v' (s & -> & Hfs & Hok & Hh & Hr & Hsd & Hdir & _). cbn [driver file_descriptors set_driver].
    split; [done|]. split; [exact Hsd|]. split; [by rewrite (bool_decide_true (signature _ = _))|]. by split.
  - unfold boot_files. eapply wp_step; [apply fs_init_spec|]. intros _ v1 ->.
    unfold disk_search_and_init. apply wp_bind, wp_on_driver, wp_modify. cbn [driver].
    change (set_disk (driver v) _) with (fresh_disk (driver v)). apply wp_bind, fs_resolve_spec; [done|]. cbn [driver set_driver].
    eapply wp_mono; [apply (resolve_refuses_spec (fresh_disk (driver v)) m); [split; (done || simpl; lia)|done]|].
    intros r s (-> & Hp & Hsd & _). apply wp_on_driver, wp_modify. cbn [driver set_driver Z.eqb].
    split; [done|]. split; [exact Hsd|]. split; [by rewrite (bool_decide_false (signature _ = _))|]. done.
Qed.
End boot.

(** ** Deleting by path *)
Section delete.
Context {D : Type} {B : BlockDevice D} {BS : BlockDeviceSpec D} {H : Type} {A : Allocator H} {AS : AllocatorSpec H}.
Implicit Types v : vfs fat_file_descriptor D H.

Lemma slot_done_heap_l (s : fs_state D H) ch i it o s' h :
  slot_done (set_heap s h) ch i it o s' -> slot_done s ch i it o s'.
Proof. intros []. by split. Qed.

(** C27: [fdelete] of a file in the root directory.  It returns [-EIO] and
    changes nothing when no entry has the name; otherwise it returns 0, the
    entry is marked as deleted, the FAT entries of the file's clusters are
    free, the volume is consistent and the other files keep their contents.
    In both cases every block of the parsed path is given back and no
    descriptor changes. *)
Theorem fdelete_correct v ch m base e tail :
  vol_ok (driver v) ch -> owns (heap (driver v)) m -> (4 <= free_blocks (heap (driver v)))%nat ->
  filesystem (the_disk (driver v)) = true -> valid83 base e -> SLASH ∉ dotted base e ->
  wp (fdelete (root_file base e tail)) (fun r v' =>
    file_descriptors v' = file_descriptors v /\ owns (heap (driver v')) m /\
    free_blocks (heap (driver v')) = free_blocks (heap (driver v)) /\
    ((r = - EIO /\ (exists h, driver v' = set_heap (driver v) h) /\
      forall k it, listed (item (root (driver v))) k it -> ~ name_matches (dotted base e) it) \/
     (r = 0 /\ exists i it l, listed (item (root (driver v))) i it /\ name_matches (dotted base e) it /\
        ch !! i = Some l /\ slot_done (driver v) ch i (deleted_item it) None (driver v') /\
        forall x, x ∈ l -> fat_at (driver v') x = 0))) v.
Proof.
  intros V Ho Hf Hm Hv Hsl. set (v0 := set_fds v (replicate 512 None)).
  destruct (root_file_openable v0 m base e tail [114; 0] FILE_MODE_READ Ho Hv Hsl Hf Hm eq_refl ltac:(done) eq_refl)
    as [_ [Hs Hb] Hp _ _ _ _ _ _].
  unfold fdelete. apply wp_bind, wp_on_heap.
  eapply wp_mono; [apply (parse_spec _ m _ _ Ho Hs Hb); unfold room_for; rewrite Hp; exact Hf|].
  intros r h. rewrite Hp. intros (rt & -> & Pd & Oh & Nh & _). cbn beta iota. unfold fdelete_body.
  pose proof (pd_parts _ _ _ _ Pd) as Ep. rewrite (pd_drive _ _ _ _ Pd).
  destruct (first rt) as [|x [|y q]] eqn:Ef; try discriminate Ep. rewrite Ep. cbn [disk_get Z.eqb negb].
  apply wp_bind, wp_bind, wp_gets. cbn [driver set_driver the_disk set_heap]. rewrite Hm. cbn [negb].
  apply wp_on_driver. cbn [driver set_driver fmap list_fmap]. rewrite part_buf_name by done.
  assert (V0 : vol_ok (set_heap (driver v) h) ch) by (by apply vol_heap).
  eapply wp_mono; [apply (fat16_delete_spec _ ch _ [] _ V0 (c_name_search base e _ Hv))|].
  intros res s1 Hres. assert (Hh1 : heap s1 = h) by (destruct Hres as [(_ & -> & _)|(_ & ? & ? & ? & _ & _ & _ & _ & -> & _)]; done).
  apply wp_bind, wp_on_heap. cbn [driver set_driver].
  eapply wp_mono; [apply (path_free_spec (heap s1) m 0 [dotted base e] rt Pd); by rewrite Hh1|].
  intros u h2 [O2 N2]. apply wp_ret. cbn [file_descriptors driver set_driver heap set_heap].
  split; [done|]. split; [done|]. split; [rewrite N2, Hh1; simpl in *; lia|].
  destruct Hres as [(-> & -> & Hno)|(-> & i & it & l & Hl & Hmt & Hi & Sd & _ & Hz)].
  - left. split; [done|]. split; [by exists h2|done].
  - right. split; [done|]. exists i, it, l. split; [done|]. split; [done|]. split; [done|].
    split; [by apply slot_done_heap, (slot_done_heap_l _ _ _ _ _ _ h)|done].
Qed.
End delete.

(** ** Witnesses: the volume of [ExampleFiles], mounted in a kernel with ten
    free heap blocks and no open file *)
Module ExampleKernel.
Import ExampleVolume ExampleFiles ExampleBoot.

Definition kernel : vfs fat_file_descriptor Ram.ram KHeap.kheap :=
  mk_vfs (Some FAT16_FS :: replicate 11 None) (replicate 512 None) (set_heap files (KHeap.mk_kheap ten_blocks ∅)).

Lemma kernel_owns : owns (heap (driver kernel)) ∅.
Proof. exists ∅. split; [exact ten_blocks_ok|done]. Qed.
Lemma kernel_free : free_blocks (heap (driver kernel)) = 10%nat.
Proof. vm_compute. reflexivity. Qed.
Lemma kernel_vol : vol_ok (driver kernel) chains.
Proof. apply vol_heap, files_vol. Qed.

Lemma kernel_ready : ready kernel chains ∅ 10 1500.
Proof.
  split.
  - exact kernel_vol.
  - exact kernel_owns.
  - rewrite kernel_free. lia.
  - reflexivity.
  - apply length_replicate.
  - exists 0%nat. split; [split; [reflexivity|lia]|lia].
  - exists 1%nat, zero_item. split; [reflexivity|]. intros [Hz _]. by destruct Hz.
  - change (free_clusters (driver kernel)) with (free_clusters files). rewrite files_free. vm_compute. discriminate.
Qed.

Lemma b_txt_slash : SLASH ∉ dotted [98] [116; 120; 116].
Proof. apply (bool_decide_unpack _). vm_compute. exact I. Qed.
Lemma a_txt_valid : valid83 [97] [116; 120; 116].
Proof. split; (split; [simpl; lia|]); repeat (constructor; [unfold name_char; lia|]); constructor. Qed.
Lemma a_txt_slash : SLASH ∉ dotted [97] [116; 120; 116].
Proof. apply (bool_decide_unpack _). vm_compute. exact I. Qed.

Definition unbooted (sig : Z) : vfs fat_file_descriptor Ram.ram KHeap.kheap := mk_vfs [] [] (unmounted_disk sig).
End ExampleKernel.
Import ExampleFiles ExampleBoot ExampleKernel.

Lemma file_write_read_witness :
  wp (write_file (root_file [98] [116; 120; 116] []) (replicate 1500 7)) (fun r v' => r = Some (1500, 0) /\
    wp (read_file (root_file [98] [116; 120; 116] []) 1500) (fun r _ => r = Some (1500, replicate 1500 7, 0)) v') kernel.
Proof.
  assert (L : Z.of_nat (length (replicate 1500 7)) = 1500) by (rewrite length_replicate; lia).
  eapply wp_mono; [apply (file_write_read kernel chains ∅ [98] [116; 120; 116] [] (replicate 1500 7))|].
  - rewrite L. exact kernel_ready.
  - exact b_txt.
  - exact b_txt_slash.
  - exact b_txt_absent.
  - apply bytes_ok_replicate. unfold byte_ok. lia.
  - rewrite L. lia.
  - intros r v' (-> & _ & i & l & _ & _ & _ & W & Hall & Hsmall). specialize (Hall (Hsmall ltac:(vm_compute; reflexivity))).
    rewrite Hall, L in W. rewrite L. split; [reflexivity|].
    eapply wp_mono; [exact W|]. intros r v'' (-> & _). reflexivity.
Defined.

Lemma boot_files_correct_witness :
  wp boot_files (fun _ v' => filesystem (the_disk (driver v')) = true /\ dir_ok (driver v')) (unbooted 0x29) /\
  wp boot_files (fun _ v' => filesystem (the_disk (driver v')) = false) (unbooted 0).
Proof.
  split.
  - eapply wp_mono; [apply (boot_files_correct (unbooted 0x29) ∅ 1)|].
    + apply disk_image_ok. by right.
    + apply (unmounted_disk_ok 0x29 8); [by right|lia].
    + apply (unmounted_disk_ok 0x29 8); [by right|lia].
    + intros _. exact disk_mountable.
    + intros u v' (_ & _ & Hfs & Hm & _). split; [rewrite Hfs; vm_compute; reflexivity|].
      destruct Hm as (_ & _ & _ & Hd); [vm_compute; reflexivity|]. apply Hd. vm_compute. reflexivity.
  - eapply wp_mono; [apply (boot_files_correct (unbooted 0) ∅ 1)|].
    + apply disk_image_ok. by left.
    + apply (unmounted_disk_ok 0 8); [by left|lia].
    + apply (unmounted_disk_ok 0 8); [by left|lia].
    + intros Hs. vm_compute in Hs. discriminate Hs.
    + intros u v' (_ & _ & Hfs & _). rewrite Hfs. vm_compute. reflexivity.
Defined.

Lemma fdelete_correct_witness :
  wp (fdelete (root_file [97] [116; 120; 116] [])) (fun r v' => r = 0 /\ free_blocks (heap (driver v')) = 10%nat) kernel.
Proof.
  eapply wp_mono; [apply (fdelete_correct kernel chains ∅ [97] [116; 120; 116] [])|].
  - exact kernel_vol.
  - exact kernel_owns.
  - rewrite kernel_free. lia.
  - reflexivity.
  - exact a_txt_valid.
  - exact a_txt_slash.
  - intros r v' (_ & _ & Hn & Hr). rewrite kernel_free in Hn. split; [|exact Hn].
    destruct Hr as [(_ & _ & Hno)|(Hr & _)]; [|exact Hr].
    exfalso. apply (Hno 0%nat a_txt); [|by vm_compute]. split; [reflexivity|by vm_compute|by vm_compute|lia].
Defined.


Lemma fopen_refuses_witness :
  wp (fopen [48; 58; 47; 97; 0] [120; 0]) (fun r v' => r = 0 /\ exists h, v' = set_driver kernel (set_heap (driver kernel) h)) kernel.
Proof.
  eapply wp_mono; [apply (fopen_refuses kernel ∅ _ [48; 58; 47; 97] _ FILE_MODE_INVALID)|].
  - exact kernel_owns.
  - reflexivity.
  - repeat (constructor; [unfold byte_ok; lia|]). constructor.
  - unfold room_for. rewrite kernel_free. change (parse_path [48; 58; 47; 97]) with (Some (0, [[97]])). simpl. lia.
  - reflexivity.
  - change (parse_path [48; 58; 47; 97]) with (Some (0, [[97]])). right. right. right. reflexivity.
  - intros r v' (Hr & h & Hv & _). split; [exact Hr|]. exists h. exact Hv.
Defined.
