(* ===== verification/Gdt.v ===== *)
(** * Segment descriptors: src/gdt/gdt.c

    The kernel packs segment descriptors into the 8-byte layout of the
    processor.  [decode_gdt] reads this layout the way the processor does;
    the theorem says that it gives back what was encoded. *)
From Stdlib Require Import ZArith Lia.
From stdpp Require Import base list numbers option list_numbers.
From S2P Require Import Prelude.
Local Open Scope Z_scope.
Local Open Scope kernel_scope.

Record gdt_structured := mk_gdt { base : Z; limit : Z; type : Z }.

(** [encodeGdtEntry(target, source)]; the argument check ends in [panic]. *)
Definition encodeGdtEntry (target : list Z) (source : gdt_structured) : out (list Z) :=
  if (limit source >? 65536) && negb (Z.land (limit source) 0xFFF =? 0xFFF) then Hang
  else
    let big := limit source >? 65536 in
    let lim := if big then Z.shiftr (limit source) 12 else limit source in
    t ← target.[6 <- if big then 0xC0 else 0x40];
    t ← t.[0 <- Z.land lim 0xFF];
    t ← t.[1 <- Z.land (Z.shiftr lim 8) 0xFF];
    t6 ← t.[6];
    t ← t.[6 <- Z.lor t6 (Z.land (Z.shiftr lim 16) 0x0F)];
    t ← t.[2 <- Z.land (base source) 0xFF];
    t ← t.[3 <- Z.land (Z.shiftr (base source) 8) 0xFF];
    t ← t.[4 <- Z.land (Z.shiftr (base source) 16) 0xFF];
    t ← t.[7 <- Z.land (Z.shiftr (base source) 24) 0xFF];
    t.[5 <- type source].

(** The loop over the entries; an entry is 8 bytes. *)
Fixpoint gdt_structured_to_gdt (gdt : list (list Z)) (structured_gdt : list gdt_structured) : out (list (list Z)) :=
  match structured_gdt with
  | [] => Ok gdt
  | s :: structured_gdt' =>
      match gdt with
      | [] => Ub
      | t :: gdt' => t ← encodeGdtEntry t s; r ← gdt_structured_to_gdt gdt' structured_gdt'; Ok (t :: r)
      end
  end.

(** ** The processor's view *)
Definition bits (b : list Z) (i : nat) : Z := default 0 (b !! i).

(** Base, limit in bytes (the last valid offset) and access byte of a
    descriptor; bit 7 of byte 6 selects 4 KiB granularity. *)
Definition decode_gdt (b : list Z) : gdt_structured :=
  let raw := bits b 0 + 256 * bits b 1 + 65536 * (bits b 6 mod 16) in
  mk_gdt (bits b 2 + 256 * bits b 3 + 65536 * bits b 4 + 16777216 * bits b 7)
    (if Z.testbit (bits b 6) 7 then 4096 * raw + 4095 else raw) (bits b 5).

Record gdt_ok (s : gdt_structured) : Prop := {
  go_base : 0 <= base s < 2 ^ 32;
  go_limit : 0 <= limit s < 2 ^ 32;
  go_type : 0 <= type s < 256 }.

(** A limit the encoder accepts. *)
Definition encodable (l : Z) : Prop := l <= 65536 \/ l mod 4096 = 4095.

(** The flags byte: the high nibble holds the flags, the low one bits 16-19
    of the limit. *)
Lemma flags_byte f n : f = 0xC0 \/ f = 0x40 -> 0 <= n < 16 ->
  Z.lor f n mod 16 = n /\ Z.testbit (Z.lor f n) 7 = (f =? 0xC0) /\ byte_ok (Z.lor f n).
Proof.
  intros Hf Hn.
  assert (E : Forall (fun n => Z.lor f n mod 16 = n /\ Z.testbit (Z.lor f n) 7 = (f =? 0xC0) /\ byte_ok (Z.lor f n))
    [0; 1; 2; 3; 4; 5; 6; 7; 8; 9; 10; 11; 12; 13; 14; 15]).
  { unfold byte_ok. destruct Hf as [-> | ->]; repeat (constructor; [vm_compute; intuition discriminate|]); constructor. }
  rewrite Forall_lookup in E. apply (E (Z.to_nat n)).
  change [0; 1; 2; 3; 4; 5; 6; 7; 8; 9; 10; 11; 12; 13; 14; 15] with (seqZ 0 16). apply lookup_seqZ. lia.
Qed.

(** The eight stores. *)
Lemma encode_bytes t s :
  length t = 8%nat -> encodable (limit s) -> 0 <= limit s ->
  let lim := if limit s >? 65536 then limit s / 4096 else limit s in
  encodeGdtEntry t s = Ok [lim mod 256; lim / 256 mod 256; base s mod 256; base s / 256 mod 256;
    base s / 65536 mod 256; type s;
    Z.lor (if limit s >? 65536 then 0xC0 else 0x40) (lim / 65536 mod 16); base s / 16777216 mod 256].
Proof.
  intros Hl He H0 lim. do 8 (destruct t as [|? t]; [done|]). destruct t; [|done]. unfold encodeGdtEntry.
  rewrite land_fff.
  assert (Hc : (limit s >? 65536) && negb (limit s mod 4096 =? 4095) = false).
  { destruct He as [He|He]; [destruct (Z.gtb_spec (limit s) 65536); [lia|done]|].
    rewrite He. cbn. apply andb_false_r. }
  rewrite Hc. cbn -[Z.land Z.lor Z.shiftr Z.gtb]. rewrite !land_ff, land_f, !shiftr_div by lia. done.
Qed.

(** What was encoded is decoded again. *)
Lemma encode_decode_spec t s :
  length t = 8%nat -> gdt_ok s -> encodable (limit s) ->
  exists b, encodeGdtEntry t s = Ok b /\ length b = 8%nat /\ bytes_ok b /\ decode_gdt b = s.
Proof.
  intros Hl [G1 G2 G3] He.
  eexists. split; [exact (encode_bytes t s Hl He (proj1 G2))|].
  set (big := limit s >? 65536). set (lim := if big then limit s / 4096 else limit s).
  assert (Hlim : 0 <= lim < 2 ^ 20) by (unfold lim, big; destruct (Z.gtb_spec (limit s) 65536); zdm).
  destruct (flags_byte (if big then 192 else 64) (lim / 65536 mod 16)) as (F1 & F2 & F3);
    [destruct big; auto|apply Z.mod_pos_bound; lia|].
  split; [done|]. split.
  + repeat (constructor; [first [exact F3|apply Z.mod_pos_bound; lia|exact G3]|]). constructor.
  + unfold decode_gdt, bits. cbn [lookup list_lookup from_option id]. rewrite F1, F2. destruct s as [sb sl st].
    cbn [base limit type] in *. f_equal; [zdm|].
    assert (Hraw : lim mod 256 + 256 * (lim / 256 mod 256) + 65536 * (lim / 65536 mod 16) = lim) by zdm.
    rewrite Hraw. unfold lim. destruct big eqn:Eb; [|done]. cbn [Z.eqb Pos.eqb]. unfold big in Eb.
    apply Z.gtb_lt in Eb. destruct He as [He|He]; [lia|]. zdm.
Qed.

(** The kernel's table: null, kernel code and data, user code and data, and
    the task state segment at [tss] of [size] bytes (src/kernel.c). *)
Definition kernel_gdt (tss size : Z) : list gdt_structured :=
  [mk_gdt 0 0 0; mk_gdt 0 0xffffffff 0x9a; mk_gdt 0 0xffffffff 0x92; mk_gdt 0 0xffffffff 0xf8;
   mk_gdt 0 0xffffffff 0xf2; mk_gdt tss size 0xE9].

Lemma gdt_table_spec l : forall g,
  Forall (fun t => length t = 8%nat) g -> Forall gdt_ok l -> Forall (fun s => encodable (limit s)) l -> length g = length l ->
  exists r, gdt_structured_to_gdt g l = Ok r /\ decode_gdt <$> r = l.
Proof.
  induction l as [|s l IH]; intros g Hg Hl He Hlen.
  - destruct g; [|done]. by exists [].
  - destruct g as [|t g]; [done|]. cbn [gdt_structured_to_gdt]. apply Forall_cons in Hg as [Ht Hg]. apply Forall_cons in Hl as [Hs Hl].
    apply Forall_cons in He as [He1 He]. injection Hlen as Hlen.
    destruct (encode_decode_spec t s Ht Hs He1) as (b & E & _ & _ & D). rewrite E. cbn [mbind out_bind].
    destruct (IH g Hg Hl He Hlen) as (r & -> & <-). exists (b :: r). split; [done|]. cbn. by rewrite D.
Qed.

(** ** Theorems *)

(** C39: segment descriptors.  For every base, type and encodable limit
    (below 64 KiB, or a multiple of 4 KiB less one) the eight bytes that
    [encodeGdtEntry] writes are read back by the processor's decoding as
    exactly that base, limit and type, whatever the target held before; any
    other limit makes the kernel panic. *)
Theorem gdt_encode_decode t s :
  length t = 8%nat -> gdt_ok s ->
  (encodable (limit s) -> exists b, encodeGdtEntry t s = Ok b /\ length b = 8%nat /\ bytes_ok b /\ decode_gdt b = s) /\
  (~ encodable (limit s) -> encodeGdtEntry t s = Hang).
Proof.
  intros Hl G. split; [by apply encode_decode_spec|].
  intros Hn. unfold encodeGdtEntry, encodable in *. rewrite land_fff.
  destruct (Z.gtb_spec (limit s) 65536); [|lia]. destruct (Z.eqb_spec (limit s mod 4096) 4095); [lia|done].
Qed.

Lemma gdt_encode_decode_witness :
  exists b, encodeGdtEntry (replicate 8 0) (mk_gdt 0 0xffffffff 0x9a) = Ok b /\ decode_gdt b = mk_gdt 0 0xffffffff 0x9a.
Proof.
  destruct (proj1 (gdt_encode_decode (replicate 8 0) (mk_gdt 0 0xffffffff 0x9a) eq_refl
    (Build_gdt_ok (mk_gdt 0 0xffffffff 0x9a) ltac:(simpl; lia) ltac:(simpl; lia) ltac:(simpl; lia)))) as (b & E & _ & _ & D).
  - right. reflexivity.
  - exists b. split; [exact E|exact D].
Defined.

(** The kernel's table of six segments is loaded as written: with a task
    state segment at [tss] of at most 64 KiB, [gdt_structured_to_gdt]
    succeeds and the processor sees exactly the segments of src/kernel.c. *)
Lemma kernel_gdt_spec tss size :
  0 <= tss < 2 ^ 32 -> 0 <= size <= 65536 ->
  exists r, gdt_structured_to_gdt (replicate 6 (replicate 8 0)) (kernel_gdt tss size) = Ok r /\
    decode_gdt <$> r = kernel_gdt tss size.
Proof.
  intros Ht Hs. apply gdt_table_spec.
  - by apply Forall_replicate.
  - repeat (constructor; [split; simpl; lia|]). constructor.
  - repeat (constructor; [first [left; simpl; lia|right; reflexivity]|]). constructor.
  - done.
Qed.
