(* ===== verification/Terminal.v ===== *)
(** * The text screen: the terminal of src/kernel.c

    Characters go to the memory-mapped text buffer and the position of the
    hardware cursor to the registers of the CRT controller.  [step] is the
    abstract screen; the theorem says that [print] refines it and never
    stores outside the 80 x 20 cells. *)
From Stdlib Require Import ZArith Lia.
From stdpp Require Import base list gmap numbers option list_numbers.
From S2P Require Import Prelude CLib.
Local Open Scope Z_scope.
Local Open Scope kernel_scope.

Definition VGA_WIDTH : Z := 80.
Definition VGA_HEIGHT : Z := 20.

(** [video_mem] and the two globals; [crtc_index] and [crtc] are the index
    register and the data registers behind the ports 0x3D4 and 0x3D5. *)
Record terminal := mk_term {
  video_mem : list Z; terminal_row : Z; terminal_col : Z; crtc_index : Z; crtc : gmap Z Z }.

Definition set_mem (t : terminal) (l : list Z) : terminal :=
  mk_term l (terminal_row t) (terminal_col t) (crtc_index t) (crtc t).
Definition set_row (t : terminal) (r : Z) : terminal :=
  mk_term (video_mem t) r (terminal_col t) (crtc_index t) (crtc t).
Definition set_col (t : terminal) (c : Z) : terminal :=
  mk_term (video_mem t) (terminal_row t) c (crtc_index t) (crtc t).

Abbreviation TM := (M terminal).

(** [outb] on the two ports of the controller. *)
Definition outb_index (v : Z) : TM unit := modify (fun t =>
  mk_term (video_mem t) (terminal_row t) (terminal_col t) v (crtc t)).
Definition outb_data (v : Z) : TM unit := modify (fun t =>
  mk_term (video_mem t) (terminal_row t) (terminal_col t) (crtc_index t) (<[crtc_index t := v]> (crtc t))).

(** [(colour << 8) | c] on signed chars, as a [uint16_t]. *)
Definition terminal_make_char (c colour : Z) : Z := u16 (Z.lor (Z.shiftl (i8 colour) 8) (i8 c)).

Definition put_cell (i v : Z) : TM unit :=
  l ← gets video_mem; l ← lift_out (l.[i <- v]); modify (fun t => set_mem t l).

Definition terminal_putchar (x y c colour : Z) : TM unit :=
  put_cell (y * VGA_WIDTH + x) (terminal_make_char c colour).

(** The loops of [terminal_scroll]: [x] over a row, [n] columns left; [y]
    over the rows, [n] rows left; and the blank last row. *)
Fixpoint scroll_row (y x : Z) (n : nat) : TM unit :=
  match n with
  | O => mret tt
  | S n' =>
      l ← gets video_mem;
      v ← lift_out (l.[y * VGA_WIDTH + x]);
      _ ← put_cell ((y - 1) * VGA_WIDTH + x) v;
      scroll_row y (x + 1) n'
  end.
Fixpoint scroll_rows (y : Z) (n : nat) : TM unit :=
  match n with
  | O => mret tt
  | S n' => _ ← scroll_row y 0 (Z.to_nat VGA_WIDTH); scroll_rows (y + 1) n'
  end.
Fixpoint blank_row (x : Z) (n : nat) : TM unit :=
  match n with
  | O => mret tt
  | S n' =>
      _ ← put_cell ((VGA_HEIGHT - 1) * VGA_WIDTH + x) (terminal_make_char 32 0); blank_row (x + 1) n'
  end.
Definition terminal_scroll : TM unit :=
  _ ← scroll_rows 1 (Z.to_nat (VGA_HEIGHT - 1)); blank_row 0 (Z.to_nat VGA_WIDTH).

Definition terminal_update_cursor (row col : Z) : TM unit :=
  let pos := u16 (row * VGA_WIDTH + col) in
  _ ← outb_index 14;
  _ ← outb_data (u8 (Z.shiftr pos 8));
  _ ← outb_index 15;
  outb_data (u8 (Z.land pos 0xFF)).

(** [terminal_update_cursor(terminal_row, terminal_col)] *)
Definition update_cursor : TM unit :=
  r ← gets terminal_row; c ← gets terminal_col; terminal_update_cursor r c.

(** [if (terminal_row >= VGA_HEIGHT) ...] *)
Definition scroll_if_full : TM unit :=
  r ← gets terminal_row;
  if r >=? VGA_HEIGHT then _ ← terminal_scroll; modify (fun t => set_row t (VGA_HEIGHT - 1)) else mret tt.

Definition terminal_writechar (c colour : Z) : TM unit :=
  if i8 c =? 0x08 then
    _ ← modify (fun t => if terminal_col t >? 0 then set_col t (u16 (terminal_col t - 1)) else t);
    row ← gets terminal_row; col ← gets terminal_col;
    _ ← terminal_putchar col row 32 colour;
    update_cursor
  else if i8 c =? 10 then
    _ ← modify (fun t => set_col (set_row t (u16 (terminal_row t + 1))) 0);
    _ ← scroll_if_full;
    update_cursor
  else
    row ← gets terminal_row; col ← gets terminal_col;
    _ ← terminal_putchar col row c colour;
    _ ← modify (fun t => set_col t (u16 (terminal_col t + 1)));
    col ← gets terminal_col;
    _ ← (if col >=? VGA_WIDTH then
           _ ← modify (fun t => set_row (set_col t 0) (u16 (terminal_row t + 1)));
           scroll_if_full
         else mret tt);
    update_cursor.

(** The loops of [terminal_initialize]. *)
Fixpoint clear_row (y x : Z) (n : nat) : TM unit :=
  match n with
  | O => mret tt
  | S n' => _ ← terminal_putchar x y 32 0; clear_row y (x + 1) n'
  end.
Fixpoint clear_rows (y : Z) (n : nat) : TM unit :=
  match n with
  | O => mret tt
  | S n' => _ ← clear_row y 0 (Z.to_nat VGA_WIDTH); clear_rows (y + 1) n'
  end.
Definition terminal_initialize : TM unit :=
  _ ← modify (fun t => set_col (set_row t 0) 0);
  _ ← clear_rows 0 (Z.to_nat VGA_HEIGHT);
  _ ← outb_index 0x0A;
  _ ← outb_data 13;
  _ ← outb_index 0x0B;
  _ ← outb_data 15;
  terminal_update_cursor 0 0.

(** The loop of [print] over the [len] characters of the string. *)
Fixpoint print_loop (str : list Z) (n : nat) {struct n} : TM unit :=
  match n with
  | O => mret tt
  | S n' =>
      match str with
      | [] => ub
      | c :: str' => _ ← terminal_writechar c 15; print_loop str' n'
      end
  end.
Definition print (str : list Z) : TM unit :=
  len ← lift_out (CString.strlen str); print_loop str (Z.to_nat len).

(** ** The abstract screen *)
Record screen := mk_screen { cells : list Z; row : nat; col : nat }.
Definition blank : Z := 0x20.
(** The cell of a character in colour 15: white on black for ASCII. *)
Definition glyph (c : Z) : Z := terminal_make_char c 15.

Definition next_line (s : screen) : screen :=
  if (row s <? 19)%nat then mk_screen (cells s) (S (row s)) 0
  else mk_screen (drop 80 (cells s) ++ replicate 80 blank) 19 0.
Definition put (s : screen) (c : Z) : list Z := <[(row s * 80 + col s)%nat := glyph c]> (cells s).
Definition step (s : screen) (c : Z) : screen :=
  if c =? 8 then
    let s' := mk_screen (cells s) (row s) (pred (col s)) in mk_screen (put s' 32) (row s) (pred (col s))
  else if c =? 10 then next_line s
  else if (col s <? 79)%nat then mk_screen (put s c) (row s) (S (col s))
  else next_line (mk_screen (put s c) (row s) (col s)).

Definition screen_ok (s : screen) : Prop := length (cells s) = 1600%nat /\ (row s < 20)%nat /\ (col s < 80)%nat.

(** The terminal shows the screen [s]; [rest] is memory behind it. *)
Record shows (t : terminal) (s : screen) (rest : list Z) : Prop := {
  sh_mem : video_mem t = cells s ++ rest;
  sh_row : terminal_row t = Z.of_nat (row s);
  sh_col : terminal_col t = Z.of_nat (col s);
  sh_ok : screen_ok s }.

(** The hardware cursor is where the next character goes. *)
Definition cursor_at (t : terminal) (s : screen) : Prop :=
  exists h l, crtc t !! 14 = Some h /\ crtc t !! 15 = Some l /\ 256 * h + l = Z.of_nat (row s * 80 + col s).

Lemma glyph_ascii c : 0 <= c < 128 -> glyph c = 0x0F00 + c.
Proof.
  intros Hc. unfold glyph, terminal_make_char. rewrite i8_id by lia. rewrite (i8_id c) by lia.
  change (Z.shiftl 15 8) with 3840. assert (E : Z.land 3840 c = 0).
  - apply Z.bits_inj'. intros n Hn. rewrite Z.land_spec, Z.bits_0. destruct (Z.le_gt_cases 8 n).
    + rewrite (Z.bits_above_log2 c n); [apply andb_false_r|lia|].
      destruct (Z.eq_dec c 0) as [->|]; [simpl; lia|]. apply Z.log2_lt_pow2; [lia|].
      apply Z.lt_le_trans with (2 ^ 8); [lia|]. by apply Z.pow_le_mono_r.
    + assert (Hcase : n = 0 \/ n = 1 \/ n = 2 \/ n = 3 \/ n = 4 \/ n = 5 \/ n = 6 \/ n = 7) by lia.
      by repeat (destruct Hcase as [->|Hcase]; [done|]); subst n.
  - pose proof (Z.add_lor_land 3840 c) as L. rewrite E in L. rewrite u16_id; lia.
Qed.

(** ** Scrolling *)

(** The first [k] cells are already moved up one row. *)
Definition moved (l : list Z) (k : nat) : list Z := take k (drop 80 l) ++ drop k l.

Lemma length_moved l k : (k + 80 <= length l)%nat -> length (moved l k) = length l.
Proof. intros. unfold moved. rewrite length_app, length_take, !length_drop. lia. Qed.

Lemma moved_step l k v :
  (k + 80 < length l)%nat -> l !! (k + 80)%nat = Some v ->
  moved l k !! (k + 80)%nat = Some v /\ <[k := v]> (moved l k) = moved l (S k).
Proof.
  intros Hk Hv. unfold moved. assert (Lt : length (take k (drop 80 l)) = k) by (rewrite length_take, length_drop; lia).
  split.
  - rewrite lookup_app_r by lia. rewrite Lt, lookup_drop. rewrite <- Hv. f_equal. lia.
  - rewrite insert_app_r_alt by lia. rewrite Lt, Nat.sub_diag.
    rewrite (take_S_r _ _ v) by (rewrite lookup_drop, <- Hv; f_equal; lia). rewrite <- app_assoc. f_equal.
    destruct (lookup_lt_is_Some_2 l k) as [x Hx]; [lia|]. by rewrite (drop_S l x k Hx).
Qed.

Lemma wp_put_cell t i v (Q : unit -> terminal -> Prop) :
  0 <= i < Z.of_nat (length (video_mem t)) -> Q tt (set_mem t (<[Z.to_nat i := v]> (video_mem t))) ->
  wp (put_cell i v) Q t.
Proof.
  intros Hi HQ. unfold put_cell. apply wp_bind, wp_gets, wp_bind. eapply wp_lift; [by apply aset_ok|]. by apply wp_modify.
Qed.

Lemma scroll_row_spec l n : forall t x y (Q : unit -> terminal -> Prop),
  (1600 <= length l)%nat -> (x + n = 80)%nat -> (1 <= y < 20)%nat ->
  video_mem t = moved l ((y - 1) * 80 + x) -> Q tt (set_mem t (moved l (y * 80))) ->
  wp (scroll_row (Z.of_nat y) (Z.of_nat x) n) Q t.
Proof.
  induction n as [|n IH]; intros t x y Q Hl Hx Hy Hm HQ; cbn [scroll_row].
  - apply wp_ret. replace ((y - 1) * 80 + x)%nat with (y * 80)%nat in Hm by lia. rewrite <- Hm in HQ. by destruct t.
  - set (k := ((y - 1) * 80 + x)%nat) in *. destruct (lookup_lt_is_Some_2 l (k + 80)) as [v Hv]; [lia|].
    destruct (moved_step l k v) as [M1 M2]; [lia|done|]. apply wp_bind, wp_gets, wp_bind.
    eapply wp_lift; [apply aget_ok; [unfold VGA_WIDTH; lia|]|].
    { rewrite Hm, <- M1. f_equal. unfold VGA_WIDTH, k. lia. }
    apply wp_bind, wp_put_cell.
    { rewrite Hm, length_moved by lia. unfold VGA_WIDTH. lia. }
    replace (Z.of_nat x + 1) with (Z.of_nat (S x)) by lia. apply IH; [done|lia|done| |exact HQ].
    cbn [video_mem set_mem]. rewrite Hm.
    replace (Z.to_nat ((Z.of_nat y - 1) * VGA_WIDTH + Z.of_nat x)) with k by (unfold VGA_WIDTH, k; lia).
    rewrite M2. f_equal. unfold k. lia.
Qed.

Lemma scroll_rows_spec l n : forall t y (Q : unit -> terminal -> Prop),
  (1600 <= length l)%nat -> (y + n = 20)%nat -> (1 <= y)%nat ->
  video_mem t = moved l ((y - 1) * 80) -> Q tt (set_mem t (moved l (19 * 80))) ->
  wp (scroll_rows (Z.of_nat y) n) Q t.
Proof.
  induction n as [|n IH]; intros t y Q Hl Hy Hy1 Hm HQ; cbn [scroll_rows].
  - apply wp_ret. assert (y = 20%nat) as -> by lia. change ((20 - 1) * 80)%nat with (19 * 80)%nat in Hm.
    rewrite <- Hm in HQ. by destruct t.
  - apply wp_bind. apply (scroll_row_spec l 80 t 0 y); [done|lia|lia|by rewrite Nat.add_0_r|].
    replace (Z.of_nat y + 1) with (Z.of_nat (S y)) by lia. apply IH; [done|lia|lia| |exact HQ].
    cbn [video_mem set_mem]. f_equal. lia.
Qed.

Lemma blank_row_spec n : forall t x pre rest (Q : unit -> terminal -> Prop),
  (x + n = 80)%nat -> length pre = (19 * 80 + x)%nat -> (n <= length rest)%nat -> video_mem t = pre ++ rest ->
  Q tt (set_mem t (pre ++ replicate n blank ++ drop n rest)) ->
  wp (blank_row (Z.of_nat x) n) Q t.
Proof.
  induction n as [|n IH]; intros t x pre rest Q Hx Hp Hr Hm HQ; cbn [blank_row].
  - apply wp_ret. rewrite drop_0 in HQ. cbn [replicate app] in HQ. rewrite <- Hm in HQ. by destruct t.
  - destruct rest as [|r rest]; [simpl in Hr; lia|]. apply wp_bind, wp_put_cell.
    { rewrite Hm, length_app. cbn [length]. unfold VGA_HEIGHT, VGA_WIDTH. lia. }
    replace (Z.to_nat ((VGA_HEIGHT - 1) * VGA_WIDTH + Z.of_nat x)) with (length pre)
      by (rewrite Hp; unfold VGA_HEIGHT, VGA_WIDTH; lia).
    replace (Z.of_nat x + 1) with (Z.of_nat (S x)) by lia. change (terminal_make_char 32 0) with blank.
    apply (IH _ (S x) (pre ++ [blank]) rest); [lia|rewrite length_app; simpl; lia|simpl in Hr; lia| |].
    + cbn [video_mem set_mem]. rewrite Hm, insert_app_r_alt, Nat.sub_diag, <- app_assoc by lia. done.
    + rewrite <- app_assoc. exact HQ.
Qed.

Lemma scroll_spec t l rest (Q : unit -> terminal -> Prop) :
  length l = 1600%nat -> video_mem t = l ++ rest ->
  Q tt (set_mem t ((drop 80 l ++ replicate 80 blank) ++ rest)) -> wp terminal_scroll Q t.
Proof.
  intros Hl Hm HQ. unfold terminal_scroll. apply wp_bind.
  apply (scroll_rows_spec (l ++ rest) 19 t 1); [rewrite length_app; lia|done|lia|by rewrite Hm|].
  assert (E : moved (l ++ rest) (19 * 80) = drop 80 l ++ (drop 1520 l ++ rest)).
  { unfold moved. rewrite drop_app_le by lia. rewrite take_app_le by (rewrite length_drop; lia).
    rewrite (drop_app_le l rest) by lia. rewrite take_ge by (rewrite length_drop; lia). done. }
  apply (blank_row_spec 80 _ 0 (drop 80 l) (drop 1520 l ++ rest)); [done|rewrite length_drop; lia| | |].
  - rewrite length_app, length_drop. lia.
  - exact E.
  - cbn [set_mem]. rewrite drop_app_length' by (rewrite length_drop; lia). rewrite app_assoc. exact HQ.
Qed.

(** ** Writing characters *)
Lemma cursor_spec t s rest (Q : unit -> terminal -> Prop) :
  shows t s rest -> (forall t', shows t' s rest -> cursor_at t' s -> Q tt t') -> wp update_cursor Q t.
Proof.
  intros [S1 S2 S3 (S4 & S5 & S6)] HQ. unfold update_cursor. apply wp_bind, wp_gets, wp_bind, wp_gets.
  unfold terminal_update_cursor. rewrite S2, S3. unfold VGA_WIDTH. rewrite u16_id by lia.
  set (p := Z.of_nat (row s) * 80 + Z.of_nat (col s)).
  do 3 (apply wp_bind, wp_modify). apply wp_modify. cbn [crtc_index crtc video_mem terminal_row terminal_col].
  apply HQ; [by split|]. exists (u8 (Z.shiftr p 8)), (u8 (Z.land p 255)). cbn [crtc].
  split; [by rewrite lookup_insert_ne, lookup_insert_eq|]. split; [by rewrite lookup_insert_eq|].
  change 255 with (Z.ones 8). rewrite Z.land_ones, Z.shiftr_div_pow2 by lia. unfold u8. unfold p. zdm.
Qed.

Lemma next_line_spec t s rest (Q : unit -> terminal -> Prop) :
  video_mem t = cells s ++ rest -> terminal_row t = Z.of_nat (row s) + 1 -> terminal_col t = 0 -> screen_ok s ->
  (forall t', shows t' (next_line s) rest -> Q tt t') -> wp scroll_if_full Q t.
Proof.
  intros Hm Hr Hc (S4 & S5 & S6) HQ. unfold scroll_if_full. apply wp_bind, wp_gets. rewrite Hr. unfold next_line in HQ.
  destruct (Z.geb_spec (Z.of_nat (row s) + 1) VGA_HEIGHT), (Nat.ltb_spec (row s) 19); unfold VGA_HEIGHT in *; try lia.
  - apply wp_bind. eapply scroll_spec; [exact S4|exact Hm|]. apply wp_modify, HQ. split; [done|done|done|].
    split; [|cbn [row col]; lia]. cbn [cells]. rewrite length_app, length_drop, length_replicate. lia.
  - apply wp_ret, HQ. split; cbn; [done|lia|done|]. split; [done|cbn; lia].
Qed.

Lemma i8_small c k : byte_ok c -> 0 <= k < 128 -> (i8 c =? k) = (c =? k).
Proof.
  unfold byte_ok. intros Hc Hk. assert (E : i8 c = if c <? 128 then c else c - 256).
  { unfold i8. destruct (Z.ltb_spec c 128); zdm. }
  rewrite E. destruct (Z.ltb_spec c 128); [done|]. destruct (Z.eqb_spec (c - 256) k), (Z.eqb_spec c k); lia || done.
Qed.

Lemma put_ok s c r k : screen_ok s -> (r < 20)%nat -> (k < 80)%nat -> screen_ok (mk_screen (put s c) r k).
Proof. intros (S4 & _ & _) Hr Hk. split; [|done]. cbn [cells]. unfold put. by rewrite length_insert. Qed.

Lemma writechar_spec t s rest c (Q : unit -> terminal -> Prop) :
  shows t s rest -> byte_ok c -> (forall t', shows t' (step s c) rest -> cursor_at t' (step s c) -> Q tt t') ->
  wp (terminal_writechar c 15) Q t.
Proof.
  intros [S1 S2 S3 (S4 & S5 & S6)] Hc HQ. unfold terminal_writechar, step in *.
  rewrite !i8_small in * by (done || lia).
  assert (Hput : forall c r k, (r < 20)%nat -> (k < 80)%nat ->
    <[Z.to_nat (Z.of_nat r * VGA_WIDTH + Z.of_nat k) := glyph c]> (cells s ++ rest) =
    <[(r * 80 + k)%nat := glyph c]> (cells s) ++ rest).
  { intros c' r k Hr Hk. replace (Z.to_nat _) with (r * 80 + k)%nat by (unfold VGA_WIDTH; lia).
    apply insert_app_l. lia. }
  destruct (c =? 8); [|destruct (c =? 10)].
  - apply wp_bind, wp_modify. assert (Ecol : terminal_col (if terminal_col t >? 0 then set_col t (u16 (terminal_col t - 1)) else t) =
      Z.of_nat (pred (col s))).
    { rewrite S3. destruct (Z.gtb_spec (Z.of_nat (col s)) 0); cbn; [rewrite u16_id by lia; lia|lia]. }
    set (t1 := if terminal_col t >? 0 then _ else _) in *.
    assert (E1 : video_mem t1 = video_mem t /\ terminal_row t1 = terminal_row t) by (unfold t1; by destruct (_ >? _)).
    destruct E1 as [Em Er]. apply wp_bind, wp_gets, wp_bind, wp_gets. rewrite Er, S2, Ecol.
    apply wp_bind. unfold terminal_putchar. apply wp_put_cell.
    { rewrite Em, S1, length_app. unfold VGA_WIDTH. lia. }
    fold (glyph 32). rewrite Em, S1, Hput by lia. eapply cursor_spec; [|exact HQ].
    split; [done|cbn [terminal_row set_mem row]; by rewrite Er|done|]. apply put_ok; [|lia|lia]. split; [done|cbn [row col]; lia].
  - apply wp_bind, wp_modify, wp_bind. eapply (next_line_spec _ s rest); cbn; [done|rewrite S2, u16_id; lia|done|by split|].
    intros t' Hs. by eapply cursor_spec.
  - apply wp_bind, wp_gets, wp_bind, wp_gets, wp_bind. unfold terminal_putchar. rewrite S2, S3. apply wp_put_cell.
    { rewrite S1, length_app. unfold VGA_WIDTH. lia. }
    fold (glyph c). rewrite S1, Hput by lia. fold (put s c).
    apply wp_bind, wp_modify, wp_bind, wp_gets. cbn [terminal_col set_col set_mem]. rewrite S3, u16_id by lia.
    destruct (Z.geb_spec (Z.of_nat (col s) + 1) VGA_WIDTH), (Nat.ltb_spec (col s) 79); unfold VGA_WIDTH in *; try lia.
    + apply wp_bind, wp_bind, wp_modify. eapply (next_line_spec _ (mk_screen (put s c) (row s) (col s)) rest);
        [done|cbn [terminal_row set_row set_col set_mem row]; rewrite S2, u16_id; lia|done|by apply put_ok; [split| |]|].
      intros t' Hs. by eapply cursor_spec.
    + apply wp_bind, wp_ret. eapply cursor_spec; [|exact HQ]. split; [done|done|cbn [terminal_col set_col col]; lia|].
      by apply put_ok; [split| |lia].
Qed.

(** ** Clearing the screen *)
Definition empty_screen : screen := mk_screen (replicate 1600 blank) 0 0.

Lemma clear_row_spec n : forall t x y pre rest (Q : unit -> terminal -> Prop),
  (x + n = 80)%nat -> length pre = (y * 80 + x)%nat -> (n <= length rest)%nat -> video_mem t = pre ++ rest ->
  Q tt (set_mem t (pre ++ replicate n blank ++ drop n rest)) -> wp (clear_row (Z.of_nat y) (Z.of_nat x) n) Q t.
Proof.
  induction n as [|n IH]; intros t x y pre rest Q Hx Hp Hr Hm HQ; cbn [clear_row].
  - apply wp_ret. rewrite drop_0 in HQ. cbn [replicate app] in HQ. rewrite <- Hm in HQ. by destruct t.
  - destruct rest as [|r rest]; [simpl in Hr; lia|]. apply wp_bind. unfold terminal_putchar. apply wp_put_cell.
    { rewrite Hm, length_app. cbn [length]. unfold VGA_WIDTH. lia. }
    replace (Z.to_nat (Z.of_nat y * VGA_WIDTH + Z.of_nat x)) with (length pre) by (rewrite Hp; unfold VGA_WIDTH; lia).
    replace (Z.of_nat x + 1) with (Z.of_nat (S x)) by lia. change (terminal_make_char 32 0) with blank.
    apply (IH _ (S x) y (pre ++ [blank]) rest); [lia|rewrite length_app; simpl; lia|simpl in Hr; lia| |].
    + cbn [video_mem set_mem]. rewrite Hm, insert_app_r_alt, Nat.sub_diag, <- app_assoc by lia. done.
    + rewrite <- app_assoc. exact HQ.
Qed.

Lemma clear_rows_spec n : forall t y rest (Q : unit -> terminal -> Prop),
  (n * 80 <= length rest)%nat -> video_mem t = replicate (y * 80) blank ++ rest ->
  Q tt (set_mem t (replicate ((y + n) * 80) blank ++ drop (n * 80) rest)) -> wp (clear_rows (Z.of_nat y) n) Q t.
Proof.
  induction n as [|n IH]; intros t y rest Q Hr Hm HQ; cbn [clear_rows].
  - apply wp_ret. rewrite Nat.add_0_r, drop_0, <- Hm in HQ. by destruct t.
  - apply wp_bind. apply (clear_row_spec 80 t 0 y (replicate (y * 80) blank) rest); [done|by rewrite length_replicate; lia|lia|done|].
    replace (Z.of_nat y + 1) with (Z.of_nat (S y)) by lia. apply (IH _ (S y) (drop 80 rest)).
    + rewrite length_drop. lia.
    + cbn [video_mem set_mem]. rewrite app_assoc, <- replicate_add. do 2 f_equal. lia.
    + rewrite drop_drop. cbn [set_mem]. replace (S y + n)%nat with (y + S n)%nat by lia.
      replace (80 + n * 80)%nat with (S n * 80)%nat by lia. exact HQ.
Qed.

Lemma cells_from : ((0 + 20) * 80)%nat = 1600%nat.
Proof. reflexivity. Qed.
Lemma cells_total : (20 * 80)%nat = 1600%nat.
Proof. reflexivity. Qed.

Lemma initialize_spec t (Q : unit -> terminal -> Prop) :
  (1600 <= length (video_mem t))%nat ->
  (forall t', shows t' empty_screen (drop 1600 (video_mem t)) -> cursor_at t' empty_screen -> Q tt t') ->
  wp terminal_initialize Q t.
Proof.
  intros Hl HQ. unfold terminal_initialize. apply wp_bind, wp_modify, wp_bind.
  apply (clear_rows_spec 20 _ 0 (video_mem t)); [done|done|].
  rewrite cells_from, cells_total.
  match goal with |- wp _ _ ?x => set (t1 := x) end.
  assert (M1 : video_mem t1 = replicate 1600 blank ++ drop 1600 (video_mem t)) by (unfold t1; reflexivity).
  assert (R1 : terminal_row t1 = 0 /\ terminal_col t1 = 0) by done. clearbody t1. destruct R1 as [R1 C1].
  do 4 (apply wp_bind, wp_modify). unfold terminal_update_cursor. do 3 (apply wp_bind, wp_modify). apply wp_modify.
  cbn [video_mem terminal_row terminal_col crtc_index crtc]. apply HQ.
  - split; [exact M1|exact R1|exact C1|]. split; [apply length_replicate|unfold empty_screen; cbn [row col]; lia].
  - exists 0, 0. cbn [crtc]. split; [by rewrite lookup_insert_ne, lookup_insert_eq|]. split; [by rewrite lookup_insert_eq|done].
Qed.

Lemma print_loop_spec str : forall t s rest p (Q : unit -> terminal -> Prop),
  shows t s rest -> bytes_ok str -> cursor_at t s ->
  (forall t', shows t' (foldl step s str) rest -> cursor_at t' (foldl step s str) -> Q tt t') ->
  wp (print_loop (str ++ p) (length str)) Q t.
Proof.
  induction str as [|c str IH]; intros t s rest p Q Hs Hb Hcu HQ; cbn [app length]; [by apply HQ|]. cbn [print_loop].
  apply Forall_cons in Hb as [Hc Hb]. apply wp_bind. eapply writechar_spec; [exact Hs|exact Hc|].
  intros t' Hs' Hc'. eapply IH; try done.
Qed.

Lemma print_spec t s rest p str (Q : unit -> terminal -> Prop) :
  shows t s rest -> bytes_ok str -> cursor_at t s -> CString.cstring p = Some str ->
  (forall t', shows t' (foldl step s str) rest -> cursor_at t' (foldl step s str) -> Q tt t') -> wp (print p) Q t.
Proof.
  intros Hs Hb Hc Hp HQ. unfold print. apply wp_bind. eapply wp_lift; [by rewrite CString.strlen_spec, Hp|]. rewrite Nat2Z.id.
  apply CString.cstring_Some in Hp as (q & -> & _). by eapply print_loop_spec.
Qed.

(** ** Theorems *)

(** C38: the screen.  After [terminal_initialize], printing any C string
    succeeds and leaves on the screen exactly what writing its characters
    one by one on an abstract 80 x 20 screen leaves there: characters
    advance and wrap, a newline starts a row and scrolls at the bottom,
    backspace erases within the row.  The hardware cursor is at the next
    cell, and no store goes outside the 1600 cells. *)
Theorem terminal_print_correct t str p :
  (1600 <= length (video_mem t))%nat -> bytes_ok str -> CString.cstring p = Some str ->
  wp (_ ← terminal_initialize; print p) (fun _ t' =>
    shows t' (foldl step empty_screen str) (drop 1600 (video_mem t)) /\ cursor_at t' (foldl step empty_screen str)) t.
Proof.
  intros Hl Hb Hp. apply wp_bind. apply initialize_spec; [done|]. intros t1 Hs1 Hc1. by eapply print_spec.
Qed.

Lemma terminal_print_correct_witness :
  wp (_ ← terminal_initialize; print [72; 105; 10; 33; 0]) (fun _ t' =>
    take 2 (video_mem t') = [0x0F48; 0x0F69] /\ terminal_row t' = 1 /\ terminal_col t' = 1)
    (mk_term (replicate 2000 0) 7 7 0 ∅).
Proof.
  eapply wp_mono; [apply (terminal_print_correct (mk_term (replicate 2000 0) 7 7 0 ∅) [72; 105; 10; 33])|].
  - cbn [video_mem]. rewrite length_replicate. lia.
  - repeat (constructor; [unfold byte_ok; lia|]). constructor.
  - reflexivity.
  - intros u t' [[S1 S2 S3 _] _]. split; [rewrite S1; reflexivity|]. split; [exact S2|exact S3].
Defined.
