(* ===== verification/Paging.v ===== *)
(** * Virtual memory: src/memory/paging/paging.c

    A page directory and the tables it points to are arrays of 1024 words on
    the kernel heap.  [space] relates them to the abstract contents, one
    entry per page of the 4 GiB address space; the theorems show that each
    operation changes exactly the entries it names, that two directories
    never share a table, and that [translate], the walk of the processor,
    finds what was mapped. *)
From Stdlib Require Import ZArith Lia.
From stdpp Require Import base list gmap numbers option list_numbers.
From S2P Require Import Prelude CLib Heap.
Local Open Scope Z_scope.
Local Open Scope kernel_scope.

Definition PAGING_CACHE_DISABLED : Z := 0x10.
Definition PAGING_WRITE_THROUGH : Z := 0x08.
Definition PAGING_ACCESS_FROM_ALL : Z := 0x04.
Definition PAGING_IS_WRITEABLE : Z := 0x02.
Definition PAGING_IS_PRESENT : Z := 0x01.
Definition PAGING_TOTAL_ENTRIES_PER_TABLE : Z := 1024.
Definition PAGING_PAGE_SIZE : Z := 4096.

(** Directories and tables by address, the chunks ([directory_entry] by
    address), the register CR3 and [current_directory]. *)
Record paging := mk_paging {
  tables : gmap Z (list Z); chunks : gmap Z Z; cr3 : Z; current_directory : Z }.

Definition set_tables (s : paging) (t : gmap Z (list Z)) : paging := mk_paging t (chunks s) (cr3 s) (current_directory s).
Definition set_chunks (s : paging) (c : gmap Z Z) : paging := mk_paging (tables s) c (cr3 s) (current_directory s).

(** Code that only uses the heap, in a state that starts with it. *)
Definition on_alloc {H X T} (m : M H T) : M (H * X) T := focus fst (fun s h => (h, snd s)) m.

Section code.
Context {H : Type} {A : Allocator H}.
Abbreviation PM := (M (H * paging)).

Definition modify_paging (f : paging -> paging) : PM unit := modify (fun s => (fst s, f (snd s))).

(** [table[i]] and [table[i] = v] on a [uint32_t*]. *)
Definition table_get (table i : Z) : PM Z :=
  t ← gets (fun s => tables (snd s));
  match t !! table with None => ub | Some w => lift_out (w.[i]) end.
Definition table_put (table i v : Z) : PM unit :=
  t ← gets (fun s => tables (snd s));
  match t !! table with
  | None => ub
  | Some w => w ← lift_out (w.[i <- v]); modify_paging (fun s => set_tables s (<[table := w]> t))
  end.

(** [kzalloc(sizeof(uint32_t) * PAGING_TOTAL_ENTRIES_PER_TABLE)] and [kfree]. *)
Definition new_table : PM Z :=
  p ← on_alloc (alloc (4 * PAGING_TOTAL_ENTRIES_PER_TABLE));
  if p =? 0 then mret 0
  else _ ← modify_paging (fun s => set_tables s (<[p := replicate 1024 0]> (tables s))); mret p.
Definition free_table (p : Z) : PM unit :=
  _ ← on_alloc (dealloc p); modify_paging (fun s => set_tables s (delete p (tables s))).

(** [chunk->directory_entry] *)
Definition paging_4gb_chunk_get_directory (chunk : Z) : PM Z :=
  c ← gets (fun s => chunks (snd s));
  match c !! chunk with None => ub | Some d => mret d end.

(** The inner loop of [paging_new_4gb]: [int] arithmetic, stored as [uint32_t]. *)
Fixpoint fill_table (entry offset flags b : Z) (n : nat) : PM unit :=
  match n with
  | O => mret tt
  | S n' =>
      _ ← table_put entry b (u32 (Z.lor (i32 (offset + b * PAGING_PAGE_SIZE)) flags));
      fill_table entry offset flags (b + 1) n'
  end.

(** The outer loop; [offset] wraps around at 2 GiB. *)
Fixpoint fill_directory (directory offset flags i : Z) (n : nat) : PM unit :=
  match n with
  | O => mret tt
  | S n' =>
      entry ← new_table;
      _ ← fill_table entry offset flags 0 (Z.to_nat PAGING_TOTAL_ENTRIES_PER_TABLE);
      let offset := i32 (offset + PAGING_TOTAL_ENTRIES_PER_TABLE * PAGING_PAGE_SIZE) in
      _ ← table_put directory i (Z.lor (Z.lor entry flags) PAGING_IS_WRITEABLE);
      fill_directory directory offset flags (i + 1) n'
  end.

Definition sizeof_paging_4gb_chunk : Z := 4.

Definition paging_new_4gb (flags : Z) : PM Z :=
  directory ← new_table;
  _ ← fill_directory directory 0 flags 0 (Z.to_nat PAGING_TOTAL_ENTRIES_PER_TABLE);
  chunk_4gb ← on_alloc (alloc sizeof_paging_4gb_chunk);
  if chunk_4gb =? 0 then ub
  else _ ← modify_paging (fun s => set_chunks s (<[chunk_4gb := directory]> (chunks s))); mret chunk_4gb.

(** [paging_load_directory] loads CR3. *)
Definition paging_switch (directory : Z) : PM unit :=
  d ← paging_4gb_chunk_get_directory directory;
  modify_paging (fun s => mk_paging (tables s) (chunks s) d d).

Fixpoint free_tables (chunk i : Z) (n : nat) : PM unit :=
  match n with
  | O => mret tt
  | S n' =>
      d ← paging_4gb_chunk_get_directory chunk;
      entry ← table_get d i;
      _ ← free_table (Z.land entry 0xfffff000);
      free_tables chunk (i + 1) n'
  end.

Definition paging_free_4gb (chunk : Z) : PM unit :=
  _ ← free_tables chunk 0 1024;
  d ← paging_4gb_chunk_get_directory chunk;
  _ ← free_table d;
  _ ← on_alloc (dealloc chunk);
  modify_paging (fun s => set_chunks s (delete chunk (chunks s))).

Definition paging_is_aligned (addr : Z) : bool := addr mod PAGING_PAGE_SIZE =? 0.

(** The status and the two out-parameters. *)
Definition paging_get_indexes (virtual_address directory_index_out table_index_out : Z) : Z * Z * Z :=
  if negb (paging_is_aligned virtual_address) then (- EINVARG, directory_index_out, table_index_out)
  else
    (0, virtual_address / (PAGING_TOTAL_ENTRIES_PER_TABLE * PAGING_PAGE_SIZE),
     virtual_address mod (PAGING_TOTAL_ENTRIES_PER_TABLE * PAGING_PAGE_SIZE) / PAGING_PAGE_SIZE).

Definition paging_align_address (ptr : Z) : Z :=
  if negb (ptr mod PAGING_PAGE_SIZE =? 0) then u32 (ptr + PAGING_PAGE_SIZE - ptr mod PAGING_PAGE_SIZE) else ptr.

Definition paging_set (directory virt val : Z) : PM Z :=
  if negb (paging_is_aligned virt) then mret (- EINVARG)
  else
    let '(res, directory_index, table_index) := paging_get_indexes virt 0 0 in
    if res <? 0 then mret res
    else
      entry ← table_get directory directory_index;
      _ ← table_put (Z.land entry 0xfffff000) table_index val;
      mret 0.

Definition paging_get (directory virt : Z) : PM Z :=
  let '(_, directory_index, table_index) := paging_get_indexes virt 0 0 in
  entry ← table_get directory directory_index;
  table_get (Z.land entry 0xfffff000) table_index.

Definition paging_map (directory virt phys flags : Z) : PM Z :=
  if negb (virt mod PAGING_PAGE_SIZE =? 0) || negb (phys mod PAGING_PAGE_SIZE =? 0) then mret (- EINVARG)
  else d ← paging_4gb_chunk_get_directory directory; paging_set d virt (u32 (Z.lor phys flags)).

(** The loop of [paging_map_range]: [res] is the status so far, [n] pages are left. *)
Fixpoint map_pages (directory virt phys flags res : Z) (n : nat) : PM Z :=
  match n with
  | O => mret res
  | S n' =>
      res ← paging_map directory virt phys flags;
      if res <? 0 then mret res
      else map_pages directory (u32 (virt + PAGING_PAGE_SIZE)) (u32 (phys + PAGING_PAGE_SIZE)) flags res n'
  end.
Definition paging_map_range (directory virt phys count flags : Z) : PM Z :=
  map_pages directory virt phys flags 0 (Z.to_nat count).

Definition paging_map_to (directory virt phys phys_end flags : Z) : PM Z :=
  if negb (virt mod PAGING_PAGE_SIZE =? 0) then mret (- EINVARG)
  else if negb (phys mod PAGING_PAGE_SIZE =? 0) then mret (- EINVARG)
  else if negb (phys_end mod PAGING_PAGE_SIZE =? 0) then mret (- EINVARG)
  else if phys_end <? phys then mret (- EINVARG)
  else paging_map_range directory virt phys ((phys_end - phys) / PAGING_PAGE_SIZE) flags.

(** [memcpy(new_table, src_table, 4096)], by words. *)
Definition copy_table (new_table src_table : Z) : PM unit :=
  t ← gets (fun s => tables (snd s));
  match t !! new_table, t !! src_table with
  | Some dst, Some src =>
      w ← lift_out (CMem.memcpy dst src PAGING_TOTAL_ENTRIES_PER_TABLE);
      modify_paging (fun s => set_tables s (<[new_table := w]> t))
  | _, _ => ub
  end.

(** The loop of [paging_copy_4gb]; [false] when a table cannot be allocated. *)
Fixpoint copy_tables (src new_dir i : Z) (n : nat) : PM bool :=
  match n with
  | O => mret true
  | S n' =>
      d ← paging_4gb_chunk_get_directory src;
      src_entry ← table_get d i;
      new_table ← new_table;
      if new_table =? 0 then mret false
      else
        _ ← copy_table new_table (Z.land src_entry 0xfffff000);
        _ ← table_put new_dir i (Z.lor new_table (Z.land src_entry 0x00000fff));
        copy_tables src new_dir (i + 1) n'
  end.

Definition paging_copy_4gb (src : Z) : PM Z :=
  chunk ← on_alloc (alloc sizeof_paging_4gb_chunk);
  if chunk =? 0 then mret 0
  else
    new_dir ← new_table;
    if new_dir =? 0 then _ ← on_alloc (dealloc chunk); mret 0
    else
      _ ← modify_paging (fun s => set_chunks s (<[chunk := new_dir]> (chunks s)));
      ok ← copy_tables src new_dir 0 (Z.to_nat PAGING_TOTAL_ENTRIES_PER_TABLE);
      mret (if ok : bool then chunk else 0).
End code.

(** ** Entries: an address and twelve bits of flags *)
Lemma page_or t f : t mod 4096 = 0 -> 0 <= f < 4096 -> Z.lor t f = t + f.
Proof.
  intros Ht Hf. assert (Et : t = Z.shiftl (t / 4096) 12) by (rewrite Z.shiftl_mul_pow2 by lia; zdm).
  assert (E0 : Z.land t f = 0).
  { rewrite Et. apply Z.bits_inj'. intros n Hn. rewrite Z.land_spec, Z.bits_0, Z.shiftl_spec by lia.
    destruct (Z.ltb_spec n 12); [by rewrite Z.testbit_neg_r by lia|].
    apply andb_false_intro2. rewrite <- (Z.mod_small f (2 ^ 12)) by lia. apply Z.mod_pow2_bits_high. lia. }
  rewrite <- Z.lxor_lor by done. by rewrite Z.add_nocarry_lxor.
Qed.

Lemma page_mask x : 0 <= x < 2 ^ 32 -> Z.land x 0xfffff000 = x - x mod 4096.
Proof.
  intros Hx. change 0xfffff000 with (Z.ldiff (Z.ones 32) (Z.ones 12)).
  assert (E : Z.land x (Z.ldiff (Z.ones 32) (Z.ones 12)) = Z.ldiff (Z.land x (Z.ones 32)) (Z.ones 12)).
  { apply Z.bits_inj'. intros n Hn. rewrite !Z.ldiff_spec, !Z.land_spec, Z.ldiff_spec. by rewrite andb_assoc. }
  rewrite E, Z.land_ones, Z.mod_small, Z.ldiff_ones_r, shiftr_div, Z.shiftl_mul_pow2 by lia. zdm.
Qed.

Lemma entry_addr t f : 0 <= t < 2 ^ 32 -> t mod 4096 = 0 -> 0 <= f < 4096 -> Z.land (Z.lor t f) 0xfffff000 = t.
Proof. intros Ht Ha Hf. rewrite page_or by done. rewrite page_mask by zdm. zdm. Qed.

Lemma entry_flags t f : t mod 4096 = 0 -> 0 <= f < 4096 -> Z.land (Z.lor t f) 0x00000fff = f.
Proof. intros Ha Hf. rewrite page_or by done. rewrite land_fff. zdm. Qed.

Lemma entry_odd t f : t mod 4096 = 0 -> 0 <= f < 4096 -> Z.odd (Z.lor t f) = Z.odd f.
Proof.
  intros Ha Hf. rewrite page_or, Z.odd_add by done. replace t with (2 * (t / 2)) by zdm.
  rewrite Z.odd_mul. by destruct (Z.odd f).
Qed.

Lemma writeable_flags f :
  0 <= f < 4096 -> Z.odd f = true ->
  0 <= Z.lor f PAGING_IS_WRITEABLE < 4096 /\ Z.odd (Z.lor f PAGING_IS_WRITEABLE) = true.
Proof.
  intros Hf Ho. unfold PAGING_IS_WRITEABLE. split.
  - split; [apply Z.lor_nonneg; lia|]. change 4096 with (2 ^ 12). apply Z.log2_lt_cancel.
    rewrite Z.log2_lor, Z.log2_pow2 by lia. apply Z.max_lub_lt; [|done].
    destruct (Z.eqb_spec f 0) as [->|]; [done|]. apply Z.log2_lt_pow2; lia.
  - by rewrite <- Z.bit0_odd, Z.lor_spec, Z.bit0_odd, Ho.
Qed.

(** [int] arithmetic with wrap-around stores the unsigned address. *)
Lemma u32_lor_i32 x f : 0 <= x < 2 ^ 32 -> 0 <= f < 2 ^ 32 -> u32 (Z.lor (i32 x) f) = Z.lor x f.
Proof.
  intros Hx Hf. unfold u32. rewrite <- (Z.land_ones _ 32), Z.land_lor_distr_l, !Z.land_ones by lia.
  change (i32 x mod 2 ^ 32) with (u32 (i32 x)). rewrite u32_i32. f_equal; by apply Z.mod_small.
Qed.

(** ** The walk of the processor *)

(** The entry of the page of [va], and its physical address, in the
    directory at [dir]; [None] is a page fault. *)
Definition walk (t : gmap Z (list Z)) (dir va : Z) : option Z :=
  d ← t !! dir;
  e ← d !! Z.to_nat (va / 2 ^ 22);
  if Z.odd e then w ← t !! Z.land e 0xfffff000; w !! Z.to_nat (va / 4096 mod 1024) else None.
Definition translate (t : gmap Z (list Z)) (dir va : Z) : option Z :=
  e ← walk t dir va;
  if Z.odd e then Some (Z.land e 0xfffff000 + va mod 4096) else None.

(** ** Address spaces

    [space_upto k t dir ts pt]: the array at [dir] points to the tables [ts],
    [k] of them, all present, and entry [j] of table [i] is [pt (1024 i + j)]. *)
Record space_upto (k : nat) (t : gmap Z (list Z)) (dir : Z) (ts : list Z) (pt : Z -> Z) : Prop := {
  sp_nodup : NoDup (dir :: ts);
  sp_length : length ts = k;
  sp_aligned : Forall (fun a => 0 < a < 2 ^ 31 /\ a mod 4096 = 0) ts;
  sp_directory : exists d, t !! dir = Some d /\ length d = 1024%nat /\
    forall i a, ts !! i = Some a -> exists f, d !! i = Some (Z.lor a f) /\ 0 <= f < 4096 /\ Z.odd f = true;
  sp_tables : forall i a, ts !! i = Some a -> exists w, t !! a = Some w /\ length w = 1024%nat /\
    forall j, (j < 1024)%nat -> w !! j = Some (pt (Z.of_nat (1024 * i + j))) }.
Abbreviation space := (space_upto 1024).

(** The contents after a store to one page or to a range of pages. *)
Definition set_page (pt : Z -> Z) (n v : Z) : Z -> Z := fun k => if k =? n then v else pt k.
Definition set_pages (pt : Z -> Z) (n count : Z) (f : Z -> Z) : Z -> Z :=
  fun k => if (n <=? k) && (k <? n + count) then f (k - n) else pt k.

Lemma space_frame k t t' dir ts pt :
  space_upto k t dir ts pt -> (forall a, a ∈ dir :: ts -> t' !! a = t !! a) -> space_upto k t' dir ts pt.
Proof.
  intros [S1 S2 S3 (d & Hd & S4) S5] He. split; [done..| |].
  - exists d. split; [|done]. rewrite He; [done|by left].
  - intros i a Ha. rewrite He; [by apply S5|]. right. by eapply list_elem_of_lookup_2.
Qed.

Lemma space_ext k t dir ts pt pt' :
  space_upto k t dir ts pt -> (forall n, pt n = pt' n) -> space_upto k t dir ts pt'.
Proof.
  intros [S1 S2 S3 S4 S5] He. split; [done..|]. intros i a Ha. destruct (S5 i a Ha) as (w & Hw & Hl & Hp).
  exists w. split; [done|]. split; [done|]. intros j Hj. rewrite <- He. by apply Hp.
Qed.

(** One more table. *)
Lemma space_grow k t dir ts pt d a w f :
  space_upto k t dir ts pt -> (k < 1024)%nat -> t !! dir = Some d -> a ∉ dir :: ts ->
  0 < a < 2 ^ 31 -> a mod 4096 = 0 -> 0 <= f < 4096 -> Z.odd f = true -> length w = 1024%nat ->
  (forall j, (j < 1024)%nat -> w !! j = Some (pt (Z.of_nat (1024 * k + j)))) ->
  space_upto (S k) (<[dir := <[k := Z.lor a f]> d]> (<[a := w]> t)) dir (ts ++ [a]) pt.
Proof.
  intros [S1 S2 S3 (d' & Hd' & Hl & S4) S5] Hk Hd Ha Har Hal Hf Ho Hw Hp.
  assert (d' = d) as -> by congruence. apply not_elem_of_cons in Ha as [Hda Hta].
  assert (Hnd : dir ∉ ts) by (by apply NoDup_cons in S1 as []).
  split.
  - change (dir :: ts ++ [a]) with ((dir :: ts) ++ [a]). apply NoDup_app. split; [done|]. split; [|apply NoDup_singleton].
    intros x Hx Hxa. apply list_elem_of_singleton in Hxa as ->. apply elem_of_cons in Hx as [->|?]; done.
  - rewrite length_app. simpl. lia.
  - apply Forall_app. split; [done|]. by apply Forall_singleton.
  - eexists. split; [by rewrite lookup_insert_eq|]. split; [by rewrite length_insert|]. intros i b Hb.
    apply lookup_snoc_Some in Hb as [[Hi Hb]|[Hi ->]].
    + rewrite list_lookup_insert_ne by lia. by apply S4.
    + exists f. split; [|done]. replace i with k by lia. apply list_lookup_insert_eq. lia.
  - intros i b Hb. rewrite lookup_insert_ne.
    2:{ intros ->. apply lookup_snoc_Some in Hb as [[_ Hb]|[_ ->]]; [|done]. apply Hnd. by eapply list_elem_of_lookup_2. }
    apply lookup_snoc_Some in Hb as [[Hi Hb]|[Hi ->]].
    + rewrite lookup_insert_ne; [by apply S5|]. intros ->. apply Hta. by eapply list_elem_of_lookup_2.
    + rewrite lookup_insert_eq. exists w. split; [done|]. split; [done|]. by replace i with k by lia.
Qed.

(** ** Rules for the accesses *)
Definition with_tables {H} (s : H * paging) (t : gmap Z (list Z)) : H * paging := (fst s, set_tables (snd s) t).

Section rules.
Context {H : Type} {A : Allocator H}.
Implicit Types s : H * paging.

Lemma wp_table_get s a i w v (Q : Z -> H * paging -> Prop) :
  tables (snd s) !! a = Some w -> 0 <= i -> w !! Z.to_nat i = Some v -> Q v s -> wp (table_get a i) Q s.
Proof.
  intros Hw Hi Hv HQ. unfold table_get. apply wp_bind, wp_gets. rewrite Hw. eapply wp_lift; [by apply aget_ok|done].
Qed.

Lemma wp_table_put s a i w v (Q : unit -> H * paging -> Prop) :
  tables (snd s) !! a = Some w -> 0 <= i < Z.of_nat (length w) ->
  Q tt (with_tables s (<[a := <[Z.to_nat i := v]> w]> (tables (snd s)))) -> wp (table_put a i v) Q s.
Proof.
  intros Hw Hi HQ. unfold table_put. apply wp_bind, wp_gets. rewrite Hw. apply wp_bind.
  eapply wp_lift; [by apply aset_ok|]. by apply wp_modify.
Qed.

Lemma wp_directory s c d (Q : Z -> H * paging -> Prop) :
  chunks (snd s) !! c = Some d -> Q d s -> wp (paging_4gb_chunk_get_directory c) Q s.
Proof. intros Hc HQ. unfold paging_4gb_chunk_get_directory. apply wp_bind, wp_gets. by rewrite Hc. Qed.

Lemma wp_on_alloc {X T} (m : M H T) (Q : T -> H * X -> Prop) (s : H * X) :
  wp m (fun a h => Q a (h, snd s)) (fst s) -> wp (on_alloc m) Q s.
Proof. intros Hw. unfold on_alloc. apply wp_focus. exact Hw. Qed.

(** The page number, split as the code splits the address. *)
Lemma indexes_spec va :
  0 <= va < 2 ^ 32 -> va mod 4096 = 0 ->
  exists i j : nat, paging_get_indexes va 0 0 = (0, Z.of_nat i, Z.of_nat j) /\ (i < 1024)%nat /\ (j < 1024)%nat /\
    va / 4096 = Z.of_nat (1024 * i + j) /\ va / 2 ^ 22 = Z.of_nat i /\ va / 4096 mod 1024 = Z.of_nat j.
Proof.
  intros Hv Ha. exists (Z.to_nat (va / 2 ^ 22)), (Z.to_nat (va / 4096 mod 1024)).
  unfold paging_get_indexes, paging_is_aligned, PAGING_PAGE_SIZE, PAGING_TOTAL_ENTRIES_PER_TABLE. rewrite Ha. cbn [Z.eqb negb].
  rewrite !Z2Nat.id by zdm. split; [repeat f_equal; zdm|]. repeat split; try zdm.
Qed.

Lemma space_lookup t dir ts pt i j :
  space t dir ts pt -> (i < 1024)%nat -> (j < 1024)%nat ->
  exists d a f w, t !! dir = Some d /\ d !! i = Some (Z.lor a f) /\ Z.land (Z.lor a f) 0xfffff000 = a /\
    Z.odd (Z.lor a f) = true /\ ts !! i = Some a /\ t !! a = Some w /\ length w = 1024%nat /\
    w !! j = Some (pt (Z.of_nat (1024 * i + j))).
Proof.
  intros [S1 S2 S3 (d & Hd & Hl & S4) S5] Hi Hj. destruct (lookup_lt_is_Some_2 ts i) as [a Ha]; [lia|].
  destruct (S4 i a Ha) as (f & He & Hf & Ho). destruct (S5 i a Ha) as (w & Hw & Hlw & Hp).
  rewrite Forall_lookup in S3. destruct (S3 i a Ha) as [Hr Hal].
  exists d, a, f, w. rewrite entry_addr by (done || lia). rewrite entry_odd by done. repeat split; try done. by apply Hp.
Qed.

Lemma paging_get_spec s dir ts pt va (Q : Z -> H * paging -> Prop) :
  space (tables (snd s)) dir ts pt -> 0 <= va < 2 ^ 32 -> va mod 4096 = 0 ->
  Q (pt (va / 4096)) s -> wp (paging_get dir va) Q s.
Proof.
  intros Hs Hv Ha HQ. destruct (indexes_spec va Hv Ha) as (i & j & E & Hi & Hj & Hn & _). unfold paging_get. rewrite E.
  destruct (space_lookup _ _ _ _ i j Hs Hi Hj) as (d & a & f & w & Hd & He & Ea & _ & _ & Hw & _ & Hp).
  apply wp_bind. eapply wp_table_get; [done|lia|by rewrite Nat2Z.id|]. rewrite Ea.
  eapply wp_table_get; [done|lia|by rewrite Nat2Z.id|]. by rewrite <- Hn.
Qed.

(** A store keeps the tables and changes one entry. *)
Lemma space_store t dir ts pt i j a w v :
  space t dir ts pt -> (i < 1024)%nat -> (j < 1024)%nat -> ts !! i = Some a -> t !! a = Some w ->
  space (<[a := <[j := v]> w]> t) dir ts (set_page pt (Z.of_nat (1024 * i + j)) v).
Proof.
  intros [S1 S2 S3 (d & Hd & Hl & S4) S5] Hi Hj Ha Hw. apply NoDup_cons in S1 as S1'. destruct S1' as [Hnd Hnt].
  split; [done..| |].
  - exists d. split; [|done]. rewrite lookup_insert_ne; [done|]. intros ->. apply Hnd. by eapply list_elem_of_lookup_2.
  - intros i' a' Ha'. destruct (S5 i' a' Ha') as (w' & Hw' & Hl' & Hp').
    destruct (decide (a' = a)) as [->|Hne].
    + assert (i' = i) as -> by (eapply NoDup_lookup; done). assert (w' = w) as -> by congruence.
      exists (<[j := v]> w). rewrite lookup_insert_eq, length_insert. split; [done|]. split; [done|].
      intros k Hk. unfold set_page. destruct (Z.eqb_spec (Z.of_nat (1024 * i + k)) (Z.of_nat (1024 * i + j))).
      * replace k with j by lia. apply list_lookup_insert_eq. lia.
      * rewrite list_lookup_insert_ne by lia. by apply Hp'.
    + exists w'. rewrite lookup_insert_ne by done. split; [done|]. split; [done|]. intros k Hk.
      assert (i' <> i) by (intros ->; congruence). apply lookup_lt_Some in Ha'. unfold set_page.
      destruct (Z.eqb_spec (Z.of_nat (1024 * i' + k)) (Z.of_nat (1024 * i + j))); [lia|]. by apply Hp'.
Qed.

Lemma paging_set_spec s dir ts pt va v (Q : Z -> H * paging -> Prop) :
  space (tables (snd s)) dir ts pt -> 0 <= va < 2 ^ 32 -> va mod 4096 = 0 ->
  (forall t', space t' dir ts (set_page pt (va / 4096) v) -> (forall a, a ∉ ts -> t' !! a = tables (snd s) !! a) ->
     Q 0 (with_tables s t')) ->
  wp (paging_set dir va v) Q s.
Proof.
  intros Hs Hv Ha HQ. destruct (indexes_spec va Hv Ha) as (i & j & E & Hi & Hj & Hn & _). unfold paging_set, paging_is_aligned.
  unfold PAGING_PAGE_SIZE. rewrite Ha, E. cbn [Z.eqb negb Z.ltb Z.compare].
  destruct (space_lookup _ _ _ _ i j Hs Hi Hj) as (d & a & f & w & Hd & He & Ea & _ & Hts & Hw & Hlw & Hp).
  apply wp_bind. eapply wp_table_get; [done|lia|by rewrite Nat2Z.id|]. rewrite Ea.
  apply wp_bind. eapply wp_table_put; [done|lia|]. rewrite Nat2Z.id. apply wp_ret, HQ.
  - rewrite Hn. by apply space_store.
  - intros b Hb. rewrite lookup_insert_ne; [done|]. intros ->. apply Hb. by eapply list_elem_of_lookup_2.
Qed.
End rules.

(** The walk finds the abstract contents. *)
Lemma walk_spec t dir ts pt va :
  space t dir ts pt -> 0 <= va < 2 ^ 32 -> walk t dir va = Some (pt (va / 4096)).
Proof.
  intros Hs Hv. destruct (indexes_spec (va - va mod 4096)) as (i & j & _ & Hi & Hj & Hn & H1 & H2); [zdm|zdm|].
  replace ((va - va mod 4096) / 4096) with (va / 4096) in * by zdm.
  replace ((va - va mod 4096) / 2 ^ 22) with (va / 2 ^ 22) in * by zdm.
  destruct (space_lookup _ _ _ _ i j Hs Hi Hj) as (d & a & f & w & Hd & He & Ea & Eo & _ & Hw & _ & Hp).
  unfold walk. rewrite Hd. cbn [mbind option_bind]. rewrite H1, Nat2Z.id, He. cbn [mbind option_bind].
  rewrite Eo, Ea, Hw. cbn [mbind option_bind]. rewrite H2, Nat2Z.id, Hp. by rewrite Hn.
Qed.

Lemma translate_spec t dir ts pt va :
  space t dir ts pt -> 0 <= va < 2 ^ 32 -> Z.odd (pt (va / 4096)) = true ->
  translate t dir va = Some (Z.land (pt (va / 4096)) 0xfffff000 + va mod 4096).
Proof. intros Hs Hv Ho. unfold translate. rewrite (walk_spec _ _ _ _ _ Hs Hv). cbn [mbind option_bind]. by rewrite Ho. Qed.

Section mapping.
Context {H : Type} {A : Allocator H}.
Implicit Types s : H * paging.

(** The entries of consecutive frames from [phys] on. *)
Definition frames (phys flags : Z) : Z -> Z := fun k => Z.lor (phys + 4096 * k) flags.

Lemma paging_map_spec s c dir ts pt va phys flags (Q : Z -> H * paging -> Prop) :
  chunks (snd s) !! c = Some dir -> space (tables (snd s)) dir ts pt ->
  0 <= va < 2 ^ 32 -> va mod 4096 = 0 -> 0 <= phys < 2 ^ 32 -> phys mod 4096 = 0 -> 0 <= flags < 4096 ->
  (forall t', space t' dir ts (set_page pt (va / 4096) (Z.lor phys flags)) ->
     (forall a, a ∉ ts -> t' !! a = tables (snd s) !! a) -> Q 0 (with_tables s t')) ->
  wp (paging_map c va phys flags) Q s.
Proof.
  intros Hc Hs Hv Ha Hp Hpa Hf HQ. unfold paging_map, PAGING_PAGE_SIZE. rewrite Ha, Hpa. cbn [Z.eqb negb orb].
  apply wp_bind. eapply wp_directory; [done|]. rewrite u32_id by (rewrite page_or by done; zdm).
  eapply paging_set_spec; [exact Hs|done..].
Qed.

Lemma map_pages_spec n : forall s c dir ts pt va phys flags res (Q : Z -> H * paging -> Prop),
  chunks (snd s) !! c = Some dir -> space (tables (snd s)) dir ts pt ->
  0 <= va -> va + 4096 * Z.of_nat n <= 2 ^ 32 -> va mod 4096 = 0 ->
  0 <= phys -> phys + 4096 * Z.of_nat n <= 2 ^ 32 -> phys mod 4096 = 0 -> 0 <= flags < 4096 -> 0 <= res ->
  (forall t', space t' dir ts (set_pages pt (va / 4096) (Z.of_nat n) (frames phys flags)) ->
     (forall a, a ∉ ts -> t' !! a = tables (snd s) !! a) -> Q (if (n =? 0)%nat then res else 0) (with_tables s t')) ->
  wp (map_pages c va phys flags res n) Q s.
Proof.
  induction n as [|n IH]; intros s c dir ts pt va phys flags res Q Hc Hs Hv Hve Ha Hp Hpe Hpa Hf Hr HQ; cbn [map_pages].
  - apply wp_ret. specialize (HQ (tables (snd s))). replace s with (with_tables s (tables (snd s))); [|by destruct s as [h []]].
    apply HQ; [|done]. apply (space_ext _ _ _ _ _ _ Hs). intros k. unfold set_pages.
    destruct (Z.leb_spec (va / 4096) k), (Z.ltb_spec k (va / 4096 + Z.of_nat 0)); lia || done.
  - apply wp_bind. eapply (paging_map_spec s); [done|exact Hs|lia|done|lia|done|done|]. intros t1 S1 F1. cbn [Z.ltb Z.compare].
    eapply (IH _ c dir ts _ _ _ flags 0); [done|exact S1|apply u32_range| | |apply u32_range| | |done|lia|].
    1-4: unfold u32, PAGING_PAGE_SIZE; zdm.
    intros t' S' F'. replace (if (n =? 0)%nat then 0 else 0) with 0 by (by destruct n). apply HQ.
    + apply (space_ext _ _ _ _ _ _ S'). intros k. unfold set_pages, set_page, frames, u32, PAGING_PAGE_SIZE. destruct n as [|n].
      * destruct (Z.leb_spec ((va + 4096) mod 2 ^ 32 / 4096) k),
          (Z.ltb_spec k ((va + 4096) mod 2 ^ 32 / 4096 + Z.of_nat 0)), (Z.eqb_spec k (va / 4096)),
          (Z.leb_spec (va / 4096) k), (Z.ltb_spec k (va / 4096 + Z.of_nat 1)); try lia; cbn [andb]; try done;
          subst k; f_equal; lia.
      * rewrite !Z.mod_small by lia. replace ((va + 4096) / 4096) with (va / 4096 + 1) by zdm.
        destruct (Z.leb_spec (va / 4096 + 1) k), (Z.ltb_spec k (va / 4096 + 1 + Z.of_nat (S n))), (Z.eqb_spec k (va / 4096)),
          (Z.leb_spec (va / 4096) k), (Z.ltb_spec k (va / 4096 + Z.of_nat (S (S n)))); try lia; cbn [andb]; try done;
          f_equal; lia.
    + intros a Hn. rewrite F', <- F1 by done. done.
Qed.

Lemma paging_map_to_spec s c dir ts pt va phys phys_end flags (Q : Z -> H * paging -> Prop) :
  chunks (snd s) !! c = Some dir -> space (tables (snd s)) dir ts pt ->
  0 <= va -> va + (phys_end - phys) <= 2 ^ 32 -> va mod 4096 = 0 ->
  0 <= phys <= phys_end -> phys_end < 2 ^ 32 -> phys mod 4096 = 0 -> phys_end mod 4096 = 0 -> 0 <= flags < 4096 ->
  (forall t', space t' dir ts (set_pages pt (va / 4096) ((phys_end - phys) / 4096) (frames phys flags)) ->
     (forall a, a ∉ ts -> t' !! a = tables (snd s) !! a) -> Q 0 (with_tables s t')) ->
  wp (paging_map_to c va phys phys_end flags) Q s.
Proof.
  intros Hc Hs Hv Hve Ha Hp Hpe Hpa Hpea Hf HQ. unfold paging_map_to, PAGING_PAGE_SIZE. rewrite Ha, Hpa, Hpea. cbn [Z.eqb negb].
  destruct (Z.ltb_spec phys_end phys); [lia|]. unfold paging_map_range.
  eapply map_pages_spec; [exact Hc|exact Hs|done| |done|lia| |done|done|lia|]; [zdm..|].
  rewrite Z2Nat.id by zdm. intros t' S' F'. destruct (_ =? _)%nat; by apply HQ.
Qed.
End mapping.

(** ** Making and releasing directories *)
Section lifetime.
Context {H : Type} {A : Allocator H} {AS : AllocatorSpec H}.
Implicit Types s : H * paging.

Lemma new_table_spec s m N (Q : Z -> H * paging -> Prop) :
  owns (fst s) m -> room (fst s) (S N) ->
  (forall a h', 0 < a < 2 ^ 31 -> a mod 4096 = 0 -> m !! a = None -> owns h' (<[a := 1]> m) -> room h' N ->
     free_blocks (fst s) = S (free_blocks h') ->
     Q a (h', set_tables (snd s) (<[a := replicate 1024 0]> (tables (snd s))))) ->
  wp new_table Q s.
Proof.
  intros Ho Hr HQ. unfold new_table. apply wp_bind, wp_on_alloc.
  eapply wp_mono; [apply (alloc_room (fst s) m _ (S N) Ho); [unfold PAGING_TOTAL_ENTRIES_PER_TABLE; lia|done|vm_compute; lia]|].
  intros a h' (Hn & Ha & Ho' & Hr' & Hf). change (Heap.blocks_of _) with 1 in Ho', Hr', Hf.
  replace (S N - Z.to_nat 1)%nat with N in Hr' by lia.
  destruct (owns_page h' _ a 1 Ho') as (H1 & H2 & _ & H3); [apply lookup_insert_eq|].
  apply Z.eqb_neq in Hn. rewrite Hn. apply wp_bind, wp_modify, wp_ret. apply HQ; try done; lia.
Qed.

Lemma alloc_chunk_spec s m N (Q : Z -> H * paging -> Prop) :
  owns (fst s) m -> room (fst s) (S N) ->
  (forall c h', c <> 0 -> m !! c = None -> owns h' (<[c := 1]> m) -> room h' N ->
     free_blocks (fst s) = S (free_blocks h') -> Q c (h', snd s)) ->
  wp (on_alloc (alloc sizeof_paging_4gb_chunk)) Q s.
Proof.
  intros Ho Hr HQ. apply wp_on_alloc.
  eapply wp_mono; [apply (alloc_room (fst s) m _ (S N) Ho); [unfold sizeof_paging_4gb_chunk; lia|done|vm_compute; lia]|].
  intros c h' (Hn & Ha & Ho' & Hr' & Hf). change (Heap.blocks_of _) with 1 in Ho', Hr', Hf.
  replace (S N - Z.to_nat 1)%nat with N in Hr' by lia. apply HQ; try done; lia.
Qed.

Lemma free_table_spec s m N a :
  owns (fst s) m -> room (fst s) N -> m !! a = Some 1 ->
  wp (free_table a) (fun _ s' => owns (fst s') (delete a m) /\ room (fst s') N /\
    free_blocks (fst s') = S (free_blocks (fst s)) /\ snd s' = set_tables (snd s) (delete a (tables (snd s)))) s.
Proof.
  intros Ho Hr Ha. unfold free_table. apply wp_bind, wp_on_alloc.
  eapply wp_mono; [by apply (dealloc_room (fst s) m a 1 N)|]. intros u h' (Ho' & Hr' & Hf). apply wp_modify.
  repeat split; try done. cbn [fst]. lia.
Qed.

(** The inner loop writes one value after the other. *)
Lemma fill_table_spec n : forall s a w offset flags b (Q : unit -> H * paging -> Prop),
  tables (snd s) !! a = Some w -> (b + n = length w)%nat ->
  Q tt (with_tables s (<[a := take b w ++
    ((fun j => u32 (Z.lor (i32 (offset + Z.of_nat j * 4096)) flags)) <$> seq b n)]> (tables (snd s)))) ->
  wp (fill_table a offset flags (Z.of_nat b) n) Q s.
Proof.
  induction n as [|n IH]; intros s a w offset flags b Q Hw Hb HQ; cbn [fill_table].
  - apply wp_ret. cbn [seq fmap list_fmap] in HQ. rewrite app_nil_r, take_ge, insert_id in HQ by (done || lia).
    by destruct s as [h []].
  - apply wp_bind. eapply wp_table_put; [done|lia|]. rewrite Nat2Z.id.
    replace (Z.of_nat b + 1) with (Z.of_nat (S b)) by lia.
    eapply IH; [apply lookup_insert_eq|rewrite length_insert; lia|].
    unfold with_tables in *. cbn [fst snd set_tables tables chunks cr3 current_directory] in *. rewrite insert_insert_eq.
    rewrite (take_S_r _ b (u32 (Z.lor (i32 (offset + Z.of_nat b * PAGING_PAGE_SIZE)) flags))) by (apply list_lookup_insert_eq; lia).
    rewrite take_insert_ge by lia. rewrite <- app_assoc. exact HQ.
Qed.

(** Page [n] is mapped to frame [n]. *)
Definition identity (flags : Z) : Z -> Z := frames 0 flags.

Lemma filled_lookup flags k j :
  (k < 1024)%nat -> (j < 1024)%nat -> 0 <= flags < 4096 ->
  ((fun j => u32 (Z.lor (i32 (i32 (4194304 * Z.of_nat k) + Z.of_nat j * 4096)) flags)) <$> seq 0 1024) !! j =
  Some (identity flags (Z.of_nat (1024 * k + j))).
Proof.
  intros Hk Hj Hf. rewrite list_lookup_fmap, lookup_seq_lt by done. cbn [fmap option_fmap option_map]. f_equal.
  replace (i32 (i32 (4194304 * Z.of_nat k) + Z.of_nat (0 + j) * 4096)) with (i32 (4096 * Z.of_nat (1024 * k + j))).
  - rewrite u32_lor_i32 by lia. unfold identity, frames. f_equal.
  - unfold i32. zdm.
Qed.

(** What an unfinished directory has besides: the heap blocks of its tables,
    and all other tables as before. *)
Definition grown (s s' : H * paging) (m : gmap Z Z) (N : nat) (dir : Z) (new : list Z) : Prop :=
  fresh_blocks new m /\ owns (fst s') (with_blocks new m) /\ room (fst s') (N - length new) /\
  free_blocks (fst s) = (length new + free_blocks (fst s'))%nat /\
  (forall a, a ∉ dir :: new -> tables (snd s') !! a = tables (snd s) !! a) /\
  chunks (snd s') = chunks (snd s) /\ cr3 (snd s') = cr3 (snd s) /\
  current_directory (snd s') = current_directory (snd s).

Lemma grown_refl s m N dir : owns (fst s) m -> room (fst s) N -> grown s s m N dir [].
Proof.
  intros Ho Hr. split; [split; [apply NoDup_nil_2|by intros a Ha%not_elem_of_nil]|]. cbn [length]. rewrite Nat.sub_0_r. done.
Qed.

Lemma grown_step s s1 s2 m N dir a new :
  m !! a = None -> free_blocks (fst s) = S (free_blocks (fst s1)) ->
  (forall b, b ∉ [dir; a] -> tables (snd s1) !! b = tables (snd s) !! b) ->
  chunks (snd s1) = chunks (snd s) -> cr3 (snd s1) = cr3 (snd s) -> current_directory (snd s1) = current_directory (snd s) ->
  grown s1 s2 (<[a := 1]> m) N dir new -> grown s s2 m (S N) dir (a :: new).
Proof.
  intros Ha Hf Ht Hc H3 Hd (G1 & G2 & G3 & G4 & G5 & G6 & G7 & G8).
  assert (Hp : a :: new ≡ₚ new ++ [a]) by (by rewrite Permutation_app_comm).
  split; [|split; [|split; [|split; [|split]]]].
  - by apply fresh_cons.
  - rewrite (with_blocks_perm _ _ _ Hp), with_blocks_app. exact G2.
  - exact G3.
  - cbn [length]. lia.
  - intros b Hb. rewrite !not_elem_of_cons in Hb. destruct Hb as (Hb1 & Hb2 & Hb3). rewrite G5, Ht; [done| |];
      rewrite ?not_elem_of_cons; repeat split; try done. apply not_elem_of_nil.
  - repeat split; congruence.
Qed.

Lemma fill_directory_spec n : forall s m N dir ts flags k (Q : unit -> H * paging -> Prop),
  space_upto k (tables (snd s)) dir ts (identity flags) -> (k + n = 1024)%nat ->
  (forall a, a ∈ dir :: ts -> is_Some (m !! a)) -> owns (fst s) m -> room (fst s) N -> (n <= N)%nat ->
  0 <= flags < 4096 -> Z.odd flags = true ->
  (forall s' new, space (tables (snd s')) dir (ts ++ new) (identity flags) -> length new = n ->
     grown s s' m N dir new -> Q tt s') ->
  wp (fill_directory dir (i32 (4194304 * Z.of_nat k)) flags (Z.of_nat k) n) Q s.
Proof.
  induction n as [|n IH]; intros s m N dir ts flags k Q Hs Hk Hm Ho Hr Hn Hf Hod HQ; cbn [fill_directory].
  - apply wp_ret. apply (HQ s []); [|done|by apply grown_refl]. rewrite app_nil_r. by replace 1024%nat with k by lia.
  - destruct N as [|N]; [lia|]. apply wp_bind. eapply new_table_spec; [exact Ho|exact Hr|].
    intros a h1 Ha Hal Hna Ho1 Hr1 Hf1. apply wp_bind. change 0 with (Z.of_nat 0).
    assert (Hnin : a ∉ dir :: ts) by (intros Hin; destruct (Hm a Hin) as [? ?]; congruence).
    destruct (sp_directory _ _ _ _ _ Hs) as (d & Hd & Hld & _).
    eapply fill_table_spec; [apply lookup_insert_eq|done|]. cbn [take app length replicate].
    set (w := (fun j => u32 _) <$> _). change (Z.to_nat PAGING_TOTAL_ENTRIES_PER_TABLE) with 1024%nat in w.
    apply wp_bind. unfold with_tables. cbn [fst snd set_tables tables chunks cr3 current_directory]. rewrite insert_insert_eq.
    apply not_elem_of_cons in Hnin as Hnin'. destruct Hnin' as [Hne Hnts].
    eapply wp_table_put; [cbn [fst snd tables set_tables]; by rewrite lookup_insert_ne by done|lia|].
    rewrite Nat2Z.id. replace (Z.of_nat k + 1) with (Z.of_nat (S k)) by lia.
    unfold with_tables. cbn [fst snd set_tables tables chunks cr3 current_directory].
    replace (i32 (i32 (4194304 * Z.of_nat k) + PAGING_TOTAL_ENTRIES_PER_TABLE * PAGING_PAGE_SIZE))
      with (i32 (4194304 * Z.of_nat (S k))) by (unfold PAGING_TOTAL_ENTRIES_PER_TABLE, PAGING_PAGE_SIZE, i32; zdm).
    destruct (writeable_flags flags Hf Hod) as [Hfl Hodd].
    rewrite <- Z.lor_assoc.
    eapply (IH _ (<[a := 1]> m) N dir (ts ++ [a])); cbn [fst snd tables chunks cr3 current_directory].
    + apply (space_grow k); try done; try lia.
      intros j Hj. apply filled_lookup; [lia|done|done].
    + lia.
    + intros b Hb. destruct (decide (b = a)) as [->|Hba]; [rewrite lookup_insert_eq; eauto|]. rewrite lookup_insert_ne by done.
      apply Hm. rewrite elem_of_cons, elem_of_app, list_elem_of_singleton in Hb. rewrite elem_of_cons. tauto.
    + done.
    + done.
    + lia.
    + done.
    + done.
    + intros s' new S' L' G'. apply (HQ s' (a :: new)); [by rewrite <- app_assoc in S'|simpl; lia|].
      eapply grown_step; [done| | | | | |exact G']; try done. cbn [fst snd tables set_tables]. intros b Hb.
      rewrite !not_elem_of_cons in Hb. destruct Hb as (? & ? & _). by rewrite !lookup_insert_ne by done.
Qed.

(** A new chunk [c]: its directory and tables are new heap blocks, and every
    other table and chunk is as before. *)
Definition new_space (s s' : H * paging) (m : gmap Z Z) (N : nat) (c dir : Z) (ts : list Z) (pt : Z -> Z) : Prop :=
  space (tables (snd s')) dir ts pt /\ chunks (snd s') = <[c := dir]> (chunks (snd s)) /\
  fresh_blocks (c :: dir :: ts) m /\ owns (fst s') (with_blocks (c :: dir :: ts) m) /\ room (fst s') (N - 1026) /\
  free_blocks (fst s) = (1026 + free_blocks (fst s'))%nat /\
  (forall a, a ∉ dir :: ts -> tables (snd s') !! a = tables (snd s) !! a) /\
  cr3 (snd s') = cr3 (snd s) /\ current_directory (snd s') = current_directory (snd s).

Lemma space_empty t dir pt : space_upto 0 (<[dir := replicate 1024 0]> t) dir [] pt.
Proof.
  split; [apply NoDup_singleton|done|constructor| |done]. exists (replicate 1024 0). split; [by rewrite lookup_insert_eq|].
  split; [apply length_replicate|done].
Qed.

Lemma paging_new_4gb_spec s m N flags (Q : Z -> H * paging -> Prop) :
  owns (fst s) m -> room (fst s) N -> (1026 <= N)%nat -> 0 <= flags < 4096 -> Z.odd flags = true ->
  (forall c dir ts s', new_space s s' m N c dir ts (identity flags) -> Q c s') ->
  wp (paging_new_4gb flags) Q s.
Proof.
  intros Ho Hr HN Hf Hod HQ. unfold paging_new_4gb. destruct N as [|N]; [lia|].
  apply wp_bind. eapply new_table_spec; [exact Ho|exact Hr|]. intros dir h1 Hd Hda Hnd Ho1 Hr1 Hf1.
  apply wp_bind. change (fill_directory dir 0 flags 0) with (fill_directory dir (i32 (4194304 * Z.of_nat 0)) flags (Z.of_nat 0)).
  eapply (fill_directory_spec _ _ (<[dir := 1]> m) N dir [] flags 0); cbn [fst snd tables set_tables];
    [apply space_empty|done| |done|done|cbv; lia|done|done|].
  { intros a Ha. apply list_elem_of_singleton in Ha as ->. rewrite lookup_insert_eq. eauto. }
  intros s2 ts S2 L2 (G1 & G2 & G3 & G4 & G5 & G6 & G7 & G8). change (Z.to_nat _) with 1024%nat in L2. cbn [app] in S2.
  rewrite L2 in *. replace (N - 1024)%nat with (S (N - 1025)) in G3 by lia.
  apply wp_bind. eapply alloc_chunk_spec; [exact G2|exact G3|]. intros c h3 Hc Hnc Ho3 Hr3 Hf3.
  apply Z.eqb_neq in Hc. rewrite Hc. apply wp_bind, wp_modify, wp_ret. apply (HQ c dir ts).
  apply with_blocks_None in Hnc as [Hcts Hcm]. apply lookup_insert_None in Hcm as [Hcm Hcd].
  assert (Hp : c :: dir :: ts ≡ₚ c :: ts ++ [dir]) by (apply perm_skip; by rewrite Permutation_app_comm).
  split; [exact S2|]. split; [cbn; by rewrite G6|]. split; [|split; [|split; [|split; [|split]]]]; cbn [fst snd] in *.
  - apply (fresh_blocks_perm (dir :: c :: ts)); [by rewrite Permutation_swap|]. apply fresh_cons; [done|].
    destruct G1 as [N1 N2]. split; [by apply NoDup_cons|]. intros b Hb. apply elem_of_cons in Hb as [->|Hb]; [|by apply N2].
    by rewrite lookup_insert_ne.
  - rewrite (with_blocks_perm _ _ _ Hp). cbn [with_blocks foldr]. fold (with_blocks (ts ++ [dir]) m). by rewrite with_blocks_app.
  - by replace (S N - 1026)%nat with (N - 1025)%nat by lia.
  - lia.
  - cbn [set_chunks tables]. intros a Ha. rewrite G5 by done. apply lookup_insert_ne. intros ->. apply Ha. by left.
  - done.
Qed.

Lemma copy_table_spec s a b dst src (Q : unit -> H * paging -> Prop) :
  tables (snd s) !! a = Some dst -> tables (snd s) !! b = Some src -> length dst = 1024%nat -> length src = 1024%nat ->
  Q tt (with_tables s (<[a := src]> (tables (snd s)))) -> wp (copy_table a b) Q s.
Proof.
  intros Ha Hb La Lb HQ. unfold copy_table. apply wp_bind, wp_gets. rewrite Ha, Hb. apply wp_bind.
  eapply wp_lift; [apply CMem.memcpy_ok; rewrite ?La, ?Lb; unfold PAGING_TOTAL_ENTRIES_PER_TABLE; lia|].
  apply wp_modify. rewrite (drop_ge dst), (take_ge src), app_nil_r by (unfold PAGING_TOTAL_ENTRIES_PER_TABLE; lia). done.
Qed.

Lemma copy_tables_spec n : forall s m N c0 dir0 ts0 dir ts pt k (Q : bool -> H * paging -> Prop),
  chunks (snd s) !! c0 = Some dir0 -> space (tables (snd s)) dir0 ts0 pt -> dir ∉ dir0 :: ts0 ->
  space_upto k (tables (snd s)) dir ts pt -> (k + n = 1024)%nat ->
  (forall a, a ∈ dir :: ts -> is_Some (m !! a)) -> (forall a, a ∈ dir0 :: ts0 -> is_Some (m !! a)) ->
  owns (fst s) m -> room (fst s) N -> (n <= N)%nat ->
  (forall s' new, space (tables (snd s')) dir (ts ++ new) pt -> length new = n -> grown s s' m N dir new -> Q true s') ->
  wp (copy_tables c0 dir (Z.of_nat k) n) Q s.
Proof.
  induction n as [|n IH]; intros s m N c0 dir0 ts0 dir ts pt k Q Hc0 Hs0 Hdd Hs Hk Hm Hm0 Ho Hr Hn HQ; cbn [copy_tables].
  - apply wp_ret. apply (HQ s []); [|done|by apply grown_refl]. rewrite app_nil_r. by replace 1024%nat with k by lia.
  - destruct N as [|N]; [lia|]. apply wp_bind. eapply wp_directory; [done|].
    destruct Hs0 as [Z1 Z2 Z3 (d0 & Hd0 & Hl0 & Z4) Z5]. destruct (lookup_lt_is_Some_2 ts0 k) as [b Hb]; [lia|].
    destruct (Z4 k b Hb) as (f & He & Hf & Hod). destruct (Z5 k b Hb) as (w & Hw & Hlw & Hp).
    rewrite Forall_lookup in Z3. destruct (Z3 k b Hb) as [Hbr Hba].
    apply wp_bind. eapply wp_table_get; [done|lia|by rewrite Nat2Z.id|].
    apply wp_bind. eapply new_table_spec; [exact Ho|exact Hr|]. intros a h1 Ha Hal Hna Ho1 Hr1 Hf1.
    destruct (Z.eqb_spec a 0); [lia|]. rewrite entry_addr, entry_flags by (done || lia).
    assert (Hnin : a ∉ dir :: ts) by (intros Hin; destruct (Hm a Hin) as [? ?]; congruence).
    assert (Hnin0 : a ∉ dir0 :: ts0) by (intros Hin; destruct (Hm0 a Hin) as [? ?]; congruence).
    assert (Hbin : b ∈ dir0 :: ts0) by (right; by eapply list_elem_of_lookup_2).
    destruct (sp_directory _ _ _ _ _ Hs) as (d & Hd & Hld & _).
    apply not_elem_of_cons in Hnin as Hnin'. destruct Hnin' as [Hne Hnts].
    apply wp_bind. eapply copy_table_spec; cbn [fst snd tables set_tables];
      [apply lookup_insert_eq|rewrite lookup_insert_ne; [exact Hw|by intros ->]|apply length_replicate|done|].
    unfold with_tables. cbn [fst snd set_tables tables chunks cr3 current_directory]. rewrite insert_insert_eq.
    apply wp_bind. eapply wp_table_put; [cbn [fst snd tables set_tables]; by rewrite lookup_insert_ne|lia|].
    rewrite Nat2Z.id. replace (Z.of_nat k + 1) with (Z.of_nat (S k)) by lia.
    unfold with_tables. cbn [fst snd set_tables tables chunks cr3 current_directory].
    eapply (IH _ (<[a := 1]> m) N c0 dir0 ts0 dir (ts ++ [a]) pt); cbn [fst snd tables chunks cr3 current_directory]; try done; try lia.
    + apply (space_frame _ (tables (snd s))); [split; [done..| | |]; [by apply Forall_lookup|by exists d0|done]|].
      intros x Hx. cbn [tables set_tables]. rewrite !lookup_insert_ne; [done| |]; by intros ->.
    + apply (space_grow k); try done; lia.
    + intros x Hx. destruct (decide (x = a)) as [->|Hxa]; [rewrite lookup_insert_eq; eauto|]. rewrite lookup_insert_ne by done.
      apply Hm. rewrite elem_of_cons, elem_of_app, list_elem_of_singleton in Hx. rewrite elem_of_cons. tauto.
    + intros x Hx. rewrite lookup_insert_ne by (by intros ->). by apply Hm0.
    + intros s' new S' L' G'. apply (HQ s' (a :: new)); [by rewrite <- app_assoc in S'|simpl; lia|].
      eapply grown_step; [done| | | | | |exact G']; try done. cbn [fst snd tables set_tables]. intros x Hx.
      rewrite !not_elem_of_cons in Hx. destruct Hx as (? & ? & _). by rewrite !lookup_insert_ne by done.
Qed.

Lemma paging_copy_4gb_spec s m N c0 dir0 ts0 pt (Q : Z -> H * paging -> Prop) :
  chunks (snd s) !! c0 = Some dir0 -> space (tables (snd s)) dir0 ts0 pt ->
  (forall a, a ∈ c0 :: dir0 :: ts0 -> is_Some (m !! a)) ->
  owns (fst s) m -> room (fst s) N -> (1026 <= N)%nat ->
  (forall c dir ts s', new_space s s' m N c dir ts pt -> Q c s') ->
  wp (paging_copy_4gb c0) Q s.
Proof.
  intros Hc0 Hs0 Hm0 Ho Hr HN HQ. unfold paging_copy_4gb. destruct N as [|[|N]]; [lia..|].
  apply wp_bind. eapply alloc_chunk_spec; [exact Ho|exact Hr|]. intros c h1 Hc Hnc Ho1 Hr1 Hf1.
  destruct (Z.eqb_spec c 0); [done|]. apply wp_bind. eapply new_table_spec; [exact Ho1|exact Hr1|].
  intros dir h2 Hd Hda Hnd Ho2 Hr2 Hf2. destruct (Z.eqb_spec dir 0); [lia|].
  apply lookup_insert_None in Hnd as [Hnd Hcd]. apply wp_bind, wp_modify, wp_bind.
  assert (Hdd : dir ∉ dir0 :: ts0) by (intros Hin; destruct (Hm0 dir) as [? ?]; [by right|congruence]).
  eapply (copy_tables_spec _ _ (<[dir := 1]> (<[c := 1]> m)) N c0 dir0 ts0 dir [] pt 0);
    cbn [fst snd tables chunks set_tables set_chunks]; [| |done|apply space_empty|done| | |done|done|cbv; lia|].
  - rewrite lookup_insert_ne; [done|]. intros ->. destruct (Hm0 c0) as [? ?]; [by left|congruence].
  - apply (space_frame _ (tables (snd s))); [done|]. intros x Hx. apply lookup_insert_ne. by intros ->.
  - intros a Ha. apply list_elem_of_singleton in Ha as ->. rewrite lookup_insert_eq. eauto.
  - intros a Ha. destruct (Hm0 a) as [z Hz]; [by right|]. exists z. rewrite !lookup_insert_ne by congruence. done.
  - intros s' ts S' L' (G1 & G2 & G3 & G4 & G5 & G6 & G7 & G8). change (Z.to_nat _) with 1024%nat in L'. cbn [app] in S'.
    rewrite L' in *. apply wp_ret. apply (HQ c dir ts). split; [exact S'|]. split; [exact G6|].
    assert (Hp : c :: dir :: ts ≡ₚ ts ++ [dir; c]) by (rewrite (Permutation_app_comm ts); by rewrite Permutation_swap).
    split; [|split; [|split; [|split; [|split]]]]; cbn [fst snd] in *.
    + apply fresh_cons; [done|]. apply fresh_cons; [by rewrite lookup_insert_ne|done].
    + rewrite (with_blocks_perm _ _ _ Hp), with_blocks_app. exact G2.
    + exact G3.
    + lia.
    + intros a Ha. rewrite G5 by done. cbn [set_chunks set_tables tables]. apply lookup_insert_ne. intros ->. apply Ha. by left.
    + done.
Qed.

(** Removing several tables from the store. *)
Definition without (l : list Z) (t : gmap Z (list Z)) : gmap Z (list Z) := foldr delete t l.

Lemma without_notin l t a : a ∉ l -> without l t !! a = t !! a.
Proof.
  induction l as [|b l IH]; [done|]. rewrite not_elem_of_cons. intros [Hb Ha]. cbn [without foldr].
  rewrite lookup_delete_ne by done. by apply IH.
Qed.

Lemma without_delete l t a : without l (delete a t) = without (a :: l) t.
Proof.
  induction l as [|b l IH]; [done|]. change (without (b :: l) (delete a t)) with (delete b (without l (delete a t))).
  rewrite IH. apply delete_delete.
Qed.

Lemma free_tables_spec rest : forall s m N c dir d k (Q : unit -> H * paging -> Prop),
  chunks (snd s) !! c = Some dir -> tables (snd s) !! dir = Some d -> dir ∉ rest ->
  (forall i a, rest !! i = Some a -> exists e, d !! (k + i)%nat = Some e /\ Z.land e 0xfffff000 = a) ->
  fresh_blocks rest m -> owns (fst s) (with_blocks rest m) -> room (fst s) N ->
  (forall h', owns h' m -> room h' N -> free_blocks h' = (length rest + free_blocks (fst s))%nat ->
     Q tt (h', set_tables (snd s) (without rest (tables (snd s))))) ->
  wp (free_tables c (Z.of_nat k) (length rest)) Q s.
Proof.
  induction rest as [|a rest IH]; intros s m N c dir d k Q Hc Hd Hdr He Hfr Ho Hr HQ; cbn [free_tables length].
  - apply wp_ret. destruct s as [h []]. by apply (HQ h).
  - apply wp_bind. eapply wp_directory; [done|]. destruct (He 0%nat a) as (e & Hde & Ea); [done|].
    rewrite Nat.add_0_r in Hde. apply wp_bind. eapply wp_table_get; [done|lia|by rewrite Nat2Z.id|]. rewrite Ea.
    apply fresh_blocks_cons in Hfr as [Hna Hfr]. cbn [with_blocks foldr] in Ho. fold (with_blocks rest m) in Ho.
    apply wp_bind. eapply wp_mono; [apply (free_table_spec s _ N a Ho Hr); apply lookup_insert_eq|].
    intros u [h1 p1] (Ho1 & Hr1 & Hf1 & Hp1). cbn [fst snd] in *. subst p1. rewrite delete_insert_id in Ho1 by done.
    replace (Z.of_nat k + 1) with (Z.of_nat (S k)) by lia. apply not_elem_of_cons in Hdr as [Hda Hdr].
    apply (IH _ m N c dir d); [done| |done| |done|done|done|].
    + cbn [snd set_tables tables]. by rewrite lookup_delete_ne.
    + intros i b Hb. replace (S k + i)%nat with (k + S i)%nat by lia. by apply He.
    + intros h' Ho' Hr' Hf'. cbn [fst snd set_tables tables chunks cr3 current_directory] in *. rewrite without_delete.
      apply HQ; [done|done|simpl; lia].
Qed.

(** Everything a chunk consists of goes back to the heap. *)
Lemma paging_free_4gb_spec s m N c dir ts pt (Q : unit -> H * paging -> Prop) :
  chunks (snd s) !! c = Some dir -> space (tables (snd s)) dir ts pt -> fresh_blocks (c :: dir :: ts) m ->
  owns (fst s) (with_blocks (c :: dir :: ts) m) -> room (fst s) N ->
  (forall h', owns h' m -> room h' N -> free_blocks h' = (1026 + free_blocks (fst s))%nat ->
     Q tt (h', set_chunks (set_tables (snd s) (without (dir :: ts) (tables (snd s)))) (delete c (chunks (snd s))))) ->
  wp (paging_free_4gb c) Q s.
Proof.
  intros Hc [S1 S2 S3 (d & Hd & Hl & S4) S5] Hfr Ho Hr HQ. unfold paging_free_4gb.
  pose proof S1 as S1'. apply NoDup_cons in S1' as [Hdts _].
  assert (Hp : c :: dir :: ts ≡ₚ ts ++ [dir; c]) by (rewrite (Permutation_app_comm ts); by rewrite Permutation_swap).
  rewrite (with_blocks_perm _ _ _ Hp), with_blocks_app in Ho.
  apply fresh_blocks_cons in Hfr as [Hnc Hfr]. apply with_blocks_None in Hnc as [Hcin Hcm]. apply not_elem_of_cons in Hcin as [Hcd Hct].
  destruct Hfr as [Hnd Hfm]. apply wp_bind. rewrite <- S2. change 0 with (Z.of_nat 0).
  eapply (free_tables_spec ts s (with_blocks [dir; c] m) N c dir d 0); [done..| | |done|done|].
  - intros i a Ha. destruct (S4 i a Ha) as (f & Hdi & Hf & _). rewrite Forall_lookup in S3. destruct (S3 i a Ha).
    exists (Z.lor a f). split; [done|]. apply entry_addr; [lia|done|done].
  - apply NoDup_cons in Hnd as [_ Hnd]. split; [done|]. intros a Ha. apply with_blocks_None.
    split; [|apply Hfm; by right]. rewrite !not_elem_of_cons. repeat split; [by intros ->|by intros ->|apply not_elem_of_nil].
  - intros h1 Ho1 Hr1 Hf1. apply wp_bind. eapply wp_directory; [done|].
    cbn [with_blocks foldr] in Ho1. apply wp_bind. eapply wp_mono; [apply (free_table_spec (h1, set_tables (snd s) (without ts (tables (snd s)))) _ N dir Ho1 Hr1); apply lookup_insert_eq|].
    intros u [h2 p2] (Ho2 & Hr2 & Hf2 & Hp2). cbn [fst snd] in *. subst p2.
    rewrite delete_insert_id in Ho2 by (rewrite lookup_insert_ne by done; apply Hfm; by left).
    apply wp_bind, wp_on_alloc. cbn [fst snd]. eapply wp_mono; [apply (dealloc_room h2 _ c 1 N Ho2); [apply lookup_insert_eq|done]|].
    intros u' h3 (Ho3 & Hr3 & Hf3). rewrite delete_insert_id in Ho3 by done. apply wp_modify.
    cbn [fst snd set_tables set_chunks tables chunks cr3 current_directory]. rewrite S2 in *.
    specialize (HQ h3 Ho3 Hr3). cbn [set_tables set_chunks tables chunks cr3 current_directory without foldr] in HQ. apply HQ.
    change (Z.to_nat 1) with 1%nat in Hf3. lia.
Qed.
End lifetime.

(** ** Theorems *)
Section theorems.
Context {H : Type} {A : Allocator H} {AS : AllocatorSpec H}.
Implicit Types s : H * paging.

Lemma frames_odd phys flags k :
  phys mod 4096 = 0 -> 0 <= flags < 4096 -> Z.odd (frames phys flags k) = Z.odd flags.
Proof. intros Hp Hf. apply entry_odd; [zdm|done]. Qed.

Lemma frames_addr phys flags k :
  0 <= phys + 4096 * k < 2 ^ 32 -> phys mod 4096 = 0 -> 0 <= flags < 4096 ->
  Z.land (frames phys flags k) 0xfffff000 = phys + 4096 * k.
Proof. intros Hr Hp Hf. apply entry_addr; [done|zdm|done]. Qed.

Lemma identity_translate t dir ts flags va :
  space t dir ts (identity flags) -> 0 <= flags < 4096 -> Z.odd flags = true -> 0 <= va < 2 ^ 32 ->
  translate t dir va = Some va.
Proof.
  intros Hs Hf Ho Hv. rewrite (translate_spec _ _ _ _ _ Hs Hv).
  - unfold identity. rewrite frames_addr by (done || zdm). f_equal. zdm.
  - unfold identity. by rewrite frames_odd.
Qed.

Lemma space_live t dir ts pt a : space t dir ts pt -> a ∈ dir :: ts -> is_Some (t !! a).
Proof.
  intros [_ _ _ (d & Hd & _) S5] Ha. apply elem_of_cons in Ha as [->|Ha]; [eauto|].
  apply list_elem_of_lookup in Ha as [i Hi]. destruct (S5 i a Hi) as (w & Hw & _). eauto.
Qed.

Lemma without_in l t a : a ∈ l -> without l t !! a = None.
Proof.
  induction l as [|b l IH]; [by intros ?%not_elem_of_nil|]. change (without (b :: l) t) with (delete b (without l t)).
  destruct (decide (a = b)) as [->|Hne]; [intros _; apply lookup_delete_eq|]. rewrite lookup_delete_ne by done.
  intros Ha. apply IH. by apply elem_of_cons in Ha as [->|Ha].
Qed.

(** Every table and chunk is a live heap object. *)
Definition tables_owned (s : H * paging) (m : gmap Z Z) : Prop :=
  (forall a w, tables (snd s) !! a = Some w -> is_Some (m !! a)) /\
  (forall c d, chunks (snd s) !! c = Some d -> is_Some (m !! c)).

(** A chunk as a client sees it: [chunk_ok s m c pt] says that the chunk at
    [c] maps the pages as [pt] says and that its 1026 blocks are live. *)
Definition chunk_ok (s : H * paging) (m : gmap Z Z) (c dir : Z) (pt : Z -> Z) : Prop :=
  exists ts, chunks (snd s) !! c = Some dir /\ space (tables (snd s)) dir ts pt /\
    forall a, a ∈ c :: dir :: ts -> is_Some (m !! a).

(** C24: the life of an address space.  With 1026 free blocks,
    [paging_new_4gb] maps every one of the 2^32 addresses to itself with the
    flags given (although its [int offset] wraps around at 2 GiB), touches
    no existing table, and [paging_free_4gb] then gives back all 1026 blocks
    and leaves the tables, chunks and live allocations as they were. *)
Theorem address_space_lifetime s m N flags :
  owns (fst s) m -> tables_owned s m -> room (fst s) N -> (1026 <= N)%nat -> 0 <= flags < 256 -> Z.odd flags = true ->
  wp (paging_new_4gb flags) (fun c s1 =>
    (exists dir, chunks (snd s1) !! c = Some dir /\
      (forall va, 0 <= va < 2 ^ 32 ->
         translate (tables (snd s1)) dir va = Some va /\
         walk (tables (snd s1)) dir va = Some (Z.lor (va / 4096 * 4096) flags)) /\
      forall d ts pt, space (tables (snd s)) d ts pt -> space (tables (snd s1)) d ts pt) /\
    free_blocks (fst s) = (1026 + free_blocks (fst s1))%nat /\
    wp (paging_free_4gb c) (fun _ s2 => owns (fst s2) m /\ free_blocks (fst s2) = free_blocks (fst s) /\
      snd s2 = snd s) s1) s.
Proof.
  intros Ho [Ht Hk] Hr HN Hf Hod. eapply paging_new_4gb_spec; [done..|lia|done|].
  intros c dir ts s1 (S1 & S2 & S3 & S4 & S5 & S6 & S7 & S8 & S9).
  assert (Hfr : forall a, a ∈ dir :: ts -> tables (snd s) !! a = None).
  { intros a Ha. destruct (tables (snd s) !! a) eqn:E; [|done]. destruct (Ht a _ E) as [n Hn].
    destruct S3 as [_ S3]. rewrite (S3 a) in Hn; [done|by right]. }
  assert (Hck : chunks (snd s) !! c = None).
  { destruct (chunks (snd s) !! c) eqn:E; [|done]. destruct (Hk c _ E) as [n Hn]. destruct S3 as [_ S3]. rewrite (S3 c) in Hn; [done|by left]. }
  split; [|split; [done|]].
  - exists dir. split; [rewrite S2; apply lookup_insert_eq|]. split.
    + intros va Hv. split; [apply (identity_translate _ _ _ _ _ S1); [lia|done|done]|]. rewrite (walk_spec _ _ _ _ _ S1 Hv).
      unfold identity, frames. do 2 f_equal. lia.
    + intros d ts' pt Hs'. apply (space_frame _ _ _ _ _ _ Hs'). intros a Ha. apply S7. intros Hin.
      destruct (space_live _ _ _ _ a Hs' Ha) as [w Hw]. by rewrite (Hfr a Hin) in Hw.
  - eapply paging_free_4gb_spec; [rewrite S2; apply lookup_insert_eq|exact S1|exact S3|exact S4|exact S5|].
    intros h' Ho' _ Hf'. split; [done|]. split; [cbn [fst]; lia|]. cbn [snd]. destruct (snd s) as [t0 c0 r0 d0] eqn:Es.
    unfold set_chunks, set_tables. cbn [tables chunks cr3 current_directory] in *. rewrite S8, S9. f_equal.
    + apply map_eq. intros a. destruct (decide (a ∈ dir :: ts)) as [Ha|Ha].
      * by rewrite Hfr, without_in.
      * rewrite without_notin by done. by apply S7.
    + rewrite S2. by apply delete_insert_id.
Qed.

(** The arguments [paging_map_to] accepts. *)
Definition mappable (va phys phys_end : Z) : Prop :=
  va mod 4096 = 0 /\ phys mod 4096 = 0 /\ phys_end mod 4096 = 0 /\ phys <= phys_end.
#[global] Instance mappable_dec va phys phys_end : Decision (mappable va phys phys_end).
Proof. unfold mappable. apply _. Defined.

Lemma paging_map_to_refuses s c va phys phys_end flags :
  ~ mappable va phys phys_end -> paging_map_to c va phys phys_end flags s = Ok (- EINVARG, s).
Proof.
  intros Hn. unfold paging_map_to, mappable, PAGING_PAGE_SIZE in *.
  destruct (Z.eqb_spec (va mod 4096) 0), (Z.eqb_spec (phys mod 4096) 0), (Z.eqb_spec (phys_end mod 4096) 0),
    (Z.ltb_spec phys_end phys); try done. cbn [negb]. tauto.
Qed.

(** Mapping a range.  [paging_map_to] refuses unaligned addresses and a
    range that ends before it starts with [-EINVARG] and changes nothing;
    otherwise exactly the addresses of [[va, va + (phys_end - phys))] are
    translated to the frames from [phys] on with the flags given, every
    other address as before, and no other address space changes. *)
Theorem paging_map_to_correct s c dir ts pt va phys phys_end flags :
  chunks (snd s) !! c = Some dir -> space (tables (snd s)) dir ts pt ->
  0 <= va -> 0 <= phys -> 0 <= phys_end < 2 ^ 32 -> va + (phys_end - phys) <= 2 ^ 32 -> 0 <= flags < 4096 ->
  wp (paging_map_to c va phys phys_end flags) (fun res s' =>
    if bool_decide (mappable va phys phys_end) then
      res = 0 /\ fst s' = fst s /\
      (forall x, 0 <= x < 2 ^ 32 ->
         if bool_decide (va <= x < va + (phys_end - phys)) then
           walk (tables (snd s')) dir x = Some (Z.lor (phys + (x - va) / 4096 * 4096) flags) /\
           (Z.odd flags = true -> translate (tables (snd s')) dir x = Some (phys + (x - va)))
         else walk (tables (snd s')) dir x = walk (tables (snd s)) dir x) /\
      (forall d us pt', space (tables (snd s)) d us pt' -> (forall a, a ∈ ts -> a ∉ d :: us) -> space (tables (snd s')) d us pt')
    else res = - EINVARG /\ s' = s) s.
Proof.
  intros Hc Hs Hv Hp Hpe Hve Hf. destruct (decide (mappable va phys phys_end)) as [M|M].
  2:{ unfold wp. rewrite paging_map_to_refuses by done. by rewrite bool_decide_false. }
  destruct M as (M1 & M2 & M3 & M4).
  eapply paging_map_to_spec; [exact Hc|exact Hs|done|done|done|lia|lia|done|done|done|].
  intros t' S' F'. rewrite bool_decide_true by done. split; [done|]. split; [done|]. cbn [snd with_tables set_tables tables].
  split.
  - intros x Hx. pose proof (walk_spec _ _ _ _ x S' Hx) as W. case_bool_decide as Hin.
    + assert (E : set_pages pt (va / 4096) ((phys_end - phys) / 4096) (frames phys flags) (x / 4096) =
        frames phys flags ((x - va) / 4096)).
      { unfold set_pages. destruct (Z.leb_spec (va / 4096) (x / 4096)); [|zdm].
        destruct (Z.ltb_spec (x / 4096) (va / 4096 + (phys_end - phys) / 4096)); [|zdm]. cbn [andb]. f_equal. zdm. }
      rewrite E in W. split; [rewrite W; unfold frames; do 2 f_equal; lia|]. intros Ho.
      rewrite (translate_spec _ _ _ _ x S' Hx), E; [|by rewrite E, frames_odd].
      rewrite frames_addr by (done || zdm). f_equal. zdm.
    + rewrite W, (walk_spec _ _ _ _ x Hs Hx). f_equal. unfold set_pages.
      destruct (Z.leb_spec (va / 4096) (x / 4096)); [|done].
      destruct (Z.ltb_spec (x / 4096) (va / 4096 + (phys_end - phys) / 4096)); [|done]. zdm.
  - intros d us pt' Hd Hdis. apply (space_frame _ _ _ _ _ _ Hd). intros a Ha. apply F'. intros Hin. by apply (Hdis a).
Qed.

(** C25: copies are independent.  [paging_copy_4gb] of a live chunk yields a
    chunk that translates every address as the original does, made of new
    heap blocks only; a later store to any page of the copy is seen in the
    copy and changes nothing in the original, nor the other way round. *)
Theorem paging_copy_independent s m N c0 dir0 pt va val :
  chunk_ok s m c0 dir0 pt -> owns (fst s) m -> room (fst s) N -> (1026 <= N)%nat -> 0 <= va < 2 ^ 32 -> va mod 4096 = 0 ->
  wp (paging_copy_4gb c0) (fun c s1 => exists dir, c <> c0 /\ dir <> dir0 /\ chunks (snd s1) = <[c := dir]> (chunks (snd s)) /\
    free_blocks (fst s) = (1026 + free_blocks (fst s1))%nat /\
    (forall x, 0 <= x < 2 ^ 32 -> walk (tables (snd s1)) dir x = walk (tables (snd s)) dir0 x /\
                              walk (tables (snd s1)) dir0 x = walk (tables (snd s)) dir0 x) /\
    (forall d d', (d = dir /\ d' = dir0) \/ (d = dir0 /\ d' = dir) ->
      wp (paging_set d va val) (fun res s2 => res = 0 /\
        forall x, 0 <= x < 2 ^ 32 ->
          walk (tables (snd s2)) d x = (if x / 4096 =? va / 4096 then Some val else walk (tables (snd s)) dir0 x) /\
          walk (tables (snd s2)) d' x = walk (tables (snd s)) dir0 x) s1)) s.
Proof.
  intros (ts0 & C1 & C2 & C3) Ho Hr HN Hv Ha. eapply paging_copy_4gb_spec; [done..|].
  intros c dir ts s1 (S1 & S2 & S3 & S4 & S5 & S6 & S7 & _). exists dir.
  assert (Hnew : forall a, a ∈ c :: dir :: ts -> a ∉ c0 :: dir0 :: ts0).
  { intros a Hin Hin0. destruct (C3 a Hin0) as [n Hn]. destruct S3 as [_ S3]. rewrite (S3 a Hin) in Hn. done. }
  assert (S0 : space (tables (snd s1)) dir0 ts0 pt).
  { apply (space_frame _ _ _ _ _ _ C2). intros a Ha0. apply S7. intros Hin. apply (Hnew a); by right. }
  split; [intros ->; apply (Hnew c0); by left|]. split; [intros ->; apply (Hnew dir0); [right; by left|right; by left]|].
  split; [done|]. split; [done|]. split.
  { intros x Hx. by rewrite (walk_spec _ _ _ _ x S1 Hx), (walk_spec _ _ _ _ x S0 Hx), (walk_spec _ _ _ _ x C2 Hx). }
  assert (Hset : forall d d' us us', space (tables (snd s1)) d us pt -> space (tables (snd s1)) d' us' pt ->
    (forall a, a ∈ d' :: us' -> a ∉ us) -> wp (paging_set d va val) (fun res s2 => res = 0 /\
        forall x, 0 <= x < 2 ^ 32 ->
          walk (tables (snd s2)) d x = (if x / 4096 =? va / 4096 then Some val else walk (tables (snd s)) dir0 x) /\
          walk (tables (snd s2)) d' x = walk (tables (snd s)) dir0 x) s1).
  { intros d d' us us' U1 U2 Hdis. eapply paging_set_spec; [exact U1|done..|]. intros t' T' F'. split; [done|]. intros x Hx.
    rewrite (walk_spec _ _ _ _ x C2 Hx). cbn [snd with_tables set_tables tables]. split.
    - rewrite (walk_spec _ _ _ _ x T' Hx). unfold set_page. by destruct (_ =? _).
    - assert (U2' : space t' d' us' pt) by (apply (space_frame _ _ _ _ _ _ U2); intros a Ha'; apply F'; by apply Hdis).
      apply (walk_spec _ _ _ _ x U2' Hx). }
  intros d d' [[-> ->]|[-> ->]].
  - apply (Hset _ _ ts ts0); [done..|]. intros a Hin Hin'. apply (Hnew a); [by right; right|by right].
  - apply (Hset _ _ ts0 ts); [done..|]. intros a Hin Hin'. apply (Hnew a); [by right|by right; right].
Qed.
End theorems.

(** ** Witnesses *)
Module ExamplePaging.
(** A heap of 4000 free blocks and no table yet. *)
Definition big_heap : KHeap.kheap := KHeap.mk_kheap (Heap.mk_heap (Heap.mk_table (replicate 4000 0) 4000) 0x01000000) ∅.
Definition no_paging : paging := mk_paging ∅ ∅ 0 0.

Lemma big_owns : owns big_heap ∅.
Proof.
  exists ∅. split; [|done]. split; [|apply Heap.layout_replicate|done|done|done].
  unfold Heap.table_ok. vm_compute. done.
Qed.

Lemma big_room : room big_heap 4000.
Proof.
  exists 0%nat. intros k Hk. exists 0. split; [|done]. change (replicate 4000 0 !! k = Some 0). apply lookup_replicate_2. lia.
Qed.
End ExamplePaging.
Import ExamplePaging.

Lemma address_space_lifetime_witness :
  wp (paging_new_4gb 7) (fun c s1 => (exists dir, chunks (snd s1) !! c = Some dir /\
    translate (tables (snd s1)) dir 0xB8004 = Some 0xB8004) /\
    wp (paging_free_4gb c) (fun _ s2 => snd s2 = no_paging) s1) (big_heap, no_paging).
Proof.
  eapply wp_mono; [apply (address_space_lifetime (big_heap, no_paging) ∅ 4000 7)|].
  - exact big_owns.
  - split; intros a w Ha; discriminate.
  - exact big_room.
  - lia.
  - lia.
  - reflexivity.
  - intros c s1 ((dir & Hc & Ht & _) & _ & Hw). split.
    + exists dir. split; [exact Hc|]. apply Ht. lia.
    + eapply wp_mono; [exact Hw|]. intros u s2 (_ & _ & Hs). exact Hs.
Defined.

Lemma paging_map_to_correct_witness :
  wp (c ← paging_new_4gb 5; paging_map_to c 0x400000 0x01800000 0x01802000 7) (fun res s' => res = 0 /\
    exists dir, translate (tables (snd s')) dir 0x401234 = Some 0x01801234 /\
      walk (tables (snd s')) dir 0x402000 = Some 0x402005) (big_heap, no_paging).
Proof.
  apply wp_bind. eapply (paging_new_4gb_spec (big_heap, no_paging) ∅ 4000); [exact big_owns|exact big_room|lia|lia|reflexivity|].
  intros c dir ts s1 (S1 & S2 & _).
  eapply wp_mono; [apply (paging_map_to_correct s1 c dir ts (identity 5) 0x400000 0x01800000 0x01802000 7)|].
  - rewrite S2. apply lookup_insert_eq.
  - exact S1.
  - lia.
  - lia.
  - lia.
  - lia.
  - lia.
  - intros res s' Hr. rewrite bool_decide_true in Hr by (unfold mappable; repeat split; lia). destruct Hr as (-> & _ & Hx & _).
    split; [reflexivity|]. exists dir. split.
    + pose proof (Hx 0x401234 ltac:(lia)) as H1. rewrite bool_decide_true in H1 by lia. apply H1. reflexivity.
    + pose proof (Hx 0x402000 ltac:(lia)) as H1. rewrite bool_decide_false in H1 by lia. rewrite H1.
      apply (walk_spec _ _ _ _ 0x402000 S1). lia.
Defined.

Lemma paging_copy_independent_witness :
  wp (c0 ← paging_new_4gb 5; c ← paging_copy_4gb c0; mret (c0, c)) (fun cs s1 => exists dir, fst cs <> snd cs /\
    chunks (snd s1) !! snd cs = Some dir /\
    wp (paging_set dir 0x400000 0x01800007) (fun res s2 => res = 0 /\ walk (tables (snd s2)) dir 0x400010 = Some 0x01800007) s1)
    (big_heap, no_paging).
Proof.
  apply wp_bind. eapply (paging_new_4gb_spec (big_heap, no_paging) ∅ 4000); [exact big_owns|exact big_room|lia|lia|reflexivity|].
  intros c0 dir0 ts s1 (S1 & S2 & S3 & S4 & S5 & _). apply wp_bind.
  eapply wp_mono; [apply (paging_copy_independent s1 (with_blocks (c0 :: dir0 :: ts) ∅) 2974 c0 dir0 (identity 5) 0x400000 0x01800007)|].
  - exists ts. split; [rewrite S2; apply lookup_insert_eq|]. split; [exact S1|]. intros a Ha.
    destruct (with_blocks (c0 :: dir0 :: ts) ∅ !! a) eqn:E; [eauto|]. apply with_blocks_None in E as [E _]. done.
  - exact S4.
  - exact S5.
  - lia.
  - lia.
  - reflexivity.
  - intros c s2 (dir & Hc & _ & Hk & _ & _ & Hw). apply wp_ret. exists dir. split; [cbn; congruence|].
    split; [rewrite Hk; apply lookup_insert_eq|]. eapply wp_mono; [exact (Hw dir dir0 (or_introl (conj eq_refl eq_refl)))|].
    intros res s3 [-> H3]. split; [reflexivity|]. destruct (H3 0x400010 ltac:(lia)) as [H4 _]. exact H4.
Defined.
