(* ===== verification/Task.v ===== *)
(** * Tasks: src/task/task.c and the timer interrupt of src/idt/idt.c

    A task is a heap object with a page directory, the registers it had when
    it was interrupted, and links to its neighbours.  The list of all tasks
    is [task_head ... task_tail]; the timer switches to the next one.  The
    theorems show that scheduling is round robin, with which registers a task
    is resumed (task.asm loses two of them), and what removing a task does to
    the list. *)
From Stdlib Require Import ZArith Lia.
From stdpp Require Import base list gmap numbers option list_numbers.
From S2P Require Import Prelude CLib Heap Paging.
Local Open Scope Z_scope.
Local Open Scope kernel_scope.

(** [struct registers] of task.h and [struct interrupt_frame] of idt.h. *)
Module Registers.
Record registers := mk {
  edi : Z; esi : Z; ebp : Z; ebx : Z; edx : Z; ecx : Z; eax : Z;
  ip : Z; cs : Z; flags : Z; esp : Z; ss : Z }.
Definition zero : registers := mk 0 0 0 0 0 0 0 0 0 0 0 0.
End Registers.
Abbreviation registers := Registers.registers.

Module Frame.
Record interrupt_frame := mk {
  edi : Z; esi : Z; ebp : Z; reserved : Z; ebx : Z; edx : Z; ecx : Z; eax : Z;
  ip : Z; cs : Z; flags : Z; esp : Z; ss : Z }.
End Frame.
Abbreviation interrupt_frame := Frame.interrupt_frame.

(** [struct task]; pointers are addresses and NULL is 0. *)
Record task := mk_task {
  page_directory : Z; task_registers : registers; process : Z; next : Z; prev : Z }.
Definition sizeof_task : Z := 64.
Definition set_next (t : task) (p : Z) : task := mk_task (page_directory t) (task_registers t) (process t) p (prev t).
Definition set_prev (t : task) (p : Z) : task := mk_task (page_directory t) (task_registers t) (process t) (next t) p.
Definition set_registers (t : task) (r : registers) : task := mk_task (page_directory t) r (process t) (next t) (prev t).

(** The address spaces, the bytes of memory that are not kernel objects, the
    tasks by address, the globals of task.c, [current_process] of process.c,
    [kernel_chunk] of kernel.c, the selector in the data segment registers
    and the writes to I/O ports. *)
Record sched := mk_sched {
  pages : paging; ram : gmap Z Z; task_store : gmap Z task;
  task_head : Z; task_tail : Z; current_task : Z; current_process : Z; kernel_chunk : Z;
  data_segment : Z; port_log : list (Z * Z) }.

Definition set_paging (s : sched) (p : paging) : sched :=
  mk_sched p (ram s) (task_store s) (task_head s) (task_tail s) (current_task s) (current_process s) (kernel_chunk s) (data_segment s) (port_log s).
Definition set_ram (s : sched) (r : gmap Z Z) : sched :=
  mk_sched (pages s) r (task_store s) (task_head s) (task_tail s) (current_task s) (current_process s) (kernel_chunk s) (data_segment s) (port_log s).
Definition set_store (s : sched) (t : gmap Z task) : sched :=
  mk_sched (pages s) (ram s) t (task_head s) (task_tail s) (current_task s) (current_process s) (kernel_chunk s) (data_segment s) (port_log s).
Definition set_list (s : sched) (head tail current : Z) : sched :=
  mk_sched (pages s) (ram s) (task_store s) head tail current (current_process s) (kernel_chunk s) (data_segment s) (port_log s).
Definition set_current (s : sched) (t p : Z) : sched :=
  mk_sched (pages s) (ram s) (task_store s) (task_head s) (task_tail s) t p (kernel_chunk s) (data_segment s) (port_log s).
Definition set_kernel_chunk (s : sched) (k : Z) : sched :=
  mk_sched (pages s) (ram s) (task_store s) (task_head s) (task_tail s) (current_task s) (current_process s) k (data_segment s) (port_log s).
Definition set_segment (s : sched) (d : Z) : sched :=
  mk_sched (pages s) (ram s) (task_store s) (task_head s) (task_tail s) (current_task s) (current_process s) (kernel_chunk s) d (port_log s).
Definition log_port (s : sched) (port v : Z) : sched :=
  mk_sched (pages s) (ram s) (task_store s) (task_head s) (task_tail s) (current_task s) (current_process s) (kernel_chunk s) (data_segment s) (port_log s ++ [(port, v)]).

Definition KERNEL_DATA_SELECTOR : Z := 0x10.

Section code.
Context {H : Type} {A : Allocator H}.
Abbreviation TM := (M (H * sched)).

Definition gets_sched {T} (f : sched -> T) : TM T := gets (fun s => f (snd s)).
Definition modify_sched (f : sched -> sched) : TM unit := modify (fun s => (fst s, f (snd s))).
Definition on_paging {T} (m : M (H * paging) T) : TM T :=
  focus (fun s => (fst s, pages (snd s))) (fun s p => (fst p, set_paging (snd s) (snd p))) m.

(** Following a [struct task*], and storing through it. *)
Definition get_task (p : Z) : TM task :=
  t ← gets_sched task_store; match t !! p with Some k => mret k | None => ub end.
Definition put_task (p : Z) (k : task) : TM unit :=
  t ← gets_sched task_store;
  match t !! p with Some _ => modify_sched (fun s => set_store s (<[p := k]> t)) | None => ub end.

(** [outb]; [kernel_registers] and [user_registers] load the segment registers. *)
Definition outb (port v : Z) : TM unit := modify_sched (fun s => log_port s port v).
Definition kernel_registers : TM unit := modify_sched (fun s => set_segment s KERNEL_DATA_SELECTOR).
Definition user_registers : TM unit := modify_sched (fun s => set_segment s USER_DATA_SEGMENT).

(** [kernel_page] of kernel.c. *)
Definition kernel_page : TM unit :=
  _ ← kernel_registers; k ← gets_sched kernel_chunk; on_paging (paging_switch k).

Definition task_current : TM Z := gets_sched current_task.
Definition task_has_any : TM bool := gets_sched (fun s => negb (task_head s =? 0)).

Definition task_get_next : TM Z :=
  c ← gets_sched current_task;
  t ← get_task c;
  if next t =? 0 then gets_sched task_head else mret (next t).

Definition task_list_remove (task : Z) : TM unit :=
  t ← get_task task;
  _ ← (if negb (prev t =? 0) then p ← get_task (prev t); put_task (prev t) (set_next p (next t)) else mret tt);
  _ ← modify_sched (fun s => if task =? task_head s then set_list s (next t) (task_tail s) (current_task s) else s);
  _ ← modify_sched (fun s => if task =? task_tail s then set_list s (task_head s) (prev t) (current_task s) else s);
  c ← gets_sched current_task;
  if task =? c then n ← task_get_next; modify_sched (fun s => set_list s (task_head s) (task_tail s) n) else mret tt.

(** [kfree(task)]: the object is gone. *)
Definition task_free (task : Z) : TM Z :=
  t ← get_task task;
  _ ← on_paging (paging_free_4gb (page_directory t));
  _ ← task_list_remove task;
  _ ← on_alloc (dealloc task);
  _ ← modify_sched (fun s => set_store s (delete task (task_store s)));
  mret 0.

Definition initial_registers : registers :=
  Registers.mk 0 0 0 0 0 0 0 PEACHOS_PROGRAM_VIRTUAL_ADDRESS USER_CODE_SEGMENT 0
    PEACHOS_PROGRAM_VIRTUAL_STACK_ADDRESS_START USER_DATA_SEGMENT.

Definition task_init (task process : Z) : TM Z :=
  _ ← modify_sched (fun s => set_store s (<[task := mk_task 0 Registers.zero 0 0 0]> (task_store s)));
  c ← on_paging (paging_new_4gb (Z.lor PAGING_IS_PRESENT PAGING_ACCESS_FROM_ALL));
  if c =? 0 then mret (- EIO)
  else _ ← put_task task (mk_task c initial_registers process 0 0); mret 0.

(** The new task, or a negative status; [task_free] of a task that could not
    be allocated follows NULL. *)
Definition task_new (process : Z) : TM Z :=
  task ← on_alloc (alloc sizeof_task);
  res ← (if task =? 0 then mret (- ENOMEM)
         else
           res ← task_init task process;
           if negb (res =? PEACHOS_ALL_OK) then mret res
           else
             head ← gets_sched task_head;
             if head =? 0 then _ ← modify_sched (fun s => set_list s task task task); mret res
             else
               tail ← gets_sched task_tail;
               t ← get_task tail;
               _ ← put_task tail (set_next t task);
               k ← get_task task;
               _ ← put_task task (set_prev k tail);
               _ ← modify_sched (fun s => set_list s (task_head s) task (current_task s));
               mret res);
  if res <? 0 then _ ← task_free task; mret res else mret task.

Definition task_switch (task : Z) : TM Z :=
  t ← get_task task;
  _ ← modify_sched (fun s => set_current s task (process t));
  _ ← on_paging (paging_switch (page_directory t));
  mret 0.

(** The registers of a frame. *)
Definition saved (frame : interrupt_frame) : registers :=
  Registers.mk (Frame.edi frame) (Frame.esi frame) (Frame.ebp frame) (Frame.ebx frame) (Frame.edx frame)
    (Frame.ecx frame) (Frame.eax frame) (Frame.ip frame) (Frame.cs frame) (Frame.flags frame)
    (Frame.esp frame) (Frame.ss frame).
Definition task_save_state (task : Z) (frame : interrupt_frame) : TM unit :=
  t ← get_task task; put_task task (set_registers t (saved frame)).

(** "No current task to save" is a [panic]. *)
Definition task_current_save_state (frame : interrupt_frame) : TM unit :=
  c ← task_current;
  if c =? 0 then hang else task_save_state c frame.

Definition task_page : TM Z :=
  _ ← user_registers; c ← gets_sched current_task; _ ← task_switch c; mret 0.

Definition task_page_task (task : Z) : TM Z :=
  _ ← user_registers; t ← get_task task; _ ← on_paging (paging_switch (page_directory t)); mret 0.

(** The registers given to [task_return], which leaves the kernel. *)
Definition task_run_first_ever_task : TM registers :=
  c ← gets_sched current_task;
  if c =? 0 then hang
  else
    h ← gets_sched task_head;
    _ ← task_switch h;
    h ← gets_sched task_head;
    t ← get_task h; mret (task_registers t).

(** [int20h_handler] of idt.c: the task whose registers are returned, or 0. *)
Definition int20h_handler (frame : interrupt_frame) : TM Z :=
  _ ← outb 0x20 0x20;
  c ← task_current;
  if c =? 0 then mret 0
  else if negb (Z.land (Frame.cs frame) 0x3 =? 3) then mret 0
  else
    _ ← task_current_save_state frame;
    next ← task_get_next;
    c ← task_current;
    if (next =? 0) || (next =? c) then mret 0
    else _ ← task_switch next; mret next.

(** ** task.asm, and the entry [int20h] of idt.asm

    [cpu] are the registers of the processor, [regs] the structure the
    argument points to.  [ebp] is pushed first and popped last. *)
Definition restore_general_purpose_registers (cpu regs : registers) : registers :=
  Registers.mk (Registers.edi regs) (Registers.esi regs) (Registers.ebp cpu) (Registers.ebx regs) (Registers.edx regs)
    (Registers.ecx regs) (Registers.eax regs) (Registers.ip cpu) (Registers.cs cpu) (Registers.flags cpu)
    (Registers.esp cpu) (Registers.ss cpu).

(** [mov ebp, esp]; the frame for [iretd] is pushed, with the flags of the
    kernel; the general registers are loaded; [iretd] takes the frame. *)
Definition task_return (cpu regs : registers) : registers :=
  let cpu1 := Registers.mk (Registers.edi cpu) (Registers.esi cpu) (Registers.esp cpu) (Registers.ebx cpu) (Registers.edx cpu)
    (Registers.ecx cpu) (Registers.eax cpu) (Registers.ip cpu) (Registers.cs cpu) (Registers.flags cpu) (Registers.esp cpu) (Registers.ss cpu) in
  let cpu2 := restore_general_purpose_registers cpu1 regs in
  Registers.mk (Registers.edi cpu2) (Registers.esi cpu2) (Registers.ebp cpu2) (Registers.ebx cpu2) (Registers.edx cpu2)
    (Registers.ecx cpu2) (Registers.eax cpu2) (Registers.ip regs) (Registers.cs regs) (Z.lor (Registers.flags cpu) 0x200)
    (Registers.esp regs) (Registers.ss regs).

(** The registers with which the processor goes on after the interrupt:
    [popad] and [iret] restore those of the frame, or [task_return], called
    with the registers [cpu], loads those of the next task. *)
Definition int20h (cpu : registers) (frame : interrupt_frame) : TM registers :=
  next ← int20h_handler frame;
  if next =? 0 then mret (saved frame)
  else t ← get_task next; mret (task_return cpu (task_registers t)).
End code.

(** ** Rules *)
Section rules.
Context {H : Type} {A : Allocator H}.
Implicit Types s : H * sched.

Definition with_sched (s : H * sched) (x : sched) : H * sched := (fst s, x).

Lemma wp_gets_sched {T} (f : sched -> T) (Q : T -> H * sched -> Prop) s : Q (f (snd s)) s -> wp (gets_sched f) Q s.
Proof. done. Qed.

Lemma wp_modify_sched f (Q : unit -> H * sched -> Prop) s : Q tt (fst s, f (snd s)) -> wp (modify_sched f) Q s.
Proof. done. Qed.

Lemma wp_get_task s a t (Q : task -> H * sched -> Prop) :
  task_store (snd s) !! a = Some t -> Q t s -> wp (get_task a) Q s.
Proof. intros Ht HQ. unfold get_task. apply wp_bind, wp_gets_sched. by rewrite Ht. Qed.

Lemma wp_put_task s a t k (Q : unit -> H * sched -> Prop) :
  task_store (snd s) !! a = Some t -> Q tt (fst s, set_store (snd s) (<[a := k]> (task_store (snd s)))) ->
  wp (put_task a k) Q s.
Proof. intros Ht HQ. unfold put_task. apply wp_bind, wp_gets_sched. by rewrite Ht. Qed.

Lemma wp_on_paging {T} (m : M (H * paging) T) (Q : T -> H * sched -> Prop) s :
  wp m (fun a p => Q a (fst p, set_paging (snd s) (snd p))) (fst s, pages (snd s)) -> wp (on_paging m) Q s.
Proof. intros Hw. unfold on_paging. apply wp_focus. exact Hw. Qed.

Lemma wp_switch_chunk s c d (Q : unit -> H * sched -> Prop) :
  chunks (pages (snd s)) !! c = Some d ->
  Q tt (fst s, set_paging (snd s) (mk_paging (tables (pages (snd s))) (chunks (pages (snd s))) d d)) ->
  wp (on_paging (paging_switch c)) Q s.
Proof. intros Hc HQ. apply wp_on_paging. unfold paging_switch. apply wp_bind. by eapply wp_directory. Qed.
End rules.

(** ** The list of tasks

    [task_list s l]: following the [next] pointers from [task_head] visits
    the live tasks [l] and ends at [task_tail].  [back_links s l]: the [prev]
    pointers agree. *)
Record task_list (s : sched) (l : list Z) : Prop := {
  tl_nodup : NoDup l;
  tl_nonzero : 0 ∉ l;
  tl_head : task_head s = default 0 (head l);
  tl_tail : task_tail s = default 0 (last l);
  tl_next : forall i a, l !! i = Some a ->
    exists t, task_store s !! a = Some t /\ next t = default 0 (l !! S i) }.

Definition back_links (s : sched) (l : list Z) : Prop :=
  forall i a, l !! i = Some a -> exists t, task_store s !! a = Some t /\
    prev t = match i with O => 0 | S j => default 0 (l !! j) end.

Lemma task_list_frame s s' l :
  task_list s l -> (forall a, a ∈ l -> task_store s' !! a = task_store s !! a) ->
  task_head s' = task_head s -> task_tail s' = task_tail s -> task_list s' l.
Proof.
  intros [L1 L2 L3 L4 L5] Hs Hh Ht. split; try done; [congruence..|]. intros i a Ha. rewrite Hs; [by apply L5|].
  by eapply list_elem_of_lookup_2.
Qed.

(** A task without the registers, which every interrupt changes. *)
Definition strip (t : task) : task := set_registers t Registers.zero.

Lemma default_nonzero (l : list Z) i : 0 ∉ l -> default 0 (l !! i) = 0 -> l !! i = None.
Proof.
  intros H0 Hd. destruct (l !! i) as [a|] eqn:E; [|done]. cbn in Hd. subst a. destruct H0. by eapply list_elem_of_lookup_2.
Qed.

(** The successor on the list, and the first task after the last one. *)
Lemma task_get_next_spec {H} (s : H * sched) l i a (Q : Z -> H * sched -> Prop) :
  task_list (snd s) l -> l !! i = Some a -> current_task (snd s) = a ->
  (forall b, l !! (S i mod length l)%nat = Some b -> Q b s) -> wp task_get_next Q s.
Proof.
  intros [L1 L2 L3 L4 L5] Hi Hc HQ. unfold task_get_next. apply wp_bind, wp_gets_sched. rewrite Hc.
  destruct (L5 i a Hi) as (t & Ht & Hn). apply wp_bind. eapply wp_get_task; [done|]. apply lookup_lt_Some in Hi as Hlt.
  destruct (Z.eqb_spec (next t) 0) as [E|E].
  - apply wp_gets_sched. apply HQ. rewrite Hn in E. apply default_nonzero in E; [|done]. apply lookup_ge_None in E.
    replace (S i) with (length l) by lia. rewrite Nat.Div0.mod_same, L3. destruct l; [done|]. done.
  - apply wp_ret. apply HQ. rewrite Hn in E |- *. destruct (l !! S i) as [b|] eqn:Eb; [|done]. cbn.
    apply lookup_lt_Some in Eb as ?. rewrite Nat.mod_small by lia. done.
Qed.

(** ** The timer interrupt *)

(** [running s l i regs]: the tasks are [l], the [i]-th is current, the
    registers saved are [regs], and every task has an address space. *)
Record running (s : sched) (l : list Z) (i : nat) (regs : list registers) : Prop := {
  rn_list : task_list s l;
  rn_current : l !! i = Some (current_task s);
  rn_length : length regs = length l;
  rn_regs : forall j a, l !! j = Some a -> task_registers <$> (task_store s !! a) = regs !! j;
  rn_spaces : forall a t, a ∈ l -> task_store s !! a = Some t -> is_Some (chunks (pages s) !! page_directory t) }.

(** What a timer interrupt leaves alone. *)
Record same_tasks (s s' : sched) : Prop := {
  st_strip : strip <$> task_store s' = strip <$> task_store s;
  st_tables : tables (pages s') = tables (pages s);
  st_chunks : chunks (pages s') = chunks (pages s);
  st_ram : ram s' = ram s;
  st_kernel : kernel_chunk s' = kernel_chunk s }.

Lemma same_tasks_refl s : same_tasks s s.
Proof. done. Qed.
Lemma same_tasks_trans s s1 s2 : same_tasks s s1 -> same_tasks s1 s2 -> same_tasks s s2.
Proof. intros [] []. split; congruence. Qed.

(** [current_process] and CR3 belong to the current task. *)
Definition installed (s : sched) : Prop :=
  exists t d, task_store s !! current_task s = Some t /\ current_process s = process t /\
    chunks (pages s) !! page_directory t = Some d /\ cr3 (pages s) = d /\ current_directory (pages s) = d.

Definition user_frame (f : interrupt_frame) : Prop := Z.land (Frame.cs f) 0x3 = 3.

(** Storing the registers of the current task. *)
Lemma running_saved s l i regs t f :
  running s l i regs -> task_store s !! current_task s = Some t ->
  running (set_store s (<[current_task s := set_registers t f]> (task_store s))) l i (<[i := f]> regs).
Proof.
  intros [[L1 L2 L3 L4 L5] R2 R3 R4 R5] Ht. split; [split; try done| | | |]; cbn [set_store task_store current_task pages].
  - intros j a Hj. destruct (L5 j a Hj) as (k & Hk & Hn). destruct (decide (a = current_task s)) as [->|Hne].
    + rewrite lookup_insert_eq. eexists. split; [done|]. rewrite Hk in Ht. injection Ht as ->. done.
    + rewrite lookup_insert_ne by done. eauto.
  - done.
  - by rewrite length_insert.
  - intros j a Hj. destruct (decide (j = i)) as [->|Hne].
    + rewrite R2 in Hj. injection Hj as <-. apply lookup_lt_Some in R2. by rewrite lookup_insert_eq, list_lookup_insert_eq by lia.
    + rewrite list_lookup_insert_ne by done. rewrite lookup_insert_ne; [by apply R4|]. intros E.
      apply Hne. eapply NoDup_lookup; [exact L1|exact Hj|]. by rewrite <- E.
  - intros a k Ha Hk. destruct (decide (a = current_task s)) as [->|Hne].
    + rewrite lookup_insert_eq in Hk. injection Hk as <-. exact (R5 _ t Ha Ht).
    + rewrite lookup_insert_ne in Hk by done. by apply (R5 a).
Qed.

(** Another task of the list becomes current. *)
Lemma running_switch s l i j regs b p d :
  running s l i regs -> l !! j = Some b ->
  running (set_paging (set_current s b p) (mk_paging (tables (pages s)) (chunks (pages s)) d d)) l j regs.
Proof. intros [[L1 L2 L3 L4 L5] R2 R3 R4 R5] Hj. by split; [split| | | |]. Qed.

Lemma strip_saved s a t f :
  task_store s !! a = Some t -> strip <$> <[a := set_registers t f]> (task_store s) = strip <$> task_store s.
Proof. intros Ht. rewrite fmap_insert. apply insert_id. by rewrite lookup_fmap, Ht. Qed.

(** One timer interrupt of a user program. *)
Lemma tick_spec {H} (s : H * sched) l i regs f (Q : Z -> H * sched -> Prop) :
  running (snd s) l i regs -> user_frame f ->
  (forall x b, l !! (S i mod length l)%nat = Some b -> running x l (S i mod length l) (<[i := saved f]> regs) ->
     same_tasks (snd s) x -> ((1 < length l)%nat -> installed x) -> Q (if (length l =? 1)%nat then 0 else b) (fst s, x)) ->
  wp (int20h_handler f) Q s.
Proof.
  intros R Hu HQ. pose proof R as [L R2 R3 R4 R5]. pose proof L as [L1 L2 L3 L4 L5]. unfold int20h_handler.
  apply wp_bind, wp_modify_sched, wp_bind, wp_gets_sched. cbn [snd log_port current_task].
  assert (H0 : current_task (snd s) <> 0) by (intros E; apply L2; rewrite <- E; by eapply list_elem_of_lookup_2).
  apply Z.eqb_neq in H0. rewrite H0. unfold user_frame in Hu. rewrite Hu. cbn [Z.eqb Pos.eqb negb].
  apply wp_bind. unfold task_current_save_state. apply wp_bind, wp_gets_sched. cbn [snd log_port current_task]. rewrite H0.
  destruct (L5 _ _ R2) as (t & Ht & Hn). unfold task_save_state. apply wp_bind. eapply wp_get_task; [exact Ht|].
  eapply wp_put_task; [exact Ht|]. cbn [fst snd]. set (s1 := set_store _ _).
  assert (R1 : running s1 l i (<[i := saved f]> regs)).
  { apply (running_saved (log_port (snd s) 32 32)); [|exact Ht]. by destruct R as [[] ? ? ? ?]; split; [split|..]. }
  assert (Hst : strip <$> task_store s1 = strip <$> task_store (snd s)) by exact (strip_saved (snd s) _ t (saved f) Ht).
  assert (Hm : same_tasks (snd s) s1) by (by split).
  assert (Hcur : current_task s1 = current_task (snd s)) by done. clearbody s1.
  apply wp_bind. eapply (task_get_next_spec _ l i); [apply R1|exact R2|exact Hcur|]. intros b Hb.
  apply wp_bind, wp_gets_sched. cbn [snd]. rewrite Hcur.
  destruct (Z.eqb_spec b 0) as [->|_]; [destruct L2; by eapply list_elem_of_lookup_2|]. cbn [orb].
  apply lookup_lt_Some in R2 as Hlt. specialize (HQ). destruct (Z.eqb_spec b (current_task (snd s))) as [Eb|Eb].
  - assert (Hi : (S i mod length l)%nat = i) by (eapply NoDup_lookup; [exact L1|exact Hb|by rewrite Eb]).
    assert (Hl1 : length l = 1%nat).
    { destruct (decide (S i < length l)%nat); [rewrite Nat.mod_small in Hi by lia; lia|].
      replace (S i) with (length l) in Hi by lia. rewrite Nat.Div0.mod_same in Hi. lia. }
    apply wp_ret. specialize (HQ s1 b Hb). rewrite Hl1 in HQ. cbn [Nat.eqb] in HQ. apply HQ; [|done|lia].
    rewrite Hl1 in Hi. by rewrite Hi.
  - assert (Hl : length l <> 1%nat).
    { intros E. assert (i = 0)%nat as -> by lia. rewrite E in Hb. change (1 mod 1)%nat with 0%nat in Hb. congruence. }
    apply wp_bind. unfold task_switch. destruct (tl_next _ _ (rn_list _ _ _ _ R1) _ _ Hb) as (k & Hk & _).
    apply wp_bind. eapply wp_get_task; [exact Hk|]. apply wp_bind, wp_modify_sched.
    destruct (rn_spaces _ _ _ _ R1 b k) as [d Hd]; [by eapply list_elem_of_lookup_2|done|].
    apply wp_bind. eapply wp_switch_chunk; [exact Hd|]. apply wp_ret, wp_ret. cbn [fst snd set_current pages].
    specialize (HQ (set_paging (set_current s1 b (process k)) (mk_paging (tables (pages s1)) (chunks (pages s1)) d d)) b Hb).
    destruct (Nat.eqb_spec (length l) 1); [done|]. apply HQ.
    + by apply (running_switch s1 l i).
    + destruct Hm. by split.
    + intros _. by exists k, d.
Qed.

(** Several timer interrupts, each with the frame the processor pushed and
    the registers at the call of [task_return]; with which registers the
    programs go on, and the registers that the interrupts leave saved. *)
Fixpoint ticks {H} (l : list (registers * interrupt_frame)) : M (H * sched) (list registers) :=
  match l with
  | [] => mret []
  | (cpu, f) :: l' => r ← int20h cpu f; rs ← ticks l'; mret (r :: rs)
  end.
Fixpoint saved_by (n i : nat) (regs : list registers) (frames : list interrupt_frame) : list registers :=
  match frames with
  | [] => regs
  | f :: frames' => saved_by n (S i mod n) (<[i := saved f]> regs) frames'
  end.

(** The program that goes on is the current task, with what is saved. *)
Definition goes_on (x : sched) (cpu r : registers) : Prop :=
  exists t, task_store x !! current_task x = Some t /\ r = task_return cpu (task_registers t).

Lemma int20h_spec {H} (s : H * sched) l i regs cpu f (Q : registers -> H * sched -> Prop) :
  running (snd s) l i regs -> user_frame f -> (1 < length l)%nat ->
  (forall x r, running x l (S i mod length l) (<[i := saved f]> regs) -> same_tasks (snd s) x -> installed x ->
     goes_on x cpu r -> Q r (fst s, x)) ->
  wp (int20h cpu f) Q s.
Proof.
  intros R Hu Hl HQ. unfold int20h. apply wp_bind. eapply tick_spec; [exact R|exact Hu|]. intros x b Hb Rx Sx Ix.
  destruct (Nat.eqb_spec (length l) 1); [lia|]. pose proof (tl_nonzero _ _ (rn_list _ _ _ _ Rx)) as H0.
  destruct (Z.eqb_spec b 0) as [->|_]; [destruct H0; by eapply list_elem_of_lookup_2|].
  assert (Eb : current_task x = b) by (pose proof (rn_current _ _ _ _ Rx); congruence).
  destruct (tl_next _ _ (rn_list _ _ _ _ Rx) _ _ Hb) as (t & Ht & _).
  apply wp_bind. eapply wp_get_task; [exact Ht|]. apply wp_ret, HQ; [done|done|auto|]. exists t. by rewrite Eb.
Qed.

Lemma ticks_spec {H} fs : forall (s : H * sched) l i regs (Q : list registers -> H * sched -> Prop),
  running (snd s) l i regs -> Forall user_frame fs.*2 -> (1 < length l)%nat ->
  (forall rs x, running x l ((i + length fs) mod length l) (saved_by (length l) i regs fs.*2) -> same_tasks (snd s) x ->
     (forall cpu f, last fs = Some (cpu, f) -> installed x /\ exists r, last rs = Some r /\ goes_on x cpu r) -> Q rs (fst s, x)) ->
  wp (ticks fs) Q s.
Proof.
  induction fs as [|[cpu f] fs IH]; intros s l i regs Q R Hu Hl HQ; cbn [ticks].
  - apply wp_ret. destruct s as [h x]. apply HQ; [|apply same_tasks_refl|done].
    destruct R as [L R2 ? ? ?]. apply lookup_lt_Some in R2 as ?. cbn [length saved_by fmap list_fmap]. rewrite Nat.add_0_r, Nat.mod_small by done.
    by split.
  - apply Forall_cons in Hu as [Hf Hu]. apply wp_bind. eapply int20h_spec; [exact R|exact Hf|exact Hl|].
    intros x r Rx Sx Ix Gx. destruct fs as [|g fs].
    + apply wp_bind. cbn [ticks]. apply wp_ret, wp_ret. cbn [fst snd] in *. apply HQ; [by rewrite Nat.add_1_r|done|].
      intros cpu' f' [= <- <-]. eauto.
    + apply wp_bind. eapply IH; [exact Rx|exact Hu|exact Hl|]. intros rs y Ry Sy Gy. apply wp_ret. cbn [fst snd] in *.
      assert (Ei : ((i + length ((cpu, f) :: g :: fs)) mod length l)%nat = ((S i mod length l + length (g :: fs)) mod length l)%nat)
        by (rewrite Nat.Div0.add_mod_idemp_l; f_equal; cbn; lia).
      apply HQ; [by rewrite Ei|by eapply same_tasks_trans|]. intros cpu' f' E. destruct (Gy cpu' f' E) as (Iy & r' & Er & Gr).
      split; [done|]. exists r'. split; [|done]. by destruct rs.
Qed.


(** The registers of a task survive the interrupts of all the others. *)
Lemma saved_by_other n fs : forall i j regs,
  (forall k, (k < length fs)%nat -> ((i + k) mod n)%nat <> j) -> (i < n)%nat ->
  saved_by n i regs fs !! j = regs !! j.
Proof.
  induction fs as [|f fs IH]; intros i j regs Hk Hi; [done|]. cbn [saved_by]. rewrite IH.
  - rewrite list_lookup_insert_ne; [done|]. specialize (Hk 0%nat ltac:(cbn; lia)). rewrite Nat.add_0_r, Nat.mod_small in Hk by done. done.
  - intros k Hlt. rewrite Nat.Div0.add_mod_idemp_l. replace (S i + k)%nat with (i + S k)%nat by lia. apply Hk. cbn. lia.
  - apply Nat.mod_upper_bound. lia.
Qed.

Lemma saved_by_self n i regs f fs :
  length regs = n -> (i < n)%nat -> length fs = pred n -> saved_by n i regs (f :: fs) !! i = Some (saved f).
Proof.
  intros Hr Hi Hf. cbn [saved_by]. rewrite saved_by_other.
  - apply list_lookup_insert_eq. lia.
  - intros k Hk E. rewrite Nat.Div0.add_mod_idemp_l in E.
    destruct (decide (S i + k < n)%nat); [rewrite Nat.mod_small in E by lia; lia|].
    assert (E2 : (S i + k = 1 * n + (S i + k - n))%nat) by lia. rewrite E2, Nat.add_comm, Nat.Div0.mod_add, Nat.mod_small in E by lia. lia.
  - apply Nat.mod_upper_bound. lia.
Qed.

(** ** Theorems on scheduling *)

(** What system calls leave alone that neither create nor end a task. *)
Record same_list (s s' : sched) : Prop := {
  sl_ends : task_head s' = task_head s /\ task_tail s' = task_tail s;
  sl_current : current_task s' = current_task s;
  sl_tasks : strip <$> task_store s' = strip <$> task_store s;
  sl_chunks : chunks (pages s') = chunks (pages s) }.

(** One step of the system for the scheduler: a timer interrupt, which is
    counted when it comes from a user program, or anything else that keeps
    the list of tasks. *)
#[global] Instance user_frame_dec f : Decision (user_frame f).
Proof. unfold user_frame. apply _. Defined.
Inductive sched_step : sched -> bool -> sched -> Prop :=
| sched_timer s f r s' : int20h_handler f (tt, s) = Ok (r, (tt, s')) -> sched_step s (bool_decide (user_frame f)) s'
| sched_program s s' : same_list s s' -> sched_step s false s'.
Inductive sched_steps : sched -> nat -> sched -> Prop :=
| sched_refl s : sched_steps s 0 s
| sched_snoc s n s' b s'' : sched_steps s n s' -> sched_step s' b s'' -> sched_steps s (n + Nat.b2n b) s''.

(** Tasks without their registers agree. *)
Lemma strip_lookup (st st' : gmap Z task) a t : strip <$> st' = strip <$> st -> st !! a = Some t ->
  exists t', st' !! a = Some t' /\ next t' = next t /\ page_directory t' = page_directory t.
Proof.
  intros E Ht. assert (E' : (strip <$> st') !! a = Some (strip t)) by (by rewrite E, lookup_fmap, Ht).
  rewrite lookup_fmap in E'. destruct (st' !! a) as [t'|]; [|done]. injection E' as E1 E2 E3 E4. eauto.
Qed.

Lemma running_same_list s s' l i regs : running s l i regs -> same_list s s' -> exists regs', running s' l i regs'.
Proof.
  intros [[L1 L2 L3 L4 L5] R2 R3 R4 R5] [[E1 E2] E3 E4 E5].
  exists ((fun a => default Registers.zero (task_registers <$> (task_store s' !! a))) <$> l).
  assert (Hs : forall j a, l !! j = Some a -> exists t t', task_store s !! a = Some t /\ task_store s' !! a = Some t' /\
    next t = default 0 (l !! S j) /\ next t' = next t /\ page_directory t' = page_directory t).
  { intros j a Hj. destruct (L5 j a Hj) as (t & Ht & Hn). destruct (strip_lookup _ _ a t E4 Ht) as (t' & Ht' & ? & ?). by exists t, t'. }
  split; [split|..].
  - done.
  - done.
  - by rewrite E1.
  - by rewrite E2.
  - intros j a Hj. destruct (Hs j a Hj) as (t & t' & _ & Ht' & Hn & En & _). exists t'. split; [done|]. by rewrite En.
  - by rewrite E3.
  - by rewrite length_fmap.
  - intros j a Hj. destruct (Hs j a Hj) as (t & t' & _ & Ht' & _). rewrite list_lookup_fmap, Hj, Ht'. cbn. by rewrite Ht'.
  - intros a t' Ha Ht'. apply list_elem_of_lookup in Ha as [j Hj]. destruct (Hs j a Hj) as (t & t2 & Ht & Ht2 & _ & _ & Ed).
    rewrite Ht2 in Ht'. injection Ht' as <-. rewrite E5, Ed. apply (R5 a); [by eapply list_elem_of_lookup_2|done].
Qed.

(** The timer interrupt returns, whoever it interrupts. *)
Lemma timer_returns s l i regs f : running s l i regs -> exists r s' regs', int20h_handler f (tt, s) = Ok (r, (tt, s')) /\
  running s' l ((i + Nat.b2n (bool_decide (user_frame f))) mod length l) regs'.
Proof.
  intros R. pose proof (rn_current _ _ _ _ R) as Hi. apply lookup_lt_Some in Hi as Hlt. case_bool_decide as Hu.
  - assert (W : wp (int20h_handler f) (fun _ x => exists regs', running (snd x) l (S i mod length l) regs') (tt, s)).
    { eapply tick_spec; [exact R|exact Hu|]. intros x b _ Rx _ _. by exists (<[i := saved f]> regs). }
    unfold wp in W. destruct (int20h_handler f (tt, s)) as [[r [[] x]]| |]; [|done|done]. destruct W as [regs' W].
    exists r, x, regs'. split; [done|]. cbn [Nat.b2n]. by rewrite Nat.add_1_r.
  - cbn [Nat.b2n]. rewrite Nat.add_0_r, Nat.mod_small by done.
    assert (Hc : current_task s <> 0) by (intros E; apply (tl_nonzero _ _ (rn_list _ _ _ _ R)); rewrite <- E; by eapply list_elem_of_lookup_2).
    exists 0, (log_port s 0x20 0x20), regs. split; [|by destruct R as [[] ? ? ? ?]; split; [split|..]].
    unfold int20h_handler, mbind, M_bind, outb, modify_sched, modify, task_current, gets_sched, gets. cbn [fst snd log_port current_task].
    apply Z.eqb_neq in Hc. rewrite Hc. unfold user_frame in Hu. apply Z.eqb_neq in Hu. by rewrite Hu.
Qed.

Lemma sched_steps_running s n s' l i regs : running s l i regs -> sched_steps s n s' -> exists regs', running s' l ((i + n) mod length l) regs'.
Proof.
  intros R St. induction St as [s|s n s' b s'' St IH Sp].
  - pose proof (rn_current _ _ _ _ R) as Hi. apply lookup_lt_Some in Hi. exists regs. by rewrite Nat.add_0_r, Nat.mod_small.
  - destruct (IH R) as [regs1 R1]. inversion Sp as [? f r ? E|? ? Sl]; subst.
    + destruct (timer_returns s' l _ regs1 f R1) as (r' & x & regs2 & E2 & R2). rewrite E in E2. injection E2 as <- <-.
      exists regs2. rewrite Nat.Div0.add_mod_idemp_l in R2. by rewrite Nat.add_assoc.
    + cbn [Nat.b2n]. rewrite Nat.add_0_r. by eapply running_same_list.
Qed.

(** C20: liveness of the scheduler.  In any run of timer interrupts, which may
    also come while the kernel waits in a system call, with system calls in
    between that neither create nor end a task, each of the [n] tasks on the
    list is the current one after a number of less than [n] interrupts of
    user programs, wherever the scheduler stands; interrupts of the kernel do
    not count, and do not switch.  The timer interrupt returns in every state
    of such a run. *)
Theorem round_robin_liveness s l i regs a :
  running s l i regs -> a ∈ l ->
  (exists k, (k < length l)%nat /\ forall s', sched_steps s k s' -> current_task s' = a) /\
  (forall n s' f, sched_steps s n s' -> exists r s'', int20h_handler f (tt, s') = Ok (r, (tt, s''))).
Proof.
  intros R Ha. split.
  - apply list_elem_of_lookup in Ha as [j Hj]. apply lookup_lt_Some in Hj as Hlt.
    pose proof (rn_current _ _ _ _ R) as Hi. apply lookup_lt_Some in Hi.
    exists ((j + (length l - i)) mod length l)%nat. split; [apply Nat.mod_upper_bound; lia|]. intros s' St.
    destruct (sched_steps_running _ _ _ _ _ _ R St) as [regs' Rx]. pose proof (rn_current _ _ _ _ Rx) as Hc.
    rewrite Nat.Div0.add_mod_idemp_r in Hc. replace (i + (j + (length l - i)))%nat with (j + 1 * length l)%nat in Hc by lia.
    rewrite Nat.Div0.mod_add, Nat.mod_small in Hc by done. congruence.
  - intros n s' f St. destruct (sched_steps_running _ _ _ _ _ _ R St) as [regs' Rx].
    destruct (timer_returns s' l _ regs' f Rx) as (r & x & _ & E & _). eauto.
Qed.

(** C19: a task that is preempted with the frame [f] is resumed by the [n]-th
    timer interrupt of a user program, with its address space and its process
    installed.  It goes on with the instruction pointer, the stack and the
    general registers of [f], but for two: [ebp] is the stack pointer that the
    kernel had when it called [task_return], and the flags are those of the
    kernel with the interrupt flag set. *)
Theorem preempted_task_resumes {H} (s : H * sched) l i regs cpu f fs cpu' f' :
  running (snd s) l i regs -> (1 < length l)%nat -> length fs = pred (length l) -> Forall user_frame (f :: fs.*2) ->
  last fs = Some (cpu', f') ->
  wp (ticks ((cpu, f) :: fs)) (fun rs s' => current_task (snd s') = current_task (snd s) /\ installed (snd s') /\
    same_tasks (snd s) (snd s') /\
    last rs = Some (Registers.mk (Frame.edi f) (Frame.esi f) (Registers.esp cpu') (Frame.ebx f) (Frame.edx f) (Frame.ecx f) (Frame.eax f)
      (Frame.ip f) (Frame.cs f) (Z.lor (Registers.flags cpu') 0x200) (Frame.esp f) (Frame.ss f))) s.
Proof.
  intros R Hl Hfs Hu Hlast. eapply ticks_spec; [exact R|exact Hu|exact Hl|]. intros rs x Rx Sx Gx. cbn [snd].
  pose proof (rn_current _ _ _ _ R) as Hi. apply lookup_lt_Some in Hi as Hlt.
  pose proof (rn_current _ _ _ _ Rx) as Hc. replace (i + length ((cpu, f) :: fs))%nat with (i + 1 * length l)%nat in Hc by (cbn; lia).
  rewrite Nat.Div0.mod_add, Nat.mod_small in Hc by done. assert (Ec : current_task x = current_task (snd s)) by congruence.
  destruct (Gx cpu' f') as (Ix & r & Er & t & Ht & ->); [destruct fs; [done|exact Hlast]|].
  split; [done|]. split; [done|]. split; [done|]. rewrite Er. pose proof (rn_regs _ _ _ _ Rx i _ Hi) as Hr.
  rewrite <- Ec, Ht in Hr. cbn [fmap list_fmap snd] in Hr.
  rewrite saved_by_self in Hr; [|by rewrite (rn_length _ _ _ _ R)|done|by rewrite length_fmap].
  injection Hr as Hr. cbn [fmap option_fmap option_map] in Hr. by rewrite Hr.
Qed.

(** ** Removing a task *)

(** A task without its [next] link, the only field a removal changes in the
    other tasks. *)
Definition drop_next (t : task) : task := set_next t 0.

Lemma drop_next_fields t t' : drop_next t' = drop_next t -> prev t' = prev t /\ page_directory t' = page_directory t /\
  task_registers t' = task_registers t /\ process t' = process t.
Proof. destruct t, t'. unfold drop_next, set_next. cbn. intros E. by injection E. Qed.

(** Looking up a task in a store that differs in [next] links only. *)
Lemma drop_next_lookup (st st0 : gmap Z task) b t :
  drop_next <$> st = drop_next <$> st0 -> st0 !! b = Some t ->
  exists t', st !! b = Some t' /\ prev t' = prev t /\ page_directory t' = page_directory t /\
    task_registers t' = task_registers t /\ process t' = process t.
Proof.
  intros D Ht. assert (E : (drop_next <$> st) !! b = Some (drop_next t)) by (by rewrite D, lookup_fmap, Ht).
  rewrite lookup_fmap in E. destruct (st !! b) as [t'|]; [|done]. apply (inj Some), drop_next_fields in E. eauto.
Qed.

Lemma back_link_last (l1 l2 : list Z) a :
  match length l1 with O => 0 | S j => default 0 ((l1 ++ a :: l2) !! j) end = default 0 (last l1).
Proof.
  destruct l1 as [|b l1] using rev_ind; [done|]. rewrite length_app, Nat.add_comm. cbn [length Nat.add].
  rewrite last_snoc, <- app_assoc. cbn [app]. rewrite lookup_app_r by lia. by rewrite Nat.sub_diag.
Qed.

(** The list without [a], when the predecessor [p] of [a] skips it. *)
Lemma task_list_skip s l1 l2 a t st h tl c :
  task_list s (l1 ++ a :: l2) -> task_store s !! a = Some t -> next t = default 0 (head l2) ->
  h = default 0 (head (l1 ++ l2)) -> tl = default 0 (last (l1 ++ l2)) ->
  (forall p k, last l1 = Some p -> task_store s !! p = Some k -> st !! p = Some (set_next k (next t))) ->
  (forall b, Some b <> last l1 -> st !! b = task_store s !! b) ->
  task_list (set_list (set_store s st) h tl c) (l1 ++ l2).
Proof.
  intros [L1 L2 L3 L4 L5] Ht Hn Hh Htl Hp Ho. apply NoDup_app in L1 as (N1 & N2 & N3). apply NoDup_cons in N3 as [N3 N4].
  split.
  - apply NoDup_app. split; [done|]. split; [|done]. intros x Hx Hx2. apply (N2 x Hx). by right.
  - intros Hx. apply L2. rewrite elem_of_app, elem_of_cons in *. tauto.
  - done.
  - done.
  - cbn [set_list set_store task_store]. intros i b Hb.
    destruct (decide (i < length l1)%nat) as [Hi|Hi].
    + rewrite lookup_app_l in Hb by done. destruct (L5 i b) as (k & Hk & Hkn); [by rewrite lookup_app_l|].
      destruct (decide (S i = length l1)) as [E|E].
      * assert (Hl : last l1 = Some b) by (rewrite last_lookup, <- E; done).
        exists (set_next k (next t)). split; [by apply Hp|]. cbn. rewrite Hn, E, lookup_app_r, Nat.sub_diag by lia. by destruct l2.
      * exists k. split.
        -- rewrite Ho; [done|]. intros Eb. rewrite last_lookup in Eb. symmetry in Eb.
           assert (i = pred (length l1)) by (exact (NoDup_lookup _ _ _ _ N1 Hb Eb)). lia.
        -- rewrite Hkn. by rewrite !lookup_app_l by lia.
    + rewrite lookup_app_r in Hb by lia. assert (Hin : b ∈ l2) by (by eapply list_elem_of_lookup_2).
      destruct (L5 (S i) b) as (k & Hk & Hkn).
      { rewrite lookup_app_r by lia. by replace (S i - length l1)%nat with (S (i - length l1)) by lia. }
      exists k. split.
      * rewrite Ho; [done|]. intros Eb. symmetry in Eb. apply (N2 b); [|by right]. apply last_Some_elem_of. done.
      * rewrite Hkn. rewrite !lookup_app_r by lia. replace (S (S i) - length l1)%nat with (S (S i - length l1)) by lia. done.
Qed.

Lemma removed_head l1 l2 (a : Z) : NoDup (l1 ++ a :: l2) ->
  (if a =? default 0 (head (l1 ++ a :: l2)) then default 0 (head l2) else default 0 (head (l1 ++ a :: l2))) =
  default 0 (head (l1 ++ l2)).
Proof.
  intros N. apply NoDup_app in N as (_ & N & _). destruct l1 as [|b l1]; cbn [app head default from_option id].
  - by rewrite Z.eqb_refl.
  - destruct (Z.eqb_spec a b) as [->|]; [|done]. destruct (N b); by left.
Qed.

Lemma removed_tail l1 l2 (a : Z) : NoDup (l1 ++ a :: l2) ->
  (if a =? default 0 (last (l1 ++ a :: l2)) then default 0 (last l1) else default 0 (last (l1 ++ a :: l2))) =
  default 0 (last (l1 ++ l2)).
Proof.
  intros N. apply NoDup_app in N as (_ & _ & N). apply NoDup_cons in N as [N _]. rewrite !last_app. destruct l2 as [|b l2].
  - cbn. by rewrite Z.eqb_refl.
  - rewrite last_cons_cons. destruct (last (b :: l2)) as [z|] eqn:Ez; [|by apply last_None in Ez]. cbn [default from_option id].
    destruct (Z.eqb_spec a z) as [->|]; [|done]. destruct N. by apply last_Some_elem_of.
Qed.

Lemma set_head_if s a n :
  (if a =? task_head s then set_list s n (task_tail s) (current_task s) else s) =
  set_list s (if a =? task_head s then n else task_head s) (task_tail s) (current_task s).
Proof. destruct (a =? task_head s); [done|by destruct s]. Qed.
Lemma set_tail_if s a n :
  (if a =? task_tail s then set_list s (task_head s) n (current_task s) else s) =
  set_list s (task_head s) (if a =? task_tail s then n else task_tail s) (current_task s).
Proof. destruct (a =? task_tail s); [done|by destruct s]. Qed.

(** The tasks after the predecessor of [a] was made to skip it. *)
Definition skip_store (s : sched) (p : option Z) (n : Z) : gmap Z task :=
  match p with
  | Some p => match task_store s !! p with Some k => <[p := set_next k n]> (task_store s) | None => task_store s end
  | None => task_store s
  end.

Lemma skip_store_same s p n : drop_next <$> skip_store s p n = drop_next <$> task_store s.
Proof.
  unfold skip_store. destruct p as [p|]; [|done]. destruct (task_store s !! p) eqn:E; [|done].
  rewrite fmap_insert. apply insert_id. by rewrite lookup_fmap, E.
Qed.

Lemma skip_store_ne s p n b : Some b <> p -> skip_store s p n !! b = task_store s !! b.
Proof.
  intros Hb. unfold skip_store. destruct p as [p|]; [|done]. destruct (task_store s !! p); [|done].
  apply lookup_insert_ne. congruence.
Qed.

(** The first step: [if (task->prev) task->prev->next = task->next]. *)
Lemma unlink_spec {H} (s : H * sched) l1 l2 a t (Q : unit -> H * sched -> Prop) :
  task_list (snd s) (l1 ++ a :: l2) -> prev t = default 0 (last l1) ->
  Q tt (fst s, set_store (snd s) (skip_store (snd s) (last l1) (next t))) ->
  wp (if negb (prev t =? 0) then p ← get_task (prev t); put_task (prev t) (set_next p (next t)) else mret tt) Q s.
Proof.
  intros [L1 L2 L3 L4 L5] Hpv HQ. unfold skip_store in HQ. destruct (last l1) as [p|] eqn:Ep; cbn [default from_option id] in Hpv.
  - assert (Hp1 : p ∈ l1) by (by apply last_Some_elem_of). assert (p <> 0) by (intros ->; apply L2; apply elem_of_app; by left).
    apply list_elem_of_lookup in Hp1 as [i Hi]. apply lookup_lt_Some in Hi as ?.
    destruct (L5 i p) as (k & Hk & _); [by rewrite lookup_app_l|]. subst p. destruct (Z.eqb_spec (prev t) 0); [congruence|]. cbn [negb].
    apply wp_bind. eapply wp_get_task; [exact Hk|]. eapply wp_put_task; [exact Hk|]. by rewrite Hk in HQ.
  - destruct (Z.eqb_spec (prev t) 0); [|done]. apply wp_ret. by destruct s as [h []].
Qed.

Lemma task_list_remove_spec {H} (s : H * sched) l1 l2 a (Q : unit -> H * sched -> Prop) :
  task_list (snd s) (l1 ++ a :: l2) -> back_links (snd s) (l1 ++ a :: l2) -> current_task (snd s) ∈ l1 ++ a :: l2 ->
  (forall st, let c := if a =? current_task (snd s) then default 0 (head (l2 ++ l1)) else current_task (snd s) in
     let x := set_list (set_store (snd s) st) (default 0 (head (l1 ++ l2))) (default 0 (last (l1 ++ l2))) c in
     task_list x (l1 ++ l2) -> drop_next <$> st = drop_next <$> task_store (snd s) -> Q tt (fst s, x)) ->
  wp (task_list_remove a) Q s.
Proof.
  intros L B Hc HQ. pose proof L as [L1 L2 L3 L4 L5].
  destruct (L5 (length l1) a) as (t & Ht & Hn); [by rewrite lookup_app_r, Nat.sub_diag by lia|].
  assert (Hn' : next t = default 0 (head l2)).
  { rewrite Hn, lookup_app_r by lia. replace (S (length l1) - length l1)%nat with 1%nat by lia. by destruct l2. }
  destruct (B (length l1) a) as (t' & Ht' & Hpv); [by rewrite lookup_app_r, Nat.sub_diag by lia|].
  assert (t' = t) as -> by congruence. rewrite back_link_last in Hpv.
  assert (Hna : Some a <> last l1).
  { intros E. symmetry in E. apply last_Some_elem_of in E. apply NoDup_app in L1 as (_ & N & _). apply (N a E). by left. }
  set (st := skip_store (snd s) (last l1) (next t)).
  assert (Hta : st !! a = Some t) by (by unfold st; rewrite skip_store_ne).
  unfold task_list_remove. apply wp_bind. eapply wp_get_task; [exact Ht|].
  apply wp_bind. apply (unlink_spec s l1 l2 a t); [done|done|]. fold st.
  apply wp_bind, wp_modify_sched, wp_bind, wp_modify_sched, wp_bind, wp_gets_sched. cbn [fst snd].
  rewrite set_head_if, set_tail_if. cbn [set_list set_store task_head task_tail current_task]. rewrite L3, L4, Hpv, Hn', removed_head, removed_tail by done.
  set (h := default 0 (head (l1 ++ l2))). set (tl := default 0 (last (l1 ++ l2))).
  assert (LL : forall c, task_list (set_list (set_store (snd s) st) h tl c) (l1 ++ l2)).
  { intros c. apply (task_list_skip (snd s) l1 l2 a t); try done; [|intros b Hb; by apply skip_store_ne].
    intros p k Ep Hk. unfold st, skip_store. rewrite Ep, Hk. apply lookup_insert_eq. }
  assert (Est : drop_next <$> st = drop_next <$> task_store (snd s)) by apply skip_store_same.
  destruct (Z.eqb_spec a (current_task (snd s))) as [Ea|Ea].
  - unfold task_get_next. apply wp_bind, wp_bind, wp_gets_sched. cbn [snd set_list set_store current_task]. rewrite <- Ea.
    apply wp_bind. eapply wp_get_task; [exact Hta|].
    assert (Hw : forall z, z = default 0 (head (l2 ++ l1)) -> Q tt (fst s, set_list (set_store (snd s) st) h tl z)).
    { intros z ->. apply (HQ st); [apply LL|done]. }
    destruct (Z.eqb_spec (next t) 0) as [E0|E0].
    + apply wp_gets_sched, wp_modify_sched. cbn [fst snd]. apply Hw. cbn [set_list task_head]. unfold h.
      destruct l2 as [|b l2]; [by rewrite app_nil_r|]. rewrite Hn' in E0. cbn in E0. subst b. destruct L2. rewrite elem_of_app, !elem_of_cons. auto.
    + apply wp_ret, wp_modify_sched. cbn [fst snd]. apply Hw. rewrite Hn'. destruct l2; [by rewrite Hn' in E0|done].
  - apply wp_ret. apply (HQ st); [apply LL|done].
Qed.

Section lifetime.
Context {H : Type} {A : Allocator H} {AS : AllocatorSpec H}.
Implicit Types s : H * sched.

(** The heap blocks of a task and of its address space. *)
Definition task_blocks (a c dir : Z) (ts : list Z) : list Z := a :: c :: dir :: ts.

(** [task_object s m a t dir ts pt]: the task [t] at [a] has the address
    space [pt], in heap blocks that are not in [m]. *)
Record task_object (s : H * sched) (m : gmap Z Z) (a : Z) (t : task) (dir : Z) (ts : list Z) (pt : Z -> Z) : Prop := {
  to_task : task_store (snd s) !! a = Some t;
  to_chunk : chunks (pages (snd s)) !! page_directory t = Some dir;
  to_space : space (tables (pages (snd s))) dir ts pt;
  to_fresh : fresh_blocks (task_blocks a (page_directory t) dir ts) m }.

Lemma free_space_spec s m N c dir ts pt (Q : unit -> H * sched -> Prop) :
  chunks (pages (snd s)) !! c = Some dir -> space (tables (pages (snd s))) dir ts pt -> fresh_blocks (c :: dir :: ts) m ->
  owns (fst s) (with_blocks (c :: dir :: ts) m) -> room (fst s) N ->
  (forall h', owns h' m -> room h' N -> free_blocks h' = (1026 + free_blocks (fst s))%nat ->
     Q tt (h', set_paging (snd s) (set_chunks (set_tables (pages (snd s)) (without (dir :: ts) (tables (pages (snd s)))))
       (delete c (chunks (pages (snd s))))))) ->
  wp (on_paging (paging_free_4gb c)) Q s.
Proof.
  intros Hc Hs Hf Ho Hr HQ. apply wp_on_paging. eapply paging_free_4gb_spec; [exact Hc|exact Hs|exact Hf|exact Ho|exact Hr|].
  intros h' Ho' Hr' Hn'. by apply HQ.
Qed.

Lemma task_free_spec s m N l1 l2 a t dir ts pt (Q : Z -> H * sched -> Prop) :
  task_list (snd s) (l1 ++ a :: l2) -> back_links (snd s) (l1 ++ a :: l2) -> current_task (snd s) ∈ l1 ++ a :: l2 ->
  task_object s m a t dir ts pt -> owns (fst s) (with_blocks (task_blocks a (page_directory t) dir ts) m) -> room (fst s) N ->
  (forall h' st, owns h' m -> room h' N -> free_blocks h' = (1027 + free_blocks (fst s))%nat ->
     let c := if a =? current_task (snd s) then default 0 (head (l2 ++ l1)) else current_task (snd s) in
     let p := set_chunks (set_tables (pages (snd s)) (without (dir :: ts) (tables (pages (snd s)))))
                (delete (page_directory t) (chunks (pages (snd s)))) in
     let x := set_list (set_store (set_paging (snd s) p) (delete a st)) (default 0 (head (l1 ++ l2))) (default 0 (last (l1 ++ l2))) c in
     task_list x (l1 ++ l2) -> drop_next <$> st = drop_next <$> task_store (snd s) -> Q 0 (h', x)) ->
  wp (task_free a) Q s.
Proof.
  intros L B Hc [T1 T2 T3 T4] Ho Hr HQ. unfold task_free. apply wp_bind. eapply wp_get_task; [exact T1|].
  unfold task_blocks in *. apply fresh_blocks_cons in T4 as [F1 F2]. apply with_blocks_None in F1 as [F1 F3].
  change (a :: page_directory t :: dir :: ts) with ([a] ++ page_directory t :: dir :: ts) in Ho.
  rewrite (with_blocks_perm _ _ _ (Permutation_app_comm _ _)), with_blocks_app in Ho. cbn [with_blocks foldr] in Ho.
  fold (with_blocks (page_directory t :: dir :: ts) (<[a := 1]> m)) in Ho.
  apply wp_bind. eapply (free_space_spec _ (<[a := 1]> m) N); [exact T2|exact T3| |exact Ho|exact Hr|].
  { destruct F2 as [N1 N2]. split; [done|]. intros b Hb. rewrite lookup_insert_ne by (by intros ->). by apply N2. }
  intros h1 Ho1 Hr1 Hf1. apply wp_bind. set (p := set_chunks _ _).
  apply (task_list_remove_spec (h1, set_paging (snd s) p) l1 l2 a).
  - destruct L. by split.
  - exact B.
  - exact Hc.
  - intros st c x Lx Dx. cbn [fst snd set_paging current_task] in c, x.
    apply wp_bind, wp_on_alloc. cbn [fst]. eapply wp_mono; [apply (dealloc_room h1 _ a 1 N Ho1); [apply lookup_insert_eq|done]|].
    intros u h2 (Ho2 & Hr2 & Hf2). apply wp_bind, wp_modify_sched, wp_ret. cbn [fst snd].
    rewrite delete_insert_id in Ho2 by done. change (Z.to_nat 1) with 1%nat in Hf2. apply (HQ h2 st); [done|done|lia| |done].
    apply (task_list_frame x); [done| |done..]. intros b Hb. cbn. apply lookup_delete_ne. intros <-.
    destruct L as [NL _ _ _ _]. apply NoDup_app in NL as (_ & N1 & N2). apply NoDup_cons in N2 as [N2 _].
    apply elem_of_app in Hb as [Hb|Hb]; [apply (N1 a Hb); by left|done].
Qed.

(** Removing the last task keeps the [prev] links right as well. *)
Lemma back_links_init (s : sched) l a st h tl c :
  back_links s (l ++ [a]) -> drop_next <$> st = drop_next <$> task_store s -> a ∉ l ->
  back_links (set_list (set_store s (delete a st)) h tl c) l.
Proof.
  intros B D Ha i b Hb. destruct (B i b) as (t & Ht & Hp); [by apply lookup_app_l_Some|]. cbn [set_list set_store task_store].
  rewrite lookup_delete_ne by (intros ->; apply Ha; by eapply list_elem_of_lookup_2).
  destruct (drop_next_lookup _ _ _ _ D Ht) as (t' & Ht' & Ep & _). exists t'. split; [done|]. rewrite Ep, Hp. destruct i as [|i]; [done|]. apply lookup_lt_Some in Hb. by rewrite lookup_app_l by lia.
Qed.

(** Ending a task.  [task_free] takes the task off the list, moves
    [task_head], [task_tail] and [current_task] as needed (the current task
    is followed by its successor) and gives its 1027 heap blocks back.  When
    the task is the last of the list, every link is right afterwards. *)
Theorem task_free_correct s m N l1 l2 a t dir ts pt :
  task_list (snd s) (l1 ++ a :: l2) -> back_links (snd s) (l1 ++ a :: l2) -> current_task (snd s) ∈ l1 ++ a :: l2 ->
  task_object s m a t dir ts pt -> owns (fst s) (with_blocks (task_blocks a (page_directory t) dir ts) m) -> room (fst s) N ->
  wp (task_free a) (fun res s' => res = 0 /\ task_list (snd s') (l1 ++ l2) /\
    current_task (snd s') = (if a =? current_task (snd s) then default 0 (head (l2 ++ l1)) else current_task (snd s)) /\
    (l2 = [] -> back_links (snd s') l1) /\
    owns (fst s') m /\ free_blocks (fst s') = (1027 + free_blocks (fst s))%nat /\
    task_store (snd s') !! a = None /\ chunks (pages (snd s')) = delete (page_directory t) (chunks (pages (snd s)))) s.
Proof.
  intros L B Hc T Ho Hr. eapply task_free_spec; [exact L|exact B|exact Hc|exact T|exact Ho|exact Hr|].
  intros h' st Ho' _ Hf' c p x Lx Dx. split; [done|]. split; [done|]. split; [done|]. split.
  - intros ->. apply (back_links_init (set_paging (snd s) p)); [exact B|done|].
    destruct L as [N1 _ _ _ _]. apply NoDup_app in N1 as (_ & N1 & _). intros Hin. apply (N1 a Hin). by left.
  - split; [done|]. split; [done|]. split; [apply lookup_delete_eq|done].
Qed.

(** The successor of the removed task still points back to it. *)
Lemma remove_dangling s b t a :
  task_store (snd s) !! b = Some t -> prev t = a -> a <> 0 -> task_store (snd s) !! a = None ->
  task_list_remove b s = Ub.
Proof.
  intros Hb Hp H0 Ha. unfold task_list_remove, get_task, mbind, M_bind, gets_sched, gets, mret, M_ret.
  rewrite Hb. cbn beta iota. apply Z.eqb_neq in H0. rewrite Hp, H0. cbn [negb]. by rewrite Ha.
Qed.

(** C23: [task_list_remove] never updates the [prev] link of the successor.
    After any task [a] but the last one was freed, freeing its successor [b]
    follows a pointer to the freed task [a]: the second [task_free] has no
    defined behaviour. *)
Theorem task_free_dangling s m N l1 l2 a b ta tb dira tsa pta dirb tsb ptb :
  task_list (snd s) (l1 ++ a :: b :: l2) -> back_links (snd s) (l1 ++ a :: b :: l2) -> current_task (snd s) ∈ l1 ++ a :: b :: l2 ->
  task_object s m a ta dira tsa pta -> task_object s m b tb dirb tsb ptb ->
  (forall y, y ∈ task_blocks a (page_directory ta) dira tsa -> y ∉ task_blocks b (page_directory tb) dirb tsb) ->
  owns (fst s) (with_blocks (task_blocks a (page_directory ta) dira tsa ++ task_blocks b (page_directory tb) dirb tsb) m) ->
  room (fst s) N ->
  wp (task_free a) (fun _ s' => task_free b s' = Ub) s.
Proof.
  intros L B Hc [A1 A2 A3 [A4 A5]] [T1 T2 T3 T4] Hdis Ho Hr. rewrite with_blocks_app in Ho.
  assert (Ta : task_object s (with_blocks (task_blocks b (page_directory tb) dirb tsb) m) a ta dira tsa pta).
  { split; [done..|]. split; [done|]. intros y Hy. apply with_blocks_None. auto. }
  eapply task_free_spec; [exact L|exact B|exact Hc|exact Ta|exact Ho|exact Hr|].
  intros h' st Ho' Hr' _ c p x Lx Dx.
  assert (Hab : a <> b).
  { destruct L as [N1 _ _ _ _]. apply NoDup_app in N1 as (_ & _ & N1). apply NoDup_cons in N1 as [N1 _].
    intros ->. apply N1. by left. }
  assert (H0 : a <> 0) by (intros ->; destruct L as [_ L0 _ _ _]; apply L0; rewrite elem_of_app, elem_of_cons; auto).
  assert (Hprev : prev tb = a).
  { destruct (B (S (length l1)) b) as (k & Hk & Hp).
    - rewrite lookup_app_r by lia. by replace (S (length l1) - length l1)%nat with 1%nat by lia.
    - rewrite lookup_app_r, Nat.sub_diag in Hp by lia. cbn in Hp. congruence. }
  destruct (drop_next_lookup _ _ _ _ Dx T1) as (tb' & Htb & Epr & Epd & _). rewrite Hprev in Epr.
  assert (Htb' : delete a st !! b = Some tb') by (by rewrite lookup_delete_ne).
  unfold task_free. apply (wp_bind_ub _ _ (fun k y => k = tb' /\ y = (h', x))); [by eapply wp_get_task; [exact Htb'|]|].
  intros k y [-> ->]. rewrite Epd.
  apply (wp_bind_ub _ _ (fun _ z => task_store (snd z) = delete a st));
    [eapply (free_space_spec (h', x) (<[b := 1]> m) N (page_directory tb) dirb tsb ptb)|].
  - cbn. rewrite lookup_delete_ne; [exact T2|]. intros E. apply (Hdis (page_directory ta)); [right; by left|rewrite E; right; by left].
  - cbn. apply (space_frame _ _ _ _ _ _ T3). intros y Hy. apply (without_notin (dira :: tsa)). intros Hin.
    apply (Hdis y); [by right; right|by right; right].
  - apply fresh_blocks_cons in T4 as [F1 [N1 F2]]. apply with_blocks_None in F1 as [F1 _]. split; [done|].
    intros y Hy. rewrite lookup_insert_ne by (by intros ->). by apply F2.
  - cbn [fst]. unfold task_blocks in Ho'. change (b :: page_directory tb :: dirb :: tsb) with ([b] ++ page_directory tb :: dirb :: tsb) in Ho'.
    rewrite (with_blocks_perm _ _ _ (Permutation_app_comm _ _)), with_blocks_app in Ho'. exact Ho'.
  - exact Hr'.
  - done.
  - intros u z Hz. unfold mbind, M_bind. rewrite (remove_dangling z b tb' a); [done|by rewrite Hz|done|done|].
    rewrite Hz. apply lookup_delete_eq.
Qed.

(** ** A new task *)

(** [l] with a new last task [a]. *)
Lemma task_list_snoc (s s' : sched) l a t :
  task_list s l -> a ∉ l -> a <> 0 -> task_store s' !! a = Some t -> next t = 0 ->
  task_head s' = default 0 (head (l ++ [a])) -> task_tail s' = a ->
  (forall b k, last l = Some b -> task_store s !! b = Some k -> task_store s' !! b = Some (set_next k a)) ->
  (forall b, b ∈ l -> Some b <> last l -> task_store s' !! b = task_store s !! b) ->
  task_list s' (l ++ [a]).
Proof.
  intros [L1 L2 L3 L4 L5] Ha H0 Ht Hn Hh Htl Hb Ho. split.
  - apply NoDup_app. split; [done|]. split; [|apply NoDup_singleton]. intros x Hx Hxa. by apply list_elem_of_singleton in Hxa as ->.
  - rewrite elem_of_app, list_elem_of_singleton. intros [?|?]; [done|congruence].
  - done.
  - by rewrite last_snoc.
  - intros i b Hi. apply lookup_snoc_Some in Hi as [[Hlt Hi]|[-> ->]].
    + destruct (L5 i b Hi) as (k & Hk & Hkn). destruct (decide (S i = length l)) as [E|E].
      * exists (set_next k a). split; [apply Hb; [|done]; by rewrite last_lookup, <- E|].
        rewrite E, lookup_app_r, Nat.sub_diag by lia. done.
      * exists k. split; [|by rewrite lookup_app_l by lia]. rewrite Ho; [done|by eapply list_elem_of_lookup_2|].
        rewrite last_lookup. intros El. symmetry in El. assert (i = pred (length l)) by (exact (NoDup_lookup _ _ _ _ L1 Hi El)). lia.
    + exists t. split; [done|]. rewrite lookup_ge_None_2; [done|]. rewrite length_app. simpl. lia.
Qed.

Lemma back_links_snoc (s s' : sched) l a t :
  back_links s l -> task_store s' !! a = Some t -> prev t = default 0 (last l) ->
  (forall b k, b ∈ l -> task_store s !! b = Some k -> exists k', task_store s' !! b = Some k' /\ prev k' = prev k) ->
  back_links s' (l ++ [a]).
Proof.
  intros B Ht Hp Hk i b Hi. apply lookup_snoc_Some in Hi as [[Hlt Hi]|[-> ->]].
  - destruct (B i b Hi) as (k & Hkb & Hkp). destruct (Hk b k) as (k' & Hk' & E); [by eapply list_elem_of_lookup_2|done|].
    exists k'. split; [done|]. rewrite E, Hkp. destruct i; [done|]. by rewrite lookup_app_l by lia.
  - exists t. split; [done|]. rewrite Hp. symmetry. apply back_link_last.
Qed.

(** What [task_new] returns on [l]. *)
Definition new_task (p c : Z) (l : list Z) : task := mk_task c initial_registers p 0 (default 0 (last l)).

(** The tasks after the new one was linked. *)
Definition link_store (st : gmap Z task) (a : Z) (t : task) (l : list Z) : gmap Z task :=
  match last l with
  | Some b => match st !! b with Some k => <[a := t]> (<[b := set_next k a]> st) | None => <[a := t]> st end
  | None => <[a := t]> st
  end.

Lemma link_store_ne st a t l b : a <> b -> Some b <> last l -> link_store st a t l !! b = st !! b.
Proof.
  intros Ha Hb. unfold link_store. destruct (last l) as [z|]; [destruct (st !! z)|]; by rewrite !lookup_insert_ne by congruence.
Qed.
Lemma link_store_eq st a t l : link_store st a t l !! a = Some t.
Proof. unfold link_store. destruct (last l) as [z|]; [destruct (st !! z)|]; apply lookup_insert_eq. Qed.
Lemma link_store_last st a t l b k : last l = Some b -> st !! b = Some k -> a <> b -> link_store st a t l !! b = Some (set_next k a).
Proof. intros El Hb Ha. unfold link_store. rewrite El, Hb, lookup_insert_ne by done. apply lookup_insert_eq. Qed.

(** The heap and the address spaces after [task_new]. *)
Record task_made (s : H * sched) (m : gmap Z Z) (N : nat) (h' : H) (pg : paging) (a c dir : Z) (ts : list Z) : Prop := {
  tm_fresh : fresh_blocks (task_blocks a c dir ts) m;
  tm_owns : owns h' (with_blocks (task_blocks a c dir ts) m);
  tm_room : room h' (N - 1027);
  tm_free : free_blocks (fst s) = (1027 + free_blocks h')%nat;
  tm_chunks : chunks pg = <[c := dir]> (chunks (pages (snd s)));
  tm_space : space (tables pg) dir ts (identity 5);
  tm_tables : forall x, x ∉ dir :: ts -> tables pg !! x = tables (pages (snd s)) !! x;
  tm_cr3 : cr3 pg = cr3 (pages (snd s)) /\ current_directory pg = current_directory (pages (snd s)) }.

Lemma task_init_spec s m N a p (Q : Z -> H * sched -> Prop) :
  owns (fst s) m -> room (fst s) N -> (1026 <= N)%nat ->
  (forall c dir ts h' pg, new_space (fst s, pages (snd s)) (h', pg) m N c dir ts (identity 5) -> c <> 0 ->
     Q 0 (h', set_store (set_paging (snd s) pg) (<[a := mk_task c initial_registers p 0 0]> (task_store (snd s))))) ->
  wp (task_init a p) Q s.
Proof.
  intros Ho Hr HN HQ. unfold task_init. apply wp_bind, wp_modify_sched, wp_bind, wp_on_paging. cbn [fst snd set_store pages].
  eapply paging_new_4gb_spec; [exact Ho|exact Hr|exact HN|vm_compute; split; [discriminate|reflexivity]|reflexivity|].
  intros c dir ts [h' pg] N1. change (Z.lor PAGING_IS_PRESENT PAGING_ACCESS_FROM_ALL) with 5 in N1.
  assert (Hc : c <> 0).
  { destruct N1 as (_ & _ & _ & Ho' & _). destruct (owns_page _ _ c 1 Ho') as [? _]; [apply lookup_insert_eq|]. lia. }
  apply Z.eqb_neq in Hc as Hc'. rewrite Hc'. apply wp_bind. eapply wp_put_task; [cbn; apply lookup_insert_eq|]. apply wp_ret.
  specialize (HQ c dir ts h' pg N1 Hc). cbn [fst snd set_store set_paging pages task_store ram task_head task_tail current_task current_process kernel_chunk data_segment port_log] in *.
  by rewrite insert_insert_eq.
Qed.

Lemma task_new_spec s m N l p (Q : Z -> H * sched -> Prop) :
  task_list (snd s) l -> (forall b, b ∈ l -> is_Some (m !! b)) -> owns (fst s) m -> room (fst s) N -> (1027 <= N)%nat ->
  (forall a c dir ts h' pg,
     let x := set_list (set_store (set_paging (snd s) pg) (link_store (task_store (snd s)) a (new_task p c l) l))
                (default 0 (head (l ++ [a]))) a (if (length l =? 0)%nat then a else current_task (snd s)) in
     a <> 0 -> a ∉ l -> task_made s m N h' pg a c dir ts -> Q a (h', x)) ->
  wp (task_new p) Q s.
Proof.
  intros L Hm Ho Hr HN HQ. pose proof L as [L1 L2 L3 L4 L5]. unfold task_new. apply wp_bind, wp_on_alloc.
  eapply wp_mono; [apply (alloc_room (fst s) m _ N Ho); [unfold sizeof_task; lia|done|change (Z.to_nat (Heap.blocks_of sizeof_task)) with 1%nat; lia]|].
  intros a h1 (Hn0 & Ha & Ho1 & Hr1 & Hf1). change (Heap.blocks_of sizeof_task) with 1 in Ho1. change (Z.to_nat _) with 1%nat in Hr1, Hf1.
  assert (Hal : a ∉ l) by (intros Hin; destruct (Hm a Hin); congruence).
  destruct (owns_page _ _ a 1 Ho1) as (Hp & _); [apply lookup_insert_eq|].
  apply Z.eqb_neq in Hn0 as E0. rewrite E0. apply wp_bind, wp_bind.
  eapply (task_init_spec (h1, snd s)); [exact Ho1|exact Hr1|lia|].
  intros c dir ts h' pg (S1 & S2 & S3 & S4 & S5 & S6 & S7 & S8) Hc. cbn [Z.eqb negb PEACHOS_ALL_OK fst snd] in *.
  assert (T : task_made s m N h' pg a c dir ts).
  { split; try done.
    - by apply fresh_cons.
    - unfold task_blocks. change (a :: c :: dir :: ts) with ([a] ++ c :: dir :: ts).
      rewrite (with_blocks_perm _ _ _ (Permutation_app_comm _ _)), with_blocks_app. exact S4.
    - replace (N - 1027)%nat with (N - 1 - 1026)%nat by lia. exact S5.
    - lia. }
  assert (Epos : (a <? 0) = false) by (destruct (Z.ltb_spec a 0); [lia|done]).
  apply wp_bind, wp_gets_sched. cbn [snd set_store set_paging task_head task_tail task_store]. rewrite L3. destruct l as [|b l].
  - cbn [head default from_option id]. apply wp_bind, wp_modify_sched, wp_ret. cbn [Z.ltb Z.compare]. apply wp_ret.
    exact (HQ a c dir ts h' pg Hn0 Hal T).
  - cbn [head default from_option id]. destruct (Z.eqb_spec b 0) as [->|Hb0]; [destruct L2; by left|].
    apply wp_bind, wp_gets_sched. cbn [snd set_store set_paging task_tail]. rewrite L4.
    destruct (last (b :: l)) as [z|] eqn:Ez; [|by apply last_None in Ez]. cbn [default from_option id].
    assert (Hz : z ∈ b :: l) by (by apply last_Some_elem_of). assert (Hza : a <> z) by (by intros ->).
    apply list_elem_of_lookup in Hz as [i Hi]. destruct (L5 i z Hi) as (k & Hk & _).
    apply wp_bind. eapply (wp_get_task _ z k); [cbn; by rewrite lookup_insert_ne|].
    apply wp_bind. eapply (wp_put_task _ z k); [cbn; by rewrite lookup_insert_ne|].
    apply wp_bind. eapply (wp_get_task _ a); [cbn; rewrite lookup_insert_ne by done; apply lookup_insert_eq|].
    apply wp_bind. eapply wp_put_task; [cbn; rewrite lookup_insert_ne by done; apply lookup_insert_eq|].
    apply wp_bind, wp_modify_sched, wp_ret. cbn [Z.ltb Z.compare]. apply wp_ret.
    pose proof (HQ a c dir ts h' pg Hn0 Hal T) as HQ'. unfold link_store, new_task in HQ'. rewrite Ez, Hk in HQ'.
    cbn [fst snd set_store set_paging set_list task_store task_head task_tail current_task pages ram current_process kernel_chunk data_segment port_log
      length Nat.eqb default from_option id] in HQ' |- *. rewrite L3.
    rewrite (insert_insert_ne _ z a), insert_insert_eq by done. exact HQ'.
Qed.

(** The state after [task_new], for the list and for the new task. *)
Lemma task_new_state s m N l p a c dir ts h' pg :
  task_list (snd s) l -> a <> 0 -> a ∉ l -> task_made s m N h' pg a c dir ts ->
  let x := set_list (set_store (set_paging (snd s) pg) (link_store (task_store (snd s)) a (new_task p c l) l))
             (default 0 (head (l ++ [a]))) a (if (length l =? 0)%nat then a else current_task (snd s)) in
  task_list x (l ++ [a]) /\ (back_links (snd s) l -> back_links x (l ++ [a])) /\
  task_object (h', x) m a (new_task p c l) dir ts (identity 5).
Proof.
  intros L H0 Ha T x. split; [|split].
  - apply (task_list_snoc (snd s) x l a (new_task p c l)); try done.
    + apply link_store_eq.
    + intros b k Hb Hk. cbn. apply link_store_last; [done|done|]. intros ->. apply Ha. by apply last_Some_elem_of.
    + intros b Hb Hne. cbn. apply link_store_ne; [by intros ->|done].
  - intros B. apply (back_links_snoc (snd s) x l a (new_task p c l)); [done|apply link_store_eq|done|].
    intros b k Hb Hk. cbn. assert (a <> b) by (by intros ->). destruct (decide (Some b = last l)) as [E|E].
    + exists (set_next k a). split; [|done]. by apply link_store_last.
    + exists k. split; [|done]. by rewrite link_store_ne.
  - split; cbn [snd pages task_store set_list set_store set_paging].
    + apply link_store_eq.
    + cbn. rewrite (tm_chunks _ _ _ _ _ _ _ _ _ T). apply lookup_insert_eq.
    + exact (tm_space _ _ _ _ _ _ _ _ _ T).
    + exact (tm_fresh _ _ _ _ _ _ _ _ _ T).
Qed.

(** Starting a task.  With room for 1027 blocks [task_new] appends a task
    of the given process to the list, with both links right, the registers
    of a program that starts at 0x400000 in ring 3, and an address space of
    its own that maps every address to itself; no other task, table or
    address space changes, except for the [next] link of the last task. *)
Theorem task_new_correct s m N l p :
  task_list (snd s) l -> back_links (snd s) l -> (forall b, b ∈ l -> is_Some (m !! b)) ->
  owns (fst s) m -> room (fst s) N -> (1027 <= N)%nat ->
  wp (task_new p) (fun a s' => task_list (snd s') (l ++ [a]) /\ back_links (snd s') (l ++ [a]) /\
    current_task (snd s') = (if (length l =? 0)%nat then a else current_task (snd s)) /\
    (exists t dir ts, task_object s' m a t dir ts (identity 5) /\
       owns (fst s') (with_blocks (task_blocks a (page_directory t) dir ts) m) /\
       process t = p /\ task_registers t = initial_registers /\
       (forall va, 0 <= va < 2 ^ 32 -> translate (tables (pages (snd s'))) dir va = Some va) /\
       forall x, x ∉ dir :: ts -> tables (pages (snd s')) !! x = tables (pages (snd s)) !! x) /\
    (forall b t, b ∈ l -> task_store (snd s) !! b = Some t ->
       task_store (snd s') !! b = Some (if bool_decide (last l = Some b) then set_next t a else t)) /\
    free_blocks (fst s) = (1027 + free_blocks (fst s'))%nat) s.
Proof.
  intros L B Hm Ho Hr HN. eapply task_new_spec; [exact L|exact Hm|exact Ho|exact Hr|exact HN|].
  intros a c dir ts h' pg x H0 Ha T. destruct (task_new_state s m N l p a c dir ts h' pg L H0 Ha T) as (T1 & T2 & T3).
  fold x in T1, T2, T3. split; [done|]. split; [by apply T2|]. split; [done|]. split; [|split].
  - exists (new_task p c l), dir, ts. split; [done|]. split; [exact (tm_owns _ _ _ _ _ _ _ _ _ T)|]. split; [done|]. split; [done|].
    split; [|exact (tm_tables _ _ _ _ _ _ _ _ _ T)]. intros va Hv.
    apply (identity_translate _ dir ts 5); [exact (tm_space _ _ _ _ _ _ _ _ _ T)|lia|done|done].
  - intros b t Hb Ht. cbn. assert (a <> b) by (by intros ->). case_bool_decide as E; [by apply link_store_last|].
    by rewrite link_store_ne by (done || congruence).
  - exact (tm_free _ _ _ _ _ _ _ _ _ T).
Qed.
End lifetime.

(** ** Witnesses *)
Module ExampleTasks.
Import ExamplePaging.
Definition no_tasks : sched := mk_sched no_paging ∅ ∅ 0 0 0 0 0 KERNEL_DATA_SELECTOR [].

Lemma no_tasks_list : task_list no_tasks [].
Proof. split; try done; [apply NoDup_nil_2|apply not_elem_of_nil]. Qed.

(** Two tasks with an address space each. *)
Definition example_task (dir p nx pv : Z) : task := mk_task dir initial_registers p nx pv.
Definition two_running : sched :=
  mk_sched (mk_paging ∅ {[0x01100000 := 0x01200000; 0x01300000 := 0x01400000]} 0x01200000 0x01200000) ∅
    {[0x01500000 := example_task 0x01100000 1 0x01600000 0; 0x01600000 := example_task 0x01300000 2 0 0x01500000]}
    0x01500000 0x01600000 0x01500000 1 0 KERNEL_DATA_SELECTOR [].
Definition two : list Z := [0x01500000; 0x01600000].

Lemma two_list : task_list two_running two.
Proof.
  split; try done.
  - repeat (apply NoDup_cons; split; [rewrite ?elem_of_cons, elem_of_nil; lia|]). apply NoDup_nil_2.
  - unfold two. rewrite !elem_of_cons, elem_of_nil. lia.
  - intros [|[|i]] a Ha; [| |done]; injection Ha as <-; eexists; (split; [reflexivity|reflexivity]).
Qed.

Lemma two_are_running : running two_running two 0 [initial_registers; initial_registers].
Proof.
  split; try done; [exact two_list| |].
  - intros [|[|j]] a Ha; [| |done]; injection Ha as <-; reflexivity.
  - intros a t Ha Ht. unfold two in Ha. rewrite !elem_of_cons, elem_of_nil in Ha.
    destruct Ha as [->|[->|[]]]; vm_compute in Ht; injection Ht as <-; eexists; reflexivity.
Qed.

Definition user_at (ip : Z) : interrupt_frame := Frame.mk 0 0 0 0 0 0 0 7 ip 0x1b 0x202 0x3FEF00 0x23.
End ExampleTasks.
Import ExampleTasks ExamplePaging.

Lemma round_robin_liveness_witness :
  exists k, (k < 2)%nat /\ forall s', sched_steps two_running k s' -> current_task s' = 0x01600000.
Proof.
  exact (proj1 (round_robin_liveness two_running two 0 [initial_registers; initial_registers] 0x01600000 two_are_running
    (list_elem_of_further _ _ _ (list_elem_of_here _ _)))).
Defined.

Lemma preempted_task_resumes_witness :
  wp (ticks [(Registers.zero, user_at 0x400123); (Registers.mk 0 0 0 0 0 0 0 0 8 0x46 0x5FFFC4 0x10, user_at 0x400456)])
    (fun rs s' => current_task (snd s') = 0x01500000 /\
      (fun r => (Registers.ip r, Registers.ebp r, Registers.flags r)) <$> last rs = Some (0x400123, 0x5FFFC4, 0x246)) (tt, two_running).
Proof.
  eapply wp_mono; [apply (preempted_task_resumes (tt, two_running) two 0 [initial_registers; initial_registers]
    Registers.zero (user_at 0x400123) [(Registers.mk 0 0 0 0 0 0 0 0 8 0x46 0x5FFFC4 0x10, user_at 0x400456)]
    (Registers.mk 0 0 0 0 0 0 0 0 8 0x46 0x5FFFC4 0x10) (user_at 0x400456))|].
  - exact two_are_running.
  - unfold two. simpl. lia.
  - reflexivity.
  - repeat (constructor; [reflexivity|]). constructor.
  - reflexivity.
  - intros rs s' (H1 & _ & _ & H4). split; [exact H1|]. rewrite H4. reflexivity.
Defined.

Lemma task_new_correct_witness :
  wp (task_new 0x01700000) (fun a s' => task_list (snd s') [a] /\ current_task (snd s') = a) (big_heap, no_tasks).
Proof.
  eapply wp_mono; [apply (task_new_correct (big_heap, no_tasks) ∅ 4000 [] 0x01700000)|].
  - exact no_tasks_list.
  - intros i a Ha. discriminate Ha.
  - intros b Hb. exfalso. revert Hb. apply not_elem_of_nil.
  - exact big_owns.
  - exact big_room.
  - lia.
  - intros a s' (H1 & _ & H3 & _). split; [exact H1|exact H3].
Defined.

(** Two tasks made one after the other, and what is known of them. *)
Lemma two_tasks_made (Q : Z * Z -> KHeap.kheap * sched -> Prop) :
  (forall a b ta tb dira tsa dirb tsb s, task_list (snd s) [a; b] -> back_links (snd s) [a; b] -> current_task (snd s) = a ->
     task_object s (with_blocks (task_blocks a (page_directory ta) dira tsa) ∅) b tb dirb tsb (identity 5) ->
     task_object s ∅ a ta dira tsa (identity 5) ->
     (forall y, y ∈ task_blocks a (page_directory ta) dira tsa -> y ∉ task_blocks b (page_directory tb) dirb tsb) ->
     owns (fst s) (with_blocks (task_blocks b (page_directory tb) dirb tsb ++ task_blocks a (page_directory ta) dira tsa) ∅) ->
     room (fst s) 1946 -> Q (a, b) s) ->
  wp (a ← task_new 1; b ← task_new 2; mret (a, b)) Q (big_heap, no_tasks).
Proof.
  intros HQ. apply wp_bind.
  eapply (task_new_spec (big_heap, no_tasks) ∅ 4000 []); [exact no_tasks_list|by intros b Hb%not_elem_of_nil|exact big_owns|exact big_room|lia|].
  intros a ca dira tsa h1 pg1 x1 Ha0 Hal T1.
  destruct (task_new_state (big_heap, no_tasks) _ _ _ 1 _ _ _ _ _ _ no_tasks_list Ha0 Hal T1) as (L1 & B1 & O1). fold x1 in L1, B1, O1.
  set (m1 := with_blocks (task_blocks a ca dira tsa) ∅). apply wp_bind.
  eapply (task_new_spec (h1, x1) m1 2973 [a]); [exact L1| |exact (tm_owns _ _ _ _ _ _ _ _ _ T1)|exact (tm_room _ _ _ _ _ _ _ _ _ T1)|lia|].
  { intros b Hb. apply list_elem_of_singleton in Hb as ->. unfold m1, task_blocks. cbn [with_blocks foldr]. rewrite lookup_insert_eq. eauto. }
  intros b cb dirb tsb h2 pg2 x2 Hb0 Hbl T2.
  destruct (task_new_state (h1, x1) _ _ _ 2 _ _ _ _ _ _ L1 Hb0 Hbl T2) as (L2 & B2 & O2). fold x2 in L2, B2, O2.
  assert (Hdis : forall y, y ∈ task_blocks a ca dira tsa -> y ∉ task_blocks b cb dirb tsb).
  { intros y Hy Hyb. destruct (to_fresh _ _ _ _ _ _ _ O2) as [_ F]. specialize (F y Hyb). by apply with_blocks_None in F as [F _]. }
  apply wp_ret. apply (HQ a b (set_next (new_task 1 ca []) b) (new_task 2 cb [a]) dira tsa dirb tsb); try done.
  - apply B2, B1. by intros i c Hc.
  - destruct O1 as [O1 O3 O4 O5]. assert (Hba : b <> a) by (intros ->; apply Hbl; by left).
    split; cbn [snd pages].
    + unfold x2. cbn. apply (link_store_last _ _ _ [a] a (new_task 1 ca [])); [done|exact O1|done].
    + unfold x2. cbn. rewrite (tm_chunks _ _ _ _ _ _ _ _ _ T2), lookup_insert_ne; [exact O3|].
      intros E. apply (Hdis ca); [right; by left|rewrite <- E; right; by left].
    + apply (space_frame _ _ _ _ _ _ O4). intros y Hy. unfold x2. cbn. rewrite (tm_tables _ _ _ _ _ _ _ _ _ T2); [done|].
      intros Hin. apply (Hdis y); by right; right.
    + exact O5.
  - rewrite with_blocks_app. exact (tm_owns _ _ _ _ _ _ _ _ _ T2).
  - exact (tm_room _ _ _ _ _ _ _ _ _ T2).
Qed.

Lemma task_free_correct_witness :
  wp (ab ← (a ← task_new 1; b ← task_new 2; mret (a, b)); r ← task_free (snd ab); mret (ab, r))
    (fun r s' => snd r = 0 /\ task_list (snd s') [fst (fst r)]) (big_heap, no_tasks).
Proof.
  apply wp_bind, two_tasks_made. intros a b ta tb dira tsa dirb tsb s L B Hc Ob Oa Hd Ho Hr. apply wp_bind.
  eapply wp_mono; [apply (task_free_correct s (with_blocks (task_blocks a (page_directory ta) dira tsa) ∅) 1946 [a] [] b tb dirb tsb (identity 5))|].
  - exact L.
  - exact B.
  - rewrite Hc. left.
  - exact Ob.
  - rewrite <- with_blocks_app. exact Ho.
  - exact Hr.
  - intros res s' (-> & L' & _). apply wp_ret. split; [reflexivity|exact L'].
Defined.

Lemma task_free_dangling_witness :
  wp (ab ← (a ← task_new 1; b ← task_new 2; mret (a, b)); r ← task_free (fst ab); mret ab)
    (fun ab s' => task_free (snd ab) s' = Ub) (big_heap, no_tasks).
Proof.
  apply wp_bind, two_tasks_made. intros a b ta tb dira tsa dirb tsb s L B Hc Ob Oa Hd Ho Hr. apply wp_bind.
  eapply wp_mono; [apply (task_free_dangling s ∅ 1946 [] [] a b ta tb dira tsa (identity 5) dirb tsb (identity 5))|].
  - exact L.
  - exact B.
  - rewrite Hc. left.
  - exact Oa.
  - destruct Ob as [O1 O2 O3 [O4 _]]. split; [exact O1|exact O2|exact O3|]. split; [exact O4|]. intros y _. apply lookup_empty.
  - exact Hd.
  - rewrite (with_blocks_perm _ _ _ (Permutation_app_comm _ _)). exact Ho.
  - exact Hr.
  - intros r s' E. apply wp_ret. exact E.
Defined.
