(* ===== verification/UserMem.v ===== *)
(** * The memory of user programs: the copying functions of src/task/task.c

    System calls read their arguments from the stack of the calling task and
    move data between kernel buffers and user memory by mapping a temporary
    heap page into the task's address space and switching to it.  Every
    access goes through the MMU, that is through [translate] of the
    directory in CR3.  The theorems show that the data arrives, that the
    borrowed page-table entry and the heap page are given back, and that
    nothing else changes. *)
From Stdlib Require Import ZArith Lia.
From stdpp Require Import base list gmap numbers option list_numbers.
From S2P Require Import Prelude CLib Heap Paging Task.
Local Open Scope Z_scope.
Local Open Scope kernel_scope.

Section code.
Context {H : Type} {A : Allocator H}.
Abbreviation TM := (M (H * sched)).

(** The physical address behind [va]; a fault has no model. *)
Definition mmu (s : sched) (va : Z) : option Z := translate (tables (pages s)) (cr3 (pages s)) va.

Definition mmu_read (va : Z) : TM Z :=
  pa ← gets_sched (fun s => mmu s va);
  r ← gets_sched ram;
  match pa with
  | None => ub
  | Some pa => match r !! pa with Some b => mret b | None => ub end
  end.
Definition mmu_write (va b : Z) : TM unit :=
  pa ← gets_sched (fun s => mmu s va);
  r ← gets_sched ram;
  match pa with
  | None => ub
  | Some pa => match r !! pa with Some _ => modify_sched (fun s => set_ram s (<[pa := b]> r)) | None => ub end
  end.

(** Bytes stored from an address on. *)
Fixpoint store_bytes (r : gmap Z Z) (p : Z) (bs : list Z) : gmap Z Z :=
  match bs with [] => r | b :: bs' => store_bytes (<[p := b]> r) (p + 1) bs' end.

(** [kzalloc] and [kfree] of a byte buffer. *)
Definition alloc_bytes (size : Z) : TM Z :=
  p ← on_alloc (alloc size);
  if p =? 0 then mret 0
  else _ ← modify_sched (fun s => set_ram s (store_bytes (ram s) p (replicate (Z.to_nat size) 0))); mret p.
Definition free_bytes (p : Z) : TM unit := on_alloc (dealloc p).

(** [strncpy(tmp, virtual, max)] from [i] on, [n] iterations left. *)
Fixpoint user_strncpy (dest src i : Z) (n : nat) : TM unit :=
  match n with
  | O => mmu_write (dest + i) 0
  | S n' =>
      c ← mmu_read (u32 (src + i));
      if c =? 0 then mmu_write (dest + i) 0
      else _ ← mmu_write (dest + i) c; user_strncpy dest src (i + 1) n'
  end.

(** [strncpy(phys, tmp, max)] into the kernel buffer [dest]. *)
Fixpoint strncpy_out (dest : list Z) (src i : Z) (n : nat) : TM (list Z) :=
  match n with
  | O => lift_out (dest.[i <- 0])
  | S n' =>
      c ← mmu_read (src + i);
      if c =? 0 then lift_out (dest.[i <- 0])
      else dest ← lift_out (dest.[i <- c]); strncpy_out dest src (i + 1) n'
  end.

Definition TMP_FLAGS : Z := Z.lor (Z.lor PAGING_IS_WRITEABLE PAGING_IS_PRESENT) PAGING_ACCESS_FROM_ALL.

(** The status and the buffer [phys]. *)
Definition copy_string_from_task (task virtual : Z) (phys : list Z) (max : Z) : TM (Z * list Z) :=
  if max >=? PAGING_PAGE_SIZE then mret (- EINVARG, phys)
  else
    tmp ← alloc_bytes max;
    if tmp =? 0 then mret (- ENOMEM, phys)
    else
      t ← get_task task;
      task_directory ← on_paging (paging_4gb_chunk_get_directory (page_directory t));
      old_entry ← on_paging (paging_get task_directory tmp);
      _ ← on_paging (paging_map (page_directory t) tmp tmp TMP_FLAGS);
      _ ← on_paging (paging_switch (page_directory t));
      _ ← user_strncpy tmp virtual 0 (Z.to_nat (max - 1));
      _ ← kernel_page;
      res ← on_paging (paging_set task_directory tmp old_entry);
      if res <? 0 then _ ← free_bytes tmp; mret (- EIO, phys)
      else
        phys ← strncpy_out phys tmp 0 (Z.to_nat (max - 1));
        _ ← free_bytes tmp; mret (res, phys).

(** [memcpy(tmp, kernel_buf, size)] and [memcpy(user_virtual, tmp, size)]. *)
Fixpoint memcpy_in (dest : Z) (src : list Z) (i : Z) (n : nat) : TM unit :=
  match n with
  | O => mret tt
  | S n' => b ← lift_out (src.[i]); _ ← mmu_write (dest + i) b; memcpy_in dest src (i + 1) n'
  end.
Fixpoint memcpy_user (dest src i : Z) (n : nat) : TM unit :=
  match n with
  | O => mret tt
  | S n' => b ← mmu_read (src + i); _ ← mmu_write (u32 (dest + i)) b; memcpy_user dest src (i + 1) n'
  end.

Definition copy_to_task (task user_virtual : Z) (kernel_buf : list Z) (size : Z) : TM Z :=
  if size >=? PAGING_PAGE_SIZE then mret (- EINVARG)
  else
    tmp ← alloc_bytes size;
    if tmp =? 0 then mret (- ENOMEM)
    else
      _ ← memcpy_in tmp kernel_buf 0 (Z.to_nat size);
      t ← get_task task;
      task_directory ← on_paging (paging_4gb_chunk_get_directory (page_directory t));
      old_entry ← on_paging (paging_get task_directory tmp);
      _ ← on_paging (paging_map (page_directory t) tmp tmp TMP_FLAGS);
      _ ← on_paging (paging_switch (page_directory t));
      _ ← memcpy_user user_virtual tmp 0 (Z.to_nat size);
      _ ← kernel_page;
      res ← on_paging (paging_set task_directory tmp old_entry);
      _ ← free_bytes tmp;
      mret (if res <? 0 then - EIO else res).

(** [sp_ptr[index]], a little-endian word. *)
Definition mmu_read32 (va : Z) : TM Z :=
  b0 ← mmu_read va; b1 ← mmu_read (u32 (va + 1)); b2 ← mmu_read (u32 (va + 2)); b3 ← mmu_read (u32 (va + 3));
  mret (of_le [b0; b1; b2; b3]).

Definition task_get_stack_item (task index : Z) : TM Z :=
  t ← get_task task;
  let sp_ptr := Registers.esp (task_registers t) in
  _ ← task_page_task task;
  result ← mmu_read32 (u32 (sp_ptr + 4 * index));
  _ ← kernel_page;
  mret result.
End code.

(** ** Stored bytes *)
Lemma store_bytes_out bs : forall r p a, a < p \/ p + Z.of_nat (length bs) <= a -> store_bytes r p bs !! a = r !! a.
Proof.
  induction bs as [|b bs IH]; intros r p a Ha; [done|]. cbn [store_bytes length] in *. rewrite IH by lia.
  apply lookup_insert_ne. lia.
Qed.

Lemma store_bytes_in bs : forall r p i b, bs !! i = Some b -> store_bytes r p bs !! (p + Z.of_nat i) = Some b.
Proof.
  induction bs as [|c bs IH]; intros r p i b Hi; [done|]. cbn [store_bytes]. destruct i as [|i].
  - injection Hi as ->. rewrite store_bytes_out by lia. replace (p + Z.of_nat 0) with p by lia. apply lookup_insert_eq.
  - replace (p + Z.of_nat (S i)) with (p + 1 + Z.of_nat i) by lia. by apply IH.
Qed.

Lemma store_bytes_some bs r p a : is_Some (r !! a) -> is_Some (store_bytes r p bs !! a).
Proof.
  revert r p. induction bs as [|b bs IH]; intros r p Ha; [done|]. cbn [store_bytes]. apply IH.
  destruct (decide (p = a)) as [->|]; [rewrite lookup_insert_eq; eauto|by rewrite lookup_insert_ne].
Qed.

(** ** Accesses *)
Section rules.
Context {H : Type} {A : Allocator H}.
Implicit Types s : H * sched.

Lemma wp_mmu_read s va pa b (Q : Z -> H * sched -> Prop) :
  mmu (snd s) va = Some pa -> ram (snd s) !! pa = Some b -> Q b s -> wp (mmu_read va) Q s.
Proof. intros Hm Hr HQ. unfold mmu_read. apply wp_bind, wp_gets_sched, wp_bind, wp_gets_sched. by rewrite Hm, Hr. Qed.

Lemma wp_mmu_write s va pa b (Q : unit -> H * sched -> Prop) :
  mmu (snd s) va = Some pa -> is_Some (ram (snd s) !! pa) ->
  Q tt (fst s, set_ram (snd s) (<[pa := b]> (ram (snd s)))) -> wp (mmu_write va b) Q s.
Proof.
  intros Hm [c Hr] HQ. unfold mmu_write. apply wp_bind, wp_gets_sched, wp_bind, wp_gets_sched. by rewrite Hm, Hr.
Qed.

(** [buffer s p n]: the [n] bytes from [p] on exist and are mapped to themselves. *)
Definition buffer (s : sched) (p : Z) (n : nat) : Prop :=
  forall k, (k < n)%nat -> mmu s (p + Z.of_nat k) = Some (p + Z.of_nat k) /\ is_Some (ram s !! (p + Z.of_nat k)).

Lemma buffer_store (s : sched) p n q bs : buffer s p n -> buffer (set_ram s (store_bytes (ram s) q bs)) p n.
Proof. intros B k Hk. destruct (B k Hk) as [H1 H2]. split; [exact H1|]. by apply store_bytes_some. Qed.

Lemma buffer_tail (s : sched) p n : buffer s p (S n) -> buffer s (p + 1) n.
Proof. intros B k Hk. replace (p + 1 + Z.of_nat k) with (p + Z.of_nat (S k)) by lia. apply B. lia. Qed.

(** [source s p bs lo n]: reading from [p] on gives [bs], from bytes outside
    the [n] bytes at [lo]. *)
Definition source (s : sched) (p : Z) (bs : list Z) (lo : Z) (n : nat) : Prop :=
  forall k b, bs !! k = Some b -> exists pa, mmu s (u32 (p + Z.of_nat k)) = Some pa /\ ram s !! pa = Some b /\
    (pa < lo \/ lo + Z.of_nat n <= pa).

Lemma source_store (s : sched) p bs lo n q ws :
  source s p bs lo n -> lo <= q -> q + Z.of_nat (length ws) <= lo + Z.of_nat n ->
  source (set_ram s (store_bytes (ram s) q ws)) p bs lo n.
Proof.
  intros S1 H1 H2 k b Hb. destruct (S1 k b Hb) as (pa & M1 & R1 & D1). exists pa. split; [exact M1|]. split; [|done].
  cbn. rewrite store_bytes_out; [done|lia].
Qed.

Lemma source_tail (s : sched) p b bs lo n : source s p (b :: bs) lo n -> source s (p + 1) bs lo n.
Proof.
  intros S1 k c Hc. replace (p + 1 + Z.of_nat k) with (p + Z.of_nat (S k)) by lia. by apply S1.
Qed.

(** The copy of a string through the MMU: at most [n] bytes and a NUL. *)
Lemma user_strncpy_spec n : forall s dest src i str lo len (Q : unit -> H * sched -> Prop),
  Forall (fun c => c <> 0) str -> source (snd s) (src + i) (take n (str ++ [0])) lo len ->
  buffer (snd s) (dest + i) (S (Nat.min n (length str))) -> lo <= dest + i ->
  dest + i + Z.of_nat (S (Nat.min n (length str))) <= lo + Z.of_nat len ->
  Q tt (fst s, set_ram (snd s) (store_bytes (ram (snd s)) (dest + i) (take n str ++ [0]))) ->
  wp (user_strncpy dest src i n) Q s.
Proof.
  induction n as [|n IH]; intros s dest src i str lo len Q Hz Hs Hb Hlo Hle HQ; cbn [user_strncpy].
  - destruct (Hb 0%nat) as [M1 R1]; [lia|]. replace (dest + i + Z.of_nat 0) with (dest + i) in * by lia.
    eapply wp_mmu_write; [exact M1|exact R1|exact HQ].
  - destruct (Hb 0%nat) as [M1 R1]; [lia|]. replace (dest + i + Z.of_nat 0) with (dest + i) in * by lia.
    destruct str as [|c str].
    + destruct (Hs 0%nat 0) as (pa & M2 & R2 & _); [done|]. replace (src + i + Z.of_nat 0) with (src + i) in * by lia.
      apply wp_bind. eapply wp_mmu_read; [exact M2|exact R2|]. cbn [Z.eqb]. eapply wp_mmu_write; [exact M1|exact R1|exact HQ].
    + cbn [app take length Nat.min] in *. destruct (Hs 0%nat c) as (pa & M2 & R2 & _); [done|].
      replace (src + i + Z.of_nat 0) with (src + i) in * by lia. apply Forall_cons in Hz as [Hc Hz].
      apply wp_bind. eapply wp_mmu_read; [exact M2|exact R2|]. destruct (Z.eqb_spec c 0); [done|].
      apply wp_bind. eapply wp_mmu_write; [exact M1|exact R1|].
      apply (IH _ dest src (i + 1) str lo len); [done| | |lia|lia|].
      * replace (src + (i + 1)) with (src + i + 1) by lia. apply source_tail in Hs.
        apply (source_store _ _ _ _ _ (dest + i) [c] Hs); cbn; lia.
      * replace (dest + (i + 1)) with (dest + i + 1) by lia. apply buffer_tail in Hb.
        exact (buffer_store _ _ _ (dest + i) [c] Hb).
      * cbn [fst snd set_ram ram]. replace (dest + (i + 1)) with (dest + i + 1) by lia. exact HQ.
Qed.

(** Into a kernel buffer. *)
Lemma strncpy_out_spec n : forall s dest src i str (Q : list Z -> H * sched -> Prop),
  Forall (fun c => c <> 0) str -> (length str <= n)%nat ->
  (forall k b, take n (str ++ [0]) !! k = Some b -> mmu (snd s) (src + Z.of_nat (i + k)) = Some (src + Z.of_nat (i + k)) /\
     ram (snd s) !! (src + Z.of_nat (i + k)) = Some b) ->
  (i + length str < length dest)%nat ->
  Q (splice dest i (str ++ [0])) s -> wp (strncpy_out dest src (Z.of_nat i) n) Q s.
Proof.
  induction n as [|n IH]; intros s dest src i str Q Hz Hn Hs Hd HQ; cbn [strncpy_out].
  - destruct str; [|simpl in Hn; lia]. eapply wp_lift; [apply aset_ok; simpl in Hd; lia|]. rewrite Nat2Z.id.
    rewrite insert_take_drop by (simpl in Hd; lia). unfold splice in HQ. cbn [app length] in HQ. by rewrite Nat.add_1_r in HQ.
  - destruct str as [|c str].
    + destruct (Hs 0%nat 0) as [M1 R1]; [done|]. rewrite Nat.add_0_r in *. apply wp_bind. eapply wp_mmu_read; [exact M1|exact R1|]. cbn [Z.eqb].
      eapply wp_lift; [apply aset_ok; simpl in Hd; lia|]. rewrite Nat2Z.id, insert_take_drop by (simpl in Hd; lia).
      unfold splice in HQ. cbn [app length] in HQ. by rewrite Nat.add_1_r in HQ.
    + cbn [app take length] in *. destruct (Hs 0%nat c) as [M1 R1]; [done|]. rewrite Nat.add_0_r in *.
      apply Forall_cons in Hz as [Hc Hz]. apply wp_bind. eapply wp_mmu_read; [exact M1|exact R1|]. destruct (Z.eqb_spec c 0); [done|].
      apply wp_bind. eapply wp_lift; [apply aset_ok; lia|]. rewrite Nat2Z.id. replace (Z.of_nat i + 1) with (Z.of_nat (S i)) by lia.
      apply (IH _ _ src (S i) str); [done|lia| |rewrite length_insert; lia|].
      * intros k b Hk. replace (S i + k)%nat with (i + S k)%nat by lia. by apply Hs.
      * rewrite Heap.splice_insert_cons by lia. exact HQ.
Qed.
End rules.

(** ** The address space of a task, seen by a program *)

(** The physical address of [va] under the page-table contents [pt]. *)
Definition phys_of (pt : Z -> Z) (va : Z) : Z := Z.land (pt (va / 4096)) 0xfffff000 + va mod 4096.

(** Addresses below the heap or inside a live allocation: a new allocation
    never overlaps them. *)
Definition live (m : gmap Z Z) (pa : Z) : Prop :=
  pa < 0x01000000 \/ exists p n, m !! p = Some n /\ p <= pa < p + n * 4096.

(** A program of the address space [pt] sees the bytes [bs] at [va]; programs
    and their stacks are mapped below the kernel heap. *)
Definition user_bytes (x : sched) (m : gmap Z Z) (pt : Z -> Z) (va : Z) (bs : list Z) : Prop :=
  forall k b, bs !! k = Some b -> 0 <= va + Z.of_nat k < 0x01000000 /\ Z.odd (pt ((va + Z.of_nat k) / 4096)) = true /\
    ram x !! phys_of pt (va + Z.of_nat k) = Some b /\ live m (phys_of pt (va + Z.of_nat k)).

Section spec.
Context {H : Type} {A : Allocator H} {AS : AllocatorSpec H}.
Implicit Types s : H * sched.

(** The task [a] has the address space [pt]; the kernel runs in its own one,
    which maps every address to itself and shares no table with the task. *)
Record in_kernel (s : H * sched) (m : gmap Z Z) (a : Z) (t : task) (dir : Z) (ts : list Z) (pt : Z -> Z)
    (kdir : Z) (kts : list Z) : Prop := {
  ik_task : task_store (snd s) !! a = Some t;
  ik_chunk : chunks (pages (snd s)) !! page_directory t = Some dir;
  ik_space : space (tables (pages (snd s))) dir ts pt;
  ik_kernel : chunks (pages (snd s)) !! kernel_chunk (snd s) = Some kdir;
  ik_kspace : space (tables (pages (snd s))) kdir kts (identity 7);
  ik_apart : forall x, x ∈ ts -> x ∉ kdir :: kts;
  ik_cr3 : cr3 (pages (snd s)) = kdir;
  ik_owns : owns (fst s) m }.

(** What a copy leaves as it was: everything but the bytes of memory. *)
Record undisturbed (x x' : sched) (ts : list Z) : Prop := {
  un_store : task_store x' = task_store x;
  un_list : task_head x' = task_head x /\ task_tail x' = task_tail x /\ current_task x' = current_task x;
  un_process : current_process x' = current_process x;
  un_kernel : kernel_chunk x' = kernel_chunk x;
  un_chunks : chunks (pages x') = chunks (pages x);
  un_tables : forall y, y ∉ ts -> tables (pages x') !! y = tables (pages x) !! y;
  un_ports : port_log x' = port_log x }.

Lemma in_kernel_undisturbed s s' m a t dir ts pt kdir kts :
  in_kernel s m a t dir ts pt kdir kts -> undisturbed (snd s) (snd s') ts -> space (tables (pages (snd s'))) dir ts pt ->
  cr3 (pages (snd s')) = kdir -> owns (fst s') m -> in_kernel s' m a t dir ts pt kdir kts.
Proof.
  intros [K1 K2 K3 K4 K5 K6 K7 K8] [U1 U2 U3 U4 U5 U6 U7] Hs Hc Ho. split; try done; [by rewrite U1|by rewrite U5|by rewrite U4, U5|].
  apply (space_frame _ _ _ _ _ _ K5). intros y Hy. apply U6. intros Hin. by apply (K6 y).
Qed.

(** The kernel's own accesses. *)
Lemma kernel_mmu s m a t dir ts pt kdir kts va :
  in_kernel s m a t dir ts pt kdir kts -> 0 <= va < 2 ^ 32 -> mmu (snd s) va = Some va.
Proof. intros K Hv. unfold mmu. rewrite (ik_cr3 _ _ _ _ _ _ _ _ _ K). apply (identity_translate _ _ kts 7); [apply K|lia|done|done]. Qed.

(** A heap page is never the page of a program. *)
Definition window (x : sched) (t' : gmap Z (list Z)) (dir : Z) : sched := set_paging x (mk_paging t' (chunks (pages x)) dir dir).

Lemma window_mmu x t' dir ts pt p k :
  space t' dir ts (set_page pt (p / 4096) (Z.lor p TMP_FLAGS)) -> 0x01000000 <= p < 2 ^ 31 -> p mod 4096 = 0 -> (k < 4096)%nat ->
  mmu (window x t' dir) (p + Z.of_nat k) = Some (p + Z.of_nat k).
Proof.
  intros Hs Hp Ha Hk. unfold mmu, window. cbn [pages set_paging tables cr3]. change TMP_FLAGS with 7 in *.
  assert (E : set_page pt (p / 4096) (Z.lor p 7) ((p + Z.of_nat k) / 4096) = Z.lor p 7).
  { unfold set_page. destruct (Z.eqb_spec ((p + Z.of_nat k) / 4096) (p / 4096)); [done|zdm]. }
  rewrite (translate_spec _ _ _ _ _ Hs); [|lia|by rewrite E, entry_odd]. rewrite E, entry_addr by (done || lia). f_equal. zdm.
Qed.

Lemma window_user x t' dir ts pt p va :
  space t' dir ts (set_page pt (p / 4096) (Z.lor p TMP_FLAGS)) -> 0x01000000 <= p -> 0 <= va < 0x01000000 ->
  Z.odd (pt (va / 4096)) = true -> mmu (window x t' dir) va = Some (phys_of pt va).
Proof.
  intros Hs Hp Hv Ho. unfold mmu, window. cbn [pages set_paging tables cr3].
  assert (E : set_page pt (p / 4096) (Z.lor p TMP_FLAGS) (va / 4096) = pt (va / 4096)).
  { unfold set_page. destruct (Z.eqb_spec (va / 4096) (p / 4096)); [zdm|done]. }
  rewrite (translate_spec _ _ _ _ _ Hs); [|lia|by rewrite E]. by rewrite E.
Qed.

Lemma live_outside h m m' p pa :
  owns h m' -> m' = <[p := 1]> m -> m !! p = None -> live m pa -> pa < p \/ p + 4096 <= pa.
Proof.
  intros Ho -> Hp L. destruct (owns_page _ _ p 1 Ho) as (Hlo & _); [apply lookup_insert_eq|].
  destruct L as [?|(q & n & Hq & Hr)]; [lia|]. assert (p <> q) by (intros ->; congruence).
  destruct (owns_disjoint _ _ p q 1 n Ho); [apply lookup_insert_eq|by rewrite lookup_insert_ne|done|lia|lia].
Qed.

(** Mapping the heap page [p] into the task, working there and going back. *)
Lemma window_spec {T} s m a t dir ts pt kdir kts p (body : M (H * sched) unit) (rest : Z -> M (H * sched) T) Q :
  in_kernel s m a t dir ts pt kdir kts -> 0x01000000 <= p < 2 ^ 31 -> p mod 4096 = 0 ->
  (forall t', space t' dir ts (set_page pt (p / 4096) (Z.lor p TMP_FLAGS)) ->
     wp body (fun _ s2 => exists r, s2 = (fst s, set_ram (window (snd s) t' dir) r) /\
       forall t2, let x := set_segment (set_paging (set_ram (snd s) r) (mk_paging t2 (chunks (pages (snd s))) kdir kdir)) KERNEL_DATA_SELECTOR in
         space t2 dir ts pt -> (forall y, y ∉ ts -> t2 !! y = tables (pages (snd s)) !! y) -> wp (rest 0) Q (fst s, x))
       (fst s, window (snd s) t' dir)) ->
  wp (task_directory ← on_paging (paging_4gb_chunk_get_directory (page_directory t));
      old_entry ← on_paging (paging_get task_directory p);
      _ ← on_paging (paging_map (page_directory t) p p TMP_FLAGS);
      _ ← on_paging (paging_switch (page_directory t));
      _ ← body;
      _ ← kernel_page;
      res ← on_paging (paging_set task_directory p old_entry);
      rest res) Q s.
Proof.
  intros [K1 K2 K3 K4 K5 K6 K7 K8] Hp Ha Hb.
  apply wp_bind, wp_on_paging. eapply wp_directory; [exact K2|]. cbn [fst snd].
  apply wp_bind, wp_on_paging. eapply paging_get_spec; [exact K3|cbn; lia|done|]. cbn [fst snd].
  apply wp_bind, wp_on_paging. eapply paging_map_spec; [exact K2|exact K3|lia|done|lia|done|vm_compute; split; [discriminate|reflexivity]|].
  intros t1 S1 F1. cbn [fst snd with_tables set_paging pages]. apply wp_bind. eapply wp_switch_chunk; [exact K2|].
  apply wp_bind. eapply wp_mono; [exact (Hb t1 S1)|]. intros u s2 (r & -> & Hrest).
  unfold kernel_page. apply wp_bind, wp_bind, wp_modify_sched, wp_bind, wp_gets_sched.
  eapply wp_switch_chunk; [exact K4|]. cbn [fst snd set_segment set_paging set_ram pages window tables chunks].
  apply wp_bind, wp_on_paging. eapply (paging_set_spec _ dir ts); [exact S1|cbn; lia|done|].
  intros t2 S2 F2. cbn [fst snd with_tables set_tables]. apply (Hrest t2).
  - apply (space_ext _ _ _ _ _ _ S2). intros k. unfold set_page. by destruct (Z.eqb_spec k (p / 4096)) as [->|].
  - intros y Hy. rewrite F2 by done. by apply F1.
Qed.

(** A buffer of one page at most, zeroed. *)
Lemma alloc_bytes_spec s m size (Q : Z -> H * sched -> Prop) :
  owns (fst s) m -> 0 < size <= 4096 -> (1 <= free_blocks (fst s))%nat ->
  (forall p h', 0x01000000 <= p -> p + 4096 < 2 ^ 31 -> p mod 4096 = 0 -> m !! p = None -> owns h' (<[p := 1]> m) ->
     free_blocks (fst s) = S (free_blocks h') ->
     Q p (h', set_ram (snd s) (store_bytes (ram (snd s)) p (replicate (Z.to_nat size) 0)))) ->
  wp (alloc_bytes size) Q s.
Proof.
  intros Ho Hs Hf HQ. unfold alloc_bytes. apply wp_bind, wp_on_alloc. eapply wp_mono; [by apply (alloc_spec (fst s) m)|].
  intros p h' (Hp & Hm & Ho' & Hf' & _). destruct (owns_page _ _ p 1 Ho') as (H1 & H2 & _ & H3); [apply lookup_insert_eq|].
  destruct (Z.eqb_spec p 0); [lia|]. apply wp_bind, wp_modify_sched, wp_ret. apply HQ; try done; lia.
Qed.

(** A buffer of any size. *)
Lemma alloc_bytes_room s m size N (Q : Z -> H * sched -> Prop) :
  owns (fst s) m -> 0 < size < 2 ^ 31 -> room (fst s) N -> (Z.to_nat (Heap.blocks_of size) <= N)%nat ->
  (forall p h', 0x01000000 <= p -> p + Heap.blocks_of size * 4096 < 2 ^ 31 -> p mod 4096 = 0 -> m !! p = None ->
     owns h' (<[p := Heap.blocks_of size]> m) -> room h' (N - Z.to_nat (Heap.blocks_of size)) ->
     Q p (h', set_ram (snd s) (store_bytes (ram (snd s)) p (replicate (Z.to_nat size) 0)))) ->
  wp (alloc_bytes size) Q s.
Proof.
  intros Ho Hs Hr Hn HQ. unfold alloc_bytes. apply wp_bind, wp_on_alloc. eapply wp_mono; [by apply (alloc_room (fst s) m size N)|].
  intros p h' (Hp & Hm & Ho' & Hr' & _). destruct (owns_page _ _ p (Heap.blocks_of size) Ho') as (H1 & H2 & _ & H3); [apply lookup_insert_eq|].
  apply Z.eqb_neq in Hp. rewrite Hp. apply wp_bind, wp_modify_sched, wp_ret. by apply HQ.
Qed.

Lemma alloc_bytes_none s m size (Q : Z -> H * sched -> Prop) :
  owns (fst s) m -> 0 < size <= 4096 -> free_blocks (fst s) = 0%nat -> Q 0 s -> wp (alloc_bytes size) Q s.
Proof.
  intros Ho Hs Hf HQ. unfold alloc_bytes. apply wp_bind, wp_on_alloc.
  destruct (kzalloc_small (fst s) m size Ho Hs) as (p & h' & E & [(-> & -> & _)|(_ & _ & _ & ?)]); [|lia].
  unfold wp at 1. unfold alloc. rewrite E. cbn [Z.eqb]. apply wp_ret. by destruct s.
Qed.

(** [undisturbed], and the bytes a program or the kernel can rely on as well. *)
Definition memory_kept (x x' : sched) (m : gmap Z Z) : Prop := forall pa, live m pa -> ram x' !! pa = ram x !! pa.

Lemma user_source x m pt va bs p t' dir ts r h :
  user_bytes x m pt va bs -> owns h (<[p := 1]> m) -> m !! p = None ->
  space t' dir ts (set_page pt (p / 4096) (Z.lor p TMP_FLAGS)) -> (length r <= 4096)%nat ->
  source (window (set_ram x (store_bytes (ram x) p r)) t' dir) va bs p 4096.
Proof.
  intros U Ho Hp Hs Hl k b Hb. destruct (U k b Hb) as (U1 & U2 & U3 & U4). exists (phys_of pt (va + Z.of_nat k)).
  destruct (owns_page _ _ p 1 Ho) as (Hlo & _ & _ & Hhi); [apply lookup_insert_eq|].
  rewrite u32_id by lia. destruct (live_outside h m _ p _ Ho eq_refl Hp U4) as [Hd|Hd];
    (split; [by eapply window_user|split; [|lia]]; cbn; rewrite store_bytes_out by lia; done).
Qed.

Lemma window_buffer x t' dir ts pt p n :
  space t' dir ts (set_page pt (p / 4096) (Z.lor p TMP_FLAGS)) -> 0x01000000 <= p < 2 ^ 31 -> p mod 4096 = 0 -> (n <= 4096)%nat ->
  buffer (window (set_ram x (store_bytes (ram x) p (replicate n 0))) t' dir) p n.
Proof.
  intros Hs Hp Ha Hn k Hk. split; [eapply window_mmu; [exact Hs|done|done|lia]|].
  exists 0. cbn. apply store_bytes_in. by apply lookup_replicate_2.
Qed.

Lemma kept_outside (x : sched) (r : gmap Z Z) m p (h : H) :
  owns h (<[p := 1]> m) -> m !! p = None -> (forall pa, pa < p \/ p + 4096 <= pa -> r !! pa = ram x !! pa) ->
  forall pa, live m pa -> r !! pa = ram x !! pa.
Proof. intros Ho Hp Hr pa L. apply Hr. by eapply (live_outside h m). Qed.

(** Copying in. *)
Lemma copy_string_spec s m a t dir ts pt kdir kts virtual str phys max (Q : Z * list Z -> H * sched -> Prop) :
  in_kernel s m a t dir ts pt kdir kts -> (1 <= free_blocks (fst s))%nat -> 0 < max < 4096 ->
  Forall (fun c => c <> 0) str -> user_bytes (snd s) m pt virtual (take (Z.to_nat (max - 1)) (str ++ [0])) ->
  (length (take (Z.to_nat (max - 1)) str) < length phys)%nat ->
  (forall s', in_kernel s' m a t dir ts pt kdir kts -> undisturbed (snd s) (snd s') ts -> memory_kept (snd s) (snd s') m ->
     free_blocks (fst s') = free_blocks (fst s) -> Q (0, splice phys 0 (take (Z.to_nat (max - 1)) str ++ [0])) s') ->
  wp (copy_string_from_task a virtual phys max) Q s.
Proof.
  intros K Hf Hm Hz U Hl HQ. unfold copy_string_from_task. destruct (Z.geb_spec max PAGING_PAGE_SIZE); [unfold PAGING_PAGE_SIZE in *; lia|].
  apply wp_bind. eapply alloc_bytes_spec; [apply K|lia|done|]. intros p h1 Hp1 Hp2 Ha Hn Ho1 Hf1. destruct (Z.eqb_spec p 0) as [|_]; [lia|].
  set (n := Z.to_nat (max - 1)) in *. set (r1 := store_bytes (ram (snd s)) p (replicate (Z.to_nat max) 0)).
  apply wp_bind. eapply wp_get_task; [apply K|].
  set (m1 := <[p := 1]> m). assert (K1 : in_kernel (h1, set_ram (snd s) r1) m1 a t dir ts pt kdir kts) by (by destruct K; split).
  eapply (window_spec (h1, set_ram (snd s) r1) m1 a t dir ts pt kdir kts); [exact K1|lia|done|]. intros t' S'. cbn [fst snd].
  apply (user_strncpy_spec n _ p virtual 0 str p 4096).
  { done. }
  { rewrite Z.add_0_r. apply (user_source (snd s) m pt virtual _ p t' dir ts (replicate (Z.to_nat max) 0) h1); try done.
    rewrite length_replicate. lia. }
  { rewrite Z.add_0_r. intros k Hk. cbn [snd]. eapply (window_buffer (snd s)); [exact S'|lia|done|lia|lia]. }
  { lia. }
  { lia. }
  cbn [fst snd]. rewrite Z.add_0_r. set (w := take n str ++ [0]).
  assert (Hlw : (length w <= Z.to_nat max)%nat) by (unfold w; rewrite length_app, length_take; cbn; lia).
  eexists. split; [done|]. intros t2 S2 F2. cbn [Z.ltb Z.compare]. match goal with |- wp _ _ (_, ?y) => set (x := y) end.
  set (s2 := (h1, x)). assert (K2 : in_kernel s2 m1 a t dir ts pt kdir kts).
  { apply (in_kernel_undisturbed _ _ _ _ _ _ _ _ _ _ K1); [by split|exact S2|done|exact Ho1]. }
  apply wp_bind. change 0 with (Z.of_nat 0) at 1. apply (strncpy_out_spec n s2 phys p 0 (take n str)).
  { by apply Forall_take. }
  { rewrite length_take. lia. }
  { intros k b Hb. cbn [Nat.add]. apply lookup_lt_Some in Hb as Hk. rewrite length_take in Hk. split.
    - apply (kernel_mmu s2 _ _ _ _ _ _ _ _ _ K2). lia.
    - cbn. apply store_bytes_in. rewrite lookup_take_lt in Hb by lia. exact Hb. }
  { lia. }
  apply wp_bind. unfold free_bytes. apply wp_on_alloc. cbn [fst snd s2].
  eapply wp_mono; [apply (dealloc_spec h1 m1 p 1 Ho1); apply lookup_insert_eq|]. intros u h3 (Ho3 & Hf3 & _).
  unfold m1 in Ho3. rewrite delete_insert_id in Ho3 by done. change (Z.to_nat 1) with 1%nat in Hf3. apply wp_ret.
  assert (U2 : undisturbed (snd s) x ts) by (by split). apply HQ.
  - apply (in_kernel_undisturbed _ _ _ _ _ _ _ _ _ _ K); done.
  - done.
  - intros pa L. apply (kept_outside (snd s) (ram x) m p h1 Ho1 Hn); [|done]. clear pa L. intros pa Hpa. cbn. rewrite store_bytes_out by lia. unfold r1.
    rewrite store_bytes_out; [done|]. rewrite length_replicate. lia.
  - cbn [fst]. lia.
Qed.

(** Memory after a program's bytes at [va] were overwritten with [bs]. *)
Fixpoint user_store (r : gmap Z Z) (pt : Z -> Z) (va : Z) (bs : list Z) : gmap Z Z :=
  match bs with [] => r | b :: bs' => user_store (<[phys_of pt va := b]> r) pt (va + 1) bs' end.

Lemma user_store_ext bs : forall r1 r2 pt va pa, r1 !! pa = r2 !! pa -> user_store r1 pt va bs !! pa = user_store r2 pt va bs !! pa.
Proof.
  induction bs as [|b bs IH]; intros r1 r2 pt va pa E; [done|]. cbn [user_store]. apply IH.
  destruct (decide (phys_of pt va = pa)) as [->|]; [by rewrite !lookup_insert_eq|by rewrite !lookup_insert_ne].
Qed.

Lemma user_store_out bs : forall r pt va pa,
  (forall k, (k < length bs)%nat -> phys_of pt (va + Z.of_nat k) <> pa) -> user_store r pt va bs !! pa = r !! pa.
Proof.
  induction bs as [|b bs IH]; intros r pt va pa Hk; [done|]. cbn [user_store]. rewrite IH.
  - apply lookup_insert_ne. replace va with (va + Z.of_nat 0) by lia. apply Hk. cbn. lia.
  - intros k Hlt. replace (va + 1 + Z.of_nat k) with (va + Z.of_nat (S k)) by lia. apply Hk. cbn. lia.
Qed.

Lemma user_store_in bs : forall r pt va i b,
  (forall j k, (j < length bs)%nat -> (k < length bs)%nat -> phys_of pt (va + Z.of_nat j) = phys_of pt (va + Z.of_nat k) -> j = k) ->
  bs !! i = Some b -> user_store r pt va bs !! phys_of pt (va + Z.of_nat i) = Some b.
Proof.
  induction bs as [|c bs IH]; intros r pt va i b Hinj Hi; [done|]. cbn [user_store]. destruct i as [|i].
  - injection Hi as ->. rewrite user_store_out.
    + replace (va + Z.of_nat 0) with va by lia. apply lookup_insert_eq.
    + intros k Hk E. specialize (Hinj (S k) 0%nat). cbn [length] in Hinj.
      replace (va + 1 + Z.of_nat k) with (va + Z.of_nat (S k)) in E by lia. specialize (Hinj ltac:(lia) ltac:(lia) E). lia.
  - replace (va + Z.of_nat (S i)) with (va + 1 + Z.of_nat i) by lia. apply IH; [|done]. intros j k Hj Hk E.
    replace (va + 1 + Z.of_nat j) with (va + Z.of_nat (S j)) in E by lia.
    replace (va + 1 + Z.of_nat k) with (va + Z.of_nat (S k)) in E by lia.
    specialize (Hinj (S j) (S k)). cbn [length] in Hinj. specialize (Hinj ltac:(lia) ltac:(lia) E). lia.
Qed.

Lemma user_store_some bs : forall r pt va pa, is_Some (r !! pa) -> is_Some (user_store r pt va bs !! pa).
Proof.
  induction bs as [|b bs IH]; intros r pt va pa Hs; [done|]. cbn [user_store]. apply IH.
  destruct (decide (phys_of pt va = pa)) as [->|]; [rewrite lookup_insert_eq; eauto|by rewrite lookup_insert_ne].
Qed.

Lemma memcpy_in_spec n : forall s dest src i (Q : unit -> H * sched -> Prop),
  buffer (snd s) (dest + Z.of_nat i) n -> (i + n <= length src)%nat ->
  Q tt (fst s, set_ram (snd s) (store_bytes (ram (snd s)) (dest + Z.of_nat i) (take n (drop i src)))) ->
  wp (memcpy_in dest src (Z.of_nat i) n) Q s.
Proof.
  induction n as [|n IH]; intros s dest src i Q Hb Hl HQ; cbn [memcpy_in].
  - apply wp_ret. rewrite take_0 in HQ. by destruct s as [h []].
  - destruct (lookup_lt_is_Some_2 src i) as [b Hi]; [lia|]. rewrite (drop_S _ b i Hi) in HQ. cbn [take store_bytes] in HQ.
    destruct (Hb 0%nat) as [M1 R1]; [lia|]. replace (dest + Z.of_nat i + Z.of_nat 0) with (dest + Z.of_nat i) in * by lia.
    apply wp_bind. eapply wp_lift; [apply aget_ok; [lia|by rewrite Nat2Z.id]|].
    apply wp_bind. eapply wp_mmu_write; [exact M1|exact R1|]. replace (Z.of_nat i + 1) with (Z.of_nat (S i)) by lia.
    apply IH; [|lia|].
    + replace (dest + Z.of_nat (S i)) with (dest + Z.of_nat i + 1) by lia. apply buffer_tail in Hb.
      exact (buffer_store _ _ _ (dest + Z.of_nat i) [b] Hb).
    + cbn [fst snd set_ram ram]. replace (dest + Z.of_nat (S i)) with (dest + Z.of_nat i + 1) by lia. exact HQ.
Qed.

(** What the MMU shows of the source, [w] bytes at [p] that are not written
    to, and of the destination. *)
Definition copying (x : sched) (pt : Z -> Z) (p w : Z) (dest src : Z) (data : list Z) : Prop :=
  forall k b, data !! k = Some b ->
    mmu x (src + Z.of_nat k) = Some (src + Z.of_nat k) /\ ram x !! (src + Z.of_nat k) = Some b /\
    p <= src + Z.of_nat k < p + w /\
    mmu x (u32 (dest + Z.of_nat k)) = Some (phys_of pt (dest + Z.of_nat k)) /\
    is_Some (ram x !! phys_of pt (dest + Z.of_nat k)) /\
    (phys_of pt (dest + Z.of_nat k) < p \/ p + w <= phys_of pt (dest + Z.of_nat k)).

Lemma memcpy_user_spec data : forall s pt p w dest src i (Q : unit -> H * sched -> Prop),
  copying (snd s) pt p w (dest + i) (src + i) data ->
  Q tt (fst s, set_ram (snd s) (user_store (ram (snd s)) pt (dest + i) data)) ->
  wp (memcpy_user dest src i (length data)) Q s.
Proof.
  induction data as [|b data IH]; intros s pt p w dest src i Q Hc HQ; cbn [memcpy_user length].
  - apply wp_ret. by destruct s as [h []].
  - destruct (Hc 0%nat b) as (M1 & R1 & B1 & M2 & R2 & D2); [done|].
    replace (src + i + Z.of_nat 0) with (src + i) in * by lia. replace (dest + i + Z.of_nat 0) with (dest + i) in * by lia.
    apply wp_bind. eapply wp_mmu_read; [exact M1|exact R1|]. apply wp_bind. eapply wp_mmu_write; [exact M2|exact R2|].
    apply (IH _ pt p w dest src (i + 1)).
    + intros k c Hk. destruct (Hc (S k) c Hk) as (N1 & N2 & N3 & N4 & N5 & N6).
      replace (src + (i + 1) + Z.of_nat k) with (src + i + Z.of_nat (S k)) by lia.
      replace (dest + (i + 1) + Z.of_nat k) with (dest + i + Z.of_nat (S k)) by lia.
      split; [exact N1|]. split; [cbn; rewrite lookup_insert_ne by lia; exact N2|]. split; [exact N3|]. split; [exact N4|].
      split; [|exact N6]. cbn. exact (store_bytes_some [b] _ (phys_of pt (dest + i)) _ N5).
    + cbn [fst snd set_ram ram]. replace (dest + (i + 1)) with (dest + i + 1) by lia. exact HQ.
Qed.

(** Where a program may be written to: present pages below the heap, backed
    by live memory. *)
Definition user_room (x : sched) (m : gmap Z Z) (pt : Z -> Z) (va : Z) (n : nat) : Prop :=
  exists bs, length bs = n /\ user_bytes x m pt va bs.

Lemma copy_to_spec s m a t dir ts pt kdir kts va buf size (Q : Z -> H * sched -> Prop) :
  in_kernel s m a t dir ts pt kdir kts -> (1 <= free_blocks (fst s))%nat -> 0 < size < 4096 ->
  (Z.to_nat size <= length buf)%nat -> user_room (snd s) m pt va (Z.to_nat size) ->
  (forall s', in_kernel s' m a t dir ts pt kdir kts -> undisturbed (snd s) (snd s') ts ->
     (forall pa, live m pa -> ram (snd s') !! pa = user_store (ram (snd s)) pt va (take (Z.to_nat size) buf) !! pa) ->
     free_blocks (fst s') = free_blocks (fst s) -> Q 0 s') ->
  wp (copy_to_task a va buf size) Q s.
Proof.
  intros K Hf Hm Hl (old & Hol & U) HQ. unfold copy_to_task. destruct (Z.geb_spec size PAGING_PAGE_SIZE); [unfold PAGING_PAGE_SIZE in *; lia|].
  apply wp_bind. eapply alloc_bytes_spec; [apply K|lia|done|]. intros p h1 Hp1 Hp2 Ha Hn Ho1 Hf1. destruct (Z.eqb_spec p 0) as [|_]; [lia|].
  set (n := Z.to_nat size) in *. set (data := take n buf). assert (Hld : length data = n) by (unfold data; rewrite length_take; lia).
  set (r1 := store_bytes (ram (snd s)) p (replicate n 0)). set (m1 := <[p := 1]> m).
  assert (K1 : in_kernel (h1, set_ram (snd s) r1) m1 a t dir ts pt kdir kts) by (by destruct K; split).
  apply wp_bind. change 0 with (Z.of_nat 0) at 1. apply (memcpy_in_spec n _ p buf 0).
  { intros k Hk. replace (p + Z.of_nat 0 + Z.of_nat k) with (p + Z.of_nat k) by lia. split; [apply (kernel_mmu _ _ _ _ _ _ _ _ _ _ K1); lia|].
    exists 0. cbn. apply store_bytes_in. by apply lookup_replicate_2. }
  { lia. }
  rewrite drop_0. fold data. replace (p + Z.of_nat 0) with p by lia. cbn [fst snd set_ram ram].
  set (r2 := store_bytes r1 p data). change (set_ram (set_ram (snd s) r1) r2) with (set_ram (snd s) r2).
  assert (R2 : forall pa, pa < p \/ p + 4096 <= pa -> r2 !! pa = ram (snd s) !! pa).
  { intros pa Hpa. unfold r2, r1. rewrite store_bytes_out by lia. rewrite store_bytes_out; [done|]. rewrite length_replicate. lia. }
  assert (K2 : in_kernel (h1, set_ram (snd s) r2) m1 a t dir ts pt kdir kts) by (by destruct K; split).
  apply wp_bind. eapply wp_get_task; [apply K|].
  eapply (window_spec (h1, set_ram (snd s) r2) m1 a t dir ts pt kdir kts); [exact K2|lia|done|]. intros t' S'. cbn [fst snd].
  rewrite <- Hld. apply (memcpy_user_spec data _ pt p 4096 va p 0).
  { rewrite !Z.add_0_r. intros k b Hb. apply lookup_lt_Some in Hb as Hk. rewrite Hld in Hk.
    destruct (lookup_lt_is_Some_2 old k) as [c Hc]; [lia|]. destruct (U k c Hc) as (U1 & U2 & U3 & U4).
    destruct (live_outside h1 m _ p _ Ho1 eq_refl Hn U4) as [Hd|Hd];
    (split; [eapply window_mmu; [exact S'|lia|done|lia]|]; split; [cbn; by apply store_bytes_in|]; split; [lia|];
    rewrite u32_id by lia; split; [by eapply window_user|]; split; [|lia]; exists c; cbn; rewrite R2 by lia; done). }
  cbn [fst snd]. rewrite Z.add_0_r. eexists. split; [done|]. intros t2 S2 F2. cbn [Z.ltb Z.compare].
  match goal with |- wp _ _ (_, ?y) => set (x := y) end.
  apply wp_bind. unfold free_bytes. apply wp_on_alloc. cbn [fst snd].
  eapply wp_mono; [apply (dealloc_spec h1 m1 p 1 Ho1); apply lookup_insert_eq|]. intros u h3 (Ho3 & Hf3 & _).
  unfold m1 in Ho3. rewrite delete_insert_id in Ho3 by done. change (Z.to_nat 1) with 1%nat in Hf3. apply wp_ret.
  assert (U2 : undisturbed (snd s) x ts) by (by split). apply HQ.
  - apply (in_kernel_undisturbed _ _ _ _ _ _ _ _ _ _ K); done.
  - done.
  - intros pa L. cbn. apply user_store_ext, R2. by eapply (live_outside h1 m).
  - cbn [fst]. lia.
Qed.

(** The program sees what was stored. *)
Lemma user_stored x x' m pt va data n :
  user_room x m pt va n -> (length data <= n)%nat ->
  (forall j k, (j < n)%nat -> (k < n)%nat -> phys_of pt (va + Z.of_nat j) = phys_of pt (va + Z.of_nat k) -> j = k) ->
  (forall pa, live m pa -> ram x' !! pa = user_store (ram x) pt va data !! pa) -> user_bytes x' m pt va data.
Proof.
  intros (old & Hol & U) Hl Hinj M' k b Hb. apply lookup_lt_Some in Hb as Hk. destruct (lookup_lt_is_Some_2 old k) as [c Hc]; [lia|].
  destruct (U k c Hc) as (U1 & U2 & _ & U4). split; [done|]. split; [done|]. split; [|done]. rewrite M' by done.
  apply user_store_in; [|done]. intros j1 j2 H1 H2. apply Hinj; lia.
Qed.

Lemma user_room_prefix x m pt va n n' : user_room x m pt va n -> (n' <= n)%nat -> user_room x m pt va n'.
Proof.
  intros (bs & Hl & U) Hn. exists (take n' bs). split; [rewrite length_take; lia|]. intros k b Hb. apply U.
  apply lookup_take_Some in Hb as [? _]. done.
Qed.

(** Reading a word of the stack. *)
Lemma stack_item_spec s m a t dir ts pt kdir kts index w (Q : Z -> H * sched -> Prop) :
  in_kernel s m a t dir ts pt kdir kts -> 0 <= w < 2 ^ 32 -> 0 <= index < 1024 ->
  user_bytes (snd s) m pt (Registers.esp (task_registers t) + 4 * index) (le32 w) ->
  (forall s', in_kernel s' m a t dir ts pt kdir kts -> undisturbed (snd s) (snd s') [] -> ram (snd s') = ram (snd s) ->
     fst s' = fst s -> Q w s') ->
  wp (task_get_stack_item a index) Q s.
Proof.
  intros K Hw Hi U HQ. pose proof K as [K1 K2 K3 K4 K5 K6 K7 K8]. unfold task_get_stack_item.
  apply wp_bind. eapply wp_get_task; [exact K1|]. apply wp_bind. unfold task_page_task.
  apply wp_bind, wp_modify_sched, wp_bind. eapply wp_get_task; [exact K1|]. apply wp_bind. eapply wp_switch_chunk; [exact K2|]. apply wp_ret.
  set (va := Registers.esp (task_registers t) + 4 * index) in *. set (s1 := (_, _)).
  assert (Hr : forall k b, le32 w !! k = Some b -> mmu (snd s1) (u32 (va + Z.of_nat k)) = Some (phys_of pt (va + Z.of_nat k)) /\
    ram (snd s1) !! phys_of pt (va + Z.of_nat k) = Some b).
  { intros k b Hb. destruct (U k b Hb) as (U1 & U2 & U3 & _). split; [|exact U3]. rewrite u32_id by lia. unfold mmu.
    cbn [s1 snd set_paging set_segment pages tables cr3]. apply (translate_spec _ _ _ _ _ K3); [lia|done]. }
  assert (Hv : 0 <= va < 0x01000000) by (destruct (U 0%nat (w mod 256)) as [V _]; [done|lia]).
  assert (E0 : u32 va = va) by (apply u32_id; lia).
  assert (Hone : forall k b R, le32 w !! k = Some b -> R b s1 -> wp (mmu_read (u32 (va + Z.of_nat k))) R s1).
  { intros k b R Hb HR. destruct (Hr k b Hb) as [M1 R1]. by eapply wp_mmu_read. }
  apply wp_bind. unfold mmu_read32. rewrite E0. apply wp_bind. rewrite <- E0 at 1. replace va with (va + Z.of_nat 0) at 1 by lia.
  eapply (Hone 0%nat); [done|]. apply wp_bind. eapply (Hone 1%nat); [done|]. apply wp_bind. eapply (Hone 2%nat); [done|].
  apply wp_bind. eapply (Hone 3%nat); [done|]. apply wp_ret.
  change (wp (kernel_page ≫= fun _ => mret (of_le (le32 w))) Q s1). rewrite of_le32 by done.
  apply wp_bind. unfold kernel_page. apply wp_bind, wp_modify_sched, wp_bind, wp_gets_sched. eapply wp_switch_chunk; [exact K4|].
  apply wp_ret. cbn [s1 fst snd set_segment set_paging pages tables chunks kernel_chunk].
  apply HQ; [by split|by split|done|done].
Qed.
End spec.

(** ** Theorems *)
Section theorems.
Context {H : Type} {A : Allocator H} {AS : AllocatorSpec H}.
Implicit Types s : H * sched.

(** C13: [copy_string_from_task].  A string of a program arrives in the kernel
    buffer, cut off after [max - 1] bytes and terminated; the task's address
    space, the kernel's, the heap and all live memory are as before.  A
    [max] of a page or more is refused with [-EINVARG], and a full heap
    reported as [-ENOMEM], both without any change. *)
Theorem copy_string_from_task_correct s m a t dir ts pt kdir kts virtual str phys max :
  in_kernel s m a t dir ts pt kdir kts -> 0 < max ->
  Forall (fun c => c <> 0) str -> user_bytes (snd s) m pt virtual (take (Z.to_nat (max - 1)) (str ++ [0])) ->
  (length (take (Z.to_nat (max - 1)) str) < length phys)%nat ->
  wp (copy_string_from_task a virtual phys max) (fun r s' =>
    if max >=? 4096 then r = (- EINVARG, phys) /\ s' = s
    else if (free_blocks (fst s) =? 0)%nat then r = (- ENOMEM, phys) /\ s' = s
    else r = (0, splice phys 0 (take (Z.to_nat (max - 1)) str ++ [0])) /\ in_kernel s' m a t dir ts pt kdir kts /\
      undisturbed (snd s) (snd s') ts /\ memory_kept (snd s) (snd s') m /\ free_blocks (fst s') = free_blocks (fst s)) s.
Proof.
  intros K Hm Hz U Hl. destruct (Z.geb_spec max 4096) as [Hg|Hg].
  { unfold copy_string_from_task. destruct (Z.geb_spec max PAGING_PAGE_SIZE) as [|Hn]; [by apply wp_ret|unfold PAGING_PAGE_SIZE in Hn; lia]. }
  destruct (Nat.eqb_spec (free_blocks (fst s)) 0) as [Hf|Hf].
  - unfold copy_string_from_task. destruct (Z.geb_spec max PAGING_PAGE_SIZE); [unfold PAGING_PAGE_SIZE in *; lia|].
    apply wp_bind. eapply alloc_bytes_none; [apply K|lia|done|]. cbn [Z.eqb]. by apply wp_ret.
  - eapply copy_string_spec; [exact K|lia|lia|done|exact U|done|]. intros s' K' U' M' F'. done.
Qed.

(** C14: [copy_to_task].  When the bytes of the buffer go to distinct
    physical bytes, the program sees exactly the buffer at the address given
    afterwards; every other live byte, both address spaces and the heap are
    as before. *)
Theorem copy_to_task_correct s m a t dir ts pt kdir kts va buf size :
  in_kernel s m a t dir ts pt kdir kts -> (1 <= free_blocks (fst s))%nat -> 0 < size < 4096 ->
  length buf = Z.to_nat size -> user_room (snd s) m pt va (Z.to_nat size) ->
  (forall j k, (j < length buf)%nat -> (k < length buf)%nat -> phys_of pt (va + Z.of_nat j) = phys_of pt (va + Z.of_nat k) -> j = k) ->
  wp (copy_to_task a va buf size) (fun res s' => res = 0 /\ user_bytes (snd s') m pt va buf /\
    in_kernel s' m a t dir ts pt kdir kts /\ undisturbed (snd s) (snd s') ts /\
    (forall pa, live m pa -> (forall k, (k < length buf)%nat -> phys_of pt (va + Z.of_nat k) <> pa) ->
       ram (snd s') !! pa = ram (snd s) !! pa) /\
    free_blocks (fst s') = free_blocks (fst s)) s.
Proof.
  intros K Hf Hs Hl Hu Hinj. eapply copy_to_spec; [exact K|done|done|lia|exact Hu|]. intros s' K' U' M' F'.
  rewrite take_ge in M' by lia. split; [done|]. split; [apply (user_stored (snd s) _ _ _ _ _ (length buf)); [by rewrite Hl|done|done|done]|].
  split; [done|]. split; [done|]. split; [|done]. intros pa L Hk. rewrite M' by done. by apply user_store_out.
Qed.
End theorems.

(** ** Witnesses *)
Module ExampleUser.
Import ExamplePaging ExampleTasks.

(** The kernel's address space and one task; the word [Hi] lies in user memory. *)
Definition user_ram : gmap Z Z := store_bytes ∅ 0x400000 [72; 105; 0].
Definition before_boot : sched := mk_sched no_paging user_ram ∅ 0 0 0 0 0 KERNEL_DATA_SELECTOR [].
Definition boot : M (KHeap.kheap * sched) Z :=
  k ← on_paging (paging_new_4gb 7);
  _ ← modify_sched (fun s => set_kernel_chunk s k);
  _ ← on_paging (paging_switch k);
  task_new 1.

Lemma boot_spec (Q : Z -> KHeap.kheap * sched -> Prop) :
  (forall s m a t dir ts kdir kts, in_kernel s m a t dir ts (identity 5) kdir kts -> ram (snd s) = user_ram ->
     (1 <= free_blocks (fst s))%nat -> Q a s) -> wp boot Q (big_heap, before_boot).
Proof.
  intros HQ. unfold boot. apply wp_bind, wp_on_paging.
  eapply (paging_new_4gb_spec (big_heap, no_paging) ∅ 4000); [exact big_owns|exact big_room|lia|lia|done|].
  intros k kdir kts [h1 p1] (S1 & S2 & S3 & S4 & S5 & S6 & _). cbn [fst snd] in *.
  apply wp_bind, wp_modify_sched, wp_bind. eapply wp_switch_chunk; [cbn; rewrite S2; apply lookup_insert_eq|].
  cbn [fst snd set_kernel_chunk set_paging pages ram task_store task_head task_tail current_task current_process data_segment port_log].
  set (m1 := with_blocks (k :: kdir :: kts) ∅) in *.
  eapply (task_new_spec _ m1 2974 []); [|by intros b Hb%not_elem_of_nil|exact S4|exact S5|lia|].
  { split; try done; [apply NoDup_nil_2|apply not_elem_of_nil]. }
  intros a c dir ts h2 pg x Ha0 Hal T. destruct T as [T1 T2 T3 T4 T5 T6 T7 [T8 T9]]. cbn [fst snd] in *.
  destruct T1 as [T0 T1].
  assert (Hdis : forall y, y ∈ task_blocks a c dir ts -> y ∉ k :: kdir :: kts).
  { intros y Hy Hin. specialize (T1 y Hy). by apply with_blocks_None in T1 as [F _]. }
  apply (HQ _ (with_blocks (task_blocks a c dir ts) m1) a (new_task 1 c []) dir ts kdir kts).
  - split; cbn.
    + apply lookup_insert_eq.
    + rewrite T5. apply lookup_insert_eq.
    + exact T6.
    + rewrite T5, lookup_insert_ne; [cbn; rewrite S2; apply lookup_insert_eq|]. intros ->. apply (Hdis k); [right; by left|by left].
    + apply (space_frame _ _ _ _ _ _ S1). intros y Hy. rewrite T7; [done|]. intros Hin. apply (Hdis y); [by right; right|by right].
    + intros y Hy Hin. apply (Hdis y); [by right; right; right|by right].
    + exact T8.
    + exact T2.
  - done.
  - cbn [fst]. assert (free_blocks big_heap = 4000%nat) by (vm_compute; reflexivity). lia.
Qed.

Lemma identity_user va k : 0 <= va + k < 2 ^ 32 -> phys_of (identity 5) (va + k) = va + k.
Proof. intros Hv. unfold phys_of, identity. rewrite frames_addr by (done || zdm). zdm. Qed.

Lemma user_hi x m : ram x = user_ram -> user_bytes x m (identity 5) 0x400000 [72; 105; 0].
Proof.
  intros Hr k b Hb. apply lookup_lt_Some in Hb as Hk. cbn [length] in Hk. rewrite identity_user by lia.
  split; [lia|]. split; [by unfold identity; rewrite frames_odd|]. split; [rewrite Hr; by apply store_bytes_in|]. left. lia.
Qed.
End ExampleUser.
Import ExampleUser ExamplePaging.

Lemma copy_string_from_task_correct_witness :
  wp (a ← boot; copy_string_from_task a 0x400000 (replicate 8 7) 8) (fun r _ => r = (0, [72; 105; 0; 7; 7; 7; 7; 7])) (big_heap, before_boot).
Proof.
  apply wp_bind, boot_spec. intros s m a t dir ts kdir kts K Hr Hf.
  eapply wp_mono; [apply (copy_string_from_task_correct s m a t dir ts (identity 5) kdir kts 0x400000 [72; 105] (replicate 8 7) 8)|].
  - exact K.
  - lia.
  - repeat (constructor; [discriminate|]). constructor.
  - exact (user_hi _ m Hr).
  - simpl. lia.
  - intros r s' Hs. change (8 >=? 4096) with false in Hs. destruct (Nat.eqb_spec (free_blocks (fst s)) 0); [lia|].
    destruct Hs as [-> _]. reflexivity.
Defined.

Lemma copy_to_task_correct_witness :
  wp (a ← boot; copy_to_task a 0x400000 [79; 75] 2) (fun res s' => res = 0 /\ ram (snd s') !! 0x400000 = Some 79 /\
    ram (snd s') !! 0x400002 = Some 0) (big_heap, before_boot).
Proof.
  apply wp_bind, boot_spec. intros s m a t dir ts kdir kts K Hr Hf. pose proof (user_hi (snd s) m Hr) as U.
  eapply wp_mono; [apply (copy_to_task_correct s m a t dir ts (identity 5) kdir kts 0x400000 [79; 75] 2)|].
  - exact K.
  - exact Hf.
  - lia.
  - reflexivity.
  - exists [72; 105]. split; [reflexivity|]. intros k b Hb. apply U.
    change [72; 105; 0] with ([72; 105] ++ [0]). apply lookup_app_l_Some. exact Hb.
  - intros j k Hj Hk. simpl in Hj, Hk. rewrite !identity_user by lia. lia.
  - intros res s' (-> & U' & _ & _ & R' & _). split; [reflexivity|]. split.
    + destruct (U' 0%nat 79 eq_refl) as (_ & _ & H3 & _). rewrite identity_user in H3 by lia. exact H3.
    + rewrite R'; [rewrite Hr; reflexivity|left; lia|]. intros k Hk. simpl in Hk. rewrite identity_user by lia. lia.
Defined.
