(* ===== verification/Kernel.v ===== *)
(** * The whole kernel: the state that system calls and interrupts work on

    The parts verified in the other files are put together here: the file
    layer with its disk and the heap, the tasks with their address spaces,
    the screen, the processes of src/task/process.c and the keyboard list.
    Each part's code runs on its own piece of the state through [focus]. *)
From Stdlib Require Import ZArith Lia.
From stdpp Require Import base list gmap numbers option list_numbers.
From S2P Require Import Prelude CLib Heap Disk PathParser FatTypes FatTable Fat16 Vfs Paging Task Terminal.
Local Open Scope Z_scope.
Local Open Scope kernel_scope.

(** [struct keyboard_buffer] and [struct process] of process.h; the array
    [allocations] is never used. *)
Record keyboard_buffer := mk_kb { kb_buffer : list Z; kb_tail : Z; kb_head : Z }.
Module Process.
Record process := mk {
  id : Z; filename : list Z; task : Z; ptr : Z; stack : Z; size : Z; keyboard : keyboard_buffer }.
Definition sizeof : Z := 5256.
Definition zero : process :=
  mk 0 (replicate (Z.to_nat PEACHOS_MAX_PATH) 0) 0 0 0 0 (mk_kb (replicate (Z.to_nat PEACHOS_KEYBOARD_BUFFER_SIZE) 0) 0 0).
Definition set_keyboard (p : process) (k : keyboard_buffer) : process :=
  mk (id p) (filename p) (task p) (ptr p) (stack p) (size p) k.
Definition set_program (p : process) (a n : Z) : process := mk (id p) (filename p) (task p) a (stack p) n (keyboard p).
Definition set_stack (p : process) (a : Z) : process := mk (id p) (filename p) (task p) (ptr p) a (size p) (keyboard p).
Definition set_name (p : process) (f : list Z) (i : Z) : process := mk i f (task p) (ptr p) (stack p) (size p) (keyboard p).
Definition set_task (p : process) (t : Z) : process := mk (id p) (filename p) t (ptr p) (stack p) (size p) (keyboard p).
End Process.
Abbreviation process := Process.process.

(** [struct keyboard]: whether [init] is set, and the link. *)
Record keyboard := mk_keyboard { kbd_init : bool; kbd_next : Z }.

(** An interrupt that wakes the processor while it waits. *)
Inductive irq := IrqKey (scancode : Z) | IrqTimer | IrqOther.

(** The handlers of isr80h, as the function pointers of the dispatch table. *)
Inductive command :=
| isr80h_sum | isr80h_print | isr80h_open | isr80h_read | isr80h_fork | isr80h_exit | isr80h_readline
| isr80h_write | isr80h_delete | isr80h_close | isr80h_readdir | isr80h_wait.
#[global] Instance command_eq_dec : EqDecision command.
Proof. solve_decision. Defined.

(** [irqs] are the interrupts to come, one batch per [hlt]. *)
Record kernel (P D H : Type) := mk_kernel {
  files : vfs P D H; tasks : sched; screen : terminal;
  proc_store : gmap Z process; processes : list Z;
  kbd_store : gmap Z keyboard; kbd_list_head : Z; kbd_list_last : Z;
  isr80h_commands : list (option command); irqs : list (list irq) }.
Arguments mk_kernel {P D H} _ _ _ _ _ _ _ _ _ _.
Arguments files {P D H} _.
Arguments tasks {P D H} _.
Arguments screen {P D H} _.
Arguments proc_store {P D H} _.
Arguments processes {P D H} _.
Arguments kbd_store {P D H} _.
Arguments kbd_list_head {P D H} _.
Arguments kbd_list_last {P D H} _.
Arguments isr80h_commands {P D H} _.
Arguments irqs {P D H} _.

Section state.
Context {P D H : Type}.
Implicit Types k : kernel P D H.

Definition set_files k (f : vfs P D H) : kernel P D H :=
  mk_kernel f (tasks k) (screen k) (proc_store k) (processes k) (kbd_store k) (kbd_list_head k) (kbd_list_last k) (isr80h_commands k) (irqs k).
Definition set_tasks k (s : sched) : kernel P D H :=
  mk_kernel (files k) s (screen k) (proc_store k) (processes k) (kbd_store k) (kbd_list_head k) (kbd_list_last k) (isr80h_commands k) (irqs k).
Definition set_screen k (t : terminal) : kernel P D H :=
  mk_kernel (files k) (tasks k) t (proc_store k) (processes k) (kbd_store k) (kbd_list_head k) (kbd_list_last k) (isr80h_commands k) (irqs k).
Definition set_procs k (s : gmap Z process) (l : list Z) : kernel P D H :=
  mk_kernel (files k) (tasks k) (screen k) s l (kbd_store k) (kbd_list_head k) (kbd_list_last k) (isr80h_commands k) (irqs k).
Definition set_keyboards k (s : gmap Z keyboard) (h l : Z) : kernel P D H :=
  mk_kernel (files k) (tasks k) (screen k) (proc_store k) (processes k) s h l (isr80h_commands k) (irqs k).
Definition set_commands k (l : list (option command)) : kernel P D H :=
  mk_kernel (files k) (tasks k) (screen k) (proc_store k) (processes k) (kbd_store k) (kbd_list_head k) (kbd_list_last k) l (irqs k).
Definition set_irqs k (l : list (list irq)) : kernel P D H :=
  mk_kernel (files k) (tasks k) (screen k) (proc_store k) (processes k) (kbd_store k) (kbd_list_head k) (kbd_list_last k) (isr80h_commands k) l.

(** The heap is that of the file layer. *)
Definition kernel_heap k : H := heap (driver (files k)).
Definition set_kernel_heap k (h : H) : kernel P D H := set_files k (set_driver (files k) (set_heap (driver (files k)) h)).

Abbreviation KM := (M (kernel P D H)).
Definition on_files {T} (m : M (vfs P D H) T) : KM T := focus files set_files m.
Definition on_screen {T} (m : M terminal T) : KM T := focus screen set_screen m.
Definition on_tasks {T} (m : M (H * sched) T) : KM T :=
  focus (fun k => (kernel_heap k, tasks k)) (fun k s => set_tasks (set_kernel_heap k (fst s)) (snd s)) m.

(** Following a [struct process*], and storing through it. *)
Definition get_process (p : Z) : KM process :=
  s ← gets proc_store; match s !! p with Some x => mret x | None => ub end.
Definition put_process (p : Z) (x : process) : KM unit :=
  s ← gets proc_store;
  match s !! p with Some _ => modify (fun k => set_procs k (<[p := x]> s) (processes k)) | None => ub end.

Lemma wp_on_files {T} (m : M (vfs P D H) T) (Q : T -> kernel P D H -> Prop) k :
  wp m (fun a f => Q a (set_files k f)) (files k) -> wp (on_files m) Q k.
Proof. intros Hw. unfold on_files. apply wp_focus. exact Hw. Qed.
Lemma wp_on_screen {T} (m : M terminal T) (Q : T -> kernel P D H -> Prop) k :
  wp m (fun a t => Q a (set_screen k t)) (screen k) -> wp (on_screen m) Q k.
Proof. intros Hw. unfold on_screen. apply wp_focus. exact Hw. Qed.
Lemma wp_on_tasks {T} (m : M (H * sched) T) (Q : T -> kernel P D H -> Prop) k :
  wp m (fun a s => Q a (set_tasks (set_kernel_heap k (fst s)) (snd s))) (kernel_heap k, tasks k) -> wp (on_tasks m) Q k.
Proof. intros Hw. unfold on_tasks. apply wp_focus. exact Hw. Qed.
Lemma wp_get_process k p x (Q : process -> kernel P D H -> Prop) :
  proc_store k !! p = Some x -> Q x k -> wp (get_process p) Q k.
Proof. intros Hp HQ. unfold get_process. apply wp_bind, wp_gets. by rewrite Hp. Qed.
Lemma wp_put_process k p x y (Q : unit -> kernel P D H -> Prop) :
  proc_store k !! p = Some x -> Q tt (set_procs k (<[p := y]> (proc_store k)) (processes k)) -> wp (put_process p y) Q k.
Proof. intros Hp HQ. unfold put_process. apply wp_bind, wp_gets. by rewrite Hp. Qed.

(** A state with other tasks and another heap; reading changes nothing. *)
Definition with_tasks k (h : H) (s : sched) : kernel P D H := set_tasks (set_kernel_heap k h) s.

Lemma with_tasks_same k : with_tasks k (kernel_heap k) (tasks k) = k.
Proof. by destruct k as [[? ? []]]. Qed.
Lemma with_tasks_twice k h s h' s' : with_tasks (with_tasks k h s) h' s' = with_tasks k h' s'.
Proof. by destruct k as [[? ? []]]. Qed.
Lemma with_tasks_heap k h s : kernel_heap (with_tasks k h s) = h.
Proof. by destruct k as [[? ? []]]. Qed.
Lemma with_tasks_tasks k h s : tasks (with_tasks k h s) = s.
Proof. done. Qed.

Lemma wp_task_of k a t (Q : task -> kernel P D H -> Prop) :
  task_store (tasks k) !! a = Some t -> Q t k -> wp (on_tasks (get_task a)) Q k.
Proof. intros Ht HQ. apply wp_on_tasks. eapply wp_get_task; [exact Ht|]. by change (Q t (with_tasks k (kernel_heap k) (tasks k))); rewrite with_tasks_same. Qed.

(** States that differ from [k] in the heap, the tasks and the processes. *)
Definition kst k (h : H) (s : sched) (ps : gmap Z process) (pl : list Z) : kernel P D H := set_procs (with_tasks k h s) ps pl.

Lemma kst_start k : kst k (kernel_heap k) (tasks k) (proc_store k) (processes k) = k.
Proof. by destruct k as [[? ? []]]. Qed.

Lemma with_tasks_kst k h s : with_tasks k h s = kst k h s (proc_store k) (processes k).
Proof. by destruct k as [[? ? []]]. Qed.
Lemma kst_heap k h s ps pl : kernel_heap (kst k h s ps pl) = h.
Proof. by destruct k as [[? ? []]]. Qed.

Lemma wp_kst_tasks {T} (m : M (H * sched) T) (Q : T -> kernel P D H -> Prop) k h s ps pl :
  wp m (fun a x => Q a (kst k (fst x) (snd x) ps pl)) (h, s) -> wp (on_tasks m) Q (kst k h s ps pl).
Proof.
  intros Hw. apply wp_on_tasks. destruct k as [[? ? []]]. exact Hw.
Qed.

Lemma wp_kst_task_of k h s ps pl a t (Q : task -> kernel P D H -> Prop) :
  task_store s !! a = Some t -> Q t (kst k h s ps pl) -> wp (on_tasks (get_task a)) Q (kst k h s ps pl).
Proof. intros Ht HQ. apply wp_kst_tasks. by eapply wp_get_task. Qed.

Lemma wp_kst_get k h s ps pl p x (Q : process -> kernel P D H -> Prop) :
  ps !! p = Some x -> Q x (kst k h s ps pl) -> wp (get_process p) Q (kst k h s ps pl).
Proof. intros Hp HQ. by eapply wp_get_process. Qed.

Lemma wp_kst_put k h s ps pl p x y (Q : unit -> kernel P D H -> Prop) :
  ps !! p = Some x -> Q tt (kst k h s (<[p := y]> ps) pl) -> wp (put_process p y) Q (kst k h s ps pl).
Proof. intros Hp HQ. by eapply wp_put_process. Qed.

(** States that differ from [k] in the file layer as well. *)
Definition kfs k (f : vfs P D H) (s : sched) (ps : gmap Z process) (pl : list Z) : kernel P D H :=
  set_procs (set_tasks (set_files k f) s) ps pl.
Definition vfs_heap (f : vfs P D H) (h : H) : vfs P D H := set_driver f (set_heap (driver f) h).

Lemma kst_kfs k h s ps pl : kst k h s ps pl = kfs k (vfs_heap (files k) h) s ps pl.
Proof. by destruct k as [[? ? []]]. Qed.
Lemma kfs_start k : kfs k (files k) (tasks k) (proc_store k) (processes k) = k.
Proof. by destruct k. Qed.
Lemma vfs_heap_same f : vfs_heap f (heap (driver f)) = f.
Proof. by destruct f as [? ? []]. Qed.

Lemma wp_kfs_files {T} (m : M (vfs P D H) T) (Q : T -> kernel P D H -> Prop) k f s ps pl :
  wp m (fun a f' => Q a (kfs k f' s ps pl)) f -> wp (on_files m) Q (kfs k f s ps pl).
Proof. intros Hw. apply wp_on_files. exact Hw. Qed.
Lemma wp_kfs_tasks {T} (m : M (H * sched) T) (Q : T -> kernel P D H -> Prop) k f s ps pl :
  wp m (fun a x => Q a (kfs k (vfs_heap f (fst x)) (snd x) ps pl)) (heap (driver f), s) -> wp (on_tasks m) Q (kfs k f s ps pl).
Proof. intros Hw. apply wp_on_tasks. exact Hw. Qed.
Lemma wp_kfs_task_of k f s ps pl a t (Q : task -> kernel P D H -> Prop) :
  task_store s !! a = Some t -> Q t (kfs k f s ps pl) -> wp (on_tasks (get_task a)) Q (kfs k f s ps pl).
Proof. intros Ht HQ. apply wp_kfs_tasks. eapply wp_get_task; [exact Ht|]. cbn [fst snd]. by rewrite vfs_heap_same. Qed.
Lemma wp_kfs_get k f s ps pl p x (Q : process -> kernel P D H -> Prop) :
  ps !! p = Some x -> Q x (kfs k f s ps pl) -> wp (get_process p) Q (kfs k f s ps pl).
Proof. intros Hp HQ. by eapply wp_get_process. Qed.
Lemma wp_kfs_put k f s ps pl p x y (Q : unit -> kernel P D H -> Prop) :
  ps !! p = Some x -> Q tt (kfs k f s (<[p := y]> ps) pl) -> wp (put_process p y) Q (kfs k f s ps pl).
Proof. intros Hp HQ. by eapply wp_put_process. Qed.
End state.
