(* ===== verification/Keyboard.v ===== *)
(** * The keyboard: src/keyboard/keyboard.c, src/keyboard/classic.c and the
    keyboard interrupt of src/idt/idt.c

    Keys are translated to characters and pushed into a ring buffer of the
    current process; the reading process pops them.  [kb_queue] relates the
    ring to an abstract queue: below 1024 pending characters the ring is a
    FIFO queue, whatever number of characters went through it. *)
From Stdlib Require Import ZArith Lia.
From stdpp Require Import base list gmap numbers option list_numbers.
From S2P Require Import Prelude CLib Heap Vfs Paging Task Kernel.
Local Open Scope Z_scope.
Local Open Scope kernel_scope.

Definition keyboard_scan_set_one : list Z :=
  [0; 27; 49; 50; 51; 52; 53; 54; 55; 56; 57; 48; 45; 61;
   8; 9; 81; 87; 69; 82; 84; 89; 85; 73; 79; 80; 91; 93;
   13; 0; 65; 83; 68; 70; 71; 72; 74; 75; 76; 59; 39; 96;
   0; 92; 90; 88; 67; 86; 66; 78; 77; 44; 46; 47; 0; 42;
   0; 32; 0; 0; 0; 0; 0; 0; 0; 0; 0; 0; 0; 55;
   56; 57; 45; 52; 53; 54; 43; 49; 50; 51; 48; 46].

(** The comparison is [>]: the first index behind the table is read. *)
Definition classic_keyboard_scancode_to_char (scancode : Z) : out Z :=
  if scancode >? Z.of_nat (length keyboard_scan_set_one) then Ok 0 else keyboard_scan_set_one.[scancode].

(** [&classic_keyboard] *)
Definition classic_keyboard : Z := 1.
Definition classic_init : Z := classic_keyboard.

Section code.
Context {P D H : Type} {A : Allocator H}.
Abbreviation KM := (M (kernel P D H)).

Definition classic_keyboard_init : KM Z := _ ← on_tasks (outb 0x64 0xAE); mret 0.

Definition keyboard_insert (keyboard : Z) : KM Z :=
  s ← gets kbd_store;
  match s !! keyboard with
  | None => ub
  | Some x =>
      if negb (kbd_init x) then mret (- EINVARG)
      else
        last ← gets kbd_list_last;
        _ ← (if negb (last =? 0) then
               match s !! last with
               | None => ub
               | Some l => modify (fun k =>
                   set_keyboards k (<[last := mk_keyboard (kbd_init l) keyboard]> s) (kbd_list_head k) keyboard)
               end
             else modify (fun k => set_keyboards k s keyboard keyboard));
        classic_keyboard_init
  end.
Definition keyboard_init : KM unit := _ ← keyboard_insert classic_init; mret tt.

(** The remainder is unsigned: [sizeof] is a [size_t]. *)
Definition keyboard_get_tail_index (x : process) : Z := u32 (kb_tail (Process.keyboard x)) mod PEACHOS_KEYBOARD_BUFFER_SIZE.

Definition keyboard_backspace (p : Z) : KM unit :=
  x ← get_process p;
  let kb := Process.keyboard x in
  let x := Process.set_keyboard x (mk_kb (kb_buffer kb) (i32 (kb_tail kb - 1)) (kb_head kb)) in
  let real_index := keyboard_get_tail_index x in
  b ← lift_out ((kb_buffer kb).[real_index <- 0]);
  put_process p (Process.set_keyboard x (mk_kb b (kb_tail (Process.keyboard x)) (kb_head kb))).

Definition keyboard_push (c : Z) : KM unit :=
  p ← gets (fun k => current_process (tasks k));
  if p =? 0 then mret tt
  else
    x ← get_process p;
    let kb := Process.keyboard x in
    let real_index := keyboard_get_tail_index x in
    b ← lift_out ((kb_buffer kb).[real_index <- c]);
    put_process p (Process.set_keyboard x (mk_kb b (i32 (kb_tail kb + 1)) (kb_head kb))).

Definition keyboard_pop : KM Z :=
  t ← on_tasks task_current;
  if t =? 0 then mret 0
  else
    t ← on_tasks (get_task t);
    let p := Task.process t in
    x ← get_process p;
    let kb := Process.keyboard x in
    let real_index := u32 (kb_head kb) mod PEACHOS_KEYBOARD_BUFFER_SIZE in
    c ← lift_out ((kb_buffer kb).[real_index]);
    if c =? 0 then mret 0
    else
      b ← lift_out ((kb_buffer kb).[real_index <- 0]);
      _ ← put_process p (Process.set_keyboard x (mk_kb b (kb_tail kb) (i32 (kb_head kb + 1))));
      mret c.

Definition clasic_keyboard_handle_interrupt (scancode : Z) : KM unit :=
  if negb (Z.land scancode 0x80 =? 0) then mret tt
  else
    c ← lift_out (classic_keyboard_scancode_to_char scancode);
    let c := i8 c in
    if c =? 0 then mret tt
    else
      let c := if (65 <=? c) && (c <=? 90) then i8 (c + 32) else c in
      keyboard_push c.

(** [int21h_handler] and [no_interrupt_handler] of idt.c; [scancode] is what
    port 0x60 holds. *)
Definition int21h_handler (scancode : Z) : KM unit :=
  _ ← on_tasks (outb 0x20 0x20); clasic_keyboard_handle_interrupt scancode.
Definition no_interrupt_handler : KM unit := on_tasks (outb 0x20 0x20).
End code.

(** ** The ring as a queue *)

(** [q] is what is pending: the cells from [head] on hold [q], the others are
    free, and [tail - head] is its length, as 32-bit numbers. *)
Record kb_queue (kb : keyboard_buffer) (q : list Z) : Prop := {
  kq_size : length (kb_buffer kb) = 1024%nat;
  kq_room : (length q <= 1024)%nat;
  kq_tail : u32 (kb_tail kb) = u32 (kb_head kb + Z.of_nat (length q));
  kq_chars : Forall (fun c => c <> 0) q;
  kq_cells : forall i, (i < 1024)%nat ->
    kb_buffer kb !! Z.to_nat ((u32 (kb_head kb) + Z.of_nat i) mod 1024) = Some (default 0 (q !! i)) }.

Lemma ring_index h i : (u32 (h + i)) mod 1024 = (u32 h + i) mod 1024.
Proof. unfold u32. zdm. Qed.

Lemma ring_distinct h i j : (i < 1024)%nat -> (j < 1024)%nat ->
  Z.to_nat ((u32 h + Z.of_nat i) mod 1024) = Z.to_nat ((u32 h + Z.of_nat j) mod 1024) -> i = j.
Proof. intros Hi Hj E. apply Z2Nat.inj in E; zdm. Qed.

Lemma kb_push kb q c b :
  kb_queue kb q -> (length q < 1024)%nat -> c <> 0 ->
  b = <[Z.to_nat (u32 (kb_tail kb) mod 1024) := c]> (kb_buffer kb) ->
  kb_queue (mk_kb b (i32 (kb_tail kb + 1)) (kb_head kb)) (q ++ [c]).
Proof.
  intros [K1 K2 K3 K4 K5] Hq Hc ->. rewrite K3, ring_index. split; cbn [kb_buffer kb_tail kb_head].
  - by rewrite length_insert.
  - rewrite length_app. cbn. lia.
  - rewrite u32_i32, length_app. cbn [length]. unfold u32 in *. zdm.
  - apply Forall_app. split; [done|]. by repeat constructor.
  - intros i Hi. destruct (decide (i = length q)) as [->|Hne].
    + rewrite list_lookup_insert_eq by (rewrite K1; zdm). by rewrite lookup_app_r, Nat.sub_diag by lia.
    + rewrite list_lookup_insert_ne by (intros E; apply Hne; by apply (ring_distinct (kb_head kb))). rewrite K5 by done.
      destruct (decide (i < length q)%nat); [by rewrite lookup_app_l by lia|].
      rewrite !lookup_ge_None_2; [done|rewrite length_app; cbn; lia|lia].
Qed.

Lemma kb_pop kb c q b :
  kb_queue kb (c :: q) -> b = <[Z.to_nat (u32 (kb_head kb) mod 1024) := 0]> (kb_buffer kb) ->
  kb_queue (mk_kb b (kb_tail kb) (i32 (kb_head kb + 1))) q.
Proof.
  intros [K1 K2 K3 K4 K5] ->. apply Forall_cons in K4 as [Hc K4]. cbn [length] in *. split; cbn [kb_buffer kb_tail kb_head].
  - by rewrite length_insert.
  - lia.
  - rewrite K3. unfold u32, i32. zdm.
  - done.
  - intros i Hi. rewrite u32_i32. assert (E : (u32 (kb_head kb + 1) + Z.of_nat i) mod 1024 = (u32 (kb_head kb) + Z.of_nat (S i)) mod 1024)
      by (unfold u32; zdm). rewrite E. destruct (decide (S i = 1024)%nat) as [Ei|Ei].
    + replace ((u32 (kb_head kb) + Z.of_nat (S i)) mod 1024) with (u32 (kb_head kb) mod 1024) by (rewrite Ei; zdm).
      rewrite list_lookup_insert_eq by (rewrite K1; zdm). by rewrite lookup_ge_None_2 by lia.
    + rewrite list_lookup_insert_ne; [by apply K5; lia|]. replace (u32 (kb_head kb) mod 1024) with ((u32 (kb_head kb) + Z.of_nat 0) mod 1024) by (f_equal; lia).
      intros E0. apply ring_distinct in E0; lia.
Qed.

Lemma kb_front kb q : kb_queue kb q -> kb_buffer kb !! Z.to_nat (u32 (kb_head kb) mod 1024) = Some (default 0 (head q)).
Proof.
  intros [_ _ _ _ K5]. specialize (K5 0%nat ltac:(lia)). rewrite Z.add_0_r in K5. rewrite K5. by destruct q.
Qed.

(** ** The keyboard of a process *)
Section spec.
Context {P D H : Type} {A : Allocator H}.
Implicit Types k : kernel P D H.

(** The current process and the process of the current task are [p], and
    [q] is pending there. *)
Record keyed (k : kernel P D H) (p : Z) (x : process) (q : list Z) : Prop := {
  ke_process : current_process (tasks k) = p;
  ke_task : exists t, task_store (tasks k) !! current_task (tasks k) = Some t /\ Task.process t = p;
  ke_nonzero : p <> 0 /\ current_task (tasks k) <> 0;
  ke_object : proc_store k !! p = Some x;
  ke_queue : kb_queue (Process.keyboard x) q }.

(** Only the keyboard of [p] changes. *)
Definition typed k (p : Z) (x : process) (kb : keyboard_buffer) : kernel P D H :=
  set_procs k (<[p := Process.set_keyboard x kb]> (proc_store k)) (processes k).

Lemma keyed_typed k p x q kb q' :
  keyed k p x q -> kb_queue kb q' -> keyed (typed k p x kb) p (Process.set_keyboard x kb) q'.
Proof. intros [K1 K2 K3 K4 K5] Hq. split; try done. cbn. apply lookup_insert_eq. Qed.

Lemma typed_typed k p x kb kb' : typed (typed k p x kb) p (Process.set_keyboard x kb) kb' = typed k p x kb'.
Proof. unfold typed, set_procs. cbn. by rewrite insert_insert_eq. Qed.

Lemma typed_same k p x : proc_store k !! p = Some x -> typed k p x (Process.keyboard x) = k.
Proof. intros Hp. unfold typed. destruct k, x. unfold set_procs. cbn in *. by rewrite insert_id. Qed.

Lemma keyboard_push_spec k p x q c (Q : unit -> kernel P D H -> Prop) :
  keyed k p x q -> (length q < 1024)%nat -> c <> 0 ->
  (forall kb, keyed (typed k p x kb) p (Process.set_keyboard x kb) (q ++ [c]) -> Q tt (typed k p x kb)) ->
  wp (keyboard_push c) Q k.
Proof.
  intros K Hq Hc HQ. pose proof K as [K1 K2 [K3 _] K4 K5]. unfold keyboard_push. apply wp_bind, wp_gets. rewrite K1.
  apply Z.eqb_neq in K3. rewrite K3. apply wp_bind. eapply wp_get_process; [exact K4|]. apply wp_bind.
  unfold keyboard_get_tail_index, PEACHOS_KEYBOARD_BUFFER_SIZE. eapply wp_lift; [apply aset_ok; rewrite (kq_size _ _ K5); zdm|].
  eapply wp_put_process; [exact K4|]. apply HQ. eapply keyed_typed; [exact K|]. by apply kb_push.
Qed.

Lemma keyboard_pop_spec k p x q (Q : Z -> kernel P D H -> Prop) :
  keyed k p x q ->
  (q = [] -> Q 0 k) ->
  (forall c q' kb, q = c :: q' -> keyed (typed k p x kb) p (Process.set_keyboard x kb) q' -> Q c (typed k p x kb)) ->
  wp keyboard_pop Q k.
Proof.
  intros K H0 H1. pose proof K as [K1 (t & K2 & K2') [K3 K3'] K4 K5]. unfold keyboard_pop.
  assert (E : forall h, set_tasks (set_kernel_heap k h) (tasks k) = set_kernel_heap k h) by (by intros; destruct k).
  assert (Ek : set_kernel_heap k (kernel_heap k) = k) by (destruct k as [[? ? []]]; done).
  apply wp_bind, wp_on_tasks. apply wp_gets_sched. cbn [fst snd]. rewrite E, Ek.
  apply Z.eqb_neq in K3'. rewrite K3'. apply wp_bind, wp_on_tasks. eapply wp_get_task; [exact K2|]. cbn [fst snd]. rewrite E, Ek.
  apply wp_bind. eapply wp_get_process; [rewrite K2'; exact K4|]. unfold PEACHOS_KEYBOARD_BUFFER_SIZE.
  apply wp_bind. eapply wp_lift; [apply aget_ok; [zdm|exact (kb_front _ _ K5)]|].
  destruct q as [|c q]; cbn [head default from_option id].
  - apply wp_ret. by apply H0.
  - pose proof (kq_chars _ _ K5) as Hz. apply Forall_cons in Hz as [Hc _]. apply Z.eqb_neq in Hc. rewrite Hc.
    apply wp_bind. eapply wp_lift; [apply aset_ok; rewrite (kq_size _ _ K5); zdm|].
    apply wp_bind. rewrite K2'. eapply wp_put_process; [exact K4|]. apply wp_ret. apply (H1 c q); [done|].
    eapply keyed_typed; [exact K|]. by eapply kb_pop.
Qed.

(** ** Sequences of keys and reads *)
Inductive key_op := Push (c : Z) | Pop.

Fixpoint run_keys (ops : list key_op) : M (kernel P D H) (list Z) :=
  match ops with
  | [] => mret []
  | Push c :: ops' => _ ← keyboard_push c; run_keys ops'
  | Pop :: ops' => c ← keyboard_pop; cs ← run_keys ops'; mret (c :: cs)
  end.

(** The abstract queue; [None] when more than 1024 characters are pending. *)
Fixpoint fifo (q : list Z) (ops : list key_op) : option (list Z * list Z) :=
  match ops with
  | [] => Some ([], q)
  | Push c :: ops' => if (length q <? 1024)%nat then fifo (q ++ [c]) ops' else None
  | Pop :: ops' =>
      '(cs, q') ← fifo (tail q) ops'; Some (default 0 (head q) :: cs, q')
  end.

(** C17: the keyboard buffer is a FIFO queue.  For every sequence of pushes
    and pops in which at most 1024 characters are pending, the characters
    come out in the order they went in, a pop of an empty buffer gives 0,
    and nothing but the keyboard of that process changes.  The ring indices
    may wrap around at 2^31 any number of times. *)
Theorem keyboard_fifo ops : forall k p x q cs q',
  keyed k p x q -> Forall (fun o => match o with Push c => c <> 0 | Pop => True end) ops -> fifo q ops = Some (cs, q') ->
  wp (run_keys ops) (fun r k' => r = cs /\ exists kb, k' = typed k p x kb /\ keyed k' p (Process.set_keyboard x kb) q') k.
Proof.
  induction ops as [|[c|] ops IH]; intros k p x q cs q' K Hv Hf; cbn [run_keys fifo] in *.
  - injection Hf as <- <-. apply wp_ret. split; [done|]. exists (Process.keyboard x).
    rewrite typed_same by apply K. split; [done|]. by destruct x.
  - apply Forall_cons in Hv as [Hc Hv]. destruct (Nat.ltb_spec (length q) 1024); [|done].
    apply wp_bind. eapply keyboard_push_spec; [exact K|done|done|]. intros kb Kb.
    eapply wp_mono; [apply (IH _ _ _ _ _ _ Kb Hv Hf)|]. intros r k' (-> & kb' & -> & K'). split; [done|]. exists kb'.
    rewrite typed_typed in K' |- *. done.
  - apply Forall_cons in Hv as [_ Hv]. destruct (fifo (tail q) ops) as [[cs' q'']|] eqn:E; [|done]. injection Hf as <- <-.
    apply wp_bind. eapply keyboard_pop_spec; [exact K| |].
    + intros ->. cbn in *. apply wp_bind. eapply wp_mono; [apply (IH _ _ _ _ _ _ K Hv E)|]. intros r k' (-> & R). by apply wp_ret.
    + intros c q1 kb -> Kb. cbn in *. apply wp_bind. eapply wp_mono; [apply (IH _ _ _ _ _ _ Kb Hv E)|].
      intros r k' (-> & kb' & -> & K'). apply wp_ret. split; [done|]. exists kb'. rewrite typed_typed in K' |- *. done.
Qed.

(** The character of a key: lower case, nothing for releases and other keys. *)
Definition key_of (scancode : Z) : option Z :=
  match keyboard_scan_set_one !! Z.to_nat scancode with
  | Some c => if c =? 0 then None else Some (if (65 <=? c) && (c <=? 90) then c + 32 else c)
  | None => None
  end.

(** The table holds ASCII characters. *)
Lemma scan_set_ascii : Forall (fun c => 0 <= c < 128) keyboard_scan_set_one.
Proof. apply (bool_decide_unpack _). vm_compute. exact I. Qed.

Lemma released_bit sc : 0 <= sc < 256 -> (Z.land sc 0x80 =? 0) = (sc <? 128).
Proof.
  intros Hs. assert (E : Forall (fun n => (Z.land n 0x80 =? 0) = (n <? 128)) (seqZ 0 256)) by (apply (bool_decide_unpack _); vm_compute; exact I).
  rewrite Forall_lookup in E. apply (E (Z.to_nat sc)). apply lookup_seqZ. lia.
Qed.

Lemma key_press_spec k p x q sc :
  keyed k p x q -> (length (q ++ option_list (key_of sc)) <= 1024)%nat -> 0 <= sc < 256 -> sc <> 82 ->
  wp (clasic_keyboard_handle_interrupt sc) (fun _ k' =>
    exists kb, k' = typed k p x kb /\ keyed k' p (Process.set_keyboard x kb) (q ++ option_list (key_of sc))) k.
Proof.
  intros K Hq Hs Hne. unfold clasic_keyboard_handle_interrupt. unfold key_of in *.
  assert (Hsame : exists kb, k = typed k p x kb /\ keyed k p (Process.set_keyboard x kb) (q ++ [])).
  { exists (Process.keyboard x). rewrite typed_same by apply K. split; [done|]. rewrite app_nil_r. by destruct x. }
  rewrite released_bit by done. destruct (Z.ltb_spec sc 128) as [Hr|Hr]; cbn [negb].
  2:{ apply wp_ret. rewrite lookup_ge_None_2 by (cbn; lia). done. }
  unfold classic_keyboard_scancode_to_char. change (Z.of_nat (length keyboard_scan_set_one)) with 82.
  destruct (Z.gtb_spec sc 82).
  { apply wp_bind. eapply wp_lift; [done|]. cbn [Z.eqb]. rewrite lookup_ge_None_2 by (cbn; lia). by apply wp_ret. }
  destruct (lookup_lt_is_Some_2 keyboard_scan_set_one (Z.to_nat sc)) as [c Hc]; [cbn; lia|]. rewrite Hc in Hq |- *.
  pose proof scan_set_ascii as Ha. rewrite Forall_lookup in Ha. specialize (Ha _ _ Hc). cbn beta in Ha.
  apply wp_bind. eapply wp_lift; [apply aget_ok; [lia|exact Hc]|]. cbv zeta. rewrite (i8_id c) by lia.
  destruct (Z.eqb_spec c 0) as [E0|Hc0]; [by apply wp_ret|]. cbn [option_list].
  assert (E : (if (65 <=? c) && (c <=? 90) then i8 (c + 32) else c) = (if (65 <=? c) && (c <=? 90) then c + 32 else c)).
  { destruct (Z.leb_spec 65 c), (Z.leb_spec c 90); cbn [andb]; [rewrite i8_id by lia|..]; done. }
  rewrite E. rewrite length_app in Hq. cbn in Hq. eapply keyboard_push_spec; [exact K|lia| |eauto].
  destruct ((65 <=? c) && (c <=? 90)); lia.
Qed.

(** The end-of-interrupt signal to the interrupt controller. *)
Definition acked k : kernel P D H := set_tasks k (log_port (tasks k) 0x20 0x20).
Lemma wp_ack k (Q : unit -> kernel P D H -> Prop) : Q tt (acked k) -> wp (on_tasks (outb 0x20 0x20)) Q k.
Proof. intros HQ. apply wp_on_tasks, wp_modify_sched. cbn [fst snd]. by destruct k as [[? ? []]]. Qed.
Lemma keyed_acked k p x q : keyed k p x q -> keyed (acked k) p x q.
Proof. by intros []. Qed.

Lemma int21h_spec k p x q sc :
  keyed k p x q -> (length (q ++ option_list (key_of sc)) <= 1024)%nat -> 0 <= sc < 256 -> sc <> 82 ->
  wp (int21h_handler sc) (fun _ k' =>
    exists kb, k' = typed (acked k) p x kb /\ keyed k' p (Process.set_keyboard x kb) (q ++ option_list (key_of sc))) k.
Proof. intros K Hq Hs Hne. unfold int21h_handler. apply wp_bind, wp_ack. by apply key_press_spec; [apply keyed_acked|..]. Qed.

(** A key press.  The interrupt handler acknowledges the interrupt and
    appends the character of the key, in lower case, to the queue of the
    current process; key releases and keys without a character are ignored.
    Scan code 82 is read from behind the 82-byte table. *)
Theorem keyboard_interrupt_correct k p x q sc :
  keyed k p x q -> (length q < 1024)%nat -> 0 <= sc < 256 ->
  if sc =? 82 then int21h_handler sc k = Ub
  else wp (int21h_handler sc) (fun _ k' =>
    exists kb, k' = typed (acked k) p x kb /\ keyed k' p (Process.set_keyboard x kb) (q ++ option_list (key_of sc))) k.
Proof.
  intros K Hq Hs. destruct (Z.eqb_spec sc 82) as [->|Hne]; [done|].
  apply int21h_spec; [done| |done|done]. rewrite length_app. destruct (key_of sc); cbn; lia.
Qed.
End spec.

(** ** Witnesses *)
Module ExampleKeys.
Import ExampleTasks.
Definition no_files : vfs unit unit unit :=
  mk_vfs [] [] (FatTypes.mk_fs tt tt (FatTypes.mk_disk 0 512 0 false None)).
Definition idle : kernel unit unit unit :=
  mk_kernel no_files two_running (Terminal.mk_term [] 0 0 0 ∅) {[1 := Process.zero]} [] ∅ 0 0 [] [].

Lemma idle_keyed : keyed idle 1 Process.zero [].
Proof.
  split; try done.
  - exists (example_task 0x01100000 1 0x01600000 0). split; reflexivity.
  - split; [apply length_replicate|cbn; lia|done|constructor|].
    intros i Hi. cbn [Process.zero Process.keyboard kb_buffer kb_head]. apply lookup_replicate_2. unfold PEACHOS_KEYBOARD_BUFFER_SIZE. zdm.
Qed.
End ExampleKeys.
Import ExampleKeys.

Lemma keyboard_fifo_witness :
  wp (run_keys [Push 104; Pop; Push 105; Push 13; Pop; Pop; Pop]) (fun r _ => r = [104; 105; 13; 0]) idle.
Proof.
  eapply wp_mono; [apply (keyboard_fifo [Push 104; Pop; Push 105; Push 13; Pop; Pop; Pop] idle 1 Process.zero [] [104; 105; 13; 0] [])|].
  - exact idle_keyed.
  - repeat (constructor; [first [exact I|discriminate]|]). constructor.
  - reflexivity.
  - intros r k' [-> _]. reflexivity.
Defined.

Lemma keyboard_interrupt_correct_witness :
  wp (int21h_handler 30) (fun _ k' => exists x, keyed k' 1 x [97]) idle /\
  int21h_handler 82 idle = Ub.
Proof.
  split.
  - eapply wp_mono; [apply (keyboard_interrupt_correct idle 1 Process.zero [] 30 idle_keyed); simpl; lia|].
    intros u k' (kb & _ & Kb). eexists. exact Kb.
  - apply (keyboard_interrupt_correct idle 1 Process.zero [] 82 idle_keyed); simpl; lia.
Defined.
