(* ===== verification/Process.v ===== *)
(** * Processes: src/task/process.c

    A process owns its program and stack on the heap and one task, whose
    address space maps them at the fixed virtual addresses of config.h. *)
From Stdlib Require Import ZArith Lia.
From stdpp Require Import base list gmap numbers option list_numbers.
From S2P Require Import Prelude CLib Heap Disk PathParser FatTypes FatTable Fat16 Vfs Terminal Paging Task UserMem Kernel.
Local Open Scope Z_scope.
Local Open Scope kernel_scope.

Section code.
Context {P D H : Type} {B : BlockDevice D} {A : Allocator H} {F : Filesystem (fs_state D H) P}.
Abbreviation KM := (M (kernel P D H)).

(** [kzalloc(sizeof(struct process))] and [kfree]. *)
Definition alloc_process : KM Z :=
  p ← on_tasks (on_alloc (alloc Process.sizeof));
  if p =? 0 then mret 0
  else _ ← modify (fun k => set_procs k (<[p := Process.zero]> (proc_store k)) (processes k)); mret p.
Definition free_process (p : Z) : KM unit :=
  _ ← on_tasks (on_alloc (dealloc p)); modify (fun k => set_procs k (delete p (proc_store k)) (processes k)).

Definition process_init (p : Z) : KM unit := put_process p Process.zero.

Definition process_current : KM Z := gets (fun k => current_process (tasks k)).

(** NULL for a number that is no slot. *)
Definition process_get (process_id : Z) : KM Z :=
  if (process_id <? 0) || (process_id >=? PEACHOS_MAX_PROCESSES) then mret 0
  else l ← gets processes; lift_out (l.[process_id]).

(** The body of [process_load_binary] up to [out]; [fread] stores the bytes
    it returns at [program_data_ptr]. *)
Definition load_program (fd p : Z) : KM Z :=
  '(res, stat) ← on_files (fstat fd (mk_stat 0 0));
  if negb (res =? PEACHOS_ALL_OK) then mret res
  else
    program_data_ptr ← on_tasks (alloc_bytes (st_filesize stat));
    if program_data_ptr =? 0 then mret (- ENOMEM)
    else
      '(n, data) ← on_files (fread (st_filesize stat) 1 fd);
      _ ← on_tasks (memcpy_in program_data_ptr data 0 (length data));
      if negb (n =? 1) then mret (- EIO)
      else
        x ← get_process p;
        _ ← put_process p (Process.set_program x program_data_ptr (st_filesize stat));
        mret res.

Definition process_load_binary (filename : list Z) (p : Z) : KM Z :=
  fd ← on_files (fopen filename [114; 0]);
  res ← (if fd =? 0 then mret (- EIO) else load_program fd p);
  _ ← on_files (fclose fd);
  mret res.
Definition process_load_data (filename : list Z) (p : Z) : KM Z := process_load_binary filename p.

Definition USER_MAP_FLAGS : Z := Z.lor (Z.lor PAGING_IS_PRESENT PAGING_ACCESS_FROM_ALL) PAGING_IS_WRITEABLE.

(** The result of [paging_map_to] is ignored. *)
Definition process_map_binary (p : Z) : KM Z :=
  x ← get_process p;
  t ← on_tasks (get_task (Process.task x));
  _ ← on_tasks (on_paging (paging_map_to (page_directory t) PEACHOS_PROGRAM_VIRTUAL_ADDRESS (Process.ptr x)
        (paging_align_address (u32 (Process.ptr x + Process.size x))) USER_MAP_FLAGS));
  mret 0.
Definition process_map_memory (p : Z) : KM Z :=
  res ← process_map_binary p;
  if res <? 0 then mret res
  else
    x ← get_process p;
    t ← on_tasks (get_task (Process.task x));
    _ ← on_tasks (on_paging (paging_map_to (page_directory t) PEACHOS_PROGRAM_VIRTUAL_STACK_ADDRESS_END (Process.stack x)
          (paging_align_address (u32 (Process.stack x + PEACHOS_USER_PROGRAM_STACK_SIZE))) USER_MAP_FLAGS));
    mret res.

(** The first free slot from [i] on, [n] slots left. *)
Fixpoint free_slot (l : list Z) (i : Z) (n : nat) : out Z :=
  match n with
  | O => Ok (- EISTKN)
  | S n' => c ← l.[i]; if c =? 0 then Ok i else free_slot l (i + 1) n'
  end.
Definition process_get_free_slot : KM Z :=
  l ← gets processes; lift_out (free_slot l 0 (Z.to_nat PEACHOS_MAX_PROCESSES)).

(** [out]: on an error the task is freed, if there is one. *)
Definition load_cleanup (p res : Z) : KM unit :=
  if res <? 0 then
    x ← get_process p;
    if negb (Process.task x =? 0) then _ ← on_tasks (task_free (Process.task x)); mret tt else mret tt
  else mret tt.

(** From the stack on; [load_process] is what follows the allocation of the
    process [p]: the status, and whether [*process] was set. *)
Definition load_task (filename : list Z) (process_slot p : Z) : KM (Z * bool) :=
  program_stack_ptr ← on_tasks (alloc_bytes PEACHOS_USER_PROGRAM_STACK_SIZE);
  if program_stack_ptr =? 0 then mret (- ENOMEM, false)
  else
    x ← get_process p;
    name ← lift_out (CString.strncpy (Process.filename x) filename PEACHOS_MAX_PATH);
    _ ← put_process p (Process.set_name (Process.set_stack x program_stack_ptr) name (u16 process_slot));
    task ← on_tasks (task_new p);
    if task =? 0 then mret (task, false)
    else
      x ← get_process p;
      _ ← put_process p (Process.set_task x task);
      res ← process_map_memory p;
      if res <? 0 then mret (res, false)
      else
        l ← gets processes;
        l ← lift_out (l.[process_slot <- p]);
        _ ← modify (fun k => set_procs k (proc_store k) l);
        mret (res, true).
Definition load_process (filename : list Z) (process_slot p : Z) : KM (Z * bool) :=
  _ ← process_init p;
  res ← process_load_data filename p;
  if res <? 0 then mret (res, false) else load_task filename process_slot p.

(** The status and [*process] if it was set.  On a slot that is taken the
    pointer [_process] is used without a value. *)
Definition process_load_for_slot (filename : list Z) (process_slot : Z) : KM (Z * option Z) :=
  taken ← process_get process_slot;
  if negb (taken =? 0) then ub
  else
    p ← alloc_process;
    if p =? 0 then mret (- ENOMEM, None)
    else
      '(res, done) ← load_process filename process_slot p;
      _ ← load_cleanup p res;
      mret (res, if done : bool then Some p else None).

Definition process_load (filename : list Z) : KM (Z * option Z) :=
  process_slot ← process_get_free_slot;
  if process_slot <? 0 then mret (- EISTKN, None) else process_load_for_slot filename process_slot.

Definition process_free (p : Z) : KM unit :=
  if p =? 0 then mret tt
  else
    x ← get_process p;
    _ ← on_tasks (task_free (Process.task x));
    _ ← on_tasks (free_bytes (Process.ptr x));
    _ ← on_tasks (free_bytes (Process.stack x));
    l ← gets processes;
    l ← lift_out (l.[Process.id x <- 0]);
    _ ← modify (fun k => set_procs k (proc_store k) l);
    free_process p.

(** From the copies of the program and of the stack on. *)
Definition fork_task (parent child slot : Z) : KM (Z * option Z) :=
  child_task ← on_tasks (task_new child);
  if child_task =? 0 then mret (child_task, None)
  else
    c ← get_process child;
    _ ← put_process child (Process.set_task c child_task);
    t ← on_tasks (get_task child_task);
    _ ← on_tasks (on_paging (paging_free_4gb (page_directory t)));
    px ← get_process parent;
    pt ← on_tasks (get_task (Process.task px));
    d ← on_tasks (on_paging (paging_copy_4gb (page_directory pt)));
    t ← on_tasks (get_task child_task);
    _ ← on_tasks (put_task child_task (mk_task d (task_registers t) (Task.process t) (next t) (prev t)));
    if d =? 0 then mret (- ENOMEM, None)
    else
      pt ← on_tasks (get_task (Process.task px));
      let r := task_registers pt in
      t ← on_tasks (get_task child_task);
      _ ← on_tasks (put_task child_task (set_registers t
            (Registers.mk (Registers.edi r) (Registers.esi r) (Registers.ebp r) (Registers.ebx r) (Registers.edx r)
               (Registers.ecx r) 0 (Registers.ip r) (Registers.cs r) (Registers.flags r) (Registers.esp r) (Registers.ss r))));
      l ← gets processes;
      l ← lift_out (l.[slot <- child]);
      _ ← modify (fun k => set_procs k (proc_store k) l);
      mret (0, Some child).

Definition process_fork (parent : Z) : KM (Z * option Z) :=
  slot ← process_get_free_slot;
  if slot <? 0 then mret (- EISTKN, None)
  else
    child ← alloc_process;
    if child =? 0 then mret (- ENOMEM, None)
    else
      _ ← process_init child;
      px ← get_process parent;
      ptr ← on_tasks (alloc_bytes (Process.size px));
      c ← get_process child;
      _ ← put_process child (Process.set_program c ptr (Process.size c));
      if ptr =? 0 then mret (- ENOMEM, None)
      else
        _ ← on_tasks (memcpy_user ptr (Process.ptr px) 0 (Z.to_nat (Process.size px)));
        stack ← on_tasks (alloc_bytes PEACHOS_USER_PROGRAM_STACK_SIZE);
        c ← get_process child;
        _ ← put_process child (Process.set_stack (Process.set_program c ptr (Process.size px)) stack);
        if stack =? 0 then mret (- ENOMEM, None)
        else
          _ ← on_tasks (memcpy_user stack (Process.stack px) 0 (Z.to_nat PEACHOS_USER_PROGRAM_STACK_SIZE));
          c ← get_process child;
          name ← lift_out (CString.strncpy (Process.filename c) (Process.filename px) PEACHOS_MAX_PATH);
          _ ← put_process child (Process.set_name c name (u16 slot));
          fork_task parent child slot.
End code.

(** ** The memory of a process *)
Section image.
Context {P D H : Type} {A : Allocator H}.
Implicit Types k : kernel P D H.

(** A process with its program, its stack and its task, on whole pages of the heap. *)
Record process_ok (k : kernel P D H) (p : Z) (x : process) (t : task) (dir : Z) (ts : list Z) (pt : Z -> Z) : Prop := {
  po_process : proc_store k !! p = Some x;
  po_task : task_store (tasks k) !! Process.task x = Some t;
  po_chunk : chunks (pages (tasks k)) !! page_directory t = Some dir;
  po_space : space (tables (pages (tasks k))) dir ts pt;
  po_ptr : 0 <= Process.ptr x /\ Process.ptr x mod 4096 = 0;
  po_size : 0 <= Process.size x /\ Process.ptr x + Process.size x < 2 ^ 31;
  po_stack : 0 <= Process.stack x /\ Process.stack x mod 4096 = 0 /\ Process.stack x + 16384 < 2 ^ 31 }.

(** [size] rounded up to whole pages. *)
Definition rounded (size : Z) : Z := (size + 4095) / 4096 * 4096.

Lemma align_address_spec a n : 0 <= a -> a mod 4096 = 0 -> 0 <= n -> a + n < 2 ^ 31 -> paging_align_address (u32 (a + n)) = a + rounded n.
Proof.
  intros Ha Hm Hn Hs. unfold paging_align_address, PAGING_PAGE_SIZE, rounded. rewrite u32_id by lia.
  destruct (Z.eqb_spec ((a + n) mod 4096) 0); cbn [negb]; [zdm|]. rewrite u32_id by zdm. zdm.
Qed.

(** The contents of the page tables of a process. *)
Definition image (pt : Z -> Z) (x : process) : Z -> Z :=
  set_pages (set_pages pt 0x400 ((Process.size x + 4095) / 4096) (frames (Process.ptr x) 7)) 0x3FB 4 (frames (Process.stack x) 7).

Lemma process_map_memory_spec k p x t dir ts pt (Q : Z -> kernel P D H -> Prop) :
  process_ok k p x t dir ts pt ->
  (forall t', space t' dir ts (image pt x) -> (forall a, a ∉ ts -> t' !! a = tables (pages (tasks k)) !! a) ->
     Q 0 (with_tasks k (kernel_heap k) (set_paging (tasks k) (set_tables (pages (tasks k)) t')))) ->
  wp (process_map_memory p) Q k.
Proof.
  intros [O1 O2 O3 O4 [O5 O5'] [O6 O6'] (O7 & O7' & O7'')] HQ. unfold process_map_memory, process_map_binary.
  assert (Hr : Process.size x <= rounded (Process.size x) < Process.size x + 4096) by (unfold rounded; zdm).
  assert (Hrm : rounded (Process.size x) mod 4096 = 0) by (unfold rounded; zdm).
  apply wp_bind, wp_bind. eapply wp_get_process; [exact O1|]. apply wp_bind. eapply wp_task_of; [exact O2|].
  apply wp_bind, wp_on_tasks, wp_on_paging. rewrite align_address_spec by done.
  eapply paging_map_to_spec; [exact O3|exact O4|unfold PEACHOS_PROGRAM_VIRTUAL_ADDRESS; lia| |done|lia|lia|done|zdm|vm_compute; split; [discriminate|reflexivity]|].
  { unfold PEACHOS_PROGRAM_VIRTUAL_ADDRESS. lia. }
  intros t1 S1 F1. apply wp_ret. cbn [Z.ltb Z.compare]. cbn [fst snd with_tables].
  change (set_tasks (set_kernel_heap k (kernel_heap k)) (set_paging (tasks k) (set_tables (pages (tasks k)) t1)))
    with (with_tasks k (kernel_heap k) (set_paging (tasks k) (set_tables (pages (tasks k)) t1))).
  apply wp_bind. eapply wp_get_process; [exact O1|]. apply wp_bind. eapply wp_task_of; [exact O2|].
  apply wp_bind, wp_on_tasks, wp_on_paging. unfold PEACHOS_USER_PROGRAM_STACK_SIZE. rewrite align_address_spec by (done || lia).
  change (rounded (1024 * 16)) with 16384.
  eapply paging_map_to_spec; [exact O3|exact S1|vm_compute; discriminate| |done|lia|lia|done|zdm|vm_compute; split; [discriminate|reflexivity]|].
  { change PEACHOS_PROGRAM_VIRTUAL_STACK_ADDRESS_END with 0x3FB000. lia. }
  intros t2 S2 F2. apply wp_ret. cbn [fst snd with_tables]. fold (with_tasks k).
  cbn [set_tables tables chunks cr3 current_directory pages tasks with_tasks set_tasks set_paging] in *.
  specialize (HQ t2). apply HQ.
  - apply (space_ext _ _ _ _ _ _ S2). intros n. unfold image. change USER_MAP_FLAGS with 7.
    change (PEACHOS_PROGRAM_VIRTUAL_STACK_ADDRESS_END / 4096) with 0x3FB. change (PEACHOS_PROGRAM_VIRTUAL_ADDRESS / 4096) with 0x400.
    replace ((Process.stack x + 16384 - Process.stack x) / 4096) with 4 by (rewrite Z.add_simpl_l; done).
    replace ((Process.ptr x + rounded (Process.size x) - Process.ptr x) / 4096) with ((Process.size x + 4095) / 4096); [done|].
    rewrite Z.add_simpl_l. unfold rounded. by rewrite Z.div_mul.
  - intros a Ha. rewrite F2, F1 by done. done.
Qed.

(** Where a program finds its memory. *)
Lemma image_translate t dir ts pt x va :
  space t dir ts (image pt x) -> 0 <= Process.ptr x -> Process.ptr x mod 4096 = 0 -> 0 <= Process.size x ->
  Process.ptr x + Process.size x < 2 ^ 31 ->
  0 <= Process.stack x -> Process.stack x mod 4096 = 0 -> Process.stack x + 16384 < 2 ^ 31 -> 0 <= va < 2 ^ 32 ->
  (0x3FB000 <= va < 0x3FF000 -> translate t dir va = Some (Process.stack x + (va - 0x3FB000))) /\
  (0x400000 <= va < 0x400000 + rounded (Process.size x) -> translate t dir va = Some (Process.ptr x + (va - 0x400000))) /\
  (~ 0x3FB000 <= va < 0x3FF000 -> ~ 0x400000 <= va < 0x400000 + rounded (Process.size x) -> walk t dir va = Some (pt (va / 4096))).
Proof.
  intros Hs Hp Hpa Hn Hpn Hk Hka Hkn Hv. pose proof (walk_spec _ _ _ _ _ Hs Hv) as W.
  pose proof (translate_spec _ _ _ _ _ Hs Hv) as T. unfold image, set_pages, rounded in *.
  destruct (Z.leb_spec 0x3FB (va / 4096)), (Z.ltb_spec (va / 4096) (0x3FB + 4)), (Z.leb_spec 0x400 (va / 4096)),
    (Z.ltb_spec (va / 4096) (0x400 + (Process.size x + 4095) / 4096)); cbn [andb] in *; try zdm.
  all: split; [intros ?|split; [intros ?|intros ? ?]]; try zdm; try done.
  all: rewrite T by (rewrite frames_odd by done; reflexivity); rewrite frames_addr by (lia || zdm || done); f_equal; zdm.
Qed.

(** The memory of a process.  [process_map_memory] makes the program
    visible at 0x400000, page by page up to its last page, and the 16 KiB
    stack below 0x3FF000, where the task starts with its stack pointer;
    every other address keeps its mapping, and no other address space, task
    or process changes. *)
Theorem process_map_memory_correct k p x t dir ts pt :
  process_ok k p x t dir ts pt ->
  wp (process_map_memory p) (fun res k' => res = 0 /\
    (forall va, 0 <= va < 2 ^ 32 ->
      (0x3FB000 <= va < 0x3FF000 -> translate (tables (pages (tasks k'))) dir va = Some (Process.stack x + (va - 0x3FB000))) /\
      (0x400000 <= va < 0x400000 + rounded (Process.size x) ->
         translate (tables (pages (tasks k'))) dir va = Some (Process.ptr x + (va - 0x400000))) /\
      (~ 0x3FB000 <= va < 0x3FF000 -> ~ 0x400000 <= va < 0x400000 + rounded (Process.size x) ->
         walk (tables (pages (tasks k'))) dir va = walk (tables (pages (tasks k))) dir va)) /\
    (forall a, a ∉ ts -> tables (pages (tasks k')) !! a = tables (pages (tasks k)) !! a) /\
    task_store (tasks k') = task_store (tasks k) /\ proc_store k' = proc_store k /\ kernel_heap k' = kernel_heap k /\
    ram (tasks k') = ram (tasks k)) k.
Proof.
  intros O. eapply process_map_memory_spec; [exact O|]. intros t' S' F'. destruct O as [O1 O2 O3 O4 [O5 O5'] [O6 O6'] (O7 & O7' & O7'')].
  split; [done|]. split; [|by rewrite with_tasks_heap]. intros va Hv. rewrite (walk_spec _ _ _ _ _ O4 Hv). cbn.
  by apply (image_translate _ _ ts).
Qed.
End image.

(** ** Fork *)
Section fork.
Context {P D H : Type} {A : Allocator H} {AS : AllocatorSpec H}.
Implicit Types k : kernel P D H.

(** The registers a child starts with: its [fork] returns 0. *)
Definition child_registers (r : registers) : registers :=
  Registers.mk (Registers.edi r) (Registers.esi r) (Registers.ebp r) (Registers.ebx r) (Registers.edx r)
    (Registers.ecx r) 0 (Registers.ip r) (Registers.cs r) (Registers.flags r) (Registers.esp r) (Registers.ss r).

(** What [fork] needs of the parent's task and of the other tasks. *)
Record forkable (s : sched) (m : gmap Z Z) (l : list Z) (a0 : Z) (t0 : task) (dir0 : Z) (ts0 : list Z) (pt : Z -> Z) : Prop := {
  fk_list : task_list s l;
  fk_back : back_links s l;
  fk_live : forall b, b ∈ l -> is_Some (m !! b);
  fk_in : a0 ∈ l;
  fk_task : task_store s !! a0 = Some t0;
  fk_chunk : chunks (pages s) !! page_directory t0 = Some dir0;
  fk_space : space (tables (pages s)) dir0 ts0 pt;
  fk_blocks : forall b, b ∈ page_directory t0 :: dir0 :: ts0 -> is_Some (m !! b) }.

(** A task of the list keeps everything but its [next] link. *)
Lemma link_store_old st a t l b old :
  a ∉ l -> b ∈ l -> st !! b = Some old ->
  exists new, link_store st a t l !! b = Some new /\ page_directory new = page_directory old /\
    task_registers new = task_registers old /\ Task.process new = Task.process old.
Proof.
  intros Ha Hb Hk. assert (a <> b) by (by intros ->). destruct (decide (Some b = last l)) as [E|E].
  - exists (set_next old a). split; [by apply link_store_last|done].
  - exists old. split; [by rewrite link_store_ne|done].
Qed.

(** The task [a] of the child, with the address space [dir] and [ts]. *)
Record forked (s x : sched) (l : list Z) (a child : Z) (t0 : task) (dir0 : Z) (ts0 : list Z) (pt : Z -> Z) (t : task)
    (dir : Z) (ts : list Z) : Prop := {
  fd_list : task_list x (l ++ [a]);
  fd_back : back_links x (l ++ [a]);
  fd_current : current_task x = if (length l =? 0)%nat then a else current_task s;
  fd_task : task_store x !! a = Some t /\ task_registers t = child_registers (task_registers t0) /\ Task.process t = child;
  fd_chunk : chunks (pages x) !! page_directory t = Some dir;
  fd_space : space (tables (pages x)) dir ts pt;
  fd_parent : space (tables (pages x)) dir0 ts0 pt;
  fd_apart : forall b, b ∈ dir :: ts -> b ∉ dir0 :: ts0;
  fd_others : forall b old, b ∈ l -> task_store s !! b = Some old -> exists new, task_store x !! b = Some new /\
    page_directory new = page_directory old /\ task_registers new = task_registers old /\ Task.process new = Task.process old;
  fd_ram : ram x = ram s }.

(** Replacing one task by one with the same links. *)
Lemma task_list_put s x l a t t' :
  task_list s l -> task_store s !! a = Some t -> next t' = next t -> task_store x = <[a := t']> (task_store s) ->
  task_head x = task_head s -> task_tail x = task_tail s -> task_list x l.
Proof.
  intros [L1 L2 L3 L4 L5] Ht Hn Hx Hh Htl. split; try done; [congruence..|]. intros i b Hb. rewrite Hx.
  destruct (L5 i b Hb) as (old & Ho & Hon). destruct (decide (a = b)) as [->|].
  - rewrite lookup_insert_eq. exists t'. split; [done|]. congruence.
  - rewrite lookup_insert_ne by done. eauto.
Qed.
Lemma back_links_put s x l a t t' :
  back_links s l -> task_store s !! a = Some t -> prev t' = prev t -> task_store x = <[a := t']> (task_store s) -> back_links x l.
Proof.
  intros B Ht Hn Hx i b Hb. rewrite Hx. destruct (B i b Hb) as (old & Ho & Hop). destruct (decide (a = b)) as [->|].
  - rewrite lookup_insert_eq. exists t'. split; [done|]. congruence.
  - rewrite lookup_insert_ne by done. eauto.
Qed.

Lemma fork_task_spec k h s ps pl m N l parent child slot px cx t0 dir0 ts0 pt (Q : Z * option Z -> kernel P D H -> Prop) :
  forkable s m l (Process.task px) t0 dir0 ts0 pt -> owns h m -> room h N -> (2053 <= N)%nat ->
  ps !! parent = Some px -> ps !! child = Some cx -> parent <> child -> 0 <= slot < Z.of_nat (length pl) ->
  (forall h' x a t dir ts, forked s x l a child t0 dir0 ts0 pt t dir ts ->
     Q (0, Some child) (kst k h' x (<[child := Process.set_task cx a]> ps) (<[Z.to_nat slot := child]> pl))) ->
  wp (fork_task parent child slot) Q (kst k h s ps pl).
Proof.
  intros [K1 K2 K3 K4 K5 K6 K7 K8] Ho Hr HN Hp Hc Hne Hs HQ. unfold fork_task.
  apply wp_bind, wp_kst_tasks. eapply (task_new_spec (h, s) m N l child); [exact K1|exact K3|exact Ho|exact Hr|lia|].
  intros a c dir ts h1 pg x1 Ha0 Hal T. destruct (task_new_state (h, s) m N l child a c dir ts h1 pg K1 Ha0 Hal T) as (L1 & B1 & O1).
  specialize (B1 K2). fold x1 in L1, B1, O1. apply Z.eqb_neq in Ha0 as Ha0'. rewrite Ha0'. cbn [fst snd].
  pose proof T as [T1 T2 T3 T4 T5 T6 T7 [T8 T9]]. cbn [fst snd] in *. set (m1 := <[a := 1]> m).
  (* the blocks of the first address space of the child are apart from everything else *)
  assert (Hm1 : forall b, is_Some (m !! b) -> b ∉ task_blocks a c dir ts).
  { intros b [n Hb] Hin. destruct T1 as [_ T1]. specialize (T1 b Hin). congruence. }
  apply fresh_blocks_cons in T1 as [F1 F2]. apply with_blocks_None in F1 as [F1 F3].
  assert (F4 : fresh_blocks (c :: dir :: ts) m1).
  { destruct F2 as [N1 N2]. split; [done|]. intros b Hb. unfold m1. rewrite lookup_insert_ne by (by intros ->). by apply N2. }
  unfold task_blocks in T2. change (a :: c :: dir :: ts) with ([a] ++ c :: dir :: ts) in T2.
  rewrite (with_blocks_perm _ _ _ (Permutation_app_comm _ _)), with_blocks_app in T2. cbn [with_blocks foldr] in T2. fold m1 in T2.
  fold (with_blocks (c :: dir :: ts) m1) in T2.
  apply wp_bind. eapply wp_kst_get; [exact Hc|]. apply wp_bind. eapply wp_kst_put; [exact Hc|].
  apply wp_bind. eapply wp_kst_task_of; [exact (to_task _ _ _ _ _ _ _ O1)|].
  apply wp_bind, wp_kst_tasks. eapply (free_space_spec (h1, x1) m1); [exact (to_chunk _ _ _ _ _ _ _ O1)|exact (to_space _ _ _ _ _ _ _ O1)|exact F4|exact T2|exact T3|].
  intros h2 Ho2 Hr2 _. cbn [fst snd]. set (x2 := set_paging x1 _).
  apply wp_bind. eapply wp_kst_get; [rewrite lookup_insert_ne by done; exact Hp|].
  destruct (link_store_old (task_store s) a (new_task child c l) l _ t0 Hal K4 K5) as (t0' & L0 & E1 & E2 & E3).
  apply wp_bind. eapply (wp_kst_task_of k h2 x2); [exact L0|].
  assert (Hc0 : chunks (pages x2) !! page_directory t0' = Some dir0).
  { cbn. rewrite E1, lookup_delete_ne, T5, lookup_insert_ne; [exact K6|..];
      intros E; (apply (Hm1 (page_directory t0)); [apply K8; by left|]); rewrite <- E; right; by left. }
  assert (Hs0 : space (tables (pages x2)) dir0 ts0 pt).
  { apply (space_frame _ _ _ _ _ _ K7). intros b Hb. change (without (dir :: ts) (tables pg) !! b = tables (pages s) !! b).
    assert (Hnb : b ∉ dir :: ts) by (intros Hin; apply (Hm1 b); [apply K8; by right|by right; right]).
    rewrite (without_notin (dir :: ts)) by done. by apply T7. }
  apply wp_bind, wp_kst_tasks, wp_on_paging.
  eapply (paging_copy_4gb_spec (h2, pages x2) m1); [exact Hc0|exact Hs0| |exact Ho2|exact Hr2|lia|].
  { intros b Hb. unfold m1. rewrite E1 in Hb. destruct (decide (a = b)) as [->|]; [rewrite lookup_insert_eq; eauto|].
    rewrite lookup_insert_ne by done. by apply K8. }
  intros c3 dir3 ts3 [h3 pg3] (S1 & S2 & S3 & S4 & S5 & S6 & S7 & S8 & S9). cbn [fst snd] in *.
  destruct (owns_page _ _ c3 1 S4) as (Hc3 & _); [apply lookup_insert_eq|].
  apply wp_bind. eapply (wp_kst_task_of k h3 (set_paging x2 pg3) _ _ a (new_task child c l)); [apply link_store_eq|].
  apply wp_bind, wp_kst_tasks. eapply wp_put_task; [apply link_store_eq|]. cbn [fst snd].
  destruct (Z.eqb_spec c3 0) as [|_]; [lia|]. assert (Ha : a <> Process.task px) by (by intros ->).
  apply wp_bind. eapply wp_kst_task_of; [cbn; rewrite lookup_insert_ne by done; exact L0|].
  apply wp_bind. eapply wp_kst_task_of; [cbn; apply lookup_insert_eq|].
  apply wp_bind, wp_kst_tasks. eapply wp_put_task; [cbn; apply lookup_insert_eq|]. cbn [fst snd].
  apply wp_bind, wp_gets. apply wp_bind. eapply wp_lift; [apply aset_ok; exact Hs|]. apply wp_bind, wp_modify, wp_ret.
  rewrite E2. set (t := set_registers _ _). set (x := set_store _ _).
  assert (Ex : task_store x = <[a := t]> (task_store x1)) by (unfold x; cbn; by rewrite insert_insert_eq).
  apply (HQ h3 x a t dir3 ts3). split.
  - apply (task_list_put x1 x _ a (new_task child c l) t L1); [apply link_store_eq|done|exact Ex|done|done].
  - apply (back_links_put x1 x _ a (new_task child c l) t B1); [apply link_store_eq|done|exact Ex].
  - done.
  - split; [rewrite Ex; apply lookup_insert_eq|]. done.
  - cbn. rewrite S2. apply lookup_insert_eq.
  - exact S1.
  - apply (space_frame _ _ _ _ _ _ Hs0). intros b Hb. cbn. apply S7. intros Hin. destruct S3 as [_ S3].
    specialize (S3 b ltac:(by right)). destruct (K8 b ltac:(by right)) as [z Hz]. unfold m1 in S3. apply lookup_insert_None in S3 as [S3 _]. congruence.
  - intros b Hin Hb. destruct S3 as [_ S3]. specialize (S3 b ltac:(by right)). destruct (K8 b ltac:(by right)) as [z Hz].
    unfold m1 in S3. apply lookup_insert_None in S3 as [S3 _]. congruence.
  - intros b old Hb Hold. assert (a <> b) by (by intros ->). rewrite Ex, lookup_insert_ne by done. by apply link_store_old.
  - done.
Qed.

(** The kernel's own copying, in its identity address space. *)
Definition kernel_mapped (s : sched) : Prop :=
  exists kts, space (tables (pages s)) (cr3 (pages s)) kts (identity 7).

Lemma kernel_mapped_mmu s va : kernel_mapped s -> 0 <= va < 2 ^ 32 -> mmu s va = Some va.
Proof. intros [kts S] Hv. unfold mmu. apply (identity_translate _ _ kts 7); [done|lia|done|done]. Qed.

Lemma kernel_phys va : 0 <= va < 2 ^ 32 -> phys_of (identity 7) va = va.
Proof. intros Hv. unfold phys_of, identity. rewrite frames_addr by (done || zdm). zdm. Qed.

(** What [memcpy] leaves: [n] bytes of [src] at [dest], the rest as it was. *)
Record copied (r r' : gmap Z Z) (dest src n : Z) : Prop := {
  co_grows : forall a, is_Some (r !! a) -> is_Some (r' !! a);
  co_in : forall j, 0 <= j < n -> r' !! (dest + j) = r !! (src + j);
  co_out : forall a, a < dest \/ dest + n <= a -> r' !! a = r !! a }.

Lemma kernel_memcpy_spec (h : H) s dest src n w (Q : unit -> H * sched -> Prop) :
  kernel_mapped s -> 0 <= src -> src + w < 2 ^ 31 -> 0 <= dest -> dest + Z.of_nat n < 2 ^ 31 -> Z.of_nat n <= w ->
  dest + Z.of_nat n <= src \/ src + w <= dest ->
  (forall k : nat, (k < n)%nat -> is_Some (ram s !! (src + Z.of_nat k)) /\ is_Some (ram s !! (dest + Z.of_nat k))) ->
  (forall r, copied (ram s) r dest src (Z.of_nat n) -> Q tt (h, set_ram s r)) -> wp (memcpy_user dest src 0 n) Q (h, s).
Proof.
  intros K H1 H2 H3 H4 H5 H6 Hb HQ. set (data := (fun j => default 0 (ram s !! (src + Z.of_nat j))) <$> seq 0 n).
  assert (Hl : length data = n) by (unfold data; by rewrite length_fmap, length_seq). rewrite <- Hl.
  assert (Hd : forall j, (j < n)%nat -> data !! j = ram s !! (src + Z.of_nat j)).
  { intros j Hj. destruct (Hb j Hj) as [[c Hc] _]. unfold data. rewrite list_lookup_fmap, lookup_seq_lt by done. cbn. by rewrite Hc. }
  assert (Hph : forall j, (j < n)%nat -> phys_of (identity 7) (dest + 0 + Z.of_nat j) = dest + Z.of_nat j) by (intros j Hj; rewrite kernel_phys by lia; lia).
  apply (memcpy_user_spec data _ (identity 7) src w dest src 0).
  - rewrite !Z.add_0_r. intros j b Hj. apply lookup_lt_Some in Hj as Hlt. rewrite Hl in Hlt. destruct (Hb j Hlt) as [[c Hc] Hs].
    rewrite Hd in Hj by done. cbn [snd]. rewrite u32_id by lia. rewrite !kernel_mapped_mmu, kernel_phys by (done || lia). cbn in *. repeat split; try done; lia.
  - apply HQ. split.
    + intros a Ha. by apply user_store_some.
    + intros j Hj. cbn [snd]. replace j with (Z.of_nat (Z.to_nat j)) by lia. set (i := Z.to_nat j). assert (Hi : (i < n)%nat) by lia.
      destruct (lookup_lt_is_Some_2 data i) as [b Hi']; [lia|]. rewrite <- (Hd i Hi), <- (Hph i Hi), Hi'.
      apply user_store_in; [|done]. intros i1 i2 L1 L2. rewrite Hl in L1, L2. rewrite !Hph by done. lia.
    + intros a Ha. cbn [snd]. apply user_store_out. intros j Hj. rewrite Hl in Hj. rewrite Hph by done. lia.
Qed.

(** The first free slot. *)
Definition first_zero (l : list Z) (i : nat) : Prop := l !! i = Some 0 /\ forall j, (j < i)%nat -> l !! j <> Some 0.

Lemma process_slot_spec l n i : forall j, first_zero l i -> (j <= i < j + n)%nat -> (i < length l)%nat ->
  free_slot l (Z.of_nat j) n = Ok (Z.of_nat i).
Proof.
  induction n as [|n IH]; intros j [F1 F2] Hj Hl; [lia|]. cbn [free_slot].
  destruct (lookup_lt_is_Some_2 l j) as [c Hc]; [lia|]. rewrite (aget_ok _ _ c) by (lia || by rewrite Nat2Z.id). cbn [mbind out_bind].
  destruct (Z.eqb_spec c 0) as [->|Hn].
  - f_equal. destruct (decide (j = i)) as [->|]; [done|]. destruct (F2 j); [lia|done].
  - replace (Z.of_nat j + 1) with (Z.of_nat (S j)) by lia. apply IH; [done| |done].
    destruct (decide (j = i)) as [->|]; [congruence|lia].
Qed.

Lemma forkable_mono s m m' l a t0 dir0 ts0 pt r :
  forkable s m l a t0 dir0 ts0 pt -> (forall b, is_Some (m !! b) -> is_Some (m' !! b)) -> forkable (set_ram s r) m' l a t0 dir0 ts0 pt.
Proof. intros [K1 K2 K3 K4 K5 K6 K7 K8] Hm. destruct K1. split; try done; [by intros b Hb; apply Hm, K3|by intros b Hb; apply Hm, K8]. Qed.

Lemma insert_some (m : gmap Z Z) a v b : is_Some (m !! b) -> is_Some (<[a := v]> m !! b).
Proof. intros Hb. destruct (decide (a = b)) as [->|]; [rewrite lookup_insert_eq; eauto|by rewrite lookup_insert_ne]. Qed.

Lemma insert_fresh (m : gmap Z Z) a v b n : m !! a = None -> m !! b = Some n -> <[a := v]> m !! b = Some n.
Proof. intros Ha Hb. rewrite lookup_insert_ne; [done|congruence]. Qed.

(** A new buffer and the memory of the parent are apart. *)
Lemma apart_insert h m m' p q n j :
  owns h m' -> m' = <[p := n]> m -> m !! p = None -> m !! q = Some j -> p + n * 4096 <= q \/ q + j * 4096 <= p.
Proof.
  intros Ho -> Hp Hq. assert (p <> q) by (intros ->; congruence).
  apply (owns_disjoint h (<[p := n]> m)); [done|apply lookup_insert_eq|by rewrite lookup_insert_ne|done].
Qed.

(** The parent of a fork: its memory is live and its name is a C string. *)
Record parent_ok (k : kernel P D H) (m : gmap Z Z) (parent : Z) (px : process) (name : list Z) : Prop := {
  pa_process : proc_store k !! parent = Some px;
  pa_live : is_Some (m !! parent);
  pa_size : 0 < Process.size px < 2 ^ 31;
  pa_program : m !! Process.ptr px = Some (Heap.blocks_of (Process.size px));
  pa_stack : m !! Process.stack px = Some 4;
  pa_bytes : forall i, 0 <= i < Process.size px -> is_Some (ram (tasks k) !! (Process.ptr px + i));
  pa_stack_bytes : forall i, 0 <= i < 16384 -> is_Some (ram (tasks k) !! (Process.stack px + i));
  pa_name : CString.cstring (Process.filename px) = Some name /\ (length name < 108)%nat }.

Lemma blocks_of_bound n : 0 < n -> n <= Heap.blocks_of n * 4096.
Proof. unfold Heap.blocks_of. intros. zdm. Qed.

(** The name of the child. *)
Lemma copy_name px name : CString.cstring (Process.filename px) = Some name -> (length name < 108)%nat ->
  CString.strncpy (Process.filename Process.zero) (Process.filename px) PEACHOS_MAX_PATH =
  Ok (name ++ 0 :: replicate (107 - length name) 0).
Proof.
  intros Hn Hl. unfold CString.strncpy. change (Z.to_nat (PEACHOS_MAX_PATH - 1)) with 107%nat.
  rewrite (CString.strncpy_loop_spec _ _ name) by (try done; cbn [Process.filename Process.zero]; rewrite length_replicate; unfold PEACHOS_MAX_PATH; lia).
  rewrite take_ge, Nat.min_l by lia. cbn [Process.filename Process.zero]. rewrite drop_replicate. do 3 f_equal.
Qed.

(** What the child's [struct process] holds. *)
Definition child_process (px : process) (name : list Z) (slot ptr stack a : Z) : process :=
  Process.mk slot (name ++ 0 :: replicate (107 - length name) 0) a ptr stack (Process.size px) (Process.keyboard Process.zero).

(** The copies of the parent's program and stack, and memory besides. *)
Record private (r r' : gmap Z Z) (px : process) (ptr stack : Z) : Prop := {
  pr_program : forall j, 0 <= j < Process.size px -> r' !! (ptr + j) = r !! (Process.ptr px + j);
  pr_stack : forall j, 0 <= j < 16384 -> r' !! (stack + j) = r !! (Process.stack px + j);
  pr_others : forall a, a < ptr \/ ptr + Process.size px <= a -> a < stack \/ stack + 16384 <= a -> r' !! a = r !! a }.

(** A buffer of the child: allocated, stored in its [struct process] by [f]
    and filled from the parent's buffer at [src]. *)
Lemma fork_copy_spec {T} k h s ps pl m N child cx f src size (e : T) (rest : Z -> M (kernel P D H) T) (Q : T -> kernel P D H -> Prop) :
  let b := Heap.blocks_of size in
  owns h m -> room h N -> (Z.to_nat b <= N)%nat -> 0 < size < 2 ^ 31 -> kernel_mapped s -> ps !! child = Some cx ->
  m !! src = Some b -> (forall j, 0 <= j < size -> is_Some (ram s !! (src + j))) ->
  (forall p h' r, m !! p = None -> owns h' (<[p := b]> m) -> room h' (N - Z.to_nat b) -> copied (ram s) r p src size ->
     wp (rest p) Q (kst k h' (set_ram s r) (<[child := f cx p]> ps) pl)) ->
  wp (p ← on_tasks (alloc_bytes size); c ← get_process child; _ ← put_process child (f c p);
      if p =? 0 then mret e else _ ← on_tasks (memcpy_user p src 0 (Z.to_nat size)); rest p) Q (kst k h s ps pl).
Proof.
  intros b Ho Hr HN Hs KM Hc Hm Hb HQ. pose proof (blocks_of_bound size ltac:(lia)) as Hbb. fold b in Hbb.
  destruct (owns_page _ _ src b Ho Hm) as (Q1 & Q2 & _ & Q3).
  apply wp_bind, wp_kst_tasks. eapply (alloc_bytes_room (h, s) m); [exact Ho|exact Hs|exact Hr|exact HN|].
  intros p h' Hp1 Hp2 Hp3 Hpm Ho' Hr'. cbn [fst snd] in *. fold b in Hp2, Ho', Hr'.
  apply wp_bind. eapply wp_kst_get; [exact Hc|]. apply wp_bind. eapply wp_kst_put; [exact Hc|].
  destruct (Z.eqb_spec p 0) as [|_]; [lia|]. set (r1 := store_bytes (ram s) p (replicate (Z.to_nat size) 0)).
  pose proof (apart_insert h' m _ p src b b Ho' eq_refl Hpm Hm) as Hd.
  apply wp_bind, wp_kst_tasks. apply (kernel_memcpy_spec h' (set_ram s r1) p src _ (b * 4096)); [exact KM|lia|lia|lia|lia|lia|lia| |].
  { intros j Hj. split; [apply store_bytes_some, Hb; lia|]. exists 0. apply store_bytes_in, lookup_replicate_2. lia. }
  intros r [C1 C2 C3]. cbn [fst snd ram set_ram] in C1, C2, C3. rewrite Z2Nat.id in C2, C3 by lia. unfold r1 in C1, C2, C3.
  apply HQ; try assumption. split.
  - intros a Ha. by apply C1, store_bytes_some.
  - intros j Hj. rewrite C2 by lia. apply store_bytes_out. rewrite length_replicate. lia.
  - intros a Ha. rewrite C3 by lia. apply store_bytes_out. rewrite length_replicate. lia.
Qed.

Lemma fork_private r0 r2 r4 m p q px (h : H) :
  let b := Heap.blocks_of (Process.size px) in let m2 := <[p := b]> m in
  0 < Process.size px -> m !! Process.ptr px = Some b -> m !! Process.stack px = Some 4 ->
  m !! p = None -> m2 !! q = None -> owns h (<[q := 4]> m2) ->
  copied r0 r2 p (Process.ptr px) (Process.size px) -> copied r2 r4 q (Process.stack px) 16384 -> private r0 r4 px p q.
Proof.
  intros b m2 Hs G4 G5 Hp Hq Ho [_ I1 O1] [_ I2 O2]. pose proof (blocks_of_bound (Process.size px) ltac:(lia)) as Hb. fold b in Hb.
  assert (M : forall x n, m !! x = Some n -> x <> p /\ x <> q).
  { intros x n Hx. apply lookup_insert_None in Hq as [Hq _]. split; congruence. }
  pose proof (owns_disjoint h _ p (Process.stack px) b 4 Ho) as D1. pose proof (owns_disjoint h _ p q b 4 Ho) as D2.
  assert (Hpq : p <> q) by (apply lookup_insert_None in Hq as [_ Hq]; done).
  destruct (M _ _ G5) as [M1 M2]. unfold m2 in D1, D2.
  rewrite lookup_insert_ne, lookup_insert_eq in D1, D2 by done. rewrite !lookup_insert_ne in D1 by done. rewrite lookup_insert_eq in D2.
  specialize (D1 eq_refl G5 (not_eq_sym M1)). specialize (D2 eq_refl eq_refl Hpq). split.
  - intros j Hj. rewrite O2 by lia. by apply I1.
  - intros j Hj. rewrite I2 by lia. apply O1. lia.
  - intros a H1 H2. rewrite O2 by lia. by apply O1.
Qed.

Lemma process_fork_spec k m N parent px name i l t0 dir0 ts0 pt (Q : Z * option Z -> kernel P D H -> Prop) :
  parent_ok k m parent px name -> forkable (tasks k) m l (Process.task px) t0 dir0 ts0 pt -> kernel_mapped (tasks k) ->
  owns (kernel_heap k) m -> room (kernel_heap k) N -> (Z.to_nat (Heap.blocks_of (Process.size px)) + 2059 <= N)%nat ->
  length (processes k) = 12%nat -> first_zero (processes k) i ->
  (forall child ptr stack r h' x a t dir ts, child <> parent -> m !! child = None -> private (ram (tasks k)) r px ptr stack ->
     m !! ptr = None -> m !! stack = None ->
     forked (set_ram (tasks k) r) x l a child t0 dir0 ts0 pt t dir ts ->
     Q (0, Some child) (kst k h' x (<[child := child_process px name (Z.of_nat i) ptr stack a]> (proc_store k)) (<[i := child]> (processes k)))) ->
  wp (process_fork parent) Q k.
Proof.
  intros [G1 G2 G3 G4 G5 G6 G7 [G8 G9]] FK KM Ho Hr HN Hlp Hz HQ. unfold process_fork.
  assert (Hi : (i < 12)%nat) by (rewrite <- Hlp; destruct Hz as [Hz _]; by apply lookup_lt_Some in Hz).
  unfold process_get_free_slot. apply wp_bind, wp_bind, wp_gets. eapply wp_lift.
  { apply (process_slot_spec (processes k) 12 i 0); [done|lia|lia]. }
  destruct (Z.ltb_spec (Z.of_nat i) 0); [lia|]. rewrite <- (kst_start k) at 1.
  unfold alloc_process. apply wp_bind, wp_bind, wp_kst_tasks, wp_on_alloc. cbn [fst snd].
  eapply wp_mono; [apply (alloc_room _ m Process.sizeof N Ho); [unfold Process.sizeof; lia|done|change (Z.to_nat (Heap.blocks_of Process.sizeof)) with 2%nat; lia]|].
  intros child h1 (Hc0 & Hcm & Ho1 & Hr1 & _). change (Heap.blocks_of Process.sizeof) with 2 in *. change (Z.to_nat 2) with 2%nat in Hr1.
  apply Z.eqb_neq in Hc0 as Hc0'. rewrite Hc0'. assert (Hcp : child <> parent) by (intros ->; destruct G2; congruence).
  apply wp_bind, wp_modify, wp_ret. rewrite Hc0'. set (m1 := <[child := 2]> m) in *.
  assert (M1 : forall x n, m !! x = Some n -> m1 !! x = Some n) by (intros x n Hx; unfold m1; rewrite lookup_insert_ne; [done|congruence]).
  change (set_procs _ _ _) with (kst k h1 (tasks k) (<[child := Process.zero]> (proc_store k)) (processes k)).
  apply wp_bind. eapply wp_kst_put; [apply lookup_insert_eq|]. rewrite insert_insert_eq.
  apply wp_bind. eapply wp_kst_get; [rewrite lookup_insert_ne by done; exact G1|].
  eapply (fork_copy_spec k h1 (tasks k) _ (processes k) m1 _ child _ (fun c p => Process.set_program c p (Process.size c)) _ (Process.size px));
    [exact Ho1|exact Hr1|lia|exact G3|exact KM|apply lookup_insert_eq|by apply M1|exact G6|].
  intros p h2 r2 Hpm Ho2 Hr2 C2. rewrite insert_insert_eq.
  assert (Hps : p <> Process.stack px) by (intros ->; rewrite (M1 _ _ G5) in Hpm; done).
  eapply (fork_copy_spec k h2 (set_ram (tasks k) r2) _ (processes k) _ _ child _ (fun c q => Process.set_stack (Process.set_program c p (Process.size px)) q)
    _ PEACHOS_USER_PROGRAM_STACK_SIZE); [exact Ho2|exact Hr2| |unfold PEACHOS_USER_PROGRAM_STACK_SIZE; lia|exact KM|apply lookup_insert_eq| | |].
  { change (Z.to_nat (Heap.blocks_of PEACHOS_USER_PROGRAM_STACK_SIZE)) with 4%nat. lia. }
  { rewrite lookup_insert_ne by done. by apply M1. }
  { intros j Hj. apply (co_grows _ _ _ _ _ C2), G7. unfold PEACHOS_USER_PROGRAM_STACK_SIZE in Hj. lia. }
  intros q h3 r4 Hqm Ho3 Hr3 C4. rewrite insert_insert_eq.
  change (Heap.blocks_of PEACHOS_USER_PROGRAM_STACK_SIZE) with 4 in *. change (Z.to_nat 4) with 4%nat in Hr3.
  apply wp_bind. eapply wp_kst_get; [apply lookup_insert_eq|].
  apply wp_bind. eapply wp_lift; [by apply copy_name|]. apply wp_bind. eapply wp_kst_put; [apply lookup_insert_eq|]. rewrite insert_insert_eq.
  rewrite u16_id by lia.
  eapply (fork_task_spec k h3 (set_ram (tasks k) r4)); [|exact Ho3|exact Hr3|lia|by rewrite lookup_insert_ne by done|apply lookup_insert_eq|done|rewrite Hlp; lia|].
  { apply (forkable_mono _ m); [exact FK|]. intros y Hy. by do 3 apply insert_some. }
  intros h' x a t dir ts FD. rewrite Nat2Z.id, insert_insert_eq. apply (HQ child p q r4 h' x a t dir ts Hcp Hcm); [| | |exact FD].
  - apply (fork_private _ r2 _ m1 _ _ _ h3); try assumption; [lia|by apply M1|by apply M1].
  - unfold m1 in Hpm. by apply lookup_insert_None in Hpm as [? _].
  - unfold m1 in Hqm. apply lookup_insert_None in Hqm as [Hqm _]. by apply lookup_insert_None in Hqm as [? _].
Qed.

(** C12: fork.  With a free slot and enough memory [process_fork] returns 0
    and a new process in the first free slot, with the parent's name and
    program size; its task is appended to the list and starts with the
    parent's registers but 0 in [eax], the parent's tasks and registers
    stay.  The child's page tables are its own, yet every address leads to
    the same physical memory as in the parent: parent and child share their
    program and stack, and the copies that are made stay unused. *)
Theorem process_fork_correct k m N parent px name i l t0 dir0 ts0 pt :
  parent_ok k m parent px name -> forkable (tasks k) m l (Process.task px) t0 dir0 ts0 pt -> kernel_mapped (tasks k) ->
  owns (kernel_heap k) m -> room (kernel_heap k) N -> (Z.to_nat (Heap.blocks_of (Process.size px)) + 2059 <= N)%nat ->
  length (processes k) = 12%nat -> first_zero (processes k) i ->
  wp (process_fork parent) (fun r k' => exists child ptr stack a t dir, r = (0, Some child) /\ child <> parent /\
    processes k' = <[i := child]> (processes k) /\
    proc_store k' = <[child := child_process px name (Z.of_nat i) ptr stack a]> (proc_store k) /\
    task_list (tasks k') (l ++ [a]) /\ current_task (tasks k') = current_task (tasks k) /\
    task_store (tasks k') !! a = Some t /\ Task.process t = child /\ task_registers t = child_registers (task_registers t0) /\
    (forall b old, b ∈ l -> task_store (tasks k) !! b = Some old -> exists new, task_store (tasks k') !! b = Some new /\
       page_directory new = page_directory old /\ task_registers new = task_registers old /\ Task.process new = Task.process old) /\
    chunks (pages (tasks k')) !! page_directory t = Some dir /\ dir <> dir0 /\
    (forall va, 0 <= va < 2 ^ 32 -> walk (tables (pages (tasks k'))) dir va = walk (tables (pages (tasks k))) dir0 va /\
       walk (tables (pages (tasks k'))) dir0 va = walk (tables (pages (tasks k))) dir0 va) /\
    private (ram (tasks k)) (ram (tasks k')) px ptr stack) k.
Proof.
  intros PA FK KM Ho Hr HN Hl Hz. eapply process_fork_spec; [exact PA|exact FK|exact KM|exact Ho|exact Hr|exact HN|exact Hl|exact Hz|].
  intros child ptr stack r h' x a t dir ts Hcp Hcm PR _ _ FD. destruct FK as [K1 K2 K3 K4 K5 K6 K7 K8].
  destruct FD as [F1 F2 F3 [F4 [F5 F6]] F7 F8 F9 F10 F11 F12].
  exists child, ptr, stack, a, t, dir. do 4 (split; [done|]). split; [exact F1|]. split.
  { change (current_task x = current_task (tasks k)). rewrite F3. destruct l; [by apply not_elem_of_nil in K4|done]. }
  do 3 (split; [done|]). split; [exact F11|]. split; [exact F7|]. split.
  { intros ->. apply (F10 dir0); by left. }
  split; [|change (private (ram (tasks k)) (ram x) px ptr stack); by rewrite F12].
  intros va Hv. change (tables (pages (tasks (kst k h' x _ _)))) with (tables (pages x)).
  rewrite (walk_spec _ _ _ _ _ F8 Hv), (walk_spec _ _ _ _ _ F9 Hv), (walk_spec _ _ _ _ _ K7 Hv). done.
Qed.
End fork.

(** ** The end of a process *)
Section free.
Context {P D H : Type} {A : Allocator H} {AS : AllocatorSpec H}.
Implicit Types k : kernel P D H.

(** The blocks of a process besides those of its task. *)
Definition process_blocks (p : Z) (x : process) (m : gmap Z Z) : gmap Z Z :=
  <[p := 2]> (<[Process.ptr x := Heap.blocks_of (Process.size x)]> (<[Process.stack x := 4]> m)).

(** The process [p] owns its object, program, stack and task, besides [m]. *)
Record owned_process (k : kernel P D H) (m : gmap Z Z) (p : Z) (x : process) (t : task) (dir : Z) (ts : list Z) (pt : Z -> Z) : Prop := {
  op_process : proc_store k !! p = Some x;
  op_slot : 0 <= Process.id x < Z.of_nat (length (processes k));
  op_distinct : p <> Process.ptr x /\ p <> Process.stack x /\ Process.ptr x <> Process.stack x;
  op_fresh : m !! p = None /\ m !! Process.ptr x = None /\ m !! Process.stack x = None;
  op_task : task_object (kernel_heap k, tasks k) (process_blocks p x m) (Process.task x) t dir ts pt;
  op_owns : owns (kernel_heap k) (with_blocks (task_blocks (Process.task x) (page_directory t) dir ts) (process_blocks p x m)) }.

Lemma wp_dealloc k h s ps pl m p n (Q : unit -> kernel P D H -> Prop) :
  owns h m -> m !! p = Some n ->
  (forall h', owns h' (delete p m) -> free_blocks h' = (free_blocks h + Z.to_nat n)%nat -> Q tt (kst k h' s ps pl)) ->
  wp (on_tasks (on_alloc (dealloc p))) Q (kst k h s ps pl).
Proof.
  intros Ho Hp HQ. apply wp_kst_tasks, wp_on_alloc. eapply wp_mono; [by apply (dealloc_spec h m p n)|]. intros [] h' (Ho' & Hf' & _). by apply HQ.
Qed.

(** The tasks after [a] was freed from [l1 ++ a :: l2]. *)
Definition freed (s : sched) (a : Z) (t : task) (dir : Z) (ts l1 l2 : list Z) (st : gmap Z task) : sched :=
  set_list (set_store (set_paging s (set_chunks (set_tables (pages s) (without (dir :: ts) (tables (pages s))))
      (delete (page_directory t) (chunks (pages s))))) (delete a st))
    (default 0 (head (l1 ++ l2))) (default 0 (last (l1 ++ l2))) (if a =? current_task s then default 0 (head (l2 ++ l1)) else current_task s).

Lemma process_free_spec k m N p x t dir ts pt l1 l2 (Q : unit -> kernel P D H -> Prop) :
  owned_process k m p x t dir ts pt -> let a := Process.task x in
  task_list (tasks k) (l1 ++ a :: l2) -> back_links (tasks k) (l1 ++ a :: l2) -> current_task (tasks k) ∈ l1 ++ a :: l2 ->
  room (kernel_heap k) N ->
  (forall h' st, owns h' m -> free_blocks h' = (1033 + Z.to_nat (Heap.blocks_of (Process.size x)) + free_blocks (kernel_heap k))%nat ->
     task_list (freed (tasks k) a t dir ts l1 l2 st) (l1 ++ l2) -> drop_next <$> st = drop_next <$> task_store (tasks k) ->
     Q tt (kst k h' (freed (tasks k) a t dir ts l1 l2 st) (delete p (proc_store k)) (<[Z.to_nat (Process.id x) := 0]> (processes k)))) ->
  wp (process_free p) Q k.
Proof.
  intros [P1 P2 (P3 & P3' & P3'') (P4 & P4' & P4'') P5 P6] a L Bl Hc Hr HQ. unfold process_free.
  destruct (owns_page _ _ p 2 P6) as (Hp & _).
  { rewrite with_blocks_notin; [apply lookup_insert_eq|]. intros Hin. destruct (to_fresh _ _ _ _ _ _ _ P5) as [_ Hf].
    specialize (Hf p Hin). unfold process_blocks in Hf. by rewrite lookup_insert_eq in Hf. }
  destruct (Z.eqb_spec p 0); [lia|]. rewrite <- (kst_start k) at 1. apply wp_bind. eapply wp_kst_get; [exact P1|].
  apply wp_bind, wp_kst_tasks. eapply (task_free_spec (kernel_heap k, tasks k)); [exact L|exact Bl|exact Hc|exact P5|exact P6|exact Hr|].
  intros h1 st Ho1 _ Hf1 c pg s1 L1 D1. cbn [fst snd] in *. unfold free_bytes, free_process.
  apply wp_bind. eapply wp_dealloc; [exact Ho1|unfold process_blocks; rewrite lookup_insert_ne by done; apply lookup_insert_eq|]. intros h2 Ho2 Hf2.
  apply wp_bind. eapply wp_dealloc; [exact Ho2| |].
  { unfold process_blocks. rewrite lookup_delete_ne, !lookup_insert_ne by done. apply lookup_insert_eq. }
  intros h3 Ho3 Hf3. apply wp_bind, wp_gets, wp_bind. eapply wp_lift; [by apply aset_ok|]. apply wp_bind, wp_modify.
  change (set_procs (kst _ _ _ _ _) _ _) with (kst k h3 s1 (proc_store k) (<[Z.to_nat (Process.id x) := 0]> (processes k))).
  apply wp_bind. eapply wp_dealloc; [exact Ho3| |].
  { unfold process_blocks. rewrite !lookup_delete_ne by done. apply lookup_insert_eq. }
  intros h4 Ho4 Hf4. apply wp_modify. apply (HQ h4 st); [|lia|exact L1|exact D1].
  assert (E : delete p (delete (Process.stack x) (delete (Process.ptr x) (process_blocks p x m))) = m); [|by rewrite E in Ho4].
  unfold process_blocks. rewrite delete_insert_ne by done. rewrite delete_insert_id by (by rewrite lookup_insert_ne by congruence).
  rewrite delete_insert_ne by done. rewrite (delete_insert_id m) by done. by apply delete_insert_id.
Qed.
End free.

(** ** A kernel with one process *)
Module ExampleProcess.
Import ExamplePaging ExampleUser.
Abbreviation machine := (kernel fat_file_descriptor Ram.ram KHeap.kheap).
Definition heap_of (n : nat) : KHeap.kheap := KHeap.mk_kheap (Heap.mk_heap (Heap.mk_table (replicate n 0) (Z.of_nat n)) 0x01000000) ∅.

Lemma heap_of_owns : owns (heap_of 4500) ∅.
Proof.
  exists ∅. split; [|done]. split; [|apply Heap.layout_replicate|done|done|done]. unfold Heap.table_ok. vm_compute. done.
Qed.
Lemma heap_of_room : room (heap_of 4500) 4500.
Proof.
  exists 0%nat. intros k Hk. exists 0. split; [|done]. change (replicate 4500 0 !! k = Some 0). apply lookup_replicate_2. lia.
Qed.

(** Low memory: the word [Hi], a buffer and a path of the program, three
    stacks with the arguments of system calls and room for more. *)
Definition shell_ram : gmap Z Z :=
  store_bytes (store_bytes (store_bytes (store_bytes (store_bytes (store_bytes (store_bytes ∅ 0x400000 [72; 105; 0]) 0x400100 (replicate 16 7))
    0x3FEF00 (le32 0xFFFFFFFF ++ le32 5)) 0x3FEF10 (le32 0x400000)) 0x3FEF20 (le32 0x400100 ++ le32 16))
    0x400200 [48; 58; 47; 97; 46; 116; 120; 116; 0]) 0x3FEF30 (replicate 12 0).

(** The kernel before it starts, with the interrupts that will come. *)
Definition before (l : list (list irq)) : machine :=
  mk_kernel (mk_vfs [] [] (FatTypes.mk_fs ∅ (heap_of 4500) (FatTypes.mk_disk 0 512 0 false None)))
    (mk_sched no_paging shell_ram ∅ 0 0 0 0 0 KERNEL_DATA_SELECTOR []) (Terminal.mk_term (replicate 2000 0) 7 7 0 ∅) ∅ (replicate 12 0) ∅ 0 0
    (Some <$> [isr80h_sum; isr80h_print; isr80h_open; isr80h_read; isr80h_fork; isr80h_exit; isr80h_readline; isr80h_write;
               isr80h_delete; isr80h_close; isr80h_readdir; isr80h_wait]) l.
Definition shell_name : list Z := [115; 104] ++ replicate 106 0.

(** The kernel's address space, and a process with a program of ten bytes. *)
Definition start_shell : M (machine) Z :=
  _ ← on_screen terminal_initialize;
  c ← on_tasks (on_paging (paging_new_4gb 7));
  _ ← on_tasks (modify_sched (fun s => set_kernel_chunk s c));
  _ ← on_tasks (on_paging (paging_switch c));
  p ← alloc_process;
  ptr ← on_tasks (alloc_bytes 10);
  stack ← on_tasks (alloc_bytes 16384);
  t ← on_tasks (task_new p);
  x ← get_process p;
  _ ← put_process p (Process.mk 0 shell_name t ptr stack 10 (Process.keyboard x));
  _ ← modify (fun k => set_procs k (proc_store k) (p :: replicate 11 0));
  _ ← on_tasks (modify_sched (fun s => set_current s t p));
  mret p.
(** What is known once it runs. *)
Definition shell_process (a ptr stack : Z) : process := Process.mk 0 shell_name a ptr stack 10 (Process.keyboard Process.zero).
Record shell_runs (l : list (list irq)) (k : machine) (m : gmap Z Z) (p a ptr stack dir : Z) (ts : list Z) (t : task)
    (kdir : Z) (kts : list Z) : Prop := {
  sr_process : proc_store k = {[p := shell_process a ptr stack]};
  sr_live : is_Some (m !! p);
  sr_fork : forkable (tasks k) m [a] a t dir ts (identity 5);
  sr_kernel : in_kernel (kernel_heap k, tasks k) m a t dir ts (identity 5) kdir kts;
  sr_room : room (kernel_heap k) 2440;
  sr_ptr : m !! ptr = Some 1;
  sr_stack : m !! stack = Some 4;
  sr_bytes : forall i, 0 <= i < 10 -> is_Some (ram (tasks k) !! (ptr + i));
  sr_stack_bytes : forall i, 0 <= i < 16384 -> is_Some (ram (tasks k) !! (stack + i));
  sr_slots : processes k = p :: replicate 11 0;
  sr_low : forall pa, pa < 0x01000000 -> ram (tasks k) !! pa = shell_ram !! pa;
  sr_current : current_task (tasks k) = a /\ a <> 0 /\ current_process (tasks k) = p /\ Task.process t = p;
  sr_klive : forall b, b ∈ kernel_chunk (tasks k) :: kdir :: kts -> is_Some (m !! b);
  sr_blocks : exists m1, m = with_blocks (task_blocks a (page_directory t) dir ts) (process_blocks p (shell_process a ptr stack) m1) /\
    fresh_blocks (task_blocks a (page_directory t) dir ts) (process_blocks p (shell_process a ptr stack) m1) /\
    (p <> ptr /\ p <> stack /\ ptr <> stack) /\ m1 !! p = None /\ m1 !! ptr = None /\ m1 !! stack = None;
  sr_rest : isr80h_commands k = isr80h_commands (before l) /\ irqs k = l;
  sr_screen : shows (Kernel.screen k) empty_screen (replicate 400 0) /\ cursor_at (Kernel.screen k) empty_screen }.

(** Two buffers are allocated. *)
Record two_buffers (r r' : gmap Z Z) (p n q n' : Z) : Prop := {
  tb_first : forall i, 0 <= i < n -> is_Some (r' !! (p + i));
  tb_second : forall i, 0 <= i < n' -> is_Some (r' !! (q + i));
  tb_low : forall pa, pa < 0x01000000 -> r' !! pa = r !! pa }.

Lemma alloc_two_spec {T} (k : machine) h s ps pl m N n1 n2 (cont : Z -> Z -> M _ T) Q :
  owns h m -> room h N -> 0 < n1 < 2 ^ 31 -> 0 < n2 < 2 ^ 31 -> (Z.to_nat (Heap.blocks_of n1) + Z.to_nat (Heap.blocks_of n2) <= N)%nat ->
  (forall p q h' r, let m1 := <[p := Heap.blocks_of n1]> m in m !! p = None -> m1 !! q = None -> owns h' (<[q := Heap.blocks_of n2]> m1) ->
     room h' (N - Z.to_nat (Heap.blocks_of n1) - Z.to_nat (Heap.blocks_of n2)) -> two_buffers (ram s) r p n1 q n2 ->
     wp (cont p q) Q (kst k h' (set_ram s r) ps pl)) ->
  wp (p ← on_tasks (alloc_bytes n1); q ← on_tasks (alloc_bytes n2); cont p q) Q (kst k h s ps pl).
Proof.
  intros Ho Hr H1 H2 HN HQ. apply wp_bind, wp_kst_tasks. eapply (alloc_bytes_room (h, s) m n1); [exact Ho|exact H1|exact Hr|lia|].
  intros p h1 Hp _ _ Hpm Ho1 Hr1. cbn [fst snd] in *. apply wp_bind, wp_kst_tasks.
  eapply (alloc_bytes_room (h1, _)); [exact Ho1|exact H2|exact Hr1|lia|]. intros q h2 Hq _ _ Hqm Ho2 Hr2. cbn [fst snd] in *.
  apply HQ; try assumption. cbn [set_ram ram]. split.
  - intros i Hi. apply store_bytes_some. exists 0. replace i with (Z.of_nat (Z.to_nat i)) by lia. apply store_bytes_in, lookup_replicate_2. lia.
  - intros i Hi. exists 0. replace i with (Z.of_nat (Z.to_nat i)) by lia. apply store_bytes_in, lookup_replicate_2. lia.
  - intros pa Hpa. rewrite !store_bytes_out by lia. reflexivity.
Qed.

Lemma start_shell_spec l (Q : Z -> machine -> Prop) :
  (forall k m p a ptr stack dir ts t kdir kts, shell_runs l k m p a ptr stack dir ts t kdir kts -> Q p k) -> wp start_shell Q (before l).
Proof.
  intros HQ. unfold start_shell. apply wp_bind, wp_on_screen. apply initialize_spec; [cbn [Kernel.screen before video_mem]; rewrite length_replicate; lia|].
  intros scr Hsc Hcu. set (k0 := set_screen (before l) scr). rewrite <- (kst_start k0).
  apply wp_bind, wp_kst_tasks, wp_on_paging.
  eapply (paging_new_4gb_spec (heap_of 4500, no_paging) ∅ 4500); [exact heap_of_owns|exact heap_of_room|lia|lia|done|].
  intros c kdir kts [h1 p1] (S1 & S2 & S3 & S4 & S5 & S6 & _). cbn [fst snd] in *.
  apply wp_bind, wp_kst_tasks, wp_modify_sched, wp_bind, wp_kst_tasks. eapply wp_switch_chunk; [cbn; rewrite S2; apply lookup_insert_eq|]. cbn [fst snd].
  set (m1 := with_blocks (c :: kdir :: kts) ∅) in *. set (s1 := set_paging _ _).
  (* the process, its program and its stack *)
  unfold alloc_process. apply wp_bind, wp_bind, wp_kst_tasks, wp_on_alloc. cbn [fst snd].
  eapply wp_mono; [apply (alloc_room h1 m1 Process.sizeof (4500 - 1026) S4); [unfold Process.sizeof; lia|exact S5|change (Z.to_nat (Heap.blocks_of Process.sizeof)) with 2%nat; lia]|].
  intros p h2 (Hp0 & Hpm & Ho2 & Hr2 & _). change (Heap.blocks_of Process.sizeof) with 2 in *. change (Z.to_nat 2) with 2%nat in Hr2.
  apply Z.eqb_neq in Hp0 as Hp0'. rewrite Hp0'. apply wp_bind, wp_modify, wp_ret. set (m2 := <[p := 2]> m1) in *.
  change (set_procs (kst _ _ _ _ _) _ _) with (kst k0 h2 s1 {[p := Process.zero]} (processes k0)).
  eapply (alloc_two_spec k0 h2 s1 _ _ m2 (4500 - 1026 - 2) 10 16384); [exact Ho2|exact Hr2|lia|lia| |].
  { change (Z.to_nat (Heap.blocks_of 10)) with 1%nat. change (Z.to_nat (Heap.blocks_of 16384)) with 4%nat. lia. }
  intros ptr stack h4 r m3 Hqm Hsm Ho4 Hr4 [E1 E2 E3].
  change (Heap.blocks_of 10) with 1 in *. change (Heap.blocks_of 16384) with 4 in *. change (Z.to_nat 1) with 1%nat in Hr4. change (Z.to_nat 4) with 4%nat in Hr4.
  set (m4 := <[stack := 4]> m3) in *. set (s4 := set_ram s1 r). change (ram s1) with shell_ram in E3. change r with (ram s4) in E1, E2, E3.
  assert (E0 : pages s4 = pages s1 /\ task_store s4 = ∅ /\ task_head s4 = 0 /\ task_tail s4 = 0 /\ kernel_chunk s4 = c) by done.
  clearbody s4. destruct E0 as (E4 & E5 & E6 & E7 & E8).
  (* the task *)
  assert (L0 : task_list s4 []) by (split; try done; [apply NoDup_nil_2|apply not_elem_of_nil]).
  apply wp_bind, wp_kst_tasks. eapply (task_new_spec (h4, s4) m4 (4500 - 1026 - 2 - 1 - 4) []); [exact L0|by intros b Hb%not_elem_of_nil|exact Ho4|exact Hr4|lia|].
  intros a c' dir ts h5 pg x Ha0 Hal T.
  destruct (task_new_state (h4, s4) _ _ _ p _ _ _ _ _ _ L0 Ha0 Hal T) as (L & B & [O1 O2 O3 O4]). fold x in L, B, O1, O2, O3.
  pose proof T as [T1 T2 T3 T4 T5 T6 T7 [T8 T9]]. cbn [fst snd] in *.
  apply wp_bind. eapply wp_kst_get; [apply lookup_singleton_eq|]. apply wp_bind. eapply wp_kst_put; [apply lookup_singleton_eq|].
  apply wp_bind, wp_modify. rewrite insert_singleton_eq.
  change (set_procs (kst _ _ _ _ _) _ _) with (kst k0 h5 x {[p := shell_process a ptr stack]} (p :: replicate 11 0)).
  apply wp_bind, wp_kst_tasks, wp_modify_sched, wp_ret. cbn [fst snd]. set (y := set_current x a p).
  set (m5 := with_blocks (task_blocks a c' dir ts) m4) in *.
  assert (Hf : forall b n, m4 !! b = Some n -> (b ∉ task_blocks a c' dir ts) /\ m5 !! b = Some n).
  { intros b n Hb. assert (Hnb : b ∉ task_blocks a c' dir ts) by (intros Hin; destruct T1 as [_ T1]; specialize (T1 b Hin); congruence).
    split; [done|]. unfold m5. by rewrite with_blocks_notin. }
  assert (Hup : forall b, b ∈ c :: kdir :: kts -> (b ∉ task_blocks a c' dir ts)).
  { intros b Hb. apply (Hf b 1). do 3 (apply insert_fresh; [done|]). by apply with_blocks_in. }
  assert (IK : in_kernel (h5, y) m5 a (new_task p c' []) dir ts (identity 5) kdir kts).
  { split; try done; cbn [fst snd y set_current pages x set_list set_store set_paging].
    - change (kernel_chunk y) with (kernel_chunk s4). rewrite E8, T5, E4, lookup_insert_ne; [cbn; rewrite S2; apply lookup_insert_eq|].
      intros ->. apply (Hup c); [by left|right; by left].
    - apply (space_frame _ _ _ _ _ _ S1). intros b Hb. rewrite T7; [by rewrite E4|]. intros Hin.
      apply (Hup b); [by right|by right; right].
    - intros b Hb Hin. apply (Hup b); [by right|by right; right; right].
    - by rewrite T8, E4. }
  assert (SB : p <> ptr /\ p <> stack /\ ptr <> stack /\ m1 !! ptr = None /\ m1 !! stack = None).
  { unfold m3 in Hsm. apply lookup_insert_None in Hsm as [H1 H2]. unfold m2 in H1, Hqm. apply lookup_insert_None in H1 as [H1 H3].
    apply lookup_insert_None in Hqm as [H4 H5]. done. }
  destruct SB as (B1 & B2 & B3 & B4 & B5).
  assert (E4' : m4 = process_blocks p (shell_process a ptr stack) m1).
  { unfold m4, m3, m2, process_blocks. cbn [Process.ptr Process.stack Process.size shell_process]. change (Heap.blocks_of 10) with 1.
    rewrite (insert_insert_ne m1 ptr stack) by done. rewrite (insert_insert_ne _ p stack), (insert_insert_ne m1 p ptr) by done.
    by rewrite (insert_insert_ne _ stack ptr) by done. }
  eapply (HQ _ m5 p a ptr stack dir ts (new_task p c' []) kdir kts). split; try done.
  - exists 2. apply Hf. do 2 (apply insert_fresh; [done|]). apply lookup_insert_eq.
  - split; try done.
    + by destruct L; split.
    + apply B. by intros i b Hb.
    + intros b Hb. apply list_elem_of_singleton in Hb as ->. exists 1. apply with_blocks_in. by left.
    + by left.
    + intros b Hb. exists 1. apply with_blocks_in. by right.
  - apply Hf. apply insert_fresh; [done|]. apply lookup_insert_eq.
  - apply Hf. apply lookup_insert_eq.
  - intros b Hb. change (b ∈ kernel_chunk s4 :: kdir :: kts) in Hb. rewrite E8 in Hb. exists 1. apply Hf. do 3 (apply insert_fresh; [done|]). by apply with_blocks_in.
  - exists m1. unfold m5. by rewrite <- E4'.
Qed.
End ExampleProcess.
Import ExampleProcess.

Lemma process_map_memory_correct_witness :
  wp (p ← start_shell; process_map_memory p) (fun res k' => res = 0 /\ exists dir ptr, 0 <= ptr /\
    translate (tables (pages (tasks k'))) dir 0x400002 = Some (ptr + 2)) (before []).
Proof.
  apply wp_bind, start_shell_spec. intros k m p a ptr stack dir ts t kdir kts [R1 R2 R3 RK R6 R7 R8 R9 R10 R11 _ _ _ _].
  pose proof (ik_owns _ _ _ _ _ _ _ _ _ RK) as R5. cbn [fst] in R5.
  destruct (owns_page _ _ ptr 1 R5 R7) as (P1 & P2 & P3 & P4). destruct (owns_page _ _ stack 4 R5 R8) as (S1 & S2 & S3 & S4).
  eapply wp_mono; [apply (process_map_memory_correct k p (shell_process a ptr stack) t dir ts (identity 5))|].
  - destruct R3 as [K1 K2 K3 K4 K5 K6 K7 K8]. split.
    + rewrite R1. apply lookup_singleton_eq.
    + exact K5.
    + exact K6.
    + exact K7.
    + simpl. lia.
    + simpl. lia.
    + simpl. lia.
  - intros res k' (-> & Hv & _). split; [reflexivity|]. exists dir, ptr. split; [lia|].
    destruct (Hv 0x400002 ltac:(lia)) as (_ & H2 & _). simpl in H2. rewrite H2 by (change (rounded 10) with 4096; lia). f_equal.
Defined.

Lemma process_fork_correct_witness :
  wp (p ← start_shell; r ← process_fork p; mret (p, r)) (fun r k' => exists p child, r = (p, (0, Some child)) /\
    processes k' = p :: child :: replicate 10 0 /\ exists x, proc_store k' !! child = Some x /\ Process.id x = 1) (before []).
Proof.
  apply wp_bind, start_shell_spec. intros k m p a ptr stack dir ts t kdir kts [R1 R2 R3 RK R6 R7 R8 R9 R10 R11 _ _ _ _].
  pose proof (ik_owns _ _ _ _ _ _ _ _ _ RK) as R5. cbn [fst] in R5. apply wp_bind.
  eapply wp_mono; [apply (process_fork_correct k m 2440 p (shell_process a ptr stack)
    [115; 104] 1 [a] t dir ts (identity 5))|].
  - split.
    + rewrite R1. apply lookup_singleton_eq.
    + exact R2.
    + simpl. lia.
    + exact R7.
    + exact R8.
    + exact R9.
    + exact R10.
    + split; [reflexivity|simpl; lia].
  - exact R3.
  - exists kts. destruct RK as [_ _ _ _ K5 _ K7 _]. simpl in K5, K7. rewrite K7. exact K5.
  - exact R5.
  - exact R6.
  - change (Z.to_nat (Heap.blocks_of (Process.size _))) with 1%nat. lia.
  - rewrite R11. reflexivity.
  - rewrite R11. split; [reflexivity|]. intros [|j] Hj; [|lia]. simpl. destruct R2 as [n Hn]. destruct (owns_page _ _ p n R5 Hn) as [Hp _]. intros E. injection E as ->. lia.
  - intros r k' (child & q & st & b & t' & d & -> & Hne & H3 & H4 & _). apply wp_ret. exists p, child. split; [reflexivity|].
    rewrite H3, R11. split; [reflexivity|]. rewrite H4, lookup_insert_eq. eexists. split; reflexivity.
Defined.
