(* ===== verification/Load.v ===== *)
(** * Loading programs: [process_load] of src/task/process.c on a FAT16 volume

    [process_load] opens a file, reads it whole into fresh memory, and gives
    the new process a task whose address space shows the program and a
    stack.  The first part states what the file layer does with an existing
    file; the second composes it with the heap, the tasks and the paging. *)
From Stdlib Require Import ZArith Lia.
From stdpp Require Import base list gmap numbers option list_numbers.
From S2P Require Import Prelude CLib Heap Disk PathParser FatTypes FatTable FatData FatDir Fat16 FatFiles FatFrame Mount Vfs FileIO.
From S2P Require Import Terminal Paging Task UserMem Kernel Process.
Local Open Scope Z_scope.
Local Open Scope kernel_scope.

(** ** An existing file *)
Section existing.
Context {D : Type} {B : BlockDevice D} {BS : BlockDeviceSpec D} {H : Type} {A : Allocator H} {AS : AllocatorSpec H}.
Abbreviation state := (vfs fat_file_descriptor D H).
Implicit Types (v : state) (s : fs_state D H).

(** The name [base.e] finds the entry [it] of slot [i] and no other one; the
    file is not empty and its chain [l] holds all of it. *)
Record stored_file s (ch : gmap nat (list Z)) (base e : list Z) (i : nat) (it : fat_directory_item) (l : list Z) : Prop := {
  sf_vol : vol_ok s ch;
  sf_match : only_match s base e i it;
  sf_chain : ch !! i = Some l;
  sf_follow : followed l;
  sf_size : 0 < filesize it < 2 ^ 31;
  sf_fits : filesize it <= csize s * Z.of_nat (length l) }.

(** What the file holds. *)
Definition contents s (it : fat_directory_item) (l : list Z) : list Z := take (Z.to_nat (filesize it)) (chain_bytes s l).

Lemma length_contents s ch base e i it l : stored_file s ch base e i it l -> length (contents s it l) = Z.to_nat (filesize it).
Proof.
  intros [V _ _ _ F1 F2]. pose proof (csize_pos s (vo_geometry _ _ V)). pose proof (length_chain_bytes s l) as Hc.
  unfold contents. rewrite length_take. lia.
Qed.

Lemma stored_heap s h ch base e i it l : stored_file s ch base e i it l -> stored_file (set_heap s h) ch base e i it l.
Proof. intros [V [M1 M2 M3 M4 M5] F1 F2 F3 F4]. split; try done. by apply vol_heap. Qed.

(** Files depend on the header, the root directory and the sectors only. *)
Lemma bytes_agree s s' p n : same_disk (dev s) (dev s') -> bytes (dev s') p n = bytes (dev s) p n.
Proof. intros Hd. by apply bytes_same. Qed.
Lemma vol_agree s s' ch : fs_ok s' -> hdr s' = hdr s -> root s' = root s -> same_disk (dev s) (dev s') -> vol_ok s ch -> vol_ok s' ch.
Proof.
  intros Hs Eh Er Hd [V1 V2 V3 V4 V5 V6 V7]. assert (L : layout s' = layout s) by (unfold layout; by rewrite Eh, Er).
  split; rewrite ?Er; try done.
  - by eapply geometry_layout.
  - apply (dir_ok_same s s'); try done. intros j _. by apply bytes_agree.
  - intros j x c Hx Hc. apply (chain_of_same s s'); [done| |by eapply V6].
    intros y _. unfold fat_at, fat_pos. rewrite Eh. by rewrite (bytes_agree s).
Qed.
Lemma stored_agree s s' ch base e i it l : fs_ok s' -> hdr s' = hdr s -> root s' = root s -> same_disk (dev s) (dev s') ->
  stored_file s ch base e i it l -> stored_file s' ch base e i it l.
Proof.
  intros Hs Eh Er Hd [V [M1 M2 M3 M4 M5] F1 F2 F3 F4].
  split; try done; [by eapply vol_agree|split; rewrite ?Er; done|]. unfold csize in *. by rewrite Eh.
Qed.
Lemma chain_bytes_agree s s' l : hdr s' = hdr s -> root s' = root s -> same_disk (dev s) (dev s') -> chain_bytes s' l = chain_bytes s l.
Proof.
  intros Eh Er Hd. unfold chain_bytes. apply list_bind_ext; [|done]. intros x.
  unfold cluster_bytes, cluster_pos, data_start, csize. rewrite Eh, Er. by apply bytes_agree.
Qed.

(** Reading leaves every file where it was. *)
Lemma vol_quiet s s' ch : quiet s s' -> vol_ok s ch -> vol_ok s' ch.
Proof. intros [Q1 Q2 Q3]. by apply vol_agree; [|apply view_hdr|apply view_root|]. Qed.
Lemma stored_quiet s s' ch base e i it l : quiet s s' -> stored_file s ch base e i it l -> stored_file s' ch base e i it l.
Proof. intros [Q1 Q2 Q3]. by apply stored_agree; [|apply view_hdr|apply view_root|]. Qed.

(** The descriptor that opening the file gives. *)
Record reading (desc : fat_file_descriptor) (it : fat_directory_item) : Prop := {
  re_type : fi_type (fd_item desc) = FAT_ITEM_TYPE_FILE;
  re_union : exists q, fi_union (fd_item desc) = UItem (Some (q, it));
  re_pos : fd_pos desc = 0 }.

Lemma open_existing_spec v ch m base e tail i it l j (Q : Z -> state -> Prop) :
  stored_file (driver v) ch base e i it l -> owns (heap (driver v)) m -> (7 <= free_blocks (heap (driver v)))%nat ->
  filesystem (the_disk (driver v)) = true -> valid83 base e -> SLASH ∉ dotted base e ->
  length (file_descriptors v) = 512%nat -> first_free (file_descriptors v) j -> (j < 511)%nat ->
  (forall addrs a desc h, length addrs = 3%nat -> fresh_blocks addrs m -> reading desc it ->
     desc_fresh desc (with_blocks addrs m) -> desc_objects desc (with_blocks addrs m) !! a = None ->
     owns h (<[a := 1]> (desc_objects desc (with_blocks addrs m))) -> loses (heap (driver v)) h 8 ->
     free_blocks (heap (driver v)) = (7 + free_blocks h)%nat ->
     Q (Z.of_nat j + 1) (mk_vfs (filesystems v) (<[j := Some (new_fd a j desc)]> (file_descriptors v)) (set_heap (driver v) h))) ->
  wp (fopen (root_file base e tail) [114; 0]) Q v.
Proof.
  intros [V [M1 M2 M3 M4 M5] F1 F2 F3 F4] Ho Hf Hm Hv Hsl Hl Hj Hj511 HQ.
  apply (fopen_wp v m _ _ _ _ FILE_MODE_READ _ (root_file_openable v m base e tail [114; 0] FILE_MODE_READ Ho Hv Hsl
    ltac:(lia) Hm eq_refl ltac:(done) Hl)).
  intros addrs h La Fad Oad Nad Lad. simpl in La, Lad. cbn [fmap list_fmap]. rewrite part_buf_name by done.
  eapply wp_mono; [apply (open_read_spec (set_heap (driver v) h) (with_blocks addrs m) base e _ i it); try done|].
  { by destruct (vo_fs _ _ V). } { by destruct (vo_dir _ _ V). } { cbn [heap set_heap]. lia. }
  intros r s1 (desc & h1 & q & -> & -> & Hty & Hu & Hp & _ & Hfresh & Ho1 & Hn1 & L1). cbn beta iota.
  exists (desc_objects desc (with_blocks addrs m)). split; [done|]. cbn [heap set_heap] in *. split; [lia|].
  split; [intros U; by destruct (all_used_free _ _ U Hj)|].
  intros j' a h' Hj' _ Fa Oa Na La'. rewrite (first_free_unique _ _ _ Hj' Hj).
  apply (HQ addrs a desc h'); try done.
  - split; eauto.
  - eapply loses_trans; [exact Lad|eapply loses_trans; [exact L1|exact La'|reflexivity]|reflexivity].
  - lia.
Qed.

Lemma fstat_spec v j a desc it st :
  file_descriptors v !! j = Some (Some (new_fd a j desc)) -> (j < 511)%nat -> reading desc it ->
  wp (fstat (Z.of_nat j + 1) st) (fun r v' => v' = v /\ fst r = 0 /\ st_filesize (snd r) = filesize it) v.
Proof.
  intros Hj Hlt [R1 [q R2] R3]. unfold fstat. apply wp_bind. eapply wp_get_descriptor; [exact Hj|done|]. cbn beta iota.
  apply wp_bind, wp_ret, wp_on_driver. change (op_stat desc st) with (fat16_stat (D:=D) (H:=H) desc st).
  unfold fat16_stat, desc_item. rewrite R1, R2. cbn [Z.eqb FAT_ITEM_TYPE_FILE negb Pos.eqb].
  apply wp_bind, wp_ret, wp_ret. split; [by destruct v|]. done.
Qed.

(** Reading the start of an open file. *)
Lemma fread_start_spec v j a desc ch base e i it l size nmemb (Q : Z * list Z -> state -> Prop) :
  file_descriptors v !! j = Some (Some (new_fd a j desc)) -> (j < 511)%nat -> reading desc it ->
  stored_file (driver v) ch base e i it l -> 0 < size -> 0 < nmemb -> nmemb * size < 2 ^ 31 ->
  nmemb * size <= csize (driver v) * Z.of_nat (length l) -> (forall k, 0 <= k < nmemb -> read_ok (driver v) (k * size) size) ->
  (forall s', quiet (driver v) s' -> Q (nmemb, take (Z.to_nat (nmemb * size)) (chain_bytes (driver v) l)) (set_driver v s')) ->
  wp (fread size nmemb (Z.of_nat j + 1)) Q v.
Proof.
  intros Hj Hlt [R1 [q R2] R3] [V [M1 M2 M3 M4 M5] F1 F2 F3 F4] Hs Hn Hm Hc Hk HQ. unfold fread.
  destruct (Z.eqb_spec size 0), (Z.eqb_spec nmemb 0), (Z.ltb_spec (Z.of_nat j + 1) 1); try lia. cbn [orb].
  apply wp_bind. eapply wp_get_descriptor; [exact Hj|done|]. cbn beta iota. apply wp_bind, wp_ret, wp_on_driver.
  destruct (vo_chain _ _ V i it l M1 F1) as [[-> _]|[C1 C2 C3]]; [simpl in F4; lia|].
  change (op_read desc size nmemb) with (fat16_read (D:=D) (H:=H) desc size nmemb).
  eapply wp_mono; [apply (fat16_read_spec (driver v) desc q it l size nmemb); try done; try apply V; rewrite ?R3; try lia|].
  - intros k Hk'. by apply Hk.
  - intros r s' [-> Q']. rewrite R3. by apply HQ.
Qed.

(** Reading all of an open file as one member. *)
Lemma fread_whole_spec v j a desc ch base e i it l (Q : Z * list Z -> state -> Prop) :
  file_descriptors v !! j = Some (Some (new_fd a j desc)) -> (j < 511)%nat -> reading desc it ->
  stored_file (driver v) ch base e i it l ->
  (forall s', quiet (driver v) s' -> Q (1, contents (driver v) it l) (set_driver v s')) ->
  wp (fread (filesize it) 1 (Z.of_nat j + 1)) Q v.
Proof.
  intros Hj Hlt Rd Sf HQ. pose proof (sf_size _ _ _ _ _ _ _ Sf). pose proof (sf_fits _ _ _ _ _ _ _ Sf).
  eapply fread_start_spec; try done; try lia.
  - intros k Hk. assert (k = 0) as -> by lia. split; left; [by rewrite Zmod_0_l|done].
  - rewrite Z.mul_1_l. exact HQ.
Qed.

(** No entry of the directory has the name [base.e]. *)
Definition missing s (base e : list Z) : Prop :=
  forall i x, Z.of_nat i < total (root s) -> item (root s) !! i = Some x -> ~ name_matches (dotted base e) x.

Lemma open_missing_spec s m base e k : fs_ok s -> dir_ok s -> owns (heap s) m -> (1 <= free_blocks (heap s))%nat -> valid83 base e ->
  missing s base e ->
  wp (fat16_open [c_name base e k] FILE_MODE_READ) (fun r s' => exists h, s' = set_heap s h /\ r = inl (- EIO) /\ owns h m /\ loses (heap s) h 1) s.
Proof.
  intros Hs Hd Ho Hf Hv Hno. pose proof Hs as [_ _ (p & E & _)]. assert (Er : root s = root_directory p) by (unfold root; by rewrite E).
  unfold fat16_open. cbn [Z.eqb FILE_MODE_READ]. unfold open_read.
  eapply wp_step; [by apply (zalloc_spec s m sizeof_descriptor)|].
  intros a s1 (h1 & -> & [(-> & O1 & N1)|(Ha & Fa & O1 & N1 & L1)]); [lia|]. destruct (Z.eqb_spec a 0); [lia|].
  unfold fat16_get_directory_entry. apply wp_bind, wp_bind, (wp_private _ _ p); [done|]. rewrite <- Er.
  unfold fat16_find_item_in_directory. pose proof (d_total _ Hd) as Ht. pose proof (d_len _ Hd) as Hl.
  eapply wp_step; [apply (find_item_none _ _ (dotted base e) (dir_items_ok s Hd) (c_name_search base e k Hv) _ 0)|].
  - lia.
  - intros j x Hj. apply Hno. lia.
  - intros r s2 [-> ->]. apply wp_ret. eapply wp_step; [eapply (release_spec (set_heap s h1) _ a 1); [exact O1|apply lookup_insert_eq]|].
    intros u s3 (h3 & -> & O3 & _ & L3). apply wp_ret. exists h3. do 2 (split; [done|]). rewrite delete_insert_id in O3 by done. split; [done|].
    eapply loses_trans; [exact L1|exact L3|lia].
Qed.

Lemma fopen_missing_spec v m base e tail (Q : Z -> state -> Prop) :
  fs_ok (driver v) -> dir_ok (driver v) -> missing (driver v) base e -> owns (heap (driver v)) m -> (7 <= free_blocks (heap (driver v)))%nat ->
  filesystem (the_disk (driver v)) = true -> valid83 base e -> SLASH ∉ dotted base e -> length (file_descriptors v) = 512%nat ->
  (forall addrs h, length addrs = 3%nat -> fresh_blocks addrs m -> owns h (with_blocks addrs m) -> loses (heap (driver v)) h 5 ->
     Q 0 (set_driver v (set_heap (driver v) h))) ->
  wp (fopen (root_file base e tail) [114; 0]) Q v.
Proof.
  intros Hs Hd Hno Ho Hf Hm Hv Hsl Hl HQ.
  apply (fopen_wp v m _ _ _ _ FILE_MODE_READ _ (root_file_openable v m base e tail [114; 0] FILE_MODE_READ Ho Hv Hsl
    ltac:(lia) Hm eq_refl ltac:(done) Hl)).
  intros addrs h La Fad Oad Nad Lad. simpl in La, Lad. cbn [fmap list_fmap]. rewrite part_buf_name by done.
  eapply wp_mono; [apply (open_missing_spec (set_heap (driver v) h) (with_blocks addrs m) base e); try done|].
  { by apply fs_ok_heap. } { by destruct Hd. } { cbn [heap set_heap]. lia. }
  intros r s1 (h1 & -> & -> & Ho1 & L1). cbn beta iota. apply (HQ addrs h1); try done. eapply loses_trans; [exact Lad|exact L1|lia].
Qed.
End existing.

(** ** The program in memory *)

(** The bytes [data] at [p], and all other memory as it was. *)
Record filled (r r' : gmap Z Z) (p : Z) (data : list Z) : Prop := {
  fl_in : forall i b, data !! i = Some b -> r' !! (p + Z.of_nat i) = Some b;
  fl_out : forall a, a < p \/ p + Z.of_nat (length data) <= a -> r' !! a = r !! a }.

Lemma filled_twice r r1 r2 p data data' : filled r r1 p data -> filled r1 r2 p data' -> length data = length data' -> filled r r2 p data'.
Proof. intros [F1 F2] [G1 G2] E. split; [done|]. intros a Ha. rewrite G2 by done. apply F2. by rewrite E. Qed.
Lemma filled_store r p data : filled r (store_bytes r p data) p data.
Proof. split; [intros i b; apply store_bytes_in|intros a Ha; by apply store_bytes_out]. Qed.

(** [size] zero bytes at [p], and all other memory as it was. *)
Record cleared (r r' : gmap Z Z) (p size : Z) : Prop := {
  cl_in : forall i, 0 <= i < size -> r' !! (p + i) = Some 0;
  cl_out : forall a, a < p \/ p + size <= a -> r' !! a = r !! a }.

Lemma alloc_cleared {H} {A : Allocator H} {AS : AllocatorSpec H} (s : H * sched) m size N (Q : Z -> H * sched -> Prop) :
  owns (fst s) m -> 0 < size < 2 ^ 31 -> room (fst s) N -> (Z.to_nat (Heap.blocks_of size) <= N)%nat ->
  (forall p h' r, 0x01000000 <= p -> p + Heap.blocks_of size * 4096 < 2 ^ 31 -> p mod 4096 = 0 -> m !! p = None ->
     owns h' (<[p := Heap.blocks_of size]> m) -> room h' (N - Z.to_nat (Heap.blocks_of size)) -> cleared (ram (snd s)) r p size ->
     Q p (h', set_ram (snd s) r)) ->
  wp (alloc_bytes size) Q s.
Proof.
  intros Ho Hs Hr Hn HQ. eapply alloc_bytes_room; [exact Ho|exact Hs|exact Hr|exact Hn|]. intros p h' H1 H2 H3 H4 H5 H6.
  apply HQ; try done. split.
  - intros i Hi. replace i with (Z.of_nat (Z.to_nat i)) by lia. apply store_bytes_in, lookup_replicate_2. lia.
  - intros a Ha. apply store_bytes_out. rewrite length_replicate. lia.
Qed.

(** Objects of a descriptor, and a block that none of them is. *)
Lemma desc_objects_other desc m a p n : desc_fresh desc m -> let m1 := <[a := 1]> (desc_objects desc m) in
  m1 !! p = None -> <[p := n]> m1 = <[a := 1]> (desc_objects desc (<[p := n]> m)) /\ desc_fresh desc (<[p := n]> m) /\
    desc_objects desc (<[p := n]> m) !! a = desc_objects desc m !! a /\ m !! p = None.
Proof.
  intros Hf m1 Hp. unfold m1, desc_objects, desc_fresh in *. destruct (fi_union (fd_item desc)) as [[[q it]|]|]; try done.
  destruct Hf as (F1 & F2 & F3).
  apply lookup_insert_None in Hp as [Hp H1]. apply lookup_insert_None in Hp as [Hp H2].
  apply lookup_insert_None in Hp as [Hp H3]. apply lookup_insert_None in Hp as [Hp H4].
  split; [|split; [|split; [|done]]].
  - rewrite (insert_insert_ne _ p a), (insert_insert_ne _ p q), (insert_insert_ne _ p (fi_self _)), (insert_insert_ne _ p (fd_self _)) by done. done.
  - rewrite !lookup_insert_None in *. naive_solver.
  - rewrite (insert_insert_ne m (fd_self desc) p), (insert_insert_ne _ (fi_self _) p), (insert_insert_ne _ q p), (lookup_insert_ne _ p a) by done. done.
Qed.

Lemma desc_objects_subseteq desc m a n : desc_fresh desc m -> desc_objects desc m !! a = None -> m ⊆ <[a := n]> (desc_objects desc m).
Proof.
  unfold desc_fresh, desc_objects. destruct (fi_union (fd_item desc)) as [[[q it]|]|]; try done. intros (F1 & F2 & F3) Ha.
  etransitivity; [by apply insert_subseteq|]. etransitivity; [by apply insert_subseteq|]. etransitivity; [by apply insert_subseteq|].
  by apply insert_subseteq.
Qed.
Lemma with_blocks_subseteq l m : fresh_blocks l m -> m ⊆ with_blocks l m.
Proof.
  intros [_ F]. apply map_subseteq_spec. intros y v Hy. rewrite with_blocks_notin; [done|]. intros Hin. specialize (F y Hin). congruence.
Qed.

Section program.
Context {D : Type} {B : BlockDevice D} {BS : BlockDeviceSpec D} {H : Type} {A : Allocator H} {AS : AllocatorSpec H}.
Abbreviation P := fat_file_descriptor.
Implicit Types (k : kernel P D H) (f : vfs P D H).

(** A buffer of the kernel, filled with data. *)
Lemma memcpy_in_filled (h : H) (s : sched) p data (Q : unit -> H * sched -> Prop) :
  kernel_mapped s -> 0 <= p -> p + Z.of_nat (length data) < 2 ^ 31 ->
  (forall r, filled (store_bytes (ram s) p (replicate (length data) 0)) r p data -> Q tt (h, set_ram s r)) ->
  wp (memcpy_in p data 0 (length data)) Q (h, set_ram s (store_bytes (ram s) p (replicate (length data) 0))).
Proof.
  intros K Hp Hl HQ. apply (memcpy_in_spec (length data) _ p data 0).
  - intros j Hj. cbn [snd]. replace (p + Z.of_nat 0 + Z.of_nat j) with (p + Z.of_nat j) by lia.
    split; [apply (kernel_mapped_mmu s); [done|lia]|]. exists 0. cbn. by apply store_bytes_in, lookup_replicate_2.
  - lia.
  - rewrite drop_0, take_ge by lia. replace (p + Z.of_nat 0) with p by lia. apply HQ, filled_store.
Qed.

Lemma load_program_spec k f s ps pl m N j a desc ch base e i it l p x (Q : Z -> kernel P D H -> Prop) :
  let size := filesize it in let b := Heap.blocks_of size in
  stored_file (driver f) ch base e i it l -> file_descriptors f !! j = Some (Some (new_fd a j desc)) -> (j < 511)%nat ->
  reading desc it -> owns (heap (driver f)) m -> room (heap (driver f)) N -> (Z.to_nat b <= N)%nat ->
  kernel_mapped s -> ps !! p = Some x ->
  (forall ptr h' s' r, m !! ptr = None -> owns h' (<[ptr := b]> m) -> room h' (N - Z.to_nat b) ->
     quiet (set_heap (driver f) h') s' -> filled (ram s) r ptr (contents (driver f) it l) ->
     Q 0 (kfs k (set_driver f s') (set_ram s r) (<[p := Process.set_program x ptr size]> ps) pl)) ->
  wp (load_program (Z.of_nat j + 1) p) Q (kfs k f s ps pl).
Proof.
  intros size b Sf Hj Hlt Rd Ho Hr HN KM Hx HQ. unfold load_program.
  pose proof (sf_size _ _ _ _ _ _ _ Sf) as Hsz. pose proof (length_contents _ _ _ _ _ _ _ Sf) as Hlen.
  apply wp_bind, wp_kfs_files. eapply wp_mono; [by apply (fstat_spec f j a desc it)|].
  intros [res st] f' (-> & Hres & Hst). cbn [fst snd] in *. subst res. cbn [Z.eqb PEACHOS_ALL_OK negb]. rewrite Hst. fold size.
  apply wp_bind, wp_kfs_tasks. eapply (alloc_bytes_room _ m size N); [exact Ho|exact Hsz|exact Hr|exact HN|].
  intros ptr h' Hp1 Hp2 Hp3 Hpm Ho' Hr'. cbn [fst snd] in *. destruct (Z.eqb_spec ptr 0); [lia|].
  pose proof (blocks_of_bound size ltac:(lia)) as Hb.
  apply wp_bind, wp_kfs_files. eapply (fread_whole_spec (vfs_heap f h') j a desc ch base e i it l); [exact Hj|done|done|by apply stored_heap|].
  intros s' Qs. cbn beta iota. change (contents (driver (vfs_heap f h')) it l) with (contents (driver f) it l).
  set (data := contents (driver f) it l) in *. fold size in Hlen. rewrite <- Hlen.
  assert (Hh : heap s' = h') by exact (view_heap _ _ (q_view _ _ Qs)).
  apply wp_bind, wp_kfs_tasks. cbn [driver set_driver vfs_heap]. rewrite Hh.
  apply memcpy_in_filled; [done|lia|unfold b in *; lia|]. intros r Fr. cbn [fst snd Z.eqb Pos.eqb negb].
  apply wp_bind. eapply wp_kfs_get; [exact Hx|]. apply wp_bind. eapply wp_kfs_put; [exact Hx|]. apply wp_ret.
  rewrite <- Hh, vfs_heap_same. change (set_driver (vfs_heap f h') s') with (set_driver f s').
  apply (HQ ptr h'); try done. eapply filled_twice; [apply filled_store|exact Fr|]. by rewrite length_replicate.
Qed.

(** [process_load_binary] of an existing file: the descriptor is closed again,
    the three blocks of the parsed path stay allocated. *)
Lemma load_binary_spec k f s ps pl m N ch base e tail i it l p x (Q : Z -> kernel P D H -> Prop) :
  let size := filesize it in let b := Heap.blocks_of size in
  stored_file (driver f) ch base e i it l -> owns (heap (driver f)) m -> room (heap (driver f)) N -> (Z.to_nat b + 8 <= N)%nat ->
  filesystem (the_disk (driver f)) = true -> valid83 base e -> SLASH ∉ dotted base e -> length (file_descriptors f) = 512%nat ->
  (exists j, first_free (file_descriptors f) j /\ (j < 511)%nat) -> kernel_mapped s -> ps !! p = Some x ->
  (forall addrs ptr h' s' r, length addrs = 3%nat -> fresh_blocks addrs m -> with_blocks addrs m !! ptr = None ->
     owns h' (<[ptr := b]> (with_blocks addrs m)) -> room h' (N - 8 - Z.to_nat b) ->
     quiet (set_heap (driver f) h') s' -> filled (ram s) r ptr (contents (driver f) it l) ->
     Q 0 (kfs k (set_driver f s') (set_ram s r) (<[p := Process.set_program x ptr size]> ps) pl)) ->
  wp (process_load_binary (root_file base e tail) p) Q (kfs k f s ps pl).
Proof.
  intros size b Sf Ho Hr HN Hm Hv Hsl Hl (j & Hj & Hlt) KM Hx HQ. unfold process_load_binary.
  assert (Hb0 : (1 <= Z.to_nat b)%nat) by (pose proof (blocks_of_bound size); pose proof (sf_size _ _ _ _ _ _ _ Sf); unfold b, size in *; lia).
  assert (Hfb : (7 <= free_blocks (heap (driver f)))%nat) by (eapply room_free_all; [exact Ho|exact Hr|lia|lia|lia]).
  apply wp_bind, wp_kfs_files. eapply (open_existing_spec f ch m base e tail i it l j); try done.
  intros addrs a desc h La Fa Rd Df Da Oh Lo Nf. destruct (Z.eqb_spec (Z.of_nat j + 1) 0); [lia|].
  set (f1 := mk_vfs _ _ _). assert (Hr1 : room h (N - 8)) by (apply Lo; by replace (N - 8 + 8)%nat with N by lia).
  apply wp_bind. eapply (load_program_spec k f1 s ps pl _ (N - 8) j a desc ch base e i it l p x);
    [by apply stored_heap|by apply fd_cell|done|done|exact Oh|exact Hr1|unfold b, size in *; lia|done|done|].
  intros ptr h' s' r Hpm Ho' Hr' Qs Fr. fold size in Ho', Hr' |- *. fold b in Ho', Hr'.
  destruct (desc_objects_other desc _ a ptr b Df Hpm) as (E1 & E2 & E3 & E4). rewrite E1 in Ho'.
  assert (Hh : heap s' = h') by exact (view_heap _ _ (q_view _ _ Qs)).
  apply wp_bind, wp_kfs_files. eapply wp_mono; [eapply (fclose_spec (set_driver f1 s') _ j a desc)|].
  { by apply fd_cell. } { done. } { cbn. by rewrite length_insert. } { apply Rd. } { exact E2. } { by rewrite E3. }
  { cbn [driver set_driver]. rewrite Hh. exact Ho'. }
  intros c f2 (-> & h3 & -> & O3 & N3 & L3). apply wp_ret. cbn [filesystems file_descriptors driver set_driver f1] in *.
  rewrite list_insert_insert_eq, list_insert_id by apply Hj.
  change (mk_vfs (filesystems f) (file_descriptors f) (set_heap s' h3)) with (set_driver f (set_heap s' h3)).
  apply (HQ addrs ptr h3); try done.
  - apply L3. by rewrite Nat.add_0_r, Hh.
  - destruct Qs as [Q1 Q2 Q3]. split; [by apply fs_ok_heap| |exact Q3].
    revert Q2. unfold view. cbn. intros [= _ E5 E6 E7 E8 E9]. by rewrite E5, E6, E7, E8, E9.
Qed.
End program.

Lemma with_blocks_insert l m p n : p ∉ l -> with_blocks l (<[p := n]> m) = <[p := n]> (with_blocks l m).
Proof.
  intros Hp. apply map_eq. intros y. destruct (decide (y ∈ l)) as [Hy|Hy].
  - rewrite with_blocks_in, lookup_insert_ne, with_blocks_in by (done || by intros ->). done.
  - rewrite with_blocks_notin by done. destruct (decide (p = y)) as [->|]; [by rewrite !lookup_insert_eq|].
    by rewrite !lookup_insert_ne, with_blocks_notin by done.
Qed.

Section load.
Context {D : Type} {B : BlockDevice D} {BS : BlockDeviceSpec D} {H : Type} {A : Allocator H} {AS : AllocatorSpec H}.
Abbreviation P := fat_file_descriptor.
Implicit Types (k : kernel P D H) (f : vfs P D H).

(** A new allocation is apart from live memory. *)
Lemma live_apart (h : H) m m' p n pa : owns h m' -> (forall z v, m !! z = Some v -> m' !! z = Some v) -> m' !! p = Some n -> m !! p = None ->
  live m pa -> pa < p \/ p + n * 4096 <= pa.
Proof.
  intros Ho Hm Hp Hn L. destruct (owns_page _ _ p n Ho Hp) as (Hlo & _).
  destruct L as [?|(q & j & Hq & Hr)]; [lia|]. assert (p <> q) by congruence.
  destruct (owns_disjoint _ _ p q n j Ho Hp (Hm _ _ Hq)); [done|lia|lia].
Qed.

(** What [process_load] leaves: the process [p] in the slot, its file name,
    program and stack, its task at the end of the list, and everything else
    as it was.  The task runs at 0x400000 in the address space it was given. *)
Record loaded k k' (m : gmap Z Z) (tl : list Z) (slot : nat) (name data : list Z) (p : Z) (x : process) (t : task)
    (dir : Z) (ts addrs : list Z) : Prop := {
  ld_object : Process.id x = Z.of_nat slot /\ Process.filename x = name ++ 0 :: replicate (107 - length name) 0 /\
    Process.size x = Z.of_nat (length data) /\ Process.keyboard x = Process.keyboard Process.zero;
  ld_process : proc_store k' = <[p := x]> (proc_store k);
  ld_slots : processes k' = <[slot := p]> (processes k);
  ld_paths : length addrs = 3%nat /\ fresh_blocks addrs m;
  ld_owned : owned_process k' (with_blocks addrs m) p x t dir ts (image (identity 5) x);
  ld_list : task_list (tasks k') (tl ++ [Process.task x]) /\ back_links (tasks k') (tl ++ [Process.task x]);
  ld_task : task_registers t = initial_registers /\ Task.process t = p;
  ld_program : forall i b, data !! i = Some b -> ram (tasks k') !! (Process.ptr x + Z.of_nat i) = Some b;
  ld_stack : forall i, 0 <= i < 16384 -> ram (tasks k') !! (Process.stack x + i) = Some 0;
  ld_memory : memory_kept (tasks k) (tasks k') m;
  ld_tables : forall y, is_Some (m !! y) ->
    tables (pages (tasks k')) !! y = tables (pages (tasks k)) !! y /\ chunks (pages (tasks k')) !! y = chunks (pages (tasks k)) !! y;
  ld_sched : cr3 (pages (tasks k')) = cr3 (pages (tasks k)) /\ kernel_chunk (tasks k') = kernel_chunk (tasks k) /\
    data_segment (tasks k') = data_segment (tasks k) /\ current_process (tasks k') = current_process (tasks k) /\
    current_task (tasks k') = (if (length tl =? 0)%nat then Process.task x else current_task (tasks k));
  ld_files : exists s' h, files k' = set_driver (files k) s' /\ quiet (set_heap (driver (files k)) h) s';
  ld_rest : k' = kfs k (files k') (tasks k') (proc_store k') (processes k') }.

(** What it needs: a stored file, a free descriptor and a free slot, tasks
    that are well linked, and the kernel's own address space. *)
Record loadable k (ch : gmap nat (list Z)) (m : gmap Z Z) (tl : list Z) (slot : nat) (base e : list Z) (i : nat)
    (it : fat_directory_item) (l : list Z) : Prop := {
  la_file : stored_file (driver (files k)) ch base e i it l;
  la_name : valid83 base e /\ SLASH ∉ dotted base e;
  la_mounted : filesystem (the_disk (driver (files k))) = true;
  la_table : length (file_descriptors (files k)) = 512%nat;
  la_free : exists j, first_free (file_descriptors (files k)) j /\ (j < 511)%nat;
  la_slots : length (processes k) = 12%nat /\ first_zero (processes k) slot;
  la_owns : owns (kernel_heap k) m;
  la_kernel : kernel_mapped (tasks k);
  la_list : task_list (tasks k) tl /\ back_links (tasks k) tl;
  la_live : forall b, b ∈ tl -> is_Some (m !! b) }.

Lemma root_file_cstring base e tail : valid83 base e -> SLASH ∉ dotted base e ->
  let name := render_path 0 [dotted base e] in CString.cstring (root_file base e tail) = Some name /\ (length name < 108)%nat.
Proof.
  intros Hv Hs. pose proof (dotted_text base e Hv Hs) as Ht. destruct (dotted_ok _ _ Hv) as (_ & _ & L). split.
  - apply CString.cstring_app. eapply Forall_impl; [apply (render_bytes 0 [dotted base e]); [lia|by apply Forall_singleton]|]. by intros c [_ ?].
  - unfold render_path. simpl. rewrite app_nil_r. lia.
Qed.

(** The address space of a new process: the new task's, with the program and
    the stack mapped. *)
Record placed (s s' : sched) (m : gmap Z Z) (tl : list Z) (p : Z) (x : process) (t : task) (dir : Z) (ts : list Z) : Prop := {
  pl_object : task_store s' !! Process.task x = Some t /\ task_registers t = initial_registers /\ Task.process t = p;
  pl_chunk : chunks (pages s') !! page_directory t = Some dir;
  pl_space : space (tables (pages s')) dir ts (image (identity 5) x);
  pl_fresh : fresh_blocks (task_blocks (Process.task x) (page_directory t) dir ts) m;
  pl_list : task_list s' (tl ++ [Process.task x]) /\ back_links s' (tl ++ [Process.task x]);
  pl_tables : forall y, is_Some (m !! y) ->
    tables (pages s') !! y = tables (pages s) !! y /\ chunks (pages s') !! y = chunks (pages s) !! y;
  pl_ram : cleared (ram s) (ram s') (Process.stack x) 16384;
  pl_sched : cr3 (pages s') = cr3 (pages s) /\ kernel_chunk s' = kernel_chunk s /\ data_segment s' = data_segment s /\
    current_process s' = current_process s /\ current_task s' = (if (length tl =? 0)%nat then Process.task x else current_task s) }.

Lemma load_task_spec k f s ps pl m N tl slot file name p px (Q : Z * bool -> kernel P D H -> Prop) :
  owns (heap (driver f)) m -> room (heap (driver f)) N -> (1031 <= N)%nat -> task_list s tl -> back_links s tl ->
  (forall b, b ∈ tl -> is_Some (m !! b)) -> length pl = 12%nat -> (slot < 12)%nat ->
  ps !! p = Some px -> Process.filename px = Process.filename Process.zero ->
  0 < Process.size px -> m !! Process.ptr px = Some (Heap.blocks_of (Process.size px)) ->
  CString.cstring file = Some name -> (length name < 108)%nat ->
  (forall a stack s' h' t dir ts, let m' := <[stack := 4]> m in
     let x := Process.mk (Z.of_nat slot) (name ++ 0 :: replicate (107 - length name) 0) a (Process.ptr px) stack (Process.size px) (Process.keyboard px) in
     m !! stack = None -> owns h' (with_blocks (task_blocks a (page_directory t) dir ts) m') -> room h' (N - 1031) ->
     placed s s' m' tl p x t dir ts ->
     Q (0, true) (kfs k (vfs_heap f h') s' (<[p := x]> ps) (<[slot := p]> pl))) ->
  wp (load_task file (Z.of_nat slot) p) Q (kfs k f s ps pl).
Proof.
  intros Ho Hr HN L Bl Hlive Hpl Hslot Hp Hz Hsz Hptr Hn Hnl HQ. unfold load_task.
  apply wp_bind, wp_kfs_tasks. eapply (alloc_cleared _ m PEACHOS_USER_PROGRAM_STACK_SIZE N); [exact Ho|unfold PEACHOS_USER_PROGRAM_STACK_SIZE; lia|exact Hr| |].
  { change (Z.to_nat (Heap.blocks_of PEACHOS_USER_PROGRAM_STACK_SIZE)) with 4%nat. lia. }
  change (Heap.blocks_of PEACHOS_USER_PROGRAM_STACK_SIZE) with 4. change (Z.to_nat 4) with 4%nat. change PEACHOS_USER_PROGRAM_STACK_SIZE with 16384.
  intros stack h1 rk Hk1 Hk2 Hk3 Hkm Ho1 Hr1 Fk. cbn [fst snd] in *. destruct (Z.eqb_spec stack 0) as [|_]; [lia|].
  set (s1 := set_ram s rk). assert (E1 : s1 = set_ram s (ram s1)) by done. change rk with (ram s1) in Fk. clearbody s1.
  apply wp_bind. eapply wp_kfs_get; [exact Hp|].
  apply wp_bind. eapply wp_lift; [rewrite Hz; by apply (copy_name (Process.set_name Process.zero file 0))|].
  apply wp_bind. eapply wp_kfs_put; [exact Hp|]. rewrite u16_id by lia. cbn [heap driver set_driver set_heap vfs_heap].
  apply wp_bind, wp_kfs_tasks. set (m' := <[stack := 4]> m) in *.
  assert (L1 : task_list s1 tl) by (rewrite E1; by destruct L; split).
  eapply (task_new_spec (h1, s1) m' (N - 4) tl); [exact L1| |exact Ho1|exact Hr1|lia|].
  { intros b Hb. by apply insert_some, Hlive. }
  intros a c dir ts h2 pg y Ha0 Hal T. cbn [fst snd] in *.
  destruct (task_new_state (h1, s1) m' (N - 4) tl p _ _ _ _ _ _ L1 Ha0 Hal T) as (L2 & B2 & [O1 O2 O3 O4]). fold y in L2, B2, O1, O2, O3.
  assert (Bl1 : back_links s1 tl) by (rewrite E1; exact Bl). specialize (B2 Bl1).
  destruct T as [_ T2 T3 _ T5 T6 T7 [T8 T9]]. cbn [fst snd] in *. apply Z.eqb_neq in Ha0 as Ea. rewrite Ea.
  apply wp_bind. eapply wp_kfs_get; [apply lookup_insert_eq|]. apply wp_bind. eapply wp_kfs_put; [apply lookup_insert_eq|]. rewrite insert_insert_eq.
  set (x := Process.set_task _ _). change (vfs_heap (vfs_heap f h1) h2) with (vfs_heap f h2).
  assert (M' : forall q n, m !! q = Some n -> m' !! q = Some n) by (intros q z; by apply insert_fresh).
  assert (Hfr : forall q n, m' !! q = Some n -> q ∉ task_blocks a c dir ts).
  { intros q n Hq Hin. destruct O4 as [_ O4]. specialize (O4 q Hin). congruence. }
  assert (Hx : forall q n, m' !! q = Some n -> with_blocks (task_blocks a c dir ts) m' !! q = Some n).
  { intros q n Hq. rewrite with_blocks_notin; [done|by eapply Hfr]. }
  destruct (owns_page _ _ _ _ T2 (Hx _ _ (M' _ _ Hptr))) as (Q1 & Q2 & _ & Q3).
  pose proof (blocks_of_bound (Process.size px) Hsz) as Hbb.
  apply wp_bind. eapply (process_map_memory_spec _ p x (new_task p c tl) dir ts (identity 5)).
  { split; [apply lookup_insert_eq|exact O1|exact O2|exact O3|cbn; lia|cbn; lia|cbn; lia]. }
  intros t' S' F'. cbn [Z.ltb Z.compare]. set (s2 := set_paging y (set_tables (pages y) t')).
  change (with_tasks _ _ _) with (kfs k (vfs_heap f h2) s2 (<[p := x]> ps) pl).
  apply wp_bind, wp_gets, wp_bind. eapply wp_lift; [apply aset_ok; cbn [processes kfs set_procs]; lia|].
  rewrite Nat2Z.id. apply wp_bind, wp_modify, wp_ret.
  change (set_procs _ _ _) with (kfs k (vfs_heap f h2) s2 (<[p := x]> ps) (<[slot := p]> pl)).
  apply (HQ a stack s2 h2 (new_task p c tl) dir ts Hkm T2); [by replace (N - 1031)%nat with (N - 4 - 1027)%nat by lia|].
  split.
  - split; [exact O1|done].
  - exact O2.
  - exact S'.
  - exact O4.
  - by destruct L2; split.
  - intros q [n Hq]. specialize (Hfr q n Hq). split.
    + change (t' !! q = tables (pages s) !! q). rewrite F' by (intros Hin; apply Hfr; by right; right; right).
      change (tables pg !! q = tables (pages s) !! q). rewrite T7 by (intros Hin; apply Hfr; by right; right). by rewrite E1.
    + change (chunks pg !! q = chunks (pages s) !! q). rewrite T5, lookup_insert_ne by (intros ->; apply Hfr; right; by left). by rewrite E1.
  - exact Fk.
  - split; [change (cr3 pg = cr3 (pages s)); by rewrite T8, E1|].
    change (kernel_chunk s1 = kernel_chunk s /\ data_segment s1 = data_segment s /\ current_process s1 = current_process s /\
      (if (length tl =? 0)%nat then a else current_task s1) = (if (length tl =? 0)%nat then a else current_task s)). by rewrite E1.
Qed.

(** The blocks of the process in the order of their allocation. *)
Lemma blocks_order addrs m p x : p ∉ addrs -> p <> Process.ptr x -> p <> Process.stack x -> Process.ptr x <> Process.stack x ->
  <[Process.stack x := 4]> (<[Process.ptr x := Heap.blocks_of (Process.size x)]> (with_blocks addrs (<[p := 2]> m))) =
  process_blocks p x (with_blocks addrs m).
Proof.
  intros Hp H1 H2 H3. rewrite with_blocks_insert by done. unfold process_blocks.
  rewrite (insert_insert_ne _ (Process.ptr x) p) by done. rewrite (insert_insert_ne _ (Process.stack x) p) by done. f_equal.
  by apply insert_insert_ne.
Qed.

(** Memory that was live stays as it was when only new blocks are written. *)
Lemma kept_filled (h : H) (s s1 s2 : sched) m m' p n q j data :
  owns h m' -> (forall z v, m !! z = Some v -> m' !! z = Some v) -> m' !! p = Some n -> m !! p = None -> m' !! q = Some j -> m !! q = None ->
  filled (ram s) (ram s1) p data -> Z.of_nat (length data) <= n * 4096 -> cleared (ram s1) (ram s2) q (j * 4096) -> memory_kept s s2 m.
Proof.
  intros Ho Hm Hp Hp' Hq Hq' [_ F] Hd [_ C] pa L.
  rewrite C by (by apply (live_apart h m m')). apply F. destruct (live_apart h m m' p n pa); auto; lia.
Qed.

(** The slot and the object of a new process. *)
Lemma process_load_start k m N slot file (Q : Z * option Z -> kernel P D H -> Prop) :
  length (processes k) = 12%nat -> first_zero (processes k) slot -> owns (kernel_heap k) m -> room (kernel_heap k) N -> (2 <= N)%nat ->
  (forall p h, m !! p = None -> owns h (<[p := 2]> m) -> room h (N - 2) ->
     wp ('(res, done) ← load_process file (Z.of_nat slot) p; _ ← load_cleanup p res; mret (res, if done : bool then Some p else None)) Q
       (kfs k (vfs_heap (files k) h) (tasks k) (<[p := Process.zero]> (proc_store k)) (processes k))) ->
  wp (process_load file) Q k.
Proof.
  intros Hpl Hz Ho Hr HN HQ. assert (Hs12 : (slot < 12)%nat) by (rewrite <- Hpl; destruct Hz as [Hz _]; by apply lookup_lt_Some in Hz).
  unfold process_load, process_get_free_slot. apply wp_bind, wp_bind, wp_gets. eapply wp_lift.
  { apply (process_slot_spec (processes k) 12 slot 0); [done|lia|lia]. }
  destruct (Z.ltb_spec (Z.of_nat slot) 0); [lia|]. unfold process_load_for_slot, process_get, PEACHOS_MAX_PROCESSES.
  destruct (Z.ltb_spec (Z.of_nat slot) 0); [lia|]. rewrite Z.geb_leb. destruct (Z.leb_spec 12 (Z.of_nat slot)); [lia|]. cbn [orb].
  apply wp_bind, wp_bind, wp_gets. eapply wp_lift; [apply aget_ok; [lia|rewrite Nat2Z.id; apply Hz]|]. cbn [Z.eqb negb].
  rewrite <- (kfs_start k) at 1. unfold alloc_process. apply wp_bind, wp_bind, wp_kfs_tasks, wp_on_alloc. cbn [fst snd].
  eapply wp_mono; [apply (alloc_room _ m Process.sizeof N Ho); [unfold Process.sizeof; lia|done|change (Z.to_nat (Heap.blocks_of Process.sizeof)) with 2%nat; lia]|].
  intros p h1 (Hp0 & Hpm & Ho1 & Hr1 & _). change (Heap.blocks_of Process.sizeof) with 2 in *. change (Z.to_nat 2) with 2%nat in Hr1.
  apply Z.eqb_neq in Hp0 as Hp0'. rewrite Hp0'. apply wp_bind, wp_modify, wp_ret. rewrite Hp0'.
  change (set_procs _ _ _) with (kfs k (vfs_heap (files k) h1) (tasks k) (<[p := Process.zero]> (proc_store k)) (processes k)).
  by apply (HQ p h1).
Qed.

Lemma process_load_spec k ch m N tl slot base e tail i it l (Q : Z * option Z -> kernel P D H -> Prop) :
  let name := render_path 0 [dotted base e] in let data := contents (driver (files k)) it l in
  loadable k ch m tl slot base e i it l -> room (kernel_heap k) N -> (Z.to_nat (Heap.blocks_of (filesize it)) + 1041 <= N)%nat ->
  (forall k' p x t dir ts addrs, loaded k k' m tl slot name data p x t dir ts addrs ->
     room (kernel_heap k') (N - 1041 - Z.to_nat (Heap.blocks_of (filesize it))) -> Q (0, Some p) k') ->
  wp (process_load (root_file base e tail)) Q k.
Proof.
  intros name data [Sf [Hv Hsl] Hm Hl Hj [Hpl Hz] Ho KM [L Bl] Hlive] Hr HN HQ. set (b := Heap.blocks_of (filesize it)) in *.
  assert (Hs12 : (slot < 12)%nat) by (rewrite <- Hpl; destruct Hz as [Hz _]; by apply lookup_lt_Some in Hz).
  pose proof (sf_size _ _ _ _ _ _ _ Sf) as Hsz. pose proof (length_contents _ _ _ _ _ _ _ Sf) as Hlen. fold data in Hlen.
  pose proof (blocks_of_bound (filesize it) ltac:(lia)) as Hbb. fold b in Hbb.
  eapply (process_load_start k m N slot); [exact Hpl|exact Hz|exact Ho|exact Hr|lia|].
  intros p h1 Hpm Ho1 Hr1. set (m1 := <[p := 2]> m) in *.
  unfold load_process, process_init, process_load_data. apply wp_bind, wp_bind. eapply wp_kfs_put; [apply lookup_insert_eq|]. rewrite insert_insert_eq.
  apply wp_bind. eapply (load_binary_spec k _ (tasks k) _ _ m1 (N - 2) ch base e tail i it l p Process.zero);
    [by apply stored_heap|exact Ho1|exact Hr1|fold b; lia|exact Hm|done|done|exact Hl|exact Hj|exact KM|apply lookup_insert_eq|].
  intros addrs ptr h2 s2 r2 La Fa Hptr Ho2 Hr2 Qs Fr. fold b in Ho2, Hr2. rewrite insert_insert_eq.
  change (contents (driver (vfs_heap (files k) h1)) it l) with data in Fr. cbn [Z.ltb Z.compare].
  set (px := Process.set_program Process.zero ptr (filesize it)). set (m2 := <[ptr := b]> (with_blocks addrs m1)) in *.
  assert (Hh2 : heap s2 = h2) by exact (view_heap _ _ (q_view _ _ Qs)).
  destruct (root_file_cstring base e tail Hv Hsl) as [Hc Hcl].
  assert (M1 : forall z v, m !! z = Some v -> m1 !! z = Some v) by (intros z v; by apply insert_fresh).
  assert (Hap : forall z, is_Some (m1 !! z) -> z ∉ addrs) by (intros z [v Hz'] Hin; destruct Fa as [_ Fa]; specialize (Fa z Hin); congruence).
  assert (M2 : forall z v, m1 !! z = Some v -> m2 !! z = Some v).
  { intros z v Hz'. apply insert_fresh; [done|]. rewrite with_blocks_notin; [done|apply Hap; eauto]. }
  eapply (load_task_spec k _ (set_ram (tasks k) r2) _ (processes k) m2 (N - 2 - 8 - Z.to_nat b) tl slot _ name p px).
  { cbn [driver set_driver]. by rewrite Hh2. } { cbn [driver set_driver]. by rewrite Hh2. } { lia. } { by destruct L; split. } { exact Bl. }
  { intros z Hzl. destruct (Hlive z Hzl) as [v Hv']. exists v. auto. } { done. } { done. } { apply lookup_insert_eq. } { done. }
  { apply Hsz. } { apply lookup_insert_eq. } { done. } { done. }
  intros a stack s3 h3 t dir ts m3 x Hkm Ho3 Hr3 [[P1 [P1' P1'']] P2 P3 P4 [P5 P5'] P6 P7 P8]. cbn [Process.task x] in P1, P4, P5, P5'.
  rewrite insert_insert_eq. cbn [Z.ltb Z.compare]. apply wp_bind, wp_ret, wp_ret.
  assert (Dis : p <> ptr /\ p <> stack /\ ptr <> stack /\ m !! ptr = None /\ m !! stack = None /\ p ∉ addrs /\ (ptr ∉ addrs) /\ (stack ∉ addrs)).
  { unfold m2 in Hkm. apply lookup_insert_None in Hkm as [K1 K2]. apply with_blocks_None in K1 as [K1 K3], Hptr as [K4 K5].
    unfold m1 in K3, K5. apply lookup_insert_None in K3 as [K3 K6], K5 as [K5 K7]. repeat split; try done. apply Hap. exists 2. apply lookup_insert_eq. }
  destruct Dis as (X1 & X2 & X3 & X4 & X5 & X6 & X7 & X8).
  set (f3 := vfs_heap (set_driver (vfs_heap (files k) h1) s2) h3).
  pose proof (blocks_order addrs m p x X6 X1 X2 X3) as Eb. cbn [Process.ptr Process.stack Process.size x] in Eb. change (Process.ptr px) with ptr in Eb.
  change (Process.size px) with (filesize it) in Eb. fold b m1 m2 m3 in Eb.
  assert (M3 : forall z v, m3 !! z = Some v -> with_blocks (task_blocks a (page_directory t) dir ts) m3 !! z = Some v).
  { intros z v Hz'. rewrite with_blocks_notin; [done|]. intros Hin. destruct P4 as [_ P4]. specialize (P4 z Hin). congruence. }
  assert (B1 := M3 stack 4 (lookup_insert_eq _ _ _)).
  assert (B2 : with_blocks (task_blocks a (page_directory t) dir ts) m3 !! ptr = Some b).
  { apply M3. unfold m3. rewrite lookup_insert_ne by congruence. apply lookup_insert_eq. }
  assert (B3 : forall z v, m !! z = Some v -> with_blocks (task_blocks a (page_directory t) dir ts) m3 !! z = Some v).
  { intros z v Hz'. apply M3, insert_fresh; auto. }
  eapply (HQ _ p x t dir ts addrs).
  - split.
    + repeat split. cbn. rewrite Hlen. lia.
    + done.
    + done.
    + split; [done|]. destruct Fa as [F1 F2]. split; [done|]. intros z Hz'. specialize (F2 z Hz'). by apply lookup_insert_None in F2 as [? _].
    + split.
      * apply lookup_insert_eq.
      * cbn. rewrite length_insert. lia.
      * done.
      * split; [|split]; apply with_blocks_None; done.
      * rewrite <- Eb. by split.
      * rewrite <- Eb. exact Ho3.
    + done.
    + done.
    + intros j c Hjc. change (ram s3 !! (ptr + Z.of_nat j) = Some c). apply lookup_lt_Some in Hjc as Hjl.
      rewrite (cl_out _ _ _ _ P7); [by apply (fl_in _ _ _ _ Fr)|]. cbn [Process.stack x].
      destruct (owns_disjoint h3 _ stack ptr 4 b Ho3 B1 B2); [congruence|lia|lia].
    + intros j Hjr. by apply (cl_in _ _ _ _ P7).
    + eapply (kept_filled h3 (tasks k) (set_ram (tasks k) r2) s3 m _ ptr b stack 4 data Ho3); try done. rewrite Hlen. lia.
    + intros y [v Hy]. destruct (P6 y) as [E1 E2]; [|by split]. exists v. unfold m3. apply insert_fresh; [done|]. auto.
    + done.
    + exists (set_heap s2 h3), h3. split; [done|]. destruct Qs as [Q1 Q2 Q3]. split; [by apply fs_ok_heap| |exact Q3].
      revert Q2. unfold view. cbn. intros [= _ E5 E6 E7 E8 E9]. by rewrite E5, E6, E7, E8, E9.
    + done.
  - change (room h3 (N - 1041 - Z.to_nat b)). by replace (N - 1041 - Z.to_nat b)%nat with (N - 2 - 8 - Z.to_nat b - 1031)%nat by lia.
Qed.

(** A byte that a program of the address space [dir] reads at [va]. *)
Definition sees k (dir va : Z) : option Z :=
  pa ← translate (tables (pages (tasks k))) dir va; ram (tasks k) !! pa.

Lemma loaded_sees k k' m tl slot name data p x t dir ts addrs :
  loaded k k' m tl slot name data p x t dir ts addrs -> 0 < Process.size x ->
  (forall j b, data !! j = Some b -> sees k' dir (0x400000 + Z.of_nat j) = Some b) /\
  (forall va, 0x3FB000 <= va < 0x3FF000 -> sees k' dir va = Some 0).
Proof.
  intros [[_ [_ [Ez _]]] _ _ _ [_ _ (B1 & B2 & B3) _ [_ _ S F] Ow] _ _ Lp Ls _ _ _ _ _] Hsz.
  assert (M : forall q n, process_blocks p x (with_blocks addrs m) !! q = Some n ->
    with_blocks (task_blocks (Process.task x) (page_directory t) dir ts) (process_blocks p x (with_blocks addrs m)) !! q = Some n).
  { intros q n Hq. rewrite with_blocks_notin; [done|]. intros Hin. destruct F as [_ F]. specialize (F q Hin). congruence. }
  assert (Bp : process_blocks p x (with_blocks addrs m) !! Process.ptr x = Some (Heap.blocks_of (Process.size x))).
  { unfold process_blocks. rewrite lookup_insert_ne by done. apply lookup_insert_eq. }
  assert (Bs : process_blocks p x (with_blocks addrs m) !! Process.stack x = Some 4).
  { unfold process_blocks. rewrite !lookup_insert_ne by done. apply lookup_insert_eq. }
  destruct (owns_page _ _ (Process.ptr x) _ Ow (M _ _ Bp)) as (P1 & P2 & _ & P3).
  destruct (owns_page _ _ (Process.stack x) _ Ow (M _ _ Bs)) as (T1 & T2 & _ & T3).
  assert (Hb : Process.size x <= Heap.blocks_of (Process.size x) * 4096) by (by apply blocks_of_bound).
  assert (I := fun va => image_translate (tables (pages (tasks k'))) dir ts (identity 5) x va S ltac:(lia) P2 ltac:(lia) ltac:(lia) ltac:(lia) T2 ltac:(lia)).
  unfold sees. split.
  - intros j b Hj. apply lookup_lt_Some in Hj as Hl.
    assert (Hr : Process.size x <= rounded (Process.size x)) by (unfold rounded; pose proof (Z.div_mod (Process.size x + 4095) 4096); pose proof (Z.mod_pos_bound (Process.size x + 4095) 4096); lia).
    destruct (I (0x400000 + Z.of_nat j) ltac:(lia)) as (_ & E & _). rewrite E by lia. cbn [mbind option_bind]. rewrite <- (Lp j b Hj). f_equal. lia.
  - intros va Hva. destruct (I va ltac:(lia)) as (E & _). rewrite E by lia. cbn [mbind option_bind]. apply Ls. lia.
Qed.

(** Freeing a loaded process gives everything back but the parsed path. *)
Lemma loaded_free k k' m tl slot name data p x t dir ts addrs N :
  loaded k k' m tl slot name data p x t dir ts addrs -> room (kernel_heap k') N -> tl = [] \/ current_task (tasks k) ∈ tl ->
  wp (process_free p) (fun _ k'' => owns (kernel_heap k'') (with_blocks addrs m)) k'.
Proof.
  intros Ld Hr Hc. destruct (ld_list _ _ _ _ _ _ _ _ _ _ _ _ _ Ld) as [L Bl].
  destruct (ld_sched _ _ _ _ _ _ _ _ _ _ _ _ _ Ld) as (_ & _ & _ & _ & Ec).
  eapply (process_free_spec k' _ N p x t dir ts _ tl []); [by eapply ld_owned|exact L|exact Bl| |exact Hr|].
  - rewrite Ec. destruct Hc as [-> | Hc]; [by left|]. destruct tl; [by apply not_elem_of_nil in Hc|]. apply elem_of_app. by left.
  - intros h st Ho _ _ _. by rewrite kst_heap.
Qed.

(** C2: loading a program.  [process_load] of a file in the root directory
    gives the process the first free slot.  Its new task is last in the list
    and starts at 0x400000 with the stack pointer 0x3FF000; there the task
    sees the bytes of the file and a stack of zeros.  No live byte, page
    table, file or descriptor changes; freeing the process returns all but
    the three blocks of the parsed path. *)
Theorem process_load_correct k ch m N tl slot base e tail i it l :
  let name := render_path 0 [dotted base e] in let data := contents (driver (files k)) it l in
  loadable k ch m tl slot base e i it l -> room (kernel_heap k) N -> (Z.to_nat (Heap.blocks_of (filesize it)) + 1041 <= N)%nat ->
  wp (process_load (root_file base e tail)) (fun r k' => exists p x t dir addrs, r = (0, Some p) /\
    processes k' = <[slot := p]> (processes k) /\ proc_store k' = <[p := x]> (proc_store k) /\
    Process.id x = Z.of_nat slot /\ CString.cstring (Process.filename x) = Some name /\ Process.size x = filesize it /\
    task_list (tasks k') (tl ++ [Process.task x]) /\ task_store (tasks k') !! Process.task x = Some t /\ Task.process t = p /\
    Registers.ip (task_registers t) = 0x400000 /\ Registers.esp (task_registers t) = 0x3FF000 /\
    chunks (pages (tasks k')) !! page_directory t = Some dir /\
    (forall j b, data !! j = Some b -> sees k' dir (0x400000 + Z.of_nat j) = Some b) /\
    (forall va, 0x3FB000 <= va < 0x3FF000 -> sees k' dir va = Some 0) /\
    memory_kept (tasks k) (tasks k') m /\ cr3 (pages (tasks k')) = cr3 (pages (tasks k)) /\
    (forall y, is_Some (m !! y) -> tables (pages (tasks k')) !! y = tables (pages (tasks k)) !! y) /\
    vol_ok (driver (files k')) ch /\ file_descriptors (files k') = file_descriptors (files k) /\
    length addrs = 3%nat /\ (tl = [] \/ current_task (tasks k) ∈ tl ->
      wp (process_free p) (fun _ k'' => owns (kernel_heap k'') (with_blocks addrs m)) k')) k.
Proof.
  intros name data La Hr HN. pose proof (length_contents _ _ _ _ _ _ _ (la_file _ _ _ _ _ _ _ _ _ _ La)) as Hlen.
  pose proof (sf_size _ _ _ _ _ _ _ (la_file _ _ _ _ _ _ _ _ _ _ La)) as Hsz. fold data in Hlen.
  eapply process_load_spec; [exact La|exact Hr|exact HN|]. fold name data. intros k' p x t dir ts addrs Ld Hr'.
  pose proof Ld as [[D1 [D2 [D3 _]]] D4 D5 [D6 _] D7 [D8 _] [D9 D10] D11 D12 D13 D14 [D15 _] (s' & h & D16 & D17) _].
  destruct D7 as [_ _ _ _ [O1 O2 O3 _] O5]. assert (Ez : Process.size x = filesize it) by (rewrite D3; lia).
  destruct (root_file_cstring base e tail) as [Hnn _]; [by apply La|by apply La|]. fold name in Hnn.
  exists p, x, t, dir, addrs. do 4 (split; [done|]). split.
  { rewrite D2. apply CString.cstring_app. by apply CString.cstring_Some in Hnn as (? & _ & ?). }
  split; [done|]. do 3 (split; [done|]). rewrite D9. do 2 (split; [done|]). split; [exact O2|].
  destruct (loaded_sees _ _ _ _ _ _ _ _ _ _ _ _ _ Ld ltac:(lia)) as [V1 V2]. do 2 (split; [done|]). do 2 (split; [done|]). split; [intros y Hy; by apply D14|].
  rewrite D16. split; [|split; [done|split; [done|by eapply loaded_free]]].
  apply (vol_quiet (set_heap (driver (files k)) h)); [done|]. apply vol_heap. exact (sf_vol _ _ _ _ _ _ _ (la_file _ _ _ _ _ _ _ _ _ _ La)).
Qed.

Lemma process_load_missing_spec k m N slot base e tail (Q : Z * option Z -> kernel P D H -> Prop) :
  let fs := driver (files k) in
  fs_ok fs -> dir_ok fs -> missing fs base e -> filesystem (the_disk fs) = true -> valid83 base e -> SLASH ∉ dotted base e ->
  length (file_descriptors (files k)) = 512%nat -> length (processes k) = 12%nat -> first_zero (processes k) slot ->
  owns (kernel_heap k) m -> room (kernel_heap k) N -> (9 <= N)%nat ->
  (forall p addrs h, m !! p = None -> length addrs = 3%nat -> fresh_blocks addrs (<[p := 2]> m) ->
     owns h (with_blocks addrs (<[p := 2]> m)) ->
     Q (- EIO, None) (kfs k (vfs_heap (files k) h) (tasks k) (<[p := Process.zero]> (proc_store k)) (processes k))) ->
  wp (process_load (root_file base e tail)) Q k.
Proof.
  intros fs Hs Hd Hno Hm Hv Hsl Hl Hpl Hz Ho Hr HN HQ. eapply (process_load_start k m N slot); [exact Hpl|exact Hz|exact Ho|exact Hr|lia|].
  intros p h1 Hpm Ho1 Hr1. unfold load_process, process_init, process_load_data, process_load_binary.
  apply wp_bind, wp_bind. eapply wp_kfs_put; [apply lookup_insert_eq|]. rewrite insert_insert_eq. apply wp_bind, wp_bind, wp_kfs_files.
  assert (Hfb : (7 <= free_blocks h1)%nat) by (eapply room_free_all; [exact Ho1|exact Hr1|lia|lia|lia]).
  eapply (fopen_missing_spec (vfs_heap (files k) h1) (<[p := 2]> m)); try done; [by apply fs_ok_heap|by destruct Hd|].
  intros addrs h La Fa Oh _. cbn [Z.eqb]. apply wp_bind, wp_ret, wp_bind, wp_kfs_files. unfold fclose, file_get_descriptor. cbn [Z.leb Z.compare orb].
  apply wp_bind, wp_ret, wp_ret, wp_ret. cbn [Z.ltb Z.compare EIO Z.opp]. apply wp_ret. unfold load_cleanup. cbn [Z.ltb Z.compare].
  apply wp_bind, wp_bind. eapply wp_kfs_get; [apply lookup_insert_eq|]. cbn [Process.task Process.zero Z.eqb negb]. apply wp_ret, wp_ret.
  by apply (HQ p addrs h).
Qed.

(** C21: a program that does not exist.  When the root directory has no such
    file, [process_load] returns [-EIO] and leaves the tasks, the process
    table, the descriptors and the volume as they were, but five blocks of
    the heap stay allocated that nothing can free any more: the object of
    the process and the parsed path. *)
Theorem process_load_missing k m N slot base e tail :
  let fs := driver (files k) in
  fs_ok fs -> dir_ok fs -> missing fs base e -> filesystem (the_disk fs) = true -> valid83 base e -> SLASH ∉ dotted base e ->
  length (file_descriptors (files k)) = 512%nat -> length (processes k) = 12%nat -> first_zero (processes k) slot ->
  owns (kernel_heap k) m -> room (kernel_heap k) N -> (9 <= N)%nat ->
  wp (process_load (root_file base e tail)) (fun r k' => r = (- EIO, None) /\
    processes k' = processes k /\ tasks k' = tasks k /\ files k' = vfs_heap (files k) (kernel_heap k') /\
    exists p addrs, m !! p = None /\ length addrs = 3%nat /\ fresh_blocks addrs (<[p := 2]> m) /\
      owns (kernel_heap k') (with_blocks addrs (<[p := 2]> m))) k.
Proof.
  intros fs H1 H2 H3 H4 H5 H6 H7 H8 H9 H10 H11 H12. eapply process_load_missing_spec; try done.
  intros p addrs h Hp La Fa Oh. do 4 (split; [done|]). by exists p, addrs.
Qed.
End load.

(** ** A kernel with a mounted disk *)
Module ExampleLoad.
Import ExampleVolume ExampleFiles ExampleKernel ExamplePaging ExampleProcess.

Lemma a_txt_stored : stored_file files chains [97] [116; 120; 116] 0 a_txt [2; 3].
Proof.
  split.
  - exact files_vol.
  - split; [reflexivity|vm_compute; reflexivity|vm_compute; reflexivity|reflexivity|].
    intros k x Hk Ht. change (total (root files)) with 1 in Ht. lia.
  - reflexivity.
  - intros x Hx. assert (x = 3) as -> by (simpl in Hx; by apply list_elem_of_singleton in Hx).
    unfold refused, PEACHOS_FAT16_BAD_SECTOR. rewrite !elem_of_cons, elem_of_nil. lia.
  - simpl. lia.
  - vm_compute. discriminate.
Qed.

(** The disk is mounted; the kernel's address space is not there yet. *)
Definition mounted : machine :=
  mk_kernel (mk_vfs (Some FAT16_FS :: replicate 11 None) (replicate 512 None) (set_heap files (heap_of 4500)))
    (mk_sched no_paging ∅ ∅ 0 0 0 0 0 KERNEL_DATA_SELECTOR []) (Terminal.mk_term (replicate 2000 0) 7 7 0 ∅) ∅ (replicate 12 0) ∅ 0 0 [] [].
Definition own_space : M machine unit :=
  c ← on_tasks (on_paging (paging_new_4gb 7));
  _ ← on_tasks (modify_sched (fun s => set_kernel_chunk s c));
  on_tasks (on_paging (paging_switch c)).

Lemma own_space_spec (Q : unit -> machine -> Prop) :
  (forall k m, loadable k chains m [] 0 [97] [116; 120; 116] 0 a_txt [2; 3] -> room (kernel_heap k) 3474 ->
     contents (driver (Kernel.files k)) a_txt [2; 3] = contents files a_txt [2; 3] -> Q tt k) -> wp own_space Q mounted.
Proof.
  intros HQ. unfold own_space. rewrite <- (kst_start mounted). apply wp_bind, wp_kst_tasks, wp_on_paging.
  eapply (paging_new_4gb_spec (heap_of 4500, no_paging) ∅ 4500); [exact heap_of_owns|exact heap_of_room|lia|lia|done|].
  intros c kdir kts [h1 p1] (S1 & S2 & S3 & S4 & S5 & S6 & _). cbn [fst snd] in *.
  apply wp_bind, wp_kst_tasks, wp_modify_sched, wp_kst_tasks. eapply wp_switch_chunk; [cbn; rewrite S2; apply lookup_insert_eq|]. cbn [fst snd].
  eapply HQ; [split|exact S5|reflexivity]; [|exact (conj a_txt_valid a_txt_slash)|reflexivity|apply length_replicate| | |exact S4| | |].
  - apply stored_heap, (stored_heap files), a_txt_stored.
  - exists 0%nat. split; [split; [reflexivity|lia]|lia].
  - split; [reflexivity|]. split; [reflexivity|]. intros j Hj. lia.
  - exists kts. exact S1.
  - split; [|by intros i b Hb]. split; try done; [apply NoDup_nil_2|apply not_elem_of_nil].
  - by intros b Hb%not_elem_of_nil.
Qed.
End ExampleLoad.
Import ExampleFiles ExampleLoad.

Lemma process_load_correct_witness :
  wp (_ ← own_space; process_load (root_file [97] [116; 120; 116] [])) (fun r k => exists p dir, r = (0, Some p) /\
    (forall j b, contents files a_txt [2; 3] !! j = Some b -> sees k dir (0x400000 + Z.of_nat j) = Some b) /\
    sees k dir 0x3FEFFF = Some 0) mounted.
Proof.
  apply wp_bind, own_space_spec. intros k m La Hr Ec.
  eapply wp_mono; [apply (process_load_correct k chains m 3474 [] 0 [97] [116; 120; 116] [] 0 a_txt [2; 3] La Hr)|].
  - change (Z.to_nat (Heap.blocks_of (filesize a_txt))) with 1%nat. lia.
  - rewrite Ec. intros r k' (p & x & t & dir & addrs & -> & _ & _ & _ & _ & _ & _ & _ & _ & _ & _ & _ & V1 & V2 & _).
    exists p, dir. split; [reflexivity|]. split; [exact V1|]. apply V2. lia.
Defined.
Lemma process_load_missing_witness :
  wp (process_load (root_file [98] [116; 120; 116] [])) (fun r k => r = (- EIO, None) /\ processes k = replicate 12 0) mounted.
Proof.
  eapply wp_mono; [apply (process_load_missing mounted ∅ 4500 0 [98] [116; 120; 116] [])|].
  - exact (fs_ok_heap _ _ files_fs_ok).
  - exact (vo_dir _ _ (vol_heap _ _ _ files_vol)).
  - intros i x Hi Hx. change (total (root _)) with 1 in Hi. assert (i = 0%nat) as -> by lia. injection Hx as <-. by vm_compute.
  - reflexivity.
  - exact b_txt.
  - exact ExampleKernel.b_txt_slash.
  - apply length_replicate.
  - reflexivity.
  - split; [reflexivity|]. intros j Hj. lia.
  - exact ExampleProcess.heap_of_owns.
  - exact ExampleProcess.heap_of_room.
  - lia.
  - intros r k (-> & Hp & _). split; [reflexivity|exact Hp].
Defined.
