(* ===== verification/Syscall.v ===== *)
(** * System calls: src/isr80h/*.c and the interrupt 0x80 of src/idt/idt.c

    A program puts its arguments on its stack and the number of the command
    in [eax].  [isr80h_handler] switches to the kernel's address space, saves
    the registers of the task, runs the command of the table and returns to
    the address space of the current task.  All values are 32-bit words. *)
From Stdlib Require Import ZArith Lia.
From stdpp Require Import base list gmap numbers option list_numbers.
From S2P Require Import Prelude CLib Heap Disk PathParser FatTypes FatTable Fat16 Vfs Terminal Paging Task UserMem Kernel Keyboard Process.
Local Open Scope Z_scope.
Local Open Scope kernel_scope.

(** The numbers of enum SystemCommands. *)
Definition command_id (c : command) : Z :=
  match c with
  | isr80h_sum => 0 | isr80h_print => 1 | isr80h_open => 2 | isr80h_read => 3 | isr80h_fork => 4 | isr80h_exit => 5
  | isr80h_readline => 6 | isr80h_write => 7 | isr80h_delete => 8 | isr80h_close => 9 | isr80h_readdir => 10 | isr80h_wait => 11
  end.

Section code.
Context {P D H : Type} {B : BlockDevice D} {A : Allocator H} {F : Filesystem (fs_state D H) P}.
Abbreviation KM := (M (kernel P D H)).

(** [panic] prints and never returns. *)
Definition panic {T} (msg : list Z) : KM T := _ ← on_screen (print msg); hang.

(** The handler of vector 0, "Divide by zero error\n". *)
Definition idt_zero : KM unit :=
  on_screen (print [68; 105; 118; 105; 100; 101; 32; 98; 121; 32; 122; 101; 114; 111; 32; 101; 114; 114; 111; 114; 10; 0]).

(** [kzalloc] and [kfree] of a buffer that only the system call uses; its
    contents are a list. *)
Definition alloc_buffer (size : Z) : KM Z := on_tasks (on_alloc (alloc size)).
Definition free_buffer (p : Z) : KM unit := on_tasks (on_alloc (dealloc p)).

(** [data] written to the start of a buffer. *)
Definition fill (buf data : list Z) : out (list Z) :=
  if (length data <=? length buf)%nat then Ok (data ++ drop (length data) buf) else Ub.

Definition stack_item (task index : Z) : KM Z := on_tasks (task_get_stack_item task index).

(** ** misc.c *)
Definition isr80h_command0_sum : KM Z :=
  task ← on_tasks task_current;
  v2 ← stack_item task 1;
  task ← on_tasks task_current;
  v1 ← stack_item task 0;
  mret (u32 (i32 v1 + i32 v2)).

(** ** io.c *)

(** The result of the copy is ignored: if it failed, [buf] has no value. *)
Definition isr80h_command1_print : KM Z :=
  task ← on_tasks task_current;
  user_space_msg_buffer ← stack_item task 0;
  task ← on_tasks task_current;
  '(res, buf) ← on_tasks (copy_string_from_task task user_space_msg_buffer (replicate 1024 0) 1024);
  if res <? 0 then ub
  else _ ← on_screen (print buf); mret 0.

Definition isr80h_command2_open : KM Z :=
  task ← on_tasks task_current;
  user_path_ptr ← stack_item task 0;
  mode ← stack_item task 1;
  '(res, path) ← on_tasks (copy_string_from_task task user_path_ptr (replicate (Z.to_nat PEACHOS_MAX_PATH) 0) PEACHOS_MAX_PATH);
  if res <? 0 then mret (u32 res)
  else if i32 mode =? FILE_MODE_READ then fd ← on_files (fopen path [114; 0]); mret (u32 fd)
  else if i32 mode =? FILE_MODE_WRITE then fd ← on_files (fopen path [119; 0]); mret (u32 fd)
  else mret (u32 (- EINVARG)).

Definition isr80h_command3_read : KM Z :=
  task ← on_tasks task_current;
  fd ← stack_item task 0;
  user_buf ← stack_item task 1;
  count ← stack_item task 2;
  let count := i32 count in
  if (count <=? 0) || (count >=? PAGING_PAGE_SIZE) then mret (u32 (- EINVARG))
  else
    kernel_buf ← alloc_buffer count;
    if kernel_buf =? 0 then mret (u32 (- ENOMEM))
    else
      '(bytes_read, data) ← on_files (fread 1 count (i32 fd));
      contents ← lift_out (fill (replicate (Z.to_nat count) 0) data);
      if bytes_read >? 0 then
        copy_res ← on_tasks (copy_to_task task user_buf contents bytes_read);
        _ ← free_buffer kernel_buf;
        mret (u32 (if copy_res <? 0 then copy_res else bytes_read))
      else _ ← free_buffer kernel_buf; mret (u32 bytes_read).

Definition isr80h_command7_write : KM Z :=
  task ← on_tasks task_current;
  fd ← stack_item task 0;
  user_buf ← stack_item task 1;
  count ← stack_item task 2;
  let count := i32 count in
  if (count <=? 0) || (count >=? PAGING_PAGE_SIZE) then mret (u32 (- EINVARG))
  else
    kernel_buf ← alloc_buffer count;
    if kernel_buf =? 0 then mret (u32 (- ENOMEM))
    else
      '(res, contents) ← on_tasks (copy_string_from_task task user_buf (replicate (Z.to_nat count) 0) count);
      if res <? 0 then _ ← free_buffer kernel_buf; mret (u32 res)
      else
        bytes_written ← on_files (fwrite contents 1 count (i32 fd));
        _ ← free_buffer kernel_buf;
        mret (u32 bytes_written).

Definition isr80h_command8_delete : KM Z :=
  task ← on_tasks task_current;
  user_path_ptr ← stack_item task 0;
  '(res, path) ← on_tasks (copy_string_from_task task user_path_ptr (replicate (Z.to_nat PEACHOS_MAX_PATH) 0) PEACHOS_MAX_PATH);
  if res <? 0 then mret (u32 res)
  else res ← on_files (fdelete path); mret (u32 res).

Definition isr80h_command9_close : KM Z :=
  task ← on_tasks task_current;
  fd ← stack_item task 0;
  res ← on_files (fclose (i32 fd));
  mret (u32 res).

Definition isr80h_command10_readdir : KM Z :=
  task ← on_tasks task_current;
  index ← stack_item task 0;
  user_buf ← stack_item task 1;
  buf_size ← stack_item task 2;
  let index := i32 index in
  let buf_size := i32 buf_size in
  if (index <? 0) || (buf_size <=? 0) || (buf_size >? 256) then mret (u32 (- EINVARG))
  else
    kernel_buf ← alloc_buffer buf_size;
    if kernel_buf =? 0 then mret (u32 (- ENOMEM))
    else
      '(res, data) ← on_files (freaddir index buf_size);
      contents ← lift_out (fill (replicate (Z.to_nat buf_size) 0) (default [] data));
      if res >? 0 then
        copy_res ← on_tasks (copy_to_task task user_buf contents buf_size);
        _ ← free_buffer kernel_buf;
        mret (u32 (if copy_res <? 0 then copy_res else res))
      else _ ← free_buffer kernel_buf; mret (u32 res).

(** ** process.c *)
Definition current_task_process : KM Z := task ← on_tasks task_current; t ← on_tasks (get_task task); mret (Task.process t).

Definition isr80h_command4_fork : KM Z :=
  parent ← current_task_process;
  '(res, child) ← process_fork parent;
  if res <? 0 then mret (u32 res)
  else
    match child with
    | None => ub
    | Some child => x ← get_process child; mret (u32 (Process.id x))
    end.

(** "\nShell exited. System halted.\n" *)
Definition halted_msg : list Z :=
  [10; 83; 104; 101; 108; 108; 32; 101; 120; 105; 116; 101; 100; 46; 32; 83; 121; 115; 116; 101; 109; 32;
   104; 97; 108; 116; 101; 100; 46; 10; 0].

Definition isr80h_command5_exit : KM Z :=
  process ← current_task_process;
  _ ← process_free process;
  any ← on_tasks task_has_any;
  if negb any then _ ← on_screen (print halted_msg); hang
  else mret 0.

Definition isr80h_command11_wait : KM Z :=
  task ← on_tasks task_current;
  pid ← stack_item task 0;
  p ← process_get (i32 pid);
  mret (if negb (p =? 0) then 1 else 0).

(** An interrupt while the kernel waits: the frame has the kernel's [cs]. *)
Definition kernel_frame : interrupt_frame := Frame.mk 0 0 0 0 0 0 0 0 0 0x08 0 0 0.
Definition handle_irq (i : irq) : KM unit :=
  match i with
  | IrqKey scancode => int21h_handler scancode
  | IrqTimer => _ ← on_tasks (int20h_handler kernel_frame); mret tt
  | IrqOther => no_interrupt_handler
  end.
Fixpoint handle_irqs (l : list irq) : KM unit :=
  match l with [] => mret tt | i :: l' => _ ← handle_irq i; handle_irqs l' end.

(** [enable_interrupts]; [hlt]; [disable_interrupts], then [keyboard_pop].
    With no interrupt to come the processor sleeps for ever. *)
Definition wait_key : KM Z :=
  l ← gets irqs;
  match l with
  | [] => hang
  | b :: l' => _ ← modify (fun k => set_irqs k l'); _ ← handle_irqs b; keyboard_pop
  end.

(** The first loop of [readline]: carriage returns and newlines are skipped. *)
Fixpoint readline_drain (n : nat) : KM Z :=
  match n with
  | O => hang
  | S n' => c ← wait_key; if (c =? 13) || (c =? 10) then readline_drain n' else mret c
  end.

(** The second loop, from [kbuf] and [i] on. *)
Fixpoint readline_loop (kbuf : list Z) (i max : Z) (n : nat) : KM (list Z * Z) :=
  match n with
  | O => hang
  | S n' =>
      if i <? max - 1 then
        c ← wait_key;
        if c =? 0 then readline_loop kbuf i max n'
        else if c =? 8 then
          if i >? 0 then _ ← on_screen (terminal_writechar 8 15); readline_loop kbuf (i - 1) max n'
          else readline_loop kbuf i max n'
        else
          _ ← on_screen (terminal_writechar (if c =? 13 then 10 else c) 15);
          kbuf ← lift_out (kbuf.[i <- c]);
          if (c =? 10) || (c =? 13) then mret (kbuf, i + 1) else readline_loop kbuf (i + 1) max n'
      else mret (kbuf, i)
  end.

(** Every turn of the loops takes one batch of interrupts, so one more than
    there are is enough fuel. *)
Definition isr80h_command6_readline : KM Z :=
  task ← on_tasks task_current;
  user_buf ← stack_item task 0;
  max ← stack_item task 1;
  let max := i32 max in
  if (max <=? 0) || (max >? 512) then mret (u32 (-1))
  else
    p ← alloc_buffer max;
    if p =? 0 then mret (u32 (-1))
    else
      n ← gets (fun k => S (length (irqs k)));
      c ← readline_drain n;
      let kbuf := replicate (Z.to_nat max) 0 in
      '(kbuf, i) ← (if negb (c =? 0) then
                      _ ← on_screen (terminal_writechar c 15); kbuf ← lift_out (kbuf.[0 <- c]); mret (kbuf, 1)
                    else mret (kbuf, 0));
      n ← gets (fun k => S (length (irqs k)));
      '(kbuf, i) ← readline_loop kbuf i max n;
      kbuf ← lift_out (kbuf.[i <- 0]);
      _ ← (if i >? 0 then _ ← on_tasks (copy_to_task task user_buf kbuf (i + 1)); mret tt else mret tt);
      _ ← free_buffer p;
      mret (u32 i).

(** ** The table of commands: idt.c and isr80h.c *)
Definition out_of_bounds_msg : list Z :=
  [84; 104; 101; 32; 99; 111; 109; 109; 97; 110; 100; 32; 105; 115; 32; 111; 117; 116; 32; 111; 102; 32; 98; 111; 117; 110; 100; 115; 10; 0].
Definition overwrite_msg : list Z :=
  [89; 111; 117; 114; 32; 97; 116; 116; 101; 109; 112; 116; 105; 110; 103; 32; 116; 111; 32; 111; 118; 101; 114; 119; 114; 105; 116; 101;
   32; 97; 110; 32; 101; 120; 105; 115; 116; 105; 110; 103; 32; 99; 111; 109; 109; 97; 110; 100; 10; 0].

Definition isr80h_register_command (id : Z) (c : command) : KM unit :=
  if (id <? 0) || (id >=? PEACHOS_MAX_ISR80H_COMMANDS) then panic out_of_bounds_msg
  else
    l ← gets isr80h_commands;
    old ← lift_out (l.[id]);
    match old with
    | Some _ => panic overwrite_msg
    | None => l ← lift_out (l.[id <- Some c]); modify (fun k => set_commands k l)
    end.

Definition isr80h_register_commands : KM unit :=
  _ ← isr80h_register_command (command_id isr80h_sum) isr80h_sum;
  _ ← isr80h_register_command (command_id isr80h_print) isr80h_print;
  _ ← isr80h_register_command (command_id isr80h_open) isr80h_open;
  _ ← isr80h_register_command (command_id isr80h_read) isr80h_read;
  _ ← isr80h_register_command (command_id isr80h_fork) isr80h_fork;
  _ ← isr80h_register_command (command_id isr80h_exit) isr80h_exit;
  _ ← isr80h_register_command (command_id isr80h_readline) isr80h_readline;
  _ ← isr80h_register_command (command_id isr80h_write) isr80h_write;
  _ ← isr80h_register_command (command_id isr80h_delete) isr80h_delete;
  _ ← isr80h_register_command (command_id isr80h_close) isr80h_close;
  _ ← isr80h_register_command (command_id isr80h_readdir) isr80h_readdir;
  isr80h_register_command (command_id isr80h_wait) isr80h_wait.

(** The call through the function pointer. *)
Definition run_command (c : command) : KM Z :=
  match c with
  | isr80h_sum => isr80h_command0_sum
  | isr80h_print => isr80h_command1_print
  | isr80h_open => isr80h_command2_open
  | isr80h_read => isr80h_command3_read
  | isr80h_fork => isr80h_command4_fork
  | isr80h_exit => isr80h_command5_exit
  | isr80h_readline => isr80h_command6_readline
  | isr80h_write => isr80h_command7_write
  | isr80h_delete => isr80h_command8_delete
  | isr80h_close => isr80h_command9_close
  | isr80h_readdir => isr80h_command10_readdir
  | isr80h_wait => isr80h_command11_wait
  end.

Definition isr80h_handle_command (command : Z) : KM Z :=
  if (command <? 0) || (command >=? PEACHOS_MAX_ISR80H_COMMANDS) then mret 0
  else
    l ← gets isr80h_commands;
    f ← lift_out (l.[command]);
    match f with
    | None => mret 0
    | Some f => run_command f
    end.

Definition isr80h_handler (command : Z) (frame : interrupt_frame) : KM Z :=
  _ ← on_tasks kernel_page;
  _ ← on_tasks (task_current_save_state frame);
  res ← isr80h_handle_command command;
  _ ← on_tasks task_page;
  mret res.
End code.

(** ** From user mode to the kernel and back *)
Section entry.
Context {P D H : Type} {B : BlockDevice D} {A : Allocator H} {AS : AllocatorSpec H} {F : Filesystem (fs_state D H) P}.
Implicit Types k : kernel P D H.

(** The task [a] runs in its address space [pt]; the kernel has its own. *)
Record in_user (k : kernel P D H) (m : gmap Z Z) (a : Z) (t : task) (dir : Z) (ts : list Z) (pt : Z -> Z)
    (kdir : Z) (kts : list Z) : Prop := {
  iu_current : current_task (tasks k) = a /\ a <> 0;
  iu_task : task_store (tasks k) !! a = Some t;
  iu_chunk : chunks (pages (tasks k)) !! page_directory t = Some dir;
  iu_space : space (tables (pages (tasks k))) dir ts pt;
  iu_kernel : chunks (pages (tasks k)) !! kernel_chunk (tasks k) = Some kdir;
  iu_kspace : space (tables (pages (tasks k))) kdir kts (identity 7);
  iu_apart : forall x, x ∈ ts -> x ∉ kdir :: kts;
  iu_owns : owns (kernel_heap k) m }.

Definition switched (s : sched) (segment d : Z) : sched :=
  set_paging (set_segment s segment) (mk_paging (tables (pages s)) (chunks (pages s)) d d).

(** The task with the registers of the frame, in the kernel's address space. *)
Definition entered (s : sched) (a : Z) (t : task) (f : interrupt_frame) (kdir : Z) : sched :=
  set_store (switched s KERNEL_DATA_SELECTOR kdir) (<[a := set_registers t (saved f)]> (task_store s)).

(** Back in the task [b]. *)
Definition resumed (k : kernel P D H) (b : Z) (t : task) (d : Z) : kernel P D H :=
  with_tasks k (kernel_heap k)
    (set_paging (set_current (set_segment (tasks k) USER_DATA_SEGMENT) b (Task.process t))
       (mk_paging (tables (pages (tasks k))) (chunks (pages (tasks k))) d d)).

Lemma in_user_entered k m a t dir ts pt kdir kts f :
  in_user k m a t dir ts pt kdir kts ->
  in_kernel (kernel_heap k, entered (tasks k) a t f kdir) m a (set_registers t (saved f)) dir ts pt kdir kts.
Proof. intros [[U1 U1'] U2 U3 U4 U5 U6 U7 U8]. split; try done. cbn. apply lookup_insert_eq. Qed.

Lemma isr80h_handler_spec k m a t dir ts pt kdir kts c f (Q : Z -> kernel P D H -> Prop) :
  in_user k m a t dir ts pt kdir kts ->
  wp (isr80h_handle_command c) (fun res k2 => exists b tb db, current_task (tasks k2) = b /\ task_store (tasks k2) !! b = Some tb /\
       chunks (pages (tasks k2)) !! page_directory tb = Some db /\ Q res (resumed k2 b tb db))
    (with_tasks k (kernel_heap k) (entered (tasks k) a t f kdir)) ->
  wp (isr80h_handler c f) Q k.
Proof.
  intros [[U1 U1'] U2 U3 U4 U5 U6 U7 U8] HQ. unfold isr80h_handler.
  apply wp_bind, wp_on_tasks. unfold kernel_page. apply wp_bind, wp_modify_sched, wp_bind, wp_gets_sched. eapply wp_switch_chunk; [exact U5|].
  cbn [fst snd]. apply wp_bind, wp_on_tasks. unfold task_current_save_state, task_current. apply wp_bind, wp_gets_sched.
  cbn [snd tasks set_tasks set_paging set_segment current_task]. rewrite U1. apply Z.eqb_neq in U1' as E. rewrite E.
  unfold task_save_state. apply wp_bind. eapply wp_get_task; [exact U2|]. eapply wp_put_task; [exact U2|].
  cbn [fst snd]. apply wp_bind.
  match goal with |- wp _ _ ?x => replace x with (with_tasks k (kernel_heap k) (entered (tasks k) a t f kdir)) by (by destruct k as [[? ? []]]) end.
  eapply wp_mono; [exact HQ|]. intros res k2 (b & tb & db & R1 & R2 & R3 & R4).
  apply wp_bind, wp_on_tasks. unfold task_page. apply wp_bind, wp_modify_sched, wp_bind, wp_gets_sched. cbn [snd set_segment current_task]. rewrite R1.
  unfold task_switch. apply wp_bind, wp_bind. eapply wp_get_task; [exact R2|]. apply wp_bind, wp_modify_sched, wp_bind.
  eapply wp_switch_chunk; [exact R3|]. apply wp_ret, wp_ret, wp_ret. exact R4.
Qed.

(** The command of the table. *)
Lemma handle_command_spec k c cmd (Q : Z -> kernel P D H -> Prop) :
  0 <= c < 1024 -> isr80h_commands k !! Z.to_nat c = Some (Some cmd) -> wp (run_command cmd) Q k -> wp (isr80h_handle_command c) Q k.
Proof.
  intros Hc Hl Hw. unfold isr80h_handle_command, PEACHOS_MAX_ISR80H_COMMANDS.
  destruct (Z.ltb_spec c 0); [lia|]. rewrite Z.geb_leb. destruct (Z.leb_spec 1024 c); [lia|]. cbn [orb].
  apply wp_bind, wp_gets, wp_bind. eapply wp_lift; [by apply aget_ok|]. exact Hw.
Qed.

(** An argument on the stack of the calling task. *)
Lemma wp_stack_item k h s ps pl m a t dir ts pt kdir kts index w (Q : Z -> kernel P D H -> Prop) :
  in_kernel (h, s) m a t dir ts pt kdir kts -> 0 <= w < 2 ^ 32 -> 0 <= index < 1024 ->
  user_bytes s m pt (Registers.esp (task_registers t) + 4 * index) (le32 w) ->
  (forall s', in_kernel (h, s') m a t dir ts pt kdir kts -> undisturbed s s' [] -> ram s' = ram s -> Q w (kst k h s' ps pl)) ->
  wp (stack_item a index) Q (kst k h s ps pl).
Proof.
  intros K Hw Hi U HQ. unfold stack_item. apply wp_kst_tasks. eapply stack_item_spec; [exact K|done|done|exact U|].
  intros [h' s'] K' U' R' E. cbn [fst snd] in *. subst h'. by apply HQ.
Qed.

(** What every system call that stays in its task leaves: the registers are
    saved, the program runs again in its own address space, and the other
    tasks and address spaces are as they were. *)
Record returned (k k' : kernel P D H) (m : gmap Z Z) (a : Z) (t : task) (f : interrupt_frame) (dir : Z) (ts : list Z) (pt : Z -> Z)
    (kdir : Z) (kts : list Z) : Prop := {
  re_user : in_user k' m a (set_registers t (saved f)) dir ts pt kdir kts;
  re_mode : cr3 (pages (tasks k')) = dir /\ data_segment (tasks k') = USER_DATA_SEGMENT;
  re_process : current_process (tasks k') = Task.process t;
  re_store : task_store (tasks k') = <[a := set_registers t (saved f)]> (task_store (tasks k));
  re_list : task_head (tasks k') = task_head (tasks k) /\ task_tail (tasks k') = task_tail (tasks k);
  re_chunks : chunks (pages (tasks k')) = chunks (pages (tasks k)) /\ kernel_chunk (tasks k') = kernel_chunk (tasks k);
  re_tables : forall y, y ∉ ts -> tables (pages (tasks k')) !! y = tables (pages (tasks k)) !! y }.

Lemma undisturbed_trans s s1 s2 ts ts' : undisturbed s s1 ts' -> undisturbed s1 s2 ts -> ts' ⊆ ts -> undisturbed s s2 ts.
Proof.
  intros [A1 [A2 [A2' A2'']] A3 A4 A5 A6 A7] [B1 [B2 [B2' B2'']] B3 B4 B5 B6 B7] Hs. split; [congruence|split; [|split]; congruence|congruence..| |congruence].
  intros y Hy. rewrite B6 by done. apply A6. by intros Hin%Hs.
Qed.

Lemma undisturbed_refl s ts : undisturbed s s ts.
Proof. by split. Qed.

Lemma user_bytes_kept x x' m pt va bs : memory_kept x x' m -> user_bytes x m pt va bs -> user_bytes x' m pt va bs.
Proof. intros Hk U j b Hb. destruct (U j b Hb) as (U1 & U2 & U3 & U4). repeat split; try done; try lia. by rewrite Hk. Qed.

(** The ports written do not matter. *)
Definition with_log (s : sched) (l : list (Z * Z)) : sched :=
  mk_sched (pages s) (ram s) (task_store s) (task_head s) (task_tail s) (current_task s) (current_process s) (kernel_chunk s) (data_segment s) l.
Lemma undisturbed_log s s' ts l : undisturbed s s' ts -> undisturbed (with_log s l) (with_log s' l) ts.
Proof. by intros []; split. Qed.
Lemma undisturbed_log_l s s' ts : undisturbed s s' ts -> undisturbed (with_log s (port_log s)) s' ts.
Proof. by intros []; split. Qed.

Lemma handler_returns k k2 m a t dir ts pt kdir kts f l :
  in_user k m a t dir ts pt kdir kts ->
  in_kernel (kernel_heap k2, tasks k2) m a (set_registers t (saved f)) dir ts pt kdir kts ->
  undisturbed (with_log (entered (tasks k) a t f kdir) l) (tasks k2) ts ->
  exists b tb db, current_task (tasks k2) = b /\ task_store (tasks k2) !! b = Some tb /\
    chunks (pages (tasks k2)) !! page_directory tb = Some db /\ returned k (resumed k2 b tb db) m a t f dir ts pt kdir kts.
Proof.
  intros [[U1 U1'] U2 U3 U4 U5 U6 U7 U8] [K1 K2 K3 K4 K5 K6 K7 K8] [N1 [N2 [N2' N2'']] N3 N4 N5 N6 N7].
  cbn [fst snd] in *. cbn in N2''. exists a, (set_registers t (saved f)), dir. split; [congruence|]. do 2 (split; [done|]).
  by split.
Qed.

(** For the scheduler such a call is a step that keeps the list of tasks. *)
Lemma returned_same_list k k' m m' a t f dir ts pt kdir kts :
  in_user k m a t dir ts pt kdir kts -> returned k k' m' a t f dir ts pt kdir kts -> same_list (tasks k) (tasks k').
Proof.
  intros [[U1 _] U2 _ _ _ _ _ _] [[[V1 _] _ _ _ _ _ _ _] _ _ R4 R5 [R6 _] _]. split; [done|congruence| |done].
  rewrite R4. by apply strip_saved.
Qed.

(** The kernel when a call only saved the registers of its caller. *)
Definition only_saved k (a : Z) (t : task) (f : interrupt_frame) (dir : Z) : kernel P D H :=
  resumed (with_tasks k (kernel_heap k) (set_store (tasks k) (<[a := set_registers t (saved f)]> (task_store (tasks k))))) a t dir.

Lemma resumed_only_saved k a t f dir kdir s :
  undisturbed (entered (tasks k) a t f kdir) s [] -> ram s = ram (tasks k) ->
  resumed (kst k (kernel_heap k) s (proc_store k) (processes k)) a (set_registers t (saved f)) dir = only_saved k a t f dir.
Proof.
  intros [N1 [N2 [N2' N2'']] N3 N4 N5 N6 N7] R. unfold only_saved, resumed. rewrite kst_heap, with_tasks_heap, !with_tasks_tasks.
  assert (E : tables (pages s) = tables (pages (tasks k))) by (apply map_eq; intros y; apply N6, not_elem_of_nil).
  change (tasks (kst k (kernel_heap k) s (proc_store k) (processes k))) with s.
  unfold set_paging, set_current, set_segment, set_store. cbn in N1, N2, N2', N4, N5, N7 |- *. rewrite E, N1, N2, N2', N4, N5, N7, R.
  by destruct k as [[? ? []]].
Qed.

(** C16: the system call for sums, from the interrupt to the return.  The
    two words on top of the program's stack are added as 32-bit numbers.  The
    kernel is the one before the call but for the registers saved for the
    caller, and the program runs again in its address space. *)
Theorem syscall_sum_correct k m a t dir ts pt kdir kts f v1 v2 :
  in_user k m a t dir ts pt kdir kts -> isr80h_commands k !! 0%nat = Some (Some isr80h_sum) ->
  0 <= v1 < 2 ^ 32 -> 0 <= v2 < 2 ^ 32 ->
  user_bytes (tasks k) m pt (Frame.esp f) (le32 v1) -> user_bytes (tasks k) m pt (Frame.esp f + 4) (le32 v2) ->
  wp (isr80h_handler 0 f) (fun res k' => res = (v1 + v2) mod 2 ^ 32 /\ returned k k' m a t f dir ts pt kdir kts /\
    k' = only_saved k a t f dir) k.
Proof.
  intros U Hc H1 H2 B1 B2. eapply isr80h_handler_spec; [exact U|]. apply (handle_command_spec _ _ isr80h_sum); [lia|exact Hc|].
  pose proof (in_user_entered _ _ _ _ _ _ _ _ _ f U) as K0. set (s0 := entered (tasks k) a t f kdir) in *. rewrite with_tasks_kst.
  destruct U as [[Uc Uc'] ? ? ? ? ? ? ?] eqn:EU. clear EU. cbn [run_command]. unfold isr80h_command0_sum.
  apply wp_bind, wp_kst_tasks, wp_gets_sched. cbn [fst snd]. change (current_task s0) with (current_task (tasks k)). rewrite Uc.
  apply wp_bind. eapply wp_stack_item; [exact K0|exact H2|lia|exact B2|]. intros s1 K1 N1 R1.
  apply wp_bind, wp_kst_tasks, wp_gets_sched. cbn [fst snd]. destruct (un_list _ _ _ N1) as (_ & _ & ->).
  change (current_task s0) with (current_task (tasks k)). rewrite Uc.
  apply wp_bind. eapply wp_stack_item; [exact K1|exact H1|lia| |].
  { apply (user_bytes_kept s0); [by intros pa _; rewrite R1|]. cbn. by rewrite Z.add_0_r. }
  intros s2 K2 N2 R2. apply wp_ret.
  destruct (handler_returns k (kst k (kernel_heap k) s2 (proc_store k) (processes k)) m a t dir ts pt kdir kts f (port_log s0)) as (b & tb & db & E1 & E2 & E3 & E4).
  { by split. }
  { rewrite kst_heap. exact K2. }
  { apply undisturbed_log_l. eapply undisturbed_trans; [eapply undisturbed_trans; [exact N1|exact N2|done]|apply undisturbed_refl|by intros ? ?%not_elem_of_nil]. }
  exists b, tb, db. do 3 (split; [done|]). split; [unfold u32, i32; zdm|]. split; [exact E4|].
  assert (N12 : undisturbed s0 s2 []) by (by eapply undisturbed_trans). cbn [kst set_procs with_tasks set_tasks tasks] in E1, E2, E3.
  assert (Eb : b = a) by (rewrite <- E1; destruct (un_list _ _ _ N12) as (_ & _ & ->); exact Uc). clear E1. subst b.
  pose proof (ik_task _ _ _ _ _ _ _ _ _ K2) as Kt. pose proof (ik_chunk _ _ _ _ _ _ _ _ _ K2) as Kc. cbn [snd] in Kt, Kc.
  rewrite Kt in E2. injection E2 as <-. rewrite Kc in E3. injection E3 as <-. apply (resumed_only_saved _ _ _ _ _ kdir); [exact N12|exact (eq_trans R2 R1)].
Qed.

(** The buffer after the string was copied into it. *)
Lemma cstring_copied str n q : Forall (fun c => c <> 0) str ->
  CString.cstring (splice (replicate n q) 0 (str ++ [0])) = Some str.
Proof.
  intros Hz. unfold splice. rewrite take_0, <- app_assoc. by apply CString.cstring_app.
Qed.

(** C9: printing from a program.  The string the program passes, or its
    first 1023 characters, is written on the screen at the cursor; the
    program's memory, its address space and the heap are as before. *)
Theorem syscall_print_correct k m a t dir ts pt kdir kts f msg str scr rest :
  in_user k m a t dir ts pt kdir kts -> isr80h_commands k !! 1%nat = Some (Some isr80h_print) ->
  (1 <= free_blocks (kernel_heap k))%nat -> 0 <= msg < 2 ^ 32 ->
  user_bytes (tasks k) m pt (Frame.esp f) (le32 msg) ->
  Forall (fun c => c <> 0) str -> bytes_ok str -> user_bytes (tasks k) m pt msg (take 1023 (str ++ [0])) ->
  shows (screen k) scr rest -> cursor_at (screen k) scr ->
  wp (isr80h_handler 1 f) (fun res k' => res = 0 /\ returned k k' m a t f dir ts pt kdir kts /\
    memory_kept (tasks k) (tasks k') m /\ free_blocks (kernel_heap k') = free_blocks (kernel_heap k) /\
    shows (screen k') (foldl step scr (take 1023 str)) rest /\ cursor_at (screen k') (foldl step scr (take 1023 str))) k.
Proof.
  intros U Hc Hf Hm B1 Hz Hb B2 Hs Hcu. eapply isr80h_handler_spec; [exact U|]. apply (handle_command_spec _ _ isr80h_print); [lia|exact Hc|].
  pose proof (in_user_entered _ _ _ _ _ _ _ _ _ f U) as K0. set (s0 := entered (tasks k) a t f kdir) in *. rewrite with_tasks_kst.
  destruct (iu_current _ _ _ _ _ _ _ _ _ U) as [Uc _]. cbn [run_command]. unfold isr80h_command1_print.
  apply wp_bind, wp_kst_tasks, wp_gets_sched. cbn [fst snd]. change (current_task s0) with (current_task (tasks k)). rewrite Uc.
  apply wp_bind. eapply wp_stack_item; [exact K0|exact Hm|lia|cbn; by rewrite Z.add_0_r|]. intros s1 K1 N1 R1.
  apply wp_bind, wp_kst_tasks, wp_gets_sched. cbn [fst snd]. destruct (un_list _ _ _ N1) as (_ & _ & ->).
  change (current_task s0) with (current_task (tasks k)). rewrite Uc.
  assert (M1 : memory_kept (tasks k) s1 m) by (intros pa _; by rewrite R1).
  apply wp_bind, wp_kst_tasks. eapply copy_string_spec; [exact K1|exact Hf|lia|exact Hz|by eapply user_bytes_kept| |].
  { rewrite length_take, length_replicate. change (Z.to_nat (1024 - 1)) with 1023%nat. lia. }
  intros [h2 s2] K2 N2 M2 F2. cbn [fst snd] in *. change (Z.to_nat (1024 - 1)) with 1023%nat. cbn [Z.ltb Z.compare].
  apply wp_bind, wp_on_screen. eapply print_spec; [exact Hs|by apply Forall_take|exact Hcu|by apply cstring_copied, Forall_take|].
  intros t' Hs' Hc'. apply wp_ret. set (k2 := set_screen _ _).
  destruct (handler_returns k k2 m a t dir ts pt kdir kts f (port_log s0)) as (b & tb & db & E1 & E2 & E3 & E4); [exact U| | |].
  { change (kernel_heap k2) with (kernel_heap (kst k h2 s2 (proc_store k) (processes k))). rewrite kst_heap. exact K2. }
  { apply undisturbed_log_l. eapply undisturbed_trans; [exact N1|exact N2|by intros ? ?%not_elem_of_nil]. }
  exists b, tb, db. do 3 (split; [done|]). split; [done|]. split; [exact E4|].
  split; [intros pa L; rewrite <- M1 by done; by apply M2|]. split; [|done].
  unfold resumed. rewrite with_tasks_heap. change (kernel_heap k2) with (kernel_heap (kst k h2 s2 (proc_store k) (processes k))). by rewrite kst_heap.
Qed.

(** The end of a process, from the interrupt to the next task. *)
Lemma exit_owned k m a t dir ts pt p x f kdir l :
  owned_process k m p x t dir ts pt -> Process.task x = a -> task_list (tasks k) l -> back_links (tasks k) l ->
  let k1 := with_tasks k (kernel_heap k) (entered (tasks k) a t f kdir) in
  owned_process k1 m p x (set_registers t (saved f)) dir ts pt /\ task_list (tasks k1) l /\ back_links (tasks k1) l.
Proof.
  intros [P1 P2 P3 P4 [T1 T2 T3 T4] P6] <- L Bl k1. split; [|split].
  - split; try done. unfold k1. rewrite with_tasks_heap. split; try done. cbn. apply lookup_insert_eq.
  - by apply (task_list_put (tasks k) (tasks k1) l (Process.task x) t (set_registers t (saved f))).
  - by apply (back_links_put (tasks k) (tasks k1) l (Process.task x) t (set_registers t (saved f))).
Qed.

(** C11: exit.  The process that calls it is gone: its slot is free, its
    task is off the list, and every block it had is back on the heap, the
    1026 blocks of its address space included.  The kernel goes on with the
    successor of its task, in that task's address space and with its
    registers as they were saved. *)
Theorem syscall_exit_correct k m N a t dir ts pt kdir kts f p x l1 l2 b tb db :
  in_user k (with_blocks (task_blocks a (page_directory t) dir ts) (process_blocks p x m)) a t dir ts pt kdir kts ->
  isr80h_commands k !! 5%nat = Some (Some isr80h_exit) -> Task.process t = p -> Process.task x = a ->
  owned_process k m p x t dir ts pt -> task_list (tasks k) (l1 ++ a :: l2) -> back_links (tasks k) (l1 ++ a :: l2) ->
  room (kernel_heap k) N -> head (l2 ++ l1) = Some b -> task_store (tasks k) !! b = Some tb ->
  chunks (pages (tasks k)) !! page_directory tb = Some db -> page_directory tb <> page_directory t ->
  wp (isr80h_handler 5 f) (fun res k' => res = 0 /\ current_task (tasks k') = b /\ current_process (tasks k') = Task.process tb /\
    cr3 (pages (tasks k')) = db /\ task_list (tasks k') (l1 ++ l2) /\
    (exists tb', task_store (tasks k') !! b = Some tb' /\ task_registers tb' = task_registers tb) /\
    task_store (tasks k') !! a = None /\ proc_store k' = delete p (proc_store k) /\
    processes k' = <[Z.to_nat (Process.id x) := 0]> (processes k) /\ owns (kernel_heap k') m /\
    free_blocks (kernel_heap k') = (1033 + Z.to_nat (Heap.blocks_of (Process.size x)) + free_blocks (kernel_heap k))%nat) k.
Proof.
  intros U Hcmd Hp Hx O L Bl Hr Hb Htb Hdb Hne. eapply isr80h_handler_spec; [exact U|].
  apply (handle_command_spec _ _ isr80h_exit); [lia|exact Hcmd|]. destruct (iu_current _ _ _ _ _ _ _ _ _ U) as [Uc Un].
  destruct (exit_owned k m a t dir ts pt p x f kdir (l1 ++ a :: l2) O Hx L Bl) as (O1 & L1 & B1).
  set (k1 := with_tasks k (kernel_heap k) (entered (tasks k) a t f kdir)) in *. cbn [run_command]. unfold isr80h_command5_exit, current_task_process.
  apply wp_bind, wp_bind, wp_on_tasks, wp_gets_sched. cbn [fst snd]. change (set_tasks (set_kernel_heap k1 _) _) with (with_tasks k1 (kernel_heap k1) (tasks k1)).
  rewrite with_tasks_same. change (current_task (tasks k1)) with (current_task (tasks k)). rewrite Uc.
  apply wp_bind. eapply wp_task_of; [apply lookup_insert_eq|]. apply wp_ret. cbn [Task.process set_registers]. rewrite Hp. subst a.
  assert (Eh : kernel_heap k1 = kernel_heap k) by apply with_tasks_heap.
  apply wp_bind. eapply (process_free_spec k1 m N); [exact O1|exact L1|exact B1| |by rewrite Eh|].
  { change (current_task (tasks k1)) with (current_task (tasks k)). rewrite Uc. apply elem_of_app. right. by left. }
  intros h' st Ho' Hf' L' D'. set (a := Process.task x) in *. set (k2 := kst k1 h' _ _ _).
  assert (Ba : b <> a).
  { intros ->. destruct L as [Nd _ _ _ _]. apply NoDup_app in Nd as (_ & N1 & N2). apply NoDup_cons in N2 as [N2 _].
    assert (Hin : a ∈ l2 ++ l1) by (destruct (l2 ++ l1); [done|injection Hb as ->; by left]). apply elem_of_app in Hin as [?|Hin]; [done|].
    apply (N1 a Hin). by left. }
  assert (Hhead : default 0 (head (l1 ++ l2)) <> 0).
  { destruct L as [_ L0 _ _ _]. destruct (l1 ++ l2) as [|y l'] eqn:El; [apply app_eq_nil in El as [-> ->]; done|]. cbn. intros ->. apply L0.
    assert (Hin : 0 ∈ l1 ++ l2) by (rewrite El; by left). rewrite elem_of_app, elem_of_cons in *. tauto. }
  apply wp_bind, wp_on_tasks, wp_gets_sched. cbn [fst snd]. change (set_tasks (set_kernel_heap k2 _) _) with (with_tasks k2 (kernel_heap k2) (tasks k2)).
  rewrite with_tasks_same. change (task_head (tasks k2)) with (default 0 (head (l1 ++ l2))). apply Z.eqb_neq in Hhead. rewrite Hhead.
  apply wp_ret. destruct (drop_next_lookup st (task_store (tasks k1)) b tb) as (tb' & Hb' & Ed); [done|by cbn; rewrite lookup_insert_ne|].
  exists b, tb', db. assert (Ec : current_task (tasks k2) = b).
  { cbn. rewrite Uc, Z.eqb_refl. by rewrite Hb. }
  split; [exact Ec|]. split; [cbn; by rewrite lookup_delete_ne|]. destruct Ed as (E1 & E2 & E3 & E4).
  split; [cbn; by rewrite E2, lookup_delete_ne|]. split; [done|]. split; [done|]. split; [exact E4|]. split; [done|].
  split; [by destruct L'; split|]. split; [exists tb'; split; [cbn; by rewrite lookup_delete_ne|done]|]. split; [apply lookup_delete_eq|].
  split; [done|]. split; [done|]. unfold resumed. rewrite with_tasks_heap. unfold k2. rewrite kst_heap. split; [done|]. rewrite Hf', Eh. done.
Qed.
End entry.

(** ** The table of commands *)
Section table.
Context {P D H : Type} {B : BlockDevice D} {A : Allocator H} {F : Filesystem (fs_state D H) P}.
Implicit Types k : kernel P D H.

Definition commands : list command :=
  [isr80h_sum; isr80h_print; isr80h_open; isr80h_read; isr80h_fork; isr80h_exit; isr80h_readline; isr80h_write;
   isr80h_delete; isr80h_close; isr80h_readdir; isr80h_wait].

(** The table once the first [n] commands are registered. *)
Definition registered (n : nat) : list (option command) := (Some <$> take n commands) ++ replicate (1024 - n) None.

Lemma register_spec k c n (Q : unit -> kernel P D H -> Prop) :
  isr80h_commands k = registered n -> commands !! n = Some c -> command_id c = Z.of_nat n ->
  Q tt (set_commands k (registered (S n))) -> wp (isr80h_register_command (command_id c) c) Q k.
Proof.
  intros Hk Hc -> HQ. unfold isr80h_register_command, PEACHOS_MAX_ISR80H_COMMANDS. apply lookup_lt_Some in Hc as Hn. cbn in Hn.
  destruct (Z.ltb_spec (Z.of_nat n) 0); [lia|]. rewrite Z.geb_leb. destruct (Z.leb_spec 1024 (Z.of_nat n)); [lia|]. cbn [orb].
  assert (Hl : length (Some <$> take n commands) = n) by (rewrite length_fmap, length_take; cbn; lia).
  assert (E : registered n = (Some <$> take n commands) ++ None :: replicate (1024 - S n) None).
  { unfold registered. f_equal. by replace (1024 - n)%nat with (S (1024 - S n)) by lia. }
  apply wp_bind, wp_gets, wp_bind. rewrite Hk, E.
  eapply wp_lift; [apply aget_ok; [lia|rewrite Nat2Z.id, lookup_app_r, Hl, Nat.sub_diag by lia; reflexivity]|].
  apply wp_bind. eapply wp_lift; [pose proof (aset_app (Some <$> take n commands) (replicate (1024 - S n) None) None (Some c)) as Ha; rewrite Hl in Ha; exact Ha|].
  apply wp_modify.
  unfold registered in HQ. rewrite (take_S_r _ _ _ Hc), fmap_app, <- app_assoc in HQ. exact HQ.
Qed.

Lemma register_all k (Q : unit -> kernel P D H -> Prop) :
  isr80h_commands k = replicate 1024 None -> Q tt (set_commands k (registered 12)) -> wp isr80h_register_commands Q k.
Proof.
  intros Hk HQ. unfold isr80h_register_commands.
  apply wp_bind, (register_spec _ _ 0); [exact Hk|done|done|]. apply wp_bind, (register_spec _ _ 1); [done..|].
  apply wp_bind, (register_spec _ _ 2); [done..|]. apply wp_bind, (register_spec _ _ 3); [done..|].
  apply wp_bind, (register_spec _ _ 4); [done..|]. apply wp_bind, (register_spec _ _ 5); [done..|].
  apply wp_bind, (register_spec _ _ 6); [done..|]. apply wp_bind, (register_spec _ _ 7); [done..|].
  apply wp_bind, (register_spec _ _ 8); [done..|]. apply wp_bind, (register_spec _ _ 9); [done..|].
  apply wp_bind, (register_spec _ _ 10); [done..|]. apply (register_spec _ _ 11); [done..|]. exact HQ.
Qed.

(** C15: the dispatch of system calls.  Once [isr80h_register_commands] ran
    on an empty table, the number of each command of the enumeration runs
    that command and no other, every other number, negative or beyond the
    table, returns 0 and does nothing, and a second registration panics. *)
Theorem dispatch_correct k scr rest :
  isr80h_commands k = replicate 1024 None -> shows (Kernel.screen k) scr rest -> cursor_at (Kernel.screen k) scr ->
  wp isr80h_register_commands (fun _ k' => Kernel.screen k' = Kernel.screen k /\ tasks k' = tasks k /\ files k' = files k /\
    (forall c, isr80h_handle_command (command_id c) k' = run_command c k') /\
    (forall i, (forall c, command_id c <> i) -> isr80h_handle_command i k' = Ok (0, k')) /\
    (forall c c', isr80h_register_command (command_id c) c' k' = Hang)) k.
Proof.
  intros Hk Hs Hcu. apply register_all; [done|]. set (k' := set_commands k (registered 12)). do 3 (split; [done|]). split; [|split].
  - intros c. unfold isr80h_handle_command. by destruct c.
  - intros i Hi. unfold isr80h_handle_command, PEACHOS_MAX_ISR80H_COMMANDS.
    destruct (Z.ltb_spec i 0); [done|]. rewrite Z.geb_leb. destruct (Z.leb_spec 1024 i); [done|]. cbn [orb].
    unfold mbind, M_bind, gets, lift_out. change (isr80h_commands k') with (registered 12).
    assert (H12 : 12 <= i).
    { destruct (Z.le_gt_cases 12 i) as [|Hlt]; [done|]. exfalso.
      assert (Hex : existsb (fun c => command_id c =? i) commands = true)
        by (assert (i = 0 \/ i = 1 \/ i = 2 \/ i = 3 \/ i = 4 \/ i = 5 \/ i = 6 \/ i = 7 \/ i = 8 \/ i = 9 \/ i = 10 \/ i = 11) as E by lia;
            repeat destruct E as [->|E]; subst; reflexivity).
      apply existsb_exists in Hex as (c & _ & Hc). apply Z.eqb_eq in Hc. by apply (Hi c). }
    rewrite (aget_ok _ _ None); [done|lia|]. unfold registered. rewrite lookup_app_r by (cbn; lia).
    apply lookup_replicate_2. cbn. lia.
  - intros c c'. assert (Hp : wp (on_screen (print overwrite_msg)) (fun _ _ => True) k').
    { apply wp_on_screen. eapply print_spec; [exact Hs| |exact Hcu|reflexivity|done].
      repeat (constructor; [unfold byte_ok; lia|]). constructor. }
    unfold wp in Hp. destruct (on_screen (print overwrite_msg) k') as [[u k2]| |] eqn:E; [|done|done].
    assert (Hpan : panic overwrite_msg k' = @Hang (unit * kernel P D H)) by (unfold panic, mbind, M_bind; by rewrite E).
    destruct c; exact Hpan.
Qed.
End table.

(** ** Witnesses *)
Module ExampleCalls.
Import ExampleProcess ExampleUser ExamplePaging.

Lemma shell_in_user l k m p a ptr stack dir ts t kdir kts :
  shell_runs l k m p a ptr stack dir ts t kdir kts -> in_user k m a t dir ts (identity 5) kdir kts.
Proof.
  intros [_ _ _ [K1 K2 K3 K4 K5 K6 K7 K8] _ _ _ _ _ _ _ (C1 & C2 & _) _ _]. split; try done.
Qed.

(** Bytes of low memory, where the program sees them. *)
Lemma shell_bytes l k m p a ptr stack dir ts t kdir kts va bs :
  shell_runs l k m p a ptr stack dir ts t kdir kts -> 0 <= va < 0x800000 -> (length bs <= 512)%nat ->
  (forall i, (i < length bs)%nat -> shell_ram !! (va + Z.of_nat i) = bs !! i) -> user_bytes (tasks k) m (identity 5) va bs.
Proof.
  intros R Hv Hl Hb i b Hi. apply lookup_lt_Some in Hi as Hlt. rewrite identity_user by lia.
  split; [lia|]. split; [by unfold identity; rewrite frames_odd|]. split; [|left; lia].
  rewrite (sr_low _ _ _ _ _ _ _ _ _ _ _ _ R) by lia. rewrite Hb by done. exact Hi.
Qed.

(** A concrete list of bytes, one by one. *)
Lemma check_bytes va bs : forallb (fun i => bool_decide (shell_ram !! (va + Z.of_nat i) = bs !! i)) (seq 0 (length bs)) = true ->
  forall i, (i < length bs)%nat -> shell_ram !! (va + Z.of_nat i) = bs !! i.
Proof.
  intros Hf i Hi. rewrite forallb_forall in Hf. specialize (Hf i ltac:(apply in_seq; lia)). by apply bool_decide_eq_true in Hf.
Qed.

Definition frame_at (esp : Z) : interrupt_frame := Frame.mk 0 0 0 0 0 0 0 0 0x400010 0x1b 0x202 esp 0x23.
End ExampleCalls.
Import ExampleCalls ExampleProcess.

Lemma syscall_sum_correct_witness :
  wp (_ ← start_shell; isr80h_handler 0 (frame_at 0x3FEF00)) (fun res _ => res = 4) (before []).
Proof.
  apply wp_bind, start_shell_spec. intros k m p a ptr stack dir ts t kdir kts R.
  eapply wp_mono; [apply (syscall_sum_correct k m a t dir ts (identity 5) kdir kts (frame_at 0x3FEF00) 0xFFFFFFFF 5)|].
  - exact (shell_in_user _ _ _ _ _ _ _ _ _ _ _ _ R).
  - destruct (sr_rest _ _ _ _ _ _ _ _ _ _ _ _ R) as [-> _]. reflexivity.
  - lia.
  - lia.
  - apply (shell_bytes _ _ _ _ _ _ _ _ _ _ _ _ _ _ R); [simpl; lia|simpl; lia|apply check_bytes; vm_compute; reflexivity].
  - apply (shell_bytes _ _ _ _ _ _ _ _ _ _ _ _ _ _ R); [simpl; lia|simpl; lia|apply check_bytes; vm_compute; reflexivity].
  - intros res k' [-> _]. reflexivity.
Defined.

Lemma syscall_print_correct_witness :
  wp (_ ← start_shell; isr80h_handler 1 (frame_at 0x3FEF10)) (fun res k' => res = 0 /\
    take 2 (video_mem (Kernel.screen k')) = [0x0F48; 0x0F69]) (before []).
Proof.
  apply wp_bind, start_shell_spec. intros k m p a ptr stack dir ts t kdir kts R. destruct (sr_screen _ _ _ _ _ _ _ _ _ _ _ _ R) as [S1 S2].
  eapply wp_mono; [apply (syscall_print_correct k m a t dir ts (identity 5) kdir kts (frame_at 0x3FEF10) 0x400000 [72; 105] empty_screen (replicate 400 0))|].
  - exact (shell_in_user _ _ _ _ _ _ _ _ _ _ _ _ R).
  - destruct (sr_rest _ _ _ _ _ _ _ _ _ _ _ _ R) as [-> _]. reflexivity.
  - pose proof (room_free _ m 2440 (ik_owns _ _ _ _ _ _ _ _ _ (sr_kernel _ _ _ _ _ _ _ _ _ _ _ _ R)) (sr_room _ _ _ _ _ _ _ _ _ _ _ _ R)). simpl in *. lia.
  - lia.
  - apply (shell_bytes _ _ _ _ _ _ _ _ _ _ _ _ _ _ R); [simpl; lia|simpl; lia|apply check_bytes; vm_compute; reflexivity].
  - repeat (constructor; [discriminate|]). constructor.
  - repeat (constructor; [unfold byte_ok; lia|]). constructor.
  - apply (shell_bytes _ _ _ _ _ _ _ _ _ _ _ _ _ _ R); [simpl; lia|simpl; lia|apply check_bytes; vm_compute; reflexivity].
  - exact S1.
  - exact S2.
  - intros res k' (-> & _ & _ & _ & [V _ _ _] & _). split; [reflexivity|]. rewrite V. reflexivity.
Defined.

Lemma dispatch_correct_witness :
  wp isr80h_register_commands (fun _ k' => isr80h_handle_command 12 k' = Ok (0, k') /\ isr80h_handle_command 4 k' = isr80h_command4_fork k')
    (set_screen (set_commands (before []) (replicate 1024 None)) (mk_term (replicate 1600 blank) 0 0 15 {[14 := 0; 15 := 0]})).
Proof.
  eapply wp_mono; [apply (dispatch_correct _ empty_screen [])|].
  - reflexivity.
  - split; [reflexivity|reflexivity|reflexivity|]. split; [apply length_replicate|simpl; lia].
  - exists 0, 0. split; [reflexivity|]. split; [reflexivity|reflexivity].
  - intros u k' (_ & _ & _ & H1 & H2 & _). split; [apply H2; intros []; discriminate|exact (H1 isr80h_fork)].
Defined.

(** Blocks of another object move past those of a process. *)
Lemma process_blocks_swap l p x m : p ∉ l -> Process.ptr x ∉ l -> Process.stack x ∉ l ->
  with_blocks l (process_blocks p x m) = process_blocks p x (with_blocks l m).
Proof.
  intros H1 H2 H3. apply map_eq. intros y. unfold process_blocks. destruct (decide (y ∈ l)) as [Hy|Hy].
  - rewrite with_blocks_in by done. rewrite !lookup_insert_ne by congruence. by rewrite with_blocks_in.
  - rewrite with_blocks_notin by done. destruct (decide (p = y)) as [->|]; [by rewrite !lookup_insert_eq|]. rewrite !(lookup_insert_ne _ p) by done.
    destruct (decide (Process.ptr x = y)) as [->|]; [by rewrite !lookup_insert_eq|]. rewrite !(lookup_insert_ne _ (Process.ptr x)) by done.
    destruct (decide (Process.stack x = y)) as [->|]; [by rewrite !lookup_insert_eq|]. rewrite !(lookup_insert_ne _ (Process.stack x)) by done.
    by rewrite with_blocks_notin.
Qed.

Lemma process_blocks_None p x m y : process_blocks p x m !! y = None -> y <> p /\ y <> Process.ptr x /\ y <> Process.stack x /\ m !! y = None.
Proof.
  unfold process_blocks. intros E. apply lookup_insert_None in E as [E H1]. apply lookup_insert_None in E as [E H2].
  apply lookup_insert_None in E as [E H3]. auto.
Qed.

(** A second task beside the shell, and what [exit] needs. *)
Lemma shell_two (Q : Z -> machine -> Prop) :
  (forall k m1 p a ptr stack dir ts t kdir kts b tb db, let x := shell_process a ptr stack in
     in_user k (with_blocks (task_blocks a (page_directory t) dir ts) (process_blocks p x m1)) a t dir ts (identity 5) kdir kts ->
     isr80h_commands k !! 5%nat = Some (Some isr80h_exit) -> Task.process t = p ->
     owned_process k m1 p x t dir ts (identity 5) -> task_list (tasks k) [a; b] -> back_links (tasks k) [a; b] ->
     room (kernel_heap k) 1413 -> task_store (tasks k) !! b = Some tb -> chunks (pages (tasks k)) !! page_directory tb = Some db ->
     page_directory tb <> page_directory t -> processes k = p :: replicate 11 0 -> Q b k) ->
  wp (_ ← start_shell; on_tasks (task_new 99)) Q (before []).
Proof.
  intros HQ. apply wp_bind, start_shell_spec. intros k m p a ptr stack dir ts t kdir kts R.
  pose proof (sr_blocks _ _ _ _ _ _ _ _ _ _ _ _ R) as (m1 & Em & Fr & Hd & Hf).
  pose proof (shell_in_user _ _ _ _ _ _ _ _ _ _ _ _ R) as [_ U2 U3 U4 U5 U6 U7 U8].
  pose proof (sr_current _ _ _ _ _ _ _ _ _ _ _ _ R) as (C1 & C2 & C3 & C4).
  pose proof (sr_fork _ _ _ _ _ _ _ _ _ _ _ _ R) as [K1 K2 K3 K4 K5 K6 K7 K8].
  apply wp_on_tasks. eapply (task_new_spec (kernel_heap k, tasks k) m 2440 [a]); [exact K1|exact K3|exact U8|exact (sr_room _ _ _ _ _ _ _ _ _ _ _ _ R)|lia|].
  intros b cb db tsb h' pg y Hb0 Hbl T. destruct (task_new_state (kernel_heap k, tasks k) _ _ _ 99 _ _ _ _ _ _ K1 Hb0 Hbl T) as (L & Bl & [O1 O2 O3 O4]).
  fold y in L, Bl, O1, O2, O3. pose proof T as [T1 T2 T3 T4 T5 T6 T7 [T8 T9]]. cbn [fst snd] in *.
  assert (Hap : forall z, is_Some (m !! z) -> z ∉ task_blocks b cb db tsb).
  { intros z [n Hz] Hin. destruct T1 as [_ T1]. specialize (T1 z Hin). congruence. }
  assert (Htab : forall z, z ∈ db :: tsb -> z ∈ task_blocks b cb db tsb) by (intros z Hz; by right; right).
  assert (Ha : m !! a = Some 1 /\ forall z, z ∈ task_blocks a (page_directory t) dir ts -> is_Some (m !! z)).
  { subst m. split; [apply with_blocks_in; by left|]. intros z Hz. exists 1. by apply with_blocks_in. }
  destruct Ha as [Ha Hta]. pose proof (sr_klive _ _ _ _ _ _ _ _ _ _ _ _ R) as Hkl.
  assert (Hsw : forall n z, process_blocks p (shell_process a ptr stack) m1 !! z = Some n -> z ∉ task_blocks b cb db tsb).
  { intros n z Hz. apply Hap. subst m. destruct (decide (z ∈ task_blocks a (page_directory t) dir ts)); [rewrite with_blocks_in by done; eauto|].
    rewrite with_blocks_notin by done. eauto. }
  assert (Eo : with_blocks (task_blocks b cb db tsb) m =
    with_blocks (task_blocks a (page_directory t) dir ts) (process_blocks p (shell_process a ptr stack) (with_blocks (task_blocks b cb db tsb) m1))).
  { rewrite Em, <- with_blocks_app, (with_blocks_perm _ _ _ (Permutation_app_comm _ _)), with_blocks_app. f_equal.
    apply process_blocks_swap.
    - apply (Hsw 2). apply lookup_insert_eq.
    - apply (Hsw 1). unfold process_blocks. rewrite lookup_insert_ne by apply Hd. apply lookup_insert_eq.
    - apply (Hsw 4). unfold process_blocks. rewrite !lookup_insert_ne by apply Hd. apply lookup_insert_eq. }
  rewrite Eo in T2. set (m2 := with_blocks (task_blocks b cb db tsb) m1) in *. set (k' := set_tasks (set_kernel_heap k h') y).
  assert (Eh : kernel_heap k' = h') by (unfold k'; by destruct k as [[? ? []]]).
  assert (Hst : task_store y !! a = Some (set_next t b)) by (apply (link_store_last _ _ _ [a] a t); [done|exact U2|]; intros ->; apply Hbl; by left).
  assert (Hch : chunks pg !! page_directory t = Some dir).
  { rewrite T5, lookup_insert_ne; [done|]. intros E. apply (Hap (page_directory t)); [apply Hta; right; by left|rewrite <- E; right; by left]. }
  assert (Hsp : space (tables pg) dir ts (identity 5)).
  { apply (space_frame _ _ _ _ _ _ U4). intros z Hz. apply T7. intros Hin. apply (Hap z); [apply Hta; by right; right|by apply Htab]. }
  apply (HQ k' m2 p a ptr stack dir ts (set_next t b) kdir kts b (new_task 99 cb [a]) db); try done.
  - split; try done.
    + change (chunks pg !! kernel_chunk (tasks k) = Some kdir). rewrite T5, lookup_insert_ne; [exact U5|]. intros E. apply (Hap (kernel_chunk (tasks k))); [apply Hkl; by left|rewrite <- E; right; by left].
    + apply (space_frame _ _ _ _ _ _ U6). intros z Hz. change (tables pg !! z = tables (pages (tasks k)) !! z). apply T7. intros Hin. apply (Hap z); [apply Hkl; by right|by apply Htab].
  - cbn. destruct (sr_rest _ _ _ _ _ _ _ _ _ _ _ _ R) as [-> _]. done.
  - split.
    + cbn. rewrite (sr_process _ _ _ _ _ _ _ _ _ _ _ _ R). apply lookup_singleton_eq.
    + cbn. rewrite (sr_slots _ _ _ _ _ _ _ _ _ _ _ _ R). cbn. lia.
    + done.
    + destruct Hf as (F1 & F2 & F3). unfold m2. rewrite !with_blocks_notin; [done|..].
      * apply (Hsw 4). unfold process_blocks. rewrite !lookup_insert_ne by apply Hd. apply lookup_insert_eq.
      * apply (Hsw 1). unfold process_blocks. rewrite lookup_insert_ne by apply Hd. apply lookup_insert_eq.
      * apply (Hsw 2). apply lookup_insert_eq.
    + split; [exact Hst|exact Hch|exact Hsp|]. destruct Fr as [N1 N2]. split; [exact N1|]. intros z Hz. cbn [Process.task shell_process] in Hz.
      specialize (N2 z Hz). apply process_blocks_None in N2 as (H1 & H2 & H3 & H4). unfold process_blocks.
      rewrite !lookup_insert_ne by (intros E; symmetry in E; done). unfold m2. rewrite with_blocks_notin; [done|]. apply Hap, Hta, Hz.
    + rewrite Eh. exact T2.
  - by apply Bl.
  - intros E. apply (Hap (page_directory t)); [apply Hta; right; by left|]. cbn in E. rewrite <- E. right. by left.
  - cbn. exact (sr_slots _ _ _ _ _ _ _ _ _ _ _ _ R).
Qed.

Lemma syscall_exit_correct_witness :
  wp (b ← (_ ← start_shell; on_tasks (task_new 99)); r ← isr80h_handler 5 (frame_at 0x3FEF00); mret (b, r)) (fun r k' =>
    snd r = 0 /\ current_task (tasks k') = fst r /\ processes k' = replicate 12 0) (before []).
Proof.
  apply wp_bind, shell_two. intros k m1 p a ptr stack dir ts t kdir kts b tb db x U Hc Hp O L Bl Hr Hb Hd Hne Hpr. apply wp_bind.
  eapply wp_mono; [apply (syscall_exit_correct k m1 1413 a t dir ts (identity 5) kdir kts (frame_at 0x3FEF00) p x [] [b] b tb db)|].
  - exact U.
  - exact Hc.
  - exact Hp.
  - reflexivity.
  - exact O.
  - exact L.
  - exact Bl.
  - exact Hr.
  - reflexivity.
  - exact Hb.
  - exact Hd.
  - exact Hne.
  - intros res k' (-> & H1 & _ & _ & _ & _ & _ & _ & H2 & _). apply wp_ret. split; [reflexivity|]. split; [exact H1|]. rewrite H2, Hpr. reflexivity.
Defined.
