(* ===== verification/Readline.v ===== *)
(** * Reading a line: [isr80h_command6_readline] of src/isr80h/process.c

    The system call sleeps until an interrupt arrives, pops a character of
    the keyboard queue and edits a line with echo on the screen.  It is
    compared with a line editor on the stream of keys: [keys] is the stream
    that a sequence of interrupts produces, [edit] the editor. *)
From Stdlib Require Import ZArith Lia.
From stdpp Require Import base list gmap numbers option list_numbers.
From S2P Require Import Prelude CLib Heap Disk FatTypes Fat16 Vfs Terminal Paging Task UserMem Kernel Keyboard Process Syscall.
Local Open Scope Z_scope.
Local Open Scope kernel_scope.

(** ** The abstract line editor *)

(** The characters that the interrupts of one batch append to the queue. *)
Definition irq_chars (i : irq) : list Z := match i with IrqKey sc => option_list (key_of sc) | _ => [] end.
Definition chars (b : list irq) : list Z := concat (irq_chars <$> b).

(** One key per batch; 0 when the queue is empty. *)
Fixpoint keys (q : list Z) (bs : list (list irq)) : list Z :=
  match bs with
  | [] => []
  | b :: bs' => let q1 := q ++ chars b in default 0 (head q1) :: keys (tail q1) bs'
  end.
Definition enter (c : Z) : bool := (c =? 13) || (c =? 10).

(** The first key that is no [enter], and the keys after it. *)
Fixpoint skip_enter (ks : list Z) : option (Z * list Z) :=
  match ks with
  | [] => None
  | c :: ks' => if enter c then skip_enter ks' else Some (c, ks')
  end.

Definition echo_of (c : Z) : Z := if c =? 13 then 10 else c.

(** The line, what was echoed and the keys that are left; [None] when the
    keys end before the line does. *)
Fixpoint edit (max : nat) (line : list Z) (ks : list Z) : option (list Z * list Z * list Z) :=
  if (max <=? S (length line))%nat then Some (line, [], ks)
  else
    match ks with
    | [] => None
    | c :: ks' =>
        if c =? 0 then edit max line ks'
        else if c =? 8 then
          if (length line =? 0)%nat then edit max line ks'
          else '(l, e, r) ← edit max (take (length line - 1) line) ks'; Some (l, 8 :: e, r)
        else if enter c then Some (line ++ [c], [echo_of c], ks')
        else '(l, e, r) ← edit max (line ++ [c]) ks'; Some (l, echo_of c :: e, r)
    end.

Definition read_line (max : nat) (ks : list Z) : option (list Z * list Z * list Z) :=
  '(c, ks') ← skip_enter ks;
  if c =? 0 then edit max [] ks'
  else '(l, e, r) ← edit max [c] ks'; Some (l, c :: e, r).

(** Interrupts the keyboard driver can take. *)
Definition irq_ok (i : irq) : Prop := match i with IrqKey sc => 0 <= sc < 256 /\ sc <> 82 | _ => True end.
Fixpoint input_ok (q : list Z) (bs : list (list irq)) : Prop :=
  match bs with
  | [] => True
  | b :: bs' => Forall irq_ok b /\ (length (q ++ chars b) <= 1024)%nat /\ input_ok (tail (q ++ chars b)) bs'
  end.

Lemma key_of_ascii sc c : key_of sc = Some c -> 0 < c < 128.
Proof.
  unfold key_of. destruct (keyboard_scan_set_one !! Z.to_nat sc) as [d|] eqn:E; [|done].
  pose proof scan_set_ascii as Ha. rewrite Forall_lookup in Ha. specialize (Ha _ _ E). cbn beta in Ha.
  destruct (Z.eqb_spec d 0); [done|]. intros Hc. injection Hc as <-.
  destruct (Z.leb_spec 65 d), (Z.leb_spec d 90); cbn [andb]; lia.
Qed.

Definition char_ok (c : Z) : Prop := 0 < c < 256.
Lemma chars_ok b : Forall char_ok (chars b).
Proof.
  induction b as [|i b IH]; [constructor|]. change (chars (i :: b)) with (irq_chars i ++ chars b). apply Forall_app. split; [|done].
  destruct i as [sc| |]; cbn; try constructor. destruct (key_of sc) eqn:E; repeat constructor; apply key_of_ascii in E; unfold char_ok; lia.
Qed.

(** ** The kernel while it waits for keys *)
Section wait.
Context {P D H : Type} {B : BlockDevice D} {A : Allocator H} {AS : AllocatorSpec H} {F : Filesystem (fs_state D H) P}.
Implicit Types k : kernel P D H.

(** [k] is [k0] but for the ports written, the keyboard of the process [p],
    which holds [q], the interrupts to come and the screen. *)
Record waiting (k0 k : kernel P D H) (p : Z) (x : process) (q : list Z) (bs : list (list irq)) (scr : Terminal.screen) (rest : list Z) : Prop := {
  wa_tasks : exists l, tasks k = with_log (tasks k0) l;
  wa_files : files k = files k0;
  wa_procs : exists kb, proc_store k = <[p := Process.set_keyboard x kb]> (proc_store k0) /\ keyed k p (Process.set_keyboard x kb) q;
  wa_list : processes k = processes k0;
  wa_irqs : irqs k = bs;
  wa_chars : Forall char_ok q;
  wa_screen : shows (Kernel.screen k) scr rest;
  wa_cursor : cursor_at (Kernel.screen k) scr }.

Lemma waiting_start k p x q scr rest :
  keyed k p x q -> Forall char_ok q -> shows (Kernel.screen k) scr rest -> cursor_at (Kernel.screen k) scr ->
  waiting k k p x q (irqs k) scr rest.
Proof.
  intros K Hq Hs Hc. split; try done; [exists (port_log (tasks k)); by destruct (tasks k)|]. exists (Process.keyboard x).
  rewrite insert_id by (destruct x; apply K). by destruct x.
Qed.

Lemma waiting_irq k0 k p x q bs scr rest i (Q : unit -> kernel P D H -> Prop) :
  waiting k0 k p x q bs scr rest -> irq_ok i -> (length (q ++ irq_chars i) <= 1024)%nat ->
  (forall k', waiting k0 k' p x (q ++ irq_chars i) bs scr rest -> Q tt k') -> wp (handle_irq i) Q k.
Proof.
  intros [(l & W1) W2 (kb & W3 & W4) W5 W6 W7 W8 W9] Hi Hl HQ. destruct i as [sc| |]; cbn [handle_irq irq_chars] in *.
  - destruct Hi as [Hs Hne]. eapply wp_mono; [by eapply int21h_spec|]. intros [] k' (kb' & -> & K'). apply HQ.
    split; try done.
    + exists (l ++ [(32, 32)]). cbn. by rewrite W1.
    + exists kb'. split; [|exact K']. cbn. by rewrite W3, insert_insert_eq.
    + apply Forall_app. split; [done|]. exact (proj1 (proj1 (Forall_app _ _ _) (chars_ok [IrqKey sc]))).
  - rewrite app_nil_r in HQ. apply wp_bind, wp_on_tasks. unfold int20h_handler. apply wp_bind, wp_modify_sched.
    apply wp_bind, wp_gets_sched. cbn [fst snd log_port current_task].
    assert (HQ' : Q tt (with_tasks k (kernel_heap k) (log_port (tasks k) 32 32))).
    { apply HQ. split; try done; [exists (l ++ [(32, 32)]); cbn; by rewrite W1|by destruct k as [[? ? []]]|].
      exists kb. split; [done|]. by destruct W4. }
    destruct (current_task (tasks k) =? 0); by do 2 apply wp_ret.
  - rewrite app_nil_r in HQ. apply wp_ack. apply HQ. split; try done; [exists (l ++ [(32, 32)]); cbn; by rewrite W1|].
    exists kb. split; [done|]. by apply keyed_acked.
Qed.

Lemma waiting_irqs b : forall k0 k p x q bs scr rest (Q : unit -> kernel P D H -> Prop),
  waiting k0 k p x q bs scr rest -> Forall irq_ok b -> (length (q ++ chars b) <= 1024)%nat ->
  (forall k', waiting k0 k' p x (q ++ chars b) bs scr rest -> Q tt k') -> wp (handle_irqs b) Q k.
Proof.
  induction b as [|i b IH]; intros k0 k p x q bs scr rest Q W Hb Hl HQ; cbn [handle_irqs].
  - apply wp_ret, HQ. by rewrite app_nil_r.
  - apply Forall_cons in Hb as [Hi Hb]. change (chars (i :: b)) with (irq_chars i ++ chars b) in *. rewrite app_assoc in *.
    apply wp_bind. eapply waiting_irq; [exact W|done|rewrite !length_app in *; lia|]. intros k1 W1.
    eapply IH; [exact W1|done|done|done].
Qed.

Lemma wait_key_spec k0 k p x q b bs scr rest (Q : Z -> kernel P D H -> Prop) :
  waiting k0 k p x q (b :: bs) scr rest -> input_ok q (b :: bs) ->
  (forall k', waiting k0 k' p x (tail (q ++ chars b)) bs scr rest -> Q (default 0 (head (q ++ chars b))) k') -> wp wait_key Q k.
Proof.
  intros W (Hb & Hl & _) HQ. unfold wait_key. apply wp_bind, wp_gets. rewrite (wa_irqs _ _ _ _ _ _ _ _ W).
  apply wp_bind, wp_modify, wp_bind. eapply (waiting_irqs b k0 _ p x q bs); [|done|done|].
  { destruct W as [W1 W2 (kb & W3 & W4) W5 W6 W7 W8 W9]. split; try done. exists kb. split; [done|]. by destruct W4. }
  intros k1 [(l & W1) W2 (kb & W3 & W4) W5 W6 W7 W8 W9]. eapply keyboard_pop_spec; [exact W4| |].
  - intros E. rewrite E in *. apply HQ. split; try done; [by exists l|by exists kb].
  - intros c q' kb' E K'. rewrite E in *. apply HQ. apply Forall_cons in W7 as [_ W7]. split; try done; [by exists l|].
    exists kb'. split; [cbn; by rewrite W3, insert_insert_eq|exact K'].
Qed.

Lemma next_key_ok k0 k p x q bs scr rest b :
  waiting k0 k p x q bs scr rest -> let c := default 0 (head (q ++ chars b)) in c = 0 \/ char_ok c.
Proof.
  intros W. assert (Hf : Forall char_ok (q ++ chars b)) by (apply Forall_app; split; [apply W|apply chars_ok]).
  destruct (q ++ chars b) as [|c l]; [by left|]. right. by apply Forall_cons in Hf as [? _].
Qed.

(** Echo on the screen. *)
Lemma waiting_echo k0 k p x q bs scr rest c (Q : unit -> kernel P D H -> Prop) :
  waiting k0 k p x q bs scr rest -> byte_ok c ->
  (forall k', waiting k0 k' p x q bs (step scr c) rest -> Q tt k') -> wp (on_screen (terminal_writechar c 15)) Q k.
Proof.
  intros [W1 W2 (kb & W3 & W4) W5 W6 W7 W8 W9] Hc HQ. apply wp_on_screen. eapply writechar_spec; [exact W8|exact Hc|].
  intros t' Hs' Hc'. apply HQ. split; try done. exists kb. split; [done|]. by destruct W4.
Qed.

Lemma drain_spec n : forall k0 k p x q bs scr rest c ks (Q : Z -> kernel P D H -> Prop),
  waiting k0 k p x q bs scr rest -> input_ok q bs -> (length bs < n)%nat -> skip_enter (keys q bs) = Some (c, ks) ->
  (forall k' q' bs', waiting k0 k' p x q' bs' scr rest -> input_ok q' bs' -> ks = keys q' bs' -> c = 0 \/ char_ok c -> Q c k') ->
  wp (readline_drain n) Q k.
Proof.
  induction n as [|n IH]; intros k0 k p x q bs scr rest c ks Q W Hi Hn Hk HQ; [lia|].
  destruct bs as [|b bs]; [done|]. cbn [readline_drain keys skip_enter length] in *. apply wp_bind. eapply wait_key_spec; [exact W|exact Hi|].
  intros k1 W1. pose proof (next_key_ok _ _ _ _ _ _ _ _ b W) as Hc. cbv zeta in Hc. set (d := default 0 (head (q ++ chars b))) in *.
  destruct Hi as (_ & _ & Hi). fold (enter d). destruct (enter d).
  - eapply IH; [exact W1|exact Hi|lia|exact Hk|exact HQ].
  - injection Hk as <- <-. apply wp_ret. by eapply HQ.
Qed.

(** [kbuf] starts with [line]. *)
Definition holds (kbuf line : list Z) (max : nat) : Prop :=
  length kbuf = max /\ take (length line) kbuf = line /\ (length line < max)%nat.

Lemma holds_snoc kbuf line max c :
  holds kbuf line max -> (S (length line) < max)%nat ->
  aset kbuf (Z.of_nat (length line)) c = Ok (<[length line := c]> kbuf) /\ holds (<[length line := c]> kbuf) (line ++ [c]) max.
Proof.
  intros (H1 & H2 & H3) Hl. split; [rewrite aset_ok by lia; by rewrite Nat2Z.id|]. unfold holds. rewrite length_insert, length_app. cbn [length].
  split; [done|]. split; [|lia]. rewrite Nat.add_1_r, (take_S_r _ _ c) by (apply list_lookup_insert_eq; lia).
  by rewrite take_insert_ge, H2 by lia.
Qed.

Lemma holds_take kbuf line max : holds kbuf line max -> holds kbuf (take (length line - 1) line) max.
Proof.
  intros (H1 & H2 & H3). unfold holds. rewrite length_take. split; [done|]. split; [|lia].
  transitivity (take (length line - 1) (take (length line) kbuf)); [rewrite take_take; f_equal; lia|by rewrite H2].
Qed.

Lemma loop_spec n : forall k0 k p x q bs scr rest max kbuf line l e r (Q : list Z * Z -> kernel P D H -> Prop),
  waiting k0 k p x q bs scr rest -> input_ok q bs -> (length bs < n)%nat -> holds kbuf line max ->
  edit max line (keys q bs) = Some (l, e, r) ->
  (forall k' q' bs' kbuf', waiting k0 k' p x q' bs' (foldl step scr e) rest -> input_ok q' bs' -> r = keys q' bs' -> holds kbuf' l max ->
     Q (kbuf', Z.of_nat (length l)) k') ->
  wp (readline_loop kbuf (Z.of_nat (length line)) (Z.of_nat max) n) Q k.
Proof.
  induction n as [|n IH]; intros k0 k p x q bs scr rest max kbuf line l e r Q W Hi Hn Hb He HQ; [lia|]. cbn [readline_loop].
  destruct (Z.ltb_spec (Z.of_nat (length line)) (Z.of_nat max - 1)) as [Hl|Hl].
  2:{ apply wp_ret. destruct bs; cbn [keys edit] in He; (destruct (Nat.leb_spec max (S (length line))); [|lia]); injection He as <- <- <-; by eapply HQ. }
  destruct bs as [|b bs]; cbn [keys edit] in He; (destruct (Nat.leb_spec max (S (length line))); [lia|]); [done|]. cbn [length] in Hn.
  apply wp_bind. eapply wait_key_spec; [exact W|exact Hi|].
  intros k1 W1. pose proof (next_key_ok _ _ _ _ _ _ _ _ b W) as Hc. cbv zeta in Hc. set (d := default 0 (head (q ++ chars b))) in *.
  destruct Hi as (_ & _ & Hi). destruct (Z.eqb_spec d 0) as [E|E]; [eapply IH; [exact W1|done|lia|done|done|done]|].
  destruct Hc as [|Hc]; [done|]. unfold char_ok in Hc. destruct (Z.eqb_spec d 8) as [E8|E8].
  - destruct (Z.gtb_spec (Z.of_nat (length line)) 0); (destruct (Nat.eqb_spec (length line) 0); [try lia|try lia]).
    + destruct (edit max (take (length line - 1) line) _) as [[[l1 e1] r1]|] eqn:E2; [|done]. injection He as <- <- <-.
      apply wp_bind. eapply waiting_echo; [exact W1|unfold byte_ok; lia|]. intros k2 W2.
      pose proof (holds_take _ _ _ Hb) as Ht.
      replace (Z.of_nat (length line) - 1) with (Z.of_nat (length (take (length line - 1) line))) by (rewrite length_take; lia).
      eapply IH; [exact W2|done|lia|exact Ht|exact E2|exact HQ].
    + eapply IH; [exact W1|done|lia|done|done|done].
  - destruct (holds_snoc kbuf line max d Hb ltac:(lia)) as [Ha Hb'].
    apply wp_bind. eapply waiting_echo; [exact W1|unfold byte_ok; destruct (d =? 13); lia|]. intros k2 W2.
    apply wp_bind. eapply wp_lift; [exact Ha|]. unfold enter in He. rewrite (orb_comm (d =? 10)).
    replace (Z.of_nat (length line) + 1) with (Z.of_nat (length (line ++ [d]))) by (rewrite length_app; cbn; lia).
    destruct ((d =? 13) || (d =? 10)).
    + injection He as <- <- <-. apply wp_ret. by eapply HQ.
    + destruct (edit max (line ++ [d]) _) as [[[l1 e1] r1]|] eqn:E2; [|done]. injection He as <- <- <-.
      eapply IH; [exact W2|done|lia|exact Hb'|exact E2|exact HQ].
Qed.

(** The line goes to the program. *)
Lemma deliver_spec k m a t dir ts pt kdir kts p buf kbuf line max (Q : Z -> kernel P D H -> Prop) :
  in_kernel (kernel_heap k, tasks k) (<[p := 1]> m) a t dir ts pt kdir kts -> m !! p = None -> (1 <= free_blocks (kernel_heap k))%nat ->
  holds kbuf line max -> line <> [] -> (max <= 512)%nat -> user_room (tasks k) m pt buf max ->
  (forall i j, (i < max)%nat -> (j < max)%nat -> phys_of pt (buf + Z.of_nat i) = phys_of pt (buf + Z.of_nat j) -> i = j) ->
  (forall h' s', in_kernel (h', s') m a t dir ts pt kdir kts -> undisturbed (tasks k) s' ts -> user_bytes s' m pt buf (line ++ [0]) ->
     (forall pa, live m pa -> (forall j, (j < max)%nat -> phys_of pt (buf + Z.of_nat j) <> pa) -> ram s' !! pa = ram (tasks k) !! pa) ->
     free_blocks h' = S (free_blocks (kernel_heap k)) -> Q (Z.of_nat (length line)) (with_tasks k h' s')) ->
  wp (kbuf ← lift_out (kbuf.[Z.of_nat (length line) <- 0]);
      _ ← (if Z.of_nat (length line) >? 0 then _ ← on_tasks (copy_to_task a buf kbuf (Z.of_nat (length line) + 1)); mret tt else mret tt);
      _ ← free_buffer p; mret (u32 (Z.of_nat (length line)))) Q k.
Proof.
  intros K Hp Hf (B1 & B2 & B3) Hne Hmax Hr Hinj HQ. assert (Hlen : (0 < length line)%nat) by (destruct line; [done|cbn; lia]).
  assert (L : forall pa, live m pa -> live (<[p := 1]> m) pa).
  { intros pa [?|(y & n & Hy & ?)]; [by left|]. right. exists y, n. split; [|done]. rewrite lookup_insert_ne; [done|congruence]. }
  set (i := Z.of_nat (length line)). apply wp_bind. eapply wp_lift; [apply aset_ok; lia|].
  replace (Z.to_nat i) with (length line) by lia.
  set (kbuf' := <[length line := 0]> kbuf).
  assert (Ht : take (Z.to_nat (i + 1)) kbuf' = line ++ [0]).
  { replace (Z.to_nat (i + 1)) with (S (length line)) by lia. rewrite (take_S_r _ _ 0) by (apply list_lookup_insert_eq; lia).
    unfold kbuf'. by rewrite take_insert_ge, B2 by lia. }
  destruct (Z.gtb_spec i 0); [|lia]. apply wp_bind, wp_bind, wp_on_tasks.
  assert (Hu : user_room (tasks k) (<[p := 1]> m) pt buf max).
  { destruct Hr as (bs & Hl & U). exists bs. split; [done|]. intros j b Hb. destruct (U j b Hb) as (U1 & U2 & U3 & U4). repeat split; try done; try lia. by apply L. }
  eapply copy_to_spec; [exact K|exact Hf|lia|unfold kbuf'; rewrite length_insert; lia|apply (user_room_prefix _ _ _ _ max); [exact Hu|lia]|].
  intros [h1 s1] K1 N1 M1 F1. cbn [fst snd] in *. rewrite Ht in M1. apply wp_ret, wp_bind.
  change (set_tasks (set_kernel_heap k h1) s1) with (with_tasks k h1 s1). unfold free_buffer. apply wp_on_tasks, wp_on_alloc.
  rewrite with_tasks_heap, with_tasks_tasks. cbn [fst snd].
  eapply wp_mono; [apply (dealloc_spec h1 (<[p := 1]> m) p 1); [apply K1|apply lookup_insert_eq]|]. intros [] h2 (Ho2 & Hf2 & _).
  rewrite delete_insert_id in Ho2 by done. change (Z.to_nat 1) with 1%nat in Hf2. apply wp_ret. rewrite u32_id by lia.
  change (set_tasks (set_kernel_heap (with_tasks k h1 s1) h2) s1) with (with_tasks (with_tasks k h1 s1) h2 s1). rewrite with_tasks_twice.
  apply HQ; [by destruct K1; split|done| | |lia].
  - apply (user_stored (tasks k) _ _ _ _ _ max); [exact Hr|rewrite length_app; cbn; lia|exact Hinj|]. intros pa Hpa. apply M1, L, Hpa.
  - intros pa Hpa Hj. rewrite M1 by (by apply L). apply user_store_out. rewrite length_app. cbn. intros j Hjl. apply Hj. lia.
Qed.

Lemma edit_nonempty max ks : forall line l e r, (2 <= max)%nat -> edit max line ks = Some (l, e, r) -> l <> [].
Proof.
  induction ks as [|c ks IH]; intros line l e r Hm He; cbn [edit] in He; (destruct (Nat.leb_spec max (S (length line))) as [Hl|Hl];
    [injection He as <- <- <-; intros ->; cbn in Hl; lia|]); [done|].
  destruct (c =? 0); [by eapply IH|]. destruct (c =? 8); [destruct (length line =? 0)%nat; [by eapply IH|]|destruct (enter c)].
  - destruct (edit max (take (length line - 1) line) ks) as [[[l1 e1] r1]|] eqn:E; [|done]. injection He as <- <- <-. by eapply IH.
  - injection He as <- <- <-. by destruct line.
  - destruct (edit max (line ++ [c]) ks) as [[[l1 e1] r1]|] eqn:E; [|done]. injection He as <- <- <-. by eapply IH.
Qed.

(** The loops together, up to the delivery: [kbuf] holds the line. *)
Lemma read_keys_spec {T} k p x q scr rest max line e r (cont : list Z -> Z -> M (kernel P D H) T) (Q : T -> kernel P D H -> Prop) :
  waiting k k p x q (irqs k) scr rest -> input_ok q (irqs k) -> (2 <= max)%nat ->
  read_line max (keys q (irqs k)) = Some (line, e, r) ->
  (forall k' q' bs' kbuf', waiting k k' p x q' bs' (foldl step scr e) rest -> r = keys q' bs' -> holds kbuf' line max ->
     wp (cont kbuf' (Z.of_nat (length line))) Q k') ->
  wp (n ← gets (fun k => S (length (irqs k)));
      c ← readline_drain n;
      '(kbuf, i) ← (if negb (c =? 0) then
                      _ ← on_screen (terminal_writechar c 15); kbuf ← lift_out ((replicate max 0).[0 <- c]); mret (kbuf, 1)
                    else mret (replicate max 0, 0));
      n ← gets (fun k => S (length (irqs k)));
      '(kbuf, i) ← readline_loop kbuf i (Z.of_nat max) n;
      cont kbuf i) Q k.
Proof.
  intros W Hi Hm Hr HQ. apply wp_bind, wp_gets, wp_bind. unfold read_line in Hr.
  destruct (skip_enter (keys q (irqs k))) as [[c ks]|] eqn:Es; [|done]. cbn [mbind option_bind] in Hr.
  assert (H0 : holds (replicate max 0) [] max) by (split; [apply length_replicate|]; split; [apply take_0|cbn; lia]).
  eapply drain_spec; [exact W|exact Hi|lia|exact Es|]. intros k1 q1 bs1 W1 Hi1 Ek Hc.
  destruct (Z.eqb_spec c 0) as [->|Hc0]; cbn [negb].
  - apply wp_bind, wp_ret, wp_bind, wp_gets, wp_bind. eapply (loop_spec _ k k1 p x q1 bs1 scr rest max _ []); [exact W1|exact Hi1| |exact H0|by rewrite <- Ek|].
    + rewrite (wa_irqs _ _ _ _ _ _ _ _ W1). lia.
    + intros k' q' bs' kbuf' W' _ Er Hh. by eapply HQ.
  - destruct (edit max [c] ks) as [[[l1 e1] r1]|] eqn:Ee; [|done]. injection Hr as <- <- <-. destruct Hc as [|Hc]; [done|]. unfold char_ok in Hc.
    destruct (holds_snoc _ _ _ c H0) as [Ha Hh1]; [cbn; lia|]. apply wp_bind, wp_bind. eapply waiting_echo; [exact W1|unfold byte_ok; lia|].
    intros k2 W2. apply wp_bind. eapply wp_lift; [exact Ha|]. apply wp_ret, wp_bind, wp_gets, wp_bind.
    eapply (loop_spec _ k k2 p x q1 bs1 _ rest max _ [c]); [exact W2|exact Hi1| |exact Hh1|by rewrite <- Ek|].
    + rewrite (wa_irqs _ _ _ _ _ _ _ _ W2). lia.
    + intros k' q' bs' kbuf' W' _ Er Hh. by eapply HQ.
Qed.

Lemma keyed_entered k p x q a t f kdir s1 s2 h ts :
  keyed k p x q -> current_task (tasks k) = a -> task_store (tasks k) !! a = Some t ->
  undisturbed (entered (tasks k) a t f kdir) s1 ts -> undisturbed s1 s2 ts -> keyed (kst k h s2 (proc_store k) (processes k)) p x q.
Proof.
  intros [K1 (t' & K2 & K2') [K3 K3'] K4 K5] Hc Ht [A1 [A2 [A2' A2'']] A3 A4 A5 A6 A7] [B1 [B2 [B2' B2'']] B3 B4 B5 B6 B7].
  split; try done; cbn [kst set_procs tasks with_tasks set_tasks].
  - rewrite B3, A3. exact K1.
  - rewrite B1, A1, B2'', A2''. cbn. rewrite Hc, lookup_insert_eq in *. eexists. split; [done|]. cbn. congruence.
  - rewrite B2'', A2''. done.
Qed.

(** C10: reading a line.  With a buffer of [max] bytes, from 2 to 512, the
    system call returns the line that the editor makes of the keys typed:
    leading newlines are skipped, backspace erases, the line ends with
    [enter] or when it is full.  The program finds the line and a 0 in its
    buffer, the screen shows the echo, keys that came too late stay for the
    next call, and the buffer page of the kernel is freed. *)
Theorem readline_correct k m a t dir ts pt kdir kts f p x q buf max line e r scr rest :
  in_user k m a t dir ts pt kdir kts -> isr80h_commands k !! 6%nat = Some (Some isr80h_readline) ->
  (2 <= free_blocks (kernel_heap k))%nat -> 0 <= buf < 2 ^ 32 -> (2 <= max <= 512)%nat ->
  user_bytes (tasks k) m pt (Frame.esp f) (le32 buf) -> user_bytes (tasks k) m pt (Frame.esp f + 4) (le32 (Z.of_nat max)) ->
  user_room (tasks k) m pt buf max ->
  (forall i j, (i < max)%nat -> (j < max)%nat -> phys_of pt (buf + Z.of_nat i) = phys_of pt (buf + Z.of_nat j) -> i = j) ->
  keyed k p x q -> Forall char_ok q -> input_ok q (irqs k) ->
  shows (Kernel.screen k) scr rest -> cursor_at (Kernel.screen k) scr ->
  read_line max (keys q (irqs k)) = Some (line, e, r) ->
  wp (isr80h_handler 6 f) (fun res k' => res = Z.of_nat (length line) /\ returned k k' m a t f dir ts pt kdir kts /\
    user_bytes (tasks k') m pt buf (line ++ [0]) /\
    (forall pa, live m pa -> (forall j, (j < max)%nat -> phys_of pt (buf + Z.of_nat j) <> pa) -> ram (tasks k') !! pa = ram (tasks k) !! pa) /\
    shows (Kernel.screen k') (foldl step scr e) rest /\ cursor_at (Kernel.screen k') (foldl step scr e) /\
    (exists kb q', proc_store k' = <[p := Process.set_keyboard x kb]> (proc_store k) /\ kb_queue kb q' /\ keys q' (irqs k') = r) /\
    free_blocks (kernel_heap k') = free_blocks (kernel_heap k)) k.
Proof.
  intros U Hcmd Hf Hbuf Hm B1 B2 Hroom Hinj K Hq Hi Hs Hc Hr. eapply isr80h_handler_spec; [exact U|].
  apply (handle_command_spec _ _ isr80h_readline); [lia|exact Hcmd|].
  pose proof (in_user_entered _ _ _ _ _ _ _ _ _ f U) as K0. set (s0 := entered (tasks k) a t f kdir) in *. rewrite with_tasks_kst.
  destruct (iu_current _ _ _ _ _ _ _ _ _ U) as [Uc _]. cbn [run_command]. unfold isr80h_command6_readline.
  apply wp_bind, wp_kst_tasks, wp_gets_sched. cbn [fst snd]. change (current_task s0) with (current_task (tasks k)). rewrite Uc.
  apply wp_bind. eapply wp_stack_item; [exact K0|exact Hbuf|lia|cbn; by rewrite Z.add_0_r|]. intros s1 K1 N1 R1.
  assert (M1 : memory_kept (tasks k) s1 m) by (intros pa _; by rewrite R1).
  apply wp_bind. eapply wp_stack_item; [exact K1| |lia|by eapply user_bytes_kept|]; [lia|]. intros s2 K2 N2 R2.
  assert (M2 : memory_kept (tasks k) s2 m) by (intros pa _; by rewrite R2, R1). rewrite i32_id by lia.
  destruct (Z.leb_spec (Z.of_nat max) 0); [lia|]. destruct (Z.gtb_spec (Z.of_nat max) 512); [lia|]. cbn [orb].
  apply wp_bind, wp_kst_tasks, wp_on_alloc. cbn [fst snd].
  eapply wp_mono; [apply (alloc_spec (kernel_heap k) m); [apply U|lia|lia]|]. intros b h1 (Hb & Hbm & Ho1 & Hf1 & _).
  destruct (Z.eqb_spec b 0); [lia|]. set (k1 := kst k h1 s2 (proc_store k) (processes k)). rewrite Nat2Z.id.
  assert (W1 : waiting k1 k1 p x q (irqs k1) scr rest).
  { apply waiting_start; [|done|done|done]. exact (keyed_entered k p x q a t f kdir s1 s2 h1 [] K Uc (iu_task _ _ _ _ _ _ _ _ _ U) N1 N2). }
  eapply (read_keys_spec k1 p x q scr rest); [exact W1|exact Hi|lia|exact Hr|].
  intros k2 q' bs' kbuf [(lg & W2) W3 (kb & W4 & W5) W6 W7 W8 W9 W10] Er Hh.
  assert (Eh : kernel_heap k2 = h1) by (unfold kernel_heap; rewrite W3; exact (kst_heap k h1 s2 (proc_store k) (processes k))).
  assert (K2' : in_kernel (kernel_heap k2, tasks k2) (<[b := 1]> m) a (set_registers t (saved f)) dir ts pt kdir kts).
  { rewrite Eh, W2. by destruct K2; split. }
  apply (deliver_spec k2 m a (set_registers t (saved f)) dir ts pt kdir kts b buf kbuf line max); [exact K2'|done|rewrite Eh; lia|done| |lia| |done|].
  { unfold read_line in Hr. destruct (skip_enter _) as [[c ks]|]; [|done]. cbn in Hr. destruct (c =? 0); [by eapply edit_nonempty; [|exact Hr]; lia|].
    destruct (edit max [c] ks) as [[[l1 e1] r1]|] eqn:E; [|done]. injection Hr as <- <- <-. by eapply edit_nonempty; [|exact E]; lia. }
  { destruct Hroom as (bs & Hl & Ub). exists bs. split; [done|]. apply (user_bytes_kept (tasks k)); [|done]. intros pa Hpa. rewrite W2. by apply M2. }
  intros h3 s3 K3 N3 U3 M3 F3.
  destruct (handler_returns k (with_tasks k2 h3 s3) m a t dir ts pt kdir kts f lg) as (b' & tb & db & E1 & E2 & E3 & E4); [exact U| | |].
  { rewrite with_tasks_heap. exact K3. }
  { rewrite W2 in N3. eapply (undisturbed_trans _ _ _ _ []); [|exact N3|by intros ? ?%not_elem_of_nil]. apply undisturbed_log.
    exact (undisturbed_trans _ _ _ [] [] N1 N2 (reflexivity _)). }
  exists b', tb, db. do 3 (split; [done|]). split; [done|]. split; [exact E4|]. split; [exact U3|]. split.
  { intros pa Hpa Hj. change (ram s3 !! pa = ram (tasks k) !! pa). rewrite M3, W2 by done. by apply M2. }
  split; [exact W9|]. split; [exact W10|]. split.
  { exists kb, q'. split; [exact W4|]. split; [apply W5|]. change (keys q' (irqs k2) = r). by rewrite W7. }
  unfold resumed. rewrite !with_tasks_heap, F3, Eh. lia.
Qed.
End wait.

(** ** Witnesses *)
Import ExampleCalls ExampleProcess ExampleUser ExamplePaging.

(** [h], a timer tick, [x], backspace, [i], enter and a key too late. *)
Definition typing : list (list irq) :=
  [[IrqKey 28]; [IrqKey 35; IrqTimer]; [IrqTimer]; [IrqKey 45; IrqOther]; [IrqKey 14]; [IrqKey 23; IrqKey 0x97]; [IrqKey 28; IrqKey 30]; [IrqTimer]].

Lemma shell_keyed l k m p a ptr stack dir ts t kdir kts :
  shell_runs l k m p a ptr stack dir ts t kdir kts -> keyed k p (shell_process a ptr stack) [].
Proof.
  intros R. pose proof (sr_current _ _ _ _ _ _ _ _ _ _ _ _ R) as (C1 & C2 & C3 & C4).
  pose proof (sr_kernel _ _ _ _ _ _ _ _ _ _ _ _ R) as [K1 _ _ _ _ _ _ K8]. cbn [fst snd] in *.
  destruct (sr_live _ _ _ _ _ _ _ _ _ _ _ _ R) as [n Hn]. destruct (owns_page _ _ p n K8 Hn) as [Hp _].
  split; try done.
  - exists t. by rewrite C1.
  - split; [lia|congruence].
  - rewrite (sr_process _ _ _ _ _ _ _ _ _ _ _ _ R). apply lookup_singleton_eq.
  - split; [reflexivity|cbn; lia|done|constructor|]. intros i Hi. apply lookup_replicate_2. cbn [kb_head]. unfold PEACHOS_KEYBOARD_BUFFER_SIZE. zdm.
Qed.

Lemma readline_correct_witness :
  wp (_ ← start_shell; isr80h_handler 6 (frame_at 0x3FEF20)) (fun res k' => res = 3 /\
    (ram (tasks k') !! 0x400100, ram (tasks k') !! 0x400101, ram (tasks k') !! 0x400102, ram (tasks k') !! 0x400103) =
      (Some 104, Some 105, Some 13, Some 0)) (before typing).
Proof.
  apply wp_bind, start_shell_spec. intros k m p a ptr stack dir ts t kdir kts R.
  destruct (sr_rest _ _ _ _ _ _ _ _ _ _ _ _ R) as [Hcm Hir].
  destruct (sr_screen _ _ _ _ _ _ _ _ _ _ _ _ R) as [S1 S2].
  eapply wp_mono; [apply (readline_correct k m a t dir ts (identity 5) kdir kts (frame_at 0x3FEF20) p (shell_process a ptr stack) []
    0x400100 16 [104; 105; 13] [104; 120; 8; 105; 10] [97] empty_screen (replicate 400 0))|].
  - exact (shell_in_user _ _ _ _ _ _ _ _ _ _ _ _ R).
  - rewrite Hcm. reflexivity.
  - pose proof (room_free _ m 2440 (ik_owns _ _ _ _ _ _ _ _ _ (sr_kernel _ _ _ _ _ _ _ _ _ _ _ _ R)) (sr_room _ _ _ _ _ _ _ _ _ _ _ _ R)). simpl in *. lia.
  - lia.
  - lia.
  - apply (shell_bytes _ _ _ _ _ _ _ _ _ _ _ _ _ _ R); [simpl; lia|simpl; lia|apply check_bytes; vm_compute; reflexivity].
  - apply (shell_bytes _ _ _ _ _ _ _ _ _ _ _ _ _ _ R); [simpl; lia|simpl; lia|apply check_bytes; vm_compute; reflexivity].
  - exists (replicate 16 7). split; [reflexivity|].
    apply (shell_bytes _ _ _ _ _ _ _ _ _ _ _ _ _ _ R); [simpl; lia|simpl; lia|apply check_bytes; vm_compute; reflexivity].
  - intros i j Hi Hj. rewrite !identity_user by lia. lia.
  - exact (shell_keyed _ _ _ _ _ _ _ _ _ _ _ _ R).
  - constructor.
  - rewrite Hir. repeat (split; [repeat (constructor; [simpl; try lia; exact I|]); constructor|split; [simpl; lia|]]). exact I.
  - exact S1.
  - exact S2.
  - rewrite Hir. reflexivity.
  - intros res k' (-> & _ & U & _). split; [reflexivity|].
    assert (E : forall i b, [104; 105; 13; 0] !! i = Some b -> ram (tasks k') !! (0x400100 + Z.of_nat i) = Some b).
    { intros i b Hb. destruct (U i b Hb) as (_ & _ & U3 & _). apply lookup_lt_Some in Hb. simpl in Hb. rewrite identity_user in U3 by lia. exact U3. }
    rewrite (E 0%nat 104 eq_refl : ram (tasks k') !! 0x400100 = Some 104), (E 1%nat 105 eq_refl : ram (tasks k') !! 0x400101 = Some 105),
      (E 2%nat 13 eq_refl : ram (tasks k') !! 0x400102 = Some 13), (E 3%nat 0 eq_refl : ram (tasks k') !! 0x400103 = Some 0). reflexivity.
Defined.
