(* ===== verification/FileCalls.v ===== *)
(** * The system calls on files, from the interrupt to the return

    open, read and close of src/isr80h/io.c are defined in [Syscall]; here
    they run on a FAT16 volume.  [syscall_enter] is the way in and out that
    all calls share; [open_call], [read_call] and [close_call] are the calls,
    proved with the lemmas of the file layer and of the copies between kernel
    and program; [file_session] is a program that makes the three in turn. *)
From Stdlib Require Import ZArith Lia.
From stdpp Require Import base list gmap numbers option list_numbers.
From S2P Require Import Prelude CLib Heap Disk PathParser FatTypes FatTable FatData FatDir Fat16 FatFiles FatFrame Mount Vfs FileIO.
From S2P Require Import Terminal Paging Task UserMem Kernel Process Load Syscall.
Local Open Scope Z_scope.
Local Open Scope kernel_scope.

Section calls.
Context {D : Type} {B : BlockDevice D} {BS : BlockDeviceSpec D} {H : Type} {A : Allocator H} {AS : AllocatorSpec H}.
Abbreviation P := fat_file_descriptor.
Implicit Types (k : kernel P D H) (f : interrupt_frame).

(** ** The way in and out *)

(** The program runs again after the call. *)
Definition back k (a : Z) (t : task) (f : interrupt_frame) (dir : Z) : kernel P D H := resumed k a (set_registers t (saved f)) dir.

Lemma back_files k a t f dir : files (back k a t f dir) = files k.
Proof. by destruct k as [[? ? []]]. Qed.
Lemma back_heap k a t f dir : kernel_heap (back k a t f dir) = kernel_heap k.
Proof. by destruct k as [[? ? []]]. Qed.

(** A command ends in a state [k2] of the kernel in which it only changed
    the address space of the caller; its heap may have grown to [m2]. *)
Lemma syscall_enter k m a t dir ts pt kdir kts c cmd f (Q : Z -> kernel P D H -> Prop) :
  in_user k m a t dir ts pt kdir kts -> 0 <= c < 1024 -> isr80h_commands k !! Z.to_nat c = Some (Some cmd) ->
  (forall s0, ram s0 = ram (tasks k) -> current_task s0 = a -> in_kernel (kernel_heap k, s0) m a (set_registers t (saved f)) dir ts pt kdir kts ->
     wp (run_command cmd) (fun res k2 => exists m2, in_kernel (kernel_heap k2, tasks k2) m2 a (set_registers t (saved f)) dir ts pt kdir kts /\
       undisturbed s0 (tasks k2) ts /\ (returned k (back k2 a t f dir) m2 a t f dir ts pt kdir kts -> Q res (back k2 a t f dir)))
     (kfs k (files k) s0 (proc_store k) (processes k))) ->
  wp (isr80h_handler c f) Q k.
Proof.
  intros U Hc Hcmd HQ. eapply isr80h_handler_spec; [exact U|]. apply (handle_command_spec _ _ cmd); [exact Hc|exact Hcmd|].
  pose proof (in_user_entered _ _ _ _ _ _ _ _ _ f U) as K0. set (s0 := entered (tasks k) a t f kdir) in *. rewrite with_tasks_kst, kst_kfs.
  change (vfs_heap (files k) (kernel_heap k)) with (vfs_heap (files k) (heap (driver (files k)))). rewrite vfs_heap_same.
  assert (Uc : current_task s0 = a) by apply U.
  eapply wp_mono; [exact (HQ s0 eq_refl Uc K0)|]. intros res k2 (m2 & K2 & N2 & R2).
  exists a, (set_registers t (saved f)), dir. destruct K2 as [T1 T2 T3 T4 T5 T6 T7 T8]. cbn [fst snd] in *.
  pose proof N2 as [N1 [N3 [N4 N5]] N6 N7 N8 N9 N10]. split; [congruence|]. do 2 (split; [done|]). apply R2.
  split; try done. split; try done. split; [done|apply U].
Qed.

Lemma undisturbed_args s s1 s2 ts : undisturbed s s1 [] -> undisturbed s1 s2 ts -> undisturbed s s2 ts.
Proof. intros U1 U2. eapply undisturbed_trans; [exact U1|exact U2|]. by intros ? ?%not_elem_of_nil. Qed.

(** An argument of the call. *)
Lemma wp_arg k fs s ps pl m a t dir ts pt kdir kts index w (Q : Z -> kernel P D H -> Prop) :
  in_kernel (heap (driver fs), s) m a t dir ts pt kdir kts -> 0 <= w < 2 ^ 32 -> 0 <= index < 1024 ->
  user_bytes s m pt (Registers.esp (task_registers t) + 4 * index) (le32 w) ->
  (forall s', in_kernel (heap (driver fs), s') m a t dir ts pt kdir kts -> undisturbed s s' [] -> ram s' = ram s -> Q w (kfs k fs s' ps pl)) ->
  wp (stack_item a index) Q (kfs k fs s ps pl).
Proof.
  intros K Hw Hi U HQ. unfold stack_item. apply wp_kfs_tasks. eapply stack_item_spec; [exact K|done|done|exact U|].
  intros [h' s'] K' U' R' E. cbn [fst snd] in *. subst h'. rewrite vfs_heap_same. by apply HQ.
Qed.

(** The heap has grown beyond what the task knows of. *)
Lemma in_kernel_heap (h h' : H) s m m' a t dir ts pt kdir kts :
  in_kernel (h, s) m a t dir ts pt kdir kts -> owns h' m' -> in_kernel (h', s) m' a t dir ts pt kdir kts.
Proof. by intros []; split. Qed.

(** The path of a call, copied into the buffer of 108 bytes. *)
Lemma copy_path k fs s ps pl m a t dir ts pt kdir kts va base e (Q : Z * list Z -> kernel P D H -> Prop) :
  let name := render_path 0 [dotted base e] in
  in_kernel (heap (driver fs), s) m a t dir ts pt kdir kts -> (1 <= free_blocks (heap (driver fs)))%nat ->
  valid83 base e -> SLASH ∉ dotted base e -> user_bytes s m pt va (name ++ [0]) ->
  (forall h s' tail, in_kernel (h, s') m a t dir ts pt kdir kts -> undisturbed s s' ts -> memory_kept s s' m ->
     free_blocks h = free_blocks (heap (driver fs)) -> Q (0, root_file base e tail) (kfs k (vfs_heap fs h) s' ps pl)) ->
  wp (on_tasks (copy_string_from_task a va (replicate (Z.to_nat PEACHOS_MAX_PATH) 0) PEACHOS_MAX_PATH)) Q (kfs k fs s ps pl).
Proof.
  intros name K Hf Hv Hsl U HQ. destruct (root_file_cstring base e [] Hv Hsl) as [Hc Hl]. fold name in Hc, Hl.
  apply CString.cstring_Some in Hc as (r & _ & Hz). apply wp_kfs_tasks.
  assert (Et : take (Z.to_nat (PEACHOS_MAX_PATH - 1)) (name ++ [0]) = take 107 (name ++ [0])) by done.
  assert (E : take (Z.to_nat (PEACHOS_MAX_PATH - 1)) name = name) by (apply take_ge; change (Z.to_nat (PEACHOS_MAX_PATH - 1)) with 107%nat; lia).
  eapply (copy_string_spec _ m a t dir ts pt kdir kts va name); [exact K|exact Hf|done|exact Hz| | |].
  - intros j b Hj. apply U. apply lookup_take_Some in Hj as [Hj _]. exact Hj.
  - rewrite E, length_replicate. change (Z.to_nat PEACHOS_MAX_PATH) with 108%nat. lia.
  - intros [h s'] K' N' M' F'. cbn [fst snd] in *. rewrite E. unfold splice. rewrite take_0, <- app_assoc. cbn [app].
    by apply (HQ h s').
Qed.

Lemma user_bytes_grown x m m' pt va bs : m ⊆ m' -> user_bytes x m pt va bs -> user_bytes x m' pt va bs.
Proof.
  intros Hm U j b Hb. destruct (U j b Hb) as (U1 & U2 & U3 & U4). do 3 (split; [done|]).
  destruct U4 as [?|(p & n & Hp & Hr)]; [by left|]. right. exists p, n. split; [|done]. by eapply lookup_weaken.
Qed.

(** A call on files leaves all but the file layer and the tasks alone. *)
Definition rest_kept k k' : Prop := k' = kfs k (files k') (tasks k') (proc_store k) (processes k).

Lemma back_rest k fs s a t f dir : rest_kept k (back (kfs k fs s (proc_store k) (processes k)) a t f dir).
Proof. by destruct k. Qed.
Lemma rest_kept_commands k k' : rest_kept k k' -> isr80h_commands k' = isr80h_commands k.
Proof. intros E. by rewrite E. Qed.
Lemma rest_kept_trans k1 k2 k3 : rest_kept k1 k2 -> rest_kept k2 k3 -> rest_kept k1 k3.
Proof. unfold rest_kept. intros E1 E2. rewrite E2 at 1. by rewrite E1. Qed.

(** ** open *)

(** The file is open for reading in cell [j]; [addrs] is the parsed path. *)
Record opened k k' (m : gmap Z Z) (j : nat) (it : fat_directory_item) (addrs : list Z) (d : Z) (desc : fat_file_descriptor) : Prop := {
  od_files : files k' = mk_vfs (filesystems (files k)) (<[j := Some (new_fd d j desc)]> (file_descriptors (files k)))
    (set_heap (driver (files k)) (kernel_heap k'));
  od_reading : reading desc it;
  od_path : length addrs = 3%nat /\ fresh_blocks addrs m;
  od_fresh : desc_fresh desc (with_blocks addrs m) /\ desc_objects desc (with_blocks addrs m) !! d = None;
  od_free : free_blocks (kernel_heap k) = (7 + free_blocks (kernel_heap k'))%nat;
  od_rest : rest_kept k k' }.

(** A file that can be opened, and a descriptor for it. *)
Record openable_file k (ch : gmap nat (list Z)) (j : nat) (base e : list Z) (i : nat) (it : fat_directory_item) (l : list Z) : Prop := {
  of_file : stored_file (driver (files k)) ch base e i it l;
  of_name : valid83 base e /\ SLASH ∉ dotted base e;
  of_mounted : filesystem (the_disk (driver (files k))) = true;
  of_cell : length (file_descriptors (files k)) = 512%nat /\ first_free (file_descriptors (files k)) j /\ (j < 511)%nat }.

Lemma open_call k m a t dir ts pt kdir kts f path ch base e i it l j (Q : Z -> kernel P D H -> Prop) :
  in_user k m a t dir ts pt kdir kts -> isr80h_commands k !! 2%nat = Some (Some isr80h_open) ->
  openable_file k ch j base e i it l -> (7 <= free_blocks (kernel_heap k))%nat -> 0 <= path < 2 ^ 32 ->
  user_bytes (tasks k) m pt (Frame.esp f) (le32 path) -> user_bytes (tasks k) m pt (Frame.esp f + 4) (le32 FILE_MODE_READ) ->
  user_bytes (tasks k) m pt path (render_path 0 [dotted base e] ++ [0]) ->
  (forall k' addrs d desc, opened k k' m j it addrs d desc -> memory_kept (tasks k) (tasks k') m ->
     returned k k' (<[d := 1]> (desc_objects desc (with_blocks addrs m))) a t f dir ts pt kdir kts -> Q (Z.of_nat j + 1) k') ->
  wp (isr80h_handler 2 f) Q k.
Proof.
  intros U Hcmd [Sf [Hv Hsl] Hm (Hl & Hj & Hlt)] Hf Hp B1 B2 B3 HQ. eapply syscall_enter; [exact U|lia|exact Hcmd|]. intros s0 R0 Uc K0.
  assert (M0 : memory_kept (tasks k) s0 m) by (intros pa _; by rewrite R0).
  cbn [run_command]. unfold isr80h_command2_open. apply wp_bind, wp_kfs_tasks, wp_gets_sched. cbn [fst snd]. rewrite vfs_heap_same, Uc.
  apply wp_bind. eapply wp_arg; [exact K0|exact Hp|lia|cbn; rewrite Z.add_0_r; by eapply user_bytes_kept|]. intros s1 K1 N1 R1.
  assert (M1 : memory_kept (tasks k) s1 m) by (intros pa _; by rewrite R1, R0).
  apply wp_bind. eapply (wp_arg _ _ _ _ _ _ _ _ _ _ _ _ _ 1 FILE_MODE_READ); [exact K1|done|lia|by eapply user_bytes_kept|]. intros s2 K2 N2 R2.
  assert (M2 : memory_kept (tasks k) s2 m) by (intros pa _; by rewrite R2, R1, R0).
  apply wp_bind. eapply (copy_path _ _ _ _ _ m a _ dir ts pt kdir kts path base e); [exact K2|unfold kernel_heap in Hf; lia|exact Hv|exact Hsl|by eapply user_bytes_kept|].
  intros h s3 tail K3 N3 M3 F3. cbn [Z.ltb Z.compare]. change (i32 FILE_MODE_READ =? FILE_MODE_READ) with true. cbn iota.
  apply wp_bind, wp_kfs_files.
  eapply (open_existing_spec (vfs_heap (files k) h) ch m base e tail i it l j); [by apply stored_heap|apply K3|cbn; unfold kernel_heap in Hf; lia|exact Hm|done|done|exact Hl|exact Hj|done|].
  intros addrs d desc h4 La Fa Rd Df Da Oh _ Nf. apply wp_ret.
  exists (<[d := 1]> (desc_objects desc (with_blocks addrs m))). split; [by eapply in_kernel_heap|]. split.
  { by do 2 (eapply undisturbed_args; [eassumption|]). }
  intros Rt. rewrite u32_id by lia. apply (HQ _ addrs d desc); [| |exact Rt].
  - split; rewrite ?back_files, ?back_heap; try done. unfold kernel_heap in *. cbn in Nf |- *. lia.
  - intros pa L. change (ram s3 !! pa = ram (tasks k) !! pa). by rewrite M3, M2.
Qed.

(** ** read *)

Lemma quiet_heap (s s' : fs_state D H) h h' : quiet (set_heap s h) s' -> quiet (set_heap s h') (set_heap s' h').
Proof.
  intros [Q1 Q2 Q3]. split; [by apply fs_ok_heap| |exact Q3].
  revert Q2. unfold view. cbn. intros [= _ E5 E6 E7 E8 E9]. by rewrite E5, E6, E7, E8, E9.
Qed.

Lemma live_grown m p n pa : m !! p = None -> live m pa -> live (<[p := n]> m) pa.
Proof. intros Hp [?|(y & z & Hy & ?)]; [by left|]. right. exists y, z. split; [|done]. rewrite lookup_insert_ne; [done|congruence]. Qed.
Lemma user_room_grown x m p n pt va c : m !! p = None -> user_room x m pt va c -> user_room x (<[p := n]> m) pt va c.
Proof. intros Hp (bs & Hl & U). exists bs. split; [done|]. eapply user_bytes_grown; [|exact U]. by apply insert_subseteq. Qed.
Lemma user_room_kept x x' m pt va n : memory_kept x x' m -> user_room x m pt va n -> user_room x' m pt va n.
Proof. intros Hk (bs & Hl & U). exists bs. split; [done|]. by eapply user_bytes_kept. Qed.

(** Where a program wants [n] bytes. *)
Record buffer (x : sched) (m : gmap Z Z) (pt : Z -> Z) (va : Z) (n : nat) : Prop := {
  bu_room : user_room x m pt va n;
  bu_apart : forall i j, (i < n)%nat -> (j < n)%nat -> phys_of pt (va + Z.of_nat i) = phys_of pt (va + Z.of_nat j) -> i = j;
  bu_address : 0 <= va < 2 ^ 32 }.

(** The data is in the buffer and other live memory is as it was. *)
Record delivered (x x' : sched) (m : gmap Z Z) (pt : Z -> Z) (va : Z) (data : list Z) : Prop := {
  de_data : user_bytes x' m pt va data;
  de_others : forall pa, live m pa -> (forall j, (j < length data)%nat -> phys_of pt (va + Z.of_nat j) <> pa) -> ram x' !! pa = ram x !! pa }.

(** [copy_to_task], then [kfree] of the buffer that held the data. *)
Lemma deliver k fs s ps pl m a t dir ts pt kdir kts va p data (R : Z -> Z) (Q : Z -> kernel P D H -> Prop) :
  in_kernel (heap (driver fs), s) (<[p := 1]> m) a t dir ts pt kdir kts -> m !! p = None -> (1 <= free_blocks (heap (driver fs)))%nat ->
  (0 < length data < 4096)%nat -> buffer s m pt va (length data) ->
  (forall h s', in_kernel (h, s') m a t dir ts pt kdir kts -> undisturbed s s' ts -> delivered s s' m pt va data ->
     free_blocks h = S (free_blocks (heap (driver fs))) -> Q (R 0) (kfs k (vfs_heap fs h) s' ps pl)) ->
  wp (copy_res ← on_tasks (copy_to_task a va data (Z.of_nat (length data))); _ ← free_buffer p; mret (R copy_res)) Q (kfs k fs s ps pl).
Proof.
  intros K Hp Hf Hl [Br Ba _] HQ. apply wp_bind, wp_kfs_tasks.
  eapply copy_to_spec; [exact K|exact Hf|lia|lia|rewrite Nat2Z.id; by apply user_room_grown|].
  intros [h1 s1] K1 N1 M1 F1. cbn [fst snd] in *. rewrite Nat2Z.id, take_ge in M1 by lia.
  apply wp_bind. unfold free_buffer. apply wp_kfs_tasks, wp_on_alloc. cbn [fst snd driver vfs_heap set_driver heap set_heap].
  eapply wp_mono; [apply (dealloc_spec h1 (<[p := 1]> m) p 1); [apply K1|apply lookup_insert_eq]|]. intros [] h2 (Ho2 & Hf2 & _).
  rewrite delete_insert_id in Ho2 by done. change (Z.to_nat 1) with 1%nat in Hf2. apply wp_ret.
  apply (HQ h2 s1); [by eapply in_kernel_heap|done| |lia]. split.
  - apply (user_stored s _ _ _ _ _ (length data)); [exact Br|done|exact Ba|]. intros pa Hpa. by apply M1, live_grown.
  - intros pa Hpa Hj. rewrite M1 by (by apply live_grown). by apply user_store_out.
Qed.

(** The driver only read. *)
Record read_out k k' : Prop := {
  ro_tables : filesystems (files k') = filesystems (files k) /\ file_descriptors (files k') = file_descriptors (files k);
  ro_driver : quiet (set_heap (driver (files k)) (kernel_heap k')) (driver (files k'));
  ro_free : free_blocks (kernel_heap k') = free_blocks (kernel_heap k);
  ro_rest : rest_kept k k' }.

Lemma read_call k m a t dir ts pt kdir kts f j d desc ch base e i it l buf (count : nat) (Q : Z -> kernel P D H -> Prop) :
  in_user k m a t dir ts pt kdir kts -> isr80h_commands k !! 3%nat = Some (Some isr80h_read) ->
  stored_file (driver (files k)) ch base e i it l -> file_descriptors (files k) !! j = Some (Some (new_fd d j desc)) -> (j < 511)%nat ->
  reading desc it -> (2 <= free_blocks (kernel_heap k))%nat -> (0 < count < 4096)%nat -> Z.of_nat count <= filesize it ->
  user_bytes (tasks k) m pt (Frame.esp f) (le32 (Z.of_nat j + 1)) -> user_bytes (tasks k) m pt (Frame.esp f + 4) (le32 buf) ->
  user_bytes (tasks k) m pt (Frame.esp f + 8) (le32 (Z.of_nat count)) -> buffer (tasks k) m pt buf count ->
  (forall k', read_out k k' -> delivered (tasks k) (tasks k') m pt buf (take count (contents (driver (files k)) it l)) ->
     returned k k' m a t f dir ts pt kdir kts -> Q (Z.of_nat count) k') ->
  wp (isr80h_handler 3 f) Q k.
Proof.
  intros U Hcmd Sf Hj Hlt Rd Hf Hc Hsz B1 B2 B3 Hb HQ. eapply syscall_enter; [exact U|lia|exact Hcmd|]. intros s0 R0 Uc K0.
  assert (M0 : memory_kept (tasks k) s0 m) by (intros pa _; by rewrite R0).
  cbn [run_command]. unfold isr80h_command3_read. apply wp_bind, wp_kfs_tasks, wp_gets_sched. cbn [fst snd]. rewrite vfs_heap_same, Uc.
  apply wp_bind. eapply (wp_arg _ _ _ _ _ _ _ _ _ _ _ _ _ 0); [exact K0| |lia|cbn; rewrite Z.add_0_r; by eapply user_bytes_kept|]; [lia|]. intros s1 K1 N1 R1.
  assert (M1 : memory_kept (tasks k) s1 m) by (intros pa _; by rewrite R1, R0).
  apply wp_bind. eapply (wp_arg _ _ _ _ _ _ _ _ _ _ _ _ _ 1); [exact K1|apply Hb|lia|by eapply user_bytes_kept|]. intros s2 K2 N2 R2.
  assert (M2 : memory_kept (tasks k) s2 m) by (intros pa _; by rewrite R2, R1, R0).
  apply wp_bind. eapply (wp_arg _ _ _ _ _ _ _ _ _ _ _ _ _ 2 (Z.of_nat count)); [exact K2|lia|lia|by eapply user_bytes_kept|]. intros s3 K3 N3 R3.
  assert (E3 : ram s3 = ram (tasks k)) by (by rewrite R3, R2, R1, R0).
  rewrite !i32_id by lia. destruct (Z.leb_spec (Z.of_nat count) 0), (Z.geb_spec (Z.of_nat count) PAGING_PAGE_SIZE); unfold PAGING_PAGE_SIZE in *; try lia. cbn [orb].
  apply wp_bind. unfold alloc_buffer. apply wp_kfs_tasks, wp_on_alloc. cbn [fst snd]. unfold kernel_heap in Hf.
  eapply wp_mono; [apply (alloc_spec _ m); [apply K3|lia|lia]|]. intros p h (Hp & Hn & Ho & Hf1 & _). destruct (Z.eqb_spec p 0); [lia|].
  apply wp_bind, wp_kfs_files. pose proof (sf_fits _ _ _ _ _ _ _ Sf) as Hfit.
  eapply (fread_start_spec (vfs_heap (files k) h) j d desc ch base e i it l); [exact Hj|done|done|by apply stored_heap|lia|lia|lia| | |].
  { change (csize (driver (vfs_heap (files k) h))) with (csize (driver (files k))). lia. }
  { intros ? _. rewrite Z.mul_1_r. apply read_ok_bytes. exact (vo_geometry _ _ (vol_heap _ _ h (sf_vol _ _ _ _ _ _ _ Sf))). }
  intros s' Qs. rewrite Z.mul_1_r, Nat2Z.id. change (driver (vfs_heap (files k) h)) with (set_heap (driver (files k)) h) in *.
  change (chain_bytes (set_heap (driver (files k)) h) l) with (chain_bytes (driver (files k)) l).
  replace (take count (contents (driver (files k)) it l)) with (take count (chain_bytes (driver (files k)) l)) in HQ
    by (unfold contents; rewrite take_take; f_equal; lia).
  set (data := take count _) in *.
  assert (Hld : length data = count).
  { pose proof (length_chain_bytes (driver (files k)) l). pose proof (csize_pos _ (vo_geometry _ _ (sf_vol _ _ _ _ _ _ _ Sf))).
    unfold data. rewrite length_take. lia. }
  apply wp_bind. eapply wp_lift; [unfold fill; rewrite length_replicate, Hld, Nat.leb_refl; reflexivity|].
  rewrite drop_ge by (by rewrite length_replicate). rewrite app_nil_r. destruct (Z.gtb_spec (Z.of_nat count) 0); [|lia].
  assert (Eh : heap s' = h) by exact (view_heap _ _ (q_view _ _ Qs)). rewrite <- Hld.
  assert (M3 : memory_kept (tasks k) s3 m) by (intros pa _; by rewrite E3).
  apply (deliver k (set_driver (vfs_heap (files k) h) s') s3 _ _ m a (set_registers t (saved f)) dir ts pt kdir kts buf p data
    (fun c => u32 (if c <? 0 then c else Z.of_nat (length data)))); try done.
  { cbn [driver set_driver]. rewrite Eh. by eapply in_kernel_heap. } { cbn [driver set_driver]. rewrite Eh. lia. } { lia. }
  { destruct Hb as [Hb1 Hb2 Hb3]. rewrite Hld. split; [by eapply user_room_kept|done|done]. }
  intros h2 s4 K4 N4 [D1 D2] F4. cbn [driver set_driver] in F4. rewrite Eh in F4. exists m. split; [exact K4|]. split.
  { by do 3 (eapply undisturbed_args; [eassumption|]). }
  intros Rt. change (0 <? 0) with false. cbn iota. rewrite u32_id by lia. rewrite Hld. apply HQ; [| |exact Rt];
    [|split; [exact D1|]; intros pa L Hpa; rewrite <- E3; by apply D2]. split; rewrite ?back_files, ?back_heap.
  - done.
  - by apply (quiet_heap _ _ h).
  - unfold kernel_heap. cbn in F4 |- *. lia.
  - apply back_rest.
Qed.

(** ** close *)

(** Cell [j] is empty again and the four blocks of the descriptor are given
    back. *)
Record closed k k' (j : nat) : Prop := {
  cd_files : files k' = mk_vfs (filesystems (files k)) (<[j := None]> (file_descriptors (files k)))
    (set_heap (driver (files k)) (kernel_heap k'));
  cd_free : free_blocks (kernel_heap k') = (4 + free_blocks (kernel_heap k))%nat;
  cd_ram : ram (tasks k') = ram (tasks k);
  cd_rest : rest_kept k k' }.

Lemma close_call k m m0 a t dir ts pt kdir kts f j d desc (Q : Z -> kernel P D H -> Prop) :
  in_user k m a t dir ts pt kdir kts -> isr80h_commands k !! 9%nat = Some (Some isr80h_close) ->
  file_descriptors (files k) !! j = Some (Some (new_fd d j desc)) -> (j < 511)%nat -> length (file_descriptors (files k)) = 512%nat ->
  fi_type (fd_item desc) = FAT_ITEM_TYPE_FILE -> desc_fresh desc m0 -> desc_objects desc m0 !! d = None ->
  m = <[d := 1]> (desc_objects desc m0) -> user_bytes (tasks k) m pt (Frame.esp f) (le32 (Z.of_nat j + 1)) ->
  (forall k', closed k k' j -> returned k k' m0 a t f dir ts pt kdir kts -> Q 0 k') ->
  wp (isr80h_handler 9 f) Q k.
Proof.
  intros U Hcmd Hj Hlt Hl Hty Hfr Hd -> B1 HQ. eapply syscall_enter; [exact U|lia|exact Hcmd|]. intros s0 R0 Uc K0.
  assert (M0 : memory_kept (tasks k) s0 (<[d := 1]> (desc_objects desc m0))) by (intros pa _; by rewrite R0).
  cbn [run_command]. unfold isr80h_command9_close. apply wp_bind, wp_kfs_tasks, wp_gets_sched. cbn [fst snd]. rewrite vfs_heap_same, Uc.
  apply wp_bind. eapply (wp_arg _ _ _ _ _ _ _ _ _ _ _ _ _ 0); [exact K0| |lia|cbn; rewrite Z.add_0_r; by eapply user_bytes_kept|]; [lia|]. intros s1 K1 N1 R1.
  rewrite i32_id by lia. apply wp_bind, wp_kfs_files.
  eapply wp_mono; [by apply (fclose_spec (files k) m0 j d desc); try done; apply K1|]. intros r f' (-> & h & -> & Ho & Hf & _). apply wp_ret.
  exists m0. split; [by eapply in_kernel_heap|]. split; [by eapply undisturbed_args; [|apply undisturbed_refl]|].
  intros Rt. change (u32 0) with 0. apply HQ; [|exact Rt]. split; rewrite ?back_files, ?back_heap; try done.
  - change (ram s1 = ram (tasks k)). by rewrite R1.
Qed.

(** ** A program that reads a file *)

(** The program stores [bs] at [va], through the directory in CR3. *)
Fixpoint store_user (va : Z) (bs : list Z) : M (kernel P D H) unit :=
  match bs with [] => mret tt | b :: bs' => _ ← on_tasks (mmu_write va b); store_user (va + 1) bs' end.

(** System call [c]: the program pushes the arguments, [int 0x80] enters the
    kernel with the frame [f]. *)
Definition user_call (c : Z) (f : interrupt_frame) (args : list Z) : M (kernel P D H) Z :=
  _ ← store_user (Frame.esp f) (args ≫= le32); isr80h_handler c f.

(** Open the file, read the first [count] bytes, close it. *)
Definition file_session (f1 f2 f3 : interrupt_frame) (path buf count : Z) : M (kernel P D H) (Z * Z * Z) :=
  fd ← user_call 2 f1 [path; FILE_MODE_READ];
  n ← user_call 3 f2 [fd; buf; count];
  r ← user_call 9 f3 [fd];
  mret (fd, n, r).

(** The program of the task runs: its directory is in CR3. *)
Record in_program k (m : gmap Z Z) (a : Z) (t : task) (dir : Z) (ts : list Z) (pt : Z -> Z) (kdir : Z) (kts : list Z) : Prop := {
  ip_user : in_user k m a t dir ts pt kdir kts;
  ip_cr3 : cr3 (pages (tasks k)) = dir }.

Lemma returned_program k k' m a t f dir ts pt kdir kts :
  returned k k' m a t f dir ts pt kdir kts -> in_program k' m a (set_registers t (saved f)) dir ts pt kdir kts.
Proof. intros [R1 [R2 _] _ _ _ _ _]. by split. Qed.

(** [task_page] enters the program. *)
Lemma task_page_spec k m a t dir ts pt kdir kts (Q : Z -> kernel P D H -> Prop) :
  in_user k m a t dir ts pt kdir kts -> Q 0 (resumed k a t dir) -> wp (on_tasks task_page) Q k.
Proof.
  intros [[U1 _] U2 U3 _ _ _ _ _] HQ. apply wp_on_tasks. unfold task_page. apply wp_bind, wp_modify_sched, wp_bind, wp_gets_sched.
  cbn [snd set_segment current_task]. rewrite U1. unfold task_switch. apply wp_bind, wp_bind. eapply wp_get_task; [exact U2|].
  apply wp_bind, wp_modify_sched, wp_bind. eapply wp_switch_chunk; [exact U3|]. apply wp_ret, wp_ret. exact HQ.
Qed.
Lemma resumed_program k m a t dir ts pt kdir kts :
  in_user k m a t dir ts pt kdir kts -> in_program (resumed k a t dir) m a t dir ts pt kdir kts.
Proof. intros [[U1 U1'] U2 U3 U4 U5 U6 U7 U8]. split; [|unfold resumed; by rewrite with_tasks_tasks]. unfold resumed. split; rewrite ?with_tasks_tasks, ?with_tasks_heap; done. Qed.

(** Two calls, and a call behind stores of the program, are as one. *)
Lemma returned_trans k k1 k2 m1 m2 a t f1 f2 dir ts pt kdir kts :
  returned k k1 m1 a t f1 dir ts pt kdir kts -> returned k1 k2 m2 a (set_registers t (saved f1)) f2 dir ts pt kdir kts ->
  returned k k2 m2 a t f2 dir ts pt kdir kts.
Proof.
  intros [A1 A2 A3 A4 [A5 A5'] [A6 A6'] A7] [B1 B2 B3 B4 [B5 B5'] [B6 B6'] B7]. split; try done.
  - by rewrite B4, A4, insert_insert_eq.
  - split; congruence.
  - split; congruence.
  - intros y Hy. by rewrite B7, A7.
Qed.

Lemma returned_stores k k1 k2 r m a t f dir ts pt kdir kts :
  tasks k1 = set_ram (tasks k) r -> returned k1 k2 m a t f dir ts pt kdir kts -> returned k k2 m a t f dir ts pt kdir kts.
Proof. intros E [A1 A2 A3 A4 A5 A6 A7]. rewrite E in *. by split. Qed.

Lemma in_program_stores k r m a t dir ts pt kdir kts : in_program k m a t dir ts pt kdir kts ->
  in_program (with_tasks k (kernel_heap k) (set_ram (tasks k) r)) m a t dir ts pt kdir kts.
Proof. intros [[U1 U2 U3 U4 U5 U6 U7 U8] Hc]. split; [|by rewrite with_tasks_tasks]. split; rewrite ?with_tasks_tasks, ?with_tasks_heap; done. Qed.

(** Every page of the range stays backed, whatever was stored. *)
Lemma user_room_stored x x' m pt va n : (forall pa, is_Some (ram x !! pa) -> is_Some (ram x' !! pa)) -> user_room x m pt va n -> user_room x' m pt va n.
Proof.
  intros Hs (bs & <- & U).
  assert (G : forall j, (j < length bs)%nat -> exists b, ram x' !! phys_of pt (va + Z.of_nat j) = Some b).
  { intros j Hj. destruct (lookup_lt_is_Some_2 bs j Hj) as [b Hb]. destruct (U j b Hb) as (_ & _ & U3 & _). apply Hs. by rewrite U3. }
  exists (map (fun j => default 0 (ram x' !! phys_of pt (va + Z.of_nat j))) (seq 0 (length bs))).
  split; [by rewrite length_map, length_seq|]. intros j b Hb. rewrite list_lookup_fmap_Some in Hb. destruct Hb as (j' & -> & Hj).
  apply lookup_seq in Hj as [-> Hj]. cbn [Nat.add]. destruct (lookup_lt_is_Some_2 bs j Hj) as [c Hc]. destruct (U j c Hc) as (U1 & U2 & _ & U4).
  do 2 (split; [done|]). split; [|done]. by destruct (G j Hj) as [b ->].
Qed.

Lemma user_room_tail x m pt va n : user_room x m pt va (S n) -> user_room x m pt (va + 1) n.
Proof.
  intros ([|c bs] & Hl & U); [done|]. exists bs. split; [by injection Hl|]. intros j b Hb.
  replace (va + 1 + Z.of_nat j) with (va + Z.of_nat (S j)) by lia. by apply U.
Qed.

Lemma store_user_spec bs : forall k m a t dir ts pt kdir kts va (Q : unit -> kernel P D H -> Prop),
  in_program k m a t dir ts pt kdir kts -> user_room (tasks k) m pt va (length bs) ->
  Q tt (with_tasks k (kernel_heap k) (set_ram (tasks k) (user_store (ram (tasks k)) pt va bs))) -> wp (store_user va bs) Q k.
Proof.
  induction bs as [|b bs IH]; intros k m a t dir ts pt kdir kts va Q Ip Hr HQ; cbn [store_user user_store length] in *.
  - apply wp_ret. replace (set_ram (tasks k) (ram (tasks k))) with (tasks k) in HQ by (by destruct (tasks k)). by rewrite with_tasks_same in HQ.
  - pose proof Hr as ([|c old] & Hl & U); [done|]. destruct (U 0%nat c eq_refl) as (U1 & U2 & U3 & U4).
    replace (va + Z.of_nat 0) with va in * by lia. pose proof Ip as [[_ _ _ V4 _ _ _ _] Hc].
    apply wp_bind, wp_on_tasks. apply (wp_mmu_write _ _ (phys_of pt va)); [|cbn [snd]; rewrite U3; eauto|].
    { cbn [snd]. unfold mmu. rewrite Hc. apply (translate_spec _ _ ts); [done|lia|done]. }
    cbn [fst snd]. change (set_tasks (set_kernel_heap k (kernel_heap k)) ?x) with (with_tasks k (kernel_heap k) x).
    eapply (IH _ m a t dir ts pt kdir kts); [by apply in_program_stores| |].
    + rewrite with_tasks_tasks. apply (user_room_stored (tasks k)); [|by apply user_room_tail].
      intros pa. apply (user_store_some [b]).
    + rewrite with_tasks_twice, with_tasks_heap, with_tasks_tasks. exact HQ.
Qed.

(** Two ranges of the program's memory do not share a byte. *)
Definition apart (pt : Z -> Z) (va n va' n' : Z) : Prop :=
  forall i j, 0 <= i < n -> 0 <= j < n' -> phys_of pt (va + i) <> phys_of pt (va' + j).

(** Memory outside the stack frame and the buffer. *)
Definition only_at (r r' : gmap Z Z) (m : gmap Z Z) (pt : Z -> Z) (va n : Z) : Prop :=
  forall pa, live m pa -> (forall i, 0 <= i < n -> phys_of pt (va + i) <> pa) -> r' !! pa = r !! pa.

Lemma user_bytes_at x x' m pt va n va' bs : only_at (ram x) (ram x') m pt va n -> apart pt va n va' (Z.of_nat (length bs)) ->
  user_bytes x m pt va' bs -> user_bytes x' m pt va' bs.
Proof.
  intros O Hap U j b Hb. destruct (U j b Hb) as (U1 & U2 & U3 & U4). do 2 (split; [done|]). split; [|done].
  apply lookup_lt_Some in Hb. rewrite O; [done|done|]. intros i Hi. apply Hap; lia.
Qed.

Lemma user_bytes_app x m pt va b1 b2 : user_bytes x m pt va (b1 ++ b2) ->
  user_bytes x m pt va b1 /\ user_bytes x m pt (va + Z.of_nat (length b1)) b2.
Proof.
  intros U. split.
  - intros j b Hb. apply U. by apply lookup_app_l_Some.
  - intros j b Hb. specialize (U (length b1 + j)%nat b). rewrite lookup_app_r, Nat.add_comm, Nat.add_sub in U by lia.
    replace (va + Z.of_nat (length b1) + Z.of_nat j) with (va + Z.of_nat (j + length b1)) by lia. by apply U.
Qed.

Lemma user_room_at x x' m pt va n va' n' : only_at (ram x) (ram x') m pt va n -> apart pt va n va' (Z.of_nat n') ->
  user_room x m pt va' n' -> user_room x' m pt va' n'.
Proof. intros O Hap (bs & <- & U). exists bs. split; [done|]. by eapply user_bytes_at. Qed.

Lemma only_at_sub r r' m m' pt va n : (forall pa, live m pa -> live m' pa) -> only_at r r' m' pt va n -> only_at r r' m pt va n.
Proof. intros Hl O pa L. by apply O, Hl. Qed.

Lemma live_sub m m' pa : m ⊆ m' -> live m pa -> live m' pa.
Proof. intros Hm [?|(p & n & Hp & Hr)]; [by left|]. right. exists p, n. split; [|done]. by eapply lookup_weaken. Qed.

(** The program pushes the arguments and enters the kernel. *)
Lemma user_call_spec k m a t dir ts pt kdir kts c f args (Q : Z -> kernel P D H -> Prop) :
  in_program k m a t dir ts pt kdir kts -> buffer (tasks k) m pt (Frame.esp f) (4 * length args) ->
  (forall k1, in_user k1 m a t dir ts pt kdir kts -> files k1 = files k -> rest_kept k k1 -> tasks k1 = set_ram (tasks k) (ram (tasks k1)) ->
     user_bytes (tasks k1) m pt (Frame.esp f) (args ≫= le32) -> (forall va n, user_room (tasks k) m pt va n -> user_room (tasks k1) m pt va n) ->
     only_at (ram (tasks k)) (ram (tasks k1)) m pt (Frame.esp f) (4 * Z.of_nat (length args)) -> wp (isr80h_handler c f) Q k1) ->
  wp (user_call c f args) Q k.
Proof.
  intros Ip [B1 B2 _] HQ. unfold user_call. apply wp_bind.
  assert (Hl : length (args ≫= le32) = (4 * length args)%nat).
  { clear. induction args as [|x l IH]; [done|]. rewrite bind_cons, length_app, IH. cbn [length le32]. lia. }
  eapply store_user_spec; [exact Ip|by rewrite Hl|]. apply HQ.
  - by apply in_program_stores.
  - by destruct k as [[? ? []]].
  - by destruct k as [[? ? []]].
  - by rewrite with_tasks_tasks.
  - rewrite with_tasks_tasks. apply (user_stored (tasks k) _ _ _ _ _ (4 * length args)); [exact B1|lia|exact B2|done].
  - intros va n. apply user_room_stored. intros pa. rewrite with_tasks_tasks. apply user_store_some.
  - intros pa L Hpa. rewrite with_tasks_tasks. apply user_store_out. intros j Hj. apply Hpa. lia.
Qed.

(** Where the program keeps its arguments, the path and the data. *)
Record program_memory (x : sched) (m : gmap Z Z) (pt : Z -> Z) (sp path : Z) (str : list Z) (buf : Z) (count : nat) : Prop := {
  pm_stack : buffer x m pt sp 12;
  pm_path : user_bytes x m pt path str /\ 0 <= path < 2 ^ 32;
  pm_buffer : buffer x m pt buf count;
  pm_apart : apart pt sp 12 path (Z.of_nat (length str)) /\ apart pt sp 12 buf (Z.of_nat count) }.

Lemma apart_sym pt va n va' n' : apart pt va n va' n' -> apart pt va' n' va n.
Proof. intros Hap i j Hi Hj E. by apply (Hap j i). Qed.
Lemma apart_prefix pt va n n1 va' n' : apart pt va n va' n' -> n1 <= n -> apart pt va n1 va' n'.
Proof. intros Hap Hn i j Hi Hj. apply Hap; lia. Qed.
Lemma buffer_prefix x m pt va n n' : buffer x m pt va n -> (n' <= n)%nat -> buffer x m pt va n'.
Proof. intros [B1 B2 B3] Hn. split; [by eapply user_room_prefix|intros i j Hi Hj; apply B2; lia|done]. Qed.

(** A buffer in a later state. *)
Lemma buffer_later x x' m m' pt va n : buffer x m pt va n -> m ⊆ m' -> user_room x' m pt va n -> buffer x' m' pt va n.
Proof.
  intros [_ B2 B3] Hm (bs & Hl & U). split; [|done|done]. exists bs. split; [done|]. by eapply user_bytes_grown.
Qed.

(** The memory is that of the program, not a new block of the heap. *)
Lemma user_bytes_backed x x' m m' pt va n bs : user_room x m pt va n -> (length bs <= n)%nat ->
  user_bytes x' m' pt va bs -> user_bytes x' m pt va bs.
Proof.
  intros (old & Hol & V) Hn U j b Hb. destruct (U j b Hb) as (U1 & U2 & U3 & _). do 3 (split; [done|]).
  apply lookup_lt_Some in Hb. destruct (lookup_lt_is_Some_2 old j) as [c Hc]; [lia|]. apply (V j c Hc).
Qed.

Lemma resumed_openable k a t dir ch j base e i it l : openable_file k ch j base e i it l -> openable_file (resumed k a t dir) ch j base e i it l.
Proof. assert (E : files (resumed k a t dir) = files k) by (by destruct k as [[? ? []]]). intros [O1 O2 O3 O4]. split; by rewrite ?E. Qed.
Lemma resumed_heap k a t dir : kernel_heap (resumed k a t dir) = kernel_heap k.
Proof. by destruct k as [[? ? []]]. Qed.
Lemma resumed_memory k a t dir m pt sp path str buf n :
  program_memory (tasks k) m pt sp path str buf n -> program_memory (tasks (resumed k a t dir)) m pt sp path str buf n.
Proof. by intros [[S1 S2 S3] P1 [B1 B2 B3] A1]. Qed.

(** The three blocks of the path, the contents in the buffer, everything else
    as it was. *)
Record file_read k k' (m : gmap Z Z) (pt : Z -> Z) (sp buf : Z) (data addrs : list Z) : Prop := {
  fr_data : user_bytes (tasks k') m pt buf data;
  fr_memory : forall pa, live m pa -> (forall i, 0 <= i < 12 -> phys_of pt (sp + i) <> pa) ->
    (forall i, 0 <= i < Z.of_nat (length data) -> phys_of pt (buf + i) <> pa) -> ram (tasks k') !! pa = ram (tasks k) !! pa;
  fr_tables : filesystems (files k') = filesystems (files k) /\ file_descriptors (files k') = file_descriptors (files k);
  fr_driver : quiet (set_heap (driver (files k)) (kernel_heap k')) (driver (files k'));
  fr_path : length addrs = 3%nat /\ fresh_blocks addrs m;
  fr_free : free_blocks (kernel_heap k) = (3 + free_blocks (kernel_heap k'))%nat;
  fr_rest : rest_kept k k' }.

(** The first call: the file is open, buffer and stack are still there. *)
Lemma user_open k m a t dir ts pt kdir kts f sp path ch base e i it l j buf count (Q : Z -> kernel P D H -> Prop) :
  in_program k m a t dir ts pt kdir kts -> isr80h_commands k !! 2%nat = Some (Some isr80h_open) ->
  openable_file k ch j base e i it l -> (7 <= free_blocks (kernel_heap k))%nat -> Frame.esp f = sp ->
  program_memory (tasks k) m pt sp path (render_path 0 [dotted base e] ++ [0]) buf count ->
  (forall k' addrs d desc, opened k k' m j it addrs d desc -> only_at (ram (tasks k)) (ram (tasks k')) m pt sp 12 ->
     let m' := <[d := 1]> (desc_objects desc (with_blocks addrs m)) in
     returned k k' m' a t f dir ts pt kdir kts -> m ⊆ m' -> buffer (tasks k') m' pt sp 12 -> buffer (tasks k') m' pt buf count -> Q (Z.of_nat j + 1) k') ->
  wp (user_call 2 f [path; FILE_MODE_READ]) Q k.
Proof.
  intros U Hcmd Hof Hf <- [[S1 S2 S3] [P1 P2] [B1 B2 B3] [A1 A2]] HQ.
  eapply user_call_spec; [exact U|apply (buffer_prefix _ _ _ _ 12); [by split|cbn; lia]|]. intros k1 U1 E1 R1 Et Ar Rm O1. cbn [length] in O1.
  change (4 * Z.of_nat 2) with 8 in O1.
  assert (O : only_at (ram (tasks k)) (ram (tasks k1)) m pt (Frame.esp f) 12) by (intros pa L Hpa; apply O1; [done|]; intros; apply Hpa; lia).
  apply (user_bytes_app _ _ _ _ (le32 path) (le32 FILE_MODE_READ)) in Ar as [Ar1 Ar2].
  assert (Eh : kernel_heap k1 = kernel_heap k) by (unfold kernel_heap; by rewrite E1).
  eapply (open_call k1); [exact U1|by rewrite (rest_kept_commands k k1)| |by rewrite Eh|exact P2|exact Ar1|exact Ar2| |].
  { destruct Hof as [O2 O3 O4 O5]. split; rewrite ?E1; done. }
  { eapply user_bytes_at; [exact O1|by eapply apart_prefix|exact P1]. }
  intros k2 addrs d desc [F1 F2 F3 F4 F5 F6] M2 Rt. apply (returned_stores k) with (1 := Et) in Rt. rewrite E1, ?Eh in *.
  assert (Sub : m ⊆ <[d := 1]> (desc_objects desc (with_blocks addrs m))).
  { etransitivity; [apply (with_blocks_subseteq addrs); apply F3|]. by apply desc_objects_subseteq; apply F4. }
  eapply (HQ k2 addrs d desc); [split; try done; by eapply rest_kept_trans| |exact Rt|exact Sub| |].
  - intros pa L Hpa. rewrite M2 by done. by apply O.
  - apply (buffer_later (tasks k) _ m); [by split|exact Sub|]. eapply user_room_kept; [exact M2|].
    by apply Rm.
  - apply (buffer_later (tasks k) _ m); [by split|exact Sub|]. eapply user_room_kept; [exact M2|]. by apply Rm.
Qed.

(** The second call: the data is in the buffer, the stack still there. *)
Lemma user_read k m a t dir ts pt kdir kts f sp j d desc ch base e i it l buf count (Q : Z -> kernel P D H -> Prop) :
  in_program k m a t dir ts pt kdir kts -> isr80h_commands k !! 3%nat = Some (Some isr80h_read) ->
  stored_file (driver (files k)) ch base e i it l -> file_descriptors (files k) !! j = Some (Some (new_fd d j desc)) -> (j < 511)%nat ->
  reading desc it -> (2 <= free_blocks (kernel_heap k))%nat -> (0 < count < 4096)%nat -> Z.of_nat count <= filesize it ->
  Frame.esp f = sp -> buffer (tasks k) m pt sp 12 -> buffer (tasks k) m pt buf count -> apart pt sp 12 buf (Z.of_nat count) ->
  (forall k', let data := take count (contents (driver (files k)) it l) in read_out k k' -> length data = count ->
     user_bytes (tasks k') m pt buf data ->
     (forall pa, live m pa -> (forall i, 0 <= i < 12 -> phys_of pt (sp + i) <> pa) ->
       (forall i, 0 <= i < Z.of_nat (length data) -> phys_of pt (buf + i) <> pa) -> ram (tasks k') !! pa = ram (tasks k) !! pa) ->
     returned k k' m a t f dir ts pt kdir kts -> buffer (tasks k') m pt sp 12 -> Q (Z.of_nat count) k') ->
  wp (user_call 3 f [Z.of_nat j + 1; buf; Z.of_nat count]) Q k.
Proof.
  intros U Hcmd Sf Hj Hlt Rd Hf Hc Hsz <- Hst Hbu Hap HQ.
  eapply user_call_spec; [exact U|exact Hst|]. intros k1 U1 E1 R1 Et Ar Rm O1. cbn [length] in O1.
  apply (user_bytes_app _ _ _ _ (le32 _) (le32 _ ++ le32 _)) in Ar as [Ar1 Ar2].
  apply user_bytes_app in Ar2 as [Ar2 Ar3]. rewrite <- Z.add_assoc in Ar3. change (Z.of_nat (length (le32 buf))) with 4 in Ar3.
  change (Z.of_nat (length (le32 (Z.of_nat j + 1)))) with 4 in *. change (4 + 4) with 8 in Ar3.
  assert (Eh : kernel_heap k1 = kernel_heap k) by (unfold kernel_heap; by rewrite E1).
  assert (Hld : length (take count (contents (driver (files k)) it l)) = count).
  { rewrite length_take, (length_contents _ _ _ _ _ _ _ Sf). lia. }
  eapply (read_call k1 m a t dir ts pt kdir kts f j d desc ch base e i it l buf count);
    [exact U1|rewrite (rest_kept_commands k k1) by exact R1; exact Hcmd|by rewrite E1|by rewrite E1|done|done|by rewrite Eh|done|done
    |exact Ar1|exact Ar2|exact Ar3|apply (buffer_later (tasks k) _ m); [exact Hbu|done|apply Rm, Hbu]|].
  rewrite E1. intros k2 [F1 F2 F3 F4] [D1 D2] Rt. apply (returned_stores k) with (1 := Et) in Rt. rewrite E1, ?Eh in *.
  assert (D3 : only_at (ram (tasks k1)) (ram (tasks k2)) m pt buf (Z.of_nat count)).
  { intros pa L Hpa. apply D2; [done|]. intros n Hn. apply Hpa. lia. }
  eapply (HQ k2); [split; try done; by eapply rest_kept_trans|exact Hld|exact D1| |exact Rt|].
  - intros pa L H1 H2. rewrite D3 by (done || by rewrite Hld in H2). by apply O1.
  - apply (buffer_later (tasks k) _ m); [exact Hst|done|]. eapply user_room_at; [exact D3|by apply apart_sym|apply Rm, Hst].
Qed.

(** The third call: only the stack of the program has changed. *)
Lemma user_close k m m0 a t dir ts pt kdir kts f sp j d desc (Q : Z -> kernel P D H -> Prop) :
  in_program k m a t dir ts pt kdir kts -> isr80h_commands k !! 9%nat = Some (Some isr80h_close) ->
  file_descriptors (files k) !! j = Some (Some (new_fd d j desc)) -> (j < 511)%nat -> length (file_descriptors (files k)) = 512%nat ->
  fi_type (fd_item desc) = FAT_ITEM_TYPE_FILE -> desc_fresh desc m0 -> desc_objects desc m0 !! d = None ->
  m = <[d := 1]> (desc_objects desc m0) -> Frame.esp f = sp -> buffer (tasks k) m pt sp 12 ->
  (forall k', files k' = mk_vfs (filesystems (files k)) (<[j := None]> (file_descriptors (files k)))
       (set_heap (driver (files k)) (kernel_heap k')) ->
     free_blocks (kernel_heap k') = (4 + free_blocks (kernel_heap k))%nat -> only_at (ram (tasks k)) (ram (tasks k')) m pt sp 12 ->
     rest_kept k k' -> returned k k' m0 a t f dir ts pt kdir kts -> Q 0 k') ->
  wp (user_call 9 f [Z.of_nat j + 1]) Q k.
Proof.
  intros U Hcmd Hj Hlt Hl Hty Hfr Hd Em <- Hst HQ.
  eapply user_call_spec; [exact U|apply (buffer_prefix _ _ _ _ 12); [exact Hst|cbn; lia]|]. intros k1 U1 E1 R1 Et Ar Rm O1. cbn [length] in O1.
  assert (Eh : kernel_heap k1 = kernel_heap k) by (unfold kernel_heap; by rewrite E1).
  eapply (close_call k1 m m0 a t dir ts pt kdir kts f j d desc);
    [exact U1|rewrite (rest_kept_commands k k1) by exact R1; exact Hcmd|by rewrite E1|done|by rewrite E1|done|done|done|done|exact Ar|].
  intros k2 [F1 F2 F3 F4] Rt. apply (returned_stores k) with (1 := Et) in Rt. rewrite E1, ?Eh in *. apply (HQ k2); [exact F1|exact F2| |by eapply rest_kept_trans|exact Rt].
  intros pa L Hpa. rewrite F3. apply O1; [done|]. intros n Hn. apply Hpa. lia.
Qed.

(** C3: a program that reads a file.  It runs in its own address space,
    pushes its arguments and makes the system calls open, read and close on
    an existing file: the calls return the number of the descriptor, [count]
    and 0, and the first [count] bytes of the file are in its buffer.  It runs
    again in its own address space, with its directory in CR3, the user data
    segment and itself as the current process; its record has the registers
    of the last call, and the records of all other tasks, the task list and
    the page tables of all other address spaces are as before.  So are the
    descriptor table, the volume, processes, screen, keyboards and command
    table, and all live memory but the 12 bytes of the stack frame and the
    buffer.  Of the seven blocks of the kernel heap that opening took, the
    three of the parsed path stay allocated. *)
Theorem file_session_correct k m a t dir ts pt kdir kts f1 f2 f3 sp path ch base e i it l j buf count :
  let data := take count (contents (driver (files k)) it l) in
  in_program k m a t dir ts pt kdir kts -> isr80h_commands k !! 2%nat = Some (Some isr80h_open) ->
  isr80h_commands k !! 3%nat = Some (Some isr80h_read) -> isr80h_commands k !! 9%nat = Some (Some isr80h_close) ->
  openable_file k ch j base e i it l -> (9 <= free_blocks (kernel_heap k))%nat -> (0 < count < 4096)%nat -> Z.of_nat count <= filesize it ->
  Frame.esp f1 = sp -> Frame.esp f2 = sp -> Frame.esp f3 = sp ->
  program_memory (tasks k) m pt sp path (render_path 0 [dotted base e] ++ [0]) buf count ->
  wp (file_session f1 f2 f3 path buf (Z.of_nat count)) (fun r k' => r = (Z.of_nat j + 1, Z.of_nat count, 0) /\ exists addrs,
    file_read k k' m pt sp buf data addrs /\ returned k k' (with_blocks addrs m) a t f3 dir ts pt kdir kts) k.
Proof.
  intros data U C2 C3 C9 Hof Hf Hc Hsz S1 S2 S3 Hpm. unfold file_session. pose proof Hof as [Of On Om (Ol & Oj & Olt)].
  apply wp_bind. eapply user_open; [exact U|exact C2|exact Hof|lia|exact S1|exact Hpm|].
  intros k1 addrs d desc [F1 F2 F3 F4 F5 F6] O1 m1 U1 Sub B1 B2. pose proof (returned_program _ _ _ _ _ _ _ _ _ _ _ U1) as P1.
  assert (Ed : driver (files k1) = set_heap (driver (files k)) (kernel_heap k1)) by (by rewrite F1).
  assert (Ef : file_descriptors (files k1) = <[j := Some (new_fd d j desc)]> (file_descriptors (files k))) by (by rewrite F1).
  apply wp_bind. eapply (user_read k1 m1 a _ dir ts pt kdir kts f2 sp j d desc ch base e i it l buf count);
    [exact P1|by rewrite (rest_kept_commands k k1 F6)|rewrite Ed; by apply stored_heap|rewrite Ef; apply list_lookup_insert_eq; lia|done|done|lia|done|done|done
    |exact B1|exact B2|apply Hpm|].
  rewrite Ed. change (contents (set_heap (driver (files k)) (kernel_heap k1)) it l) with (contents (driver (files k)) it l). fold data.
  intros k2 data' [G1 G2 G3 G4] Hld Hd O2 U2 B3. pose proof (returned_program _ _ _ _ _ _ _ _ _ _ _ U2) as P2. unfold data' in *. clear data'.
  apply wp_bind. eapply (user_close k2 m1 (with_blocks addrs m) a _ dir ts pt kdir kts f3 sp j d desc);
    [exact P2|by rewrite (rest_kept_commands k1 k2 G4), (rest_kept_commands k k1 F6)| |done| |apply F2|apply F4|apply F4|done|done|exact B3|].
  { destruct G1 as [_ ->]. rewrite Ef. apply list_lookup_insert_eq. lia. } { destruct G1 as [_ ->]. by rewrite Ef, length_insert. }
  intros k3 I1 I2 I3 I4 U3. apply wp_ret. split; [done|]. exists addrs. split.
  2: { eapply returned_trans; [exact U1|]. eapply returned_trans; [exact U2|exact U3]. }
  split.
  - apply (user_bytes_backed (tasks k) _ _ m1 _ _ count); [apply Hpm|lia|]. eapply user_bytes_at; [exact I3| |exact Hd].
    rewrite Hld. apply Hpm.
  - intros pa L H1 H2. pose proof (live_sub _ _ _ Sub L). rewrite I3, O2 by done. by apply O1.
  - rewrite I1. cbn [filesystems file_descriptors]. destruct G1 as [-> ->]. rewrite Ef, list_insert_insert_eq, list_insert_id by apply Oj.
    by rewrite F1.
  - rewrite I1. cbn [driver]. rewrite Ed in G2. by apply (quiet_heap _ _ (kernel_heap k2)).
  - exact F3.
  - lia.
  - by eapply rest_kept_trans; [|eapply rest_kept_trans].
Qed.
End calls.

Module ExampleSession.
Import ExampleVolume ExampleFiles ExampleKernel ExamplePaging ExampleUser ExampleProcess ExampleLoad ExampleCalls.

(** The shell's kernel with the volume of [ExampleFiles] mounted. *)
Definition with_volume (k : machine) : machine :=
  set_files k (mk_vfs (Some FAT16_FS :: replicate 11 None) (replicate 512 None) (set_heap files (kernel_heap k))).

Lemma identity_apart va n va' n' : 0 <= va -> va + n < 2 ^ 32 -> 0 <= va' -> va' + n' < 2 ^ 32 -> va + n <= va' \/ va' + n' <= va ->
  apart (identity 5) va n va' n'.
Proof. intros H1 H2 H3 H4 Hd i j Hi Hj. rewrite !identity_user by lia. lia. Qed.

Lemma shell_buffer l k m p a ptr stack dir ts t kdir kts va bs :
  shell_runs l k m p a ptr stack dir ts t kdir kts -> 0 <= va < 0x800000 -> (length bs <= 512)%nat ->
  (forall i, (i < length bs)%nat -> shell_ram !! (va + Z.of_nat i) = bs !! i) -> buffer (tasks k) m (identity 5) va (length bs).
Proof.
  intros R H1 Hl Hb. split.
  - exists bs. split; [done|]. by apply (shell_bytes _ _ _ _ _ _ _ _ _ _ _ _ _ _ R).
  - intros i j Hi Hj. rewrite !identity_user by lia. lia.
  - lia.
Qed.

(** The memory that the program uses. *)
Lemma shell_memory l k m p a ptr stack dir ts t kdir kts : shell_runs l k m p a ptr stack dir ts t kdir kts ->
  program_memory (tasks k) m (identity 5) 0x3FEF30 0x400200 (render_path 0 [dotted [97] [116; 120; 116]] ++ [0]) 0x400100 16.
Proof.
  intros R. split.
  - apply (shell_buffer _ _ _ _ _ _ _ _ _ _ _ _ 0x3FEF30 (replicate 12 0) R); [lia|simpl; lia|apply check_bytes; vm_compute; reflexivity].
  - split; [|lia]. apply (shell_bytes _ _ _ _ _ _ _ _ _ _ _ _ _ _ R); [lia|simpl; lia|apply check_bytes; vm_compute; reflexivity].
  - apply (shell_buffer _ _ _ _ _ _ _ _ _ _ _ _ 0x400100 (replicate 16 7) R); [lia|simpl; lia|apply check_bytes; vm_compute; reflexivity].
  - split; apply identity_apart; simpl; lia.
Qed.

Lemma volume_openable k : openable_file (with_volume k) chains 0 [97] [116; 120; 116] 0 a_txt [2; 3].
Proof.
  split; [apply stored_heap, a_txt_stored|exact (conj a_txt_valid a_txt_slash)|reflexivity|].
  split; [apply length_replicate|]. split; [split; [reflexivity|lia]|lia].
Qed.

Lemma volume_in_user l k m p a ptr stack dir ts t kdir kts : shell_runs l k m p a ptr stack dir ts t kdir kts ->
  in_user (with_volume k) m a t dir ts (identity 5) kdir kts.
Proof. intros R. destruct (shell_in_user _ _ _ _ _ _ _ _ _ _ _ _ R) as [U1 U2 U3 U4 U5 U6 U7 U8]. by split. Qed.
End ExampleSession.
Import ExampleVolume ExampleFiles ExampleProcess ExampleUser ExampleLoad ExampleCalls ExampleSession.

Lemma file_session_correct_witness :
  wp (_ ← start_shell; _ ← modify with_volume; _ ← on_tasks task_page;
      file_session (frame_at 0x3FEF30) (frame_at 0x3FEF30) (frame_at 0x3FEF30) 0x400200 0x400100 16)
    (fun r k' => r = (1, 16, 0) /\ forall i b, take 16 (contents files a_txt [2; 3]) !! i = Some b -> ram (tasks k') !! (0x400100 + Z.of_nat i) = Some b)
    (before []).
Proof.
  apply wp_bind, start_shell_spec. intros k m p a ptr stack dir ts t kdir kts R. apply wp_bind, wp_modify.
  destruct (sr_rest _ _ _ _ _ _ _ _ _ _ _ _ R) as [Hcm _].
  apply wp_bind. eapply task_page_spec; [exact (volume_in_user _ _ _ _ _ _ _ _ _ _ _ _ R)|].
  eapply wp_mono; [apply (file_session_correct (resumed (with_volume k) a t dir) m a t dir ts (identity 5) kdir kts (frame_at 0x3FEF30) (frame_at 0x3FEF30) (frame_at 0x3FEF30)
    0x3FEF30 0x400200 chains [97] [116; 120; 116] 0 a_txt [2; 3] 0 0x400100 16)|].
  - exact (resumed_program _ _ _ _ _ _ _ _ _ (volume_in_user _ _ _ _ _ _ _ _ _ _ _ _ R)).
  - change (isr80h_commands (resumed (with_volume k) a t dir)) with (isr80h_commands k). rewrite Hcm. reflexivity.
  - change (isr80h_commands (resumed (with_volume k) a t dir)) with (isr80h_commands k). rewrite Hcm. reflexivity.
  - change (isr80h_commands (resumed (with_volume k) a t dir)) with (isr80h_commands k). rewrite Hcm. reflexivity.
  - apply resumed_openable, volume_openable.
  - rewrite resumed_heap. change (kernel_heap (with_volume k)) with (kernel_heap k).
    apply (room_free_all _ m 2440 9 (ik_owns _ _ _ _ _ _ _ _ _ (sr_kernel _ _ _ _ _ _ _ _ _ _ _ _ R)) (sr_room _ _ _ _ _ _ _ _ _ _ _ _ R)); lia.
  - lia.
  - vm_compute. discriminate.
  - reflexivity.
  - reflexivity.
  - reflexivity.
  - exact (resumed_memory (with_volume k) _ _ _ _ _ _ _ _ _ _ (shell_memory _ _ _ _ _ _ _ _ _ _ _ _ R)).
  - intros r k' (-> & addrs & [D _ _ _ _ _ _] & _). split; [reflexivity|]. intros i b Hb. apply lookup_lt_Some in Hb as Hlt.
    rewrite length_take in Hlt. destruct (D i b Hb) as (_ & _ & D3 & _). rewrite identity_user in D3 by lia. exact D3.
Defined.
