(* ===== verification/Idt.v ===== *)
(** * The interrupt descriptor table: src/idt/idt.c and src/idt/idt.h

    [idt_init] fills the table and programs the two 8259 interrupt
    controllers.  The theorem reads the table the way the processor does and
    runs the port writes through a model of the controllers: each vector
    leads to its handler, and the hardware interrupts arrive at 0x20-0x2F,
    where the timer and the keyboard handlers are. *)
From Stdlib Require Import ZArith Lia.
From stdpp Require Import base list gmap numbers option list_numbers.
From S2P Require Import Prelude CLib.
Local Open Scope Z_scope.
Local Open Scope kernel_scope.

Definition PEACHOS_TOTAL_INTERRUPTS : Z := 512.

Record idt_desc := mk_idt_desc { offset_1 : Z; selector : Z; zero : Z; type_attr : Z; offset_2 : Z }.
Record idtr_desc := mk_idtr { limit : Z; base : Z }.

(** The table, the descriptor of the table, the register IDTR of the
    processor once it is loaded, and the ports written. *)
Record idt := mk_idt {
  idt_descriptors : list idt_desc; idtr_descriptor : idtr_desc; idtr : option idtr_desc; ports : list (Z * Z) }.

Section code.
(** Addresses the linker gives to the table and to the handlers. *)
Variables idt_address no_interrupt idt_zero int20h int21h isr80h_wrapper : Z.
Abbreviation IM := (M idt).

Definition outb (port v : Z) : IM unit :=
  modify (fun s => mk_idt (idt_descriptors s) (idtr_descriptor s) (idtr s) (ports s ++ [(port, v)])).
Definition idt_load : IM unit :=
  modify (fun s => mk_idt (idt_descriptors s) (idtr_descriptor s) (Some (idtr_descriptor s)) (ports s)).

Definition idt_set (interrupt_no address : Z) : IM unit :=
  l ← gets idt_descriptors;
  l ← lift_out (l.[interrupt_no <- mk_idt_desc (Z.land address 0xffff) KERNEL_CODE_SELECTOR 0x00 0xEE (u16 (Z.shiftr address 16))]);
  modify (fun s => mk_idt l (idtr_descriptor s) (idtr s) (ports s)).

(** The loop from [i] on, [n] descriptors left. *)
Fixpoint idt_fill (i : Z) (n : nat) : IM unit :=
  match n with
  | O => mret tt
  | S n' => _ ← idt_set i no_interrupt; idt_fill (i + 1) n'
  end.

Definition sizeof_idt_desc : Z := 8.

Definition idt_init : IM unit :=
  _ ← modify (fun s => mk_idt (replicate (Z.to_nat PEACHOS_TOTAL_INTERRUPTS) (mk_idt_desc 0 0 0 0 0))
        (mk_idtr (PEACHOS_TOTAL_INTERRUPTS * sizeof_idt_desc - 1) idt_address) (idtr s) (ports s));
  _ ← idt_fill 0 (Z.to_nat PEACHOS_TOTAL_INTERRUPTS);
  _ ← idt_set 0 idt_zero;
  _ ← idt_set 0x20 int20h;
  _ ← idt_set 0x21 int21h;
  _ ← idt_set 0x80 isr80h_wrapper;
  _ ← outb 0x20 0x11;
  _ ← outb 0xA0 0x11;
  _ ← outb 0x21 0x20;
  _ ← outb 0xA1 0x28;
  _ ← outb 0x21 0x04;
  _ ← outb 0xA1 0x02;
  _ ← outb 0x21 0x01;
  _ ← outb 0xA1 0x01;
  _ ← outb 0x21 0x00;
  _ ← outb 0xA1 0x00;
  idt_load.
End code.

(** ** The processor and the controllers *)

(** Where a gate leads: present, usable from ring 3, a 32-bit interrupt gate. *)
Definition gate (d : idt_desc) : option (Z * Z) :=
  if (Z.testbit (type_attr d) 7) && (Z.land (type_attr d) 0x0F =? 0xE) then Some (selector d, Z.lor (offset_1 d) (Z.shiftl (offset_2 d) 16)) else None.
Definition gate_dpl (d : idt_desc) : Z := Z.land (Z.shiftr (type_attr d) 5) 3.

(** One 8259: the initialisation words that are still to come, the vector of
    its first line, the mask of its lines. *)
Record pic := mk_pic { awaiting : nat; offset : Z; cascade : Z; mask : Z }.

(** A write to the command or the data port.  [0x11] starts the
    initialisation with four words; the next three go to the data port. *)
Definition pic_write (p : pic) (data : bool) (v : Z) : pic :=
  if negb data then if Z.testbit v 4 then mk_pic 3 (offset p) (cascade p) 0 else p
  else
    match awaiting p with
    | 3%nat => mk_pic 2 v (cascade p) (mask p)
    | 2%nat => mk_pic 1 (offset p) v (mask p)
    | 1%nat => mk_pic 0 (offset p) (cascade p) (mask p)
    | _ => mk_pic 0 (offset p) (cascade p) v
    end.

(** Both controllers; other ports belong to other devices. *)
Definition pics_write (ps : pic * pic) (w : Z * Z) : pic * pic :=
  let (master, slave) := ps in
  let (port, v) := w in
  if port =? 0x20 then (pic_write master false v, slave)
  else if port =? 0x21 then (pic_write master true v, slave)
  else if port =? 0xA0 then (master, pic_write slave false v)
  else if port =? 0xA1 then (master, pic_write slave true v)
  else (master, slave).

(** The vector of interrupt line [n], when it is not masked. *)
Definition irq_vector (ps : pic * pic) (n : Z) : option Z :=
  let (master, slave) := ps in
  if n <? 8 then if Z.testbit (mask master) n then None else Some (offset master + n)
  else if Z.testbit (mask master) 2 || Z.testbit (mask slave) (n - 8) then None
  else Some (offset slave + (n - 8)).

(** ** Theorems *)
Section spec.
Context (idt_address no_interrupt idt_zero int20h int21h isr80h_wrapper : Z).

Definition descriptor (address : Z) : idt_desc :=
  mk_idt_desc (Z.land address 0xffff) KERNEL_CODE_SELECTOR 0x00 0xEE (u16 (Z.shiftr address 16)).

Lemma gate_descriptor address : 0 <= address < 2 ^ 32 -> gate (descriptor address) = Some (KERNEL_CODE_SELECTOR, address) /\ gate_dpl (descriptor address) = 3.
Proof.
  intros Ha. split; [|done]. unfold gate, descriptor. cbn [type_attr selector offset_1 offset_2]. change (_ && _) with true. cbv iota. do 2 f_equal.
  rewrite (land_ffff address). assert (E : u16 (Z.shiftr address 16) = address / 2 ^ 16).
  { rewrite Z.shiftr_div_pow2 by lia. unfold u16. zdm. }
  rewrite E, Z.shiftl_mul_pow2 by lia. set (x := address mod 65536). set (y := address / 2 ^ 16 * 2 ^ 16).
  assert (Hz : Z.land x y = 0).
  { apply Z.bits_inj'. intros n Hn. rewrite Z.land_spec, Z.bits_0. unfold x, y. destruct (Z.lt_ge_cases n 16).
    - rewrite Z.mul_pow2_bits_low by lia. apply andb_false_r.
    - change 65536 with (2 ^ 16). rewrite Z.mod_pow2_bits_high by lia. done. }
  pose proof (Z.add_lor_land x y) as Hs. rewrite Hz in Hs. unfold x, y in *. zdm.
Qed.

Lemma idt_set_spec s i address (Q : unit -> idt -> Prop) :
  0 <= i < Z.of_nat (length (idt_descriptors s)) ->
  Q tt (mk_idt (<[Z.to_nat i := descriptor address]> (idt_descriptors s)) (idtr_descriptor s) (idtr s) (ports s)) -> wp (idt_set i address) Q s.
Proof. intros Hi HQ. unfold idt_set. apply wp_bind, wp_gets, wp_bind. eapply wp_lift; [by apply aset_ok|]. by apply wp_modify. Qed.

Lemma idt_fill_spec n : forall s i (Q : unit -> idt -> Prop),
  0 <= i -> i + Z.of_nat n = Z.of_nat (length (idt_descriptors s)) ->
  Q tt (mk_idt (take (Z.to_nat i) (idt_descriptors s) ++ replicate n (descriptor no_interrupt)) (idtr_descriptor s) (idtr s) (ports s)) ->
  wp (idt_fill no_interrupt i n) Q s.
Proof.
  induction n as [|n IH]; intros s i Q Hi Hl HQ; cbn [idt_fill].
  - apply wp_ret. rewrite take_ge, app_nil_r in HQ by lia. by destruct s.
  - apply wp_bind, idt_set_spec; [lia|]. apply IH; [lia|cbn; rewrite length_insert; lia|]. cbn [idt_descriptors idtr_descriptor idtr ports].
    replace (Z.to_nat (i + 1)) with (S (Z.to_nat i)) by lia. rewrite (take_S_r _ _ (descriptor no_interrupt)) by (apply list_lookup_insert_eq; lia).
    rewrite take_insert_ge, <- app_assoc by lia. exact HQ.
Qed.

(** The handler of a vector. *)
Definition handler_of (v : Z) : Z :=
  if v =? 0 then idt_zero else if v =? 0x20 then int20h else if v =? 0x21 then int21h else if v =? 0x80 then isr80h_wrapper else no_interrupt.

Lemma idt_init_spec s (ps : pic * pic) :
  0 <= no_interrupt < 2 ^ 32 -> 0 <= idt_zero < 2 ^ 32 -> 0 <= int20h < 2 ^ 32 -> 0 <= int21h < 2 ^ 32 -> 0 <= isr80h_wrapper < 2 ^ 32 ->
  wp (idt_init idt_address no_interrupt idt_zero int20h int21h isr80h_wrapper) (fun _ s' =>
    (forall v, 0 <= v < 512 -> exists d, idt_descriptors s' !! Z.to_nat v = Some d /\ gate d = Some (KERNEL_CODE_SELECTOR, handler_of v) /\ gate_dpl d = 3) /\
    idtr s' = Some (mk_idtr (8 * Z.of_nat (length (idt_descriptors s')) - 1) idt_address) /\
    exists w, ports s' = ports s ++ w /\ forall n, 0 <= n < 16 -> irq_vector (foldl pics_write ps w) n = Some (0x20 + n)) s.
Proof.
  intros H1 H2 H3 H4 H5. unfold idt_init. apply wp_bind, wp_modify, wp_bind. apply idt_fill_spec; [lia|cbn [idt_descriptors]; rewrite length_replicate; lia|].
  cbn [idt_descriptors idtr_descriptor idtr ports]. rewrite take_0. cbn [app]. set (l := replicate _ (descriptor no_interrupt)).
  assert (Hl : length l = Z.to_nat 512) by (unfold l; apply length_replicate).
  do 4 (apply wp_bind, idt_set_spec; [cbn [idt_descriptors]; rewrite ?length_insert; lia|]; cbn [idt_descriptors idtr_descriptor idtr ports]).
  set (l' := <[Z.to_nat 0x80 := _]> _). assert (Hl' : length l' = Z.to_nat 512) by (unfold l'; by rewrite !length_insert).
  unfold outb, idt_load. do 10 (apply wp_bind, wp_modify; cbn [idt_descriptors idtr_descriptor idtr ports]). apply wp_modify. cbn [idt_descriptors idtr_descriptor idtr ports]. split; [|split].
  - intros v Hv. assert (Hd : l' !! Z.to_nat v = Some (descriptor (handler_of v))).
    { unfold l', handler_of. destruct (Z.eqb_spec v 0) as [->|]; [|destruct (Z.eqb_spec v 0x20) as [->|]; [|destruct (Z.eqb_spec v 0x21) as [->|];
        [|destruct (Z.eqb_spec v 0x80) as [->|]]]].
      all: rewrite ?(list_lookup_insert_ne _ (Z.to_nat 0x80)), ?(list_lookup_insert_ne _ (Z.to_nat 0x21)), ?(list_lookup_insert_ne _ (Z.to_nat 0x20)),
        ?(list_lookup_insert_ne _ (Z.to_nat 0)) by lia; try (apply list_lookup_insert_eq; rewrite ?length_insert; lia).
      apply lookup_replicate_2. unfold PEACHOS_TOTAL_INTERRUPTS. lia. }
    eexists. split; [exact Hd|]. apply gate_descriptor. unfold handler_of. by repeat case_match.
  - rewrite Hl'. done.
  - rewrite <- !app_assoc. eexists. split; [reflexivity|]. intros n Hn. destruct ps as [ma sl]. cbn.
    destruct (Z.ltb_spec n 8); rewrite Z.bits_0; [done|]. cbn. rewrite ?Z.bits_0. f_equal. lia.
Qed.

(** C18: interrupts reach their handlers.  After [idt_init], whatever the
    table, the controllers and their masks were before, the processor finds
    in each of the 512 entries a gate to the right handler in the kernel's
    code segment, usable from ring 3; IDTR holds the table and its exact
    size; and line [n] of the interrupt controllers arrives at vector
    [0x20 + n], so the timer reaches [int20h], the keyboard [int21h]. *)
Theorem idt_init_correct s (ps : pic * pic) :
  0 <= no_interrupt < 2 ^ 32 -> 0 <= idt_zero < 2 ^ 32 -> 0 <= int20h < 2 ^ 32 -> 0 <= int21h < 2 ^ 32 -> 0 <= isr80h_wrapper < 2 ^ 32 ->
  wp (idt_init idt_address no_interrupt idt_zero int20h int21h isr80h_wrapper) (fun _ s' =>
    (forall v, 0 <= v < 512 -> exists d, idt_descriptors s' !! Z.to_nat v = Some d /\ gate d = Some (KERNEL_CODE_SELECTOR, handler_of v) /\ gate_dpl d = 3) /\
    idtr s' = Some (mk_idtr (8 * Z.of_nat (length (idt_descriptors s')) - 1) idt_address) /\
    exists w, ports s' = ports s ++ w /\ forall n, 0 <= n < 16 -> irq_vector (foldl pics_write ps w) n = Some (0x20 + n)) s.
Proof. apply idt_init_spec. Qed.
End spec.

Lemma idt_init_correct_witness :
  wp (idt_init 0x20000 0x100100 0x100200 0x100300 0x100400 0x100500) (fun _ s' =>
    exists w, ports s' = w /\ irq_vector (foldl pics_write (mk_pic 0 8 4 0xFF, mk_pic 0 0x70 2 0xFF) w) 1 = Some 0x21)
    (mk_idt [] (mk_idtr 0 0) None []).
Proof.
  eapply wp_mono; [apply (idt_init_correct 0x20000 0x100100 0x100200 0x100300 0x100400 0x100500 _ (mk_pic 0 8 4 0xFF, mk_pic 0 0x70 2 0xFF)); lia|].
  intros u s' (_ & _ & w & Hw & Hv). exists w. split; [exact Hw|]. apply (Hv 1). lia.
Defined.
