(* ===== verification/Boot.v ===== *)
(** * Starting the kernel: [kernel_main] of src/kernel.c

    [kernel_main] brings up the screen, the segments, the heap, the file
    system, the interrupts, the task state segment and paging, tests the file
    system on [hello.txt], loads [shell.bin] and enters it.  The theorem
    follows the whole way from a disk image to the first instruction of the
    shell, through the parts verified in the other files. *)
From Stdlib Require Import ZArith Lia.
From stdpp Require Import base list gmap numbers option list_numbers strings.
From S2P Require Import Prelude CLib Heap Disk PathParser FatTypes FatTable FatData FatDir Fat16 FatFiles FatFrame Mount Vfs FileIO.
From S2P Require Import Gdt Terminal Paging Task UserMem Kernel Keyboard Process Load Syscall Idt.
Local Open Scope Z_scope.
Local Open Scope kernel_scope.

(** The bytes of a string literal of the source, with its terminator. *)
Definition text (s : string) : list Z := (fun a => Z.of_N (Ascii.N_of_ascii a)) <$> String.list_ascii_of_string s.
Definition c_str (s : string) : list Z := text s ++ [0].
(** The same with a newline at the end. *)
Definition line (s : string) : list Z := text s ++ [10; 0].

(** Literals in a goal, evaluated. *)
Ltac literals := repeat match goal with |- context [text ?s] => let l := eval vm_compute in (text s) in change (text s) with l end.

(** ** The task state segment: src/task/tss.h *)
Module Tss.
Record tss := mk {
  link : Z; esp0 : Z; ss0 : Z; esp1 : Z; esp2 : Z; ss2 : Z; sr3 : Z; eip : Z; eflags : Z; eax : Z; ecx : Z; edx : Z; ebx : Z;
  esp : Z; ebp : Z; esi : Z; edi : Z; es : Z; cs : Z; ss : Z; ds : Z; fs : Z; gs : Z; ldtr : Z; iopb : Z }.
Definition zero : tss := mk 0 0 0 0 0 0 0 0 0 0 0 0 0 0 0 0 0 0 0 0 0 0 0 0 0.
Definition set_stack0 (t : tss) (sp seg : Z) : tss :=
  mk (link t) sp seg (esp1 t) (esp2 t) (ss2 t) (sr3 t) (eip t) (eflags t) (eax t) (ecx t) (edx t) (ebx t)
    (esp t) (ebp t) (esi t) (edi t) (es t) (cs t) (ss t) (ds t) (fs t) (gs t) (ldtr t) (iopb t).
(** The words of the structure as they lie in memory. *)
Definition words (t : tss) : list Z :=
  [link t; esp0 t; ss0 t; esp1 t; esp2 t; ss2 t; sr3 t; eip t; eflags t; eax t; ecx t; edx t; ebx t;
   esp t; ebp t; esi t; edi t; es t; cs t; ss t; ds t; fs t; gs t; ldtr t; iopb t].
Definition sizeof : Z := 100.
End Tss.

(** ** The machine

    The kernel of the other files, and what only the start touches: the
    tables of segments and interrupts, the task state segment, and the
    registers they are loaded into. *)
Section machine.
Context {D : Type} {B : BlockDevice D}.
(** Addresses the linker gives to the table, the handlers and [tss]. *)
Variables idt_address no_interrupt idt_zero int20h int21h isr80h_wrapper tss_address : Z.
Abbreviation kernel := (Kernel.kernel fat_file_descriptor D KHeap.kheap).

Record machine := mk_machine {
  kern : kernel;
  gdt_real : list (list Z); gdtr : option (list (list Z));
  idt_part : idt;
  tss : Tss.tss; task_register : Z; paging_enabled : bool }.
Implicit Types M : machine.

Definition set_kern M k : machine := mk_machine k (gdt_real M) (gdtr M) (idt_part M) (tss M) (task_register M) (paging_enabled M).
Definition set_gdt M g : machine := mk_machine (kern M) g (gdtr M) (idt_part M) (tss M) (task_register M) (paging_enabled M).
Definition set_gdtr M g : machine := mk_machine (kern M) (gdt_real M) g (idt_part M) (tss M) (task_register M) (paging_enabled M).
Definition set_idt M i : machine := mk_machine (kern M) (gdt_real M) (gdtr M) i (tss M) (task_register M) (paging_enabled M).
Definition set_tss M t : machine := mk_machine (kern M) (gdt_real M) (gdtr M) (idt_part M) t (task_register M) (paging_enabled M).
Definition set_tr M r : machine := mk_machine (kern M) (gdt_real M) (gdtr M) (idt_part M) (tss M) r (paging_enabled M).
Definition set_pg M b : machine := mk_machine (kern M) (gdt_real M) (gdtr M) (idt_part M) (tss M) (task_register M) b.

Abbreviation BM := (Prelude.M machine).
Definition on_kern {T} (m : Prelude.M kernel T) : BM T := focus kern set_kern m.
Definition on_idt {T} (m : Prelude.M idt T) : BM T := focus idt_part set_idt m.
Definition say (s : list Z) : Prelude.M kernel unit := on_screen (print s).

(** [gdt.asm], [tss.asm] and [paging.asm] load the processor's registers. *)
Definition gdt_load : BM unit := modify (fun M => set_gdtr M (Some (gdt_real M))).
Definition tss_load (segment : Z) : BM unit := modify (fun M => set_tr M (u16 segment)).
Definition enable_paging : BM unit := modify (fun M => set_pg M true).

(** [memset] of the table and [gdt_structured_to_gdt]. *)
Definition start_segments : BM unit :=
  _ ← modify (fun M => set_gdt M (replicate 6 (replicate 8 0)));
  g ← gets gdt_real;
  g ← lift_out (gdt_structured_to_gdt g (kernel_gdt tss_address Tss.sizeof));
  _ ← modify (fun M => set_gdt M g);
  gdt_load.

(** The table of the heap holds whatever memory held before. *)
Definition start_heap : Prelude.M kernel unit :=
  h ← gets kernel_heap;
  '(failed, h) ← lift_out (KHeap.kheap_init (Heap.entries (Heap.table (KHeap.kernel_heap h))) (KHeap.memory h));
  _ ← modify (fun k => set_kernel_heap k h);
  if failed : bool then say (line "Failed to create heap"%string) else mret tt.

Definition start_tss : BM unit :=
  _ ← modify (fun M => set_tss M Tss.zero);
  _ ← modify (fun M => set_tss M (Tss.set_stack0 (tss M) 0x600000 KERNEL_DATA_SELECTOR));
  tss_load 0x28.

Definition start_paging : BM unit :=
  c ← on_kern (on_tasks (on_paging (paging_new_4gb (Z.lor (Z.lor PAGING_IS_WRITEABLE PAGING_IS_PRESENT) PAGING_ACCESS_FROM_ALL))));
  _ ← on_kern (on_tasks (modify_sched (fun s => set_kernel_chunk s c)));
  _ ← on_kern (on_tasks (on_paging (paging_switch c)));
  enable_paging.

(** The test of the file system; [hello.txt] stays open. *)
Definition read_test : Prelude.M kernel unit :=
  _ ← say (line "sys_open/sys_read test");
  fd ← on_files (fopen (c_str "0:/hello.txt") (c_str "r"));
  if fd <=? 0 then say (line "fopen returned 0")
  else
    _ ← say (line "fopen returned valid fd");
    let buf := replicate 64 0 in
    '(n, data) ← on_files (fread 1 63 fd);
    buf ← lift_out (fill buf data);
    if n <=? 0 then say (line "fread returned 0")
    else
      _ ← say (c_str "fread got data: ");
      _ ← say buf;
      _ ← say (line "");
      differs ← lift_out (CString.strncmp buf (c_str "Testo world!") 12);
      if differs =? 0 then say (text "content matched" ++ [10; 10; 0]) else say (text "content mismatch" ++ [10; 10; 0]).

(** The registers are those the shell starts with. *)
Definition run_shell : Prelude.M kernel registers :=
  '(res, process) ← process_load (c_str "0:/shell.bin");
  if negb (res =? PEACHOS_ALL_OK) then panic (line "Failed to load shell.bin")
  else on_tasks task_run_first_ever_task.

(** [kernel_main] up to the test. *)
Definition start_machine : BM unit :=
  _ ← on_kern (on_screen terminal_initialize);
  _ ← start_segments;
  _ ← on_kern start_heap;
  _ ← on_kern (on_files fs_init);
  _ ← on_kern (on_files disk_search_and_init);
  _ ← on_idt (idt_init idt_address no_interrupt idt_zero int20h int21h isr80h_wrapper);
  _ ← start_tss;
  _ ← start_paging;
  _ ← on_kern isr80h_register_commands;
  on_kern keyboard_init.

Definition kernel_main : BM registers :=
  _ ← start_machine;
  _ ← on_kern read_test;
  on_kern run_shell.
End machine.

(** ** The screen and the heap *)
Section stages.
Context {D : Type} {B : BlockDevice D} {BS : BlockDeviceSpec D}.
Abbreviation kernel := (Kernel.kernel fat_file_descriptor D KHeap.kheap).
Implicit Types k : kernel.

Lemma say_spec k s str scr rest (Q : unit -> kernel -> Prop) :
  shows (Kernel.screen k) scr rest -> cursor_at (Kernel.screen k) scr -> CString.cstring s = Some str -> bytes_ok str ->
  (forall t, shows t (foldl step scr str) rest -> cursor_at t (foldl step scr str) -> Q tt (set_screen k t)) -> wp (say s) Q k.
Proof. intros Hs Hc Hp Hb HQ. apply wp_on_screen. by eapply print_spec. Qed.


(** What the test prints: its messages, the first 63 bytes of the file up to
    a NUL, and whether they start as expected. *)
Definition test_text (data : list Z) : list Z :=
  let s := CString.upto_nul (take 63 data) in
  text "sys_open/sys_read test" ++ [10] ++ text "fopen returned valid fd" ++ [10] ++ text "fread got data: " ++ s ++ [10] ++
  (if bool_decide (take 12 s = text "Testo world!") then text "content matched" else text "content mismatch") ++ [10; 10].

Lemma chain_bytes_ok (s : fs_state D KHeap.kheap) l : dev_ok (dev s) -> bytes_ok (chain_bytes s l).
Proof.
  intros Hd. unfold chain_bytes. induction l as [|x l IH]; [constructor|]. apply Forall_app. split; [by apply bytes_range|exact IH].
Qed.

(** The memory of a descriptor comes on top of what was there. *)
(** [k] runs on the heap blocks [m], [N] more are free in one run. *)
Record has_room k (m : gmap Z Z) (N : nat) : Prop := { hr_owns : owns (kernel_heap k) m; hr_room : room (kernel_heap k) N }.

Lemma read_test_found k scr rest m N ch base e i it l (Q : unit -> kernel -> Prop) :
  c_str "0:/hello.txt" = root_file base e [] -> valid83 base e -> SLASH ∉ dotted base e ->
  stored_file (driver (files k)) ch base e i it l -> has_room k m N -> (8 <= N)%nat ->
  filesystem (the_disk (driver (files k))) = true -> file_descriptors (files k) = replicate 512 None ->
  shows (Kernel.screen k) scr rest -> cursor_at (Kernel.screen k) scr ->
  (forall t d h s' m', let scr' := foldl step scr (test_text (chain_bytes (driver (files k)) l)) in
     shows t scr' rest -> cursor_at t scr' -> m ⊆ m' -> owns h m' -> room h (N - 8) -> quiet (set_heap (driver (files k)) h) s' ->
     Q tt (set_screen (set_files k (mk_vfs (filesystems (files k)) (Some d :: replicate 511 None) s')) t)) ->
  wp read_test Q k.
Proof.
  intros En Hv Hsl Sf [Ho Hr] HN Hm Hfd Hs Hc HQ. unfold read_test. rewrite En.
  apply wp_bind. eapply (say_spec _ _ (text "sys_open/sys_read test" ++ [10])); [exact Hs|exact Hc|reflexivity|by apply (bool_decide_unpack _); vm_compute|]. intros t1 S1 C1.
  assert (Hfb : (7 <= free_blocks (heap (driver (files k))))%nat) by (eapply room_free_all; [exact Ho|exact Hr|lia|lia|lia]).
  apply wp_bind, wp_on_files. change (files (set_screen k t1)) with (files k).
  eapply (open_existing_spec (files k) ch m base e [] i it l 0); try done.
  { rewrite Hfd. by apply length_replicate. } { rewrite Hfd. split; [done|]. intros j Hj. lia. } { lia. }
  intros addrs a desc h La Fa Rd Df Da Oh Lo _. cbn [Z.leb Z.compare Z.of_nat Z.add].
  apply wp_bind. eapply (say_spec _ _ (text "fopen returned valid fd" ++ [10])); [exact S1|exact C1|reflexivity|by apply (bool_decide_unpack _); vm_compute|]. intros t2 S2 C2.
  rewrite Hfd. change (<[0%nat := ?x]> (replicate 512 None)) with (x :: replicate 511 None).
  set (f1 := mk_vfs _ _ _). change (set_screen _ t2) with (set_screen (set_files k f1) t2).
  pose proof (sf_vol _ _ _ _ _ _ _ Sf) as V. pose proof (sf_size _ _ _ _ _ _ _ Sf). pose proof (sf_fits _ _ _ _ _ _ _ Sf).
  pose proof (csize_pos _ (vo_geometry _ _ V)) as Hcs. pose proof (length_chain_bytes (driver (files k)) l) as Hlen.
  assert (H63 : 63 <= csize (driver (files k)) * Z.of_nat (length l)) by (unfold csize in *; nia).
  set (data := chain_bytes (driver (files k)) l) in *.
  apply wp_bind, wp_on_files. change (files (set_screen (set_files k f1) t2)) with f1. change 1 with (Z.of_nat 0 + 1) at 2.
  eapply (fread_start_spec f1 0 a desc ch base e i it l 1 63); [reflexivity|lia|exact Rd|by apply stored_heap|lia|lia|lia|exact H63| |].
  { intros j Hj. rewrite Z.mul_1_r. apply read_ok_bytes. exact (vo_geometry _ _ (vol_heap _ _ h V)). }
  intros s' Qs. change (chain_bytes (driver f1) l) with data. change (Z.to_nat (63 * 1)) with 63%nat. cbn beta iota.
  assert (L63 : length (take 63 data) = 63%nat) by (rewrite length_take; lia).
  apply wp_bind. eapply wp_lift; [unfold fill; rewrite length_replicate, L63; reflexivity|]. change (drop 63 (replicate 64 0)) with [0].
  cbn [Z.leb Z.compare]. set (k3 := set_files _ _).
  assert (Bd : bytes_ok (take 63 data)) by (apply Forall_take, chain_bytes_ok; exact (ok_dev _ (vo_fs _ _ V))).
  apply wp_bind. eapply (say_spec k3 _ (text "fread got data: ")); [exact S2|exact C2|reflexivity|by apply (bool_decide_unpack _); vm_compute|]. intros t3 S3 C3.
  apply wp_bind. eapply say_spec; [exact S3|exact C3|apply CString.cstring_upto|by apply CString.upto_nul_bytes|]. intros t4 S4 C4.
  apply wp_bind. eapply (say_spec _ _ (text "" ++ [10])); [exact S4|exact C4|reflexivity|by apply (bool_decide_unpack _); vm_compute|]. intros t5 S5 C5.
  destruct (CString.strncmp_prefix 12 (take 63 data ++ [0]) (c_str "Testo world!") (CString.upto_nul (take 63 data)) (text "Testo world!")) as (z & Ez & Hz);
    [apply Forall_app; split; [done|]; repeat constructor; lia|by apply (bool_decide_unpack _); vm_compute|apply CString.cstring_upto|reflexivity|].
  apply wp_bind. eapply wp_lift; [exact Ez|]. change (take 12 (text "Testo world!")) with (text "Testo world!") in Hz.
  assert (End : forall msg, CString.cstring (text msg ++ [10; 10; 0]) = Some (text msg ++ [10; 10]) -> bytes_ok (text msg ++ [10; 10]) ->
    msg = (if bool_decide (take 12 (CString.upto_nul (take 63 data)) = text "Testo world!") then "content matched" else "content mismatch")%string ->
    wp (say (text msg ++ [10; 10; 0])) Q (set_screen (set_screen (set_screen k3 t3) t4) t5)).
  { intros msg Hm1 Hm2 Hm3. eapply say_spec; [exact S5|exact C5|exact Hm1|exact Hm2|]. intros t6 S6 C6.
    assert (Es : forall x, foldl step (foldl step (foldl step (foldl step (foldl step scr (text "sys_open/sys_read test" ++ [10])) (text "fopen returned valid fd" ++ [10]))
      (text "fread got data: ")) (CString.upto_nul (take 63 data))) (text "" ++ [10]) = x -> foldl step x (text msg ++ [10; 10]) = foldl step scr (test_text data)).
    { intros x <-. rewrite <- !foldl_app. f_equal. unfold test_text. rewrite Hm3, <- !app_assoc. change (text "" ++ [10] ++ ?x) with ([10] ++ x).
      by case_bool_decide. }
    rewrite (Es _ eq_refl) in S6, C6.
    eapply (HQ t6 _ h s' (<[a := 1]> (desc_objects desc (with_blocks addrs m)))); [exact S6|exact C6| |exact Oh| |exact Qs].
    - etransitivity; [by apply with_blocks_subseteq|]. by apply desc_objects_subseteq.
    - apply Lo. by replace (N - 8 + 8)%nat with N by lia. }
  destruct (Z.eqb_spec z 0) as [E|E]; apply End; try reflexivity; try (by apply (bool_decide_unpack _); vm_compute).
  - by rewrite (bool_decide_true (take 12 _ = _)) by (by apply Hz).
  - by rewrite (bool_decide_false (take 12 _ = _)) by (by rewrite <- Hz).
Qed.

Lemma read_test_absent k scr rest m N base e (Q : unit -> kernel -> Prop) :
  c_str "0:/hello.txt" = root_file base e [] -> valid83 base e -> SLASH ∉ dotted base e ->
  fs_ok (driver (files k)) -> dir_ok (driver (files k)) -> missing (driver (files k)) base e -> has_room k m N -> (8 <= N)%nat ->
  filesystem (the_disk (driver (files k))) = true -> length (file_descriptors (files k)) = 512%nat ->
  shows (Kernel.screen k) scr rest -> cursor_at (Kernel.screen k) scr ->
  (forall t h m', let scr' := foldl step scr (text "sys_open/sys_read test" ++ [10] ++ text "fopen returned 0" ++ [10]) in
     shows t scr' rest -> cursor_at t scr' -> m ⊆ m' -> owns h m' -> room h (N - 5) ->
     Q tt (set_screen (set_files k (vfs_heap (files k) h)) t)) ->
  wp read_test Q k.
Proof.
  intros En Hv Hsl Hs Hd Hno [Ho Hr] HN Hm Hl S0 C0 HQ. unfold read_test. rewrite En.
  apply wp_bind. eapply (say_spec _ _ (text "sys_open/sys_read test" ++ [10])); [exact S0|exact C0|reflexivity|by apply (bool_decide_unpack _); vm_compute|]. intros t1 S1 C1.
  assert (Hfb : (7 <= free_blocks (heap (driver (files k))))%nat) by (eapply room_free_all; [exact Ho|exact Hr|lia|lia|lia]).
  apply wp_bind, wp_on_files. change (files (set_screen k t1)) with (files k).
  eapply (fopen_missing_spec (files k) m base e []); try done.
  intros addrs h La Fa Oh Lo. cbn [Z.leb Z.compare].
  eapply (say_spec _ _ (text "fopen returned 0" ++ [10])); [exact S1|exact C1|reflexivity|by apply (bool_decide_unpack _); vm_compute|]. intros t2 S2 C2.
  rewrite <- foldl_app, <- app_assoc in S2, C2.
  apply (HQ t2 h (with_blocks addrs m)); [exact S2|exact C2|by apply with_blocks_subseteq|exact Oh|].
  apply Lo. by replace (N - 5 + 5)%nat with N by lia.
Qed.

(** What the test prints on a volume: the start of [hello.txt], or that
    there is no such file. *)
Inductive test_prints (s : fs_state D KHeap.kheap) (ch : gmap nat (list Z)) : list Z -> Prop :=
| prints_contents i it l : stored_file s ch (text "hello") (text "txt") i it l -> test_prints s ch (test_text (chain_bytes s l))
| prints_nothing : missing s (text "hello") (text "txt") ->
    test_prints s ch (text "sys_open/sys_read test" ++ [10] ++ text "fopen returned 0" ++ [10]).

Lemma test_prints_agree s s' ch txt : fs_ok s' -> hdr s' = hdr s -> root s' = root s -> same_disk (dev s) (dev s') ->
  test_prints s ch txt -> test_prints s' ch txt.
Proof.
  intros Hs Eh Er Hd [i it l Sf|Hno].
  - rewrite <- (chain_bytes_agree s s' l) by done. eapply prints_contents. by apply (stored_agree s).
  - apply prints_nothing. unfold missing in *. by rewrite Er.
Qed.

Lemma hello_name : valid83 (text "hello") (text "txt") /\ SLASH ∉ dotted (text "hello") (text "txt").
Proof.
  split; [|by apply (bool_decide_unpack _); vm_compute].
  literals. split; (split; [cbn; lia|]); repeat (constructor; [unfold name_char; lia|]); constructor.
Qed.

Lemma read_test_spec k scr rest m N ch txt (Q : unit -> kernel -> Prop) :
  let s := driver (files k) in
  vol_ok s ch -> test_prints s ch txt -> has_room k m N -> (8 <= N)%nat ->
  filesystem (the_disk s) = true -> file_descriptors (files k) = replicate 512 None ->
  shows (Kernel.screen k) scr rest -> cursor_at (Kernel.screen k) scr ->
  (forall t fds h s' m' N', shows t (foldl step scr txt) rest -> cursor_at t (foldl step scr txt) -> owns h m' -> room h N' -> (N - 8 <= N')%nat ->
     quiet (set_heap s h) s' -> length fds = 512%nat -> (exists j, first_free fds j /\ (j < 511)%nat) ->
     Q tt (set_screen (set_files k (mk_vfs (filesystems (files k)) fds s')) t)) ->
  wp read_test Q k.
Proof.
  intros s V Hp Rm HN Hm Hfd S0 C0 HQ. destruct hello_name as [Nv Ns]. destruct Hp as [i it l Sf|Hno].
  - eapply (read_test_found _ _ _ _ _ ch (text "hello") (text "txt")); [reflexivity|exact Nv|exact Ns|exact Sf|exact Rm|exact HN|exact Hm|exact Hfd|exact S0|exact C0|].
    intros t d h s' m' scr' Tt Tc _ Oh Rh Qs. eapply HQ; [exact Tt|exact Tc|exact Oh|exact Rh|lia|exact Qs|done|].
    exists 1%nat. split; [split; [done|]|lia]. intros j Hj. assert (j = 0%nat) as -> by lia. by eexists.
  - eapply (read_test_absent _ _ _ _ _ (text "hello") (text "txt")); [reflexivity|exact Nv|exact Ns|apply V|apply V|exact Hno|exact Rm|exact HN|exact Hm| |exact S0|exact C0|].
    { rewrite Hfd. apply length_replicate. }
    intros t h m' scr' Tt Tc _ Oh Rh. eapply HQ; [exact Tt|exact Tc|exact Oh|exact Rh|lia| | |].
    + apply quiet_refl, fs_ok_heap, V.
    + rewrite Hfd. apply length_replicate.
    + exists 0%nat. rewrite Hfd. split; [split; [done|]|lia]. intros j Hj. lia.
Qed.

(** The shell is loaded, its task is current and its address space is
    installed. *)
Definition entered_task (s : sched) (a p dir : Z) : sched :=
  set_paging (set_current s a p) (mk_paging (tables (pages s)) (chunks (pages s)) dir dir).

Lemma run_shell_spec k ch m N base e i it l (Q : registers -> kernel -> Prop) :
  c_str "0:/shell.bin" = root_file base e [] -> loadable k ch m [] 0 base e i it l ->
  room (kernel_heap k) N -> (Z.to_nat (Heap.blocks_of (filesize it)) + 1041 <= N)%nat ->
  (forall k' p x t dir ts addrs, loaded k k' m [] 0 (render_path 0 [dotted base e]) (contents (driver (files k)) it l) p x t dir ts addrs ->
     (forall j b, contents (driver (files k)) it l !! j = Some b -> sees k' dir (0x400000 + Z.of_nat j) = Some b) ->
     (forall va, 0x3FB000 <= va < 0x3FF000 -> sees k' dir va = Some 0) ->
     Q initial_registers (set_tasks k' (entered_task (tasks k') (Process.task x) p dir))) ->
  wp run_shell Q k.
Proof.
  intros En La Hr HN HQ. unfold run_shell. rewrite En. apply wp_bind.
  eapply process_load_spec; [exact La|exact Hr|exact HN|]. intros k' p x t dir ts addrs Ld _. cbn [Z.eqb PEACHOS_ALL_OK negb].
  pose proof Ld as [_ _ _ _ [_ _ _ _ [O1 O2 _ _] Ow] [L _] [D1 D2] _ _ _ _ (_ & _ & _ & _ & Ec) _ _]. cbn [length Nat.eqb app] in *.
  destruct (owns_page _ _ (Process.task x) 1 Ow) as (Ha & _); [apply with_blocks_in; by left|].
  apply wp_on_tasks. unfold task_run_first_ever_task. apply wp_bind, wp_gets_sched. cbn [fst snd]. rewrite Ec.
  destruct (Z.eqb_spec (Process.task x) 0); [lia|]. pose proof (tl_head _ _ L) as Eh. cbn in Eh.
  apply wp_bind, wp_gets_sched. cbn [fst snd]. rewrite Eh. unfold task_switch.
  apply wp_bind, wp_bind. eapply wp_get_task; [exact O1|]. apply wp_bind, wp_modify_sched, wp_bind.
  eapply wp_switch_chunk; [exact O2|]. apply wp_ret, wp_bind, wp_gets_sched. cbn [fst snd].
  change (task_head _) with (task_head (tasks k')). rewrite Eh. apply wp_bind. eapply wp_get_task; [exact O1|]. apply wp_ret. cbn [fst snd].
  destruct (loaded_sees _ _ _ _ _ _ _ _ _ _ _ _ _ Ld) as [V1 V2].
  { destruct Ld as [(_ & _ & -> & _) _ _ _ _ _ _ _ _ _ _ _ _ _]. pose proof (sf_size _ _ _ _ _ _ _ (la_file _ _ _ _ _ _ _ _ _ _ La)).
    rewrite (length_contents _ _ _ _ _ _ _ (la_file _ _ _ _ _ _ _ _ _ _ La)). lia. }
  rewrite D1, D2. specialize (HQ k' p x t dir ts addrs Ld V1 V2). revert HQ. by destruct k' as [[? ? []]].
Qed.

(** The keyboard driver is registered and the controller is told. *)
Lemma keyboard_init_spec k nx (Q : unit -> kernel -> Prop) :
  kbd_store k !! classic_keyboard = Some (mk_keyboard true nx) -> kbd_list_last k = 0 ->
  Q tt (set_tasks (set_keyboards k (kbd_store k) classic_keyboard classic_keyboard) (log_port (tasks k) 0x64 0xAE)) ->
  wp keyboard_init Q k.
Proof.
  intros Hs Hl HQ. unfold keyboard_init, keyboard_insert. apply wp_bind, wp_bind, wp_gets. change classic_init with classic_keyboard. rewrite Hs.
  cbn [kbd_init negb]. apply wp_bind, wp_gets. rewrite Hl. cbn [Z.eqb negb]. apply wp_bind, wp_modify. unfold classic_keyboard_init.
  apply wp_bind, wp_on_tasks, wp_modify_sched, wp_ret, wp_ret. cbn [fst snd]. revert HQ. by destruct k as [[? ? []]].
Qed.
End stages.

(** ** The whole way *)
Section start.
Context {D : Type} {B : BlockDevice D} {BS : BlockDeviceSpec D}.
Context (idt_address no_interrupt idt_zero int20h int21h isr80h_wrapper tss_address : Z).
Abbreviation kernel := (Kernel.kernel fat_file_descriptor D KHeap.kheap).
Implicit Types M : machine (D := D).

Lemma wp_on_kern {T} (m : Prelude.M kernel T) (Q : T -> machine -> Prop) M :
  wp m (fun a k => Q a (set_kern M k)) (kern M) -> wp (on_kern m) Q M.
Proof. intros Hw. unfold on_kern. apply wp_focus. exact Hw. Qed.

Lemma start_segments_spec M (Q : unit -> machine -> Prop) : 0 <= tss_address < 2 ^ 32 ->
  (forall g, decode_gdt <$> g = kernel_gdt tss_address Tss.sizeof -> Q tt (set_gdtr (set_gdt M g) (Some g))) ->
  wp (start_segments tss_address) Q M.
Proof.
  intros Ht HQ. unfold start_segments, gdt_load. apply wp_bind, wp_modify, wp_bind, wp_gets.
  destruct (kernel_gdt_spec tss_address Tss.sizeof Ht ltac:(unfold Tss.sizeof; lia)) as (g & Eg & Dg).
  apply wp_bind. eapply wp_lift; [exact Eg|]. apply wp_bind, wp_modify, wp_modify. by apply HQ.
Qed.

Lemma start_heap_spec (k : kernel) (Q : unit -> kernel -> Prop) :
  length (Heap.entries (Heap.table (KHeap.kernel_heap (kernel_heap k)))) = Z.to_nat 25600 ->
  (forall h, owns h ∅ -> room h (Z.to_nat 25600) -> Q tt (set_kernel_heap k h)) -> wp start_heap Q k.
Proof.
  intros Hl HQ. unfold start_heap. apply wp_bind, wp_gets.
  destruct (KHeap.kheap_init_spec _ (KHeap.memory (kernel_heap k)) Hl) as (h & Eh & Ho & Hr & _).
  apply wp_bind. eapply wp_lift; [exact Eh|]. cbn beta iota. apply wp_bind, wp_modify, wp_ret. by apply HQ.
Qed.

(** The kernel's own address space is built and installed. *)
Lemma start_paging_spec M m N (Q : unit -> machine -> Prop) : has_room (kern M) m N -> (1026 <= N)%nat ->
  (forall c kdir kts h pg, space (tables pg) kdir kts (identity 7) -> cr3 pg = kdir -> m ⊆ with_blocks (c :: kdir :: kts) m ->
     owns h (with_blocks (c :: kdir :: kts) m) -> room h (N - 1026) ->
     Q tt (set_pg (set_kern M (with_tasks (kern M) h (set_paging (set_kernel_chunk (tasks (kern M)) c) pg))) true)) ->
  wp start_paging Q M.
Proof.
  intros [Ho Hr] HN HQ. unfold start_paging, enable_paging. change (Z.lor (Z.lor _ _) _) with 7.
  apply wp_bind, wp_on_kern, wp_on_tasks, wp_on_paging.
  eapply (paging_new_4gb_spec (kernel_heap (kern M), pages (tasks (kern M))) m N); [exact Ho|exact Hr|lia|lia|done|].
  intros c kdir kts [h p1] (S1 & S2 & S3 & S4 & S5 & _). cbn [fst snd] in *.
  apply wp_bind, wp_on_kern, wp_on_tasks, wp_modify_sched. cbn [fst snd].
  apply wp_bind, wp_on_kern, wp_on_tasks. eapply wp_switch_chunk; [cbn; rewrite S2; apply lookup_insert_eq|]. cbn [fst snd].
  apply wp_modify. set (pg := mk_paging _ _ _ _).
  assert (Hx : kern M = kern M) by done. destruct M as [[[? ? []]] ? ? ? ? ? ?].
  apply (HQ c kdir kts h pg); [exact S1|done|by apply with_blocks_subseteq|exact S4|exact S5].
Qed.

(** The volume that mounting the disk gives. *)
Definition volume (d : D) (h : KHeap.kheap) (z : nat) : fs_state D KHeap.kheap :=
  let st := Some (Streamer.mk_stream 0 0 DISK) in
  mk_fs d h (mk_disk PEACHOS_DISK_TYPE_REAL PEACHOS_SECTOR_SIZE 0 true
    (Some (mk_private (boot d) (mounted_root d (primary_header (boot d)) z) st st st st st))).

(** What the kernel starts from: the screen and the heap table lie in memory,
    the disk is a FAT16 volume of the files [ch], the variables of the kernel are as the compiler initialised them. *)
Record startable M (z : nat) (ch : gmap nat (list Z)) : Prop := {
  sb_video : (1600 <= length (video_mem (Kernel.screen (kern M))))%nat;
  sb_table : length (Heap.entries (Heap.table (KHeap.kernel_heap (kernel_heap (kern M))))) = Z.to_nat 25600;
  sb_signature : signature (extended_header (boot (dev (driver (files (kern M)))))) = 0x29;
  sb_mount : mountable (dev (driver (files (kern M)))) (primary_header (boot (dev (driver (files (kern M)))))) z;
  sb_volume : vol_ok (volume (dev (driver (files (kern M)))) (kernel_heap (kern M)) z) ch;
  sb_tasks : task_head (tasks (kern M)) = 0 /\ task_tail (tasks (kern M)) = 0;
  sb_processes : processes (kern M) = replicate 12 0;
  sb_keyboard : kbd_store (kern M) !! classic_keyboard = Some (mk_keyboard true 0) /\ kbd_list_last (kern M) = 0;
  sb_commands : isr80h_commands (kern M) = replicate 1024 None }.

Lemma shell_name : valid83 (text "shell") (text "bin") /\ SLASH ∉ dotted (text "shell") (text "bin").
Proof.
  split; [|by apply (bool_decide_unpack _); vm_compute].
  literals. split; (split; [cbn; lia|]); repeat (constructor; [unfold name_char; lia|]); constructor.
Qed.

(** The processor as [kernel_main] leaves it: segments, stack of the kernel,
    interrupts and paging. *)
Record processor_ready M : Prop := {
  pr_segments : exists g, gdtr M = Some g /\ decode_gdt <$> g = kernel_gdt tss_address Tss.sizeof;
  pr_stack : task_register M = 0x28 /\ Tss.words (tss M) !! 1%nat = Some 0x600000 /\ Tss.words (tss M) !! 2%nat = Some KERNEL_DATA_SELECTOR;
  pr_interrupts : forall v, 0 <= v < 512 -> exists d, idt_descriptors (idt_part M) !! Z.to_nat v = Some d /\
    gate d = Some (KERNEL_CODE_SELECTOR, handler_of no_interrupt idt_zero int20h int21h isr80h_wrapper v);
  pr_paging : paging_enabled M = true }.

(** What the test finds: the volume is mounted, the kernel runs in its own
    address space, no task exists and the screen is blank. *)
Record started M (z : nat) (s : fs_state D KHeap.kheap) (m : gmap Z Z) M1 : Prop := {
  sd_processor : processor_ready M1;
  sd_files : files (kern M1) = mk_vfs (Some FAT16_FS :: replicate 11 None) (replicate 512 None) s;
  sd_mounted : filesystem (the_disk s) = true;
  sd_volume : let vol := volume (dev (driver (files (kern M)))) (kernel_heap (kern M)) z in
    fs_ok s /\ hdr s = hdr vol /\ root s = root vol /\ same_disk (dev vol) (dev s);
  sd_room : has_room (kern M1) m (Z.to_nat 24566);
  sd_screen : shows (Kernel.screen (kern M1)) empty_screen (drop 1600 (video_mem (Kernel.screen (kern M)))) /\
    cursor_at (Kernel.screen (kern M1)) empty_screen;
  sd_tasks : kernel_mapped (tasks (kern M1)) /\ task_list (tasks (kern M1)) [] /\ back_links (tasks (kern M1)) [];
  sd_rest : processes (kern M1) = processes (kern M) /\ isr80h_commands (kern M1) = registered 12 /\ kbd_list_head (kern M1) = classic_keyboard }.

Lemma start_machine_spec M z ch (Q : unit -> machine -> Prop) :
  startable M z ch -> Forall (fun a => 0 <= a < 2 ^ 32) [no_interrupt; idt_zero; int20h; int21h; isr80h_wrapper; tss_address] ->
  (forall s m M1, started M z s m M1 -> Q tt M1) ->
  wp (start_machine idt_address no_interrupt idt_zero int20h int21h isr80h_wrapper tss_address) Q M.
Proof.
  intros [B1 B2 B3 B4 B5 [B8 B8'] B9 [B10 B10'] B11] Ha HQ.
  do 6 (apply Forall_cons in Ha as [? Ha]). clear Ha.
  unfold start_machine. apply wp_bind, wp_on_kern, wp_on_screen, initialize_spec; [done|]. intros scr S0 C0.
  apply wp_bind, start_segments_spec; [done|]. intros g Dg.
  apply wp_bind, wp_on_kern, start_heap_spec; [done|]. intros h Oh Rh.
  apply wp_bind, wp_on_kern, wp_on_files. eapply wp_mono; [apply fs_init_spec|]. intros _ v ->.
  apply wp_bind, wp_on_kern, wp_on_files.
  eapply wp_mono; [apply (disk_init_spec _ ∅ z); [done|exact (ok_dev _ (vo_fs _ _ B5))|exact Oh| |exact B3|exact B4]|].
  { eapply room_free_all; [exact Oh|exact Rh|lia|lia|lia]. }
  intros _ v (s & -> & Hfs & Hok & Hh & Hr & Hsd & _ & (m1 & _ & O1 & _) & L1).
  assert (R1 : room (heap s) (Z.to_nat 25592)) by (apply L1; by replace (Z.to_nat 25592 + 8)%nat with (Z.to_nat 25600) by lia).
  apply wp_bind, wp_focus. eapply wp_mono; [by apply (idt_init_spec _ _ _ _ _ _ _ (mk_pic 0 0 0 0, mk_pic 0 0 0 0))|].
  intros _ i (Hi & _). unfold start_tss, tss_load. apply wp_bind, wp_bind, wp_modify, wp_bind, wp_modify, wp_modify.
  apply wp_bind. eapply (start_paging_spec _ m1 (Z.to_nat 25592)); [split; [exact O1|exact R1]|lia|].
  intros c kdir kts h2 pg S2 P2 _ O2 R2.
  apply wp_bind, wp_on_kern. apply register_all; [exact B11|].
  apply wp_on_kern. eapply keyboard_init_spec; [exact B10|exact B10'|].
  apply (HQ (set_heap s h2) (with_blocks (c :: kdir :: kts) m1)). split.
  - split; [exists g; split; [done|exact Dg]|done| |done]. intros v Hv. destruct (Hi v Hv) as (de & G1 & G2 & _). by exists de.
  - done.
  - exact Hfs.
  - split; [by apply fs_ok_heap|]. do 2 (split; [done|]). exact Hsd.
  - split; [exact O2|]. by replace (Z.to_nat 24566) with (Z.to_nat 25592 - 1026)%nat by lia.
  - by split.
  - split; [exists kts; rewrite <- P2 in S2; exact S2|]. split; [|by intros j b Hb].
    split; try done; [apply NoDup_nil_2|apply not_elem_of_nil].
  - done.
Qed.

(** Up to the loading of the shell. *)
Record tested M (vol : fs_state D KHeap.kheap) (txt : list Z) (s : fs_state D KHeap.kheap) (m : gmap Z Z) (N : nat) M1 : Prop := {
  te_processor : processor_ready M1;
  te_volume : driver (files (kern M1)) = s /\ filesystem (the_disk s) = true /\
    fs_ok s /\ hdr s = hdr vol /\ root s = root vol /\ same_disk (dev vol) (dev s);
  te_table : length (file_descriptors (files (kern M1))) = 512%nat /\ exists j, first_free (file_descriptors (files (kern M1))) j /\ (j < 511)%nat;
  te_room : has_room (kern M1) m N /\ (Z.to_nat 24558 <= N)%nat;
  te_screen : shows (Kernel.screen (kern M1)) (foldl step empty_screen txt) (drop 1600 (video_mem (Kernel.screen (kern M)))) /\
    cursor_at (Kernel.screen (kern M1)) (foldl step empty_screen txt);
  te_tasks : kernel_mapped (tasks (kern M1)) /\ task_list (tasks (kern M1)) [] /\ back_links (tasks (kern M1)) [];
  te_rest : processes (kern M1) = replicate 12 0 /\ isr80h_commands (kern M1) = registered 12 /\ kbd_list_head (kern M1) = classic_keyboard }.

Lemma tested_spec M z ch txt :
  let vol := volume (dev (driver (files (kern M)))) (kernel_heap (kern M)) z in
  startable M z ch -> Forall (fun a => 0 <= a < 2 ^ 32) [no_interrupt; idt_zero; int20h; int21h; isr80h_wrapper; tss_address] ->
  test_prints vol ch txt ->
  wp (start_machine idt_address no_interrupt idt_zero int20h int21h isr80h_wrapper tss_address)
    (fun _ M0 => wp (on_kern read_test) (fun _ M1 => exists s m N, tested M vol txt s m N M1) M0) M.
Proof.
  intros vol St Ha Hp. eapply start_machine_spec; [exact St|exact Ha|].
  destruct St as [B1 B2 B3 B4 B5 [B8 B8'] B9 [B10 B10'] B11].
  intros s m2 M1 [G F1 Hfs (Hok & Hh & Hr & Hsd) Rm [S0 C0] T (R1 & R2 & R3)]. assert (Ed : driver (files (kern M1)) = s) by (by rewrite F1).
  apply wp_on_kern. eapply (read_test_spec _ empty_screen _ m2 (Z.to_nat 24566) ch txt);
    [rewrite Ed; by apply (vol_agree vol)|rewrite Ed; by apply (test_prints_agree vol)|exact Rm|lia|by rewrite Ed|by rewrite F1|exact S0|exact C0|].
  rewrite Ed. intros t fds h3 s3 m3 N3 Tt Tc O3 R4 HN3 [Q1 Q2 Q3] Hl Hj. exists s3, m3, N3.
  assert (Hh3 : heap s3 = h3) by exact (view_heap _ _ Q2). split.
  - by destruct G.
  - split; [done|]. split; [rewrite <- Hfs; by injection Q2|]. split; [done|].
    split; [etransitivity; [by apply view_hdr|exact Hh]|]. split; [etransitivity; [by apply view_root|exact Hr]|]. etransitivity; [exact Hsd|exact Q3].
  - split; [exact Hl|exact Hj].
  - split; [|lia]. subst h3. by split.
  - by split.
  - exact T.
  - split; [exact (eq_trans R1 B9)|]. by split.
Qed.

(** C1: from the disk to the shell.  On a machine whose disk is a FAT16
    volume with [shell.bin] in the root directory, [kernel_main] reaches the
    shell: segments, interrupts, the stack of the kernel and paging are set
    up, the screen shows what the test of [hello.txt] prints, all twelve
    system calls are registered and every file is as it was.  The shell is
    process 0; it starts at 0x400000, where its address space, which is
    installed, shows the bytes of the file, with an empty stack of zeros. *)
Theorem kernel_main_correct M z ch txt ib itb lb :
  let vol := volume (dev (driver (files (kern M)))) (kernel_heap (kern M)) z in
  startable M z ch -> Forall (fun a => 0 <= a < 2 ^ 32) [no_interrupt; idt_zero; int20h; int21h; isr80h_wrapper; tss_address] ->
  test_prints vol ch txt -> stored_file vol ch (text "shell") (text "bin") ib itb lb -> filesize itb <= 20000 * 4096 ->
  wp (kernel_main idt_address no_interrupt idt_zero int20h int21h isr80h_wrapper tss_address) (fun r M' => let k := kern M' in
    r = initial_registers /\ processor_ready M' /\
    shows (Kernel.screen k) (foldl step empty_screen txt) (drop 1600 (video_mem (Kernel.screen (kern M)))) /\
    isr80h_commands k = registered 12 /\ kbd_list_head k = classic_keyboard /\ vol_ok (driver (files k)) ch /\
    (exists p x t, processes k = p :: replicate 11 0 /\ proc_store k !! p = Some x /\ current_process (tasks k) = p /\
       current_task (tasks k) = Process.task x /\ task_store (tasks k) !! Process.task x = Some t /\ task_registers t = initial_registers) /\
    (forall j b, contents vol itb lb !! j = Some b -> sees k (cr3 (pages (tasks k))) (Registers.ip r + Z.of_nat j) = Some b) /\
    (forall va, 0x3FB000 <= va < Registers.esp r -> sees k (cr3 (pages (tasks k))) va = Some 0)) M.
Proof.
  intros vol St Ha Hp Sf Hsz. unfold kernel_main. apply wp_bind. eapply wp_mono; [by eapply tested_spec|]. intros u M0 W. eapply wp_step; [exact W|].
  intros _ M1 (s & m & N & [[G1 G2 G3 G4] (Ed & Hfs & Hok & Hh & Hr & Hsd) (Hl & Hj) ([Oh Rh] & HN) [S1 _] (T1 & T2 & T3) (R1 & R2 & R3)]).
  destruct shell_name as [Nv Ns]. pose proof (stored_agree vol s _ _ _ _ _ _ Hok Hh Hr Hsd Sf) as Sb.
  apply wp_on_kern. eapply (run_shell_spec (kern M1) ch m N (text "shell") (text "bin") ib itb lb); [reflexivity| |exact Rh| |].
  { split; rewrite ?Ed, ?R1; try done; [split; [done|]; split; [done|]; intros j Hj'; lia|by intros b Hb%not_elem_of_nil]. }
  { assert (Heap.blocks_of (filesize itb) <= 20000) by (unfold Heap.blocks_of; zdm). lia. }
  intros k' p x tk dir ts addrs Ld V1 V2. rewrite Ed in V1.
  destruct Ld as [_ E1 E2 _ [E3 _ _ _ [E4 _ _ _] _] _ [E5 _] _ _ _ _ (_ & _ & _ & _ & E6) (s4 & h4 & E7 & E8) E9].
  split; [done|]. split; [by split|]. split.
  { change (shows (Kernel.screen k') (foldl step empty_screen txt) (drop 1600 (video_mem (Kernel.screen (kern M))))). by rewrite E9. }
  split; [change (isr80h_commands k' = registered 12); by rewrite E9|].
  split; [change (kbd_list_head k' = classic_keyboard); by rewrite E9|]. split.
  { change (vol_ok (driver (files k')) ch). rewrite E7. rewrite Ed in E8. apply (vol_quiet _ _ _ E8), vol_heap. exact (sf_vol _ _ _ _ _ _ _ Sb). }
  split; [|split; [|exact V2]].
  - exists p, x, tk. split; [change (processes k' = p :: replicate 11 0); by rewrite E2, R1|].
    split; [exact E3|]. split; [done|]. split; [done|]. split; [exact E4|exact E5].
  - intros j b Hb. apply V1. unfold contents in *. by rewrite (chain_bytes_agree vol).
Qed.

(** C22: without a shell.  On the same machine, when the root directory has
    no [shell.bin], [kernel_main] never returns: it halts in [panic]. *)
Theorem kernel_main_no_shell M z ch txt :
  let vol := volume (dev (driver (files (kern M)))) (kernel_heap (kern M)) z in
  startable M z ch -> Forall (fun a => 0 <= a < 2 ^ 32) [no_interrupt; idt_zero; int20h; int21h; isr80h_wrapper; tss_address] ->
  test_prints vol ch txt -> missing vol (text "shell") (text "bin") ->
  kernel_main idt_address no_interrupt idt_zero int20h int21h isr80h_wrapper tss_address M = Hang.
Proof.
  intros vol St Ha Hp Hno. unfold kernel_main. eapply wp_bind_hang; [by eapply tested_spec|]. intros u M0 W. eapply wp_bind_hang; [exact W|].
  intros _ M1 (s & m & N & [G (Ed & Hfs & Hok & Hh & Hr & Hsd) (Hl & Hj) ([Oh Rh] & HN) [S1 C1] _ (R1 & R2 & R3)]).
  destruct shell_name as [Nv Ns]. destruct St as [_ _ _ _ V _ _ _ _].
  assert (Vs : vol_ok s ch) by (by apply (vol_agree vol)).
  assert (W2 : wp (process_load (c_str "0:/shell.bin")) (fun r k' => fst r <> 0 /\ Kernel.screen k' = Kernel.screen (kern M1)) (kern M1)).
  { change (c_str "0:/shell.bin") with (root_file (text "shell") (text "bin") []).
    eapply (process_load_missing_spec (kern M1) m N 0); rewrite ?Ed; try done; try apply Vs.
    - unfold missing in *. rewrite Hr. exact Hno.
    - by rewrite R1.
    - rewrite R1. split; [done|]. intros j Hj'. lia.
    - lia. }
  assert (E : run_shell (kern M1) = Hang); [|by unfold on_kern, focus; rewrite E].
  unfold run_shell. eapply wp_bind_hang; [exact W2|]. intros [r pr] k' [Hne Hs]. cbn [fst] in Hne. apply Z.eqb_neq in Hne. change PEACHOS_ALL_OK with 0. rewrite Hne. cbn [negb].
  unfold panic. eapply wp_bind_hang; [|done].
  eapply (say_spec k' _ (text "Failed to load shell.bin" ++ [10]) _ _ (fun _ _ => True)); rewrite ?Hs; [exact S1|exact C1|reflexivity|by apply (bool_decide_unpack _); vm_compute|done].
Qed.
End start.

(** ** A machine with a disk *)
Module ExampleStart.
Import ExampleBoot ExamplePaging.

Definition hello_item : fat_directory_item := set_filesize (set_cluster (new_item (pad 8 [72; 69; 76; 76; 79]) (pad 3 [84; 88; 84])) 0 2) 12.
(** [SHELL.BIN], or a program of another name. *)
Definition program_item (shell : bool) : fat_directory_item :=
  set_filesize (set_cluster (new_item (pad 8 (if shell then [83; 72; 69; 76; 76] else [79; 84; 72; 69; 82])) (pad 3 [66; 73; 78])) 0 3) 4.
Definition fat : list Z := ([0xFFF8; 0xFFFF; 0xFFFF; 0xFFFF] ≫= le16) ++ replicate 504 0.
Definition program : list Z := [0xEB; 0xFE; 0x90; 0x90].
Definition system_disk (shell : bool) : Ram.ram :=
  {[0 := boot_bytes 0x29 ++ replicate 450 0; 1 := fat; 2 := fat;
    3 := encode_item hello_item ++ encode_item (program_item shell) ++ replicate 448 0;
    4 := text "Testo world!" ++ replicate 500 0; 5 := program ++ replicate 508 0]}.
Definition garbage : KHeap.kheap := KHeap.mk_kheap (Heap.mk_heap (Heap.mk_table (replicate (Z.to_nat 25600) 1) 0) 0) ∅.
Definition power_on (shell : bool) : machine :=
  mk_machine (mk_kernel (mk_vfs [] [] (mk_fs (system_disk shell) garbage (mk_disk 0 0 0 false None)))
      (mk_sched no_paging ∅ ∅ 0 0 0 0 0 KERNEL_DATA_SELECTOR []) (Terminal.mk_term (replicate 2000 7) 0 0 0 ∅) ∅ (replicate 12 0)
      {[classic_keyboard := mk_keyboard true 0]} 0 0 (replicate 1024 None) [])
    [] None (mk_idt [] (mk_idtr 0 0) None []) Tss.zero 0 false.
Definition files_of : gmap nat (list Z) := {[0%nat := [2]; 1%nat := [3]]}.
Definition mounted_volume (shell : bool) : fs_state Ram.ram KHeap.kheap := volume (system_disk shell) garbage 2.

Lemma mounted_items b : item (root (mounted_volume b)) = hello_item :: program_item b :: replicate 14 zero_item.
Proof. destruct b; vm_compute; reflexivity. Qed.
Lemma mounted_header b : primary_header (boot (system_disk b)) = mk_header [0xEB; 0x3C; 0x90] (replicate 8 0x20) 512 1 1 2 16 12 0xF8 1 32 64 0 0.
Proof. destruct b; vm_compute; reflexivity. Qed.

Lemma mounted_mountable b : mountable (system_disk b) (primary_header (boot (system_disk b))) 2.
Proof.
  rewrite mounted_header. destruct b; (split; [vm_compute; intuition discriminate|vm_compute; intuition discriminate|vm_compute; reflexivity|vm_compute; reflexivity|];
    intros k Hk; assert (k = 0%nat \/ k = 1%nat) as [-> | ->] by lia; vm_compute; discriminate).
Qed.
Lemma mounted_ok b : fs_ok (mounted_volume b).
Proof.
  split; [destruct b; apply (bool_decide_unpack _); vm_compute; exact I|done|]. eexists. split; [reflexivity|].
  split; [|intros []; by eexists]. cbn [header]. rewrite mounted_header. split; cbn; lia.
Qed.
Lemma mounted_geometry b : geometry (mounted_volume b).
Proof. destruct b; split; vm_compute; intuition discriminate. Qed.
Lemma mounted_chain b c : c = 2 \/ c = 3 -> file_chain (mounted_volume b) c [c].
Proof.
  intros Hc. split.
  - apply chain_last; [lia|]. right. destruct Hc as [-> | ->]; destruct b; vm_compute; discriminate.
  - intros x ->%list_elem_of_singleton. destruct Hc as [-> | ->]; destruct b; vm_compute; intuition discriminate.
  - intros x ->%list_elem_of_singleton. destruct Hc as [-> | ->]; destruct b; vm_compute; discriminate.
Qed.
Lemma mounted_files i l : files_of !! i = Some l -> (i = 0%nat /\ l = [2]) \/ (i = 1%nat /\ l = [3]).
Proof.
  unfold files_of. intros [[<- <-]|[_ Hl]]%lookup_insert_Some; [by left|]. apply lookup_singleton_Some in Hl as [<- <-]. by right.
Qed.

Lemma mounted_vol b : vol_ok (mounted_volume b) files_of.
Proof.
  split; [apply mounted_ok|apply mounted_geometry| | | | |].
  - apply (mounted_dir_ok _ 2); [apply mounted_ok|apply mounted_mountable|reflexivity|destruct b; vm_compute; reflexivity].
  - intros i it Hi. rewrite mounted_items in Hi. destruct i as [|[|i]]; [injection Hi as <-; split; [intros _; by destruct b; vm_compute|eauto]..|].
    apply lookup_replicate in Hi as [-> _]. split; [|intros [Hz _]; by destruct Hz].
    intros [l [[? _]|[? _]]%mounted_files]; lia.
  - rewrite mounted_items. intros i l [[-> _]|[-> _]]%mounted_files; simpl; lia.
  - intros i it l Hi Hl. rewrite mounted_items in Hi. right.
    apply mounted_files in Hl as [[-> ->]|[-> ->]]; injection Hi as <-; [apply mounted_chain|destruct b; apply mounted_chain]; auto.
  - intros i j l l' Hne [[-> ->]|[-> ->]]%mounted_files [[-> ->]|[-> ->]]%mounted_files; try done; intros x; rewrite !list_elem_of_singleton; lia.
Qed.

Definition listed (b : bool) : list (nat * fat_directory_item * Z * list Z * list Z) :=
  (0%nat, hello_item, 2, text "hello", text "txt") :: if b then [(1%nat, program_item true, 3, text "shell", text "bin")] else [].
Lemma mounted_file b i it c base e : (i, it, c, base, e) ∈ listed b ->
  stored_file (mounted_volume b) files_of base e i it [c].
Proof.
  assert (Hc : forall i it c base e, item (root (mounted_volume b)) !! i = Some it -> name_matches (dotted base e) it ->
    (forall k x, k <> i -> Z.of_nat k < 2 -> item (root (mounted_volume b)) !! k = Some x -> ~ name_matches (dotted base e) x) ->
    Z.of_nat i < 2 -> Z.land (attribute it) FAT_FILE_SUBDIRECTORY = 0 -> files_of !! i = Some [c] -> 0 < filesize it < 2 ^ 31 -> filesize it <= 512 ->
    stored_file (mounted_volume b) files_of base e i it [c]).
  { intros i' it' c' base' e' H1 H2 H3 H4 H5 H6 H7 H8. assert (Et : total (root (mounted_volume b)) = 2) by (by destruct b).
    split; [apply mounted_vol|split; rewrite ?Et; auto|done|intros x Hx; by apply not_elem_of_nil in Hx|done|].
    etransitivity; [exact H8|]. destruct b; vm_compute; discriminate. }
  intros [[= -> -> -> -> ->]|Hin]%elem_of_cons; [|destruct b; [apply list_elem_of_singleton in Hin as [= -> -> -> -> ->]|by apply not_elem_of_nil in Hin]].
  all: apply Hc; try (rewrite mounted_items; reflexivity); try (vm_compute; reflexivity); try (cbn; lia).
  all: intros k x Hne Hk Hx; rewrite mounted_items in Hx;
    destruct k as [|[|k]]; try lia; injection Hx as <-; try destruct b; vm_compute; discriminate.
Qed.

Lemma power_on_startable b : startable (power_on b) 2 files_of.
Proof.
  split.
  - cbn [Kernel.screen kern power_on video_mem]. rewrite length_replicate. lia.
  - apply length_replicate.
  - destruct b; vm_compute; reflexivity.
  - apply mounted_mountable.
  - apply mounted_vol.
  - done.
  - done.
  - done.
  - done.
Qed.


Lemma hello_prints b : test_prints (mounted_volume b) files_of (test_text (chain_bytes (mounted_volume b) [2])).
Proof.
  apply (prints_contents _ _ 0 hello_item [2]). apply mounted_file. by left.
Qed.
Lemma shell_missing : missing (mounted_volume false) (text "shell") (text "bin").
Proof.
  intros k x Hk Hx. change (total (root (mounted_volume false))) with 2 in Hk. rewrite mounted_items in Hx.
  destruct k as [|[|k]]; try lia; injection Hx as <-; vm_compute; discriminate.
Qed.
End ExampleStart.
Import ExampleStart.

Lemma kernel_main_correct_witness :
  wp (kernel_main 0x20000 0x100100 0x100200 0x100300 0x100400 0x100500 0x101000) (fun r M' => let k := kern M' in
    Registers.ip r = 0x400000 /\ sees k (cr3 (pages (tasks k))) 0x400000 = Some 0xEB /\ sees k (cr3 (pages (tasks k))) 0x400001 = Some 0xFE /\
    exists scr, shows (Kernel.screen k) scr (drop 1600 (replicate 2000 7)) /\
      scr = foldl step empty_screen (text "sys_open/sys_read test" ++ [10] ++ text "fopen returned valid fd" ++ [10] ++
        text "fread got data: Testo world!" ++ [10] ++ text "content matched" ++ [10; 10])) (power_on true).
Proof.
  eapply wp_mono; [apply (kernel_main_correct _ _ _ _ _ _ _ (power_on true) 2 files_of (test_text (chain_bytes (mounted_volume true) [2])) 1 (program_item true) [3]); [apply power_on_startable|..]|].
  - repeat (constructor; [lia|]). constructor.
  - apply hello_prints.
  - apply mounted_file. right. by left.
  - cbn. lia.
  - intros r M' (-> & _ & S & _ & _ & _ & _ & V & _). split; [reflexivity|].
    split; [apply (V 0%nat); vm_compute; reflexivity|]. split; [apply (V 1%nat); vm_compute; reflexivity|].
    eexists. split; [exact S|]. vm_compute. reflexivity.
Defined.

Lemma kernel_main_no_shell_witness :
  kernel_main 0x20000 0x100100 0x100200 0x100300 0x100400 0x100500 0x101000 (power_on false) = Hang.
Proof.
  apply (kernel_main_no_shell _ _ _ _ _ _ _ (power_on false) 2 files_of (test_text (chain_bytes (mounted_volume false) [2]))).
  - apply power_on_startable.
  - repeat (constructor; [lia|]). constructor.
  - apply hello_prints.
  - apply shell_missing.
Defined.
